(* ===== verification/_CoqProject ===== *)
-Q . S2P
Prelude.v
Utf8.v
Text.v
Mediums.v
Proto.v
Wire.v
Protobuf.v
Codec.v
Frames.v
Validator.v
ValidatorSpec.v
FromBytes.v
RoundTrip.v
ServiceId.v
Client.v
Channel.v
ChannelManager.v
Handler.v
Testing.v
UnitTests.v
FrameTests.v
Manager.v
Scenario.v
IntegrationTests.v
ManagerSteps.v
Actor.v
Invariant.v
Retry.v
Upgrade.v
Handshake.v
Cleanup.v
StreamChannel.v
StreamErrors.v
Interleaving.v
WholeCalls.v
Linearize.v
StreamSteps.v
Ipv4.v
Tcp.v
WifiLan.v
WifiHotspot.v
TcpSteps.v
Loopback.v
TransportTests.v
Transport.v
LanUpgrade.v
Network.v
LanInitiator.v
Sessions.v
TypedChannels.v
Observed.v
Owner.v
System.v
ActorTests.v
Stack.v
Composition.v
Stuck.v
