(* ===== verification/Prelude.v ===== *)
(** * nearby-rs: a verification library

    nearby-rs is a Rust port of the part of Google's Nearby Connections that Quick
    Share runs on: the offline wire format with its validator, and the machine
    that moves a connection to a better medium while it is in use (the bandwidth
    upgrade).  This library models the crate as it is written and proves what
    makes each part, and the parts together, correct.

    ** How the program fits together

    A peer's bytes are parsed and validated by [from_bytes]; the frames of the
    upgrade go to the manager.  The manager keeps, per endpoint, which upgrade is
    under way and which channel waits to be closed; it asks a handler of the
    medium to listen or to dial, swaps the endpoint's channel in the registry
    that the application shares with it, and tells the client when the bandwidth
    changed.  A single owner (the actor) applies the commands that handles send
    it and fires the timers of retries.  Two handlers are over TCP: each listener
    has a thread that accepts connections and passes them to the owner.

    ** Files and sources

    The names of the sources are under [src/src/].

    - [Prelude], [Utf8], [Text], [Ipv4]: outcomes with their weakest preconditions
      and the tactics on them; the parts of Rust's standard library that the crate
      uses on text and addresses.
    - [Mediums] ([mediums.rs]), [Proto] ([proto.rs] and the [.proto] file: one
      record per message), [Codec] (prost as an interface), [Frames] ([frames.rs]: builders and conversions),
      [Validator] ([validator.rs]), [FromBytes] ([from_bytes]).
    - [ServiceId], [Client], [Channel], [ChannelManager], [Handler], [Testing]:
      the files of [bwu/] with these names.  [Channel] and [Handler] hold the
      traits as classes, with the laws that clients use and the faults that calls
      may end in.
    - [Manager] ([bwu/manager.rs]), [Actor] ([bwu/actor.rs], the owner's loop),
      [System] ([bwu/actor.rs], the handles, the channel of commands and the
      replies).
    - [StreamChannel] ([bwu/stream_channel.rs], a call at a time), [Interleaving]
      (the same file, with threads inside its calls, a lock, a transfer or a flag
      at a time), [Tcp] ([bwu/tcp.rs]), [WifiLan] ([bwu/wifi_lan.rs]),
      [WifiHotspot] ([bwu/wifi_hotspot.rs]).
    - [UnitTests]: the tests that the crate's files hold, run on the model.
      [FrameTests], [IntegrationTests], [TransportTests], [ActorTests]: those of
      [tests/], but for [wifi_lan_actor.rs], run on the model.
    - [Scenario] and [Loopback]: concrete worlds, over the fakes and over a
      loopback network, on which the theorems are instantiated.  [Wire] and
      [Protobuf]: an encoding with the published protobuf format, as the concrete
      [Codec] of witnesses and tests; no theorem on the program is about it.

    Shared objects are shared: a channel is a number ([Arc]) and its state lies in
    an environment, so two holders see each other's calls.  A call returns, or it
    ends in a fault: a panic, a wait for another thread, or a recursion deeper
    than its fuel.  A frame that a handler cannot make is an empty list, an
    [Option] is an option, a [Result] has the crate's own error codes.

    ** What the theorems show

    - The wire format.  [ValidatorSpec]: the validator accepts exactly the frames
      of a declarative specification, with exactly its two error codes, down to
      the text of addresses and SSIDs.  [FromBytes]: parsing succeeds exactly on
      encodings of valid frames.  [RoundTrip]: what each builder makes parses, or
      fails to, as its fields say, and its fields are read back.
    - The registries.  [Client], [ChannelManager]: every answer is a function of
      the history of calls.  [Handler]: the bookkeeping implements an abstract
      book of sessions over any medium, and what reaches the medium is bracketed.
    - The manager.  [ManagerSteps] derives that a predicate closed under the
      elementary changes for one endpoint is kept by every operation.
      [Invariant]: the bookkeeping stays consistent, nothing panics, and work for
      one endpoint leaves what is kept for the others alone, their mediums and
      sessions too where there is a medium for each endpoint.  [Upgrade]: the initiator's and the
      responder's whole upgrade, with every message that passes.  [Handshake]: two
      devices that run them against each other both come to the end, however their
      steps interleave on the two connections.  [Cleanup]: races of LAST_WRITE with the swap,
      what is ignored, what a disconnection and a shutdown leave.  [Retry]: the
      next medium, the end of the recursion, the delays.  [Stuck]: where an
      upgrade does not end: the owner that waits for the channel which it alone
      resumes, and the channel that nothing resumes any more.
    - The owner.  [Owner]: its iterations, the order of commands, its timers,
      and that timers do not starve commands while the work is shorter than the
      shortest delay of a retry.  [System]: together with its
      handles, and with others at work on the channels in between, it is safe,
      loses no reply, and answers a query after exactly the earlier commands.
    - The transport.  [StreamChannel]: two channels over a pipe are a FIFO queue
      of messages, also through ciphers.  [StreamErrors]: every answer of a read
      and of a write, errors included.  [Interleaving]: threads inside calls
      never wait for each other in a circle, and a close ends every call.
      [WholeCalls]: a call that nothing interrupts is the whole call of
      [StreamChannel].  [Linearize]: calls of any number of threads, however their
      steps interleave, are those of an atomic queue, for one writing and one reading
      channel, frames that are not empty, and reads through a cipher that do not
      overlap; without each of these they need not be.  [Network]: accept threads belong to the
      recorded listeners, connections that are passed on are new channels of
      them, offers name what the receiver then dials or joins, dropping the
      handlers ends every thread, and when stopping a listener waits.
      [TypedChannels]: channels are named after their mediums and keep their
      identity for life.  [Observed]: the SoftAPs that are up are those with a
      listener.  [Transport]: channels over streams that deliver bytes are a
      transport as the theorems on the upgrade assume one; over the sockets of the
      loopback they are.
    - The whole.  [StreamSteps] and [TcpSteps] carry invariants and faults from
      sockets and ciphers up to channels and handlers; [Stack] puts the owner, its
      handles, both TCP handlers and their accept loops on the loopback network
      and runs an upgrade through them.  [LanUpgrade], [LanInitiator]: the
      responder's and the initiator's upgrade over WIFI_LAN, from the manager through
      the handler, the accept loop and the channels down to the sockets.  [Sessions] relates what a medium keeps up
      to the sessions of the bookkeeping above it.  [Composition] runs the owner,
      the handles, both handlers and their accept threads, inside and outside the
      connection sink, as one machine: every thread has a session, a shutdown
      can return exactly when the channel of commands has room for what the threads
      are about to post, and then ends every thread, and a full channel lets the
      owner and its own thread wait for each other for ever.

    ** Bounds and fuel

    Only the recursion initiation, failure, next medium takes fuel: the number of
    nested initiations.  One more than the number of the endpoint's mediums is
    enough when these are distinct ([Retry.failure_recursion_ends]), and no fuel
    is enough when they are not and a channel fails
    ([Retry.duplicate_mediums_recurse_forever]).  The loop of the owner and the
    steps of a device are given as sequences of what they see, of any length.
    Integers are [Z] with their ranges; lengths wrap as [i32] in big-endian
    bytes; durations are nanoseconds whose overflow panics.

    ** Assumed of code outside the crate

    [Codec]: decoding an encoded message that prost can hold gives it back
    ([CodecLaws]; discharged by the encoding of [Protobuf]).  [TcpOs]: a port fits 16 bits, and a connection that was made is
    there for the listener to accept ([TcpOsLaws]; discharged by [Loopback]).
    Ciphers, streams and SoftAPs are interfaces without laws, except where a
    theorem says so.  [WorkingTransport]: writes succeed on open channels and reads
    return what a channel is going to receive, which is given beforehand; that the
    remote does write it in time is what [Handshake] shows (discharged by the
    crate's fakes, by a transport with a script, and by stream channels without a
    cipher over streams that deliver, [Delivers]).  [Connects] and [Accepts]: a
    connection to an address that is listened on gives each side a stream of its own
    (discharged by [Loopback]).

    ** Not modelled

    - The code that prost generates, and prost.  The theorems on frames hold of
      every codec with the law above.
    - Threads inside a call of a handler, of the manager or of a channel over TCP:
      there a step is a whole call, an iteration of an accept loop or of the owner,
      and a call that waits is a fault, not a suspended thread: it can be made in the
      states to which the others' steps lead.  Inside the calls
      of a stream channel over pipes each lock, transfer and flag is a step
      ([Interleaving]); a mutex that a panic poisons is not described, and neither
      is a cipher's own code.  Reads that overlap on a channel with a cipher are
      outside the linearisation: the code decodes after it has given the reader's
      lock back ([Linearize.overlapping_reads_refused]).
    - The owner's end drops the receiver and the waiting callers' replies; that it
      then drops the manager with its handlers is described by [lan_drop] and
      [hotspot_drop] on their own.  The handlers' accept loops are steps of a
      device or of the others in a system, whatever the operating system's
      scheduler does.
    - [lib.rs] and [bwu/mod.rs] (module lists), [tests/wifi_lan_actor.rs] (a channel
      over a pipe beside channels over sockets), and the getters that only return a
      field, but for those of the client and the fakes. *)

From Stdlib Require Import ZArith NArith Lia.
From Stdlib Require Import Strings.Byte.
From stdpp Require Export prelude strings list gmap.

(** * Notations and basic data *)

(** [Vec<u8>] and [&[u8]]. *)
Abbreviation bytes := (list Byte.byte).

Declare Scope nearby_scope.
Delimit Scope nearby_scope with nearby.

#[global] Instance byte_eq_dec : EqDecision Byte.byte := Byte.byte_eq_dec.

(** The numeric value of a byte, as the [u8] it is. *)
Definition byte_val (b : Byte.byte) : N := Byte.to_N b.

(** [lo..=hi] range patterns on [u8]. *)
Definition byte_in (lo hi : N) (b : Byte.byte) : bool :=
  (lo <=? byte_val b)%N && (byte_val b <=? hi)%N.

(** The byte view of a Rust [String] and back: a [String] is modelled by the
    sequence of its UTF-8 bytes. *)
Definition str_bytes (s : string) : bytes := String.list_byte_of_string s.
Definition bytes_str (bs : bytes) : string := String.string_of_list_byte bs.

(** Machine integers are [Z] together with their range. *)
Definition i32_ok (z : Z) : bool := (- 2 ^ 31 <=? z)%Z && (z <? 2 ^ 31)%Z.
Definition i64_ok (z : Z) : bool := (- 2 ^ 63 <=? z)%Z && (z <? 2 ^ 63)%Z.
Definition u32_ok (z : Z) : bool := (0 <=? z)%Z && (z <? 2 ^ 32)%Z.
Definition u16_ok (z : Z) : bool := (0 <=? z)%Z && (z <? 2 ^ 16)%Z.

(** Lifting a check to the values an [Option] or a [Vec] holds. *)
Definition opt_all {A} (p : A -> bool) (o : option A) : bool :=
  match o with Some a => p a | None => true end.

Definition is_some {A} (o : option A) : bool :=
  match o with Some _ => true | None => false end.

Definition is_none {A} (o : option A) : bool := negb (is_some o).

Definition is_nil {A} (l : list A) : bool :=
  match l with [] => true | _ => false end.

Definition str_is_empty (s : string) : bool :=
  match s with EmptyString => true | _ => false end.

(** * Outcomes

    A call of the modelled code returns, or it ends in one of three faults:
    a Rust panic, a call that parks its thread until some other thread acts,
    or a recursion deeper than the fuel of its model. *)

Inductive fault : Type := Panicked | Blocked | OutOfFuel.

Inductive outcome (A : Type) : Type :=
| Ret (a : A)
| Fault (f : fault).
Arguments Ret {A} a.
Arguments Fault {A} f.

(** State passing over a state [S], with faults. *)
Definition M (S A : Type) : Type := S -> outcome (A * S).

#[global] Instance M_ret {S} : MRet (M S) := fun A a s => Ret (a, s).
#[global] Instance M_bind {S} : MBind (M S) := fun A B k m s =>
  match m s with
  | Ret (a, s') => k a s'
  | Fault f => Fault f
  end.

Definition raise {S A} (f : fault) : M S A := fun _ => Fault f.
Definition get {S} : M S S := fun s => Ret (s, s).
Definition gets {S A} (f : S -> A) : M S A := fun s => Ret (f s, s).
Definition modify {S} (f : S -> S) : M S unit := fun s => Ret (tt, f s).

(** [o.unwrap()] / indexing: the value, or a panic. *)
Definition unwrap {S A} (o : option A) : M S A :=
  match o with Some a => mret a | None => raise Panicked end.

(** [if c { return; } k] *)
Definition guard_not {S} (c : bool) (k : M S unit) : M S unit :=
  if c then mret tt else k.

(** The weakest precondition of a call: every return satisfies [Q], and only
    the faults [E] allows can happen. *)
Definition wp {S A} (E : fault -> Prop) (m : M S A) (Q : A -> S -> Prop) (s : S) : Prop :=
  match m s with
  | Ret (a, s') => Q a s'
  | Fault f => E f
  end.

(** No fault at all, and no fault but a blocked thread. *)
Definition no_fault : fault -> Prop := fun _ => False.
Definition may_block : fault -> Prop := fun f => f = Blocked.

Definition runs_to {S A} (m : M S A) (s : S) (a : A) (s' : S) : Prop :=
  m s = Ret (a, s').

(** * Lemmas *)

Create HintDb nearby.
Create Rewrite HintDb nearby_simpl.

Section wp_rules.
Context {S : Type}.
Implicit Types (E : fault -> Prop) (s : S).

Lemma wp_ret {A} E (a : A) (Q : A -> S -> Prop) s : Q a s -> wp E (mret a) Q s.
Proof. done. Qed.

Lemma wp_bind {A B} E (m : M S A) (k : A -> M S B) Q s :
  wp E m (fun a => wp E (k a) Q) s -> wp E (m ≫= k) Q s.
Proof. unfold wp, mbind, M_bind. by destruct (m s) as [[a s']|f]. Qed.

Lemma wp_get E (Q : S -> S -> Prop) s : Q s s -> wp E get Q s.
Proof. done. Qed.

Lemma wp_gets {A} E (f : S -> A) (Q : A -> S -> Prop) s : Q (f s) s -> wp E (gets f) Q s.
Proof. done. Qed.

Lemma wp_modify E (f : S -> S) (Q : unit -> S -> Prop) s :
  Q tt (f s) -> wp E (modify f) Q s.
Proof. done. Qed.

Lemma wp_raise {A} E f (Q : A -> S -> Prop) s : E f -> wp E (raise f) Q s.
Proof. done. Qed.

Lemma wp_unwrap_some {A} E (o : option A) a Q s :
  o = Some a -> Q a s -> wp E (unwrap o) Q s.
Proof. intros ->. done. Qed.

Lemma wp_mono {A} (E E' : fault -> Prop) (m : M S A) (Q Q' : A -> S -> Prop) s :
  wp E m Q s -> (forall f, E f -> E' f) -> (forall a s', Q a s' -> Q' a s') ->
  wp E' m Q' s.
Proof. unfold wp. destruct (m s) as [[a s']|f]; eauto. Qed.

Lemma wp_conj {A} E (m : M S A) (Q Q' : A -> S -> Prop) s :
  wp E m Q s -> wp E m Q' s -> wp E m (fun a s' => Q a s' /\ Q' a s') s.
Proof. unfold wp. destruct (m s) as [[a s']|f]; by auto. Qed.

Lemma wp_runs {A} E (m : M S A) Q s a s' :
  runs_to m s a s' -> Q a s' -> wp E m Q s.
Proof. unfold wp, runs_to. by intros ->. Qed.

Lemma wp_no_fault_runs {A} (m : M S A) Q s :
  wp no_fault m Q s -> exists a s', runs_to m s a s' /\ Q a s'.
Proof.
  unfold wp, runs_to, no_fault. destruct (m s) as [[a s']|f]; [eauto|done].
Qed.

Lemma runs_bind {A B} (m : M S A) (k : A -> M S B) s a s1 r :
  runs_to m s a s1 -> k a s1 = r -> (m ≫= k) s = r.
Proof. unfold runs_to, mbind, M_bind. by intros ->. Qed.
End wp_rules.

(** One rule application per syntactic form of the call under [wp]. *)
Ltac wp_step :=
  cbv beta;
  lazymatch goal with
  | |- wp _ (mret _) _ _ => apply wp_ret
  | |- wp _ (_ ≫= _) _ _ => apply wp_bind
  | |- wp _ get _ _ => apply wp_get
  | |- wp _ (gets _) _ _ => apply wp_gets
  | |- wp _ (modify _) _ _ => apply wp_modify
  | |- wp _ (raise _) _ _ => apply wp_raise
  end.

(** Splitting boolean hypotheses and goals. *)
Ltac bool_split :=
  repeat match goal with
  | H : _ && _ = true |- _ => apply andb_true_iff in H as [? ?]
  | H : _ || _ = false |- _ => apply orb_false_iff in H as [? ?]
  | H : negb _ = true |- _ => apply negb_true_iff in H
  | H : negb _ = false |- _ => apply negb_false_iff in H
  | H : bool_decide _ = true |- _ => apply bool_decide_eq_true in H
  | H : bool_decide _ = false |- _ => apply bool_decide_eq_false in H
  end.

Ltac bool_goal :=
  repeat match goal with
  | |- _ && _ = true => apply andb_true_iff; split
  end.

(** Case analysis on the scrutinee of a match of the goal. *)
Ltac split_match :=
  match goal with
  | |- context [match ?x with _ => _ end] =>
      lazymatch x with
      | context [match _ with _ => _ end] => fail
      | _ => destruct x eqn:?
      end
  end.

Lemma bytes_str_bytes (s : string) : bytes_str (str_bytes s) = s.
Proof. apply String.string_of_list_byte_of_string. Qed.

Lemma str_bytes_str (bs : bytes) : str_bytes (bytes_str bs) = bs.
Proof. apply String.list_byte_of_string_of_list_byte. Qed.

Lemma bytes_str_nil (bs : bytes) : str_is_empty (bytes_str bs) = is_nil bs.
Proof. by destruct bs. Qed.

Lemma is_some_true {A} (o : option A) : is_some o = true <-> exists a, o = Some a.
Proof. destruct o; simpl; split; first [done | by eauto | by intros [? ?]]. Qed.

Lemma is_none_true {A} (o : option A) : is_none o = true <-> o = None.
Proof. by destruct o. Qed.

Lemma is_nil_true {A} (l : list A) : is_nil l = true <-> l = [].
Proof. by destruct l. Qed.

Lemma str_is_empty_true s : str_is_empty s = true <-> s = EmptyString.
Proof. by destruct s. Qed.

Lemma byte_val_bound b : (byte_val b <= 255)%N.
Proof. apply Byte.to_N_bounded. Qed.

Lemma forallb_Forall {A} (p : A -> bool) l :
  forallb p l = true <-> Forall (fun a => p a = true) l.
Proof. rewrite forallb_forall, List.Forall_forall. done. Qed.

(** A check of every entry of a map, of every element of a list. *)
Lemma forallb_elem {A} (p : A -> bool) (l : list A) a : forallb p l = true -> a ∈ l -> p a = true.
Proof. rewrite forallb_Forall, Forall_forall. auto. Qed.

Lemma forallb_entry {K A} `{Countable K} (p : K * A -> bool) (m : gmap K A) i x :
  forallb p (map_to_list m) = true -> m !! i = Some x -> p (i, x) = true.
Proof. intros Hp Hx. apply (forallb_elem p _ _ Hp). by apply elem_of_map_to_list. Qed.
