(* ===== verification/Utf8.v ===== *)
(** The Rust standard library's view of UTF-8 text, as far as the crate uses
    it: which byte sequences a [String] may hold, and
    [String::from_utf8_lossy], by which a connection request turns the raw
    endpoint info into the endpoint name.  Both follow the table of
    [core::str]: the width of a sequence from its first byte, the narrower
    range of the second byte after E0, ED, F0 and F4, and one U+FFFD for each
    maximal prefix of an ill-formed sequence. *)

From Stdlib Require Import NArith Lia Strings.Byte.
From S2P Require Import Prelude.

(** * Definitions *)

(** [utf8_char_width]. *)
Definition utf8_width (b : Byte.byte) : N :=
  if byte_in 0 127 b then 1
  else if byte_in 194 223 b then 2
  else if byte_in 224 239 b then 3
  else if byte_in 240 244 b then 4
  else 0.

(** [b & 192 == 128]. *)
Definition is_cont (b : Byte.byte) : bool := byte_in 128 191 b.

(** The second byte a three-byte sequence allows after its first. *)
Definition second_of_3 (b0 b1 : Byte.byte) : bool :=
  (byte_in 224 224 b0 && byte_in 160 191 b1)
  || (byte_in 225 236 b0 && byte_in 128 191 b1)
  || (byte_in 237 237 b0 && byte_in 128 159 b1)
  || (byte_in 238 239 b0 && byte_in 128 191 b1).

(** The second byte a four-byte sequence allows after its first. *)
Definition second_of_4 (b0 b1 : Byte.byte) : bool :=
  (byte_in 240 240 b0 && byte_in 144 191 b1)
  || (byte_in 241 243 b0 && byte_in 128 191 b1)
  || (byte_in 244 244 b0 && byte_in 128 143 b1).

(** The UTF-8 encoding of U+FFFD. *)
Definition replacement : bytes := [Byte.xef; Byte.xbf; Byte.xbd].

(** [core::str::from_utf8(bs).is_ok()]. *)
Fixpoint utf8_valid (bs : bytes) : bool :=
  match bs with
  | [] => true
  | b0 :: r0 =>
      match utf8_width b0 with
      | 1%N => utf8_valid r0
      | 2%N =>
          match r0 with
          | b1 :: r1 => is_cont b1 && utf8_valid r1
          | [] => false
          end
      | 3%N =>
          match r0 with
          | b1 :: b2 :: r2 => second_of_3 b0 b1 && is_cont b2 && utf8_valid r2
          | _ => false
          end
      | 4%N =>
          match r0 with
          | b1 :: b2 :: b3 :: r3 =>
              second_of_4 b0 b1 && is_cont b2 && is_cont b3 && utf8_valid r3
          | _ => false
          end
      | _ => false
      end
  end.

(** [String::from_utf8_lossy(bs)], as bytes. *)
Fixpoint from_utf8_lossy (bs : bytes) : bytes :=
  match bs with
  | [] => []
  | b0 :: r0 =>
      match utf8_width b0 with
      | 1%N => b0 :: from_utf8_lossy r0
      | 2%N =>
          match r0 with
          | b1 :: r1 =>
              if is_cont b1 then b0 :: b1 :: from_utf8_lossy r1
              else replacement ++ from_utf8_lossy r0
          | [] => replacement
          end
      | 3%N =>
          match r0 with
          | b1 :: r1 =>
              if second_of_3 b0 b1 then
                match r1 with
                | b2 :: r2 =>
                    if is_cont b2 then b0 :: b1 :: b2 :: from_utf8_lossy r2
                    else replacement ++ from_utf8_lossy r1
                | [] => replacement
                end
              else replacement ++ from_utf8_lossy r0
          | [] => replacement
          end
      | 4%N =>
          match r0 with
          | b1 :: r1 =>
              if second_of_4 b0 b1 then
                match r1 with
                | b2 :: r2 =>
                    if is_cont b2 then
                      match r2 with
                      | b3 :: r3 =>
                          if is_cont b3 then b0 :: b1 :: b2 :: b3 :: from_utf8_lossy r3
                          else replacement ++ from_utf8_lossy r2
                      | [] => replacement
                      end
                    else replacement ++ from_utf8_lossy r1
                | [] => replacement
                end
              else replacement ++ from_utf8_lossy r0
          | [] => replacement
          end
      | _ => replacement ++ from_utf8_lossy r0
      end
  end.

(** What a [String] value is: valid UTF-8. *)
Definition string_ok (s : string) : bool := utf8_valid (str_bytes s).

(** * Lemmas *)

Lemma utf8_width_cases b :
  utf8_width b = 1%N \/ utf8_width b = 2%N \/ utf8_width b = 3%N \/
  utf8_width b = 4%N \/ utf8_width b = 0%N.
Proof. unfold utf8_width. repeat case_match; tauto. Qed.

(** A replacement character is itself valid text. *)
Lemma utf8_valid_replacement r : utf8_valid (replacement ++ r) = utf8_valid r.
Proof. done. Qed.

Lemma from_utf8_lossy_valid_n n bs :
  length bs <= n -> utf8_valid (from_utf8_lossy bs) = true.
Proof.
  revert bs. induction n as [|n IH]; intros [|b0 r0] Hn; simpl in Hn; try done; try lia.
  assert (IH' : forall r, length r <= n -> utf8_valid (from_utf8_lossy r) = true) by auto.
  simpl. destruct (utf8_width_cases b0) as [Hw|[Hw|[Hw|[Hw|Hw]]]]; rewrite Hw.
  - simpl. rewrite Hw. apply IH'. lia.
  - destruct r0 as [|b1 r1]; [done|]. destruct (is_cont b1) eqn:H1.
    + cbn [utf8_valid]. rewrite Hw, H1. apply IH'. simpl in *; lia.
    + apply IH'. simpl in *; lia.
  - destruct r0 as [|b1 r1]; [done|]. destruct (second_of_3 b0 b1) eqn:H1.
    + destruct r1 as [|b2 r2]; [done|]. destruct (is_cont b2) eqn:H2.
      * cbn [utf8_valid]. rewrite Hw, H1, H2. apply IH'. simpl in *; lia.
      * apply IH'. simpl in *; lia.
    + apply IH'. simpl in *; lia.
  - destruct r0 as [|b1 r1]; [done|]. destruct (second_of_4 b0 b1) eqn:H1.
    + destruct r1 as [|b2 r2]; [done|]. destruct (is_cont b2) eqn:H2.
      * destruct r2 as [|b3 r3]; [done|]. destruct (is_cont b3) eqn:H3.
        -- cbn [utf8_valid]. rewrite Hw, H1, H2, H3. apply IH'. simpl in *; lia.
        -- apply IH'. simpl in *; lia.
      * apply IH'. simpl in *; lia.
    + apply IH'. simpl in *; lia.
  - apply IH'. lia.
Qed.

(** The result of the lossy conversion is always text. *)
Lemma from_utf8_lossy_valid bs : utf8_valid (from_utf8_lossy bs) = true.
Proof. by apply (from_utf8_lossy_valid_n (length bs)). Qed.

Lemma from_utf8_lossy_id_n n bs :
  length bs <= n -> utf8_valid bs = true -> from_utf8_lossy bs = bs.
Proof.
  revert bs. induction n as [|n IH]; intros [|b0 r0] Hn; simpl in Hn; try done; try lia.
  simpl. destruct (utf8_width_cases b0) as [Hw|[Hw|[Hw|[Hw|Hw]]]]; rewrite Hw; intros Hv.
  - f_equal. apply IH; [lia|done].
  - destruct r0 as [|b1 r1]; [done|]. bool_split.
    rewrite H. do 2 f_equal. apply IH; [simpl in *; lia|done].
  - destruct r0 as [|b1 [|b2 r2]]; try done. bool_split.
    rewrite H, H1. do 3 f_equal. apply IH; [simpl in *; lia|done].
  - destruct r0 as [|b1 [|b2 [|b3 r3]]]; try done. bool_split.
    rewrite H, H1, H2. do 4 f_equal. apply IH; [simpl in *; lia|done].
  - done.
Qed.

(** Text is converted to itself. *)
Lemma from_utf8_lossy_id bs : utf8_valid bs = true -> from_utf8_lossy bs = bs.
Proof. by apply (from_utf8_lossy_id_n (length bs)). Qed.

(** Only the empty sequence converts to the empty string. *)
Lemma from_utf8_lossy_nil bs : is_nil (from_utf8_lossy bs) = is_nil bs.
Proof.
  destruct bs as [|b0 r0]; [done|]. simpl.
  destruct (utf8_width_cases b0) as [Hw|[Hw|[Hw|[Hw|Hw]]]]; rewrite Hw;
    repeat (case_match; try done); done.
Qed.

Lemma string_ok_lossy bs : string_ok (bytes_str (from_utf8_lossy bs)) = true.
Proof. unfold string_ok. rewrite str_bytes_str. apply from_utf8_lossy_valid. Qed.

#[export] Hint Resolve from_utf8_lossy_valid string_ok_lossy : nearby.
