(* ===== verification/Text.v ===== *)
(** The string operations of the Rust standard library that the crate uses, on
    the UTF-8 bytes of a string: [starts_with], [ends_with], [strip_prefix],
    [contains], [split], [parse] and [chars], with what each computes. *)

From Stdlib Require Import NArith Lia Strings.Byte.
From S2P Require Import Prelude.
From S2P Require Import Utf8.

(** * Operations *)

(** [s.as_bytes().starts_with(p)]. *)
Fixpoint starts_with (p s : bytes) : bool :=
  match p, s with
  | [], _ => true
  | a :: p, b :: s => Byte.eqb a b && starts_with p s
  | _ :: _, [] => false
  end.

(** [s.contains(p)]. *)
Fixpoint contains_bytes (p s : bytes) : bool :=
  starts_with p s || match s with [] => false | _ :: s => contains_bytes p s end.

(** [s.strip_prefix(p)]. *)
Definition strip_prefix (p s : bytes) : option bytes :=
  if starts_with p s then Some (drop (length p) s) else None.

(** [s.split(sep)] for a one-byte separator: at least one piece. *)
Fixpoint split_byte (sep : Byte.byte) (s : bytes) : list bytes :=
  match s with
  | [] => [[]]
  | b :: s =>
      if Byte.eqb b sep then [] :: split_byte sep s
      else match split_byte sep s with
           | piece :: pieces => (b :: piece) :: pieces
           | [] => [[b]]
           end
  end.

(** [u8::is_ascii_digit] and [is_ascii_alphanumeric] of a one-byte character. *)
Definition is_ascii_digit (b : Byte.byte) : bool := byte_in 48 57 b.
Definition is_ascii_alphanumeric (b : Byte.byte) : bool :=
  byte_in 48 57 b || byte_in 65 90 b || byte_in 97 122 b.

(** The digits of [str::parse::<u16>], most significant first; [None] for a
    byte that is no digit or a value above 65535. *)
Fixpoint parse_digits (acc : N) (s : bytes) : option N :=
  match s with
  | [] => Some acc
  | b :: s =>
      if is_ascii_digit b then
        let acc := (acc * 10 + (byte_val b - 48))%N in
        if (acc <=? 65535)%N then parse_digits acc s else None
      else None
  end.

(** [s.parse::<u16>().ok()]: one or more digits, after an optional plus. *)
Definition parse_u16 (s : bytes) : option N :=
  match s with
  | [] => None
  | b :: r =>
      if Byte.eqb b Byte.x2b then (if is_nil r then None else parse_digits 0 r)
      else parse_digits 0 s
  end.

(** [chars().next()]: the bytes of the first character, and what follows. *)
Definition next_char (s : bytes) : option (bytes * bytes) :=
  match s with
  | [] => None
  | b :: _ =>
      let w := N.to_nat (N.max 1 (utf8_width b)) in
      Some (take w s, drop w s)
  end.

(** [char::is_ascii_alphanumeric] of a character given by its bytes. *)
Definition char_is_ascii_alphanumeric (c : bytes) : bool :=
  match c with [b] => is_ascii_alphanumeric b | _ => false end.

(** [s.ends_with(p)] and [s.strip_suffix(p)]. *)
Definition ends_with (p s : bytes) : bool := starts_with (reverse p) (reverse s).
Definition strip_suffix (p s : bytes) : option bytes :=
  if ends_with p s then Some (take (length s - length p) s) else None.

(** * Specifications *)

(** The value of a sequence of decimal digits. *)
Definition dec_value (o : bytes) : N :=
  foldl (fun acc b => acc * 10 + (byte_val b - 48))%N 0%N o.

(** The pieces with the separator between them. *)
Definition join_byte (sep : Byte.byte) (pieces : list bytes) : bytes :=
  match pieces with
  | [] => []
  | p :: ps => p ++ concat ((fun q => sep :: q) <$> ps)
  end.

(** * Lemmas *)

Lemma byte_eqb_true a b : Byte.eqb a b = true <-> a = b.
Proof. split; [apply Byte.byte_dec_bl|apply Byte.byte_dec_lb]. Qed.

Lemma byte_eqb_refl a : Byte.eqb a a = true.
Proof. by apply byte_eqb_true. Qed.

(** ** Pieces between separators *)

Lemma split_byte_cons sep s : exists p ps, split_byte sep s = p :: ps.
Proof.
  induction s as [|b s (p & ps & IH)]; simpl; [by eauto|].
  case_match; [by eauto|]. rewrite IH. by eauto.
Qed.

Lemma join_split_byte sep s : join_byte sep (split_byte sep s) = s.
Proof.
  induction s as [|b s IH]; [done|]. simpl.
  destruct (Byte.eqb b sep) eqn:Hb.
  - apply byte_eqb_true in Hb as ->. destruct (split_byte_cons sep s) as (p & ps & Hs).
    rewrite Hs in *. rewrite <-IH. done.
  - destruct (split_byte_cons sep s) as (p & ps & Hs). rewrite Hs in *.
    rewrite <-IH. done.
Qed.

Lemma split_byte_free sep p s :
  sep ∉ p -> split_byte sep (p ++ sep :: s) = p :: split_byte sep s.
Proof.
  induction p as [|b p IH]; simpl; intros Hp.
  - by rewrite byte_eqb_refl.
  - destruct (Byte.eqb b sep) eqn:Hb; [apply byte_eqb_true in Hb; set_solver|].
    rewrite IH by set_solver. done.
Qed.

Lemma split_byte_last sep p : sep ∉ p -> split_byte sep p = [p].
Proof.
  induction p as [|b p IH]; simpl; intros Hp; [done|].
  destruct (Byte.eqb b sep) eqn:Hb; [apply byte_eqb_true in Hb; set_solver|].
  rewrite IH by set_solver. done.
Qed.

(** ** Numbers *)

Lemma is_ascii_digit_range b :
  is_ascii_digit b = true <-> (48 <= byte_val b <= 57)%N.
Proof. unfold is_ascii_digit, byte_in. rewrite andb_true_iff, !N.leb_le. done. Qed.

Lemma parse_digits_spec acc s :
  Forall (fun b => is_ascii_digit b = true) s ->
  (foldl (fun acc b => acc * 10 + (byte_val b - 48)) acc s <= 65535)%N ->
  parse_digits acc s =
  Some (foldl (fun acc b => acc * 10 + (byte_val b - 48)) acc s)%N.
Proof.
  assert (Hmono : forall s a, (a <= foldl (fun acc b => acc * 10 + (byte_val b - 48)) a s)%N).
  { clear. induction s as [|b s IH]; intros a; simpl; [lia|].
    specialize (IH (a * 10 + (byte_val b - 48))%N). lia. }
  revert acc. induction s as [|b s IH]; intros acc Hd Hv; simpl in *; [done|].
  apply Forall_cons in Hd as [Hb Hd]. rewrite Hb.
  rewrite (proj2 (N.leb_le _ _)).
  - by apply IH.
  - etrans; [apply Hmono|]. exact Hv.
Qed.

Lemma dec_value_bound n o :
  length o <= n -> Forall (fun b => is_ascii_digit b = true) o ->
  forall acc, (foldl (fun acc b => acc * 10 + (byte_val b - 48)) acc o
          <= acc * 10 ^ N.of_nat n + (10 ^ N.of_nat n - 1))%N.
Proof.
  revert o. induction n as [|n IH]; intros [|b o] Hl Hd acc; simpl in Hl; try lia; cbn [foldl].
  - change (10 ^ N.of_nat 0)%N with 1%N. lia.
  - assert (1 <= 10 ^ N.of_nat (S n))%N by (apply N.lt_pred_le, N.neq_0_lt_0, N.pow_nonzero; done).
    nia.
  - apply Forall_cons in Hd as [Hb Hd]. apply is_ascii_digit_range in Hb.
    etrans; [apply (IH o); [lia|done]|].
    rewrite Nat2N.inj_succ, N.pow_succ_r'.
    assert (1 <= 10 ^ N.of_nat n)%N by (apply N.lt_pred_le, N.neq_0_lt_0, N.pow_nonzero; done).
    nia.
Qed.

Lemma parse_u16_digits o :
  o <> [] -> length o <= 3 -> Forall (fun b => is_ascii_digit b = true) o ->
  parse_u16 o = Some (dec_value o).
Proof.
  intros Hne Hl Hd. destruct o as [|b o]; [done|]. unfold parse_u16.
  pose proof Hd as Hd'. apply Forall_cons in Hd' as [Hb _].
  destruct (Byte.eqb b Byte.x2b) eqn:E; [by apply byte_eqb_true in E as ->|].
  apply (parse_digits_spec 0 (b :: o) Hd).
  etrans; [by apply (dec_value_bound 3 (b :: o))|]. done.
Qed.

(** ** Prefixes, suffixes and characters *)

Lemma starts_with_spec p s : starts_with p s = true <-> exists r, s = p ++ r.
Proof.
  revert s. induction p as [|a p IH]; intros s; simpl; [split; eauto|].
  destruct s as [|b s]; [split; [done|by intros [? ?]]|].
  rewrite andb_true_iff, byte_eqb_true, IH. split.
  - intros (-> & r & ->). by eauto.
  - intros (r & [= -> ->]). by eauto.
Qed.

Lemma strip_prefix_spec p s r : strip_prefix p s = Some r <-> s = p ++ r.
Proof.
  unfold strip_prefix. split.
  - destruct (starts_with p s) eqn:E; [|done]. apply starts_with_spec in E as [r' ->].
    intros [= <-]. by rewrite drop_app_length.
  - intros ->. rewrite (proj2 (starts_with_spec p (p ++ r))) by eauto.
    by rewrite drop_app_length.
Qed.

Lemma alphanumeric_width b : is_ascii_alphanumeric b = true -> utf8_width b = 1%N.
Proof. by destruct b. Qed.

Lemma next_char_alphanumeric s c r :
  next_char s = Some (c, r) -> char_is_ascii_alphanumeric c = true ->
  exists b, c = [b] /\ s = b :: r /\ is_ascii_alphanumeric b = true.
Proof.
  destruct s as [|b s]; simpl; [done|]. intros [= <- <-].
  destruct (utf8_width_cases b) as [Hw|[Hw|[Hw|[Hw|Hw]]]]; rewrite Hw; simpl; intros Ha;
    try (destruct s as [|? [|? [|? ?]]]; simpl in *; try done;
         apply alphanumeric_width in Ha; congruence);
    rewrite drop_0 in *; by eauto.
Qed.

Lemma next_char_ascii b s :
  is_ascii_alphanumeric b = true -> next_char (b :: s) = Some ([b], s).
Proof. intros Hb. simpl. rewrite (alphanumeric_width b Hb). simpl. by rewrite take_0, drop_0. Qed.

Lemma contains_bytes_spec p s : contains_bytes p s = true <-> exists l r, s = l ++ p ++ r.
Proof.
  induction s as [|b s IH]; simpl; rewrite orb_true_iff, starts_with_spec.
  - split; [intros [[r Hr]|]; [by exists [], r|done]|].
    intros (l & r & Hs). symmetry in Hs. apply app_eq_nil in Hs as [-> Hs]. by left; exists r.
  - rewrite IH. split.
    + intros [[r Hr]|(l & r & ->)]; [by exists [], r|by exists (b :: l), r].
    + intros ([|c l] & r & Hs); [left; by exists r|].
      injection Hs as -> ->. right. by exists l, r.
Qed.

Lemma ends_with_spec p s : ends_with p s = true <-> exists l, s = l ++ p.
Proof.
  unfold ends_with. rewrite starts_with_spec. split.
  - intros [r Hr]. exists (reverse r). rewrite <-(reverse_involutive s), Hr, reverse_app.
    by rewrite reverse_involutive.
  - intros [l ->]. exists (reverse l). by rewrite reverse_app.
Qed.

Lemma strip_suffix_app l p : strip_suffix p (l ++ p) = Some l.
Proof.
  unfold strip_suffix. rewrite (proj2 (ends_with_spec p (l ++ p))) by eauto.
  rewrite length_app, Nat.add_sub. by rewrite take_app_length.
Qed.
