(* ===== verification/Mediums.v ===== *)
(** The two domain enums of [src/mediums.rs], [Medium] and
    [WifiDirectAuthType], with the discriminants of their [repr(i32)]. *)

From Stdlib Require Import ZArith.
From S2P Require Import Prelude.

(** * Definitions *)

Inductive Medium : Type :=
| UnknownMedium
| Mdns
| Bluetooth
| WifiHotspot
| Ble
| WifiLan
| WifiAware
| Nfc
| WifiDirect
| WebRtc
| BleL2cap
| Usb
| WebRtcNonCellular
| Awdl.

Inductive WifiDirectAuthType : Type :=
| WifiDirectTypeUnknown
| WifiDirectWithPassword
| WifiDirectWithPin
| WifiDirectWithDeviceName.

(** [medium as i32]. *)
Definition Medium_discriminant (m : Medium) : Z :=
  match m with
  | UnknownMedium => 0
  | Mdns => 1
  | Bluetooth => 2
  | WifiHotspot => 3
  | Ble => 4
  | WifiLan => 5
  | WifiAware => 6
  | Nfc => 7
  | WifiDirect => 8
  | WebRtc => 9
  | BleL2cap => 10
  | Usb => 11
  | WebRtcNonCellular => 12
  | Awdl => 13
  end%Z.

(** [auth_type as i32]. *)
Definition WifiDirectAuthType_discriminant (t : WifiDirectAuthType) : Z :=
  match t with
  | WifiDirectTypeUnknown => 0
  | WifiDirectWithPassword => 1
  | WifiDirectWithPin => 2
  | WifiDirectWithDeviceName => 3
  end%Z.

#[export] Instance Medium_eq_dec : EqDecision Medium.
Proof. solve_decision. Defined.

#[export] Instance WifiDirectAuthType_eq_dec : EqDecision WifiDirectAuthType.
Proof. solve_decision. Defined.

(** All the variants, in the order of their discriminants. *)
Definition all_mediums : list Medium :=
  [UnknownMedium; Mdns; Bluetooth; WifiHotspot; Ble; WifiLan; WifiAware; Nfc;
   WifiDirect; WebRtc; BleL2cap; Usb; WebRtcNonCellular; Awdl].

(** A medium is a [HashMap] key. *)
#[export] Program Instance Medium_countable : Countable Medium := {|
  encode m := Pos.of_succ_nat (Z.to_nat (Medium_discriminant m));
  decode p := all_mediums !! Nat.pred (Pos.to_nat p);
|}.
Next Obligation. by intros []. Qed.

(** * Lemmas *)

Lemma Medium_discriminant_range m : (0 <= Medium_discriminant m <= 13)%Z.
Proof. destruct m; simpl; lia. Qed.

Lemma all_mediums_discriminants :
  Medium_discriminant <$> all_mediums = seqZ 0 14.
Proof. reflexivity. Qed.

Lemma elem_of_all_mediums m : m ∈ all_mediums.
Proof. destruct m; unfold all_mediums; set_solver. Qed.
