(* ===== verification/Proto.v ===== *)
(** The wire types of [proto/offline_wire_formats.proto], as prost generates
    them for [src/proto.rs]: one record per message, an [optional] field an
    [option], a [repeated] field a list, an enum field the raw [i32] it is
    decoded to, a [oneof] an [option] of a tagged union.  Every field of every
    message and every enum is here; an enum has its variants, the [i32] of each, and
    [try_from], which refuses the numbers that name no variant.

    [*_ok] says that a record holds values of the Rust field types: integers
    in range and strings of valid UTF-8.  A record of the program always does,
    since the types force it. *)

From Stdlib Require Import ZArith.
From S2P Require Import Prelude.
From S2P Require Import Utf8.

(** * Enums *)

Inductive Version : Type :=
| Ver_UnknownVersion
| Ver_V1.

(** [v as i32]. *)
Definition Version_i32 (v : Version) : Z :=
  match v with
  | Ver_UnknownVersion => 0
  | Ver_V1 => 1
  end%Z.

(** [Version::try_from(i).ok()]. *)
Definition Version_try_from (i : Z) : option Version :=
  match i with
  | 0 => Some Ver_UnknownVersion
  | 1 => Some Ver_V1
  | _ => None
  end%Z.

#[export] Instance Version_eq_dec : EqDecision Version.
Proof. solve_decision. Defined.

Inductive FrameType : Type :=
| Ft_UnknownFrameType
| Ft_ConnectionRequest
| Ft_ConnectionResponse
| Ft_PayloadTransfer
| Ft_BandwidthUpgradeNegotiation
| Ft_KeepAlive
| Ft_Disconnection
| Ft_PairedKeyEncryption
| Ft_AuthenticationMessage
| Ft_AuthenticationResult
| Ft_AutoResume
| Ft_AutoReconnect
| Ft_BandwidthUpgradeRetry.

(** [v as i32]. *)
Definition FrameType_i32 (v : FrameType) : Z :=
  match v with
  | Ft_UnknownFrameType => 0
  | Ft_ConnectionRequest => 1
  | Ft_ConnectionResponse => 2
  | Ft_PayloadTransfer => 3
  | Ft_BandwidthUpgradeNegotiation => 4
  | Ft_KeepAlive => 5
  | Ft_Disconnection => 6
  | Ft_PairedKeyEncryption => 7
  | Ft_AuthenticationMessage => 8
  | Ft_AuthenticationResult => 9
  | Ft_AutoResume => 10
  | Ft_AutoReconnect => 11
  | Ft_BandwidthUpgradeRetry => 12
  end%Z.

(** [FrameType::try_from(i).ok()]. *)
Definition FrameType_try_from (i : Z) : option FrameType :=
  match i with
  | 0 => Some Ft_UnknownFrameType
  | 1 => Some Ft_ConnectionRequest
  | 2 => Some Ft_ConnectionResponse
  | 3 => Some Ft_PayloadTransfer
  | 4 => Some Ft_BandwidthUpgradeNegotiation
  | 5 => Some Ft_KeepAlive
  | 6 => Some Ft_Disconnection
  | 7 => Some Ft_PairedKeyEncryption
  | 8 => Some Ft_AuthenticationMessage
  | 9 => Some Ft_AuthenticationResult
  | 10 => Some Ft_AutoResume
  | 11 => Some Ft_AutoReconnect
  | 12 => Some Ft_BandwidthUpgradeRetry
  | _ => None
  end%Z.

#[export] Instance FrameType_eq_dec : EqDecision FrameType.
Proof. solve_decision. Defined.

Inductive ConnectionRequestMedium : Type :=
| Crq_UnknownMedium
| Crq_Mdns
| Crq_Bluetooth
| Crq_WifiHotspot
| Crq_Ble
| Crq_WifiLan
| Crq_WifiAware
| Crq_Nfc
| Crq_WifiDirect
| Crq_WebRtc
| Crq_BleL2cap
| Crq_Usb
| Crq_WebRtcNonCellular
| Crq_Awdl.

(** [v as i32]. *)
Definition ConnectionRequestMedium_i32 (v : ConnectionRequestMedium) : Z :=
  match v with
  | Crq_UnknownMedium => 0
  | Crq_Mdns => 1
  | Crq_Bluetooth => 2
  | Crq_WifiHotspot => 3
  | Crq_Ble => 4
  | Crq_WifiLan => 5
  | Crq_WifiAware => 6
  | Crq_Nfc => 7
  | Crq_WifiDirect => 8
  | Crq_WebRtc => 9
  | Crq_BleL2cap => 10
  | Crq_Usb => 11
  | Crq_WebRtcNonCellular => 12
  | Crq_Awdl => 13
  end%Z.

(** [ConnectionRequestMedium::try_from(i).ok()]. *)
Definition ConnectionRequestMedium_try_from (i : Z) : option ConnectionRequestMedium :=
  match i with
  | 0 => Some Crq_UnknownMedium
  | 1 => Some Crq_Mdns
  | 2 => Some Crq_Bluetooth
  | 3 => Some Crq_WifiHotspot
  | 4 => Some Crq_Ble
  | 5 => Some Crq_WifiLan
  | 6 => Some Crq_WifiAware
  | 7 => Some Crq_Nfc
  | 8 => Some Crq_WifiDirect
  | 9 => Some Crq_WebRtc
  | 10 => Some Crq_BleL2cap
  | 11 => Some Crq_Usb
  | 12 => Some Crq_WebRtcNonCellular
  | 13 => Some Crq_Awdl
  | _ => None
  end%Z.

#[export] Instance ConnectionRequestMedium_eq_dec : EqDecision ConnectionRequestMedium.
Proof. solve_decision. Defined.

Inductive ResponseStatus : Type :=
| Rs_UnknownResponseStatus
| Rs_Accept
| Rs_Reject.

(** [v as i32]. *)
Definition ResponseStatus_i32 (v : ResponseStatus) : Z :=
  match v with
  | Rs_UnknownResponseStatus => 0
  | Rs_Accept => 1
  | Rs_Reject => 2
  end%Z.

(** [ResponseStatus::try_from(i).ok()]. *)
Definition ResponseStatus_try_from (i : Z) : option ResponseStatus :=
  match i with
  | 0 => Some Rs_UnknownResponseStatus
  | 1 => Some Rs_Accept
  | 2 => Some Rs_Reject
  | _ => None
  end%Z.

#[export] Instance ResponseStatus_eq_dec : EqDecision ResponseStatus.
Proof. solve_decision. Defined.

Inductive PacketType : Type :=
| Pt_UnknownPacketType
| Pt_Data
| Pt_Control
| Pt_PayloadAck.

(** [v as i32]. *)
Definition PacketType_i32 (v : PacketType) : Z :=
  match v with
  | Pt_UnknownPacketType => 0
  | Pt_Data => 1
  | Pt_Control => 2
  | Pt_PayloadAck => 3
  end%Z.

(** [PacketType::try_from(i).ok()]. *)
Definition PacketType_try_from (i : Z) : option PacketType :=
  match i with
  | 0 => Some Pt_UnknownPacketType
  | 1 => Some Pt_Data
  | 2 => Some Pt_Control
  | 3 => Some Pt_PayloadAck
  | _ => None
  end%Z.

#[export] Instance PacketType_eq_dec : EqDecision PacketType.
Proof. solve_decision. Defined.

Inductive PayloadType : Type :=
| Pl_UnknownPayloadType
| Pl_Bytes
| Pl_File
| Pl_Stream.

(** [v as i32]. *)
Definition PayloadType_i32 (v : PayloadType) : Z :=
  match v with
  | Pl_UnknownPayloadType => 0
  | Pl_Bytes => 1
  | Pl_File => 2
  | Pl_Stream => 3
  end%Z.

(** [PayloadType::try_from(i).ok()]. *)
Definition PayloadType_try_from (i : Z) : option PayloadType :=
  match i with
  | 0 => Some Pl_UnknownPayloadType
  | 1 => Some Pl_Bytes
  | 2 => Some Pl_File
  | 3 => Some Pl_Stream
  | _ => None
  end%Z.

#[export] Instance PayloadType_eq_dec : EqDecision PayloadType.
Proof. solve_decision. Defined.

Inductive ChunkFlags : Type :=
| Fl_LastChunk.

(** [v as i32]. *)
Definition ChunkFlags_i32 (v : ChunkFlags) : Z :=
  match v with
  | Fl_LastChunk => 1
  end%Z.

(** [ChunkFlags::try_from(i).ok()]. *)
Definition ChunkFlags_try_from (i : Z) : option ChunkFlags :=
  match i with
  | 1 => Some Fl_LastChunk
  | _ => None
  end%Z.

#[export] Instance ChunkFlags_eq_dec : EqDecision ChunkFlags.
Proof. solve_decision. Defined.

Inductive BwuEventType : Type :=
| Ev_UnknownEventType
| Ev_UpgradePathAvailable
| Ev_LastWriteToPriorChannel
| Ev_SafeToClosePriorChannel
| Ev_ClientIntroduction
| Ev_UpgradeFailure
| Ev_ClientIntroductionAck
| Ev_UpgradePathRequest.

(** [v as i32]. *)
Definition BwuEventType_i32 (v : BwuEventType) : Z :=
  match v with
  | Ev_UnknownEventType => 0
  | Ev_UpgradePathAvailable => 1
  | Ev_LastWriteToPriorChannel => 2
  | Ev_SafeToClosePriorChannel => 3
  | Ev_ClientIntroduction => 4
  | Ev_UpgradeFailure => 5
  | Ev_ClientIntroductionAck => 6
  | Ev_UpgradePathRequest => 7
  end%Z.

(** [BwuEventType::try_from(i).ok()]. *)
Definition BwuEventType_try_from (i : Z) : option BwuEventType :=
  match i with
  | 0 => Some Ev_UnknownEventType
  | 1 => Some Ev_UpgradePathAvailable
  | 2 => Some Ev_LastWriteToPriorChannel
  | 3 => Some Ev_SafeToClosePriorChannel
  | 4 => Some Ev_ClientIntroduction
  | 5 => Some Ev_UpgradeFailure
  | 6 => Some Ev_ClientIntroductionAck
  | 7 => Some Ev_UpgradePathRequest
  | _ => None
  end%Z.

#[export] Instance BwuEventType_eq_dec : EqDecision BwuEventType.
Proof. solve_decision. Defined.

Inductive UpgradePathMedium : Type :=
| Upi_UnknownMedium
| Upi_Mdns
| Upi_Bluetooth
| Upi_WifiHotspot
| Upi_Ble
| Upi_WifiLan
| Upi_WifiAware
| Upi_Nfc
| Upi_WifiDirect
| Upi_WebRtc
| Upi_Usb
| Upi_WebRtcNonCellular
| Upi_Awdl.

(** [v as i32]. *)
Definition UpgradePathMedium_i32 (v : UpgradePathMedium) : Z :=
  match v with
  | Upi_UnknownMedium => 0
  | Upi_Mdns => 1
  | Upi_Bluetooth => 2
  | Upi_WifiHotspot => 3
  | Upi_Ble => 4
  | Upi_WifiLan => 5
  | Upi_WifiAware => 6
  | Upi_Nfc => 7
  | Upi_WifiDirect => 8
  | Upi_WebRtc => 9
  | Upi_Usb => 11
  | Upi_WebRtcNonCellular => 12
  | Upi_Awdl => 13
  end%Z.

(** [UpgradePathMedium::try_from(i).ok()]. *)
Definition UpgradePathMedium_try_from (i : Z) : option UpgradePathMedium :=
  match i with
  | 0 => Some Upi_UnknownMedium
  | 1 => Some Upi_Mdns
  | 2 => Some Upi_Bluetooth
  | 3 => Some Upi_WifiHotspot
  | 4 => Some Upi_Ble
  | 5 => Some Upi_WifiLan
  | 6 => Some Upi_WifiAware
  | 7 => Some Upi_Nfc
  | 8 => Some Upi_WifiDirect
  | 9 => Some Upi_WebRtc
  | 11 => Some Upi_Usb
  | 12 => Some Upi_WebRtcNonCellular
  | 13 => Some Upi_Awdl
  | _ => None
  end%Z.

#[export] Instance UpgradePathMedium_eq_dec : EqDecision UpgradePathMedium.
Proof. solve_decision. Defined.

Inductive PbWifiDirectAuthType : Type :=
| Mm_WifiDirectTypeUnknown
| Mm_WifiDirectWithPassword
| Mm_WifiDirectWithPin
| Mm_WifiDirectWithDeviceName.

(** [v as i32]. *)
Definition PbWifiDirectAuthType_i32 (v : PbWifiDirectAuthType) : Z :=
  match v with
  | Mm_WifiDirectTypeUnknown => 0
  | Mm_WifiDirectWithPassword => 1
  | Mm_WifiDirectWithPin => 2
  | Mm_WifiDirectWithDeviceName => 3
  end%Z.

(** [PbWifiDirectAuthType::try_from(i).ok()]. *)
Definition PbWifiDirectAuthType_try_from (i : Z) : option PbWifiDirectAuthType :=
  match i with
  | 0 => Some Mm_WifiDirectTypeUnknown
  | 1 => Some Mm_WifiDirectWithPassword
  | 2 => Some Mm_WifiDirectWithPin
  | 3 => Some Mm_WifiDirectWithDeviceName
  | _ => None
  end%Z.

#[export] Instance PbWifiDirectAuthType_eq_dec : EqDecision PbWifiDirectAuthType.
Proof. solve_decision. Defined.

(** The enums of fields that no code of the crate reads. *)
Inductive ConnectionMode : Type :=
| Cmo_Legacy
| Cmo_Instant.

(** [v as i32]. *)
Definition ConnectionMode_i32 (v : ConnectionMode) : Z :=
  match v with
  | Cmo_Legacy => 0
  | Cmo_Instant => 1
  end%Z.

(** [ConnectionMode::try_from(i).ok()]. *)
Definition ConnectionMode_try_from (i : Z) : option ConnectionMode :=
  match i with
  | 0 => Some Cmo_Legacy
  | 1 => Some Cmo_Instant
  | _ => None
  end%Z.

#[export] Instance ConnectionMode_eq_dec : EqDecision ConnectionMode.
Proof. solve_decision. Defined.

Inductive ControlEventType : Type :=
| Ctl_UnknownEventType
| Ctl_PayloadError
| Ctl_PayloadCanceled
| Ctl_PayloadReceivedAck.

(** [v as i32]. *)
Definition ControlEventType_i32 (v : ControlEventType) : Z :=
  match v with
  | Ctl_UnknownEventType => 0
  | Ctl_PayloadError => 1
  | Ctl_PayloadCanceled => 2
  | Ctl_PayloadReceivedAck => 3
  end%Z.

(** [ControlEventType::try_from(i).ok()]. *)
Definition ControlEventType_try_from (i : Z) : option ControlEventType :=
  match i with
  | 0 => Some Ctl_UnknownEventType
  | 1 => Some Ctl_PayloadError
  | 2 => Some Ctl_PayloadCanceled
  | 3 => Some Ctl_PayloadReceivedAck
  | _ => None
  end%Z.

#[export] Instance ControlEventType_eq_dec : EqDecision ControlEventType.
Proof. solve_decision. Defined.

Inductive RetryMedium : Type :=
| Rtm_UnknownMedium
| Rtm_Bluetooth
| Rtm_WifiHotspot
| Rtm_Ble
| Rtm_WifiLan
| Rtm_WifiAware
| Rtm_Nfc
| Rtm_WifiDirect
| Rtm_WebRtc
| Rtm_BleL2cap
| Rtm_Usb
| Rtm_WebRtcNonCellular
| Rtm_Awdl.

(** [v as i32]. *)
Definition RetryMedium_i32 (v : RetryMedium) : Z :=
  match v with
  | Rtm_UnknownMedium => 0
  | Rtm_Bluetooth => 2
  | Rtm_WifiHotspot => 3
  | Rtm_Ble => 4
  | Rtm_WifiLan => 5
  | Rtm_WifiAware => 6
  | Rtm_Nfc => 7
  | Rtm_WifiDirect => 8
  | Rtm_WebRtc => 9
  | Rtm_BleL2cap => 10
  | Rtm_Usb => 11
  | Rtm_WebRtcNonCellular => 12
  | Rtm_Awdl => 13
  end%Z.

(** [RetryMedium::try_from(i).ok()]. *)
Definition RetryMedium_try_from (i : Z) : option RetryMedium :=
  match i with
  | 0 => Some Rtm_UnknownMedium
  | 2 => Some Rtm_Bluetooth
  | 3 => Some Rtm_WifiHotspot
  | 4 => Some Rtm_Ble
  | 5 => Some Rtm_WifiLan
  | 6 => Some Rtm_WifiAware
  | 7 => Some Rtm_Nfc
  | 8 => Some Rtm_WifiDirect
  | 9 => Some Rtm_WebRtc
  | 10 => Some Rtm_BleL2cap
  | 11 => Some Rtm_Usb
  | 12 => Some Rtm_WebRtcNonCellular
  | 13 => Some Rtm_Awdl
  | _ => None
  end%Z.

#[export] Instance RetryMedium_eq_dec : EqDecision RetryMedium.
Proof. solve_decision. Defined.

Inductive AutoResumeEventType : Type :=
| Are_UnknownAutoResumeEventType
| Are_PayloadResumeTransferStart
| Are_PayloadResumeTransferAck.

(** [v as i32]. *)
Definition AutoResumeEventType_i32 (v : AutoResumeEventType) : Z :=
  match v with
  | Are_UnknownAutoResumeEventType => 0
  | Are_PayloadResumeTransferStart => 1
  | Are_PayloadResumeTransferAck => 2
  end%Z.

(** [AutoResumeEventType::try_from(i).ok()]. *)
Definition AutoResumeEventType_try_from (i : Z) : option AutoResumeEventType :=
  match i with
  | 0 => Some Are_UnknownAutoResumeEventType
  | 1 => Some Are_PayloadResumeTransferStart
  | 2 => Some Are_PayloadResumeTransferAck
  | _ => None
  end%Z.

#[export] Instance AutoResumeEventType_eq_dec : EqDecision AutoResumeEventType.
Proof. solve_decision. Defined.

Inductive AutoReconnectEventType : Type :=
| Ace_UnknownEventType
| Ace_ClientIntroduction
| Ace_ClientIntroductionAck.

(** [v as i32]. *)
Definition AutoReconnectEventType_i32 (v : AutoReconnectEventType) : Z :=
  match v with
  | Ace_UnknownEventType => 0
  | Ace_ClientIntroduction => 1
  | Ace_ClientIntroductionAck => 2
  end%Z.

(** [AutoReconnectEventType::try_from(i).ok()]. *)
Definition AutoReconnectEventType_try_from (i : Z) : option AutoReconnectEventType :=
  match i with
  | 0 => Some Ace_UnknownEventType
  | 1 => Some Ace_ClientIntroduction
  | 2 => Some Ace_ClientIntroductionAck
  | _ => None
  end%Z.

#[export] Instance AutoReconnectEventType_eq_dec : EqDecision AutoReconnectEventType.
Proof. solve_decision. Defined.

Inductive LocationFormat : Type :=
| Lof_Unknown
| Lof_E164Calling
| Lof_Iso31661Alpha2.

(** [v as i32]. *)
Definition LocationFormat_i32 (v : LocationFormat) : Z :=
  match v with
  | Lof_Unknown => 0
  | Lof_E164Calling => 1
  | Lof_Iso31661Alpha2 => 2
  end%Z.

(** [LocationFormat::try_from(i).ok()]. *)
Definition LocationFormat_try_from (i : Z) : option LocationFormat :=
  match i with
  | 0 => Some Lof_Unknown
  | 1 => Some Lof_E164Calling
  | 2 => Some Lof_Iso31661Alpha2
  | _ => None
  end%Z.

#[export] Instance LocationFormat_eq_dec : EqDecision LocationFormat.
Proof. solve_decision. Defined.

Inductive OsType : Type :=
| Ost_UnknownOsType
| Ost_Android
| Ost_ChromeOs
| Ost_Windows
| Ost_Apple
| Ost_Linux.

(** [v as i32]. *)
Definition OsType_i32 (v : OsType) : Z :=
  match v with
  | Ost_UnknownOsType => 0
  | Ost_Android => 1
  | Ost_ChromeOs => 2
  | Ost_Windows => 3
  | Ost_Apple => 4
  | Ost_Linux => 100
  end%Z.

(** [OsType::try_from(i).ok()]. *)
Definition OsType_try_from (i : Z) : option OsType :=
  match i with
  | 0 => Some Ost_UnknownOsType
  | 1 => Some Ost_Android
  | 2 => Some Ost_ChromeOs
  | 3 => Some Ost_Windows
  | 4 => Some Ost_Apple
  | 100 => Some Ost_Linux
  | _ => None
  end%Z.

#[export] Instance OsType_eq_dec : EqDecision OsType.
Proof. solve_decision. Defined.

Inductive EndpointType : Type :=
| Ept_UnknownEndpoint
| Ept_ConnectionsEndpoint
| Ept_PresenceEndpoint.

(** [v as i32]. *)
Definition EndpointType_i32 (v : EndpointType) : Z :=
  match v with
  | Ept_UnknownEndpoint => 0
  | Ept_ConnectionsEndpoint => 1
  | Ept_PresenceEndpoint => 2
  end%Z.

(** [EndpointType::try_from(i).ok()]. *)
Definition EndpointType_try_from (i : Z) : option EndpointType :=
  match i with
  | 0 => Some Ept_UnknownEndpoint
  | 1 => Some Ept_ConnectionsEndpoint
  | 2 => Some Ept_PresenceEndpoint
  | _ => None
  end%Z.

#[export] Instance EndpointType_eq_dec : EqDecision EndpointType.
Proof. solve_decision. Defined.

Inductive DeviceType : Type :=
| Dvt_Unknown
| Dvt_Phone
| Dvt_Tablet
| Dvt_Display
| Dvt_Laptop
| Dvt_Tv
| Dvt_Watch.

(** [v as i32]. *)
Definition DeviceType_i32 (v : DeviceType) : Z :=
  match v with
  | Dvt_Unknown => 0
  | Dvt_Phone => 1
  | Dvt_Tablet => 2
  | Dvt_Display => 3
  | Dvt_Laptop => 4
  | Dvt_Tv => 5
  | Dvt_Watch => 6
  end%Z.

(** [DeviceType::try_from(i).ok()]. *)
Definition DeviceType_try_from (i : Z) : option DeviceType :=
  match i with
  | 0 => Some Dvt_Unknown
  | 1 => Some Dvt_Phone
  | 2 => Some Dvt_Tablet
  | 3 => Some Dvt_Display
  | 4 => Some Dvt_Laptop
  | 5 => Some Dvt_Tv
  | 6 => Some Dvt_Watch
  | _ => None
  end%Z.

#[export] Instance DeviceType_eq_dec : EqDecision DeviceType.
Proof. solve_decision. Defined.

(** * Messages *)

Record AvailableChannels : Type := mkAvailableChannels {
  ach_channels : list Z
}.

Record WifiDirectCliUsableChannels : Type := mkWifiDirectCliUsableChannels {
  wdch_channels : list Z
}.

Record WifiLanUsableChannels : Type := mkWifiLanUsableChannels {
  wlch_channels : list Z
}.

Record WifiAwareUsableChannels : Type := mkWifiAwareUsableChannels {
  wach_channels : list Z
}.

Record WifiHotspotStaUsableChannels : Type := mkWifiHotspotStaUsableChannels {
  whch_channels : list Z
}.

Record MediumRole : Type := mkMediumRole {
  mr_support_wifi_direct_group_owner : option bool;
  mr_support_wifi_direct_group_client : option bool;
  mr_support_wifi_hotspot_host : option bool;
  mr_support_wifi_hotspot_client : option bool;
  mr_support_wifi_aware_publisher : option bool;
  mr_support_wifi_aware_subscriber : option bool;
  mr_support_awdl_publisher : option bool;
  mr_support_awdl_subscriber : option bool
}.

Record MediumMetadata : Type := mkMediumMetadata {
  mm_supports_5_ghz : option bool;
  mm_bssid : option string;
  mm_ip_address : option bytes;
  mm_supports_6_ghz : option bool;
  mm_mobile_radio : option bool;
  mm_ap_frequency : option Z;
  mm_available_channels : option AvailableChannels;
  mm_wifi_direct_cli_usable_channels : option WifiDirectCliUsableChannels;
  mm_wifi_lan_usable_channels : option WifiLanUsableChannels;
  mm_wifi_aware_usable_channels : option WifiAwareUsableChannels;
  mm_wifi_hotspot_sta_usable_channels : option WifiHotspotStaUsableChannels;
  mm_medium_role : option MediumRole;
  mm_supported_wifi_direct_auth_types : list Z
}.

Record ConnectionsDevice : Type := mkConnectionsDevice {
  cd_endpoint_id : option string;
  cd_endpoint_type : option Z;
  cd_connectivity_info_list : option bytes;
  cd_endpoint_info : option bytes
}.

Record PresenceDevice : Type := mkPresenceDevice {
  pd_endpoint_id : option string;
  pd_endpoint_type : option Z;
  pd_connectivity_info_list : option bytes;
  pd_device_id : option Z;
  pd_device_name : option string;
  pd_device_type : option Z;
  pd_device_image_url : option string;
  pd_discovery_medium : list Z;
  pd_actions : list Z;
  pd_identity_type : list Z
}.

Record LocationHint : Type := mkLocationHint {
  lh_location : option string;
  lh_format : option Z
}.

(** The [oneof Device] of [ConnectionRequestFrame]. *)
Inductive Device : Type :=
| Device_ConnectionsDevice (d : ConnectionsDevice)
| Device_PresenceDevice (d : PresenceDevice).

Record ConnectionRequestFrame : Type := mkConnectionRequestFrame {
  crq_endpoint_id : option string;
  crq_endpoint_name : option string;
  crq_handshake_data : option bytes;
  crq_nonce : option Z;
  crq_mediums : list Z;
  crq_endpoint_info : option bytes;
  crq_medium_metadata : option MediumMetadata;
  crq_keep_alive_interval_millis : option Z;
  crq_keep_alive_timeout_millis : option Z;
  crq_device_type : option Z;
  crq_device_info : option bytes;
  crq_device : option Device;
  crq_connection_mode : option Z;
  crq_location_hint : option LocationHint
}.

Record OsInfo : Type := mkOsInfo {
  os_type : option Z
}.

Record ConnectionResponseFrame : Type := mkConnectionResponseFrame {
  crs_status : option Z;
  crs_handshake_data : option bytes;
  crs_response : option Z;
  crs_os_info : option OsInfo;
  crs_multiplex_socket_bitmask : option Z;
  crs_nearby_connections_version : option Z;
  crs_safe_to_disconnect_version : option Z;
  crs_location_hint : option LocationHint;
  crs_keep_alive_timeout_millis : option Z
}.

Record PayloadHeader : Type := mkPayloadHeader {
  ph_id : option Z;
  ph_type : option Z;
  ph_total_size : option Z;
  ph_is_sensitive : option bool;
  ph_file_name : option string;
  ph_parent_folder : option string;
  ph_last_modified_timestamp_millis : option Z
}.

Record PayloadChunk : Type := mkPayloadChunk {
  pc_flags : option Z;
  pc_offset : option Z;
  pc_body : option bytes;
  pc_index : option Z
}.

Record ControlMessage : Type := mkControlMessage {
  cm_event : option Z;
  cm_offset : option Z
}.

Record PayloadTransferFrame : Type := mkPayloadTransferFrame {
  ptf_packet_type : option Z;
  ptf_payload_header : option PayloadHeader;
  ptf_payload_chunk : option PayloadChunk;
  ptf_control_message : option ControlMessage
}.

Record PbServiceAddress : Type := mkPbServiceAddress {
  pbsa_ip_address : option bytes;
  pbsa_port : option Z
}.

Record WifiHotspotCredentials : Type := mkWifiHotspotCredentials {
  whc_ssid : option string;
  whc_password : option string;
  whc_port : option Z;
  whc_gateway : option string;
  whc_frequency : option Z;
  whc_address_candidates : list PbServiceAddress
}.

Record WifiLanSocket : Type := mkWifiLanSocket {
  wls_ip_address : option bytes;
  wls_wifi_port : option Z;
  wls_address_candidates : list PbServiceAddress
}.

Record BluetoothCredentials : Type := mkBluetoothCredentials {
  btc_service_name : option string;
  btc_mac_address : option string
}.

Record WifiAwareCredentials : Type := mkWifiAwareCredentials {
  wac_service_id : option string;
  wac_service_info : option bytes;
  wac_password : option string
}.

Record WifiDirectCredentials : Type := mkWifiDirectCredentials {
  wdc_ssid : option string;
  wdc_password : option string;
  wdc_port : option Z;
  wdc_frequency : option Z;
  wdc_gateway : option string;
  wdc_ip_v6_address : option bytes;
  wdc_service_name : option string;
  wdc_device_name : option string;
  wdc_pin : option string
}.

Record WebRtcCredentials : Type := mkWebRtcCredentials {
  wrc_peer_id : option string;
  wrc_location_hint : option LocationHint
}.

Record AwdlCredentials : Type := mkAwdlCredentials {
  awc_service_name : option string;
  awc_service_type : option string;
  awc_password : option string
}.

Record UpgradePathRequest : Type := mkUpgradePathRequest {
  upr_mediums : list Z;
  upr_medium_meta_data : option MediumMetadata
}.

Record UpgradePathInfo : Type := mkUpgradePathInfo {
  upi_medium : option Z;
  upi_wifi_hotspot_credentials : option WifiHotspotCredentials;
  upi_wifi_lan_socket : option WifiLanSocket;
  upi_bluetooth_credentials : option BluetoothCredentials;
  upi_wifi_aware_credentials : option WifiAwareCredentials;
  upi_wifi_direct_credentials : option WifiDirectCredentials;
  upi_web_rtc_credentials : option WebRtcCredentials;
  upi_awdl_credentials : option AwdlCredentials;
  upi_supports_disabling_encryption : option bool;
  upi_supports_client_introduction_ack : option bool;
  upi_upgrade_path_request : option UpgradePathRequest
}.

Record ClientIntroduction : Type := mkClientIntroduction {
  ci_endpoint_id : option string;
  ci_supports_disabling_encryption : option bool;
  ci_last_endpoint_id : option string
}.

Record ClientIntroductionAck : Type := mkClientIntroductionAck {

}.

Record SafeToClosePriorChannel : Type := mkSafeToClosePriorChannel {
  stc_sta_frequency : option Z
}.

Record BandwidthUpgradeNegotiationFrame : Type := mkBandwidthUpgradeNegotiationFrame {
  bwu_event_type : option Z;
  bwu_upgrade_path_info : option UpgradePathInfo;
  bwu_client_introduction : option ClientIntroduction;
  bwu_client_introduction_ack : option ClientIntroductionAck;
  bwu_safe_to_close_prior_channel : option SafeToClosePriorChannel
}.

Record KeepAliveFrame : Type := mkKeepAliveFrame {
  ka_ack : option bool;
  ka_seq_num : option Z
}.

Record DisconnectionFrame : Type := mkDisconnectionFrame {
  dis_request_safe_to_disconnect : option bool;
  dis_ack_safe_to_disconnect : option bool
}.

Record PairedKeyEncryptionFrame : Type := mkPairedKeyEncryptionFrame {
  pke_signed_data : option bytes
}.

Record AuthenticationMessageFrame : Type := mkAuthenticationMessageFrame {
  amf_auth_message : option bytes
}.

Record AuthenticationResultFrame : Type := mkAuthenticationResultFrame {
  arf_result : option Z
}.

Record AutoResumeFrame : Type := mkAutoResumeFrame {
  aru_event_type : option Z;
  aru_pending_payload_id : option Z;
  aru_next_payload_chunk_index : option Z;
  aru_version : option Z
}.

Record AutoReconnectFrame : Type := mkAutoReconnectFrame {
  arc_endpoint_id : option string;
  arc_event_type : option Z;
  arc_last_endpoint_id : option string
}.

Record BandwidthUpgradeRetryFrame : Type := mkBandwidthUpgradeRetryFrame {
  bur_supported_medium : list Z;
  bur_is_request : option bool
}.

Record V1Frame : Type := mkV1Frame {
  v1_type : option Z;
  v1_connection_request : option ConnectionRequestFrame;
  v1_connection_response : option ConnectionResponseFrame;
  v1_payload_transfer : option PayloadTransferFrame;
  v1_bandwidth_upgrade_negotiation : option BandwidthUpgradeNegotiationFrame;
  v1_keep_alive : option KeepAliveFrame;
  v1_disconnection : option DisconnectionFrame;
  v1_paired_key_encryption : option PairedKeyEncryptionFrame;
  v1_authentication_message : option AuthenticationMessageFrame;
  v1_authentication_result : option AuthenticationResultFrame;
  v1_auto_resume : option AutoResumeFrame;
  v1_auto_reconnect : option AutoReconnectFrame;
  v1_bandwidth_upgrade_retry : option BandwidthUpgradeRetryFrame
}.

Record OfflineFrame : Type := mkOfflineFrame {
  of_version : option Z;
  of_v1 : option V1Frame
}.

(** * [Default::default()] *)

Definition AvailableChannels_default : AvailableChannels := mkAvailableChannels [].
Definition WifiDirectCliUsableChannels_default : WifiDirectCliUsableChannels := mkWifiDirectCliUsableChannels [].
Definition WifiLanUsableChannels_default : WifiLanUsableChannels := mkWifiLanUsableChannels [].
Definition WifiAwareUsableChannels_default : WifiAwareUsableChannels := mkWifiAwareUsableChannels [].
Definition WifiHotspotStaUsableChannels_default : WifiHotspotStaUsableChannels := mkWifiHotspotStaUsableChannels [].
Definition MediumRole_default : MediumRole := mkMediumRole None None None None None None None None.
Definition MediumMetadata_default : MediumMetadata := mkMediumMetadata None None None None None None None None None None None None [].
Definition ConnectionsDevice_default : ConnectionsDevice := mkConnectionsDevice None None None None.
Definition PresenceDevice_default : PresenceDevice := mkPresenceDevice None None None None None None None [] [] [].
Definition LocationHint_default : LocationHint := mkLocationHint None None.
Definition ConnectionRequestFrame_default : ConnectionRequestFrame := mkConnectionRequestFrame None None None None [] None None None None None None None None None.
Definition OsInfo_default : OsInfo := mkOsInfo None.
Definition ConnectionResponseFrame_default : ConnectionResponseFrame := mkConnectionResponseFrame None None None None None None None None None.
Definition PayloadHeader_default : PayloadHeader := mkPayloadHeader None None None None None None None.
Definition PayloadChunk_default : PayloadChunk := mkPayloadChunk None None None None.
Definition ControlMessage_default : ControlMessage := mkControlMessage None None.
Definition PayloadTransferFrame_default : PayloadTransferFrame := mkPayloadTransferFrame None None None None.
Definition PbServiceAddress_default : PbServiceAddress := mkPbServiceAddress None None.
Definition WifiHotspotCredentials_default : WifiHotspotCredentials := mkWifiHotspotCredentials None None None None None [].
Definition WifiLanSocket_default : WifiLanSocket := mkWifiLanSocket None None [].
Definition BluetoothCredentials_default : BluetoothCredentials := mkBluetoothCredentials None None.
Definition WifiAwareCredentials_default : WifiAwareCredentials := mkWifiAwareCredentials None None None.
Definition WifiDirectCredentials_default : WifiDirectCredentials := mkWifiDirectCredentials None None None None None None None None None.
Definition WebRtcCredentials_default : WebRtcCredentials := mkWebRtcCredentials None None.
Definition AwdlCredentials_default : AwdlCredentials := mkAwdlCredentials None None None.
Definition UpgradePathRequest_default : UpgradePathRequest := mkUpgradePathRequest [] None.
Definition UpgradePathInfo_default : UpgradePathInfo := mkUpgradePathInfo None None None None None None None None None None None.
Definition ClientIntroduction_default : ClientIntroduction := mkClientIntroduction None None None.
Definition ClientIntroductionAck_default : ClientIntroductionAck := mkClientIntroductionAck.
Definition SafeToClosePriorChannel_default : SafeToClosePriorChannel := mkSafeToClosePriorChannel None.
Definition BandwidthUpgradeNegotiationFrame_default : BandwidthUpgradeNegotiationFrame := mkBandwidthUpgradeNegotiationFrame None None None None None.
Definition KeepAliveFrame_default : KeepAliveFrame := mkKeepAliveFrame None None.
Definition DisconnectionFrame_default : DisconnectionFrame := mkDisconnectionFrame None None.
Definition PairedKeyEncryptionFrame_default : PairedKeyEncryptionFrame := mkPairedKeyEncryptionFrame None.
Definition AuthenticationMessageFrame_default : AuthenticationMessageFrame := mkAuthenticationMessageFrame None.
Definition AuthenticationResultFrame_default : AuthenticationResultFrame := mkAuthenticationResultFrame None.
Definition AutoResumeFrame_default : AutoResumeFrame := mkAutoResumeFrame None None None None.
Definition AutoReconnectFrame_default : AutoReconnectFrame := mkAutoReconnectFrame None None None.
Definition BandwidthUpgradeRetryFrame_default : BandwidthUpgradeRetryFrame := mkBandwidthUpgradeRetryFrame [] None.
Definition V1Frame_default : V1Frame := mkV1Frame None None None None None None None None None None None None None.
Definition OfflineFrame_default : OfflineFrame := mkOfflineFrame None None.

(** * Values of the field types *)

Definition AvailableChannels_ok (r : AvailableChannels) : bool :=
  forallb i32_ok (r.(ach_channels)).
Definition WifiDirectCliUsableChannels_ok (r : WifiDirectCliUsableChannels) : bool :=
  forallb i32_ok (r.(wdch_channels)).
Definition WifiLanUsableChannels_ok (r : WifiLanUsableChannels) : bool :=
  forallb i32_ok (r.(wlch_channels)).
Definition WifiAwareUsableChannels_ok (r : WifiAwareUsableChannels) : bool :=
  forallb i32_ok (r.(wach_channels)).
Definition WifiHotspotStaUsableChannels_ok (r : WifiHotspotStaUsableChannels) : bool :=
  forallb i32_ok (r.(whch_channels)).
Definition MediumRole_ok (_ : MediumRole) : bool :=
  true.
Definition MediumMetadata_ok (r : MediumMetadata) : bool :=
  opt_all string_ok (r.(mm_bssid))
  && opt_all i32_ok (r.(mm_ap_frequency))
  && opt_all AvailableChannels_ok (r.(mm_available_channels))
  && opt_all WifiDirectCliUsableChannels_ok (r.(mm_wifi_direct_cli_usable_channels))
  && opt_all WifiLanUsableChannels_ok (r.(mm_wifi_lan_usable_channels))
  && opt_all WifiAwareUsableChannels_ok (r.(mm_wifi_aware_usable_channels))
  && opt_all WifiHotspotStaUsableChannels_ok (r.(mm_wifi_hotspot_sta_usable_channels))
  && opt_all MediumRole_ok (r.(mm_medium_role))
  && forallb i32_ok (r.(mm_supported_wifi_direct_auth_types)).
Definition ConnectionsDevice_ok (r : ConnectionsDevice) : bool :=
  opt_all string_ok (r.(cd_endpoint_id))
  && opt_all i32_ok (r.(cd_endpoint_type)).
Definition PresenceDevice_ok (r : PresenceDevice) : bool :=
  opt_all string_ok (r.(pd_endpoint_id))
  && opt_all i32_ok (r.(pd_endpoint_type))
  && opt_all i64_ok (r.(pd_device_id))
  && opt_all string_ok (r.(pd_device_name))
  && opt_all i32_ok (r.(pd_device_type))
  && opt_all string_ok (r.(pd_device_image_url))
  && forallb i32_ok (r.(pd_discovery_medium))
  && forallb i32_ok (r.(pd_actions))
  && forallb i64_ok (r.(pd_identity_type)).
Definition LocationHint_ok (r : LocationHint) : bool :=
  opt_all string_ok (r.(lh_location))
  && opt_all i32_ok (r.(lh_format)).
Definition Device_ok (d : Device) : bool :=
  match d with
  | Device_ConnectionsDevice d => ConnectionsDevice_ok d
  | Device_PresenceDevice d => PresenceDevice_ok d
  end.
Definition ConnectionRequestFrame_ok (r : ConnectionRequestFrame) : bool :=
  opt_all string_ok (r.(crq_endpoint_id))
  && opt_all string_ok (r.(crq_endpoint_name))
  && opt_all i32_ok (r.(crq_nonce))
  && forallb i32_ok (r.(crq_mediums))
  && opt_all MediumMetadata_ok (r.(crq_medium_metadata))
  && opt_all i32_ok (r.(crq_keep_alive_interval_millis))
  && opt_all i32_ok (r.(crq_keep_alive_timeout_millis))
  && opt_all i32_ok (r.(crq_device_type))
  && opt_all Device_ok (r.(crq_device))
  && opt_all i32_ok (r.(crq_connection_mode))
  && opt_all LocationHint_ok (r.(crq_location_hint)).
Definition OsInfo_ok (r : OsInfo) : bool :=
  opt_all i32_ok (r.(os_type)).
Definition ConnectionResponseFrame_ok (r : ConnectionResponseFrame) : bool :=
  opt_all i32_ok (r.(crs_status))
  && opt_all i32_ok (r.(crs_response))
  && opt_all OsInfo_ok (r.(crs_os_info))
  && opt_all i32_ok (r.(crs_multiplex_socket_bitmask))
  && opt_all i32_ok (r.(crs_nearby_connections_version))
  && opt_all i32_ok (r.(crs_safe_to_disconnect_version))
  && opt_all LocationHint_ok (r.(crs_location_hint))
  && opt_all i32_ok (r.(crs_keep_alive_timeout_millis)).
Definition PayloadHeader_ok (r : PayloadHeader) : bool :=
  opt_all i64_ok (r.(ph_id))
  && opt_all i32_ok (r.(ph_type))
  && opt_all i64_ok (r.(ph_total_size))
  && opt_all string_ok (r.(ph_file_name))
  && opt_all string_ok (r.(ph_parent_folder))
  && opt_all i64_ok (r.(ph_last_modified_timestamp_millis)).
Definition PayloadChunk_ok (r : PayloadChunk) : bool :=
  opt_all i32_ok (r.(pc_flags))
  && opt_all i64_ok (r.(pc_offset))
  && opt_all i32_ok (r.(pc_index)).
Definition ControlMessage_ok (r : ControlMessage) : bool :=
  opt_all i32_ok (r.(cm_event))
  && opt_all i64_ok (r.(cm_offset)).
Definition PayloadTransferFrame_ok (r : PayloadTransferFrame) : bool :=
  opt_all i32_ok (r.(ptf_packet_type))
  && opt_all PayloadHeader_ok (r.(ptf_payload_header))
  && opt_all PayloadChunk_ok (r.(ptf_payload_chunk))
  && opt_all ControlMessage_ok (r.(ptf_control_message)).
Definition PbServiceAddress_ok (r : PbServiceAddress) : bool :=
  opt_all i32_ok (r.(pbsa_port)).
Definition WifiHotspotCredentials_ok (r : WifiHotspotCredentials) : bool :=
  opt_all string_ok (r.(whc_ssid))
  && opt_all string_ok (r.(whc_password))
  && opt_all i32_ok (r.(whc_port))
  && opt_all string_ok (r.(whc_gateway))
  && opt_all i32_ok (r.(whc_frequency))
  && forallb PbServiceAddress_ok (r.(whc_address_candidates)).
Definition WifiLanSocket_ok (r : WifiLanSocket) : bool :=
  opt_all i32_ok (r.(wls_wifi_port))
  && forallb PbServiceAddress_ok (r.(wls_address_candidates)).
Definition BluetoothCredentials_ok (r : BluetoothCredentials) : bool :=
  opt_all string_ok (r.(btc_service_name))
  && opt_all string_ok (r.(btc_mac_address)).
Definition WifiAwareCredentials_ok (r : WifiAwareCredentials) : bool :=
  opt_all string_ok (r.(wac_service_id))
  && opt_all string_ok (r.(wac_password)).
Definition WifiDirectCredentials_ok (r : WifiDirectCredentials) : bool :=
  opt_all string_ok (r.(wdc_ssid))
  && opt_all string_ok (r.(wdc_password))
  && opt_all i32_ok (r.(wdc_port))
  && opt_all i32_ok (r.(wdc_frequency))
  && opt_all string_ok (r.(wdc_gateway))
  && opt_all string_ok (r.(wdc_service_name))
  && opt_all string_ok (r.(wdc_device_name))
  && opt_all string_ok (r.(wdc_pin)).
Definition WebRtcCredentials_ok (r : WebRtcCredentials) : bool :=
  opt_all string_ok (r.(wrc_peer_id))
  && opt_all LocationHint_ok (r.(wrc_location_hint)).
Definition AwdlCredentials_ok (r : AwdlCredentials) : bool :=
  opt_all string_ok (r.(awc_service_name))
  && opt_all string_ok (r.(awc_service_type))
  && opt_all string_ok (r.(awc_password)).
Definition UpgradePathRequest_ok (r : UpgradePathRequest) : bool :=
  forallb i32_ok (r.(upr_mediums))
  && opt_all MediumMetadata_ok (r.(upr_medium_meta_data)).
Definition UpgradePathInfo_ok (r : UpgradePathInfo) : bool :=
  opt_all i32_ok (r.(upi_medium))
  && opt_all WifiHotspotCredentials_ok (r.(upi_wifi_hotspot_credentials))
  && opt_all WifiLanSocket_ok (r.(upi_wifi_lan_socket))
  && opt_all BluetoothCredentials_ok (r.(upi_bluetooth_credentials))
  && opt_all WifiAwareCredentials_ok (r.(upi_wifi_aware_credentials))
  && opt_all WifiDirectCredentials_ok (r.(upi_wifi_direct_credentials))
  && opt_all WebRtcCredentials_ok (r.(upi_web_rtc_credentials))
  && opt_all AwdlCredentials_ok (r.(upi_awdl_credentials))
  && opt_all UpgradePathRequest_ok (r.(upi_upgrade_path_request)).
Definition ClientIntroduction_ok (r : ClientIntroduction) : bool :=
  opt_all string_ok (r.(ci_endpoint_id))
  && opt_all string_ok (r.(ci_last_endpoint_id)).
Definition ClientIntroductionAck_ok (_ : ClientIntroductionAck) : bool :=
  true.
Definition SafeToClosePriorChannel_ok (r : SafeToClosePriorChannel) : bool :=
  opt_all i32_ok (r.(stc_sta_frequency)).
Definition BandwidthUpgradeNegotiationFrame_ok (r : BandwidthUpgradeNegotiationFrame) : bool :=
  opt_all i32_ok (r.(bwu_event_type))
  && opt_all UpgradePathInfo_ok (r.(bwu_upgrade_path_info))
  && opt_all ClientIntroduction_ok (r.(bwu_client_introduction))
  && opt_all ClientIntroductionAck_ok (r.(bwu_client_introduction_ack))
  && opt_all SafeToClosePriorChannel_ok (r.(bwu_safe_to_close_prior_channel)).
Definition KeepAliveFrame_ok (r : KeepAliveFrame) : bool :=
  opt_all u32_ok (r.(ka_seq_num)).
Definition DisconnectionFrame_ok (_ : DisconnectionFrame) : bool :=
  true.
Definition PairedKeyEncryptionFrame_ok (_ : PairedKeyEncryptionFrame) : bool :=
  true.
Definition AuthenticationMessageFrame_ok (_ : AuthenticationMessageFrame) : bool :=
  true.
Definition AuthenticationResultFrame_ok (r : AuthenticationResultFrame) : bool :=
  opt_all i32_ok (r.(arf_result)).
Definition AutoResumeFrame_ok (r : AutoResumeFrame) : bool :=
  opt_all i32_ok (r.(aru_event_type))
  && opt_all i64_ok (r.(aru_pending_payload_id))
  && opt_all i32_ok (r.(aru_next_payload_chunk_index))
  && opt_all i32_ok (r.(aru_version)).
Definition AutoReconnectFrame_ok (r : AutoReconnectFrame) : bool :=
  opt_all string_ok (r.(arc_endpoint_id))
  && opt_all i32_ok (r.(arc_event_type))
  && opt_all string_ok (r.(arc_last_endpoint_id)).
Definition BandwidthUpgradeRetryFrame_ok (r : BandwidthUpgradeRetryFrame) : bool :=
  forallb i32_ok (r.(bur_supported_medium)).
Definition V1Frame_ok (r : V1Frame) : bool :=
  opt_all i32_ok (r.(v1_type))
  && opt_all ConnectionRequestFrame_ok (r.(v1_connection_request))
  && opt_all ConnectionResponseFrame_ok (r.(v1_connection_response))
  && opt_all PayloadTransferFrame_ok (r.(v1_payload_transfer))
  && opt_all BandwidthUpgradeNegotiationFrame_ok (r.(v1_bandwidth_upgrade_negotiation))
  && opt_all KeepAliveFrame_ok (r.(v1_keep_alive))
  && opt_all DisconnectionFrame_ok (r.(v1_disconnection))
  && opt_all PairedKeyEncryptionFrame_ok (r.(v1_paired_key_encryption))
  && opt_all AuthenticationMessageFrame_ok (r.(v1_authentication_message))
  && opt_all AuthenticationResultFrame_ok (r.(v1_authentication_result))
  && opt_all AutoResumeFrame_ok (r.(v1_auto_resume))
  && opt_all AutoReconnectFrame_ok (r.(v1_auto_reconnect))
  && opt_all BandwidthUpgradeRetryFrame_ok (r.(v1_bandwidth_upgrade_retry)).
Definition OfflineFrame_ok (r : OfflineFrame) : bool :=
  opt_all i32_ok (r.(of_version))
  && opt_all V1Frame_ok (r.(of_v1)).

(** * Struct update: the fields a literal or an assignment sets *)

Definition set_mm_supports_5_ghz (v : option bool) (r : MediumMetadata) : MediumMetadata :=
  mkMediumMetadata v r.(mm_bssid) r.(mm_ip_address) r.(mm_supports_6_ghz) r.(mm_mobile_radio) r.(mm_ap_frequency) r.(mm_available_channels) r.(mm_wifi_direct_cli_usable_channels) r.(mm_wifi_lan_usable_channels) r.(mm_wifi_aware_usable_channels) r.(mm_wifi_hotspot_sta_usable_channels) r.(mm_medium_role) r.(mm_supported_wifi_direct_auth_types).
Definition set_mm_bssid (v : option string) (r : MediumMetadata) : MediumMetadata :=
  mkMediumMetadata r.(mm_supports_5_ghz) v r.(mm_ip_address) r.(mm_supports_6_ghz) r.(mm_mobile_radio) r.(mm_ap_frequency) r.(mm_available_channels) r.(mm_wifi_direct_cli_usable_channels) r.(mm_wifi_lan_usable_channels) r.(mm_wifi_aware_usable_channels) r.(mm_wifi_hotspot_sta_usable_channels) r.(mm_medium_role) r.(mm_supported_wifi_direct_auth_types).
Definition set_mm_ap_frequency (v : option Z) (r : MediumMetadata) : MediumMetadata :=
  mkMediumMetadata r.(mm_supports_5_ghz) r.(mm_bssid) r.(mm_ip_address) r.(mm_supports_6_ghz) r.(mm_mobile_radio) v r.(mm_available_channels) r.(mm_wifi_direct_cli_usable_channels) r.(mm_wifi_lan_usable_channels) r.(mm_wifi_aware_usable_channels) r.(mm_wifi_hotspot_sta_usable_channels) r.(mm_medium_role) r.(mm_supported_wifi_direct_auth_types).
Definition set_mm_medium_role (v : option MediumRole) (r : MediumMetadata) : MediumMetadata :=
  mkMediumMetadata r.(mm_supports_5_ghz) r.(mm_bssid) r.(mm_ip_address) r.(mm_supports_6_ghz) r.(mm_mobile_radio) r.(mm_ap_frequency) r.(mm_available_channels) r.(mm_wifi_direct_cli_usable_channels) r.(mm_wifi_lan_usable_channels) r.(mm_wifi_aware_usable_channels) r.(mm_wifi_hotspot_sta_usable_channels) v r.(mm_supported_wifi_direct_auth_types).
Definition set_mm_supported_wifi_direct_auth_types (v : list Z) (r : MediumMetadata) : MediumMetadata :=
  mkMediumMetadata r.(mm_supports_5_ghz) r.(mm_bssid) r.(mm_ip_address) r.(mm_supports_6_ghz) r.(mm_mobile_radio) r.(mm_ap_frequency) r.(mm_available_channels) r.(mm_wifi_direct_cli_usable_channels) r.(mm_wifi_lan_usable_channels) r.(mm_wifi_aware_usable_channels) r.(mm_wifi_hotspot_sta_usable_channels) r.(mm_medium_role) v.
Definition set_crq_endpoint_id (v : option string) (r : ConnectionRequestFrame) : ConnectionRequestFrame :=
  mkConnectionRequestFrame v r.(crq_endpoint_name) r.(crq_handshake_data) r.(crq_nonce) r.(crq_mediums) r.(crq_endpoint_info) r.(crq_medium_metadata) r.(crq_keep_alive_interval_millis) r.(crq_keep_alive_timeout_millis) r.(crq_device_type) r.(crq_device_info) r.(crq_device) r.(crq_connection_mode) r.(crq_location_hint).
Definition set_crq_endpoint_name (v : option string) (r : ConnectionRequestFrame) : ConnectionRequestFrame :=
  mkConnectionRequestFrame r.(crq_endpoint_id) v r.(crq_handshake_data) r.(crq_nonce) r.(crq_mediums) r.(crq_endpoint_info) r.(crq_medium_metadata) r.(crq_keep_alive_interval_millis) r.(crq_keep_alive_timeout_millis) r.(crq_device_type) r.(crq_device_info) r.(crq_device) r.(crq_connection_mode) r.(crq_location_hint).
Definition set_crq_nonce (v : option Z) (r : ConnectionRequestFrame) : ConnectionRequestFrame :=
  mkConnectionRequestFrame r.(crq_endpoint_id) r.(crq_endpoint_name) r.(crq_handshake_data) v r.(crq_mediums) r.(crq_endpoint_info) r.(crq_medium_metadata) r.(crq_keep_alive_interval_millis) r.(crq_keep_alive_timeout_millis) r.(crq_device_type) r.(crq_device_info) r.(crq_device) r.(crq_connection_mode) r.(crq_location_hint).
Definition set_crq_mediums (v : list Z) (r : ConnectionRequestFrame) : ConnectionRequestFrame :=
  mkConnectionRequestFrame r.(crq_endpoint_id) r.(crq_endpoint_name) r.(crq_handshake_data) r.(crq_nonce) v r.(crq_endpoint_info) r.(crq_medium_metadata) r.(crq_keep_alive_interval_millis) r.(crq_keep_alive_timeout_millis) r.(crq_device_type) r.(crq_device_info) r.(crq_device) r.(crq_connection_mode) r.(crq_location_hint).
Definition set_crq_endpoint_info (v : option bytes) (r : ConnectionRequestFrame) : ConnectionRequestFrame :=
  mkConnectionRequestFrame r.(crq_endpoint_id) r.(crq_endpoint_name) r.(crq_handshake_data) r.(crq_nonce) r.(crq_mediums) v r.(crq_medium_metadata) r.(crq_keep_alive_interval_millis) r.(crq_keep_alive_timeout_millis) r.(crq_device_type) r.(crq_device_info) r.(crq_device) r.(crq_connection_mode) r.(crq_location_hint).
Definition set_crq_medium_metadata (v : option MediumMetadata) (r : ConnectionRequestFrame) : ConnectionRequestFrame :=
  mkConnectionRequestFrame r.(crq_endpoint_id) r.(crq_endpoint_name) r.(crq_handshake_data) r.(crq_nonce) r.(crq_mediums) r.(crq_endpoint_info) v r.(crq_keep_alive_interval_millis) r.(crq_keep_alive_timeout_millis) r.(crq_device_type) r.(crq_device_info) r.(crq_device) r.(crq_connection_mode) r.(crq_location_hint).
Definition set_crq_keep_alive_interval_millis (v : option Z) (r : ConnectionRequestFrame) : ConnectionRequestFrame :=
  mkConnectionRequestFrame r.(crq_endpoint_id) r.(crq_endpoint_name) r.(crq_handshake_data) r.(crq_nonce) r.(crq_mediums) r.(crq_endpoint_info) r.(crq_medium_metadata) v r.(crq_keep_alive_timeout_millis) r.(crq_device_type) r.(crq_device_info) r.(crq_device) r.(crq_connection_mode) r.(crq_location_hint).
Definition set_crq_keep_alive_timeout_millis (v : option Z) (r : ConnectionRequestFrame) : ConnectionRequestFrame :=
  mkConnectionRequestFrame r.(crq_endpoint_id) r.(crq_endpoint_name) r.(crq_handshake_data) r.(crq_nonce) r.(crq_mediums) r.(crq_endpoint_info) r.(crq_medium_metadata) r.(crq_keep_alive_interval_millis) v r.(crq_device_type) r.(crq_device_info) r.(crq_device) r.(crq_connection_mode) r.(crq_location_hint).
Definition set_crq_device (v : option Device) (r : ConnectionRequestFrame) : ConnectionRequestFrame :=
  mkConnectionRequestFrame r.(crq_endpoint_id) r.(crq_endpoint_name) r.(crq_handshake_data) r.(crq_nonce) r.(crq_mediums) r.(crq_endpoint_info) r.(crq_medium_metadata) r.(crq_keep_alive_interval_millis) r.(crq_keep_alive_timeout_millis) r.(crq_device_type) r.(crq_device_info) v r.(crq_connection_mode) r.(crq_location_hint).
Definition set_crs_status (v : option Z) (r : ConnectionResponseFrame) : ConnectionResponseFrame :=
  mkConnectionResponseFrame v r.(crs_handshake_data) r.(crs_response) r.(crs_os_info) r.(crs_multiplex_socket_bitmask) r.(crs_nearby_connections_version) r.(crs_safe_to_disconnect_version) r.(crs_location_hint) r.(crs_keep_alive_timeout_millis).
Definition set_crs_response (v : option Z) (r : ConnectionResponseFrame) : ConnectionResponseFrame :=
  mkConnectionResponseFrame r.(crs_status) r.(crs_handshake_data) v r.(crs_os_info) r.(crs_multiplex_socket_bitmask) r.(crs_nearby_connections_version) r.(crs_safe_to_disconnect_version) r.(crs_location_hint) r.(crs_keep_alive_timeout_millis).
Definition set_crs_os_info (v : option OsInfo) (r : ConnectionResponseFrame) : ConnectionResponseFrame :=
  mkConnectionResponseFrame r.(crs_status) r.(crs_handshake_data) r.(crs_response) v r.(crs_multiplex_socket_bitmask) r.(crs_nearby_connections_version) r.(crs_safe_to_disconnect_version) r.(crs_location_hint) r.(crs_keep_alive_timeout_millis).
Definition set_crs_multiplex_socket_bitmask (v : option Z) (r : ConnectionResponseFrame) : ConnectionResponseFrame :=
  mkConnectionResponseFrame r.(crs_status) r.(crs_handshake_data) r.(crs_response) r.(crs_os_info) v r.(crs_nearby_connections_version) r.(crs_safe_to_disconnect_version) r.(crs_location_hint) r.(crs_keep_alive_timeout_millis).
Definition set_crs_safe_to_disconnect_version (v : option Z) (r : ConnectionResponseFrame) : ConnectionResponseFrame :=
  mkConnectionResponseFrame r.(crs_status) r.(crs_handshake_data) r.(crs_response) r.(crs_os_info) r.(crs_multiplex_socket_bitmask) r.(crs_nearby_connections_version) v r.(crs_location_hint) r.(crs_keep_alive_timeout_millis).
Definition set_ph_id (v : option Z) (r : PayloadHeader) : PayloadHeader :=
  mkPayloadHeader v r.(ph_type) r.(ph_total_size) r.(ph_is_sensitive) r.(ph_file_name) r.(ph_parent_folder) r.(ph_last_modified_timestamp_millis).
Definition set_ph_total_size (v : option Z) (r : PayloadHeader) : PayloadHeader :=
  mkPayloadHeader r.(ph_id) r.(ph_type) v r.(ph_is_sensitive) r.(ph_file_name) r.(ph_parent_folder) r.(ph_last_modified_timestamp_millis).
Definition set_ptf_packet_type (v : option Z) (r : PayloadTransferFrame) : PayloadTransferFrame :=
  mkPayloadTransferFrame v r.(ptf_payload_header) r.(ptf_payload_chunk) r.(ptf_control_message).
Definition set_ptf_payload_header (v : option PayloadHeader) (r : PayloadTransferFrame) : PayloadTransferFrame :=
  mkPayloadTransferFrame r.(ptf_packet_type) v r.(ptf_payload_chunk) r.(ptf_control_message).
Definition set_ptf_payload_chunk (v : option PayloadChunk) (r : PayloadTransferFrame) : PayloadTransferFrame :=
  mkPayloadTransferFrame r.(ptf_packet_type) r.(ptf_payload_header) v r.(ptf_control_message).
Definition set_ptf_control_message (v : option ControlMessage) (r : PayloadTransferFrame) : PayloadTransferFrame :=
  mkPayloadTransferFrame r.(ptf_packet_type) r.(ptf_payload_header) r.(ptf_payload_chunk) v.
Definition set_wls_ip_address (v : option bytes) (r : WifiLanSocket) : WifiLanSocket :=
  mkWifiLanSocket v r.(wls_wifi_port) r.(wls_address_candidates).
Definition set_wls_wifi_port (v : option Z) (r : WifiLanSocket) : WifiLanSocket :=
  mkWifiLanSocket r.(wls_ip_address) v r.(wls_address_candidates).
Definition set_wls_address_candidates (v : list PbServiceAddress) (r : WifiLanSocket) : WifiLanSocket :=
  mkWifiLanSocket r.(wls_ip_address) r.(wls_wifi_port) v.
Definition set_wac_password (v : option string) (r : WifiAwareCredentials) : WifiAwareCredentials :=
  mkWifiAwareCredentials r.(wac_service_id) r.(wac_service_info) v.
Definition set_wdc_ssid (v : option string) (r : WifiDirectCredentials) : WifiDirectCredentials :=
  mkWifiDirectCredentials v r.(wdc_password) r.(wdc_port) r.(wdc_frequency) r.(wdc_gateway) r.(wdc_ip_v6_address) r.(wdc_service_name) r.(wdc_device_name) r.(wdc_pin).
Definition set_wdc_password (v : option string) (r : WifiDirectCredentials) : WifiDirectCredentials :=
  mkWifiDirectCredentials r.(wdc_ssid) v r.(wdc_port) r.(wdc_frequency) r.(wdc_gateway) r.(wdc_ip_v6_address) r.(wdc_service_name) r.(wdc_device_name) r.(wdc_pin).
Definition set_wdc_port (v : option Z) (r : WifiDirectCredentials) : WifiDirectCredentials :=
  mkWifiDirectCredentials r.(wdc_ssid) r.(wdc_password) v r.(wdc_frequency) r.(wdc_gateway) r.(wdc_ip_v6_address) r.(wdc_service_name) r.(wdc_device_name) r.(wdc_pin).
Definition set_wdc_frequency (v : option Z) (r : WifiDirectCredentials) : WifiDirectCredentials :=
  mkWifiDirectCredentials r.(wdc_ssid) r.(wdc_password) r.(wdc_port) v r.(wdc_gateway) r.(wdc_ip_v6_address) r.(wdc_service_name) r.(wdc_device_name) r.(wdc_pin).
Definition set_wdc_gateway (v : option string) (r : WifiDirectCredentials) : WifiDirectCredentials :=
  mkWifiDirectCredentials r.(wdc_ssid) r.(wdc_password) r.(wdc_port) r.(wdc_frequency) v r.(wdc_ip_v6_address) r.(wdc_service_name) r.(wdc_device_name) r.(wdc_pin).
Definition set_wdc_device_name (v : option string) (r : WifiDirectCredentials) : WifiDirectCredentials :=
  mkWifiDirectCredentials r.(wdc_ssid) r.(wdc_password) r.(wdc_port) r.(wdc_frequency) r.(wdc_gateway) r.(wdc_ip_v6_address) r.(wdc_service_name) v r.(wdc_pin).
Definition set_wdc_pin (v : option string) (r : WifiDirectCredentials) : WifiDirectCredentials :=
  mkWifiDirectCredentials r.(wdc_ssid) r.(wdc_password) r.(wdc_port) r.(wdc_frequency) r.(wdc_gateway) r.(wdc_ip_v6_address) r.(wdc_service_name) r.(wdc_device_name) v.
Definition set_upi_medium (v : option Z) (r : UpgradePathInfo) : UpgradePathInfo :=
  mkUpgradePathInfo v r.(upi_wifi_hotspot_credentials) r.(upi_wifi_lan_socket) r.(upi_bluetooth_credentials) r.(upi_wifi_aware_credentials) r.(upi_wifi_direct_credentials) r.(upi_web_rtc_credentials) r.(upi_awdl_credentials) r.(upi_supports_disabling_encryption) r.(upi_supports_client_introduction_ack) r.(upi_upgrade_path_request).
Definition set_upi_wifi_hotspot_credentials (v : option WifiHotspotCredentials) (r : UpgradePathInfo) : UpgradePathInfo :=
  mkUpgradePathInfo r.(upi_medium) v r.(upi_wifi_lan_socket) r.(upi_bluetooth_credentials) r.(upi_wifi_aware_credentials) r.(upi_wifi_direct_credentials) r.(upi_web_rtc_credentials) r.(upi_awdl_credentials) r.(upi_supports_disabling_encryption) r.(upi_supports_client_introduction_ack) r.(upi_upgrade_path_request).
Definition set_upi_wifi_lan_socket (v : option WifiLanSocket) (r : UpgradePathInfo) : UpgradePathInfo :=
  mkUpgradePathInfo r.(upi_medium) r.(upi_wifi_hotspot_credentials) v r.(upi_bluetooth_credentials) r.(upi_wifi_aware_credentials) r.(upi_wifi_direct_credentials) r.(upi_web_rtc_credentials) r.(upi_awdl_credentials) r.(upi_supports_disabling_encryption) r.(upi_supports_client_introduction_ack) r.(upi_upgrade_path_request).
Definition set_upi_bluetooth_credentials (v : option BluetoothCredentials) (r : UpgradePathInfo) : UpgradePathInfo :=
  mkUpgradePathInfo r.(upi_medium) r.(upi_wifi_hotspot_credentials) r.(upi_wifi_lan_socket) v r.(upi_wifi_aware_credentials) r.(upi_wifi_direct_credentials) r.(upi_web_rtc_credentials) r.(upi_awdl_credentials) r.(upi_supports_disabling_encryption) r.(upi_supports_client_introduction_ack) r.(upi_upgrade_path_request).
Definition set_upi_wifi_aware_credentials (v : option WifiAwareCredentials) (r : UpgradePathInfo) : UpgradePathInfo :=
  mkUpgradePathInfo r.(upi_medium) r.(upi_wifi_hotspot_credentials) r.(upi_wifi_lan_socket) r.(upi_bluetooth_credentials) v r.(upi_wifi_direct_credentials) r.(upi_web_rtc_credentials) r.(upi_awdl_credentials) r.(upi_supports_disabling_encryption) r.(upi_supports_client_introduction_ack) r.(upi_upgrade_path_request).
Definition set_upi_wifi_direct_credentials (v : option WifiDirectCredentials) (r : UpgradePathInfo) : UpgradePathInfo :=
  mkUpgradePathInfo r.(upi_medium) r.(upi_wifi_hotspot_credentials) r.(upi_wifi_lan_socket) r.(upi_bluetooth_credentials) r.(upi_wifi_aware_credentials) v r.(upi_web_rtc_credentials) r.(upi_awdl_credentials) r.(upi_supports_disabling_encryption) r.(upi_supports_client_introduction_ack) r.(upi_upgrade_path_request).
Definition set_upi_web_rtc_credentials (v : option WebRtcCredentials) (r : UpgradePathInfo) : UpgradePathInfo :=
  mkUpgradePathInfo r.(upi_medium) r.(upi_wifi_hotspot_credentials) r.(upi_wifi_lan_socket) r.(upi_bluetooth_credentials) r.(upi_wifi_aware_credentials) r.(upi_wifi_direct_credentials) v r.(upi_awdl_credentials) r.(upi_supports_disabling_encryption) r.(upi_supports_client_introduction_ack) r.(upi_upgrade_path_request).
Definition set_upi_awdl_credentials (v : option AwdlCredentials) (r : UpgradePathInfo) : UpgradePathInfo :=
  mkUpgradePathInfo r.(upi_medium) r.(upi_wifi_hotspot_credentials) r.(upi_wifi_lan_socket) r.(upi_bluetooth_credentials) r.(upi_wifi_aware_credentials) r.(upi_wifi_direct_credentials) r.(upi_web_rtc_credentials) v r.(upi_supports_disabling_encryption) r.(upi_supports_client_introduction_ack) r.(upi_upgrade_path_request).
Definition set_upi_supports_disabling_encryption (v : option bool) (r : UpgradePathInfo) : UpgradePathInfo :=
  mkUpgradePathInfo r.(upi_medium) r.(upi_wifi_hotspot_credentials) r.(upi_wifi_lan_socket) r.(upi_bluetooth_credentials) r.(upi_wifi_aware_credentials) r.(upi_wifi_direct_credentials) r.(upi_web_rtc_credentials) r.(upi_awdl_credentials) v r.(upi_supports_client_introduction_ack) r.(upi_upgrade_path_request).
Definition set_upi_supports_client_introduction_ack (v : option bool) (r : UpgradePathInfo) : UpgradePathInfo :=
  mkUpgradePathInfo r.(upi_medium) r.(upi_wifi_hotspot_credentials) r.(upi_wifi_lan_socket) r.(upi_bluetooth_credentials) r.(upi_wifi_aware_credentials) r.(upi_wifi_direct_credentials) r.(upi_web_rtc_credentials) r.(upi_awdl_credentials) r.(upi_supports_disabling_encryption) v r.(upi_upgrade_path_request).
Definition set_upi_upgrade_path_request (v : option UpgradePathRequest) (r : UpgradePathInfo) : UpgradePathInfo :=
  mkUpgradePathInfo r.(upi_medium) r.(upi_wifi_hotspot_credentials) r.(upi_wifi_lan_socket) r.(upi_bluetooth_credentials) r.(upi_wifi_aware_credentials) r.(upi_wifi_direct_credentials) r.(upi_web_rtc_credentials) r.(upi_awdl_credentials) r.(upi_supports_disabling_encryption) r.(upi_supports_client_introduction_ack) v.
Definition set_ci_last_endpoint_id (v : option string) (r : ClientIntroduction) : ClientIntroduction :=
  mkClientIntroduction r.(ci_endpoint_id) r.(ci_supports_disabling_encryption) v.
Definition set_bwu_event_type (v : option Z) (r : BandwidthUpgradeNegotiationFrame) : BandwidthUpgradeNegotiationFrame :=
  mkBandwidthUpgradeNegotiationFrame v r.(bwu_upgrade_path_info) r.(bwu_client_introduction) r.(bwu_client_introduction_ack) r.(bwu_safe_to_close_prior_channel).
Definition set_bwu_upgrade_path_info (v : option UpgradePathInfo) (r : BandwidthUpgradeNegotiationFrame) : BandwidthUpgradeNegotiationFrame :=
  mkBandwidthUpgradeNegotiationFrame r.(bwu_event_type) v r.(bwu_client_introduction) r.(bwu_client_introduction_ack) r.(bwu_safe_to_close_prior_channel).
Definition set_bwu_client_introduction (v : option ClientIntroduction) (r : BandwidthUpgradeNegotiationFrame) : BandwidthUpgradeNegotiationFrame :=
  mkBandwidthUpgradeNegotiationFrame r.(bwu_event_type) r.(bwu_upgrade_path_info) v r.(bwu_client_introduction_ack) r.(bwu_safe_to_close_prior_channel).
Definition set_v1_type (v : option Z) (r : V1Frame) : V1Frame :=
  mkV1Frame v r.(v1_connection_request) r.(v1_connection_response) r.(v1_payload_transfer) r.(v1_bandwidth_upgrade_negotiation) r.(v1_keep_alive) r.(v1_disconnection) r.(v1_paired_key_encryption) r.(v1_authentication_message) r.(v1_authentication_result) r.(v1_auto_resume) r.(v1_auto_reconnect) r.(v1_bandwidth_upgrade_retry).
Definition set_v1_connection_request (v : option ConnectionRequestFrame) (r : V1Frame) : V1Frame :=
  mkV1Frame r.(v1_type) v r.(v1_connection_response) r.(v1_payload_transfer) r.(v1_bandwidth_upgrade_negotiation) r.(v1_keep_alive) r.(v1_disconnection) r.(v1_paired_key_encryption) r.(v1_authentication_message) r.(v1_authentication_result) r.(v1_auto_resume) r.(v1_auto_reconnect) r.(v1_bandwidth_upgrade_retry).
Definition set_v1_connection_response (v : option ConnectionResponseFrame) (r : V1Frame) : V1Frame :=
  mkV1Frame r.(v1_type) r.(v1_connection_request) v r.(v1_payload_transfer) r.(v1_bandwidth_upgrade_negotiation) r.(v1_keep_alive) r.(v1_disconnection) r.(v1_paired_key_encryption) r.(v1_authentication_message) r.(v1_authentication_result) r.(v1_auto_resume) r.(v1_auto_reconnect) r.(v1_bandwidth_upgrade_retry).
Definition set_v1_payload_transfer (v : option PayloadTransferFrame) (r : V1Frame) : V1Frame :=
  mkV1Frame r.(v1_type) r.(v1_connection_request) r.(v1_connection_response) v r.(v1_bandwidth_upgrade_negotiation) r.(v1_keep_alive) r.(v1_disconnection) r.(v1_paired_key_encryption) r.(v1_authentication_message) r.(v1_authentication_result) r.(v1_auto_resume) r.(v1_auto_reconnect) r.(v1_bandwidth_upgrade_retry).
Definition set_v1_bandwidth_upgrade_negotiation (v : option BandwidthUpgradeNegotiationFrame) (r : V1Frame) : V1Frame :=
  mkV1Frame r.(v1_type) r.(v1_connection_request) r.(v1_connection_response) r.(v1_payload_transfer) v r.(v1_keep_alive) r.(v1_disconnection) r.(v1_paired_key_encryption) r.(v1_authentication_message) r.(v1_authentication_result) r.(v1_auto_resume) r.(v1_auto_reconnect) r.(v1_bandwidth_upgrade_retry).
Definition set_v1_keep_alive (v : option KeepAliveFrame) (r : V1Frame) : V1Frame :=
  mkV1Frame r.(v1_type) r.(v1_connection_request) r.(v1_connection_response) r.(v1_payload_transfer) r.(v1_bandwidth_upgrade_negotiation) v r.(v1_disconnection) r.(v1_paired_key_encryption) r.(v1_authentication_message) r.(v1_authentication_result) r.(v1_auto_resume) r.(v1_auto_reconnect) r.(v1_bandwidth_upgrade_retry).
Definition set_v1_disconnection (v : option DisconnectionFrame) (r : V1Frame) : V1Frame :=
  mkV1Frame r.(v1_type) r.(v1_connection_request) r.(v1_connection_response) r.(v1_payload_transfer) r.(v1_bandwidth_upgrade_negotiation) r.(v1_keep_alive) v r.(v1_paired_key_encryption) r.(v1_authentication_message) r.(v1_authentication_result) r.(v1_auto_resume) r.(v1_auto_reconnect) r.(v1_bandwidth_upgrade_retry).

(** * Lemmas *)

Lemma Version_try_from_i32 v : Version_try_from (Version_i32 v) = Some v.
Proof. by destruct v. Qed.

Lemma FrameType_try_from_i32 v : FrameType_try_from (FrameType_i32 v) = Some v.
Proof. by destruct v. Qed.

Lemma ConnectionRequestMedium_try_from_i32 v : ConnectionRequestMedium_try_from (ConnectionRequestMedium_i32 v) = Some v.
Proof. by destruct v. Qed.

Lemma ResponseStatus_try_from_i32 v : ResponseStatus_try_from (ResponseStatus_i32 v) = Some v.
Proof. by destruct v. Qed.

Lemma PacketType_try_from_i32 v : PacketType_try_from (PacketType_i32 v) = Some v.
Proof. by destruct v. Qed.

Lemma PayloadType_try_from_i32 v : PayloadType_try_from (PayloadType_i32 v) = Some v.
Proof. by destruct v. Qed.

Lemma ChunkFlags_try_from_i32 v : ChunkFlags_try_from (ChunkFlags_i32 v) = Some v.
Proof. by destruct v. Qed.

Lemma BwuEventType_try_from_i32 v : BwuEventType_try_from (BwuEventType_i32 v) = Some v.
Proof. by destruct v. Qed.

Lemma UpgradePathMedium_try_from_i32 v : UpgradePathMedium_try_from (UpgradePathMedium_i32 v) = Some v.
Proof. by destruct v. Qed.

Lemma PbWifiDirectAuthType_try_from_i32 v : PbWifiDirectAuthType_try_from (PbWifiDirectAuthType_i32 v) = Some v.
Proof. by destruct v. Qed.

Lemma ConnectionMode_try_from_i32 v : ConnectionMode_try_from (ConnectionMode_i32 v) = Some v.
Proof. by destruct v. Qed.

Lemma ControlEventType_try_from_i32 v : ControlEventType_try_from (ControlEventType_i32 v) = Some v.
Proof. by destruct v. Qed.

Lemma RetryMedium_try_from_i32 v : RetryMedium_try_from (RetryMedium_i32 v) = Some v.
Proof. by destruct v. Qed.

Lemma AutoResumeEventType_try_from_i32 v : AutoResumeEventType_try_from (AutoResumeEventType_i32 v) = Some v.
Proof. by destruct v. Qed.

Lemma AutoReconnectEventType_try_from_i32 v : AutoReconnectEventType_try_from (AutoReconnectEventType_i32 v) = Some v.
Proof. by destruct v. Qed.

Lemma LocationFormat_try_from_i32 v : LocationFormat_try_from (LocationFormat_i32 v) = Some v.
Proof. by destruct v. Qed.

Lemma OsType_try_from_i32 v : OsType_try_from (OsType_i32 v) = Some v.
Proof. by destruct v. Qed.

Lemma EndpointType_try_from_i32 v : EndpointType_try_from (EndpointType_i32 v) = Some v.
Proof. by destruct v. Qed.

Lemma DeviceType_try_from_i32 v : DeviceType_try_from (DeviceType_i32 v) = Some v.
Proof. by destruct v. Qed.

Lemma Version_try_from_inv i v : Version_try_from i = Some v -> i = Version_i32 v.
Proof. unfold Version_try_from. repeat case_match; intros; by simplify_eq. Qed.

Lemma FrameType_try_from_inv i v : FrameType_try_from i = Some v -> i = FrameType_i32 v.
Proof. unfold FrameType_try_from. repeat case_match; intros; by simplify_eq. Qed.

Lemma ConnectionRequestMedium_try_from_inv i v : ConnectionRequestMedium_try_from i = Some v -> i = ConnectionRequestMedium_i32 v.
Proof. unfold ConnectionRequestMedium_try_from. repeat case_match; intros; by simplify_eq. Qed.

Lemma ResponseStatus_try_from_inv i v : ResponseStatus_try_from i = Some v -> i = ResponseStatus_i32 v.
Proof. unfold ResponseStatus_try_from. repeat case_match; intros; by simplify_eq. Qed.

Lemma PacketType_try_from_inv i v : PacketType_try_from i = Some v -> i = PacketType_i32 v.
Proof. unfold PacketType_try_from. repeat case_match; intros; by simplify_eq. Qed.

Lemma PayloadType_try_from_inv i v : PayloadType_try_from i = Some v -> i = PayloadType_i32 v.
Proof. unfold PayloadType_try_from. repeat case_match; intros; by simplify_eq. Qed.

Lemma ChunkFlags_try_from_inv i v : ChunkFlags_try_from i = Some v -> i = ChunkFlags_i32 v.
Proof. unfold ChunkFlags_try_from. repeat case_match; intros; by simplify_eq. Qed.

Lemma BwuEventType_try_from_inv i v : BwuEventType_try_from i = Some v -> i = BwuEventType_i32 v.
Proof. unfold BwuEventType_try_from. repeat case_match; intros; by simplify_eq. Qed.

Lemma UpgradePathMedium_try_from_inv i v : UpgradePathMedium_try_from i = Some v -> i = UpgradePathMedium_i32 v.
Proof. unfold UpgradePathMedium_try_from. repeat case_match; intros; by simplify_eq. Qed.

Lemma PbWifiDirectAuthType_try_from_inv i v : PbWifiDirectAuthType_try_from i = Some v -> i = PbWifiDirectAuthType_i32 v.
Proof. unfold PbWifiDirectAuthType_try_from. repeat case_match; intros; by simplify_eq. Qed.

Lemma Version_i32_ok v : i32_ok (Version_i32 v) = true.
Proof. by destruct v. Qed.

Lemma FrameType_i32_ok v : i32_ok (FrameType_i32 v) = true.
Proof. by destruct v. Qed.

Lemma ConnectionRequestMedium_i32_ok v : i32_ok (ConnectionRequestMedium_i32 v) = true.
Proof. by destruct v. Qed.

Lemma ResponseStatus_i32_ok v : i32_ok (ResponseStatus_i32 v) = true.
Proof. by destruct v. Qed.

Lemma PacketType_i32_ok v : i32_ok (PacketType_i32 v) = true.
Proof. by destruct v. Qed.

Lemma PayloadType_i32_ok v : i32_ok (PayloadType_i32 v) = true.
Proof. by destruct v. Qed.

Lemma ChunkFlags_i32_ok v : i32_ok (ChunkFlags_i32 v) = true.
Proof. by destruct v. Qed.

Lemma BwuEventType_i32_ok v : i32_ok (BwuEventType_i32 v) = true.
Proof. by destruct v. Qed.

Lemma UpgradePathMedium_i32_ok v : i32_ok (UpgradePathMedium_i32 v) = true.
Proof. by destruct v. Qed.

Lemma PbWifiDirectAuthType_i32_ok v : i32_ok (PbWifiDirectAuthType_i32 v) = true.
Proof. by destruct v. Qed.

#[export] Hint Rewrite Version_try_from_i32 Version_i32_ok FrameType_try_from_i32 FrameType_i32_ok ConnectionRequestMedium_try_from_i32 ConnectionRequestMedium_i32_ok ResponseStatus_try_from_i32 ResponseStatus_i32_ok PacketType_try_from_i32 PacketType_i32_ok PayloadType_try_from_i32 PayloadType_i32_ok ChunkFlags_try_from_i32 ChunkFlags_i32_ok BwuEventType_try_from_i32 BwuEventType_i32_ok UpgradePathMedium_try_from_i32 UpgradePathMedium_i32_ok PbWifiDirectAuthType_try_from_i32 PbWifiDirectAuthType_i32_ok : nearby_simpl.
