(* ===== verification/Wire.v ===== *)
(** Protobuf's published wire format, for the concrete codec on which theorems over
    an arbitrary one are instantiated (the crate's own is prost's, which is a
    parameter, see [Codec]).  As the messages of the [.proto] file use it: varints,
    entries of a number and a value, and the encoding and decoding of a message
    that is described by its fields.  Encoding writes the fields in the order of
    their numbers and leaves out what is not set; decoding starts from the empty
    message and merges one entry after the other, so that fields may come in any
    order and more than once, and numbers that the message does not have are
    passed over.  Groups, which the file does not use, are refused, and the
    length of a value may be any number. *)

From Stdlib Require Import ZArith NArith Lia.
From Stdlib Require Import Strings.Byte.
From S2P Require Import Prelude.
From S2P Require Import Utf8.

#[local] Open Scope N_scope.

(** * Varints *)

Definition byte_of (n : N) : Byte.byte := default Byte.x00 (Byte.of_N n).

Fixpoint en_varint_n (fuel : nat) (n : N) : bytes :=
  match fuel with
  | O => [byte_of n]
  | S fuel =>
      if n <? 128 then [byte_of n] else byte_of (128 + n mod 128) :: en_varint_n fuel (n / 128)
  end.

(** Seven bits to a byte, the low ones first. *)
Definition en_varint (n : N) : bytes := en_varint_n (N.to_nat (N.size n)) n.

(** At most [limit] bytes are read. *)
Fixpoint de_varint (limit : nat) (bs : bytes) : option (N * bytes) :=
  match limit, bs with
  | S limit, b :: r =>
      if byte_val b <? 128 then Some (byte_val b, r)
      else '(n, r) ← de_varint limit r; Some (byte_val b - 128 + 128 * n, r)
  | _, _ => None
  end.

Lemma byte_of_val n : n < 256 -> byte_val (byte_of n) = n.
Proof.
  intros Hn. unfold byte_of, byte_val. destruct (Byte.of_N n) as [b|] eqn:Hb; simpl.
  - by apply Byte.to_of_N.
  - apply Byte.of_N_None_iff in Hb. lia.
Qed.

Lemma de_en_varint_n fuel limit n r :
  n < 128 ^ N.of_nat (S fuel) -> n < 128 ^ N.of_nat limit -> limit <> 0%nat ->
  de_varint limit (en_varint_n fuel n ++ r) = Some (n, r).
Proof.
  revert limit n. induction fuel as [|fuel IH]; intros [|limit] n Hf Hl Hne; try done.
  - change (128 ^ N.of_nat 1) with 128 in Hf. cbn. rewrite byte_of_val by lia.
    by rewrite (proj2 (N.ltb_lt _ _)).
  - cbn [en_varint_n]. destruct (N.ltb_spec n 128) as [Hn|Hn].
    + cbn. rewrite byte_of_val by lia. by rewrite (proj2 (N.ltb_lt _ _)).
    + pose proof (N.mod_lt n 128 ltac:(lia)) as Hm. pose proof (N.le_0_l (n mod 128)) as H0. cbn [de_varint app]. rewrite byte_of_val by lia.
      destruct (N.ltb_spec (128 + n mod 128) 128); [lia|]. rewrite IH.
      * cbn [mbind option_bind]. do 2 f_equal. pose proof (N.div_mod n 128 ltac:(lia)). lia.
      * apply N.Div0.div_lt_upper_bound. rewrite Nat2N.inj_succ, N.pow_succ_r' in Hf. lia.
      * apply N.Div0.div_lt_upper_bound. rewrite Nat2N.inj_succ, N.pow_succ_r' in Hl. lia.
      * intros ->. simpl in Hl. lia.
Qed.

Lemma pow_128_2 k : 2 ^ k <= 128 ^ k.
Proof. apply N.pow_le_mono_l. lia. Qed.

Lemma varint_fuel n : n < 128 ^ N.of_nat (S (N.to_nat (N.size n))).
Proof.
  rewrite Nat2N.inj_succ, N2Nat.id, N.pow_succ_r'. pose proof (N.size_gt n). pose proof (pow_128_2 (N.size n)). lia.
Qed.

Lemma de_en_varint limit n r :
  n < 128 ^ N.of_nat limit -> limit <> 0%nat -> de_varint limit (en_varint n ++ r) = Some (n, r).
Proof. apply de_en_varint_n, varint_fuel. Qed.

(** An encoded number is smaller than its length allows. *)
Lemma en_varint_n_length fuel n :
  n < 128 ^ N.of_nat (S fuel) -> n < 128 ^ N.of_nat (length (en_varint_n fuel n)).
Proof.
  revert n. induction fuel as [|fuel IH]; intros n Hn; [done|]. cbn [en_varint_n].
  destruct (N.ltb_spec n 128) as [Hlt|Hge]; [done|]. cbn [length].
  rewrite Nat2N.inj_succ, N.pow_succ_r' in Hn |- *.
  enough (n / 128 < 128 ^ N.of_nat (length (en_varint_n fuel (n / 128)))) as Hd.
  { pose proof (N.div_mod n 128 ltac:(lia)). pose proof (N.mod_lt n 128 ltac:(lia)). lia. }
  apply IH, N.Div0.div_lt_upper_bound. lia.
Qed.

Lemma en_varint_nonempty n : en_varint n <> [].
Proof. unfold en_varint. destruct (N.to_nat _); simpl; [done|]. by destruct (n <? 128). Qed.

Lemma de_en_varint_whole n r : de_varint (length (en_varint n ++ r)) (en_varint n ++ r) = Some (n, r).
Proof.
  apply de_en_varint; [eapply N.lt_le_trans; [apply en_varint_n_length, varint_fuel|]|].
  - apply N.pow_le_mono_r; [lia|]. rewrite length_app. unfold en_varint. lia.
  - pose proof (en_varint_nonempty n). by destruct (en_varint n).
Qed.

Lemma de_varint_shorter limit bs n r : de_varint limit bs = Some (n, r) -> (length r < length bs)%nat.
Proof.
  revert bs n r. induction limit as [|limit IH]; intros [|b bs] n r; try done. cbn [de_varint].
  destruct (byte_val b <? 128); [intros [= <- <-]; simpl; lia|].
  destruct (de_varint limit bs) as [[m r']|] eqn:Hd; [|done]. intros [= <- <-].
  apply IH in Hd. simpl. lia.
Qed.

(** * Entries *)

Inductive value : Type :=
| VInt (n : N)
| VFix (wide : bool) (bs : bytes)
| VLen (bs : bytes).

Definition fixed_width (wide : bool) : nat := if wide then 8%nat else 4%nat.

Definition wire_type (v : value) : N :=
  match v with VInt _ => 0 | VFix true _ => 1 | VLen _ => 2 | VFix false _ => 5 end.

Definition en_value (v : value) : bytes :=
  match v with
  | VInt n => en_varint n
  | VFix _ bs => bs
  | VLen bs => en_varint (N.of_nat (length bs)) ++ bs
  end.

Definition en_entry (e : N * value) : bytes :=
  en_varint (8 * e.1 + wire_type e.2) ++ en_value e.2.

Definition split_off (n : N) (bs : bytes) : option (bytes * bytes) :=
  if n <=? N.of_nat (length bs) then Some (take (N.to_nat n) bs, drop (N.to_nat n) bs) else None.

Definition de_value (wt : N) (bs : bytes) : option (value * bytes) :=
  match wt with
  | 0 => '(n, r) ← de_varint 10 bs; if n <? 2 ^ 64 then Some (VInt n, r) else None
  | 1 => '(x, r) ← split_off 8 bs; Some (VFix true x, r)
  | 2 => '(n, r) ← de_varint (length bs) bs; '(x, r) ← split_off n r; Some (VLen x, r)
  | 5 => '(x, r) ← split_off 4 bs; Some (VFix false x, r)
  | _ => None
  end.

Definition de_entry (bs : bytes) : option ((N * value) * bytes) :=
  '(k, r) ← de_varint 10 bs;
  if (8 <=? k) && (k <? 2 ^ 32) then
    '(v, r) ← de_value (k mod 8) r; Some ((k / 8, v), r)
  else None.

Definition print (es : list (N * value)) : bytes := concat (en_entry <$> es).

(** Every entry takes a byte at least. *)
Fixpoint parse_n (fuel : nat) (bs : bytes) : option (list (N * value)) :=
  match fuel, bs with
  | _, [] => Some []
  | O, _ => None
  | S fuel, _ => '(e, r) ← de_entry bs; es ← parse_n fuel r; Some (e :: es)
  end.

Definition parse (bs : bytes) : option (list (N * value)) := parse_n (length bs) bs.

Definition value_ok (v : value) : bool :=
  match v with
  | VInt n => n <? 2 ^ 64
  | VFix wide bs => (length bs =? fixed_width wide)%nat
  | VLen _ => true
  end.

Definition number_ok (n : N) : bool := (1 <=? n) && (n <? 2 ^ 29).

Definition entry_ok (e : N * value) : bool := number_ok e.1 && value_ok e.2.

(** ** Lemmas *)

Lemma split_off_app (x r : bytes) : split_off (N.of_nat (length x)) (x ++ r) = Some (x, r).
Proof.
  unfold split_off. rewrite (proj2 (N.leb_le _ _)) by (rewrite length_app; lia).
  by rewrite Nat2N.id, take_app_length, drop_app_length.
Qed.

Lemma de_en_value v r : value_ok v = true -> de_value (wire_type v) (en_value v ++ r) = Some (v, r).
Proof.
  destruct v as [n|[] bs|bs]; intros Hok; cbn [wire_type en_value de_value value_ok] in *.
  - apply N.ltb_lt in Hok as Hlt. rewrite de_en_varint; [by cbn; rewrite Hok| |done].
    eapply N.lt_trans; [exact Hlt|done].
  - apply Nat.eqb_eq in Hok. change 8 with (N.of_nat (fixed_width true)). by rewrite <- Hok, split_off_app.
  - apply Nat.eqb_eq in Hok. change 4 with (N.of_nat (fixed_width false)). by rewrite <- Hok, split_off_app.
  - rewrite <- app_assoc, de_en_varint_whole. cbn. by rewrite split_off_app.
Qed.

Lemma wire_type_small v : wire_type v < 8.
Proof. by destruct v as [n|[] bs|bs]. Qed.

Lemma de_en_entry e r : entry_ok e = true -> de_entry (en_entry e ++ r) = Some (e, r).
Proof.
  destruct e as [k v]. unfold entry_ok, number_ok, en_entry, de_entry. cbn [fst snd].
  rewrite !andb_true_iff, N.leb_le, N.ltb_lt. intros [[H1 H2] Hv]. pose proof (wire_type_small v) as Hw.
  rewrite <- app_assoc, de_en_varint by (try done; change (128 ^ N.of_nat 10) with (2 ^ 70); lia).
  cbn [mbind option_bind]. rewrite (proj2 (N.leb_le _ _)), (proj2 (N.ltb_lt _ _)) by lia. cbn [andb].
  replace ((8 * k + wire_type v) mod 8) with (wire_type v)
    by (rewrite N.add_comm, N.mul_comm, N.Div0.mod_add, N.mod_small by done; done).
  replace ((8 * k + wire_type v) / 8) with k
    by (rewrite N.add_comm, N.mul_comm, N.div_add, N.div_small by done; done).
  by rewrite de_en_value.
Qed.

Lemma split_off_shorter n bs x r : split_off n bs = Some (x, r) -> (length r <= length bs)%nat.
Proof.
  unfold split_off. destruct (n <=? N.of_nat (length bs)); [|done]. intros [= _ <-]. rewrite length_drop. lia.
Qed.

Lemma de_value_shorter wt bs v r : de_value wt bs = Some (v, r) -> (length r <= length bs)%nat.
Proof.
  unfold de_value, mbind, option_bind.
  destruct wt as [|[[p|p|]|[p|p|]|]]; try done; repeat case_match; intros; simplify_eq;
    repeat match goal with
      | Hd : de_varint _ _ = Some _ |- _ => apply de_varint_shorter in Hd
      | Hd : split_off _ _ = Some _ |- _ => apply split_off_shorter in Hd
      end; lia.
Qed.

Lemma de_entry_shorter bs e r : de_entry bs = Some (e, r) -> (length r < length bs)%nat.
Proof.
  unfold de_entry, mbind, option_bind. repeat case_match; intros; simplify_eq.
  match goal with Hd : de_varint _ _ = Some _ |- _ => apply de_varint_shorter in Hd end.
  match goal with Hd : de_value _ _ = Some _ |- _ => apply de_value_shorter in Hd end. lia.
Qed.

(** More fuel than bytes changes nothing. *)
Lemma parse_fuel f1 f2 bs :
  (length bs <= f1)%nat -> (length bs <= f2)%nat -> parse_n f1 bs = parse_n f2 bs.
Proof.
  revert f2 bs. induction f1 as [|f1 IH]; intros [|f2] [|b bs] H1 H2; simpl in H1, H2; try lia; try done.
  cbn [parse_n]. destruct (de_entry (b :: bs)) as [[e r]|] eqn:He; [|done]. cbn [mbind option_bind].
  apply de_entry_shorter in He. simpl in He. by rewrite (IH f2) by lia.
Qed.

Lemma en_entry_nonempty e : en_entry e <> [].
Proof. unfold en_entry. pose proof (en_varint_nonempty (8 * e.1 + wire_type e.2)). by destruct (en_varint _). Qed.

Lemma parse_entry e r :
  entry_ok e = true -> parse (en_entry e ++ r) = es ← parse r; Some (e :: es).
Proof.
  intros Hok. unfold parse. pose proof (de_en_entry e r Hok) as Hd.
  pose proof (de_entry_shorter _ _ _ Hd) as Hlen.
  destruct (en_entry e ++ r) as [|b bs] eqn:Hb.
  { apply app_eq_nil in Hb as [Hb _]. by apply en_entry_nonempty in Hb. }
  cbn [length parse_n]. rewrite Hd. cbn [mbind option_bind].
  by rewrite (parse_fuel (length bs) (length r)) by (simpl in Hlen; lia).
Qed.

Lemma parse_print_app es r :
  forallb entry_ok es = true -> parse (print es ++ r) = es' ← parse r; Some (es ++ es').
Proof.
  unfold print. induction es as [|e es IH]; intros Hok.
  - simpl. by destruct (parse r).
  - simpl in Hok. apply andb_true_iff in Hok as [He Hes]. cbn [fmap list_fmap concat].
    rewrite <- app_assoc, parse_entry by done. rewrite IH by done. by destruct (parse r).
Qed.

Lemma parse_print es : forallb entry_ok es = true -> parse (print es) = Some es.
Proof.
  intros Hok. pose proof (parse_print_app es [] Hok) as Hp. rewrite app_nil_r in Hp.
  by rewrite Hp; cbn; rewrite app_nil_r.
Qed.

Lemma print_app es es' : print (es ++ es') = print es ++ print es'.
Proof. unfold print. by rewrite fmap_app, concat_app. Qed.

Lemma print_nonempty e es : print (e :: es) <> [].
Proof.
  unfold print. cbn. pose proof (en_entry_nonempty e). by destruct (en_entry e).
Qed.

(** * The types of fields *)

(** An integer type, as the number that stands for it on the wire. *)
Record int_type : Type := IntType {
  it_en : Z -> N;
  it_de : N -> Z;
  it_ok : Z -> bool;
  it_round z : it_ok z = true -> it_de (it_en z) = z;
  it_small z : it_en z < 2 ^ 64;
}.

(** Sign extended to 64 bits, and cut off again. *)
Definition to_u64 (z : Z) : N := Z.to_N (z mod 2 ^ 64).

Definition of_signed (w : Z) (n : N) : Z :=
  let m := (Z.of_N n mod 2 ^ w)%Z in
  if (m <? 2 ^ (w - 1))%Z then m else (m - 2 ^ w)%Z.

Lemma to_u64_small z : to_u64 z < 2 ^ 64.
Proof. unfold to_u64. pose proof (Z.mod_pos_bound z (2 ^ 64) ltac:(lia)). lia. Qed.

Lemma to_u64_mod z : Z.of_N (to_u64 z) = (z mod 2 ^ 64)%Z.
Proof. unfold to_u64. pose proof (Z.mod_pos_bound z (2 ^ 64) ltac:(lia)). lia. Qed.

Lemma i32_round z : i32_ok z = true -> of_signed 32 (to_u64 z) = z.
Proof.
  unfold i32_ok, of_signed. rewrite andb_true_iff, Z.leb_le, Z.ltb_lt, to_u64_mod. intros [H1 H2].
  change (2 ^ 64)%Z with 18446744073709551616%Z. change (2 ^ 32)%Z with 4294967296%Z.
  change (2 ^ (32 - 1))%Z with 2147483648%Z. change (2 ^ 31)%Z with 2147483648%Z in *.
  case_match eqn:Hlt; [apply Z.ltb_lt in Hlt|apply Z.ltb_ge in Hlt]; Z.to_euclidean_division_equations; lia.
Qed.

Lemma i64_round z : i64_ok z = true -> of_signed 64 (to_u64 z) = z.
Proof.
  unfold i64_ok, of_signed. rewrite andb_true_iff, Z.leb_le, Z.ltb_lt, to_u64_mod. intros [H1 H2].
  change (2 ^ 64)%Z with 18446744073709551616%Z.
  change (2 ^ (64 - 1))%Z with 9223372036854775808%Z. change (2 ^ 63)%Z with 9223372036854775808%Z in *.
  case_match eqn:Hlt; [apply Z.ltb_lt in Hlt|apply Z.ltb_ge in Hlt]; Z.to_euclidean_division_equations; lia.
Qed.

Lemma u32_round z : u32_ok z = true -> (Z.of_N (to_u64 z) mod 2 ^ 32)%Z = z.
Proof.
  unfold u32_ok. rewrite andb_true_iff, Z.leb_le, Z.ltb_lt, to_u64_mod. intros [H1 H2].
  rewrite (Z.mod_small z) by lia. apply Z.mod_small. lia.
Qed.

Definition int32 : int_type := IntType to_u64 (of_signed 32) i32_ok i32_round to_u64_small.
Definition int64 : int_type := IntType to_u64 (of_signed 64) i64_ok i64_round to_u64_small.
Definition uint32 : int_type :=
  IntType to_u64 (fun n => (Z.of_N n mod 2 ^ 32)%Z) u32_ok u32_round to_u64_small.

(** A type of which one value is one entry. *)
Record scalar (A : Type) : Type := Scalar {
  s_en : A -> value;
  s_de : value -> option A;
  s_ok : A -> bool;
  s_round a : s_ok a = true -> s_de (s_en a) = Some a;
  s_fits a : s_ok a = true -> value_ok (s_en a) = true;
}.
Arguments Scalar {A}.
Arguments s_en {A}.
Arguments s_de {A}.
Arguments s_ok {A}.
Arguments s_round {A}.
Arguments s_fits {A}.

Definition de_int (t : int_type) (v : value) : option Z :=
  match v with VInt n => Some (t.(it_de) n) | _ => None end.

Definition de_bool (v : value) : option bool :=
  match v with VInt n => Some (negb (n =? 0)) | _ => None end.

Definition de_bytes (v : value) : option bytes :=
  match v with VLen bs => Some bs | _ => None end.

Definition de_string (v : value) : option string :=
  match v with
  | VLen bs => if utf8_valid bs then Some (bytes_str bs) else None
  | _ => None
  end.

Lemma int_round t z : t.(it_ok) z = true -> de_int t (VInt (t.(it_en) z)) = Some z.
Proof. intros Hz. cbn. by rewrite it_round. Qed.

Lemma int_fits t z : t.(it_ok) z = true -> value_ok (VInt (t.(it_en) z)) = true.
Proof. intros _. apply N.ltb_lt, it_small. Qed.

Lemma bool_round b : true = true -> de_bool (VInt (if b : bool then 1 else 0)) = Some b.
Proof. by destruct b. Qed.

Lemma bool_fits (b : bool) : true = true -> value_ok (VInt (if b then 1 else 0)) = true.
Proof. by destruct b. Qed.

Lemma string_round s : string_ok s = true -> de_string (VLen (str_bytes s)) = Some s.
Proof. unfold string_ok. intros Hs. cbn. by rewrite Hs, bytes_str_bytes. Qed.

Definition int_scalar (t : int_type) : scalar Z :=
  Scalar (fun z => VInt (t.(it_en) z)) (de_int t) t.(it_ok) (int_round t) (int_fits t).

Definition bool_scalar : scalar bool :=
  Scalar (fun b => VInt (if b : bool then 1 else 0)) de_bool (fun _ => true) bool_round bool_fits.

Definition bytes_scalar : scalar bytes :=
  Scalar VLen de_bytes (fun _ => true) (fun _ _ => eq_refl) (fun _ _ => eq_refl).

Definition string_scalar : scalar string :=
  Scalar (fun s => VLen (str_bytes s)) de_string string_ok string_round (fun _ _ => eq_refl).

(** * Messages by their fields *)

Definition fold_opt {A B} (f : A -> B -> option B) : list A -> B -> option B :=
  fix go l b := match l with [] => Some b | a :: l => b ← f a b; go l b end.

Lemma fold_opt_app {A B} (f : A -> B -> option B) l l' b :
  fold_opt f (l ++ l') b = b ← fold_opt f l b; fold_opt f l' b.
Proof. revert b. induction l as [|a l IH]; intros b; simpl; [done|]. destruct (f a b); simpl; auto. Qed.

(** A field of a message type [R]: its number, the values that it writes, what a
    value does to a message that is being read, and what the values of one message
    do to another one in which the field is not set. *)
Record field (R : Type) : Type := Field {
  f_number : N;
  f_put : R -> list value;
  f_merge : value -> R -> option R;
  f_ok : R -> bool;
  f_blank : R -> Prop;
  f_copy : R -> R -> R;
  f_round r acc : f_ok r = true -> f_blank acc -> fold_opt f_merge (f_put r) acc = Some (f_copy r acc);
  f_fits r : f_ok r = true -> forallb value_ok (f_put r) = true;
}.
Arguments Field {R}.
Arguments f_number {R}.
Arguments f_put {R}.
Arguments f_merge {R}.
Arguments f_ok {R}.
Arguments f_blank {R}.
Arguments f_copy {R}.
Arguments f_round {R}.
Arguments f_fits {R}.

Section fields.
Context {R : Type} (fs : list (field R)).

(** An entry of a number that is not a field's is passed over. *)
Definition merge_entry (e : N * value) (r : R) : option R :=
  match List.find (fun f => f.(f_number) =? e.1) fs with
  | Some f => f.(f_merge) e.2 r
  | None => Some r
  end.

Definition entries_of (f : field R) (r : R) : list (N * value) := pair f.(f_number) <$> f.(f_put) r.

Definition entries (r : R) : list (N * value) := concat ((fun f => entries_of f r) <$> fs).

Definition merge_bytes (bs : bytes) (r : R) : option R := es ← parse bs; fold_opt merge_entry es r.

(** Copying a message's fields one after the other into [acc]. *)
Inductive rebuilds (r : R) : R -> list (field R) -> R -> Prop :=
| rebuilds_nil acc : rebuilds r acc [] acc
| rebuilds_cons f l acc r' :
    f.(f_blank) acc -> rebuilds r (f.(f_copy) r acc) l r' -> rebuilds r acc (f :: l) r'.

Definition numbers_ok : bool :=
  bool_decide (NoDup (f_number <$> fs)) && forallb (fun f => number_ok f.(f_number)) fs.

Lemma find_field (l : list (field R)) f :
  NoDup (f_number <$> l) -> f ∈ l -> List.find (fun g => g.(f_number) =? f.(f_number)) l = Some f.
Proof.
  induction l as [|g l IH]; [by intros _ ?%elem_of_nil|]. cbn [fmap list_fmap List.find].
  rewrite NoDup_cons. intros [Hg Hl] [->|Hf]%elem_of_cons; [by rewrite N.eqb_refl|].
  destruct (N.eqb_spec (f_number g) (f_number f)) as [Heq|_]; [|by apply IH].
  destruct Hg. rewrite Heq. apply list_elem_of_fmap. by exists f.
Qed.

Lemma merge_field f vs r :
  numbers_ok = true -> f ∈ fs ->
  fold_opt merge_entry (pair f.(f_number) <$> vs) r = fold_opt f.(f_merge) vs r.
Proof.
  intros [Hn _]%andb_true_iff Hf. apply bool_decide_eq_true in Hn.
  revert r. induction vs as [|v vs IH]; intros r; [done|]. cbn [fmap list_fmap fold_opt].
  assert (merge_entry (f_number f, v) r = f_merge f v r) as ->
    by (unfold merge_entry; cbn; by rewrite find_field).
  destruct (f_merge f v r); [apply IH|done].
Qed.

Lemma merge_rebuilds l r acc r' :
  numbers_ok = true -> (forall f, f ∈ l -> f ∈ fs /\ f.(f_ok) r = true) -> rebuilds r acc l r' ->
  fold_opt merge_entry (concat ((fun f => entries_of f r) <$> l)) acc = Some r'.
Proof.
  intros Hn. induction l as [|f l IH] in acc |- *; intros Hl Hr; inversion_clear Hr as [|? ? ? ? Hb Hr'].
  - done.
  - cbn [fmap list_fmap concat]. rewrite fold_opt_app. destruct (Hl f) as [Hf Hok]; [by left|].
    unfold entries_of. rewrite merge_field, f_round by done. cbn [mbind option_bind].
    apply IH; [|done]. intros g Hg. apply Hl. by right.
Qed.

Lemma entries_fit r :
  numbers_ok = true -> forallb (fun f => f.(f_ok) r) fs = true -> forallb entry_ok (entries r) = true.
Proof.
  intros [_ Hn]%andb_true_iff Hok. unfold entries.
  induction fs as [|f l IH]; [done|]. cbn in Hn, Hok |- *.
  apply andb_true_iff in Hn as [Hnf Hn], Hok as [Hf Hok].
  rewrite forallb_app, IH, andb_true_r by done. unfold entries_of.
  pose proof (f_fits f r Hf) as Hv. induction (f_put f r) as [|v vs IHv]; [done|].
  cbn in Hv |- *. apply andb_true_iff in Hv as [Hv Hvs]. unfold entry_ok at 1. cbn [fst snd].
  by rewrite Hnf, Hv, IHv.
Qed.
End fields.

(** A message type: the empty message, the fields in the order of their numbers,
    and which values of the Rust type it stands for. *)
Record message (R : Type) : Type := Message {
  m_default : R;
  m_fields : list (field R);
  m_ok : R -> bool;
  m_numbers : numbers_ok m_fields = true;
  m_fields_ok r : m_ok r = true -> forallb (fun f => f.(f_ok) r) m_fields = true;
  m_rebuilds r : rebuilds r m_default m_fields r;
}.
Arguments Message {R}.
Arguments m_default {R}.
Arguments m_fields {R}.
Arguments m_ok {R}.
Arguments m_numbers {R}.
Arguments m_fields_ok {R}.
Arguments m_rebuilds {R}.

Section messages.
Context {R : Type} (m : message R).

Definition encode (r : R) : bytes := print (entries m.(m_fields) r).

Definition merge (bs : bytes) (r : R) : option R := merge_bytes m.(m_fields) bs r.

Definition decode (bs : bytes) : option R := merge bs m.(m_default).

Lemma entries_merge r :
  m.(m_ok) r = true -> fold_opt (merge_entry m.(m_fields)) (entries m.(m_fields) r) m.(m_default) = Some r.
Proof.
  intros Hok. apply (merge_rebuilds _ m.(m_fields)); [apply m_numbers| |apply m_rebuilds].
  intros f Hf. split; [done|]. pose proof (m_fields_ok m r Hok) as Hall.
  rewrite forallb_forall in Hall. apply Hall. by apply list_elem_of_In.
Qed.

Lemma encode_merge r acc bs :
  m.(m_ok) r = true ->
  merge (encode r ++ bs) acc = es ← parse bs; fold_opt (merge_entry m.(m_fields)) (entries m.(m_fields) r ++ es) acc.
Proof.
  intros Hok. unfold merge, merge_bytes, encode.
  rewrite parse_print_app by (apply entries_fit; [apply m_numbers|by apply m_fields_ok]).
  by destruct (parse bs).
Qed.

Lemma decode_encoded r : m.(m_ok) r = true -> decode (encode r) = Some r.
Proof.
  intros Hok. unfold decode. rewrite <- (app_nil_r (encode r)), encode_merge by done. cbn.
  by rewrite app_nil_r, entries_merge.
Qed.

End messages.

(** * The kinds of fields *)

Section kinds.
Context {R A : Type}.

(** [optional]: the last value of a scalar wins. *)
Section optional.
Context (number : N) (s : scalar A) (get : R -> option A) (set : option A -> R -> R).

Definition put_optional (r : R) : list value := option_list (s.(s_en) <$> get r).

Definition merge_optional (v : value) (r : R) : option R := a ← s.(s_de) v; Some (set (Some a) r).

Definition optional_blank (r : R) : Prop := set None r = r.

Lemma optional_round r acc :
  opt_all s.(s_ok) (get r) = true -> optional_blank acc ->
  fold_opt merge_optional (put_optional r) acc = Some (set (get r) acc).
Proof.
  unfold put_optional, merge_optional, optional_blank. destruct (get r) as [a|]; cbn; intros Ha Hb.
  - by rewrite s_round.
  - by rewrite Hb.
Qed.

Lemma optional_fits r : opt_all s.(s_ok) (get r) = true -> forallb value_ok (put_optional r) = true.
Proof.
  unfold put_optional. destruct (get r) as [a|]; cbn; [|done]. intros Ha. by rewrite s_fits.
Qed.

Definition optional : field R :=
  Field number put_optional merge_optional (fun r => opt_all s.(s_ok) (get r)) optional_blank
    (fun r acc => set (get r) acc) optional_round optional_fits.
End optional.

(** A message in a message: what comes later is merged into what came before. *)
Section embedded.
Context (number : N) (m : message A) (get : R -> option A) (set : option A -> R -> R).

Definition put_message (r : R) : list value := option_list (VLen ∘ encode m <$> get r).

Definition merge_message (v : value) (r : R) : option R :=
  match v with
  | VLen bs => a ← merge m bs (default m.(m_default) (get r)); Some (set (Some a) r)
  | _ => None
  end.

Definition message_blank (r : R) : Prop := get r = None /\ set None r = r.

Lemma message_round r acc :
  opt_all m.(m_ok) (get r) = true -> message_blank acc ->
  fold_opt merge_message (put_message r) acc = Some (set (get r) acc).
Proof.
  unfold put_message, merge_message. intros Ha [Hg Hb]. destruct (get r) as [a|]; cbn in *.
  - rewrite Hg. cbn. change (merge m (encode m a) (m_default m)) with (decode m (encode m a)).
    by rewrite decode_encoded.
  - by rewrite Hb.
Qed.

Lemma message_fits r : opt_all m.(m_ok) (get r) = true -> forallb value_ok (put_message r) = true.
Proof. unfold put_message. by destruct (get r). Qed.

Definition embedded : field R :=
  Field number put_message merge_message (fun r => opt_all m.(m_ok) (get r)) message_blank
    (fun r acc => set (get r) acc) message_round message_fits.
End embedded.

(** A case of a [oneof] that is a message. *)
Section variant.
Context (number : N) (m : message A) (get : R -> option A) (put : A -> R -> R).

Definition merge_variant (v : value) (r : R) : option R :=
  match v with
  | VLen bs => a ← merge m bs (default m.(m_default) (get r)); Some (put a r)
  | _ => None
  end.

Definition copy_variant (r acc : R) : R := match get r with Some a => put a acc | None => acc end.

Lemma variant_round r acc :
  opt_all m.(m_ok) (get r) = true -> get acc = None ->
  fold_opt merge_variant (put_message m get r) acc = Some (copy_variant r acc).
Proof.
  unfold put_message, merge_variant, copy_variant. intros Ha Hg.
  destruct (get r) as [a|]; cbn in *; [|done]. rewrite Hg. cbn.
  change (merge m (encode m a) (m_default m)) with (decode m (encode m a)).
  by rewrite decode_encoded.
Qed.

Definition variant : field R :=
  Field number (put_message m get) merge_variant (fun r => opt_all m.(m_ok) (get r))
    (fun r => get r = None) copy_variant variant_round (message_fits m get).
End variant.

(** [repeated] messages, one entry for each. *)
Section repeated_message.
Context (number : N) (m : message A) (get : R -> list A) (set : list A -> R -> R).

Definition put_messages (r : R) : list value := VLen ∘ encode m <$> get r.

Definition merge_messages (v : value) (r : R) : option R :=
  match v with
  | VLen bs => a ← decode m bs; Some (set (get r ++ [a]) r)
  | _ => None
  end.

(** The field of [r] is empty, and may be set. *)
Definition list_blank (r : R) : Prop :=
  set [] r = r /\ (forall l, get (set l r) = l) /\ forall l l', set l' (set l r) = set l' r.

Lemma messages_round r acc :
  forallb m.(m_ok) (get r) = true -> list_blank acc ->
  fold_opt merge_messages (put_messages r) acc = Some (set (get r) acc).
Proof.
  unfold put_messages. intros Hok (Hb & Hg & Hs).
  enough (forall l, fold_opt merge_messages (VLen ∘ encode m <$> get r) (set l acc)
                    = Some (set (l ++ get r) acc)) as He by (by rewrite <- Hb at 1; rewrite He).
  induction (get r) as [|a as_ IH]; intros l; [by rewrite app_nil_r|].
  cbn in Hok |- *. apply andb_true_iff in Hok as [Ha Hok].
  rewrite decode_encoded by done. cbn. rewrite Hg, Hs, IH by done. by rewrite <- app_assoc.
Qed.

Lemma messages_fit r : forallb m.(m_ok) (get r) = true -> forallb value_ok (put_messages r) = true.
Proof. intros _. unfold put_messages. by induction (get r). Qed.

Definition repeated_message : field R :=
  Field number put_messages merge_messages (fun r => forallb m.(m_ok) (get r)) list_blank
    (fun r acc => set (get r) acc) messages_round messages_fit.
End repeated_message.
End kinds.

(** [repeated] integers, packed into one entry or one entry for each; either way
    is read. *)
Section repeated.
Context {R : Type} (number : N) (t : int_type) (packed : bool).
Context (get : R -> list Z) (set : list Z -> R -> R).

Fixpoint varints_n (fuel : nat) (bs : bytes) : option (list N) :=
  match fuel, bs with
  | _, [] => Some []
  | O, _ => None
  | S fuel, _ =>
      '(n, r) ← de_varint 10 bs;
      if n <? 2 ^ 64 then ns ← varints_n fuel r; Some (n :: ns) else None
  end.

Definition put_repeated (r : R) : list value :=
  let ns := t.(it_en) <$> get r in
  if packed then
    if is_nil ns then [] else [VLen (concat (en_varint <$> ns))]
  else VInt <$> ns.

Definition merge_repeated (v : value) (r : R) : option R :=
  match v with
  | VInt n => Some (set (get r ++ [t.(it_de) n]) r)
  | VLen bs => ns ← varints_n (length bs) bs; Some (set (get r ++ (t.(it_de) <$> ns)) r)
  | VFix _ _ => None
  end.

Lemma varints_concat ns fuel :
  forallb (fun n => n <? 2 ^ 64) ns = true ->
  (length (concat (en_varint <$> ns)) <= fuel)%nat ->
  varints_n fuel (concat (en_varint <$> ns)) = Some ns.
Proof.
  revert fuel. induction ns as [|n ns IH]; intros fuel Hns Hf; [by destruct fuel|].
  cbn in Hns, Hf |- *. apply andb_true_iff in Hns as [Hn Hns]. rewrite length_app in Hf.
  pose proof (en_varint_nonempty n) as Hne.
  destruct (en_varint n ++ concat (en_varint <$> ns)) as [|b bs] eqn:Hbs.
  { by apply app_eq_nil in Hbs as [? _]. }
  assert (length (en_varint n) <> 0%nat) by (by destruct (en_varint n)).
  destruct fuel as [|fuel]; [lia|]. cbn [varints_n]. rewrite <- Hbs.
  apply N.ltb_lt in Hn as Hlt.
  rewrite de_en_varint; [|by eapply N.lt_trans|done]. cbn. rewrite Hn.
  by rewrite IH by (done || lia).
Qed.

Lemma ints_small zs : forallb (fun n => n <? 2 ^ 64) (t.(it_en) <$> zs) = true.
Proof. induction zs as [|z zs IH]; [done|]. cbn. rewrite IH, andb_true_r. apply N.ltb_lt, it_small. Qed.

Lemma ints_round zs : forallb t.(it_ok) zs = true -> t.(it_de) <$> (t.(it_en) <$> zs) = zs.
Proof.
  induction zs as [|z zs IH]; [done|]. cbn. intros [Hz Hzs]%andb_true_iff. by rewrite it_round, IH.
Qed.

Lemma repeated_round r acc :
  forallb t.(it_ok) (get r) = true -> list_blank get set acc ->
  fold_opt merge_repeated (put_repeated r) acc = Some (set (get r) acc).
Proof.
  unfold put_repeated. intros Hok (Hb & Hg & Hs). pose proof (Hg []) as Hg0. rewrite Hb in Hg0.
  destruct packed.
  - destruct (get r) as [|z zs] eqn:Hr; [cbn; by rewrite Hb|]. rewrite <- Hr in *.
    assert (is_nil (t.(it_en) <$> get r) = false) as -> by (by rewrite Hr). cbn [fold_opt].
    unfold merge_repeated. rewrite varints_concat by (apply ints_small || lia). cbn.
    by rewrite ints_round, Hg0.
  - enough (forall l, fold_opt merge_repeated (VInt <$> (it_en t <$> get r)) (set l acc)
                      = Some (set (l ++ get r) acc)) as He by (by rewrite <- Hb at 1; rewrite He).
    clear Hg0. induction (get r) as [|z zs IH]; intros l; [by rewrite app_nil_r|].
    cbn in Hok |- *. apply andb_true_iff in Hok as [Hz Hok].
    rewrite Hg, Hs, it_round, IH by done. by rewrite <- app_assoc.
Qed.

Lemma repeated_fits r : forallb t.(it_ok) (get r) = true -> forallb value_ok (put_repeated r) = true.
Proof.
  intros _. unfold put_repeated. destruct packed; [by case_match|].
  induction (get r) as [|z zs IH]; [done|]. cbn. rewrite IH, andb_true_r. apply N.ltb_lt, it_small.
Qed.

Definition repeated : field R :=
  Field number put_repeated merge_repeated (fun r => forallb t.(it_ok) (get r)) (list_blank get set)
    (fun r acc => set (get r) acc) repeated_round repeated_fits.
End repeated.
