(* ===== verification/Protobuf.v ===== *)
(** For the concrete codec of [Codec], the messages of
    [proto/offline_wire_formats.proto] by their fields: the number,
    the type and the packing of each, and the bytes that the messages are on the
    wire. *)

From Stdlib Require Import ZArith NArith Lia.
From S2P Require Import Prelude.
From S2P Require Import Utf8.
From S2P Require Import Proto.
From S2P Require Import Wire.

#[local] Open Scope N_scope.

(** * Tactics *)

Lemma opt_all_true {A} (o : option A) : opt_all (fun _ => true) o = true.
Proof. by destruct o. Qed.

(** The checks of a message's fields, from the check of the message. *)
Ltac fields_ok ok fs :=
    unfold ok, fs; cbn [forallb optional embedded repeated_message repeated variant f_ok s_ok m_ok
    it_ok
    string_scalar bytes_scalar bool_scalar int_scalar int32 int64 uint32];
  rewrite ?andb_true_iff; intros; destruct_and?; split_and?; auto using opt_all_true.

(** The fields of a message, one after the other, make it again. *)
Ltac rebuild :=
  repeat (eapply rebuilds_cons;
    [cbn; first [reflexivity | split_and!; reflexivity]|cbn]);
  apply rebuilds_nil.

(** * Messages *)

Definition AvailableChannels_fields : list (field AvailableChannels) :=
  [ repeated 1 int32 true ach_channels
      (fun x r => mkAvailableChannels x) ].

Lemma AvailableChannels_fields_ok r :
  AvailableChannels_ok r = true -> forallb (fun f => f_ok f r) AvailableChannels_fields = true.
Proof. fields_ok AvailableChannels_ok AvailableChannels_fields. Qed.

Lemma AvailableChannels_rebuilds r :
  rebuilds r AvailableChannels_default AvailableChannels_fields r.
Proof. revert r. intros []; rebuild. Qed.

Definition AvailableChannels_message : message AvailableChannels :=
  Message AvailableChannels_default AvailableChannels_fields AvailableChannels_ok
    eq_refl AvailableChannels_fields_ok AvailableChannels_rebuilds.

Definition WifiDirectCliUsableChannels_fields : list (field WifiDirectCliUsableChannels) :=
  [ repeated 1 int32 true wdch_channels
      (fun x r => mkWifiDirectCliUsableChannels x) ].

Lemma WifiDirectCliUsableChannels_fields_ok r :
    WifiDirectCliUsableChannels_ok r = true -> forallb (fun f => f_ok f r)
    WifiDirectCliUsableChannels_fields = true.
Proof. fields_ok WifiDirectCliUsableChannels_ok WifiDirectCliUsableChannels_fields. Qed.

Lemma WifiDirectCliUsableChannels_rebuilds r :
  rebuilds r WifiDirectCliUsableChannels_default WifiDirectCliUsableChannels_fields r.
Proof. revert r. intros []; rebuild. Qed.

Definition WifiDirectCliUsableChannels_message : message WifiDirectCliUsableChannels :=
    Message WifiDirectCliUsableChannels_default WifiDirectCliUsableChannels_fields
    WifiDirectCliUsableChannels_ok
    eq_refl WifiDirectCliUsableChannels_fields_ok WifiDirectCliUsableChannels_rebuilds.

Definition WifiLanUsableChannels_fields : list (field WifiLanUsableChannels) :=
  [ repeated 1 int32 true wlch_channels
      (fun x r => mkWifiLanUsableChannels x) ].

Lemma WifiLanUsableChannels_fields_ok r :
    WifiLanUsableChannels_ok r = true -> forallb (fun f => f_ok f r) WifiLanUsableChannels_fields =
    true.
Proof. fields_ok WifiLanUsableChannels_ok WifiLanUsableChannels_fields. Qed.

Lemma WifiLanUsableChannels_rebuilds r :
  rebuilds r WifiLanUsableChannels_default WifiLanUsableChannels_fields r.
Proof. revert r. intros []; rebuild. Qed.

Definition WifiLanUsableChannels_message : message WifiLanUsableChannels :=
  Message WifiLanUsableChannels_default WifiLanUsableChannels_fields WifiLanUsableChannels_ok
    eq_refl WifiLanUsableChannels_fields_ok WifiLanUsableChannels_rebuilds.

Definition WifiAwareUsableChannels_fields : list (field WifiAwareUsableChannels) :=
  [ repeated 1 int32 true wach_channels
      (fun x r => mkWifiAwareUsableChannels x) ].

Lemma WifiAwareUsableChannels_fields_ok r :
    WifiAwareUsableChannels_ok r = true -> forallb (fun f => f_ok f r)
    WifiAwareUsableChannels_fields = true.
Proof. fields_ok WifiAwareUsableChannels_ok WifiAwareUsableChannels_fields. Qed.

Lemma WifiAwareUsableChannels_rebuilds r :
  rebuilds r WifiAwareUsableChannels_default WifiAwareUsableChannels_fields r.
Proof. revert r. intros []; rebuild. Qed.

Definition WifiAwareUsableChannels_message : message WifiAwareUsableChannels :=
  Message WifiAwareUsableChannels_default WifiAwareUsableChannels_fields WifiAwareUsableChannels_ok
    eq_refl WifiAwareUsableChannels_fields_ok WifiAwareUsableChannels_rebuilds.

Definition WifiHotspotStaUsableChannels_fields : list (field WifiHotspotStaUsableChannels) :=
  [ repeated 1 int32 true whch_channels
      (fun x r => mkWifiHotspotStaUsableChannels x) ].

Lemma WifiHotspotStaUsableChannels_fields_ok r :
    WifiHotspotStaUsableChannels_ok r = true -> forallb (fun f => f_ok f r)
    WifiHotspotStaUsableChannels_fields = true.
Proof. fields_ok WifiHotspotStaUsableChannels_ok WifiHotspotStaUsableChannels_fields. Qed.

Lemma WifiHotspotStaUsableChannels_rebuilds r :
  rebuilds r WifiHotspotStaUsableChannels_default WifiHotspotStaUsableChannels_fields r.
Proof. revert r. intros []; rebuild. Qed.

Definition WifiHotspotStaUsableChannels_message : message WifiHotspotStaUsableChannels :=
    Message WifiHotspotStaUsableChannels_default WifiHotspotStaUsableChannels_fields
    WifiHotspotStaUsableChannels_ok
    eq_refl WifiHotspotStaUsableChannels_fields_ok WifiHotspotStaUsableChannels_rebuilds.

Definition MediumRole_fields : list (field MediumRole) :=
  [ optional 1 bool_scalar mr_support_wifi_direct_group_owner
            (fun x r => mkMediumRole x r.(mr_support_wifi_direct_group_client)
        r.(mr_support_wifi_hotspot_host) r.(mr_support_wifi_hotspot_client)
        r.(mr_support_wifi_aware_publisher) r.(mr_support_wifi_aware_subscriber)
        r.(mr_support_awdl_publisher) r.(mr_support_awdl_subscriber));
    optional 2 bool_scalar mr_support_wifi_direct_group_client
            (fun x r => mkMediumRole r.(mr_support_wifi_direct_group_owner) x
        r.(mr_support_wifi_hotspot_host) r.(mr_support_wifi_hotspot_client)
        r.(mr_support_wifi_aware_publisher) r.(mr_support_wifi_aware_subscriber)
        r.(mr_support_awdl_publisher) r.(mr_support_awdl_subscriber));
    optional 3 bool_scalar mr_support_wifi_hotspot_host
            (fun x r => mkMediumRole r.(mr_support_wifi_direct_group_owner)
        r.(mr_support_wifi_direct_group_client) x r.(mr_support_wifi_hotspot_client)
        r.(mr_support_wifi_aware_publisher) r.(mr_support_wifi_aware_subscriber)
        r.(mr_support_awdl_publisher) r.(mr_support_awdl_subscriber));
    optional 4 bool_scalar mr_support_wifi_hotspot_client
            (fun x r => mkMediumRole r.(mr_support_wifi_direct_group_owner)
        r.(mr_support_wifi_direct_group_client) r.(mr_support_wifi_hotspot_host) x
        r.(mr_support_wifi_aware_publisher) r.(mr_support_wifi_aware_subscriber)
        r.(mr_support_awdl_publisher) r.(mr_support_awdl_subscriber));
    optional 5 bool_scalar mr_support_wifi_aware_publisher
            (fun x r => mkMediumRole r.(mr_support_wifi_direct_group_owner)
        r.(mr_support_wifi_direct_group_client) r.(mr_support_wifi_hotspot_host)
        r.(mr_support_wifi_hotspot_client) x r.(mr_support_wifi_aware_subscriber)
        r.(mr_support_awdl_publisher) r.(mr_support_awdl_subscriber));
    optional 6 bool_scalar mr_support_wifi_aware_subscriber
            (fun x r => mkMediumRole r.(mr_support_wifi_direct_group_owner)
        r.(mr_support_wifi_direct_group_client) r.(mr_support_wifi_hotspot_host)
        r.(mr_support_wifi_hotspot_client) r.(mr_support_wifi_aware_publisher) x
        r.(mr_support_awdl_publisher) r.(mr_support_awdl_subscriber));
    optional 7 bool_scalar mr_support_awdl_publisher
            (fun x r => mkMediumRole r.(mr_support_wifi_direct_group_owner)
        r.(mr_support_wifi_direct_group_client) r.(mr_support_wifi_hotspot_host)
        r.(mr_support_wifi_hotspot_client) r.(mr_support_wifi_aware_publisher)
        r.(mr_support_wifi_aware_subscriber) x r.(mr_support_awdl_subscriber));
    optional 8 bool_scalar mr_support_awdl_subscriber
            (fun x r => mkMediumRole r.(mr_support_wifi_direct_group_owner)
        r.(mr_support_wifi_direct_group_client) r.(mr_support_wifi_hotspot_host)
        r.(mr_support_wifi_hotspot_client) r.(mr_support_wifi_aware_publisher)
        r.(mr_support_wifi_aware_subscriber) r.(mr_support_awdl_publisher) x) ].

Lemma MediumRole_fields_ok r :
  MediumRole_ok r = true -> forallb (fun f => f_ok f r) MediumRole_fields = true.
Proof. fields_ok MediumRole_ok MediumRole_fields. Qed.

Lemma MediumRole_rebuilds r :
  rebuilds r MediumRole_default MediumRole_fields r.
Proof. revert r. intros []; rebuild. Qed.

Definition MediumRole_message : message MediumRole :=
  Message MediumRole_default MediumRole_fields MediumRole_ok
    eq_refl MediumRole_fields_ok MediumRole_rebuilds.

Definition MediumMetadata_fields : list (field MediumMetadata) :=
  [ optional 1 bool_scalar mm_supports_5_ghz
            (fun x r => mkMediumMetadata x r.(mm_bssid) r.(mm_ip_address) r.(mm_supports_6_ghz)
        r.(mm_mobile_radio) r.(mm_ap_frequency) r.(mm_available_channels)
        r.(mm_wifi_direct_cli_usable_channels) r.(mm_wifi_lan_usable_channels)
        r.(mm_wifi_aware_usable_channels) r.(mm_wifi_hotspot_sta_usable_channels) r.(mm_medium_role)
        r.(mm_supported_wifi_direct_auth_types));
    optional 2 string_scalar mm_bssid
            (fun x r => mkMediumMetadata r.(mm_supports_5_ghz) x r.(mm_ip_address)
        r.(mm_supports_6_ghz) r.(mm_mobile_radio) r.(mm_ap_frequency) r.(mm_available_channels)
        r.(mm_wifi_direct_cli_usable_channels) r.(mm_wifi_lan_usable_channels)
        r.(mm_wifi_aware_usable_channels) r.(mm_wifi_hotspot_sta_usable_channels) r.(mm_medium_role)
        r.(mm_supported_wifi_direct_auth_types));
    optional 3 bytes_scalar mm_ip_address
            (fun x r => mkMediumMetadata r.(mm_supports_5_ghz) r.(mm_bssid) x r.(mm_supports_6_ghz)
        r.(mm_mobile_radio) r.(mm_ap_frequency) r.(mm_available_channels)
        r.(mm_wifi_direct_cli_usable_channels) r.(mm_wifi_lan_usable_channels)
        r.(mm_wifi_aware_usable_channels) r.(mm_wifi_hotspot_sta_usable_channels) r.(mm_medium_role)
        r.(mm_supported_wifi_direct_auth_types));
    optional 4 bool_scalar mm_supports_6_ghz
            (fun x r => mkMediumMetadata r.(mm_supports_5_ghz) r.(mm_bssid) r.(mm_ip_address) x
        r.(mm_mobile_radio) r.(mm_ap_frequency) r.(mm_available_channels)
        r.(mm_wifi_direct_cli_usable_channels) r.(mm_wifi_lan_usable_channels)
        r.(mm_wifi_aware_usable_channels) r.(mm_wifi_hotspot_sta_usable_channels) r.(mm_medium_role)
        r.(mm_supported_wifi_direct_auth_types));
    optional 5 bool_scalar mm_mobile_radio
            (fun x r => mkMediumMetadata r.(mm_supports_5_ghz) r.(mm_bssid) r.(mm_ip_address)
        r.(mm_supports_6_ghz) x r.(mm_ap_frequency) r.(mm_available_channels)
        r.(mm_wifi_direct_cli_usable_channels) r.(mm_wifi_lan_usable_channels)
        r.(mm_wifi_aware_usable_channels) r.(mm_wifi_hotspot_sta_usable_channels) r.(mm_medium_role)
        r.(mm_supported_wifi_direct_auth_types));
    optional 6 (int_scalar int32) mm_ap_frequency
            (fun x r => mkMediumMetadata r.(mm_supports_5_ghz) r.(mm_bssid) r.(mm_ip_address)
        r.(mm_supports_6_ghz) r.(mm_mobile_radio) x r.(mm_available_channels)
        r.(mm_wifi_direct_cli_usable_channels) r.(mm_wifi_lan_usable_channels)
        r.(mm_wifi_aware_usable_channels) r.(mm_wifi_hotspot_sta_usable_channels) r.(mm_medium_role)
        r.(mm_supported_wifi_direct_auth_types));
    embedded 7 AvailableChannels_message mm_available_channels
            (fun x r => mkMediumMetadata r.(mm_supports_5_ghz) r.(mm_bssid) r.(mm_ip_address)
        r.(mm_supports_6_ghz) r.(mm_mobile_radio) r.(mm_ap_frequency) x
        r.(mm_wifi_direct_cli_usable_channels) r.(mm_wifi_lan_usable_channels)
        r.(mm_wifi_aware_usable_channels) r.(mm_wifi_hotspot_sta_usable_channels) r.(mm_medium_role)
        r.(mm_supported_wifi_direct_auth_types));
    embedded 8 WifiDirectCliUsableChannels_message mm_wifi_direct_cli_usable_channels
            (fun x r => mkMediumMetadata r.(mm_supports_5_ghz) r.(mm_bssid) r.(mm_ip_address)
        r.(mm_supports_6_ghz) r.(mm_mobile_radio) r.(mm_ap_frequency) r.(mm_available_channels) x
        r.(mm_wifi_lan_usable_channels) r.(mm_wifi_aware_usable_channels)
        r.(mm_wifi_hotspot_sta_usable_channels) r.(mm_medium_role)
        r.(mm_supported_wifi_direct_auth_types));
    embedded 9 WifiLanUsableChannels_message mm_wifi_lan_usable_channels
            (fun x r => mkMediumMetadata r.(mm_supports_5_ghz) r.(mm_bssid) r.(mm_ip_address)
        r.(mm_supports_6_ghz) r.(mm_mobile_radio) r.(mm_ap_frequency) r.(mm_available_channels)
        r.(mm_wifi_direct_cli_usable_channels) x r.(mm_wifi_aware_usable_channels)
        r.(mm_wifi_hotspot_sta_usable_channels) r.(mm_medium_role)
        r.(mm_supported_wifi_direct_auth_types));
    embedded 10 WifiAwareUsableChannels_message mm_wifi_aware_usable_channels
            (fun x r => mkMediumMetadata r.(mm_supports_5_ghz) r.(mm_bssid) r.(mm_ip_address)
        r.(mm_supports_6_ghz) r.(mm_mobile_radio) r.(mm_ap_frequency) r.(mm_available_channels)
        r.(mm_wifi_direct_cli_usable_channels) r.(mm_wifi_lan_usable_channels) x
        r.(mm_wifi_hotspot_sta_usable_channels) r.(mm_medium_role)
        r.(mm_supported_wifi_direct_auth_types));
    embedded 11 WifiHotspotStaUsableChannels_message mm_wifi_hotspot_sta_usable_channels
            (fun x r => mkMediumMetadata r.(mm_supports_5_ghz) r.(mm_bssid) r.(mm_ip_address)
        r.(mm_supports_6_ghz) r.(mm_mobile_radio) r.(mm_ap_frequency) r.(mm_available_channels)
        r.(mm_wifi_direct_cli_usable_channels) r.(mm_wifi_lan_usable_channels)
        r.(mm_wifi_aware_usable_channels) x r.(mm_medium_role)
        r.(mm_supported_wifi_direct_auth_types));
    embedded 12 MediumRole_message mm_medium_role
            (fun x r => mkMediumMetadata r.(mm_supports_5_ghz) r.(mm_bssid) r.(mm_ip_address)
        r.(mm_supports_6_ghz) r.(mm_mobile_radio) r.(mm_ap_frequency) r.(mm_available_channels)
        r.(mm_wifi_direct_cli_usable_channels) r.(mm_wifi_lan_usable_channels)
        r.(mm_wifi_aware_usable_channels) r.(mm_wifi_hotspot_sta_usable_channels) x
        r.(mm_supported_wifi_direct_auth_types));
    repeated 13 int32 true mm_supported_wifi_direct_auth_types
            (fun x r => mkMediumMetadata r.(mm_supports_5_ghz) r.(mm_bssid) r.(mm_ip_address)
        r.(mm_supports_6_ghz) r.(mm_mobile_radio) r.(mm_ap_frequency) r.(mm_available_channels)
        r.(mm_wifi_direct_cli_usable_channels) r.(mm_wifi_lan_usable_channels)
        r.(mm_wifi_aware_usable_channels) r.(mm_wifi_hotspot_sta_usable_channels) r.(mm_medium_role)
        x) ].

Lemma MediumMetadata_fields_ok r :
  MediumMetadata_ok r = true -> forallb (fun f => f_ok f r) MediumMetadata_fields = true.
Proof. fields_ok MediumMetadata_ok MediumMetadata_fields. Qed.

Lemma MediumMetadata_rebuilds r :
  rebuilds r MediumMetadata_default MediumMetadata_fields r.
Proof. revert r. intros []; rebuild. Qed.

Definition MediumMetadata_message : message MediumMetadata :=
  Message MediumMetadata_default MediumMetadata_fields MediumMetadata_ok
    eq_refl MediumMetadata_fields_ok MediumMetadata_rebuilds.

Definition ConnectionsDevice_fields : list (field ConnectionsDevice) :=
  [ optional 1 string_scalar cd_endpoint_id
            (fun x r => mkConnectionsDevice x r.(cd_endpoint_type) r.(cd_connectivity_info_list)
        r.(cd_endpoint_info));
    optional 2 (int_scalar int32) cd_endpoint_type
            (fun x r => mkConnectionsDevice r.(cd_endpoint_id) x r.(cd_connectivity_info_list)
        r.(cd_endpoint_info));
    optional 3 bytes_scalar cd_connectivity_info_list
            (fun x r => mkConnectionsDevice r.(cd_endpoint_id) r.(cd_endpoint_type) x
        r.(cd_endpoint_info));
    optional 4 bytes_scalar cd_endpoint_info
            (fun x r => mkConnectionsDevice r.(cd_endpoint_id) r.(cd_endpoint_type)
        r.(cd_connectivity_info_list) x) ].

Lemma ConnectionsDevice_fields_ok r :
  ConnectionsDevice_ok r = true -> forallb (fun f => f_ok f r) ConnectionsDevice_fields = true.
Proof. fields_ok ConnectionsDevice_ok ConnectionsDevice_fields. Qed.

Lemma ConnectionsDevice_rebuilds r :
  rebuilds r ConnectionsDevice_default ConnectionsDevice_fields r.
Proof. revert r. intros []; rebuild. Qed.

Definition ConnectionsDevice_message : message ConnectionsDevice :=
  Message ConnectionsDevice_default ConnectionsDevice_fields ConnectionsDevice_ok
    eq_refl ConnectionsDevice_fields_ok ConnectionsDevice_rebuilds.

Definition PresenceDevice_fields : list (field PresenceDevice) :=
  [ optional 1 string_scalar pd_endpoint_id
            (fun x r => mkPresenceDevice x r.(pd_endpoint_type) r.(pd_connectivity_info_list)
        r.(pd_device_id) r.(pd_device_name) r.(pd_device_type) r.(pd_device_image_url)
        r.(pd_discovery_medium) r.(pd_actions) r.(pd_identity_type));
    optional 2 (int_scalar int32) pd_endpoint_type
            (fun x r => mkPresenceDevice r.(pd_endpoint_id) x r.(pd_connectivity_info_list)
        r.(pd_device_id) r.(pd_device_name) r.(pd_device_type) r.(pd_device_image_url)
        r.(pd_discovery_medium) r.(pd_actions) r.(pd_identity_type));
    optional 3 bytes_scalar pd_connectivity_info_list
            (fun x r => mkPresenceDevice r.(pd_endpoint_id) r.(pd_endpoint_type) x r.(pd_device_id)
        r.(pd_device_name) r.(pd_device_type) r.(pd_device_image_url) r.(pd_discovery_medium)
        r.(pd_actions) r.(pd_identity_type));
    optional 4 (int_scalar int64) pd_device_id
            (fun x r => mkPresenceDevice r.(pd_endpoint_id) r.(pd_endpoint_type)
        r.(pd_connectivity_info_list) x r.(pd_device_name) r.(pd_device_type)
        r.(pd_device_image_url) r.(pd_discovery_medium) r.(pd_actions) r.(pd_identity_type));
    optional 5 string_scalar pd_device_name
            (fun x r => mkPresenceDevice r.(pd_endpoint_id) r.(pd_endpoint_type)
        r.(pd_connectivity_info_list) r.(pd_device_id) x r.(pd_device_type) r.(pd_device_image_url)
        r.(pd_discovery_medium) r.(pd_actions) r.(pd_identity_type));
    optional 6 (int_scalar int32) pd_device_type
            (fun x r => mkPresenceDevice r.(pd_endpoint_id) r.(pd_endpoint_type)
        r.(pd_connectivity_info_list) r.(pd_device_id) r.(pd_device_name) x r.(pd_device_image_url)
        r.(pd_discovery_medium) r.(pd_actions) r.(pd_identity_type));
    optional 7 string_scalar pd_device_image_url
            (fun x r => mkPresenceDevice r.(pd_endpoint_id) r.(pd_endpoint_type)
        r.(pd_connectivity_info_list) r.(pd_device_id) r.(pd_device_name) r.(pd_device_type) x
        r.(pd_discovery_medium) r.(pd_actions) r.(pd_identity_type));
    repeated 8 int32 true pd_discovery_medium
            (fun x r => mkPresenceDevice r.(pd_endpoint_id) r.(pd_endpoint_type)
        r.(pd_connectivity_info_list) r.(pd_device_id) r.(pd_device_name) r.(pd_device_type)
        r.(pd_device_image_url) x r.(pd_actions) r.(pd_identity_type));
    repeated 9 int32 true pd_actions
            (fun x r => mkPresenceDevice r.(pd_endpoint_id) r.(pd_endpoint_type)
        r.(pd_connectivity_info_list) r.(pd_device_id) r.(pd_device_name) r.(pd_device_type)
        r.(pd_device_image_url) r.(pd_discovery_medium) x r.(pd_identity_type));
    repeated 10 int64 true pd_identity_type
            (fun x r => mkPresenceDevice r.(pd_endpoint_id) r.(pd_endpoint_type)
        r.(pd_connectivity_info_list) r.(pd_device_id) r.(pd_device_name) r.(pd_device_type)
        r.(pd_device_image_url) r.(pd_discovery_medium) r.(pd_actions) x) ].

Lemma PresenceDevice_fields_ok r :
  PresenceDevice_ok r = true -> forallb (fun f => f_ok f r) PresenceDevice_fields = true.
Proof. fields_ok PresenceDevice_ok PresenceDevice_fields. Qed.

Lemma PresenceDevice_rebuilds r :
  rebuilds r PresenceDevice_default PresenceDevice_fields r.
Proof. revert r. intros []; rebuild. Qed.

Definition PresenceDevice_message : message PresenceDevice :=
  Message PresenceDevice_default PresenceDevice_fields PresenceDevice_ok
    eq_refl PresenceDevice_fields_ok PresenceDevice_rebuilds.

Definition LocationHint_fields : list (field LocationHint) :=
  [ optional 1 string_scalar lh_location
      (fun x r => mkLocationHint x r.(lh_format));
    optional 2 (int_scalar int32) lh_format
      (fun x r => mkLocationHint r.(lh_location) x) ].

Lemma LocationHint_fields_ok r :
  LocationHint_ok r = true -> forallb (fun f => f_ok f r) LocationHint_fields = true.
Proof. fields_ok LocationHint_ok LocationHint_fields. Qed.

Lemma LocationHint_rebuilds r :
  rebuilds r LocationHint_default LocationHint_fields r.
Proof. revert r. intros []; rebuild. Qed.

Definition LocationHint_message : message LocationHint :=
  Message LocationHint_default LocationHint_fields LocationHint_ok
    eq_refl LocationHint_fields_ok LocationHint_rebuilds.

Definition ConnectionRequestFrame_fields : list (field ConnectionRequestFrame) :=
  [ optional 1 string_scalar crq_endpoint_id
            (fun x r => mkConnectionRequestFrame x r.(crq_endpoint_name) r.(crq_handshake_data)
        r.(crq_nonce) r.(crq_mediums) r.(crq_endpoint_info) r.(crq_medium_metadata)
        r.(crq_keep_alive_interval_millis) r.(crq_keep_alive_timeout_millis) r.(crq_device_type)
        r.(crq_device_info) r.(crq_device) r.(crq_connection_mode) r.(crq_location_hint));
    optional 2 string_scalar crq_endpoint_name
            (fun x r => mkConnectionRequestFrame r.(crq_endpoint_id) x r.(crq_handshake_data)
        r.(crq_nonce) r.(crq_mediums) r.(crq_endpoint_info) r.(crq_medium_metadata)
        r.(crq_keep_alive_interval_millis) r.(crq_keep_alive_timeout_millis) r.(crq_device_type)
        r.(crq_device_info) r.(crq_device) r.(crq_connection_mode) r.(crq_location_hint));
    optional 3 bytes_scalar crq_handshake_data
            (fun x r => mkConnectionRequestFrame r.(crq_endpoint_id) r.(crq_endpoint_name) x
        r.(crq_nonce) r.(crq_mediums) r.(crq_endpoint_info) r.(crq_medium_metadata)
        r.(crq_keep_alive_interval_millis) r.(crq_keep_alive_timeout_millis) r.(crq_device_type)
        r.(crq_device_info) r.(crq_device) r.(crq_connection_mode) r.(crq_location_hint));
    optional 4 (int_scalar int32) crq_nonce
            (fun x r => mkConnectionRequestFrame r.(crq_endpoint_id) r.(crq_endpoint_name)
        r.(crq_handshake_data) x r.(crq_mediums) r.(crq_endpoint_info) r.(crq_medium_metadata)
        r.(crq_keep_alive_interval_millis) r.(crq_keep_alive_timeout_millis) r.(crq_device_type)
        r.(crq_device_info) r.(crq_device) r.(crq_connection_mode) r.(crq_location_hint));
    repeated 5 int32 false crq_mediums
            (fun x r => mkConnectionRequestFrame r.(crq_endpoint_id) r.(crq_endpoint_name)
        r.(crq_handshake_data) r.(crq_nonce) x r.(crq_endpoint_info) r.(crq_medium_metadata)
        r.(crq_keep_alive_interval_millis) r.(crq_keep_alive_timeout_millis) r.(crq_device_type)
        r.(crq_device_info) r.(crq_device) r.(crq_connection_mode) r.(crq_location_hint));
    optional 6 bytes_scalar crq_endpoint_info
            (fun x r => mkConnectionRequestFrame r.(crq_endpoint_id) r.(crq_endpoint_name)
        r.(crq_handshake_data) r.(crq_nonce) r.(crq_mediums) x r.(crq_medium_metadata)
        r.(crq_keep_alive_interval_millis) r.(crq_keep_alive_timeout_millis) r.(crq_device_type)
        r.(crq_device_info) r.(crq_device) r.(crq_connection_mode) r.(crq_location_hint));
    embedded 7 MediumMetadata_message crq_medium_metadata
            (fun x r => mkConnectionRequestFrame r.(crq_endpoint_id) r.(crq_endpoint_name)
        r.(crq_handshake_data) r.(crq_nonce) r.(crq_mediums) r.(crq_endpoint_info) x
        r.(crq_keep_alive_interval_millis) r.(crq_keep_alive_timeout_millis) r.(crq_device_type)
        r.(crq_device_info) r.(crq_device) r.(crq_connection_mode) r.(crq_location_hint));
    optional 8 (int_scalar int32) crq_keep_alive_interval_millis
            (fun x r => mkConnectionRequestFrame r.(crq_endpoint_id) r.(crq_endpoint_name)
        r.(crq_handshake_data) r.(crq_nonce) r.(crq_mediums) r.(crq_endpoint_info)
        r.(crq_medium_metadata) x r.(crq_keep_alive_timeout_millis) r.(crq_device_type)
        r.(crq_device_info) r.(crq_device) r.(crq_connection_mode) r.(crq_location_hint));
    optional 9 (int_scalar int32) crq_keep_alive_timeout_millis
            (fun x r => mkConnectionRequestFrame r.(crq_endpoint_id) r.(crq_endpoint_name)
        r.(crq_handshake_data) r.(crq_nonce) r.(crq_mediums) r.(crq_endpoint_info)
        r.(crq_medium_metadata) r.(crq_keep_alive_interval_millis) x r.(crq_device_type)
        r.(crq_device_info) r.(crq_device) r.(crq_connection_mode) r.(crq_location_hint));
    optional 10 (int_scalar int32) crq_device_type
            (fun x r => mkConnectionRequestFrame r.(crq_endpoint_id) r.(crq_endpoint_name)
        r.(crq_handshake_data) r.(crq_nonce) r.(crq_mediums) r.(crq_endpoint_info)
        r.(crq_medium_metadata) r.(crq_keep_alive_interval_millis) r.(crq_keep_alive_timeout_millis)
        x r.(crq_device_info) r.(crq_device) r.(crq_connection_mode) r.(crq_location_hint));
    optional 11 bytes_scalar crq_device_info
            (fun x r => mkConnectionRequestFrame r.(crq_endpoint_id) r.(crq_endpoint_name)
        r.(crq_handshake_data) r.(crq_nonce) r.(crq_mediums) r.(crq_endpoint_info)
        r.(crq_medium_metadata) r.(crq_keep_alive_interval_millis) r.(crq_keep_alive_timeout_millis)
        r.(crq_device_type) x r.(crq_device) r.(crq_connection_mode) r.(crq_location_hint));
    variant 12 ConnectionsDevice_message
            (fun r => match r.(crq_device) with Some (Device_ConnectionsDevice d) => Some d | _ =>
        None end)
            (fun x r => mkConnectionRequestFrame r.(crq_endpoint_id) r.(crq_endpoint_name)
        r.(crq_handshake_data) r.(crq_nonce) r.(crq_mediums) r.(crq_endpoint_info)
        r.(crq_medium_metadata) r.(crq_keep_alive_interval_millis) r.(crq_keep_alive_timeout_millis)
        r.(crq_device_type) r.(crq_device_info) (Some (Device_ConnectionsDevice x))
        r.(crq_connection_mode) r.(crq_location_hint));
    variant 13 PresenceDevice_message
      (fun r => match r.(crq_device) with Some (Device_PresenceDevice d) => Some d | _ => None end)
            (fun x r => mkConnectionRequestFrame r.(crq_endpoint_id) r.(crq_endpoint_name)
        r.(crq_handshake_data) r.(crq_nonce) r.(crq_mediums) r.(crq_endpoint_info)
        r.(crq_medium_metadata) r.(crq_keep_alive_interval_millis) r.(crq_keep_alive_timeout_millis)
        r.(crq_device_type) r.(crq_device_info) (Some (Device_PresenceDevice x))
        r.(crq_connection_mode) r.(crq_location_hint));
    optional 14 (int_scalar int32) crq_connection_mode
            (fun x r => mkConnectionRequestFrame r.(crq_endpoint_id) r.(crq_endpoint_name)
        r.(crq_handshake_data) r.(crq_nonce) r.(crq_mediums) r.(crq_endpoint_info)
        r.(crq_medium_metadata) r.(crq_keep_alive_interval_millis) r.(crq_keep_alive_timeout_millis)
        r.(crq_device_type) r.(crq_device_info) r.(crq_device) x r.(crq_location_hint));
    embedded 15 LocationHint_message crq_location_hint
            (fun x r => mkConnectionRequestFrame r.(crq_endpoint_id) r.(crq_endpoint_name)
        r.(crq_handshake_data) r.(crq_nonce) r.(crq_mediums) r.(crq_endpoint_info)
        r.(crq_medium_metadata) r.(crq_keep_alive_interval_millis) r.(crq_keep_alive_timeout_millis)
        r.(crq_device_type) r.(crq_device_info) r.(crq_device) r.(crq_connection_mode) x) ].

Lemma ConnectionRequestFrame_fields_ok r :
    ConnectionRequestFrame_ok r = true -> forallb (fun f => f_ok f r) ConnectionRequestFrame_fields
    = true.
Proof. fields_ok ConnectionRequestFrame_ok ConnectionRequestFrame_fields; by destruct (crq_device r)
  as [[d|d]|]. Qed.

Lemma ConnectionRequestFrame_rebuilds r :
  rebuilds r ConnectionRequestFrame_default ConnectionRequestFrame_fields r.
Proof. revert r. intros [? ? ? ? ? ? ? ? ? ? ? [[?|?]|] ? ?]; rebuild. Qed.

Definition ConnectionRequestFrame_message : message ConnectionRequestFrame :=
  Message ConnectionRequestFrame_default ConnectionRequestFrame_fields ConnectionRequestFrame_ok
    eq_refl ConnectionRequestFrame_fields_ok ConnectionRequestFrame_rebuilds.

Definition OsInfo_fields : list (field OsInfo) :=
  [ optional 1 (int_scalar int32) os_type
      (fun x r => mkOsInfo x) ].

Lemma OsInfo_fields_ok r :
  OsInfo_ok r = true -> forallb (fun f => f_ok f r) OsInfo_fields = true.
Proof. fields_ok OsInfo_ok OsInfo_fields. Qed.

Lemma OsInfo_rebuilds r :
  rebuilds r OsInfo_default OsInfo_fields r.
Proof. revert r. intros []; rebuild. Qed.

Definition OsInfo_message : message OsInfo :=
  Message OsInfo_default OsInfo_fields OsInfo_ok
    eq_refl OsInfo_fields_ok OsInfo_rebuilds.

Definition ConnectionResponseFrame_fields : list (field ConnectionResponseFrame) :=
  [ optional 1 (int_scalar int32) crs_status
            (fun x r => mkConnectionResponseFrame x r.(crs_handshake_data) r.(crs_response)
        r.(crs_os_info) r.(crs_multiplex_socket_bitmask) r.(crs_nearby_connections_version)
        r.(crs_safe_to_disconnect_version) r.(crs_location_hint) r.(crs_keep_alive_timeout_millis));
    optional 2 bytes_scalar crs_handshake_data
            (fun x r => mkConnectionResponseFrame r.(crs_status) x r.(crs_response) r.(crs_os_info)
        r.(crs_multiplex_socket_bitmask) r.(crs_nearby_connections_version)
        r.(crs_safe_to_disconnect_version) r.(crs_location_hint) r.(crs_keep_alive_timeout_millis));
    optional 3 (int_scalar int32) crs_response
            (fun x r => mkConnectionResponseFrame r.(crs_status) r.(crs_handshake_data) x
        r.(crs_os_info) r.(crs_multiplex_socket_bitmask) r.(crs_nearby_connections_version)
        r.(crs_safe_to_disconnect_version) r.(crs_location_hint) r.(crs_keep_alive_timeout_millis));
    embedded 4 OsInfo_message crs_os_info
            (fun x r => mkConnectionResponseFrame r.(crs_status) r.(crs_handshake_data)
        r.(crs_response) x r.(crs_multiplex_socket_bitmask) r.(crs_nearby_connections_version)
        r.(crs_safe_to_disconnect_version) r.(crs_location_hint) r.(crs_keep_alive_timeout_millis));
    optional 5 (int_scalar int32) crs_multiplex_socket_bitmask
            (fun x r => mkConnectionResponseFrame r.(crs_status) r.(crs_handshake_data)
        r.(crs_response) r.(crs_os_info) x r.(crs_nearby_connections_version)
        r.(crs_safe_to_disconnect_version) r.(crs_location_hint) r.(crs_keep_alive_timeout_millis));
    optional 6 (int_scalar int32) crs_nearby_connections_version
            (fun x r => mkConnectionResponseFrame r.(crs_status) r.(crs_handshake_data)
        r.(crs_response) r.(crs_os_info) r.(crs_multiplex_socket_bitmask) x
        r.(crs_safe_to_disconnect_version) r.(crs_location_hint) r.(crs_keep_alive_timeout_millis));
    optional 7 (int_scalar int32) crs_safe_to_disconnect_version
            (fun x r => mkConnectionResponseFrame r.(crs_status) r.(crs_handshake_data)
        r.(crs_response) r.(crs_os_info) r.(crs_multiplex_socket_bitmask)
        r.(crs_nearby_connections_version) x r.(crs_location_hint)
        r.(crs_keep_alive_timeout_millis));
    embedded 8 LocationHint_message crs_location_hint
            (fun x r => mkConnectionResponseFrame r.(crs_status) r.(crs_handshake_data)
        r.(crs_response) r.(crs_os_info) r.(crs_multiplex_socket_bitmask)
        r.(crs_nearby_connections_version) r.(crs_safe_to_disconnect_version) x
        r.(crs_keep_alive_timeout_millis));
    optional 9 (int_scalar int32) crs_keep_alive_timeout_millis
            (fun x r => mkConnectionResponseFrame r.(crs_status) r.(crs_handshake_data)
        r.(crs_response) r.(crs_os_info) r.(crs_multiplex_socket_bitmask)
        r.(crs_nearby_connections_version) r.(crs_safe_to_disconnect_version) r.(crs_location_hint)
        x) ].

Lemma ConnectionResponseFrame_fields_ok r :
    ConnectionResponseFrame_ok r = true -> forallb (fun f => f_ok f r)
    ConnectionResponseFrame_fields = true.
Proof. fields_ok ConnectionResponseFrame_ok ConnectionResponseFrame_fields. Qed.

Lemma ConnectionResponseFrame_rebuilds r :
  rebuilds r ConnectionResponseFrame_default ConnectionResponseFrame_fields r.
Proof. revert r. intros []; rebuild. Qed.

Definition ConnectionResponseFrame_message : message ConnectionResponseFrame :=
  Message ConnectionResponseFrame_default ConnectionResponseFrame_fields ConnectionResponseFrame_ok
    eq_refl ConnectionResponseFrame_fields_ok ConnectionResponseFrame_rebuilds.

Definition PayloadHeader_fields : list (field PayloadHeader) :=
  [ optional 1 (int_scalar int64) ph_id
            (fun x r => mkPayloadHeader x r.(ph_type) r.(ph_total_size) r.(ph_is_sensitive)
        r.(ph_file_name) r.(ph_parent_folder) r.(ph_last_modified_timestamp_millis));
    optional 2 (int_scalar int32) ph_type
            (fun x r => mkPayloadHeader r.(ph_id) x r.(ph_total_size) r.(ph_is_sensitive)
        r.(ph_file_name) r.(ph_parent_folder) r.(ph_last_modified_timestamp_millis));
    optional 3 (int_scalar int64) ph_total_size
            (fun x r => mkPayloadHeader r.(ph_id) r.(ph_type) x r.(ph_is_sensitive) r.(ph_file_name)
        r.(ph_parent_folder) r.(ph_last_modified_timestamp_millis));
    optional 4 bool_scalar ph_is_sensitive
            (fun x r => mkPayloadHeader r.(ph_id) r.(ph_type) r.(ph_total_size) x r.(ph_file_name)
        r.(ph_parent_folder) r.(ph_last_modified_timestamp_millis));
    optional 5 string_scalar ph_file_name
            (fun x r => mkPayloadHeader r.(ph_id) r.(ph_type) r.(ph_total_size) r.(ph_is_sensitive)
        x r.(ph_parent_folder) r.(ph_last_modified_timestamp_millis));
    optional 6 string_scalar ph_parent_folder
            (fun x r => mkPayloadHeader r.(ph_id) r.(ph_type) r.(ph_total_size) r.(ph_is_sensitive)
        r.(ph_file_name) x r.(ph_last_modified_timestamp_millis));
    optional 7 (int_scalar int64) ph_last_modified_timestamp_millis
            (fun x r => mkPayloadHeader r.(ph_id) r.(ph_type) r.(ph_total_size) r.(ph_is_sensitive)
        r.(ph_file_name) r.(ph_parent_folder) x) ].

Lemma PayloadHeader_fields_ok r :
  PayloadHeader_ok r = true -> forallb (fun f => f_ok f r) PayloadHeader_fields = true.
Proof. fields_ok PayloadHeader_ok PayloadHeader_fields. Qed.

Lemma PayloadHeader_rebuilds r :
  rebuilds r PayloadHeader_default PayloadHeader_fields r.
Proof. revert r. intros []; rebuild. Qed.

Definition PayloadHeader_message : message PayloadHeader :=
  Message PayloadHeader_default PayloadHeader_fields PayloadHeader_ok
    eq_refl PayloadHeader_fields_ok PayloadHeader_rebuilds.

Definition PayloadChunk_fields : list (field PayloadChunk) :=
  [ optional 1 (int_scalar int32) pc_flags
      (fun x r => mkPayloadChunk x r.(pc_offset) r.(pc_body) r.(pc_index));
    optional 2 (int_scalar int64) pc_offset
      (fun x r => mkPayloadChunk r.(pc_flags) x r.(pc_body) r.(pc_index));
    optional 3 bytes_scalar pc_body
      (fun x r => mkPayloadChunk r.(pc_flags) r.(pc_offset) x r.(pc_index));
    optional 4 (int_scalar int32) pc_index
      (fun x r => mkPayloadChunk r.(pc_flags) r.(pc_offset) r.(pc_body) x) ].

Lemma PayloadChunk_fields_ok r :
  PayloadChunk_ok r = true -> forallb (fun f => f_ok f r) PayloadChunk_fields = true.
Proof. fields_ok PayloadChunk_ok PayloadChunk_fields. Qed.

Lemma PayloadChunk_rebuilds r :
  rebuilds r PayloadChunk_default PayloadChunk_fields r.
Proof. revert r. intros []; rebuild. Qed.

Definition PayloadChunk_message : message PayloadChunk :=
  Message PayloadChunk_default PayloadChunk_fields PayloadChunk_ok
    eq_refl PayloadChunk_fields_ok PayloadChunk_rebuilds.

Definition ControlMessage_fields : list (field ControlMessage) :=
  [ optional 1 (int_scalar int32) cm_event
      (fun x r => mkControlMessage x r.(cm_offset));
    optional 2 (int_scalar int64) cm_offset
      (fun x r => mkControlMessage r.(cm_event) x) ].

Lemma ControlMessage_fields_ok r :
  ControlMessage_ok r = true -> forallb (fun f => f_ok f r) ControlMessage_fields = true.
Proof. fields_ok ControlMessage_ok ControlMessage_fields. Qed.

Lemma ControlMessage_rebuilds r :
  rebuilds r ControlMessage_default ControlMessage_fields r.
Proof. revert r. intros []; rebuild. Qed.

Definition ControlMessage_message : message ControlMessage :=
  Message ControlMessage_default ControlMessage_fields ControlMessage_ok
    eq_refl ControlMessage_fields_ok ControlMessage_rebuilds.

Definition PayloadTransferFrame_fields : list (field PayloadTransferFrame) :=
  [ optional 1 (int_scalar int32) ptf_packet_type
            (fun x r => mkPayloadTransferFrame x r.(ptf_payload_header) r.(ptf_payload_chunk)
        r.(ptf_control_message));
    embedded 2 PayloadHeader_message ptf_payload_header
            (fun x r => mkPayloadTransferFrame r.(ptf_packet_type) x r.(ptf_payload_chunk)
        r.(ptf_control_message));
    embedded 3 PayloadChunk_message ptf_payload_chunk
            (fun x r => mkPayloadTransferFrame r.(ptf_packet_type) r.(ptf_payload_header) x
        r.(ptf_control_message));
    embedded 4 ControlMessage_message ptf_control_message
            (fun x r => mkPayloadTransferFrame r.(ptf_packet_type) r.(ptf_payload_header)
        r.(ptf_payload_chunk) x) ].

Lemma PayloadTransferFrame_fields_ok r :
    PayloadTransferFrame_ok r = true -> forallb (fun f => f_ok f r) PayloadTransferFrame_fields =
    true.
Proof. fields_ok PayloadTransferFrame_ok PayloadTransferFrame_fields. Qed.

Lemma PayloadTransferFrame_rebuilds r :
  rebuilds r PayloadTransferFrame_default PayloadTransferFrame_fields r.
Proof. revert r. intros []; rebuild. Qed.

Definition PayloadTransferFrame_message : message PayloadTransferFrame :=
  Message PayloadTransferFrame_default PayloadTransferFrame_fields PayloadTransferFrame_ok
    eq_refl PayloadTransferFrame_fields_ok PayloadTransferFrame_rebuilds.

Definition PbServiceAddress_fields : list (field PbServiceAddress) :=
  [ optional 1 bytes_scalar pbsa_ip_address
      (fun x r => mkPbServiceAddress x r.(pbsa_port));
    optional 2 (int_scalar int32) pbsa_port
      (fun x r => mkPbServiceAddress r.(pbsa_ip_address) x) ].

Lemma PbServiceAddress_fields_ok r :
  PbServiceAddress_ok r = true -> forallb (fun f => f_ok f r) PbServiceAddress_fields = true.
Proof. fields_ok PbServiceAddress_ok PbServiceAddress_fields. Qed.

Lemma PbServiceAddress_rebuilds r :
  rebuilds r PbServiceAddress_default PbServiceAddress_fields r.
Proof. revert r. intros []; rebuild. Qed.

Definition PbServiceAddress_message : message PbServiceAddress :=
  Message PbServiceAddress_default PbServiceAddress_fields PbServiceAddress_ok
    eq_refl PbServiceAddress_fields_ok PbServiceAddress_rebuilds.

Definition WifiHotspotCredentials_fields : list (field WifiHotspotCredentials) :=
  [ optional 1 string_scalar whc_ssid
            (fun x r => mkWifiHotspotCredentials x r.(whc_password) r.(whc_port) r.(whc_gateway)
        r.(whc_frequency) r.(whc_address_candidates));
    optional 2 string_scalar whc_password
            (fun x r => mkWifiHotspotCredentials r.(whc_ssid) x r.(whc_port) r.(whc_gateway)
        r.(whc_frequency) r.(whc_address_candidates));
    optional 3 (int_scalar int32) whc_port
            (fun x r => mkWifiHotspotCredentials r.(whc_ssid) r.(whc_password) x r.(whc_gateway)
        r.(whc_frequency) r.(whc_address_candidates));
    optional 4 string_scalar whc_gateway
            (fun x r => mkWifiHotspotCredentials r.(whc_ssid) r.(whc_password) r.(whc_port) x
        r.(whc_frequency) r.(whc_address_candidates));
    optional 5 (int_scalar int32) whc_frequency
            (fun x r => mkWifiHotspotCredentials r.(whc_ssid) r.(whc_password) r.(whc_port)
        r.(whc_gateway) x r.(whc_address_candidates));
    repeated_message 6 PbServiceAddress_message whc_address_candidates
            (fun x r => mkWifiHotspotCredentials r.(whc_ssid) r.(whc_password) r.(whc_port)
        r.(whc_gateway) r.(whc_frequency) x) ].

Lemma WifiHotspotCredentials_fields_ok r :
    WifiHotspotCredentials_ok r = true -> forallb (fun f => f_ok f r) WifiHotspotCredentials_fields
    = true.
Proof. fields_ok WifiHotspotCredentials_ok WifiHotspotCredentials_fields. Qed.

Lemma WifiHotspotCredentials_rebuilds r :
  rebuilds r WifiHotspotCredentials_default WifiHotspotCredentials_fields r.
Proof. revert r. intros []; rebuild. Qed.

Definition WifiHotspotCredentials_message : message WifiHotspotCredentials :=
  Message WifiHotspotCredentials_default WifiHotspotCredentials_fields WifiHotspotCredentials_ok
    eq_refl WifiHotspotCredentials_fields_ok WifiHotspotCredentials_rebuilds.

Definition WifiLanSocket_fields : list (field WifiLanSocket) :=
  [ optional 1 bytes_scalar wls_ip_address
      (fun x r => mkWifiLanSocket x r.(wls_wifi_port) r.(wls_address_candidates));
    optional 2 (int_scalar int32) wls_wifi_port
      (fun x r => mkWifiLanSocket r.(wls_ip_address) x r.(wls_address_candidates));
    repeated_message 3 PbServiceAddress_message wls_address_candidates
      (fun x r => mkWifiLanSocket r.(wls_ip_address) r.(wls_wifi_port) x) ].

Lemma WifiLanSocket_fields_ok r :
  WifiLanSocket_ok r = true -> forallb (fun f => f_ok f r) WifiLanSocket_fields = true.
Proof. fields_ok WifiLanSocket_ok WifiLanSocket_fields. Qed.

Lemma WifiLanSocket_rebuilds r :
  rebuilds r WifiLanSocket_default WifiLanSocket_fields r.
Proof. revert r. intros []; rebuild. Qed.

Definition WifiLanSocket_message : message WifiLanSocket :=
  Message WifiLanSocket_default WifiLanSocket_fields WifiLanSocket_ok
    eq_refl WifiLanSocket_fields_ok WifiLanSocket_rebuilds.

Definition BluetoothCredentials_fields : list (field BluetoothCredentials) :=
  [ optional 1 string_scalar btc_service_name
      (fun x r => mkBluetoothCredentials x r.(btc_mac_address));
    optional 2 string_scalar btc_mac_address
      (fun x r => mkBluetoothCredentials r.(btc_service_name) x) ].

Lemma BluetoothCredentials_fields_ok r :
    BluetoothCredentials_ok r = true -> forallb (fun f => f_ok f r) BluetoothCredentials_fields =
    true.
Proof. fields_ok BluetoothCredentials_ok BluetoothCredentials_fields. Qed.

Lemma BluetoothCredentials_rebuilds r :
  rebuilds r BluetoothCredentials_default BluetoothCredentials_fields r.
Proof. revert r. intros []; rebuild. Qed.

Definition BluetoothCredentials_message : message BluetoothCredentials :=
  Message BluetoothCredentials_default BluetoothCredentials_fields BluetoothCredentials_ok
    eq_refl BluetoothCredentials_fields_ok BluetoothCredentials_rebuilds.

Definition WifiAwareCredentials_fields : list (field WifiAwareCredentials) :=
  [ optional 1 string_scalar wac_service_id
      (fun x r => mkWifiAwareCredentials x r.(wac_service_info) r.(wac_password));
    optional 2 bytes_scalar wac_service_info
      (fun x r => mkWifiAwareCredentials r.(wac_service_id) x r.(wac_password));
    optional 3 string_scalar wac_password
      (fun x r => mkWifiAwareCredentials r.(wac_service_id) r.(wac_service_info) x) ].

Lemma WifiAwareCredentials_fields_ok r :
    WifiAwareCredentials_ok r = true -> forallb (fun f => f_ok f r) WifiAwareCredentials_fields =
    true.
Proof. fields_ok WifiAwareCredentials_ok WifiAwareCredentials_fields. Qed.

Lemma WifiAwareCredentials_rebuilds r :
  rebuilds r WifiAwareCredentials_default WifiAwareCredentials_fields r.
Proof. revert r. intros []; rebuild. Qed.

Definition WifiAwareCredentials_message : message WifiAwareCredentials :=
  Message WifiAwareCredentials_default WifiAwareCredentials_fields WifiAwareCredentials_ok
    eq_refl WifiAwareCredentials_fields_ok WifiAwareCredentials_rebuilds.

Definition WifiDirectCredentials_fields : list (field WifiDirectCredentials) :=
  [ optional 1 string_scalar wdc_ssid
            (fun x r => mkWifiDirectCredentials x r.(wdc_password) r.(wdc_port) r.(wdc_frequency)
        r.(wdc_gateway) r.(wdc_ip_v6_address) r.(wdc_service_name) r.(wdc_device_name) r.(wdc_pin));
    optional 2 string_scalar wdc_password
            (fun x r => mkWifiDirectCredentials r.(wdc_ssid) x r.(wdc_port) r.(wdc_frequency)
        r.(wdc_gateway) r.(wdc_ip_v6_address) r.(wdc_service_name) r.(wdc_device_name) r.(wdc_pin));
    optional 3 (int_scalar int32) wdc_port
            (fun x r => mkWifiDirectCredentials r.(wdc_ssid) r.(wdc_password) x r.(wdc_frequency)
        r.(wdc_gateway) r.(wdc_ip_v6_address) r.(wdc_service_name) r.(wdc_device_name) r.(wdc_pin));
    optional 4 (int_scalar int32) wdc_frequency
            (fun x r => mkWifiDirectCredentials r.(wdc_ssid) r.(wdc_password) r.(wdc_port) x
        r.(wdc_gateway) r.(wdc_ip_v6_address) r.(wdc_service_name) r.(wdc_device_name) r.(wdc_pin));
    optional 5 string_scalar wdc_gateway
            (fun x r => mkWifiDirectCredentials r.(wdc_ssid) r.(wdc_password) r.(wdc_port)
        r.(wdc_frequency) x r.(wdc_ip_v6_address) r.(wdc_service_name) r.(wdc_device_name)
        r.(wdc_pin));
    optional 6 bytes_scalar wdc_ip_v6_address
            (fun x r => mkWifiDirectCredentials r.(wdc_ssid) r.(wdc_password) r.(wdc_port)
        r.(wdc_frequency) r.(wdc_gateway) x r.(wdc_service_name) r.(wdc_device_name) r.(wdc_pin));
    optional 7 string_scalar wdc_service_name
            (fun x r => mkWifiDirectCredentials r.(wdc_ssid) r.(wdc_password) r.(wdc_port)
        r.(wdc_frequency) r.(wdc_gateway) r.(wdc_ip_v6_address) x r.(wdc_device_name) r.(wdc_pin));
    optional 8 string_scalar wdc_pin
            (fun x r => mkWifiDirectCredentials r.(wdc_ssid) r.(wdc_password) r.(wdc_port)
        r.(wdc_frequency) r.(wdc_gateway) r.(wdc_ip_v6_address) r.(wdc_service_name)
        r.(wdc_device_name) x);
    optional 9 string_scalar wdc_device_name
            (fun x r => mkWifiDirectCredentials r.(wdc_ssid) r.(wdc_password) r.(wdc_port)
        r.(wdc_frequency) r.(wdc_gateway) r.(wdc_ip_v6_address) r.(wdc_service_name) x r.(wdc_pin))
        ].

Lemma WifiDirectCredentials_fields_ok r :
    WifiDirectCredentials_ok r = true -> forallb (fun f => f_ok f r) WifiDirectCredentials_fields =
    true.
Proof. fields_ok WifiDirectCredentials_ok WifiDirectCredentials_fields. Qed.

Lemma WifiDirectCredentials_rebuilds r :
  rebuilds r WifiDirectCredentials_default WifiDirectCredentials_fields r.
Proof. revert r. intros []; rebuild. Qed.

Definition WifiDirectCredentials_message : message WifiDirectCredentials :=
  Message WifiDirectCredentials_default WifiDirectCredentials_fields WifiDirectCredentials_ok
    eq_refl WifiDirectCredentials_fields_ok WifiDirectCredentials_rebuilds.

Definition WebRtcCredentials_fields : list (field WebRtcCredentials) :=
  [ optional 1 string_scalar wrc_peer_id
      (fun x r => mkWebRtcCredentials x r.(wrc_location_hint));
    embedded 2 LocationHint_message wrc_location_hint
      (fun x r => mkWebRtcCredentials r.(wrc_peer_id) x) ].

Lemma WebRtcCredentials_fields_ok r :
  WebRtcCredentials_ok r = true -> forallb (fun f => f_ok f r) WebRtcCredentials_fields = true.
Proof. fields_ok WebRtcCredentials_ok WebRtcCredentials_fields. Qed.

Lemma WebRtcCredentials_rebuilds r :
  rebuilds r WebRtcCredentials_default WebRtcCredentials_fields r.
Proof. revert r. intros []; rebuild. Qed.

Definition WebRtcCredentials_message : message WebRtcCredentials :=
  Message WebRtcCredentials_default WebRtcCredentials_fields WebRtcCredentials_ok
    eq_refl WebRtcCredentials_fields_ok WebRtcCredentials_rebuilds.

Definition AwdlCredentials_fields : list (field AwdlCredentials) :=
  [ optional 1 string_scalar awc_service_name
      (fun x r => mkAwdlCredentials x r.(awc_service_type) r.(awc_password));
    optional 2 string_scalar awc_service_type
      (fun x r => mkAwdlCredentials r.(awc_service_name) x r.(awc_password));
    optional 3 string_scalar awc_password
      (fun x r => mkAwdlCredentials r.(awc_service_name) r.(awc_service_type) x) ].

Lemma AwdlCredentials_fields_ok r :
  AwdlCredentials_ok r = true -> forallb (fun f => f_ok f r) AwdlCredentials_fields = true.
Proof. fields_ok AwdlCredentials_ok AwdlCredentials_fields. Qed.

Lemma AwdlCredentials_rebuilds r :
  rebuilds r AwdlCredentials_default AwdlCredentials_fields r.
Proof. revert r. intros []; rebuild. Qed.

Definition AwdlCredentials_message : message AwdlCredentials :=
  Message AwdlCredentials_default AwdlCredentials_fields AwdlCredentials_ok
    eq_refl AwdlCredentials_fields_ok AwdlCredentials_rebuilds.

Definition UpgradePathRequest_fields : list (field UpgradePathRequest) :=
  [ repeated 1 int32 true upr_mediums
      (fun x r => mkUpgradePathRequest x r.(upr_medium_meta_data));
    embedded 2 MediumMetadata_message upr_medium_meta_data
      (fun x r => mkUpgradePathRequest r.(upr_mediums) x) ].

Lemma UpgradePathRequest_fields_ok r :
  UpgradePathRequest_ok r = true -> forallb (fun f => f_ok f r) UpgradePathRequest_fields = true.
Proof. fields_ok UpgradePathRequest_ok UpgradePathRequest_fields. Qed.

Lemma UpgradePathRequest_rebuilds r :
  rebuilds r UpgradePathRequest_default UpgradePathRequest_fields r.
Proof. revert r. intros []; rebuild. Qed.

Definition UpgradePathRequest_message : message UpgradePathRequest :=
  Message UpgradePathRequest_default UpgradePathRequest_fields UpgradePathRequest_ok
    eq_refl UpgradePathRequest_fields_ok UpgradePathRequest_rebuilds.

Definition UpgradePathInfo_fields : list (field UpgradePathInfo) :=
  [ optional 1 (int_scalar int32) upi_medium
            (fun x r => mkUpgradePathInfo x r.(upi_wifi_hotspot_credentials) r.(upi_wifi_lan_socket)
        r.(upi_bluetooth_credentials) r.(upi_wifi_aware_credentials) r.(upi_wifi_direct_credentials)
        r.(upi_web_rtc_credentials) r.(upi_awdl_credentials) r.(upi_supports_disabling_encryption)
        r.(upi_supports_client_introduction_ack) r.(upi_upgrade_path_request));
    embedded 2 WifiHotspotCredentials_message upi_wifi_hotspot_credentials
            (fun x r => mkUpgradePathInfo r.(upi_medium) x r.(upi_wifi_lan_socket)
        r.(upi_bluetooth_credentials) r.(upi_wifi_aware_credentials) r.(upi_wifi_direct_credentials)
        r.(upi_web_rtc_credentials) r.(upi_awdl_credentials) r.(upi_supports_disabling_encryption)
        r.(upi_supports_client_introduction_ack) r.(upi_upgrade_path_request));
    embedded 3 WifiLanSocket_message upi_wifi_lan_socket
            (fun x r => mkUpgradePathInfo r.(upi_medium) r.(upi_wifi_hotspot_credentials) x
        r.(upi_bluetooth_credentials) r.(upi_wifi_aware_credentials) r.(upi_wifi_direct_credentials)
        r.(upi_web_rtc_credentials) r.(upi_awdl_credentials) r.(upi_supports_disabling_encryption)
        r.(upi_supports_client_introduction_ack) r.(upi_upgrade_path_request));
    embedded 4 BluetoothCredentials_message upi_bluetooth_credentials
            (fun x r => mkUpgradePathInfo r.(upi_medium) r.(upi_wifi_hotspot_credentials)
        r.(upi_wifi_lan_socket) x r.(upi_wifi_aware_credentials) r.(upi_wifi_direct_credentials)
        r.(upi_web_rtc_credentials) r.(upi_awdl_credentials) r.(upi_supports_disabling_encryption)
        r.(upi_supports_client_introduction_ack) r.(upi_upgrade_path_request));
    embedded 5 WifiAwareCredentials_message upi_wifi_aware_credentials
            (fun x r => mkUpgradePathInfo r.(upi_medium) r.(upi_wifi_hotspot_credentials)
        r.(upi_wifi_lan_socket) r.(upi_bluetooth_credentials) x r.(upi_wifi_direct_credentials)
        r.(upi_web_rtc_credentials) r.(upi_awdl_credentials) r.(upi_supports_disabling_encryption)
        r.(upi_supports_client_introduction_ack) r.(upi_upgrade_path_request));
    embedded 6 WifiDirectCredentials_message upi_wifi_direct_credentials
            (fun x r => mkUpgradePathInfo r.(upi_medium) r.(upi_wifi_hotspot_credentials)
        r.(upi_wifi_lan_socket) r.(upi_bluetooth_credentials) r.(upi_wifi_aware_credentials) x
        r.(upi_web_rtc_credentials) r.(upi_awdl_credentials) r.(upi_supports_disabling_encryption)
        r.(upi_supports_client_introduction_ack) r.(upi_upgrade_path_request));
    optional 7 bool_scalar upi_supports_disabling_encryption
            (fun x r => mkUpgradePathInfo r.(upi_medium) r.(upi_wifi_hotspot_credentials)
        r.(upi_wifi_lan_socket) r.(upi_bluetooth_credentials) r.(upi_wifi_aware_credentials)
        r.(upi_wifi_direct_credentials) r.(upi_web_rtc_credentials) r.(upi_awdl_credentials) x
        r.(upi_supports_client_introduction_ack) r.(upi_upgrade_path_request));
    embedded 8 WebRtcCredentials_message upi_web_rtc_credentials
            (fun x r => mkUpgradePathInfo r.(upi_medium) r.(upi_wifi_hotspot_credentials)
        r.(upi_wifi_lan_socket) r.(upi_bluetooth_credentials) r.(upi_wifi_aware_credentials)
        r.(upi_wifi_direct_credentials) x r.(upi_awdl_credentials)
        r.(upi_supports_disabling_encryption) r.(upi_supports_client_introduction_ack)
        r.(upi_upgrade_path_request));
    optional 9 bool_scalar upi_supports_client_introduction_ack
            (fun x r => mkUpgradePathInfo r.(upi_medium) r.(upi_wifi_hotspot_credentials)
        r.(upi_wifi_lan_socket) r.(upi_bluetooth_credentials) r.(upi_wifi_aware_credentials)
        r.(upi_wifi_direct_credentials) r.(upi_web_rtc_credentials) r.(upi_awdl_credentials)
        r.(upi_supports_disabling_encryption) x r.(upi_upgrade_path_request));
    embedded 10 UpgradePathRequest_message upi_upgrade_path_request
            (fun x r => mkUpgradePathInfo r.(upi_medium) r.(upi_wifi_hotspot_credentials)
        r.(upi_wifi_lan_socket) r.(upi_bluetooth_credentials) r.(upi_wifi_aware_credentials)
        r.(upi_wifi_direct_credentials) r.(upi_web_rtc_credentials) r.(upi_awdl_credentials)
        r.(upi_supports_disabling_encryption) r.(upi_supports_client_introduction_ack) x);
    embedded 11 AwdlCredentials_message upi_awdl_credentials
            (fun x r => mkUpgradePathInfo r.(upi_medium) r.(upi_wifi_hotspot_credentials)
        r.(upi_wifi_lan_socket) r.(upi_bluetooth_credentials) r.(upi_wifi_aware_credentials)
        r.(upi_wifi_direct_credentials) r.(upi_web_rtc_credentials) x
        r.(upi_supports_disabling_encryption) r.(upi_supports_client_introduction_ack)
        r.(upi_upgrade_path_request)) ].

Lemma UpgradePathInfo_fields_ok r :
  UpgradePathInfo_ok r = true -> forallb (fun f => f_ok f r) UpgradePathInfo_fields = true.
Proof. fields_ok UpgradePathInfo_ok UpgradePathInfo_fields. Qed.

Lemma UpgradePathInfo_rebuilds r :
  rebuilds r UpgradePathInfo_default UpgradePathInfo_fields r.
Proof. revert r. intros []; rebuild. Qed.

Definition UpgradePathInfo_message : message UpgradePathInfo :=
  Message UpgradePathInfo_default UpgradePathInfo_fields UpgradePathInfo_ok
    eq_refl UpgradePathInfo_fields_ok UpgradePathInfo_rebuilds.

Definition ClientIntroduction_fields : list (field ClientIntroduction) :=
  [ optional 1 string_scalar ci_endpoint_id
            (fun x r => mkClientIntroduction x r.(ci_supports_disabling_encryption)
        r.(ci_last_endpoint_id));
    optional 2 bool_scalar ci_supports_disabling_encryption
      (fun x r => mkClientIntroduction r.(ci_endpoint_id) x r.(ci_last_endpoint_id));
    optional 3 string_scalar ci_last_endpoint_id
      (fun x r => mkClientIntroduction r.(ci_endpoint_id) r.(ci_supports_disabling_encryption) x) ].

Lemma ClientIntroduction_fields_ok r :
  ClientIntroduction_ok r = true -> forallb (fun f => f_ok f r) ClientIntroduction_fields = true.
Proof. fields_ok ClientIntroduction_ok ClientIntroduction_fields. Qed.

Lemma ClientIntroduction_rebuilds r :
  rebuilds r ClientIntroduction_default ClientIntroduction_fields r.
Proof. revert r. intros []; rebuild. Qed.

Definition ClientIntroduction_message : message ClientIntroduction :=
  Message ClientIntroduction_default ClientIntroduction_fields ClientIntroduction_ok
    eq_refl ClientIntroduction_fields_ok ClientIntroduction_rebuilds.

Definition ClientIntroductionAck_fields : list (field ClientIntroductionAck) :=
  [  ].

Lemma ClientIntroductionAck_fields_ok r :
    ClientIntroductionAck_ok r = true -> forallb (fun f => f_ok f r) ClientIntroductionAck_fields =
    true.
Proof. fields_ok ClientIntroductionAck_ok ClientIntroductionAck_fields. Qed.

Lemma ClientIntroductionAck_rebuilds r :
  rebuilds r ClientIntroductionAck_default ClientIntroductionAck_fields r.
Proof. revert r. intros []; rebuild. Qed.

Definition ClientIntroductionAck_message : message ClientIntroductionAck :=
  Message ClientIntroductionAck_default ClientIntroductionAck_fields ClientIntroductionAck_ok
    eq_refl ClientIntroductionAck_fields_ok ClientIntroductionAck_rebuilds.

Definition SafeToClosePriorChannel_fields : list (field SafeToClosePriorChannel) :=
  [ optional 1 (int_scalar int32) stc_sta_frequency
      (fun x r => mkSafeToClosePriorChannel x) ].

Lemma SafeToClosePriorChannel_fields_ok r :
    SafeToClosePriorChannel_ok r = true -> forallb (fun f => f_ok f r)
    SafeToClosePriorChannel_fields = true.
Proof. fields_ok SafeToClosePriorChannel_ok SafeToClosePriorChannel_fields. Qed.

Lemma SafeToClosePriorChannel_rebuilds r :
  rebuilds r SafeToClosePriorChannel_default SafeToClosePriorChannel_fields r.
Proof. revert r. intros []; rebuild. Qed.

Definition SafeToClosePriorChannel_message : message SafeToClosePriorChannel :=
  Message SafeToClosePriorChannel_default SafeToClosePriorChannel_fields SafeToClosePriorChannel_ok
    eq_refl SafeToClosePriorChannel_fields_ok SafeToClosePriorChannel_rebuilds.

Definition BandwidthUpgradeNegotiationFrame_fields : list (field BandwidthUpgradeNegotiationFrame)
  :=
  [ optional 1 (int_scalar int32) bwu_event_type
            (fun x r => mkBandwidthUpgradeNegotiationFrame x r.(bwu_upgrade_path_info)
        r.(bwu_client_introduction) r.(bwu_client_introduction_ack)
        r.(bwu_safe_to_close_prior_channel));
    embedded 2 UpgradePathInfo_message bwu_upgrade_path_info
            (fun x r => mkBandwidthUpgradeNegotiationFrame r.(bwu_event_type) x
        r.(bwu_client_introduction) r.(bwu_client_introduction_ack)
        r.(bwu_safe_to_close_prior_channel));
    embedded 3 ClientIntroduction_message bwu_client_introduction
            (fun x r => mkBandwidthUpgradeNegotiationFrame r.(bwu_event_type)
        r.(bwu_upgrade_path_info) x r.(bwu_client_introduction_ack)
        r.(bwu_safe_to_close_prior_channel));
    embedded 4 ClientIntroductionAck_message bwu_client_introduction_ack
            (fun x r => mkBandwidthUpgradeNegotiationFrame r.(bwu_event_type)
        r.(bwu_upgrade_path_info) r.(bwu_client_introduction) x
        r.(bwu_safe_to_close_prior_channel));
    embedded 5 SafeToClosePriorChannel_message bwu_safe_to_close_prior_channel
            (fun x r => mkBandwidthUpgradeNegotiationFrame r.(bwu_event_type)
        r.(bwu_upgrade_path_info) r.(bwu_client_introduction) r.(bwu_client_introduction_ack) x) ].

Lemma BandwidthUpgradeNegotiationFrame_fields_ok r :
    BandwidthUpgradeNegotiationFrame_ok r = true -> forallb (fun f => f_ok f r)
    BandwidthUpgradeNegotiationFrame_fields = true.
Proof. fields_ok BandwidthUpgradeNegotiationFrame_ok BandwidthUpgradeNegotiationFrame_fields. Qed.

Lemma BandwidthUpgradeNegotiationFrame_rebuilds r :
  rebuilds r BandwidthUpgradeNegotiationFrame_default BandwidthUpgradeNegotiationFrame_fields r.
Proof. revert r. intros []; rebuild. Qed.

Definition BandwidthUpgradeNegotiationFrame_message : message BandwidthUpgradeNegotiationFrame :=
    Message BandwidthUpgradeNegotiationFrame_default BandwidthUpgradeNegotiationFrame_fields
    BandwidthUpgradeNegotiationFrame_ok
    eq_refl BandwidthUpgradeNegotiationFrame_fields_ok BandwidthUpgradeNegotiationFrame_rebuilds.

Definition KeepAliveFrame_fields : list (field KeepAliveFrame) :=
  [ optional 1 bool_scalar ka_ack
      (fun x r => mkKeepAliveFrame x r.(ka_seq_num));
    optional 2 (int_scalar uint32) ka_seq_num
      (fun x r => mkKeepAliveFrame r.(ka_ack) x) ].

Lemma KeepAliveFrame_fields_ok r :
  KeepAliveFrame_ok r = true -> forallb (fun f => f_ok f r) KeepAliveFrame_fields = true.
Proof. fields_ok KeepAliveFrame_ok KeepAliveFrame_fields. Qed.

Lemma KeepAliveFrame_rebuilds r :
  rebuilds r KeepAliveFrame_default KeepAliveFrame_fields r.
Proof. revert r. intros []; rebuild. Qed.

Definition KeepAliveFrame_message : message KeepAliveFrame :=
  Message KeepAliveFrame_default KeepAliveFrame_fields KeepAliveFrame_ok
    eq_refl KeepAliveFrame_fields_ok KeepAliveFrame_rebuilds.

Definition DisconnectionFrame_fields : list (field DisconnectionFrame) :=
  [ optional 1 bool_scalar dis_request_safe_to_disconnect
      (fun x r => mkDisconnectionFrame x r.(dis_ack_safe_to_disconnect));
    optional 2 bool_scalar dis_ack_safe_to_disconnect
      (fun x r => mkDisconnectionFrame r.(dis_request_safe_to_disconnect) x) ].

Lemma DisconnectionFrame_fields_ok r :
  DisconnectionFrame_ok r = true -> forallb (fun f => f_ok f r) DisconnectionFrame_fields = true.
Proof. fields_ok DisconnectionFrame_ok DisconnectionFrame_fields. Qed.

Lemma DisconnectionFrame_rebuilds r :
  rebuilds r DisconnectionFrame_default DisconnectionFrame_fields r.
Proof. revert r. intros []; rebuild. Qed.

Definition DisconnectionFrame_message : message DisconnectionFrame :=
  Message DisconnectionFrame_default DisconnectionFrame_fields DisconnectionFrame_ok
    eq_refl DisconnectionFrame_fields_ok DisconnectionFrame_rebuilds.

Definition PairedKeyEncryptionFrame_fields : list (field PairedKeyEncryptionFrame) :=
  [ optional 1 bytes_scalar pke_signed_data
      (fun x r => mkPairedKeyEncryptionFrame x) ].

Lemma PairedKeyEncryptionFrame_fields_ok r :
    PairedKeyEncryptionFrame_ok r = true -> forallb (fun f => f_ok f r)
    PairedKeyEncryptionFrame_fields = true.
Proof. fields_ok PairedKeyEncryptionFrame_ok PairedKeyEncryptionFrame_fields. Qed.

Lemma PairedKeyEncryptionFrame_rebuilds r :
  rebuilds r PairedKeyEncryptionFrame_default PairedKeyEncryptionFrame_fields r.
Proof. revert r. intros []; rebuild. Qed.

Definition PairedKeyEncryptionFrame_message : message PairedKeyEncryptionFrame :=
    Message PairedKeyEncryptionFrame_default PairedKeyEncryptionFrame_fields
    PairedKeyEncryptionFrame_ok
    eq_refl PairedKeyEncryptionFrame_fields_ok PairedKeyEncryptionFrame_rebuilds.

Definition AuthenticationMessageFrame_fields : list (field AuthenticationMessageFrame) :=
  [ optional 1 bytes_scalar amf_auth_message
      (fun x r => mkAuthenticationMessageFrame x) ].

Lemma AuthenticationMessageFrame_fields_ok r :
    AuthenticationMessageFrame_ok r = true -> forallb (fun f => f_ok f r)
    AuthenticationMessageFrame_fields = true.
Proof. fields_ok AuthenticationMessageFrame_ok AuthenticationMessageFrame_fields. Qed.

Lemma AuthenticationMessageFrame_rebuilds r :
  rebuilds r AuthenticationMessageFrame_default AuthenticationMessageFrame_fields r.
Proof. revert r. intros []; rebuild. Qed.

Definition AuthenticationMessageFrame_message : message AuthenticationMessageFrame :=
    Message AuthenticationMessageFrame_default AuthenticationMessageFrame_fields
    AuthenticationMessageFrame_ok
    eq_refl AuthenticationMessageFrame_fields_ok AuthenticationMessageFrame_rebuilds.

Definition AuthenticationResultFrame_fields : list (field AuthenticationResultFrame) :=
  [ optional 1 (int_scalar int32) arf_result
      (fun x r => mkAuthenticationResultFrame x) ].

Lemma AuthenticationResultFrame_fields_ok r :
    AuthenticationResultFrame_ok r = true -> forallb (fun f => f_ok f r)
    AuthenticationResultFrame_fields = true.
Proof. fields_ok AuthenticationResultFrame_ok AuthenticationResultFrame_fields. Qed.

Lemma AuthenticationResultFrame_rebuilds r :
  rebuilds r AuthenticationResultFrame_default AuthenticationResultFrame_fields r.
Proof. revert r. intros []; rebuild. Qed.

Definition AuthenticationResultFrame_message : message AuthenticationResultFrame :=
    Message AuthenticationResultFrame_default AuthenticationResultFrame_fields
    AuthenticationResultFrame_ok
    eq_refl AuthenticationResultFrame_fields_ok AuthenticationResultFrame_rebuilds.

Definition AutoResumeFrame_fields : list (field AutoResumeFrame) :=
  [ optional 1 (int_scalar int32) aru_event_type
            (fun x r => mkAutoResumeFrame x r.(aru_pending_payload_id)
        r.(aru_next_payload_chunk_index) r.(aru_version));
    optional 2 (int_scalar int64) aru_pending_payload_id
            (fun x r => mkAutoResumeFrame r.(aru_event_type) x r.(aru_next_payload_chunk_index)
        r.(aru_version));
    optional 3 (int_scalar int32) aru_next_payload_chunk_index
            (fun x r => mkAutoResumeFrame r.(aru_event_type) r.(aru_pending_payload_id) x
        r.(aru_version));
    optional 4 (int_scalar int32) aru_version
            (fun x r => mkAutoResumeFrame r.(aru_event_type) r.(aru_pending_payload_id)
        r.(aru_next_payload_chunk_index) x) ].

Lemma AutoResumeFrame_fields_ok r :
  AutoResumeFrame_ok r = true -> forallb (fun f => f_ok f r) AutoResumeFrame_fields = true.
Proof. fields_ok AutoResumeFrame_ok AutoResumeFrame_fields. Qed.

Lemma AutoResumeFrame_rebuilds r :
  rebuilds r AutoResumeFrame_default AutoResumeFrame_fields r.
Proof. revert r. intros []; rebuild. Qed.

Definition AutoResumeFrame_message : message AutoResumeFrame :=
  Message AutoResumeFrame_default AutoResumeFrame_fields AutoResumeFrame_ok
    eq_refl AutoResumeFrame_fields_ok AutoResumeFrame_rebuilds.

Definition AutoReconnectFrame_fields : list (field AutoReconnectFrame) :=
  [ optional 1 string_scalar arc_endpoint_id
      (fun x r => mkAutoReconnectFrame x r.(arc_event_type) r.(arc_last_endpoint_id));
    optional 2 (int_scalar int32) arc_event_type
      (fun x r => mkAutoReconnectFrame r.(arc_endpoint_id) x r.(arc_last_endpoint_id));
    optional 3 string_scalar arc_last_endpoint_id
      (fun x r => mkAutoReconnectFrame r.(arc_endpoint_id) r.(arc_event_type) x) ].

Lemma AutoReconnectFrame_fields_ok r :
  AutoReconnectFrame_ok r = true -> forallb (fun f => f_ok f r) AutoReconnectFrame_fields = true.
Proof. fields_ok AutoReconnectFrame_ok AutoReconnectFrame_fields. Qed.

Lemma AutoReconnectFrame_rebuilds r :
  rebuilds r AutoReconnectFrame_default AutoReconnectFrame_fields r.
Proof. revert r. intros []; rebuild. Qed.

Definition AutoReconnectFrame_message : message AutoReconnectFrame :=
  Message AutoReconnectFrame_default AutoReconnectFrame_fields AutoReconnectFrame_ok
    eq_refl AutoReconnectFrame_fields_ok AutoReconnectFrame_rebuilds.

Definition BandwidthUpgradeRetryFrame_fields : list (field BandwidthUpgradeRetryFrame) :=
  [ repeated 1 int32 false bur_supported_medium
      (fun x r => mkBandwidthUpgradeRetryFrame x r.(bur_is_request));
    optional 2 bool_scalar bur_is_request
      (fun x r => mkBandwidthUpgradeRetryFrame r.(bur_supported_medium) x) ].

Lemma BandwidthUpgradeRetryFrame_fields_ok r :
    BandwidthUpgradeRetryFrame_ok r = true -> forallb (fun f => f_ok f r)
    BandwidthUpgradeRetryFrame_fields = true.
Proof. fields_ok BandwidthUpgradeRetryFrame_ok BandwidthUpgradeRetryFrame_fields. Qed.

Lemma BandwidthUpgradeRetryFrame_rebuilds r :
  rebuilds r BandwidthUpgradeRetryFrame_default BandwidthUpgradeRetryFrame_fields r.
Proof. revert r. intros []; rebuild. Qed.

Definition BandwidthUpgradeRetryFrame_message : message BandwidthUpgradeRetryFrame :=
    Message BandwidthUpgradeRetryFrame_default BandwidthUpgradeRetryFrame_fields
    BandwidthUpgradeRetryFrame_ok
    eq_refl BandwidthUpgradeRetryFrame_fields_ok BandwidthUpgradeRetryFrame_rebuilds.

Definition V1Frame_fields : list (field V1Frame) :=
  [ optional 1 (int_scalar int32) v1_type
            (fun x r => mkV1Frame x r.(v1_connection_request) r.(v1_connection_response)
        r.(v1_payload_transfer) r.(v1_bandwidth_upgrade_negotiation) r.(v1_keep_alive)
        r.(v1_disconnection) r.(v1_paired_key_encryption) r.(v1_authentication_message)
        r.(v1_authentication_result) r.(v1_auto_resume) r.(v1_auto_reconnect)
        r.(v1_bandwidth_upgrade_retry));
    embedded 2 ConnectionRequestFrame_message v1_connection_request
            (fun x r => mkV1Frame r.(v1_type) x r.(v1_connection_response) r.(v1_payload_transfer)
        r.(v1_bandwidth_upgrade_negotiation) r.(v1_keep_alive) r.(v1_disconnection)
        r.(v1_paired_key_encryption) r.(v1_authentication_message) r.(v1_authentication_result)
        r.(v1_auto_resume) r.(v1_auto_reconnect) r.(v1_bandwidth_upgrade_retry));
    embedded 3 ConnectionResponseFrame_message v1_connection_response
            (fun x r => mkV1Frame r.(v1_type) r.(v1_connection_request) x r.(v1_payload_transfer)
        r.(v1_bandwidth_upgrade_negotiation) r.(v1_keep_alive) r.(v1_disconnection)
        r.(v1_paired_key_encryption) r.(v1_authentication_message) r.(v1_authentication_result)
        r.(v1_auto_resume) r.(v1_auto_reconnect) r.(v1_bandwidth_upgrade_retry));
    embedded 4 PayloadTransferFrame_message v1_payload_transfer
            (fun x r => mkV1Frame r.(v1_type) r.(v1_connection_request) r.(v1_connection_response) x
        r.(v1_bandwidth_upgrade_negotiation) r.(v1_keep_alive) r.(v1_disconnection)
        r.(v1_paired_key_encryption) r.(v1_authentication_message) r.(v1_authentication_result)
        r.(v1_auto_resume) r.(v1_auto_reconnect) r.(v1_bandwidth_upgrade_retry));
    embedded 5 BandwidthUpgradeNegotiationFrame_message v1_bandwidth_upgrade_negotiation
            (fun x r => mkV1Frame r.(v1_type) r.(v1_connection_request) r.(v1_connection_response)
        r.(v1_payload_transfer) x r.(v1_keep_alive) r.(v1_disconnection)
        r.(v1_paired_key_encryption) r.(v1_authentication_message) r.(v1_authentication_result)
        r.(v1_auto_resume) r.(v1_auto_reconnect) r.(v1_bandwidth_upgrade_retry));
    embedded 6 KeepAliveFrame_message v1_keep_alive
            (fun x r => mkV1Frame r.(v1_type) r.(v1_connection_request) r.(v1_connection_response)
        r.(v1_payload_transfer) r.(v1_bandwidth_upgrade_negotiation) x r.(v1_disconnection)
        r.(v1_paired_key_encryption) r.(v1_authentication_message) r.(v1_authentication_result)
        r.(v1_auto_resume) r.(v1_auto_reconnect) r.(v1_bandwidth_upgrade_retry));
    embedded 7 DisconnectionFrame_message v1_disconnection
            (fun x r => mkV1Frame r.(v1_type) r.(v1_connection_request) r.(v1_connection_response)
        r.(v1_payload_transfer) r.(v1_bandwidth_upgrade_negotiation) r.(v1_keep_alive) x
        r.(v1_paired_key_encryption) r.(v1_authentication_message) r.(v1_authentication_result)
        r.(v1_auto_resume) r.(v1_auto_reconnect) r.(v1_bandwidth_upgrade_retry));
    embedded 8 PairedKeyEncryptionFrame_message v1_paired_key_encryption
            (fun x r => mkV1Frame r.(v1_type) r.(v1_connection_request) r.(v1_connection_response)
        r.(v1_payload_transfer) r.(v1_bandwidth_upgrade_negotiation) r.(v1_keep_alive)
        r.(v1_disconnection) x r.(v1_authentication_message) r.(v1_authentication_result)
        r.(v1_auto_resume) r.(v1_auto_reconnect) r.(v1_bandwidth_upgrade_retry));
    embedded 9 AuthenticationMessageFrame_message v1_authentication_message
            (fun x r => mkV1Frame r.(v1_type) r.(v1_connection_request) r.(v1_connection_response)
        r.(v1_payload_transfer) r.(v1_bandwidth_upgrade_negotiation) r.(v1_keep_alive)
        r.(v1_disconnection) r.(v1_paired_key_encryption) x r.(v1_authentication_result)
        r.(v1_auto_resume) r.(v1_auto_reconnect) r.(v1_bandwidth_upgrade_retry));
    embedded 10 AuthenticationResultFrame_message v1_authentication_result
            (fun x r => mkV1Frame r.(v1_type) r.(v1_connection_request) r.(v1_connection_response)
        r.(v1_payload_transfer) r.(v1_bandwidth_upgrade_negotiation) r.(v1_keep_alive)
        r.(v1_disconnection) r.(v1_paired_key_encryption) r.(v1_authentication_message) x
        r.(v1_auto_resume) r.(v1_auto_reconnect) r.(v1_bandwidth_upgrade_retry));
    embedded 11 AutoResumeFrame_message v1_auto_resume
            (fun x r => mkV1Frame r.(v1_type) r.(v1_connection_request) r.(v1_connection_response)
        r.(v1_payload_transfer) r.(v1_bandwidth_upgrade_negotiation) r.(v1_keep_alive)
        r.(v1_disconnection) r.(v1_paired_key_encryption) r.(v1_authentication_message)
        r.(v1_authentication_result) x r.(v1_auto_reconnect) r.(v1_bandwidth_upgrade_retry));
    embedded 12 AutoReconnectFrame_message v1_auto_reconnect
            (fun x r => mkV1Frame r.(v1_type) r.(v1_connection_request) r.(v1_connection_response)
        r.(v1_payload_transfer) r.(v1_bandwidth_upgrade_negotiation) r.(v1_keep_alive)
        r.(v1_disconnection) r.(v1_paired_key_encryption) r.(v1_authentication_message)
        r.(v1_authentication_result) r.(v1_auto_resume) x r.(v1_bandwidth_upgrade_retry));
    embedded 13 BandwidthUpgradeRetryFrame_message v1_bandwidth_upgrade_retry
            (fun x r => mkV1Frame r.(v1_type) r.(v1_connection_request) r.(v1_connection_response)
        r.(v1_payload_transfer) r.(v1_bandwidth_upgrade_negotiation) r.(v1_keep_alive)
        r.(v1_disconnection) r.(v1_paired_key_encryption) r.(v1_authentication_message)
        r.(v1_authentication_result) r.(v1_auto_resume) r.(v1_auto_reconnect) x) ].

Lemma V1Frame_fields_ok r :
  V1Frame_ok r = true -> forallb (fun f => f_ok f r) V1Frame_fields = true.
Proof. fields_ok V1Frame_ok V1Frame_fields. Qed.

Lemma V1Frame_rebuilds r :
  rebuilds r V1Frame_default V1Frame_fields r.
Proof. revert r. intros []; rebuild. Qed.

Definition V1Frame_message : message V1Frame :=
  Message V1Frame_default V1Frame_fields V1Frame_ok
    eq_refl V1Frame_fields_ok V1Frame_rebuilds.

Definition OfflineFrame_fields : list (field OfflineFrame) :=
  [ optional 1 (int_scalar int32) of_version
      (fun x r => mkOfflineFrame x r.(of_v1));
    embedded 2 V1Frame_message of_v1
      (fun x r => mkOfflineFrame r.(of_version) x) ].

Lemma OfflineFrame_fields_ok r :
  OfflineFrame_ok r = true -> forallb (fun f => f_ok f r) OfflineFrame_fields = true.
Proof. fields_ok OfflineFrame_ok OfflineFrame_fields. Qed.

Lemma OfflineFrame_rebuilds r :
  rebuilds r OfflineFrame_default OfflineFrame_fields r.
Proof. revert r. intros []; rebuild. Qed.

Definition OfflineFrame_message : message OfflineFrame :=
  Message OfflineFrame_default OfflineFrame_fields OfflineFrame_ok
    eq_refl OfflineFrame_fields_ok OfflineFrame_rebuilds.
