(* ===== verification/Codec.v ===== *)
(** prost, as the crate uses it: [OfflineFrame::encode] and
    [OfflineFrame::decode].  The encoder and the decoder are generated and third
    party, so they are the parameter [Codec] of the definitions that call them,
    and [CodecLaws] is what the crate relies on: what was encoded from a value
    of the Rust types decodes to that value, and the encoding of a frame that
    has a field set is not empty.

    The wire format of [Wire] with the messages of [Protobuf] satisfies the laws,
    and is the codec on which theorems over an arbitrary one are instantiated. *)

From Stdlib Require Import ZArith.
From S2P Require Import Prelude.
From S2P Require Import Utf8.
From S2P Require Import Proto.
From S2P Require Import Wire.
From S2P Require Import Protobuf.

(** * The interface *)

Class Codec : Type := {
  encode_frame : OfflineFrame -> bytes;
  decode_frame : bytes -> option OfflineFrame;
}.

Class CodecLaws `{Codec} : Prop := {
  decode_encode : forall f, OfflineFrame_ok f = true -> decode_frame (encode_frame f) = Some f;
  encode_nonempty : forall f, f <> OfflineFrame_default -> encode_frame f <> [];
}.

(** * The codec of the wire format *)

#[export] Instance protobuf : Codec := {|
  encode_frame := encode OfflineFrame_message;
  decode_frame := decode OfflineFrame_message;
|}.

#[export] Instance protobuf_laws : CodecLaws.
Proof.
  split.
  - intros f Hf. by apply (decode_encoded OfflineFrame_message).
  - intros [[v|] [f|]] Hf; try apply print_nonempty. by destruct Hf.
Qed.
