(* ===== verification/Frames.v ===== *)
(** [src/frames.rs]: the exception codes, the frame builders, the frame type of
    a parsed frame and the conversions between the domain enums and the
    per-message ones.  [from_bytes], which calls the validator, is in
    [FromBytes.v], since the validator in turn calls [get_frame_type]. *)

From Stdlib Require Import ZArith Lia Strings.Byte.
From S2P Require Import Prelude.
From S2P Require Import Utf8.
From S2P Require Import Mediums.
From S2P Require Import Proto.
From S2P Require Import Codec.

Local Open Scope Z_scope.

(** * Data *)

Definition STATUS_SUCCESS : Z := 0.
Definition INDETERMINATE_SIZE : Z := -1.

Inductive Exception : Type :=
| Success
| Failed
| Io
| Interrupted
| InvalidProtocolBuffer
| Execution
| Timeout
| IllegalCharacters
| NoData.

#[export] Instance Exception_eq_dec : EqDecision Exception.
Proof. solve_decision. Defined.

(** [Exception::ok]. *)
Definition Exception_ok (e : Exception) : bool :=
  match e with Success => true | _ => false end.

(** [Result<A, Exception>]. *)
Inductive Result (A : Type) : Type :=
| Ok (a : A)
| Err (e : Exception).
Arguments Ok {A} a.
Arguments Err {A} e.

Record ServiceAddress : Type := mkServiceAddress {
  sa_address : bytes;
  sa_port : Z;
}.

Record ConnectionInfo : Type := mkConnectionInfo {
  info_local_endpoint_id : string;
  info_local_endpoint_info : bytes;
  info_nonce : Z;
  info_supports_5ghz : bool;
  info_bssid : string;
  info_ap_frequency : Z;
  info_supported_mediums : list Medium;
  info_keep_alive_interval_millis : Z;
  info_keep_alive_timeout_millis : Z;
  info_medium_role : option MediumRole;
  info_supported_wifi_direct_auth_types : list WifiDirectAuthType;
}.

Definition service_address_to_proto (addr : ServiceAddress) : PbServiceAddress :=
  {| pbsa_ip_address := Some addr.(sa_address); pbsa_port := Some addr.(sa_port) |}.

(** * The type of a frame *)

Definition get_frame_type (frame : OfflineFrame) : FrameType :=
  if bool_decide (frame.(of_version) = Some (Version_i32 Ver_V1)) then
    match frame.(of_v1) with
    | Some v1 =>
        default Ft_UnknownFrameType (FrameType_try_from (default 0 v1.(v1_type)))
    | None => Ft_UnknownFrameType
    end
  else Ft_UnknownFrameType.

(** * Conversions between the enums *)

Definition medium_to_connection_request_medium (medium : Medium) : ConnectionRequestMedium :=
  match medium with
  | Mdns => Crq_Mdns
  | Bluetooth => Crq_Bluetooth
  | WifiHotspot => Crq_WifiHotspot
  | Ble => Crq_Ble
  | BleL2cap => Crq_BleL2cap
  | WifiLan => Crq_WifiLan
  | WifiAware => Crq_WifiAware
  | Nfc => Crq_Nfc
  | WifiDirect => Crq_WifiDirect
  | WebRtc => Crq_WebRtc
  | WebRtcNonCellular => Crq_WebRtcNonCellular
  | Usb => Crq_Usb
  | Awdl => Crq_Awdl
  | UnknownMedium => Crq_UnknownMedium
  end.

Definition connection_request_medium_to_medium (medium : ConnectionRequestMedium) : Medium :=
  match medium with
  | Crq_Mdns => Mdns
  | Crq_Bluetooth => Bluetooth
  | Crq_WifiHotspot => WifiHotspot
  | Crq_Ble => Ble
  | Crq_BleL2cap => BleL2cap
  | Crq_WifiLan => WifiLan
  | Crq_WifiAware => WifiAware
  | Crq_Nfc => Nfc
  | Crq_WifiDirect => WifiDirect
  | Crq_WebRtc => WebRtc
  | Crq_WebRtcNonCellular => WebRtcNonCellular
  | Crq_Usb => Usb
  | Crq_Awdl => Awdl
  | Crq_UnknownMedium => UnknownMedium
  end.

Definition medium_to_upgrade_path_info_medium (medium : Medium) : UpgradePathMedium :=
  match medium with
  | Mdns => Upi_Mdns
  | Bluetooth => Upi_Bluetooth
  | WifiHotspot => Upi_WifiHotspot
  | Ble => Upi_Ble
  | WifiLan => Upi_WifiLan
  | WifiAware => Upi_WifiAware
  | Nfc => Upi_Nfc
  | WifiDirect => Upi_WifiDirect
  | WebRtc => Upi_WebRtc
  | WebRtcNonCellular => Upi_WebRtcNonCellular
  | Usb => Upi_Usb
  | Awdl => Upi_Awdl
  | BleL2cap | UnknownMedium => Upi_UnknownMedium
  end.

Definition upgrade_path_info_medium_to_medium (medium : UpgradePathMedium) : Medium :=
  match medium with
  | Upi_Mdns => Mdns
  | Upi_Bluetooth => Bluetooth
  | Upi_WifiHotspot => WifiHotspot
  | Upi_Ble => Ble
  | Upi_WifiLan => WifiLan
  | Upi_WifiAware => WifiAware
  | Upi_Nfc => Nfc
  | Upi_WifiDirect => WifiDirect
  | Upi_WebRtc => WebRtc
  | Upi_WebRtcNonCellular => WebRtcNonCellular
  | Upi_Usb => Usb
  | Upi_Awdl => Awdl
  | Upi_UnknownMedium => UnknownMedium
  end.

Definition connection_request_mediums_to_mediums (frame : ConnectionRequestFrame) : list Medium :=
  (fun int_medium =>
     connection_request_medium_to_medium
       (default Crq_UnknownMedium (ConnectionRequestMedium_try_from int_medium)))
  <$> frame.(crq_mediums).

Definition wfd_auth_type_to_medium_metadata_wfd_auth_type
    (wifi_direct_auth_type : WifiDirectAuthType) : PbWifiDirectAuthType :=
  match wifi_direct_auth_type with
  | WifiDirectWithPassword => Mm_WifiDirectWithPassword
  | WifiDirectWithDeviceName => Mm_WifiDirectWithDeviceName
  | _ => Mm_WifiDirectTypeUnknown
  end.

Definition medium_metadata_wfd_auth_type_to_wfd_auth_type
    (wifi_direct_auth_type : PbWifiDirectAuthType) : WifiDirectAuthType :=
  match wifi_direct_auth_type with
  | Mm_WifiDirectWithPassword => WifiDirectWithPassword
  | Mm_WifiDirectWithDeviceName => WifiDirectWithDeviceName
  | _ => WifiDirectTypeUnknown
  end.

Definition medium_metadata_wfd_auth_types_to_wfd_auth_types
    (medium_metadata : MediumMetadata) : list WifiDirectAuthType :=
  (fun int_type =>
     medium_metadata_wfd_auth_type_to_wfd_auth_type
       (default Mm_WifiDirectTypeUnknown (PbWifiDirectAuthType_try_from int_type)))
  <$> medium_metadata.(mm_supported_wifi_direct_auth_types).

(** * Builders *)

(** The frame [encode_v1] fills before it encodes it. *)
Definition v1_offline_frame (frame_type : FrameType) (fill : V1Frame -> V1Frame) : OfflineFrame :=
  {| of_version := Some (Version_i32 Ver_V1);
     of_v1 := Some (fill (set_v1_type (Some (FrameType_i32 frame_type)) V1Frame_default)) |}.

Definition build_connection_request_common (connection_info : ConnectionInfo)
    : ConnectionRequestFrame :=
  let req := ConnectionRequestFrame_default in
  let req :=
    if negb (is_nil connection_info.(info_local_endpoint_info)) then
      set_crq_endpoint_info (Some connection_info.(info_local_endpoint_info))
        (set_crq_endpoint_name
           (Some (bytes_str (from_utf8_lossy connection_info.(info_local_endpoint_info)))) req)
    else req in
  let req := set_crq_nonce (Some connection_info.(info_nonce)) req in
  let mm :=
    set_mm_supports_5_ghz (Some connection_info.(info_supports_5ghz)) MediumMetadata_default in
  let mm :=
    if negb (str_is_empty connection_info.(info_bssid)) then
      set_mm_bssid (Some connection_info.(info_bssid)) mm
    else mm in
  let mm := set_mm_ap_frequency (Some connection_info.(info_ap_frequency)) mm in
  let req := set_crq_medium_metadata (Some mm) req in
  let req :=
    if negb (is_nil connection_info.(info_supported_mediums)) then
      set_crq_mediums
        (req.(crq_mediums) ++
         ((fun medium =>
             ConnectionRequestMedium_i32 (medium_to_connection_request_medium medium))
          <$> connection_info.(info_supported_mediums))) req
    else req in
  let req :=
    if (0 <? connection_info.(info_keep_alive_interval_millis))%Z then
      set_crq_keep_alive_interval_millis
        (Some connection_info.(info_keep_alive_interval_millis)) req
    else req in
  if (0 <? connection_info.(info_keep_alive_timeout_millis))%Z then
    set_crq_keep_alive_timeout_millis
      (Some connection_info.(info_keep_alive_timeout_millis)) req
  else req.

Section builders.
Context `{Codec}.

Definition encode_v1 (frame_type : FrameType) (fill : V1Frame -> V1Frame) : bytes :=
  encode_frame (v1_offline_frame frame_type fill).

(** The [unwrap] of the common metadata makes this a fallible call. *)
Definition for_connection_request_connections
    (proto_connections_device : option ConnectionsDevice)
    (connection_info : ConnectionInfo)
    (enable_dynamic_role_switch : bool) : outcome bytes :=
  let req := ConnectionRequestFrame_default in
  let req :=
    match proto_connections_device with
    | Some dev =>
        if is_some dev.(cd_endpoint_id) then
          set_crq_device (Some (Device_ConnectionsDevice dev)) req
        else req
    | None => req
    end in
  let req :=
    if negb (str_is_empty connection_info.(info_local_endpoint_id)) then
      set_crq_endpoint_id (Some connection_info.(info_local_endpoint_id)) req
    else req in
  let common := build_connection_request_common connection_info in
  let req := set_crq_endpoint_name common.(crq_endpoint_name) req in
  let req := set_crq_endpoint_info common.(crq_endpoint_info) req in
  let req := set_crq_nonce common.(crq_nonce) req in
  match common.(crq_medium_metadata) with
  | None => Fault Panicked
  | Some mm =>
      let mm :=
        if enable_dynamic_role_switch then
          match connection_info.(info_medium_role) with
          | Some role => set_mm_medium_role (Some role) mm
          | None => mm
          end
        else mm in
      let mm :=
        if negb (is_nil connection_info.(info_supported_wifi_direct_auth_types)) then
          set_mm_supported_wifi_direct_auth_types
            (mm.(mm_supported_wifi_direct_auth_types) ++
             ((fun auth_type =>
                 PbWifiDirectAuthType_i32
                   (wfd_auth_type_to_medium_metadata_wfd_auth_type auth_type))
              <$> connection_info.(info_supported_wifi_direct_auth_types))) mm
        else mm in
      let req := set_crq_medium_metadata (Some mm) req in
      let req := set_crq_mediums common.(crq_mediums) req in
      let req :=
        set_crq_keep_alive_interval_millis common.(crq_keep_alive_interval_millis) req in
      let req :=
        set_crq_keep_alive_timeout_millis common.(crq_keep_alive_timeout_millis) req in
      Ret (encode_v1 Ft_ConnectionRequest (set_v1_connection_request (Some req)))
  end.

Definition for_connection_request_presence
    (proto_presence_device : PresenceDevice) (connection_info : ConnectionInfo) : bytes :=
  let req := build_connection_request_common connection_info in
  let req :=
    if negb (str_is_empty connection_info.(info_local_endpoint_id)) then
      set_crq_endpoint_id (Some (default "" proto_presence_device.(pd_endpoint_id))) req
    else req in
  let req := set_crq_device (Some (Device_PresenceDevice proto_presence_device)) req in
  encode_v1 Ft_ConnectionRequest (set_v1_connection_request (Some req)).

Definition for_connection_response (status : Z) (os_info : OsInfo)
    (safe_to_disconnect_version : Z) : bytes :=
  let response := if (status =? STATUS_SUCCESS)%Z then Rs_Accept else Rs_Reject in
  let sub :=
    set_crs_status (Some status) $
    set_crs_response (Some (ResponseStatus_i32 response)) $
    set_crs_os_info (Some os_info) $
    set_crs_multiplex_socket_bitmask (Some 0%Z) $
    set_crs_safe_to_disconnect_version (Some safe_to_disconnect_version) $
    ConnectionResponseFrame_default in
  encode_v1 Ft_ConnectionResponse (set_v1_connection_response (Some sub)).

Definition for_data_payload_transfer (header : PayloadHeader) (chunk : PayloadChunk) : bytes :=
  let sub :=
    set_ptf_packet_type (Some (PacketType_i32 Pt_Data)) $
    set_ptf_payload_header (Some header) $
    set_ptf_payload_chunk (Some chunk) $
    PayloadTransferFrame_default in
  encode_v1 Ft_PayloadTransfer (set_v1_payload_transfer (Some sub)).

Definition for_control_payload_transfer (header : PayloadHeader) (control : ControlMessage)
    : bytes :=
  let sub :=
    set_ptf_packet_type (Some (PacketType_i32 Pt_Control)) $
    set_ptf_payload_header (Some header) $
    set_ptf_control_message (Some control) $
    PayloadTransferFrame_default in
  encode_v1 Ft_PayloadTransfer (set_v1_payload_transfer (Some sub)).

Definition for_payload_ack_payload_transfer (payload_id : Z) : bytes :=
  let header :=
    set_ph_id (Some payload_id) $
    set_ph_total_size (Some INDETERMINATE_SIZE) $
    PayloadHeader_default in
  let sub :=
    set_ptf_packet_type (Some (PacketType_i32 Pt_PayloadAck)) $
    set_ptf_payload_header (Some header) $
    PayloadTransferFrame_default in
  encode_v1 Ft_PayloadTransfer (set_v1_payload_transfer (Some sub)).

Definition bwu_upgrade_path_available (upgrade_path_info : UpgradePathInfo) : bytes :=
  let sub :=
    set_bwu_event_type (Some (BwuEventType_i32 Ev_UpgradePathAvailable)) $
    set_bwu_upgrade_path_info (Some upgrade_path_info) $
    BandwidthUpgradeNegotiationFrame_default in
  encode_v1 Ft_BandwidthUpgradeNegotiation (set_v1_bandwidth_upgrade_negotiation (Some sub)).

Definition for_bwu_wifi_hotspot_path_available (credentials : WifiHotspotCredentials)
    (supports_disabling_encryption : bool) : bytes :=
  let info :=
    set_upi_medium (Some (UpgradePathMedium_i32 Upi_WifiHotspot)) $
    set_upi_supports_client_introduction_ack (Some true) $
    set_upi_supports_disabling_encryption (Some supports_disabling_encryption) $
    set_upi_wifi_hotspot_credentials (Some credentials) $
    UpgradePathInfo_default in
  bwu_upgrade_path_available info.

Definition for_bwu_wifi_lan_path_available (addresses : list ServiceAddress) : bytes :=
  let socket := WifiLanSocket_default in
  let socket :=
    match last addresses with
    | Some last_address =>
        let socket :=
          if (length last_address.(sa_address) =? 4)%nat then
            set_wls_wifi_port (Some last_address.(sa_port))
              (set_wls_ip_address (Some last_address.(sa_address)) socket)
          else socket in
        set_wls_address_candidates
          (socket.(wls_address_candidates) ++ (service_address_to_proto <$> addresses)) socket
    | None => socket
    end in
  let info :=
    set_upi_medium (Some (UpgradePathMedium_i32 Upi_WifiLan)) $
    set_upi_supports_client_introduction_ack (Some true) $
    set_upi_wifi_lan_socket (Some socket) $
    UpgradePathInfo_default in
  bwu_upgrade_path_available info.

Definition for_bwu_awdl_path_available (service_name service_type password : string)
    (supports_disabling_encryption : bool) : bytes :=
  let creds :=
    {| awc_service_name := Some service_name;
       awc_service_type := Some service_type;
       awc_password := Some password |} in
  let info :=
    set_upi_medium (Some (UpgradePathMedium_i32 Upi_Awdl)) $
    set_upi_supports_client_introduction_ack (Some true) $
    set_upi_supports_disabling_encryption (Some supports_disabling_encryption) $
    set_upi_awdl_credentials (Some creds) $
    UpgradePathInfo_default in
  bwu_upgrade_path_available info.

Definition for_bwu_wifi_aware_path_available (service_id : string) (service_info : bytes)
    (password : string) (supports_disabling_encryption : bool) : bytes :=
  let creds :=
    {| wac_service_id := Some service_id;
       wac_service_info := Some service_info;
       wac_password := None |} in
  let creds :=
    if negb (str_is_empty password) then set_wac_password (Some password) creds else creds in
  let info :=
    set_upi_medium (Some (UpgradePathMedium_i32 Upi_WifiAware)) $
    set_upi_supports_client_introduction_ack (Some true) $
    set_upi_supports_disabling_encryption (Some supports_disabling_encryption) $
    set_upi_wifi_aware_credentials (Some creds) $
    UpgradePathInfo_default in
  bwu_upgrade_path_available info.

Definition for_bwu_wifi_direct_path_available (ssid password : string) (port frequency : Z)
    (supports_disabling_encryption : bool) (gateway device_name pin : string) : bytes :=
  let creds :=
    set_wdc_ssid (Some ssid) $
    set_wdc_password (Some password) $
    set_wdc_port (Some port) $
    set_wdc_frequency (Some frequency) $
    set_wdc_gateway (Some gateway) $
    set_wdc_device_name (Some device_name) $
    set_wdc_pin (Some pin) $
    WifiDirectCredentials_default in
  let info :=
    set_upi_medium (Some (UpgradePathMedium_i32 Upi_WifiDirect)) $
    set_upi_supports_client_introduction_ack (Some true) $
    set_upi_supports_disabling_encryption (Some supports_disabling_encryption) $
    set_upi_wifi_direct_credentials (Some creds) $
    UpgradePathInfo_default in
  bwu_upgrade_path_available info.

Definition for_bwu_bluetooth_path_available (service_id mac_address : string) : bytes :=
  let creds :=
    {| btc_service_name := Some service_id; btc_mac_address := Some mac_address |} in
  let info :=
    set_upi_medium (Some (UpgradePathMedium_i32 Upi_Bluetooth)) $
    set_upi_supports_client_introduction_ack (Some true) $
    set_upi_bluetooth_credentials (Some creds) $
    UpgradePathInfo_default in
  bwu_upgrade_path_available info.

Definition for_bwu_webrtc_path_available (peer_id : string) (location_hint : LocationHint)
    : bytes :=
  let creds := {| wrc_peer_id := Some peer_id; wrc_location_hint := Some location_hint |} in
  let info :=
    set_upi_medium (Some (UpgradePathMedium_i32 Upi_WebRtc)) $
    set_upi_supports_client_introduction_ack (Some true) $
    set_upi_web_rtc_credentials (Some creds) $
    UpgradePathInfo_default in
  bwu_upgrade_path_available info.

Definition for_bwu_failure (info : UpgradePathInfo) : bytes :=
  let sub :=
    set_bwu_event_type (Some (BwuEventType_i32 Ev_UpgradeFailure)) $
    set_bwu_upgrade_path_info (Some info) $
    BandwidthUpgradeNegotiationFrame_default in
  encode_v1 Ft_BandwidthUpgradeNegotiation (set_v1_bandwidth_upgrade_negotiation (Some sub)).

Definition for_bwu_last_write : bytes :=
  let sub :=
    set_bwu_event_type (Some (BwuEventType_i32 Ev_LastWriteToPriorChannel)) $
    BandwidthUpgradeNegotiationFrame_default in
  encode_v1 Ft_BandwidthUpgradeNegotiation (set_v1_bandwidth_upgrade_negotiation (Some sub)).

Definition for_bwu_safe_to_close : bytes :=
  let sub :=
    set_bwu_event_type (Some (BwuEventType_i32 Ev_SafeToClosePriorChannel)) $
    BandwidthUpgradeNegotiationFrame_default in
  encode_v1 Ft_BandwidthUpgradeNegotiation (set_v1_bandwidth_upgrade_negotiation (Some sub)).

Definition for_bwu_introduction (endpoint_id last_endpoint_id : string)
    (supports_disabling_encryption : bool) : bytes :=
  let intro :=
    {| ci_endpoint_id := Some endpoint_id;
       ci_supports_disabling_encryption := Some supports_disabling_encryption;
       ci_last_endpoint_id := None |} in
  let intro :=
    if negb (str_is_empty last_endpoint_id) then
      set_ci_last_endpoint_id (Some last_endpoint_id) intro
    else intro in
  let sub :=
    set_bwu_event_type (Some (BwuEventType_i32 Ev_ClientIntroduction)) $
    set_bwu_client_introduction (Some intro) $
    BandwidthUpgradeNegotiationFrame_default in
  encode_v1 Ft_BandwidthUpgradeNegotiation (set_v1_bandwidth_upgrade_negotiation (Some sub)).

Definition for_bwu_introduction_ack : bytes :=
  let sub :=
    set_bwu_event_type (Some (BwuEventType_i32 Ev_ClientIntroductionAck)) $
    BandwidthUpgradeNegotiationFrame_default in
  encode_v1 Ft_BandwidthUpgradeNegotiation (set_v1_bandwidth_upgrade_negotiation (Some sub)).

(** The [as_mut().unwrap()] on the metadata makes this a fallible call. *)
Definition for_bwu_path_request (medium : Medium) (mediums : list Medium)
    (medium_role : MediumRole) : outcome bytes :=
  let request :=
    {| upr_mediums :=
         (fun m => UpgradePathMedium_i32 (medium_to_upgrade_path_info_medium m)) <$> mediums;
       upr_medium_meta_data := Some MediumMetadata_default |} in
  match request.(upr_medium_meta_data) with
  | None => Fault Panicked
  | Some mm =>
      let request :=
        {| upr_mediums := request.(upr_mediums);
           upr_medium_meta_data := Some (set_mm_medium_role (Some medium_role) mm) |} in
      let info :=
        set_upi_medium
          (Some (UpgradePathMedium_i32 (medium_to_upgrade_path_info_medium medium))) $
        set_upi_upgrade_path_request (Some request) $
        UpgradePathInfo_default in
      let sub :=
        set_bwu_event_type (Some (BwuEventType_i32 Ev_UpgradePathRequest)) $
        set_bwu_upgrade_path_info (Some info) $
        BandwidthUpgradeNegotiationFrame_default in
      Ret (encode_v1 Ft_BandwidthUpgradeNegotiation
             (set_v1_bandwidth_upgrade_negotiation (Some sub)))
  end.

Definition for_keep_alive : bytes :=
  encode_v1 Ft_KeepAlive (set_v1_keep_alive (Some KeepAliveFrame_default)).

Definition for_keep_alive_ack (ack : bool) (seq_num : Z) : bytes :=
  encode_v1 Ft_KeepAlive
    (set_v1_keep_alive (Some {| ka_ack := Some ack; ka_seq_num := Some seq_num |})).

Definition for_disconnection (request_safe_to_disconnect ack_safe_to_disconnect : bool)
    : bytes :=
  encode_v1 Ft_Disconnection
    (set_v1_disconnection
       (Some {| dis_request_safe_to_disconnect := Some request_safe_to_disconnect;
                dis_ack_safe_to_disconnect := Some ack_safe_to_disconnect |})).
End builders.

(** * Lemmas *)

Lemma Exception_ok_true e : Exception_ok e = true <-> e = Success.
Proof. by destruct e. Qed.

Lemma encode_v1_nonempty `{CodecLaws} ft fill : encode_v1 ft fill <> [].
Proof. by apply encode_nonempty. Qed.

Lemma get_frame_type_v1 ft fill :
  (forall v, (fill v).(v1_type) = v.(v1_type)) ->
  get_frame_type (v1_offline_frame ft fill) = ft.
Proof.
  intros Hfill. unfold get_frame_type. simpl. rewrite Hfill. simpl.
  by rewrite FrameType_try_from_i32.
Qed.

Lemma connection_request_medium_to_medium_inv m :
  medium_to_connection_request_medium (connection_request_medium_to_medium m) = m.
Proof. by destruct m. Qed.
