(* ===== verification/Validator.v ===== *)
(** [src/validator.rs]: what a parsed frame must satisfy before it is handed
    on.  The string operations it uses are those of [Text.v]. *)

From Stdlib Require Import ZArith Lia Strings.Byte.
From S2P Require Import Prelude.
From S2P Require Import Utf8.
From S2P Require Import Text.
From S2P Require Import Mediums.
From S2P Require Import Proto.
From S2P Require Import Codec.
From S2P Require Import Frames.

(** * The checks on strings *)

Definition ILLEGAL_FILE_NAME_PATTERNS : list string := [":"; "/"; "\"].
Definition ILLEGAL_PARENT_FOLDER_PATTERNS : list string := [":"; ".."].
Definition WIFI_DIRECT_SSID_MAX_LENGTH : nat := 32.
Definition WIFI_PASSWORD_SSID_MIN_LENGTH : nat := 8.
Definition WIFI_PASSWORD_SSID_MAX_LENGTH : nat := 64.
Definition WIFI_DIRECT_PIN_MIN_LENGTH : nat := 0.
Definition WIFI_DIRECT_PIN_MAX_LENGTH : nat := 16.

Definition within_range (value min max : nat) : bool :=
  (min <=? value) && (value <? max).

(** The test of the loop body: the octet is refused. *)
Definition bad_octet (octet : bytes) : bool :=
  is_nil octet
  || (3 <? length octet)
  || negb (forallb is_ascii_digit octet)
  || match parse_u16 octet with Some n => (255 <? n)%N | None => true end.

(** The loop of [is_valid_ipv4] over the pieces, [parts] of them counted. *)
Fixpoint is_valid_ipv4_loop (parts : nat) (octets : list bytes) : bool :=
  match octets with
  | [] => parts =? 4
  | octet :: octets =>
      let parts := S parts in
      if 4 <? parts then false
      else if bad_octet octet then false
      else is_valid_ipv4_loop parts octets
  end.

Definition is_valid_ipv4 (s : string) : bool :=
  is_valid_ipv4_loop 0 (split_byte Byte.x2e (str_bytes s)).

Definition matches_wifi_direct_ssid (s : string) : bool :=
  match strip_prefix (str_bytes "DIRECT-") (str_bytes s) with
  | None => false
  | Some rest =>
      match next_char rest with
      | None => false
      | Some (a, rest) =>
          match next_char rest with
          | None => false
          | Some (b, rest) =>
              if negb (char_is_ascii_alphanumeric a && char_is_ascii_alphanumeric b)
              then false
              else negb (existsb (fun c => Byte.eqb c Byte.x0a || Byte.eqb c Byte.x0d) rest)
          end
      end
  end.

Definition has_illegal_characters (to_validate : string) (illegal_patterns : list string) : bool :=
  if str_is_empty to_validate then false
  else existsb (fun pat => contains_bytes (str_bytes pat) (str_bytes to_validate))
         illegal_patterns.

(** * The checks on frames *)

Definition ensure_valid_connection_request_frame (frame : ConnectionRequestFrame) : Exception :=
  if str_is_empty (default "" frame.(crq_endpoint_id)) then InvalidProtocolBuffer
  else if str_is_empty (default "" frame.(crq_endpoint_name)) then InvalidProtocolBuffer
  else Success.

Definition ensure_valid_connection_response_frame (_ : ConnectionResponseFrame) : Exception :=
  Success.

Definition ensure_valid_payload_transfer_data_frame (payload_chunk : PayloadChunk)
    (total_size : Z) : Exception :=
  if is_none payload_chunk.(pc_flags) then InvalidProtocolBuffer
  else
    let last_chunk_flag := ChunkFlags_i32 Fl_LastChunk in
    let is_last_chunk :=
      negb (Z.land (default 0%Z payload_chunk.(pc_flags)) last_chunk_flag =? 0)%Z in
    if is_none payload_chunk.(pc_body) && negb is_last_chunk then InvalidProtocolBuffer
    else
      let offset := default 0%Z payload_chunk.(pc_offset) in
      if is_none payload_chunk.(pc_offset) || (offset <? 0)%Z then InvalidProtocolBuffer
      else if negb (total_size =? INDETERMINATE_SIZE)%Z && (total_size <? offset)%Z
      then InvalidProtocolBuffer
      else Success.

Definition ensure_valid_payload_transfer_control_frame (control_message : ControlMessage)
    (total_size : Z) : Exception :=
  let offset := default 0%Z control_message.(cm_offset) in
  if is_none control_message.(cm_offset) || (offset <? 0)%Z then InvalidProtocolBuffer
  else if negb (total_size =? INDETERMINATE_SIZE)%Z && (total_size <? offset)%Z
  then InvalidProtocolBuffer
  else Success.

(** [if let Some(name) = .. { if has_illegal_characters(name, ..) }]. *)
Definition illegal_name (name : option string) (patterns : list string) : bool :=
  match name with Some s => has_illegal_characters s patterns | None => false end.

Definition ensure_valid_payload_transfer_frame (frame : PayloadTransferFrame) : Exception :=
  match frame.(ptf_payload_header) with
  | None => InvalidProtocolBuffer
  | Some header =>
      let packet_type :=
        default Pt_UnknownPacketType (frame.(ptf_packet_type) ≫= PacketType_try_from) in
      if bool_decide (packet_type = Pt_PayloadAck) then Success
      else
        let total_size := default 0%Z header.(ph_total_size) in
        if is_none header.(ph_total_size)
           || ((total_size <? 0)%Z && negb (total_size =? INDETERMINATE_SIZE)%Z)
        then InvalidProtocolBuffer
        else
          let is_file := bool_decide (header.(ph_type) = Some (PayloadType_i32 Pl_File)) in
          if is_file && illegal_name header.(ph_file_name) ILLEGAL_FILE_NAME_PATTERNS
          then IllegalCharacters
          else if is_file && illegal_name header.(ph_parent_folder) ILLEGAL_PARENT_FOLDER_PATTERNS
          then IllegalCharacters
          else if is_none (frame.(ptf_packet_type) ≫= PacketType_try_from)
          then InvalidProtocolBuffer
          else
            match packet_type with
            | Pt_Data =>
                match frame.(ptf_payload_chunk) with
                | Some chunk => ensure_valid_payload_transfer_data_frame chunk total_size
                | None => InvalidProtocolBuffer
                end
            | Pt_Control =>
                match frame.(ptf_control_message) with
                | Some control => ensure_valid_payload_transfer_control_frame control total_size
                | None => InvalidProtocolBuffer
                end
            | _ => Success
            end
  end.

(** The loop over the address candidates: the first bad one is refused. *)
Fixpoint ensure_valid_candidates (candidates : list PbServiceAddress) : Exception :=
  match candidates with
  | [] => Success
  | candidate :: candidates =>
      if is_none candidate.(pbsa_ip_address) || is_none candidate.(pbsa_port)
      then InvalidProtocolBuffer
      else
        let len := match candidate.(pbsa_ip_address) with Some v => length v | None => 0 end in
        if negb (len =? 4) && negb (len =? 16) then InvalidProtocolBuffer
        else ensure_valid_candidates candidates
  end.

Definition ensure_valid_bwu_wifi_hotspot_path_available (creds : WifiHotspotCredentials)
    : Exception :=
  if is_none creds.(whc_ssid) then InvalidProtocolBuffer
  else
    match creds.(whc_password) with
    | None => InvalidProtocolBuffer
    | Some p =>
        if negb (within_range (String.length p) WIFI_PASSWORD_SSID_MIN_LENGTH
                   WIFI_PASSWORD_SSID_MAX_LENGTH)
        then InvalidProtocolBuffer
        else if is_none creds.(whc_gateway) && is_nil creds.(whc_address_candidates)
        then InvalidProtocolBuffer
        else
          let gateway := default "0.0.0.0" creds.(whc_gateway) in
          if negb (str_is_empty gateway) && negb (is_valid_ipv4 gateway)
          then InvalidProtocolBuffer
          else ensure_valid_candidates creds.(whc_address_candidates)
    end.

Definition ensure_valid_bwu_wifi_lan_path_available (socket : WifiLanSocket) : Exception :=
  let wifi_port := default 0%Z socket.(wls_wifi_port) in
  if (is_none socket.(wls_ip_address) || (wifi_port <=? 0)%Z)
     && is_nil socket.(wls_address_candidates)
  then InvalidProtocolBuffer
  else Success.

Definition ensure_valid_bwu_wifi_aware_path_available (creds : WifiAwareCredentials)
    : Exception :=
  if is_none creds.(wac_service_id) then InvalidProtocolBuffer
  else if is_none creds.(wac_service_info) then InvalidProtocolBuffer
  else Success.

Definition ensure_valid_bwu_wifi_direct_path_available (creds : WifiDirectCredentials)
    : Exception :=
  if match creds.(wdc_frequency) with Some f => (f <? -1)%Z | None => true end
  then InvalidProtocolBuffer
  else
    let ssid_valid :=
      match creds.(wdc_ssid) with
      | Some ssid =>
          (String.length ssid <? WIFI_DIRECT_SSID_MAX_LENGTH) && matches_wifi_direct_ssid ssid
      | None => false
      end in
    let password_valid :=
      match creds.(wdc_password) with
      | Some p => within_range (String.length p) WIFI_PASSWORD_SSID_MIN_LENGTH
                    WIFI_PASSWORD_SSID_MAX_LENGTH
      | None => false
      end in
    let device_name_valid :=
      match creds.(wdc_device_name) with
      | Some d => String.length d <? WIFI_DIRECT_SSID_MAX_LENGTH
      | None => false
      end in
    let pin_valid :=
      match creds.(wdc_pin) with
      | Some p => within_range (String.length p) WIFI_DIRECT_PIN_MIN_LENGTH
                    WIFI_DIRECT_PIN_MAX_LENGTH
      | None => false
      end in
    if (ssid_valid && password_valid) || (device_name_valid && pin_valid)
    then Success
    else InvalidProtocolBuffer.

Definition ensure_valid_bwu_bluetooth_path_available (creds : BluetoothCredentials)
    : Exception :=
  if is_none creds.(btc_service_name) then InvalidProtocolBuffer
  else if is_none creds.(btc_mac_address) then InvalidProtocolBuffer
  else Success.

Definition ensure_valid_bwu_web_rtc_path_available (creds : WebRtcCredentials) : Exception :=
  if is_none creds.(wrc_peer_id) then InvalidProtocolBuffer else Success.

Definition ensure_valid_bwu_path_available_frame (upgrade_path_info : UpgradePathInfo)
    : Exception :=
  match upgrade_path_info.(upi_medium) ≫= UpgradePathMedium_try_from with
  | None => InvalidProtocolBuffer
  | Some medium =>
      match medium with
      | Upi_WifiHotspot =>
          match upgrade_path_info.(upi_wifi_hotspot_credentials) with
          | Some c => ensure_valid_bwu_wifi_hotspot_path_available c
          | None => InvalidProtocolBuffer
          end
      | Upi_WifiLan =>
          match upgrade_path_info.(upi_wifi_lan_socket) with
          | Some s => ensure_valid_bwu_wifi_lan_path_available s
          | None => InvalidProtocolBuffer
          end
      | Upi_WifiAware =>
          match upgrade_path_info.(upi_wifi_aware_credentials) with
          | Some c => ensure_valid_bwu_wifi_aware_path_available c
          | None => InvalidProtocolBuffer
          end
      | Upi_WifiDirect =>
          match upgrade_path_info.(upi_wifi_direct_credentials) with
          | Some c => ensure_valid_bwu_wifi_direct_path_available c
          | None => InvalidProtocolBuffer
          end
      | Upi_Bluetooth =>
          match upgrade_path_info.(upi_bluetooth_credentials) with
          | Some c => ensure_valid_bwu_bluetooth_path_available c
          | None => InvalidProtocolBuffer
          end
      | Upi_WebRtc =>
          match upgrade_path_info.(upi_web_rtc_credentials) with
          | Some c => ensure_valid_bwu_web_rtc_path_available c
          | None => InvalidProtocolBuffer
          end
      | _ => Success
      end
  end.

Definition ensure_valid_bwu_client_introduction_frame (client_introduction : ClientIntroduction)
    : Exception :=
  if is_none client_introduction.(ci_endpoint_id) then InvalidProtocolBuffer else Success.

Definition ensure_valid_bwu_negotiation_frame (frame : BandwidthUpgradeNegotiationFrame)
    : Exception :=
  match frame.(bwu_event_type) ≫= BwuEventType_try_from with
  | None => InvalidProtocolBuffer
  | Some event_type =>
      match event_type with
      | Ev_UpgradePathAvailable =>
          match frame.(bwu_upgrade_path_info) with
          | Some info => ensure_valid_bwu_path_available_frame info
          | None => InvalidProtocolBuffer
          end
      | Ev_ClientIntroduction =>
          match frame.(bwu_client_introduction) with
          | Some intro => ensure_valid_bwu_client_introduction_frame intro
          | None => InvalidProtocolBuffer
          end
      | _ => Success
      end
  end.

Definition ensure_valid_offline_frame (offline_frame : OfflineFrame) : Exception :=
  let frame_type := get_frame_type offline_frame in
  let v1 := offline_frame.(of_v1) in
  match frame_type with
  | Ft_ConnectionRequest =>
      match v1 ≫= v1_connection_request with
      | Some req => ensure_valid_connection_request_frame req
      | None => InvalidProtocolBuffer
      end
  | Ft_ConnectionResponse =>
      match v1 ≫= v1_connection_response with
      | Some resp => ensure_valid_connection_response_frame resp
      | None => InvalidProtocolBuffer
      end
  | Ft_PayloadTransfer =>
      match v1 ≫= v1_payload_transfer with
      | Some pt => ensure_valid_payload_transfer_frame pt
      | None => InvalidProtocolBuffer
      end
  | Ft_BandwidthUpgradeNegotiation =>
      match v1 ≫= v1_bandwidth_upgrade_negotiation with
      | Some bwu => ensure_valid_bwu_negotiation_frame bwu
      | None => InvalidProtocolBuffer
      end
  | _ => Success
  end.
