(* ===== verification/ValidatorSpec.v ===== *)
(** What the validator of [Validator.v] decides, said without its control flow:
    the text of an IPv4 address, the SSID of a Wi-Fi Direct group and the frames
    that are valid, each with the theorem that the check accepts exactly that. *)

From Stdlib Require Import ZArith Lia Strings.Byte.
From S2P Require Import Prelude.
From S2P Require Import Utf8.
From S2P Require Import Text.
From S2P Require Import Mediums.
From S2P Require Import Proto.
From S2P Require Import Codec.
From S2P Require Import Frames.
From S2P Require Import Validator.

(** * Specifications *)

(** One to three decimal digits with a value of at most 255. *)
Definition ipv4_octet (o : bytes) : Prop :=
  1 <= length o <= 3 /\ Forall (fun b => is_ascii_digit b = true) o /\ (dec_value o <= 255)%N.

(** Four octets with dots between them. *)
Definition ipv4_text (s : string) : Prop :=
  exists o1 o2 o3 o4,
    str_bytes s = o1 ++ (Byte.x2e :: o2 ++ (Byte.x2e :: o3 ++ (Byte.x2e :: o4))) /\
    Forall ipv4_octet [o1; o2; o3; o4].

(** [^DIRECT-[a-zA-Z0-9]{2}.*$], where the dot is no line terminator. *)
Definition wifi_direct_ssid_text (s : string) : Prop :=
  exists a b rest,
    str_bytes s = str_bytes "DIRECT-" ++ (a :: b :: rest) /\
    is_ascii_alphanumeric a = true /\ is_ascii_alphanumeric b = true /\
    (Byte.x0a ∉ rest) /\ (Byte.x0d ∉ rest).

(** [pat] occurs in [s]. *)
Definition occurs (pat s : string) : Prop :=
  exists l r, str_bytes s = l ++ str_bytes pat ++ r.

Definition file_name_legal (s : string) : Prop :=
  ~ occurs ":" s /\ ~ occurs "/" s /\ ~ occurs "\" s.

Definition parent_folder_legal (s : string) : Prop := ~ occurs ":" s /\ ~ occurs ".." s.

Definition opt_Forall {A} (P : A -> Prop) (o : option A) : Prop :=
  match o with Some a => P a | None => True end.

Definition opt_Exists {A} (P : A -> Prop) (o : option A) : Prop :=
  match o with Some a => P a | None => False end.

(** The offset lies in the payload, whose size may be indeterminate. *)
Definition offset_valid (total offset : Z) : Prop :=
  (0 <= offset /\ (total = -1 \/ offset <= total))%Z.

Definition chunk_valid (total : Z) (c : PayloadChunk) : Prop :=
  opt_Exists (fun flags => c.(pc_body) = None -> Z.odd flags = true) c.(pc_flags) /\
  opt_Exists (offset_valid total) c.(pc_offset).

Definition control_valid (total : Z) (c : ControlMessage) : Prop :=
  opt_Exists (offset_valid total) c.(cm_offset).

(** The names of a FILE payload, which only a FILE payload restricts. *)
Definition names_legal (h : PayloadHeader) : Prop :=
  h.(ph_type) = Some (PayloadType_i32 Pl_File) ->
  opt_Forall file_name_legal h.(ph_file_name) /\
  opt_Forall parent_folder_legal h.(ph_parent_folder).

Definition total_size_valid (h : PayloadHeader) : Prop :=
  opt_Exists (fun total => -1 <= total)%Z h.(ph_total_size).

Definition packet_valid (total : Z) (pt : PayloadTransferFrame) : Prop :=
  match pt.(ptf_packet_type) ≫= PacketType_try_from with
  | None => False
  | Some Pt_Data => opt_Exists (chunk_valid total) pt.(ptf_payload_chunk)
  | Some Pt_Control => opt_Exists (control_valid total) pt.(ptf_control_message)
  | Some _ => True
  end.

Definition payload_transfer_valid (pt : PayloadTransferFrame) : Prop :=
  opt_Exists (fun h =>
    pt.(ptf_packet_type) = Some (PacketType_i32 Pt_PayloadAck) \/
    (total_size_valid h /\ names_legal h /\ packet_valid (default 0%Z h.(ph_total_size)) pt))
    pt.(ptf_payload_header).

Definition candidate_valid (c : PbServiceAddress) : Prop :=
  is_Some c.(pbsa_port) /\
  opt_Exists (fun ip : bytes => length ip = 4 \/ length ip = 16) c.(pbsa_ip_address).

Definition password_len_valid (p : string) : Prop := 8 <= String.length p < 64.

Definition hotspot_valid (c : WifiHotspotCredentials) : Prop :=
  is_Some c.(whc_ssid) /\
  opt_Exists password_len_valid c.(whc_password) /\
  (is_Some c.(whc_gateway) \/ c.(whc_address_candidates) <> []) /\
  opt_Forall (fun g => g = "" \/ ipv4_text g) c.(whc_gateway) /\
  Forall candidate_valid c.(whc_address_candidates).

Definition lan_valid (s : WifiLanSocket) : Prop :=
  (is_Some s.(wls_ip_address) /\ opt_Exists (fun port => 0 < port)%Z s.(wls_wifi_port)) \/
  s.(wls_address_candidates) <> [].

Definition aware_valid (c : WifiAwareCredentials) : Prop :=
  is_Some c.(wac_service_id) /\ is_Some c.(wac_service_info).

Definition direct_valid (c : WifiDirectCredentials) : Prop :=
  opt_Exists (fun f => -1 <= f)%Z c.(wdc_frequency) /\
  ((opt_Exists (fun s => String.length s < 32 /\ wifi_direct_ssid_text s) c.(wdc_ssid) /\
    opt_Exists password_len_valid c.(wdc_password)) \/
   (opt_Exists (fun d => String.length d < 32) c.(wdc_device_name) /\
    opt_Exists (fun p => String.length p < 16) c.(wdc_pin))).

Definition bluetooth_valid (c : BluetoothCredentials) : Prop :=
  is_Some c.(btc_service_name) /\ is_Some c.(btc_mac_address).

Definition path_valid (i : UpgradePathInfo) : Prop :=
  match i.(upi_medium) ≫= UpgradePathMedium_try_from with
  | None => False
  | Some Upi_WifiHotspot => opt_Exists hotspot_valid i.(upi_wifi_hotspot_credentials)
  | Some Upi_WifiLan => opt_Exists lan_valid i.(upi_wifi_lan_socket)
  | Some Upi_WifiAware => opt_Exists aware_valid i.(upi_wifi_aware_credentials)
  | Some Upi_WifiDirect => opt_Exists direct_valid i.(upi_wifi_direct_credentials)
  | Some Upi_Bluetooth => opt_Exists bluetooth_valid i.(upi_bluetooth_credentials)
  | Some Upi_WebRtc =>
      opt_Exists (fun c => is_Some c.(wrc_peer_id)) i.(upi_web_rtc_credentials)
  | Some _ => True
  end.

Definition negotiation_valid (b : BandwidthUpgradeNegotiationFrame) : Prop :=
  match b.(bwu_event_type) ≫= BwuEventType_try_from with
  | None => False
  | Some Ev_UpgradePathAvailable => opt_Exists path_valid b.(bwu_upgrade_path_info)
  | Some Ev_ClientIntroduction =>
      opt_Exists (fun i => is_Some i.(ci_endpoint_id)) b.(bwu_client_introduction)
  | Some _ => True
  end.

Definition request_valid (r : ConnectionRequestFrame) : Prop :=
  opt_Exists (fun s => s <> "") r.(crq_endpoint_id) /\
  opt_Exists (fun s => s <> "") r.(crq_endpoint_name).

(** A frame of the current version whose type asks for a body has it, and the
    body is valid; any other frame is valid. *)
Definition frame_valid (f : OfflineFrame) : Prop :=
  match get_frame_type f with
  | Ft_ConnectionRequest => opt_Exists request_valid (f.(of_v1) ≫= v1_connection_request)
  | Ft_ConnectionResponse => is_Some (f.(of_v1) ≫= v1_connection_response)
  | Ft_PayloadTransfer => opt_Exists payload_transfer_valid (f.(of_v1) ≫= v1_payload_transfer)
  | Ft_BandwidthUpgradeNegotiation =>
      opt_Exists negotiation_valid (f.(of_v1) ≫= v1_bandwidth_upgrade_negotiation)
  | _ => True
  end.

(** The one way to be refused for a character: a FILE payload transfer that is
    no acknowledgement, of a proper size, with an illegal name. *)
Definition frame_illegal_characters (f : OfflineFrame) : Prop :=
  get_frame_type f = Ft_PayloadTransfer /\
  opt_Exists (fun pt =>
    pt.(ptf_packet_type) <> Some (PacketType_i32 Pt_PayloadAck) /\
    opt_Exists (fun h => total_size_valid h /\ ~ names_legal h) pt.(ptf_payload_header))
    (f.(of_v1) ≫= v1_payload_transfer).

(** * Lemmas *)

Lemma opt_Exists_Some {A} (P : A -> Prop) o : opt_Exists P o <-> exists a, o = Some a /\ P a.
Proof. destruct o; simpl; split; [by eauto|by intros (? & [= ->] & ?)|done|by intros (? & ? & ?)]. Qed.

(** ** IPv4 text *)

Lemma bad_octet_spec o : bad_octet o = false <-> ipv4_octet o.
Proof.
  unfold bad_octet, ipv4_octet.
  rewrite !orb_false_iff, negb_false_iff, Nat.ltb_ge, forallb_Forall. split.
  - intros (((Hne & Hl) & Hd) & Hv).
    assert (o <> []) by (by destruct o).
    rewrite parse_u16_digits in Hv by done. apply N.ltb_ge in Hv.
    split; [|done]. destruct o; [done|]. simpl in *. lia.
  - intros ([Hl1 Hl3] & Hd & Hv).
    assert (o <> []) by (intros ->; simpl in *; lia).
    rewrite parse_u16_digits by done. rewrite N.ltb_ge. by destruct o.
Qed.

Lemma is_valid_ipv4_loop_spec n os :
  is_valid_ipv4_loop n os = true <-> n + length os = 4 /\ Forall ipv4_octet os.
Proof.
  revert n. induction os as [|o os IH]; intros n; simpl.
  - rewrite Nat.eqb_eq, Nat.add_0_r. split; [|by intros []]. by intros ->.
  - destruct n as [|[|[|[|n]]]]; simpl;
      try (destruct (bad_octet o) eqn:Hb;
        [split; [done|]; intros [_ Hf]; apply Forall_cons in Hf as [Ho _];
         apply bad_octet_spec in Ho; congruence
        |rewrite IH, Forall_cons; apply bad_octet_spec in Hb; simpl;
         intuition lia]).
    split; [done|lia].
Qed.

Lemma ipv4_octet_no_dot o : ipv4_octet o -> Byte.x2e ∉ o.
Proof.
  intros (_ & Hd & _) Hin. rewrite Forall_forall in Hd. by specialize (Hd _ Hin).
Qed.

Lemma is_valid_ipv4_spec s : is_valid_ipv4 s = true <-> ipv4_text s.
Proof.
  unfold is_valid_ipv4, ipv4_text. rewrite is_valid_ipv4_loop_spec. split.
  - intros [Hl Hf]. pose proof (join_split_byte Byte.x2e (str_bytes s)) as Hj.
    destruct (split_byte Byte.x2e (str_bytes s)) as [|o1 [|o2 [|o3 [|o4 [|]]]]];
      simpl in Hl; try lia.
    exists o1, o2, o3, o4. split; [|done]. rewrite <-Hj. simpl. by rewrite app_nil_r.
  - intros (o1 & o2 & o3 & o4 & Hs & Hf). rewrite Hs.
    pose proof Hf as Hf'. rewrite !Forall_cons in Hf'. destruct Hf' as (H1 & H2 & H3 & H4 & _).
    rewrite !split_byte_free, split_byte_last by (by apply ipv4_octet_no_dot). done.
Qed.

(** ** Wi-Fi Direct SSIDs *)

Lemma no_line_terminator rest :
  existsb (fun c => Byte.eqb c Byte.x0a || Byte.eqb c Byte.x0d) rest = false <->
  (Byte.x0a ∉ rest) /\ (Byte.x0d ∉ rest).
Proof.
  induction rest as [|b rest IH]; simpl; [split; [split; apply not_elem_of_nil|done]|].
  rewrite !not_elem_of_cons, !orb_false_iff, IH, <-!not_true_iff_false, !byte_eqb_true.
  intuition congruence.
Qed.

Lemma matches_wifi_direct_ssid_spec s :
  matches_wifi_direct_ssid s = true <-> wifi_direct_ssid_text s.
Proof.
  unfold matches_wifi_direct_ssid, wifi_direct_ssid_text. split.
  - destruct (strip_prefix _ _) as [r0|] eqn:E0; [|done]. apply strip_prefix_spec in E0.
    destruct (next_char r0) as [[a r1]|] eqn:E1; [|done].
    destruct (next_char r1) as [[b r2]|] eqn:E2; [|done].
    destruct (char_is_ascii_alphanumeric a) eqn:Ha; [|done].
    destruct (char_is_ascii_alphanumeric b) eqn:Hb; [|done]. simpl.
    rewrite negb_true_iff, no_line_terminator. intros Hl.
    destruct (next_char_alphanumeric _ _ _ E1 Ha) as (a' & -> & -> & ?).
    destruct (next_char_alphanumeric _ _ _ E2 Hb) as (b' & -> & -> & ?).
    by exists a', b', r2.
  - intros (a & b & rest & Hs & Ha & Hb & Hl).
    rewrite (proj2 (strip_prefix_spec _ _ _) Hs), next_char_ascii by done.
    rewrite next_char_ascii by done. simpl. rewrite Ha, Hb. simpl.
    by rewrite negb_true_iff, no_line_terminator.
Qed.

(** ** Illegal characters *)

Lemma has_illegal_characters_spec s pats :
  Forall (fun p => p <> "") pats ->
  has_illegal_characters s pats = true <-> Exists (fun p => occurs p s) pats.
Proof.
  intros Hp. unfold has_illegal_characters, occurs.
  destruct (str_is_empty s) eqn:Es.
  - apply str_is_empty_true in Es as ->. split; [done|]. intros Hx.
    apply Exists_exists in Hx as (p & Hin & l & r & Hs).
    symmetry in Hs. simpl in Hs. apply app_eq_nil in Hs as [_ Hs].
    apply app_eq_nil in Hs as [Hs _]. rewrite Forall_forall in Hp. apply Hp in Hin.
    by destruct p.
  - rewrite existsb_exists, List.Exists_exists. setoid_rewrite contains_bytes_spec. done.
Qed.

(** ** Frames *)

Lemma is_none_false {A} (o : option A) : is_none o = false <-> is_Some o.
Proof. destruct o; simpl; split; first [done|by eauto|by intros [? ?]]. Qed.

Lemma offset_checks total offset :
  ((offset <? 0) = false /\
   negb (total =? INDETERMINATE_SIZE) && (total <? offset) = false)%Z <->
  offset_valid total offset.
Proof.
  unfold offset_valid, INDETERMINATE_SIZE.
  rewrite andb_false_iff, negb_false_iff, !Z.ltb_ge, Z.eqb_eq. lia.
Qed.

Lemma offset_Exists total (o : option Z) :
  (is_none o = false /\ (default 0%Z o <? 0)%Z = false /\
   negb (total =? INDETERMINATE_SIZE)%Z && (total <? default 0%Z o)%Z = false) <->
  opt_Exists (offset_valid total) o.
Proof.
  destruct o as [off|]; simpl; [|by intuition]. rewrite offset_checks. tauto.
Qed.

(** A chain of refusals succeeds when every test fails. *)
Lemma refuse_then (c : bool) (e k : Exception) :
  e <> Success -> (if c then e else k) = Success <-> c = false /\ k = Success.
Proof. intros He. destruct c; split; [done|by intros [? _]|done|by intros [_ ?]]. Qed.

Ltac refuse := rewrite !refuse_then by done.

Lemma data_frame_spec c total :
  ensure_valid_payload_transfer_data_frame c total = Success <-> chunk_valid total c.
Proof.
  unfold ensure_valid_payload_transfer_data_frame, chunk_valid. cbv zeta. refuse.
  rewrite orb_false_iff, <-offset_Exists.
  change (ChunkFlags_i32 Fl_LastChunk) with 1%Z.
  destruct (pc_flags c) as [fl|]; simpl; [|by intuition].
  assert (Hodd : negb (Z.land fl 1 =? 0)%Z = Z.odd fl).
  { change 1%Z with (Z.ones 1). rewrite Z.land_ones by done.
    rewrite Zmod_odd. by destruct (Z.odd fl). }
  rewrite Hodd. destruct (pc_body c); simpl; destruct (Z.odd fl); simpl; intuition done.
Qed.

Lemma control_frame_spec c total :
  ensure_valid_payload_transfer_control_frame c total = Success <-> control_valid total c.
Proof.
  unfold ensure_valid_payload_transfer_control_frame, control_valid. cbv zeta. refuse.
  rewrite orb_false_iff, <-offset_Exists. intuition done.
Qed.

Lemma file_name_legal_spec s :
  has_illegal_characters s ILLEGAL_FILE_NAME_PATTERNS = false <-> file_name_legal s.
Proof.
  rewrite <-not_true_iff_false, has_illegal_characters_spec
    by (repeat constructor; done).
  unfold ILLEGAL_FILE_NAME_PATTERNS, file_name_legal. rewrite !Exists_cons, Exists_nil. tauto.
Qed.

Lemma parent_folder_legal_spec s :
  has_illegal_characters s ILLEGAL_PARENT_FOLDER_PATTERNS = false <-> parent_folder_legal s.
Proof.
  rewrite <-not_true_iff_false, has_illegal_characters_spec
    by (repeat constructor; done).
  unfold ILLEGAL_PARENT_FOLDER_PATTERNS, parent_folder_legal.
  rewrite !Exists_cons, Exists_nil. tauto.
Qed.

Lemma names_legal_spec h :
  (bool_decide (h.(ph_type) = Some (PayloadType_i32 Pl_File))
     && illegal_name h.(ph_file_name) ILLEGAL_FILE_NAME_PATTERNS = false /\
   bool_decide (h.(ph_type) = Some (PayloadType_i32 Pl_File))
     && illegal_name h.(ph_parent_folder) ILLEGAL_PARENT_FOLDER_PATTERNS = false) <->
  names_legal h.
Proof.
  unfold names_legal, illegal_name. case_bool_decide; simpl; [|tauto].
  destruct (ph_file_name h), (ph_parent_folder h); simpl;
    rewrite ?file_name_legal_spec, ?parent_folder_legal_spec; tauto.
Qed.

Lemma total_size_spec h :
  (is_none h.(ph_total_size)
   || ((default 0 h.(ph_total_size) <? 0) &&
       negb (default 0 h.(ph_total_size) =? INDETERMINATE_SIZE)) = false)%Z <->
  total_size_valid h.
Proof.
  unfold total_size_valid, INDETERMINATE_SIZE. destruct (ph_total_size h) as [t|]; simpl; [|done].
  rewrite andb_false_iff, negb_false_iff, Z.ltb_ge, Z.eqb_eq. lia.
Qed.

(** The packet type of the code: an unknown number counts as absent. *)
Lemma packet_type_ack pt :
  bool_decide (default Pt_UnknownPacketType (pt.(ptf_packet_type) ≫= PacketType_try_from)
               = Pt_PayloadAck) =
  bool_decide (pt.(ptf_packet_type) = Some (PacketType_i32 Pt_PayloadAck)).
Proof.
  apply bool_decide_ext. destruct (ptf_packet_type pt) as [i|]; simpl; [|done]. split.
  - destruct (PacketType_try_from i) eqn:E; simpl; [|done]. intros ->.
    by apply PacketType_try_from_inv in E as ->.
  - by intros [= ->].
Qed.

Lemma packet_spec pt total :
  is_none (pt.(ptf_packet_type) ≫= PacketType_try_from) = false /\
  match default Pt_UnknownPacketType (pt.(ptf_packet_type) ≫= PacketType_try_from) with
  | Pt_Data =>
      match pt.(ptf_payload_chunk) with
      | Some chunk => ensure_valid_payload_transfer_data_frame chunk total
      | None => InvalidProtocolBuffer
      end
  | Pt_Control =>
      match pt.(ptf_control_message) with
      | Some control => ensure_valid_payload_transfer_control_frame control total
      | None => InvalidProtocolBuffer
      end
  | _ => Success
  end = Success <->
  packet_valid total pt.
Proof.
  unfold packet_valid. destruct (_ ≫= _) as [[]|]; simpl; try (by intuition).
  - destruct (ptf_payload_chunk pt); simpl; [rewrite data_frame_spec|]; intuition done.
  - destruct (ptf_control_message pt); simpl; [rewrite control_frame_spec|]; intuition done.
Qed.

Lemma payload_transfer_spec pt :
  ensure_valid_payload_transfer_frame pt = Success <-> payload_transfer_valid pt.
Proof.
  unfold ensure_valid_payload_transfer_frame, payload_transfer_valid. cbv zeta.
  destruct (ptf_payload_header pt) as [h|]; simpl; [|done].
  rewrite packet_type_ack. case_bool_decide as Hack; [tauto|]. refuse.
  rewrite total_size_spec, packet_spec, <-names_legal_spec. tauto.
Qed.

Lemma candidates_spec cs :
  ensure_valid_candidates cs = Success <-> Forall candidate_valid cs.
Proof.
  induction cs as [|c cs IH]; simpl; [split; [constructor|done]|]. refuse.
  rewrite Forall_cons, IH, orb_false_iff, !is_none_false. unfold candidate_valid.
  destruct (pbsa_ip_address c) as [ip|]; simpl.
  - rewrite andb_false_iff, !negb_false_iff, !Nat.eqb_eq. intuition eauto.
  - split; [intros ([Hs _] & _); by destruct Hs|by intros ([_ []] & _)].
Qed.

Lemma within_password_range n :
  negb (within_range n WIFI_PASSWORD_SSID_MIN_LENGTH WIFI_PASSWORD_SSID_MAX_LENGTH) = false <->
  8 <= n < 64.
Proof.
  unfold within_range, WIFI_PASSWORD_SSID_MIN_LENGTH, WIFI_PASSWORD_SSID_MAX_LENGTH.
  rewrite negb_false_iff, andb_true_iff, Nat.leb_le, Nat.ltb_lt. done.
Qed.

Lemma hotspot_spec c :
  ensure_valid_bwu_wifi_hotspot_path_available c = Success <-> hotspot_valid c.
Proof.
  unfold ensure_valid_bwu_wifi_hotspot_path_available, hotspot_valid. cbv zeta.
  rewrite refuse_then by done. rewrite is_none_false.
  destruct (whc_password c) as [p|]; simpl; [|by intuition]. refuse.
  rewrite within_password_range, candidates_spec. fold (password_len_valid p).
  assert (Hg : negb (str_is_empty (default "0.0.0.0" (whc_gateway c)))
               && negb (is_valid_ipv4 (default "0.0.0.0" (whc_gateway c))) = false <->
               opt_Forall (fun g => g = "" \/ ipv4_text g) (whc_gateway c)).
  { destruct (whc_gateway c) as [g|]; simpl; [|done].
    rewrite andb_false_iff, !negb_false_iff, str_is_empty_true, is_valid_ipv4_spec. done. }
  rewrite Hg, andb_false_iff, is_none_false, <-not_true_iff_false, is_nil_true. tauto.
Qed.

Lemma lan_spec s :
  ensure_valid_bwu_wifi_lan_path_available s = Success <-> lan_valid s.
Proof.
  unfold ensure_valid_bwu_wifi_lan_path_available, lan_valid. cbv zeta. refuse.
  rewrite andb_false_iff, orb_false_iff, is_none_false, <-(not_true_iff_false (is_nil _)),
    is_nil_true, Z.leb_gt.
  destruct (wls_wifi_port s); simpl; intuition; lia.
Qed.

Lemma aware_spec c :
  ensure_valid_bwu_wifi_aware_path_available c = Success <-> aware_valid c.
Proof.
  unfold ensure_valid_bwu_wifi_aware_path_available, aware_valid. refuse.
  rewrite !is_none_false. tauto.
Qed.

Lemma bluetooth_spec c :
  ensure_valid_bwu_bluetooth_path_available c = Success <-> bluetooth_valid c.
Proof.
  unfold ensure_valid_bwu_bluetooth_path_available, bluetooth_valid. refuse.
  rewrite !is_none_false. tauto.
Qed.

Lemma web_rtc_spec c :
  ensure_valid_bwu_web_rtc_path_available c = Success <-> is_Some c.(wrc_peer_id).
Proof.
  unfold ensure_valid_bwu_web_rtc_path_available. refuse. rewrite is_none_false. tauto.
Qed.

Lemma opt_test_spec {A} (p : A -> bool) (P : A -> Prop) (o : option A) :
  (forall a, p a = true <-> P a) ->
  match o with Some a => p a | None => false end = true <-> opt_Exists P o.
Proof. intros Hp. by destruct o; simpl. Qed.

Lemma accept_if (c : bool) (e : Exception) :
  e <> Success -> (if c then Success else e) = Success <-> c = true.
Proof. intros He. by destruct c. Qed.

Lemma direct_spec c :
  ensure_valid_bwu_wifi_direct_path_available c = Success <-> direct_valid c.
Proof.
  unfold ensure_valid_bwu_wifi_direct_path_available, direct_valid. cbv zeta.
  rewrite refuse_then, accept_if, orb_true_iff, !andb_true_iff by done.
  rewrite (opt_test_spec _ (fun s => String.length s < 32 /\ wifi_direct_ssid_text s)).
  2: { intros s. rewrite andb_true_iff, matches_wifi_direct_ssid_spec, Nat.ltb_lt. done. }
  rewrite (opt_test_spec _ password_len_valid).
  2: { intros p. rewrite <-negb_false_iff. apply within_password_range. }
  rewrite (opt_test_spec _ (fun d => String.length d < 32)).
  2: { intros d. by rewrite Nat.ltb_lt. }
  rewrite (opt_test_spec _ (fun p => String.length p < 16)).
  2: { intros p. unfold within_range. rewrite andb_true_iff, Nat.ltb_lt. simpl.
       unfold WIFI_DIRECT_PIN_MAX_LENGTH. intuition. }
  destruct (wdc_frequency c); simpl; [rewrite Z.ltb_ge|]; intuition done.
Qed.

(** A missing body is refused, a present one is checked. *)
Lemma body_spec {A} (check : A -> Exception) (P : A -> Prop) (o : option A) :
  (forall a, check a = Success <-> P a) ->
  match o with Some a => check a | None => InvalidProtocolBuffer end = Success <->
  opt_Exists P o.
Proof. intros Hp. by destruct o; simpl. Qed.

Lemma path_spec i : ensure_valid_bwu_path_available_frame i = Success <-> path_valid i.
Proof.
  unfold ensure_valid_bwu_path_available_frame, path_valid.
  destruct (_ ≫= _) as [[]|]; try done; apply body_spec;
    first [apply hotspot_spec|apply lan_spec|apply aware_spec|apply direct_spec
          |apply bluetooth_spec|apply web_rtc_spec].
Qed.

Lemma negotiation_spec b : ensure_valid_bwu_negotiation_frame b = Success <-> negotiation_valid b.
Proof.
  unfold ensure_valid_bwu_negotiation_frame, negotiation_valid.
  destruct (_ ≫= _) as [[]|]; try done; apply body_spec; [apply path_spec|].
  intros i. unfold ensure_valid_bwu_client_introduction_frame. refuse.
  rewrite is_none_false. tauto.
Qed.

Lemma nonempty_default (o : option string) :
  str_is_empty (default "" o) = false <-> opt_Exists (fun s => s <> "") o.
Proof. destruct o as [[]|]; simpl; split; by intros. Qed.

Lemma request_spec r : ensure_valid_connection_request_frame r = Success <-> request_valid r.
Proof.
  unfold ensure_valid_connection_request_frame, request_valid. refuse.
  rewrite !nonempty_default. tauto.
Qed.

(** ** The error codes *)

Lemma path_errors i :
  ensure_valid_bwu_path_available_frame i = Success \/
  ensure_valid_bwu_path_available_frame i = InvalidProtocolBuffer.
Proof.
  unfold ensure_valid_bwu_path_available_frame.
  assert (Hc : forall cs, ensure_valid_candidates cs = Success \/
                          ensure_valid_candidates cs = InvalidProtocolBuffer).
  { induction cs as [|c cs IH]; simpl; [tauto|]. repeat case_match; tauto. }
  unfold ensure_valid_bwu_wifi_hotspot_path_available, ensure_valid_bwu_wifi_lan_path_available,
    ensure_valid_bwu_wifi_aware_path_available, ensure_valid_bwu_wifi_direct_path_available,
    ensure_valid_bwu_bluetooth_path_available, ensure_valid_bwu_web_rtc_path_available.
  repeat case_match; auto.
Qed.

Lemma negotiation_errors b :
  ensure_valid_bwu_negotiation_frame b = Success \/
  ensure_valid_bwu_negotiation_frame b = InvalidProtocolBuffer.
Proof.
  unfold ensure_valid_bwu_negotiation_frame, ensure_valid_bwu_client_introduction_frame.
  repeat case_match; auto using path_errors.
Qed.

Lemma payload_transfer_errors pt :
  let e := ensure_valid_payload_transfer_frame pt in
  e = Success \/ e = InvalidProtocolBuffer \/
  (e = IllegalCharacters /\
   pt.(ptf_packet_type) <> Some (PacketType_i32 Pt_PayloadAck) /\
   opt_Exists (fun h => total_size_valid h /\ ~ names_legal h) pt.(ptf_payload_header)).
Proof.
  unfold ensure_valid_payload_transfer_frame. cbv zeta.
  destruct (ptf_payload_header pt) as [h|]; [|by auto]. rewrite packet_type_ack.
  case_bool_decide as Hack; [by auto|].
  destruct (is_none (ph_total_size h) || _) eqn:Et; [by auto|].
  apply total_size_spec in Et.
  destruct (_ && illegal_name (ph_file_name h) _) eqn:E1.
  { right; right. split_and!; [done|done|]. split; [done|].
    rewrite <-names_legal_spec, E1. by intros []. }
  destruct (_ && illegal_name (ph_parent_folder h) _) eqn:E2.
  { right; right. split_and!; [done|done|]. split; [done|].
    rewrite <-names_legal_spec, E2. by intros [_ ?]. }
  unfold ensure_valid_payload_transfer_data_frame, ensure_valid_payload_transfer_control_frame.
  repeat case_match; auto.
Qed.

Lemma illegal_characters_payload pt :
  pt.(ptf_packet_type) <> Some (PacketType_i32 Pt_PayloadAck) ->
  opt_Exists (fun h => total_size_valid h /\ ~ names_legal h) pt.(ptf_payload_header) ->
  ensure_valid_payload_transfer_frame pt = IllegalCharacters.
Proof.
  unfold ensure_valid_payload_transfer_frame. cbv zeta. intros Hack Hh.
  destruct (ptf_payload_header pt) as [h|]; [|done]. destruct Hh as [Ht Hn].
  rewrite packet_type_ack, bool_decide_eq_false_2 by done.
  apply total_size_spec in Ht. rewrite Ht.
  rewrite <-names_legal_spec in Hn.
  destruct (_ && illegal_name (ph_file_name h) _); [done|].
  destruct (_ && illegal_name (ph_parent_folder h) _); [done|]. tauto.
Qed.

Lemma frame_spec f : ensure_valid_offline_frame f = Success <-> frame_valid f.
Proof.
  unfold ensure_valid_offline_frame, frame_valid. cbv zeta.
  destruct (get_frame_type f); try done.
  - apply body_spec, request_spec.
  - destruct (_ ≫= _); simpl; split; first [done|by eauto|by intros [? ?]].
  - apply body_spec, payload_transfer_spec.
  - apply body_spec, negotiation_spec.
Qed.

Lemma frame_errors f :
  ensure_valid_offline_frame f <> Success ->
  ensure_valid_offline_frame f = InvalidProtocolBuffer \/
  (ensure_valid_offline_frame f = IllegalCharacters /\ frame_illegal_characters f).
Proof.
  unfold ensure_valid_offline_frame, frame_illegal_characters. cbv zeta. intros Hne.
  destruct (get_frame_type f); try done; destruct (_ ≫= _) as [b|]; auto; simpl.
  - left. revert Hne. unfold ensure_valid_connection_request_frame. by repeat case_match.
  - by destruct Hne.
  - destruct (payload_transfer_errors b) as [?|[?|(? & ? & ?)]]; [done|by auto|by auto].
  - left. by destruct (negotiation_errors b).
Qed.

Lemma frame_illegal f :
  frame_illegal_characters f -> ensure_valid_offline_frame f = IllegalCharacters.
Proof.
  intros [Hft Hpt]. unfold ensure_valid_offline_frame. cbv zeta. rewrite Hft.
  destruct (_ ≫= _) as [pt|]; [|done]. destruct Hpt. by apply illegal_characters_payload.
Qed.

(** * Properties *)

(** C31. The validator decides the frames: success is exactly a valid frame, the
    illegal-characters code exactly a FILE payload transfer with an illegal
    name, and every other frame gets the malformed-frame code. *)
Theorem validator_classifies (f : OfflineFrame) :
  (ensure_valid_offline_frame f = Success <-> frame_valid f) /\
  (ensure_valid_offline_frame f = IllegalCharacters <-> frame_illegal_characters f) /\
  (ensure_valid_offline_frame f = InvalidProtocolBuffer <->
   ~ frame_valid f /\ ~ frame_illegal_characters f).
Proof.
  pose proof (frame_spec f) as Hs. pose proof (frame_errors f) as He.
  pose proof (frame_illegal f) as Hi.
  destruct (ensure_valid_offline_frame f) eqn:E; split_and!; intuition congruence.
Qed.

(** The address check accepts exactly four octets of one to three decimal
    digits, each at most 255, separated by dots. *)
Theorem ipv4_check_exact (s : string) : is_valid_ipv4 s = true <-> ipv4_text s.
Proof. apply is_valid_ipv4_spec. Qed.

(** The SSID check, which walks the characters of the string, accepts
    exactly the strings of the pattern, for every byte content: the prefix, two
    ASCII alphanumerics and a tail without line terminators. *)
Theorem ssid_check_exact (s : string) :
  matches_wifi_direct_ssid s = true <-> wifi_direct_ssid_text s.
Proof. apply matches_wifi_direct_ssid_spec. Qed.
