(* ===== verification/FromBytes.v ===== *)
(** [from_bytes] of [src/frames.rs], the parser that decodes and validates a
    message, with the round trips of the builders of [Frames.v] through it: a
    builder's bytes parse to the frame it filled exactly when that frame is
    valid.  The codec is a parameter; what is used of it is [CodecLaws]. *)

From Stdlib Require Import ZArith Lia.
From S2P Require Import Prelude.
From S2P Require Import Utf8.
From S2P Require Import Mediums.
From S2P Require Import Proto.
From S2P Require Import Codec.
From S2P Require Import Frames.
From S2P Require Import Validator.
From S2P Require Import ValidatorSpec.

(** * Definitions *)

Definition from_bytes `{Codec} (bs : bytes) : Result OfflineFrame :=
  match decode_frame bs with
  | Some frame =>
      let ex := ensure_valid_offline_frame frame in
      if Exception_ok ex then Ok frame else Err ex
  | None => Err InvalidProtocolBuffer
  end.

(** The values of the Rust types, for the arguments of the builders. *)
Definition ServiceAddress_ok (a : ServiceAddress) : bool := i32_ok a.(sa_port).

Definition ConnectionInfo_ok (i : ConnectionInfo) : bool :=
  string_ok i.(info_local_endpoint_id)
  && i32_ok i.(info_nonce)
  && string_ok i.(info_bssid)
  && i32_ok i.(info_ap_frequency)
  && i32_ok i.(info_keep_alive_interval_millis)
  && i32_ok i.(info_keep_alive_timeout_millis).

(** The negotiation frame of a message, as its consumers take it out. *)
Definition frame_negotiation (f : OfflineFrame) : option BandwidthUpgradeNegotiationFrame :=
  f.(of_v1) ≫= v1_bandwidth_upgrade_negotiation.

Definition frame_request (f : OfflineFrame) : option ConnectionRequestFrame :=
  f.(of_v1) ≫= v1_connection_request.

Definition frame_payload (f : OfflineFrame) : option PayloadTransferFrame :=
  f.(of_v1) ≫= v1_payload_transfer.

(** * Lemmas *)

Lemma from_bytes_Ok `{Codec} bs f :
  from_bytes bs = Ok f <-> decode_frame bs = Some f /\ frame_valid f.
Proof.
  unfold from_bytes. cbv zeta. destruct (decode_frame bs) as [g|]; [|by split; [|intros []]].
  destruct (Exception_ok _) eqn:E.
  - apply Exception_ok_true, frame_spec in E. split; [by intros [= ->]|by intros [[= ->] _]].
  - split; [done|]. intros [[= ->] Hv]. apply frame_spec in Hv. by rewrite Hv in E.
Qed.

Lemma from_bytes_Err `{Codec} bs e :
  from_bytes bs = Err e ->
  e = InvalidProtocolBuffer \/ e = IllegalCharacters.
Proof.
  unfold from_bytes. cbv zeta. destruct (decode_frame bs) as [g|]; [|by intros [= <-]; left].
  destruct (Exception_ok _) eqn:E; [done|]. intros [= <-].
  destruct (frame_errors g) as [->|[-> _]]; [|by left|by right].
  intros Hs. by rewrite Hs in E.
Qed.

Section round_trip.
Context `{CodecLaws}.

(** The bytes of a frame parse to it when it is valid, and are refused when
    it is not. *)
Lemma from_bytes_encode f :
  OfflineFrame_ok f = true ->
  from_bytes (encode_frame f) =
  if Exception_ok (ensure_valid_offline_frame f) then Ok f
  else Err (ensure_valid_offline_frame f).
Proof. intros Hok. unfold from_bytes. by rewrite decode_encode. Qed.

Lemma from_bytes_encode_valid f :
  OfflineFrame_ok f = true -> frame_valid f -> from_bytes (encode_frame f) = Ok f.
Proof. intros Hok Hv. rewrite from_bytes_encode by done. apply frame_spec in Hv. by rewrite Hv. Qed.

Lemma from_bytes_encode_iff f :
  OfflineFrame_ok f = true -> from_bytes (encode_frame f) = Ok f <-> frame_valid f.
Proof.
  intros Hok. rewrite from_bytes_Ok, decode_encode by done. tauto.
Qed.

(** The frames of each body, with the values of the Rust types inside. *)
Lemma negotiation_frame_ok sub :
  BandwidthUpgradeNegotiationFrame_ok sub = true ->
  OfflineFrame_ok (v1_offline_frame Ft_BandwidthUpgradeNegotiation
                     (set_v1_bandwidth_upgrade_negotiation (Some sub))) = true.
Proof. intros Hs. unfold OfflineFrame_ok. simpl. unfold V1Frame_ok. simpl. by rewrite Hs. Qed.

Lemma request_frame_ok sub :
  ConnectionRequestFrame_ok sub = true ->
  OfflineFrame_ok (v1_offline_frame Ft_ConnectionRequest
                     (set_v1_connection_request (Some sub))) = true.
Proof. intros Hs. unfold OfflineFrame_ok. simpl. unfold V1Frame_ok. simpl. by rewrite Hs. Qed.

Lemma payload_frame_ok sub :
  PayloadTransferFrame_ok sub = true ->
  OfflineFrame_ok (v1_offline_frame Ft_PayloadTransfer
                     (set_v1_payload_transfer (Some sub))) = true.
Proof. intros Hs. unfold OfflineFrame_ok. simpl. unfold V1Frame_ok. simpl. by rewrite Hs. Qed.

Lemma encode_v1_negotiation sub :
  BandwidthUpgradeNegotiationFrame_ok sub = true ->
  negotiation_valid sub ->
  from_bytes (encode_v1 Ft_BandwidthUpgradeNegotiation
                (set_v1_bandwidth_upgrade_negotiation (Some sub))) =
  Ok (v1_offline_frame Ft_BandwidthUpgradeNegotiation
        (set_v1_bandwidth_upgrade_negotiation (Some sub))).
Proof.
  intros Hok Hv. apply from_bytes_encode_valid; [by apply negotiation_frame_ok|done].
Qed.
End round_trip.

(** The type and the body of a filled frame. *)
Lemma negotiation_frame_body sub :
  frame_negotiation (v1_offline_frame Ft_BandwidthUpgradeNegotiation
                       (set_v1_bandwidth_upgrade_negotiation (Some sub))) = Some sub.
Proof. done. Qed.

Lemma request_mediums_round_trip (mediums : list Medium) :
  (fun i => connection_request_medium_to_medium
              (default Crq_UnknownMedium (ConnectionRequestMedium_try_from i)))
  <$> ((fun m => ConnectionRequestMedium_i32 (medium_to_connection_request_medium m))
       <$> mediums) = mediums.
Proof.
  induction mediums as [|m ms IH]; [done|]. rewrite !fmap_cons, IH. by destruct m.
Qed.

Lemma auth_types_round_trip (ts : list WifiDirectAuthType) :
  (fun i => medium_metadata_wfd_auth_type_to_wfd_auth_type
              (default Mm_WifiDirectTypeUnknown (PbWifiDirectAuthType_try_from i)))
  <$> ((fun t => PbWifiDirectAuthType_i32 (wfd_auth_type_to_medium_metadata_wfd_auth_type t))
       <$> ts) =
  (fun t => if bool_decide (t = WifiDirectWithPin) then WifiDirectTypeUnknown else t) <$> ts.
Proof.
  induction ts as [|t ts IH]; [done|]. rewrite !fmap_cons, IH. by destruct t.
Qed.

Lemma request_mediums_ok (mediums : list Medium) :
  forallb i32_ok
    ((fun m => ConnectionRequestMedium_i32 (medium_to_connection_request_medium m))
     <$> mediums) = true.
Proof. induction mediums as [|m ms IH]; [done|]. rewrite fmap_cons. simpl. rewrite IH. by destruct m. Qed.

Lemma path_mediums_ok (mediums : list Medium) :
  forallb i32_ok
    ((fun m => UpgradePathMedium_i32 (medium_to_upgrade_path_info_medium m))
     <$> mediums) = true.
Proof. induction mediums as [|m ms IH]; [done|]. rewrite fmap_cons. simpl. rewrite IH. by destruct m. Qed.

Lemma auth_types_ok (ts : list WifiDirectAuthType) :
  forallb i32_ok
    ((fun t => PbWifiDirectAuthType_i32 (wfd_auth_type_to_medium_metadata_wfd_auth_type t))
     <$> ts) = true.
Proof. induction ts as [|t ts IH]; [done|]. rewrite fmap_cons. simpl. rewrite IH. by destruct t. Qed.

Lemma addresses_ok (addresses : list ServiceAddress) :
  forallb ServiceAddress_ok addresses = true ->
  forallb PbServiceAddress_ok (service_address_to_proto <$> addresses) = true.
Proof.
  rewrite !forallb_Forall, Forall_fmap. intros Hf.
  eapply Forall_impl; [exact Hf|]. intros a Ha. unfold PbServiceAddress_ok. simpl. exact Ha.
Qed.

(** ** The common part of a connection request *)

Lemma common_fields i :
  let req := build_connection_request_common i in
  req.(crq_endpoint_name) =
    (if is_nil i.(info_local_endpoint_info) then None
     else Some (bytes_str (from_utf8_lossy i.(info_local_endpoint_info)))) /\
  req.(crq_endpoint_info) =
    (if is_nil i.(info_local_endpoint_info) then None
     else Some i.(info_local_endpoint_info)) /\
  req.(crq_nonce) = Some i.(info_nonce) /\
  req.(crq_medium_metadata) =
    Some (set_mm_supports_5_ghz (Some i.(info_supports_5ghz)) $
          set_mm_bssid (if str_is_empty i.(info_bssid) then None else Some i.(info_bssid)) $
          set_mm_ap_frequency (Some i.(info_ap_frequency)) MediumMetadata_default) /\
  req.(crq_mediums) =
    ((fun m => ConnectionRequestMedium_i32 (medium_to_connection_request_medium m))
     <$> i.(info_supported_mediums)) /\
  req.(crq_keep_alive_interval_millis) =
    (if 0 <? i.(info_keep_alive_interval_millis)
     then Some i.(info_keep_alive_interval_millis) else None)%Z /\
  req.(crq_keep_alive_timeout_millis) =
    (if 0 <? i.(info_keep_alive_timeout_millis)
     then Some i.(info_keep_alive_timeout_millis) else None)%Z /\
  req.(crq_endpoint_id) = None /\ req.(crq_device) = None.
Proof.
  unfold build_connection_request_common. cbv zeta.
  destruct (is_nil (info_local_endpoint_info i)), (str_is_empty (info_bssid i)),
    (0 <? info_keep_alive_interval_millis i)%Z, (0 <? info_keep_alive_timeout_millis i)%Z,
    (info_supported_mediums i); simpl; done.
Qed.

(** * Properties *)

(** C32. Parsing succeeds exactly on the encodings of valid frames, and fails
    with one of the two codes of the parser: with the illegal-characters code
    exactly when the frame decodes and has an illegal name. *)
Theorem from_bytes_exact `{Codec} (bs : bytes) :
  (forall f, from_bytes bs = Ok f <-> decode_frame bs = Some f /\ frame_valid f) /\
  (forall e, from_bytes bs = Err e -> e = InvalidProtocolBuffer \/ e = IllegalCharacters) /\
  (from_bytes bs = Err IllegalCharacters <->
   exists f, decode_frame bs = Some f /\ frame_illegal_characters f).
Proof.
  split_and!; [apply from_bytes_Ok|apply from_bytes_Err|].
  unfold from_bytes. cbv zeta. destruct (decode_frame bs) as [g|].
  - split.
    + destruct (Exception_ok _) eqn:E; [done|]. intros [= Hg]. exists g. split; [done|].
      destruct (frame_errors g) as [Hp|[_ ?]]; [by rewrite Hg| |done]. congruence.
    + intros (f & [= ->] & Hf). by rewrite (frame_illegal _ Hf).
  - split; [done|]. by intros (f & ? & _).
Qed.
