(* ===== verification/RoundTrip.v ===== *)
(** The round trips of [src/frames.rs]: the bytes each builder makes, parsed
    again by [from_bytes].  For every codec that satisfies [CodecLaws]. *)

From Stdlib Require Import ZArith Lia.
From S2P Require Import Prelude.
From S2P Require Import Utf8.
From S2P Require Import Mediums.
From S2P Require Import Proto.
From S2P Require Import Codec.
From S2P Require Import Frames.
From S2P Require Import Validator.
From S2P Require Import ValidatorSpec.
From S2P Require Import FromBytes.

(** * Definitions *)

(** The frame around a negotiation body. *)
Definition negotiation_frame (sub : BandwidthUpgradeNegotiationFrame) : OfflineFrame :=
  v1_offline_frame Ft_BandwidthUpgradeNegotiation
    (set_v1_bandwidth_upgrade_negotiation (Some sub)).

(** What a connection request holds of the connection info, field by field. *)
Definition request_metadata (info : ConnectionInfo) (role : option MediumRole)
    (auth_types : list WifiDirectAuthType) : MediumMetadata :=
  {| mm_supports_5_ghz := Some info.(info_supports_5ghz);
     mm_bssid := if str_is_empty info.(info_bssid) then None else Some info.(info_bssid);
     mm_ip_address := None;
     mm_supports_6_ghz := None;
     mm_mobile_radio := None;
     mm_ap_frequency := Some info.(info_ap_frequency);
     mm_available_channels := None;
     mm_wifi_direct_cli_usable_channels := None;
     mm_wifi_lan_usable_channels := None;
     mm_wifi_aware_usable_channels := None;
     mm_wifi_hotspot_sta_usable_channels := None;
     mm_medium_role := role;
     mm_supported_wifi_direct_auth_types :=
       (fun t => PbWifiDirectAuthType_i32 (wfd_auth_type_to_medium_metadata_wfd_auth_type t))
       <$> auth_types |}.

Definition request_of_info (info : ConnectionInfo) (endpoint_id : option string)
    (device : option Device) (role : option MediumRole) (auth_types : list WifiDirectAuthType)
    : ConnectionRequestFrame :=
  {| crq_endpoint_id := endpoint_id;
     crq_endpoint_name :=
       if is_nil info.(info_local_endpoint_info) then None
       else Some (bytes_str (from_utf8_lossy info.(info_local_endpoint_info)));
     crq_handshake_data := None;
     crq_nonce := Some info.(info_nonce);
     crq_mediums :=
       (fun m => ConnectionRequestMedium_i32 (medium_to_connection_request_medium m))
       <$> info.(info_supported_mediums);
     crq_endpoint_info :=
       if is_nil info.(info_local_endpoint_info) then None
       else Some info.(info_local_endpoint_info);
     crq_medium_metadata := Some (request_metadata info role auth_types);
     crq_keep_alive_interval_millis :=
       if (0 <? info.(info_keep_alive_interval_millis))%Z
       then Some info.(info_keep_alive_interval_millis) else None;
     crq_keep_alive_timeout_millis :=
       if (0 <? info.(info_keep_alive_timeout_millis))%Z
       then Some info.(info_keep_alive_timeout_millis) else None;
     crq_device_type := None;
     crq_device_info := None;
     crq_device := device;
     crq_connection_mode := None;
     crq_location_hint := None |}.

(** The device is sent only when it has an endpoint id. *)
Definition request_device (dev : option ConnectionsDevice) : option Device :=
  d ← dev; if is_some d.(cd_endpoint_id) then Some (Device_ConnectionsDevice d) else None.

(** A keep-alive time is sent when it is positive. *)
Definition positive (millis : Z) : option Z := if (0 <? millis)%Z then Some millis else None.

(** The fields that a request never has. *)
Definition nothing_else_requested (req : ConnectionRequestFrame) : Prop :=
  req.(crq_handshake_data) = None /\ req.(crq_device_type) = None /\
  req.(crq_device_info) = None /\ req.(crq_connection_mode) = None /\
  req.(crq_location_hint) = None.

Definition no_other_metadata (mm : MediumMetadata) : Prop :=
  mm.(mm_ip_address) = None /\ mm.(mm_supports_6_ghz) = None /\ mm.(mm_mobile_radio) = None /\
  mm.(mm_available_channels) = None /\ mm.(mm_wifi_direct_cli_usable_channels) = None /\
  mm.(mm_wifi_lan_usable_channels) = None /\ mm.(mm_wifi_aware_usable_channels) = None /\
  mm.(mm_wifi_hotspot_sta_usable_channels) = None.

(** The socket of a WIFI_LAN path: the last address when it is an IPv4 one, and
    every address as a candidate. *)
Definition lan_socket (addresses : list ServiceAddress) : WifiLanSocket :=
  let v4 := a ← last addresses; if length a.(sa_address) =? 4 then Some a else None in
  {| wls_ip_address := sa_address <$> v4;
     wls_wifi_port := sa_port <$> v4;
     wls_address_candidates := service_address_to_proto <$> addresses |}.

(** The bytes parse to an upgrade path that asks for an introduction ack, and
    [P] holds of the path. *)
Definition carries_path `{Codec} (bs : bytes) (P : UpgradePathInfo -> Prop) : Prop :=
  exists f info,
    from_bytes bs = Ok f /\
    get_frame_type f = Ft_BandwidthUpgradeNegotiation /\
    (frame_negotiation f ≫= bwu_event_type) =
      Some (BwuEventType_i32 Ev_UpgradePathAvailable) /\
    (frame_negotiation f ≫= bwu_upgrade_path_info) = Some info /\
    info.(upi_supports_client_introduction_ack) = Some true /\
    P info.

(** The medium a path is for, as its receiver reads it. *)
Definition path_medium (info : UpgradePathInfo) : Medium :=
  upgrade_path_info_medium_to_medium
    (default Upi_UnknownMedium (info.(upi_medium) ≫= UpgradePathMedium_try_from)).

(** * Sample values, for the witnesses *)

Definition sample_info : ConnectionInfo :=
  {| info_local_endpoint_id := "ABC";
     info_local_endpoint_info := str_bytes "XYZ";
     info_nonce := 1234;
     info_supports_5ghz := true;
     info_bssid := "FF:FF:FF:FF:FF:FF";
     info_ap_frequency := 2412;
     info_supported_mediums := [Mdns; Bluetooth; WifiHotspot; BleL2cap; Awdl];
     info_keep_alive_interval_millis := 1000;
     info_keep_alive_timeout_millis := 5000;
     info_medium_role := None;
     info_supported_wifi_direct_auth_types := [WifiDirectWithPassword; WifiDirectWithPin] |}.

Definition sample_hotspot : WifiHotspotCredentials :=
  {| whc_ssid := Some "ssid"; whc_password := Some "password"; whc_port := Some 1234%Z;
     whc_gateway := Some "0.0.0.0"; whc_frequency := Some 2412%Z;
     whc_address_candidates := [] |}.

Definition sample_header : PayloadHeader :=
  set_ph_id (Some 12345%Z) $ set_ph_total_size (Some 1024%Z) PayloadHeader_default.

Definition sample_chunk : PayloadChunk :=
  {| pc_flags := Some 1%Z; pc_offset := Some 150%Z; pc_body := None; pc_index := None |}.

(** * Lemmas *)

Section frames.
Context `{CodecLaws}.

(** A frame with an upgrade path: it parses exactly when the path is valid. *)
Lemma path_available_parses info :
  UpgradePathInfo_ok info = true ->
  from_bytes (bwu_upgrade_path_available info) =
  if Exception_ok (ensure_valid_bwu_path_available_frame info)
  then Ok (negotiation_frame
             (set_bwu_event_type (Some (BwuEventType_i32 Ev_UpgradePathAvailable)) $
              set_bwu_upgrade_path_info (Some info) $
              BandwidthUpgradeNegotiationFrame_default))
  else Err (ensure_valid_bwu_path_available_frame info).
Proof.
  intros Hok. apply from_bytes_encode, negotiation_frame_ok.
  unfold BandwidthUpgradeNegotiationFrame_ok. simpl. by rewrite Hok.
Qed.

Lemma path_parses_valid info :
  UpgradePathInfo_ok info = true ->
  path_valid info ->
  from_bytes (bwu_upgrade_path_available info) =
  Ok (negotiation_frame
        (set_bwu_event_type (Some (BwuEventType_i32 Ev_UpgradePathAvailable)) $
         set_bwu_upgrade_path_info (Some info) $
         BandwidthUpgradeNegotiationFrame_default)).
Proof.
  intros Hok Hv. rewrite path_available_parses by done.
  apply path_spec in Hv. by rewrite Hv.
Qed.

Lemma path_parses_invalid info :
  UpgradePathInfo_ok info = true ->
  ~ path_valid info ->
  from_bytes (bwu_upgrade_path_available info) = Err InvalidProtocolBuffer.
Proof.
  intros Hok Hv. rewrite path_available_parses by done.
  rewrite <-path_spec in Hv. destruct (path_errors info) as [?| ->]; [done|]. done.
Qed.

Lemma bare_event_parses ev :
  (match ev with Ev_UpgradePathAvailable | Ev_ClientIntroduction => False | _ => True end) ->
  from_bytes (encode_v1 Ft_BandwidthUpgradeNegotiation
    (set_v1_bandwidth_upgrade_negotiation
       (Some (set_bwu_event_type (Some (BwuEventType_i32 ev))
                BandwidthUpgradeNegotiationFrame_default)))) =
  Ok (negotiation_frame
        (set_bwu_event_type (Some (BwuEventType_i32 ev))
           BandwidthUpgradeNegotiationFrame_default)).
Proof.
  intros Hev. apply encode_v1_negotiation; [by destruct ev|].
  unfold negotiation_valid. simpl. rewrite BwuEventType_try_from_i32. by destruct ev.
Qed.

Lemma introduction_parses eid last dis :
  string_ok eid = true -> string_ok last = true ->
  from_bytes (for_bwu_introduction eid last dis) =
  Ok (negotiation_frame
        (set_bwu_event_type (Some (BwuEventType_i32 Ev_ClientIntroduction)) $
         set_bwu_client_introduction
           (Some {| ci_endpoint_id := Some eid;
                    ci_supports_disabling_encryption := Some dis;
                    ci_last_endpoint_id := if str_is_empty last then None else Some last |}) $
         BandwidthUpgradeNegotiationFrame_default)).
Proof.
  intros He Hl. unfold for_bwu_introduction. cbv zeta.
  replace (if negb (str_is_empty last) then _ else _) with
    {| ci_endpoint_id := Some eid;
       ci_supports_disabling_encryption := Some dis;
       ci_last_endpoint_id := if str_is_empty last then None else Some last |}
    by (by destruct (str_is_empty last)).
  apply encode_v1_negotiation.
  - unfold BandwidthUpgradeNegotiationFrame_ok. simpl. unfold ClientIntroduction_ok. simpl.
    rewrite He. destruct (str_is_empty last); simpl; by rewrite ?Hl.
  - unfold negotiation_valid. simpl. by eauto.
Qed.

Lemma failure_parses info :
  UpgradePathInfo_ok info = true ->
  from_bytes (for_bwu_failure info) =
  Ok (negotiation_frame
        (set_bwu_event_type (Some (BwuEventType_i32 Ev_UpgradeFailure)) $
         set_bwu_upgrade_path_info (Some info) $
         BandwidthUpgradeNegotiationFrame_default)).
Proof.
  intros Hok. apply encode_v1_negotiation; [|done].
  unfold BandwidthUpgradeNegotiationFrame_ok. simpl. by rewrite Hok.
Qed.

Lemma payload_parses sub :
  PayloadTransferFrame_ok sub = true ->
  from_bytes (encode_v1 Ft_PayloadTransfer (set_v1_payload_transfer (Some sub))) =
  if Exception_ok (ensure_valid_payload_transfer_frame sub)
  then Ok (v1_offline_frame Ft_PayloadTransfer (set_v1_payload_transfer (Some sub)))
  else Err (ensure_valid_payload_transfer_frame sub).
Proof. intros Hok. by apply from_bytes_encode, payload_frame_ok. Qed.

Lemma request_parses sub :
  ConnectionRequestFrame_ok sub = true ->
  from_bytes (encode_v1 Ft_ConnectionRequest (set_v1_connection_request (Some sub))) =
  if Exception_ok (ensure_valid_connection_request_frame sub)
  then Ok (v1_offline_frame Ft_ConnectionRequest (set_v1_connection_request (Some sub)))
  else Err (ensure_valid_connection_request_frame sub).
Proof. intros Hok. by apply from_bytes_encode, request_frame_ok. Qed.
End frames.


(** ** The connection requests *)

Lemma common_request info :
  build_connection_request_common info = request_of_info info None None None [].
Proof.
  unfold build_connection_request_common, request_of_info, request_metadata. cbv zeta.
  by destruct (is_nil (info_local_endpoint_info info)), (str_is_empty (info_bssid info)),
    (0 <? info_keep_alive_interval_millis info)%Z, (0 <? info_keep_alive_timeout_millis info)%Z,
    (info_supported_mediums info).
Qed.

Lemma connections_request `{Codec} dev info rs :
  for_connection_request_connections dev info rs =
  Ret (encode_v1 Ft_ConnectionRequest (set_v1_connection_request
    (Some (request_of_info info
             (if str_is_empty info.(info_local_endpoint_id) then None
              else Some info.(info_local_endpoint_id))
             (request_device dev)
             (if rs then info.(info_medium_role) else None)
             info.(info_supported_wifi_direct_auth_types))))).
Proof.
  unfold for_connection_request_connections. cbv zeta. rewrite common_request.
  unfold request_of_info, request_device, request_metadata. simpl.
  destruct dev as [d|]; simpl; [destruct (cd_endpoint_id d)|]; simpl;
    by destruct (str_is_empty (info_local_endpoint_id info)), rs, (info_medium_role info),
      (info_supported_wifi_direct_auth_types info).
Qed.

Lemma presence_request `{Codec} dev info :
  for_connection_request_presence dev info =
  encode_v1 Ft_ConnectionRequest (set_v1_connection_request
    (Some (request_of_info info
             (if str_is_empty info.(info_local_endpoint_id) then None
              else Some (default "" dev.(pd_endpoint_id)))
             (Some (Device_PresenceDevice dev)) None []))).
Proof.
  unfold for_connection_request_presence. cbv zeta. rewrite common_request.
  by destruct (str_is_empty (info_local_endpoint_id info)).
Qed.

Lemma request_of_info_ok info eid dev role ts :
  ConnectionInfo_ok info = true -> opt_all string_ok eid = true ->
  opt_all Device_ok dev = true ->
  ConnectionRequestFrame_ok (request_of_info info eid dev role ts) = true.
Proof.
  unfold ConnectionInfo_ok. intros Hi He Hd. bool_split.
  unfold ConnectionRequestFrame_ok, request_of_info. simpl.
  unfold MediumMetadata_ok, request_metadata. simpl.
  rewrite He, Hd, request_mediums_ok, auth_types_ok.
  replace (opt_all MediumRole_ok role) with true by (by destruct role).
  destruct (is_nil _), (str_is_empty _), (0 <? info_keep_alive_interval_millis info)%Z,
    (0 <? info_keep_alive_timeout_millis info)%Z; simpl;
    rewrite ?string_ok_lossy; simpl; bool_goal; done.
Qed.

Lemma request_of_info_valid info eid dev role ts :
  request_valid (request_of_info info eid dev role ts) <->
  opt_Exists (fun s => s <> "") eid /\ info.(info_local_endpoint_info) <> [].
Proof.
  unfold request_valid, request_of_info. simpl.
  pose proof (from_utf8_lossy_nil (info_local_endpoint_info info)) as Hn.
  destruct (info_local_endpoint_info info) as [|b bs]; [simpl; tauto|].
  cbn [is_nil opt_Exists]. cbn [is_nil] in Hn.
  destruct (from_utf8_lossy (b :: bs)); [done|]. split; intros [? ?]; by split.
Qed.

(** A request parses exactly when it has both names. *)
Lemma request_parses_valid `{CodecLaws} sub :
  ConnectionRequestFrame_ok sub = true -> request_valid sub ->
  from_bytes (encode_v1 Ft_ConnectionRequest (set_v1_connection_request (Some sub))) =
  Ok (v1_offline_frame Ft_ConnectionRequest (set_v1_connection_request (Some sub))).
Proof. intros Hok Hv. rewrite request_parses by done. apply request_spec in Hv. by rewrite Hv. Qed.

Lemma request_parses_invalid `{CodecLaws} sub :
  ConnectionRequestFrame_ok sub = true -> ~ request_valid sub ->
  from_bytes (encode_v1 Ft_ConnectionRequest (set_v1_connection_request (Some sub))) =
  Err InvalidProtocolBuffer.
Proof.
  intros Hok Hv. rewrite request_parses by done. rewrite <-request_spec in Hv. revert Hv.
  unfold ensure_valid_connection_request_frame. by repeat case_match.
Qed.

(** ** Upgrade paths *)

Lemma path_info_frame info :
  frame_negotiation (negotiation_frame
    (set_bwu_event_type (Some (BwuEventType_i32 Ev_UpgradePathAvailable)) $
     set_bwu_upgrade_path_info (Some info) $
     BandwidthUpgradeNegotiationFrame_default)) ≫= bwu_upgrade_path_info = Some info.
Proof. done. Qed.

(** The socket of a WIFI_LAN path. *)
Lemma lan_socket_filled `{Codec} addresses :
  for_bwu_wifi_lan_path_available addresses =
  bwu_upgrade_path_available
    (set_upi_medium (Some (UpgradePathMedium_i32 Upi_WifiLan)) $
     set_upi_supports_client_introduction_ack (Some true) $
     set_upi_wifi_lan_socket (Some (lan_socket addresses)) UpgradePathInfo_default).
Proof.
  unfold for_bwu_wifi_lan_path_available, lan_socket. cbv zeta.
  destruct (last addresses) as [a|] eqn:Hl; simpl.
  - by destruct (length (sa_address a) =? 4).
  - apply last_None in Hl as ->. done.
Qed.

Lemma lan_socket_ok addresses :
  forallb ServiceAddress_ok addresses = true -> WifiLanSocket_ok (lan_socket addresses) = true.
Proof.
  intros Ha. unfold WifiLanSocket_ok, lan_socket. simpl. rewrite (addresses_ok _ Ha).
  destruct (last addresses) as [a|] eqn:Hl; simpl; [|done].
  destruct (length (sa_address a) =? 4); simpl; [|done].
  rewrite andb_true_r. apply forallb_Forall in Ha. rewrite Forall_forall in Ha.
  apply Ha. by apply last_Some_elem_of in Hl.
Qed.

Lemma carries_path_intro `{CodecLaws} info (P : UpgradePathInfo -> Prop) :
  UpgradePathInfo_ok info = true -> path_valid info ->
  info.(upi_supports_client_introduction_ack) = Some true -> P info ->
  carries_path (bwu_upgrade_path_available info) P.
Proof.
  intros Hok Hv Hack HP. do 2 eexists. split; [by apply path_parses_valid|]. done.
Qed.

Lemma carries_path_mono `{Codec} bs (P Q : UpgradePathInfo -> Prop) :
  carries_path bs P -> (forall info, P info -> Q info) -> carries_path bs Q.
Proof. intros (f & info & ? & ? & ? & ? & ? & HP) HPQ. exists f, info. eauto 10. Qed.

(** A WIFI_LAN path with an address, and one without. *)
Lemma lan_path_ok m addresses :
  forallb ServiceAddress_ok addresses = true ->
  UpgradePathInfo_ok (set_upi_medium (Some (UpgradePathMedium_i32 m)) $
    set_upi_supports_client_introduction_ack (Some true) $
    set_upi_wifi_lan_socket (Some (lan_socket addresses)) UpgradePathInfo_default) = true.
Proof.
  intros Ha. unfold UpgradePathInfo_ok. simpl. by rewrite UpgradePathMedium_i32_ok, lan_socket_ok.
Qed.

Lemma lan_path_carries `{CodecLaws} addresses :
  addresses <> [] -> forallb ServiceAddress_ok addresses = true ->
  carries_path (for_bwu_wifi_lan_path_available addresses) (fun info =>
    path_medium info = WifiLan /\ info.(upi_wifi_lan_socket) = Some (lan_socket addresses)).
Proof.
  intros Hne Ha. rewrite lan_socket_filled. apply carries_path_intro; [by apply lan_path_ok| |done|done].
  unfold path_valid. simpl. unfold lan_valid. simpl. right. by destruct addresses.
Qed.

Lemma lan_path_empty `{CodecLaws} :
  from_bytes (for_bwu_wifi_lan_path_available []) = Err InvalidProtocolBuffer.
Proof.
  rewrite lan_socket_filled. apply path_parses_invalid; [by apply lan_path_ok|].
  unfold path_valid. simpl. unfold lan_valid. simpl. intros [[[? ?] _]|?]; done.
Qed.

(** Credentials are sent whole; the path parses exactly when they are valid. *)
Lemma credentials_parse `{CodecLaws} info (V : Prop) (P : UpgradePathInfo -> Prop) :
  UpgradePathInfo_ok info = true -> (path_valid info <-> V) ->
  info.(upi_supports_client_introduction_ack) = Some true -> P info ->
  (V -> carries_path (bwu_upgrade_path_available info) P) /\
  (~ V -> from_bytes (bwu_upgrade_path_available info) = Err InvalidProtocolBuffer).
Proof.
  intros Hok HV Hack HP. rewrite <-HV.
  split; intros; [by apply carries_path_intro|by apply path_parses_invalid].
Qed.

(** A frame parses, to a body with [P], exactly when it is valid. *)
Lemma parses_iff_valid `{CodecLaws} f pt (P : PayloadTransferFrame -> Prop) :
  OfflineFrame_ok f = true -> frame_payload f = Some pt -> P pt ->
  (exists g pt, from_bytes (encode_frame f) = Ok g /\ frame_payload g = Some pt /\ P pt) <->
  frame_valid f.
Proof.
  intros Hok Hpt HP. split.
  - intros (g & pt' & Hg & _). rewrite from_bytes_encode in Hg by done.
    destruct (Exception_ok _) eqn:E; [|done]. by apply Exception_ok_true, frame_spec in E.
  - intros Hv. exists f, pt. split; [by apply from_bytes_encode_valid|done].
Qed.

Lemma path_mediums_round_trip (ms : list Medium) :
  (fun i => upgrade_path_info_medium_to_medium
              (default Upi_UnknownMedium (UpgradePathMedium_try_from i)))
  <$> ((fun m => UpgradePathMedium_i32 (medium_to_upgrade_path_info_medium m)) <$> ms) =
  (fun m => if bool_decide (m = BleL2cap) then UnknownMedium else m) <$> ms.
Proof. induction ms as [|m ms IH]; [done|]. rewrite !fmap_cons, IH. by destruct m. Qed.

(** Closes the check that a path holds values of the Rust types. *)
Ltac path_ok :=
  unfold UpgradePathInfo_ok; simpl;
  rewrite ?andb_true_r; try done;
  match goal with |- ?f _ = true => unfold f; simpl; rewrite ?andb_true_r; bool_goal; done end.

(** * Properties *)

(** The control frames of the upgrade handshake and the keep-alive and
    disconnection frames: what the builders send always parses, to the frame
    type and the event the protocol step is about. *)
Theorem control_frames_parse `{CodecLaws} (req ack : bool) (seq : Z) (Hseq : u32_ok seq = true) :
  (exists f, from_bytes for_bwu_last_write = Ok f /\
     (frame_negotiation f ≫= bwu_event_type) = Some (BwuEventType_i32 Ev_LastWriteToPriorChannel)) /\
  (exists f, from_bytes for_bwu_safe_to_close = Ok f /\
     (frame_negotiation f ≫= bwu_event_type) = Some (BwuEventType_i32 Ev_SafeToClosePriorChannel)) /\
  (exists f, from_bytes for_bwu_introduction_ack = Ok f /\
     (frame_negotiation f ≫= bwu_event_type) = Some (BwuEventType_i32 Ev_ClientIntroductionAck)) /\
  (exists f, from_bytes for_keep_alive = Ok f /\ get_frame_type f = Ft_KeepAlive) /\
  (exists f, from_bytes (for_keep_alive_ack ack seq) = Ok f /\ get_frame_type f = Ft_KeepAlive /\
     (f.(of_v1) ≫= v1_keep_alive) = Some {| ka_ack := Some ack; ka_seq_num := Some seq |}) /\
  (exists f, from_bytes (for_disconnection req ack) = Ok f /\
     get_frame_type f = Ft_Disconnection /\
     (f.(of_v1) ≫= v1_disconnection) =
       Some {| dis_request_safe_to_disconnect := Some req;
               dis_ack_safe_to_disconnect := Some ack |}).
Proof.
  split_and!; eexists.
  - by split; [apply (bare_event_parses Ev_LastWriteToPriorChannel)|].
  - by split; [apply (bare_event_parses Ev_SafeToClosePriorChannel)|].
  - by split; [apply (bare_event_parses Ev_ClientIntroductionAck)|].
  - by split; [apply from_bytes_encode_valid|].
  - split_and!; [apply from_bytes_encode_valid|done|done]; [|done].
    unfold OfflineFrame_ok. simpl. unfold V1Frame_ok. simpl.
    unfold KeepAliveFrame_ok. simpl. by rewrite Hseq.
  - by split_and!; [apply from_bytes_encode_valid|..].
Qed.

Lemma control_frames_parse_witness :
  u32_ok 7 = true /\
  exists f, from_bytes (for_keep_alive_ack true 7) = Ok f /\ get_frame_type f = Ft_KeepAlive.
Proof.
  split; [reflexivity|].
  destruct (control_frames_parse false true 7 eq_refl) as (_ & _ & _ & _ & (f & ? & ? & _) & _).
  exists f. split_and!; assumption.
Defined.

(** A client introduction carries the three values it was built from: the
    receiver reads back the endpoint id, the encryption flag and the last
    endpoint id, absent when it was empty. *)
Theorem introduction_round_trip `{CodecLaws} (eid last : string) (dis : bool)
    (Heid : string_ok eid = true) (Hlast : string_ok last = true) :
  exists f intro,
    from_bytes (for_bwu_introduction eid last dis) = Ok f /\
    get_frame_type f = Ft_BandwidthUpgradeNegotiation /\
    (frame_negotiation f ≫= bwu_event_type) = Some (BwuEventType_i32 Ev_ClientIntroduction) /\
    (frame_negotiation f ≫= bwu_client_introduction) = Some intro /\
    intro.(ci_endpoint_id) = Some eid /\
    intro.(ci_supports_disabling_encryption) = Some dis /\
    default "" intro.(ci_last_endpoint_id) = last.
Proof.
  do 2 eexists. split; [by apply introduction_parses|]. split_and!; try done.
  simpl. by destruct last.
Qed.

Lemma introduction_round_trip_witness :
  exists f intro,
    from_bytes (for_bwu_introduction "ABC" "XYZ" false) = Ok f /\
    (frame_negotiation f ≫= bwu_client_introduction) = Some intro /\
    intro.(ci_endpoint_id) = Some "ABC".
Proof.
  destruct (introduction_round_trip "ABC" "XYZ" false eq_refl eq_refl)
    as (f & intro & ? & _ & _ & ? & ? & _).
  exists f, intro. split_and!; assumption.
Defined.

(** C39. A connection request is built without a panic; it parses exactly when
    the local endpoint id and the endpoint info are not empty, and otherwise it is
    refused.  When it parses, the receiver reads back everything that the request
    was made of: the id, the info, and the name (the info as text), the nonce, the
    supported mediums in their order, the keep-alive interval and timeout where
    they are positive, the device where it has an endpoint id; of the medium's
    metadata the 5 GHz flag, the BSSID where it is not empty, the frequency, the
    auth types in their order, but for the PIN type, which is read as unknown, and
    the role where role switching is on; and it finds no other field set. *)
Theorem connection_request_round_trip `{CodecLaws} (dev : option ConnectionsDevice)
    (info : ConnectionInfo) (rs : bool)
    (Hinfo : ConnectionInfo_ok info = true) (Hdev : opt_all ConnectionsDevice_ok dev = true) :
  exists bs,
    for_connection_request_connections dev info rs = Ret bs /\
    if negb (str_is_empty info.(info_local_endpoint_id))
       && negb (is_nil info.(info_local_endpoint_info))
    then
      exists f req mm,
        from_bytes bs = Ok f /\ get_frame_type f = Ft_ConnectionRequest /\
        frame_request f = Some req /\
        req.(crq_endpoint_id) = Some info.(info_local_endpoint_id) /\
        req.(crq_endpoint_info) = Some info.(info_local_endpoint_info) /\
        req.(crq_endpoint_name) =
          Some (bytes_str (from_utf8_lossy info.(info_local_endpoint_info))) /\
        req.(crq_nonce) = Some info.(info_nonce) /\
        connection_request_mediums_to_mediums req = info.(info_supported_mediums) /\
        req.(crq_keep_alive_interval_millis) = positive info.(info_keep_alive_interval_millis) /\
        req.(crq_keep_alive_timeout_millis) = positive info.(info_keep_alive_timeout_millis) /\
        req.(crq_device) = request_device dev /\
        nothing_else_requested req /\
        req.(crq_medium_metadata) = Some mm /\
        mm.(mm_supports_5_ghz) = Some info.(info_supports_5ghz) /\
        mm.(mm_bssid) = (if str_is_empty info.(info_bssid) then None else Some info.(info_bssid)) /\
        mm.(mm_ap_frequency) = Some info.(info_ap_frequency) /\
        no_other_metadata mm /\
        medium_metadata_wfd_auth_types_to_wfd_auth_types mm =
          ((fun t => if bool_decide (t = WifiDirectWithPin) then WifiDirectTypeUnknown else t)
           <$> info.(info_supported_wifi_direct_auth_types)) /\
        mm.(mm_medium_role) = (if rs then info.(info_medium_role) else None)
    else from_bytes bs = Err InvalidProtocolBuffer.
Proof.
  rewrite connections_request. eexists; split; [reflexivity|].
  assert (Hok : forall role ts,
    ConnectionRequestFrame_ok
      (request_of_info info
         (if str_is_empty (info_local_endpoint_id info) then None
          else Some (info_local_endpoint_id info)) (request_device dev) role ts) = true).
  { intros role ts. apply request_of_info_ok; [done|..].
    - unfold ConnectionInfo_ok in Hinfo. bool_split. by destruct (str_is_empty _).
    - destruct dev as [d|]; simpl; [|done]. by destruct (is_some _). }
  destruct (str_is_empty (info_local_endpoint_id info)) eqn:He; simpl.
  { apply request_parses_invalid; [done|]. by rewrite request_of_info_valid; intros [? _]. }
  destruct (info_local_endpoint_info info) as [|b bs] eqn:Hi; simpl.
  { apply request_parses_invalid; [done|]. by rewrite request_of_info_valid, Hi; intros [_ ?]. }
  do 3 eexists. split.
  { apply request_parses_valid; [done|]. apply request_of_info_valid. rewrite Hi.
    split; [|done]. simpl. by intros He'; rewrite He' in He. }
  split_and!; try done.
  - simpl. by rewrite Hi.
  - simpl. by rewrite Hi.
  - apply request_mediums_round_trip.
  - apply auth_types_round_trip.
Qed.

Lemma connection_request_round_trip_witness :
  exists bs f req mm,
    for_connection_request_connections None sample_info false = Ret bs /\
    from_bytes bs = Ok f /\ frame_request f = Some req /\
    req.(crq_endpoint_name) = Some "XYZ"%string /\
    req.(crq_keep_alive_interval_millis) = Some 1000%Z /\
    connection_request_mediums_to_mediums req = [Mdns; Bluetooth; WifiHotspot; BleL2cap; Awdl] /\
    medium_metadata_wfd_auth_types_to_wfd_auth_types mm = [WifiDirectWithPassword; WifiDirectTypeUnknown].
Proof.
  destruct (connection_request_round_trip None sample_info false eq_refl eq_refl)
    as (bs & Hbs & f & req & mm & Hf & _ & Hreq & _ & _ & Hn & _ & Hm & Hk & _ & _ & _ & _ & _ & _ & _ & _ & Ha & _).
  exists bs, f, req, mm. split_and!; [exact Hbs|exact Hf|exact Hreq|exact Hn|exact Hk|exact Hm|exact Ha].
Defined.

(** A presence request parses exactly when the local endpoint id, the
    endpoint info and the endpoint id of the presence device are not empty: a
    device without an endpoint id puts an empty one on the wire, which the
    receiver refuses. *)
Theorem presence_request_accepted `{CodecLaws} (dev : PresenceDevice) (info : ConnectionInfo)
    (Hinfo : ConnectionInfo_ok info = true) (Hdev : PresenceDevice_ok dev = true) :
  if negb (str_is_empty info.(info_local_endpoint_id))
     && negb (is_nil info.(info_local_endpoint_info))
     && negb (str_is_empty (default "" dev.(pd_endpoint_id)))
  then
    exists f req,
      from_bytes (for_connection_request_presence dev info) = Ok f /\
      frame_request f = Some req /\
      req.(crq_endpoint_id) = dev.(pd_endpoint_id) /\
      req.(crq_device) = Some (Device_PresenceDevice dev) /\
      req.(crq_endpoint_info) = Some info.(info_local_endpoint_info) /\
      connection_request_mediums_to_mediums req = info.(info_supported_mediums)
  else from_bytes (for_connection_request_presence dev info) = Err InvalidProtocolBuffer.
Proof.
  rewrite presence_request.
  assert (Hok : ConnectionRequestFrame_ok
      (request_of_info info
         (if str_is_empty (info_local_endpoint_id info) then None
          else Some (default "" dev.(pd_endpoint_id)))
         (Some (Device_PresenceDevice dev)) None []) = true).
  { apply request_of_info_ok; [done| |done].
    unfold PresenceDevice_ok in Hdev. bool_split.
    destruct (str_is_empty _); [done|]. by destruct (pd_endpoint_id dev). }
  destruct (str_is_empty (info_local_endpoint_id info)) eqn:He; simpl.
  { apply request_parses_invalid; [done|]. by rewrite request_of_info_valid; intros [? _]. }
  destruct (info_local_endpoint_info info) as [|b bs] eqn:Hi; simpl.
  { apply request_parses_invalid; [done|]. by rewrite request_of_info_valid, Hi; intros [_ ?]. }
  destruct (pd_endpoint_id dev) as [[|c eid]|] eqn:Hd; simpl.
  1,3: apply request_parses_invalid; [done|]; by rewrite request_of_info_valid; intros [? _].
  do 2 eexists. split.
  { apply request_parses_valid; [done|]. by rewrite request_of_info_valid, Hi. }
  split_and!; try done; [simpl; by rewrite Hi|apply request_mediums_round_trip].
Qed.

Lemma presence_request_accepted_witness :
  from_bytes (for_connection_request_presence PresenceDevice_default sample_info) =
  Err InvalidProtocolBuffer.
Proof. apply (presence_request_accepted PresenceDevice_default sample_info eq_refl eq_refl). Defined.

(** A WIFI_LAN path parses exactly when it lists an address, whatever the
    addresses are; the receiver reads every address back as a candidate, and
    the last one as the socket address when it is an IPv4 address. *)
Theorem wifi_lan_path_round_trip `{CodecLaws} (addresses : list ServiceAddress)
    (Ha : forallb ServiceAddress_ok addresses = true) :
  if is_nil addresses
  then from_bytes (for_bwu_wifi_lan_path_available addresses) = Err InvalidProtocolBuffer
  else
    carries_path (for_bwu_wifi_lan_path_available addresses) (fun info =>
      path_medium info = WifiLan /\
      opt_Exists (fun s =>
        s.(wls_address_candidates) = (service_address_to_proto <$> addresses) /\
        opt_Exists (fun a =>
          if length a.(sa_address) =? 4
          then s.(wls_ip_address) = Some a.(sa_address) /\ s.(wls_wifi_port) = Some a.(sa_port)
          else s.(wls_ip_address) = None /\ s.(wls_wifi_port) = None) (last addresses))
        info.(upi_wifi_lan_socket)).
Proof.
  destruct addresses as [|a0 l]; cbn [is_nil].
  - by apply lan_path_empty.
  - eapply carries_path_mono; [by apply lan_path_carries|]. intros info [Hm Hs]. split; [done|].
    rewrite Hs. simpl. unfold lan_socket. split; [done|].
    destruct (last (a0 :: l)) as [a|] eqn:Hl; simpl;
      [by destruct (length (sa_address a) =? 4)|by apply last_None in Hl].
Qed.

Lemma wifi_lan_path_round_trip_witness :
  carries_path
    (for_bwu_wifi_lan_path_available
       [ {| sa_address := str_bytes "ABCD"; sa_port := 1234 |} ])
    (fun info => path_medium info = WifiLan).
Proof.
  destruct (wifi_lan_path_round_trip [ {| sa_address := str_bytes "ABCD"; sa_port := 1234 |} ]
              eq_refl) as (f & info & ? & ? & ? & ? & ? & ? & _).
  exists f, info. split_and!; assumption.
Defined.

(** A hotspot's path parses exactly when its credentials are valid. *)
Lemma hotspot_path_parses `{CodecLaws} (hot : WifiHotspotCredentials) (dis : bool) :
  WifiHotspotCredentials_ok hot = true ->
  (hotspot_valid hot ->
   carries_path (for_bwu_wifi_hotspot_path_available hot dis) (fun info =>
     path_medium info = WifiHotspot /\ info.(upi_wifi_hotspot_credentials) = Some hot /\
     info.(upi_supports_disabling_encryption) = Some dis)) /\
  (~ hotspot_valid hot ->
   from_bytes (for_bwu_wifi_hotspot_path_available hot dis) = Err InvalidProtocolBuffer).
Proof. intros Hhot. apply credentials_parse; [|done|done|done]. path_ok. Qed.

(** The paths that carry credentials.  Each parses exactly when the
    credentials are valid and is refused otherwise, with the credentials, the
    medium and the encryption flag it was built from. *)
Theorem credential_paths_round_trip `{CodecLaws} (hot : WifiHotspotCredentials)
    (ssid pw gw dev pin : string) (port freq : Z) (dis : bool)
    (Hhot : WifiHotspotCredentials_ok hot = true)
    (Hstr : forallb string_ok [ssid; pw; gw; dev; pin] = true)
    (Hint : forallb i32_ok [port; freq] = true) :
  let direct := {| wdc_ssid := Some ssid; wdc_password := Some pw; wdc_port := Some port;
                   wdc_frequency := Some freq; wdc_gateway := Some gw;
                   wdc_ip_v6_address := None; wdc_service_name := None;
                   wdc_device_name := Some dev; wdc_pin := Some pin |} in
  ((hotspot_valid hot ->
    carries_path (for_bwu_wifi_hotspot_path_available hot dis) (fun info =>
      path_medium info = WifiHotspot /\ info.(upi_wifi_hotspot_credentials) = Some hot /\
      info.(upi_supports_disabling_encryption) = Some dis)) /\
   (~ hotspot_valid hot ->
    from_bytes (for_bwu_wifi_hotspot_path_available hot dis) = Err InvalidProtocolBuffer)) /\
  ((direct_valid direct ->
    carries_path (for_bwu_wifi_direct_path_available ssid pw port freq dis gw dev pin)
      (fun info =>
         path_medium info = WifiDirect /\ info.(upi_wifi_direct_credentials) = Some direct /\
         info.(upi_supports_disabling_encryption) = Some dis)) /\
   (~ direct_valid direct ->
    from_bytes (for_bwu_wifi_direct_path_available ssid pw port freq dis gw dev pin) =
    Err InvalidProtocolBuffer)).
Proof.
  simpl in Hstr, Hint. bool_split. split.
  - by apply hotspot_path_parses.
  - apply credentials_parse; [|done|done|done]. path_ok.
Qed.

Lemma credential_paths_round_trip_witness :
  carries_path (for_bwu_wifi_hotspot_path_available sample_hotspot false)
    (fun info => info.(upi_wifi_hotspot_credentials) = Some sample_hotspot) /\
  from_bytes (for_bwu_wifi_direct_path_available "DIRECT" "pw" 1 2 false "" "" "0123456789abcdef")
  = Err InvalidProtocolBuffer.
Proof.
  destruct (credential_paths_round_trip sample_hotspot "DIRECT" "pw" "" "" "0123456789abcdef" 1 2
              false eq_refl eq_refl eq_refl) as [[Hh _] [_ Hd]].
  split.
  - destruct Hh as (f & info & ? & ? & ? & ? & ? & ? & ? & _).
    + apply hotspot_spec. vm_compute. reflexivity.
    + exists f, info. split_and!; assumption.
  - apply Hd. rewrite <-direct_spec. vm_compute. discriminate.
Defined.

(** The paths whose fields are plain text: they always parse, to the medium
    and the fields they were built from. *)
Theorem plain_paths_round_trip `{CodecLaws} (a b c : string) (bs : bytes) (hint : LocationHint)
    (dis : bool) (Hstr : forallb string_ok [a; b; c] = true) (Hhint : LocationHint_ok hint = true) :
  carries_path (for_bwu_awdl_path_available a b c dis) (fun info =>
    path_medium info = Awdl /\
    info.(upi_awdl_credentials) =
      Some {| awc_service_name := Some a; awc_service_type := Some b; awc_password := Some c |}) /\
  carries_path (for_bwu_wifi_aware_path_available a bs c dis) (fun info =>
    path_medium info = WifiAware /\
    info.(upi_wifi_aware_credentials) =
      Some {| wac_service_id := Some a; wac_service_info := Some bs;
              wac_password := if str_is_empty c then None else Some c |}) /\
  carries_path (for_bwu_bluetooth_path_available a b) (fun info =>
    path_medium info = Bluetooth /\
    info.(upi_bluetooth_credentials) =
      Some {| btc_service_name := Some a; btc_mac_address := Some b |}) /\
  carries_path (for_bwu_webrtc_path_available a hint) (fun info =>
    path_medium info = WebRtc /\
    info.(upi_web_rtc_credentials) =
      Some {| wrc_peer_id := Some a; wrc_location_hint := Some hint |}).
Proof.
  simpl in Hstr. bool_split. split_and!; apply carries_path_intro; try done; try path_ok.
  - destruct c; simpl; path_ok.
  - unfold path_valid. simpl. unfold aware_valid. destruct c; simpl; split; by eexists.
  - by destruct c.
  - unfold path_valid. simpl. by eexists.
Qed.

Lemma plain_paths_round_trip_witness :
  forallb string_ok ["service"; "01:02:03:04:05:06"; ""] = true /\
  carries_path (for_bwu_bluetooth_path_available "service" "01:02:03:04:05:06")
    (fun info => path_medium info = Bluetooth).
Proof.
  split; [reflexivity|].
  destruct (plain_paths_round_trip "service" "01:02:03:04:05:06" "" [] LocationHint_default false
              eq_refl eq_refl) as (_ & _ & (f & info & ? & ? & ? & ? & ? & ? & _) & _).
  exists f, info. split_and!; assumption.
Defined.

(** The payload frames.  DATA and CONTROL parse exactly when the header, the
    chunk and the control message are valid together; otherwise the code is the
    one of the illegal name or of the malformed frame.  An acknowledgement
    always parses, with the payload id it was built from. *)
Theorem payload_frames_round_trip `{CodecLaws} (h : PayloadHeader) (c : PayloadChunk)
    (m : ControlMessage) (id : Z)
    (Hh : PayloadHeader_ok h = true) (Hc : PayloadChunk_ok c = true)
    (Hm : ControlMessage_ok m = true) (Hid : i64_ok id = true) :
  let total := default 0%Z h.(ph_total_size) in
  ((exists f pt, from_bytes (for_data_payload_transfer h c) = Ok f /\ frame_payload f = Some pt /\
      pt.(ptf_payload_header) = Some h /\ pt.(ptf_payload_chunk) = Some c) <->
   total_size_valid h /\ names_legal h /\ chunk_valid total c) /\
  ((exists f pt, from_bytes (for_control_payload_transfer h m) = Ok f /\
      frame_payload f = Some pt /\
      pt.(ptf_payload_header) = Some h /\ pt.(ptf_control_message) = Some m) <->
   total_size_valid h /\ names_legal h /\ control_valid total m) /\
  (from_bytes (for_data_payload_transfer h c) = Err IllegalCharacters <->
   total_size_valid h /\ ~ names_legal h) /\
  (exists f pt, from_bytes (for_payload_ack_payload_transfer id) = Ok f /\
     frame_payload f = Some pt /\
     (pt.(ptf_payload_header) ≫= ph_id) = Some id).
Proof.
  simpl.
  assert (Hok1 : PayloadTransferFrame_ok
    (set_ptf_packet_type (Some (PacketType_i32 Pt_Data)) $ set_ptf_payload_header (Some h) $
     set_ptf_payload_chunk (Some c) $ PayloadTransferFrame_default) = true).
  { unfold PayloadTransferFrame_ok. simpl. by rewrite Hh, Hc. }
  assert (Hok2 : PayloadTransferFrame_ok
    (set_ptf_packet_type (Some (PacketType_i32 Pt_Control)) $ set_ptf_payload_header (Some h) $
     set_ptf_control_message (Some m) $ PayloadTransferFrame_default) = true).
  { unfold PayloadTransferFrame_ok. simpl. by rewrite Hh, Hm. }
  split_and!.
  - rewrite (parses_iff_valid _ _ _ (payload_frame_ok _ Hok1) eq_refl (conj eq_refl eq_refl)).
    unfold frame_valid. simpl. unfold payload_transfer_valid. simpl.
    split; [intros [?|?]|right]; done.
  - rewrite (parses_iff_valid _ _ _ (payload_frame_ok _ Hok2) eq_refl (conj eq_refl eq_refl)).
    unfold frame_valid. simpl. unfold payload_transfer_valid. simpl.
    split; [intros [?|?]|right]; done.
  - split.
    + unfold for_data_payload_transfer. cbv zeta. rewrite payload_parses by done.
      destruct (payload_transfer_errors (set_ptf_packet_type (Some (PacketType_i32 Pt_Data)) $
        set_ptf_payload_header (Some h) $ set_ptf_payload_chunk (Some c) $
        PayloadTransferFrame_default)) as [E|[E|(E & _ & Hn)]];
        rewrite E; done.
    + intros Hn. unfold for_data_payload_transfer. cbv zeta. rewrite payload_parses by done.
      by rewrite illegal_characters_payload.
  - do 2 eexists. split; [apply from_bytes_encode_valid|by split].
    + apply payload_frame_ok. unfold PayloadTransferFrame_ok. simpl.
      unfold PayloadHeader_ok. simpl. by rewrite Hid.
    + unfold frame_valid. simpl. by left.
Qed.

Lemma payload_frames_round_trip_witness :
  exists f pt, from_bytes (for_data_payload_transfer sample_header sample_chunk) = Ok f /\
    frame_payload f = Some pt /\ pt.(ptf_payload_chunk) = Some sample_chunk.
Proof.
  destruct (payload_frames_round_trip sample_header sample_chunk ControlMessage_default 0
              eq_refl eq_refl eq_refl eq_refl) as [[_ Hd] _].
  destruct Hd as (f & pt & Hf & Hp & _ & Hc).
  - split_and!; [vm_compute; discriminate|by vm_compute|].
    apply data_frame_spec. vm_compute. reflexivity.
  - exists f, pt. split_and!; assumption.
Defined.

(** An upgrade failure and an upgrade path request parse whatever they
    carry: the receiver reads the failed path back unchanged, and the requested
    mediums in their order, except that a BLE_L2CAP medium, which has no number
    in this enum, comes back as unknown. *)
Theorem failure_and_request_round_trip `{CodecLaws} (info : UpgradePathInfo) (m : Medium)
    (ms : list Medium) (role : MediumRole) (Hinfo : UpgradePathInfo_ok info = true) :
  (exists f, from_bytes (for_bwu_failure info) = Ok f /\
     (frame_negotiation f ≫= bwu_event_type) = Some (BwuEventType_i32 Ev_UpgradeFailure) /\
     (frame_negotiation f ≫= bwu_upgrade_path_info) = Some info) /\
  (exists bs f path request,
     for_bwu_path_request m ms role = Ret bs /\ from_bytes bs = Ok f /\
     (frame_negotiation f ≫= bwu_event_type) = Some (BwuEventType_i32 Ev_UpgradePathRequest) /\
     (frame_negotiation f ≫= bwu_upgrade_path_info) = Some path /\
     path_medium path = (if bool_decide (m = BleL2cap) then UnknownMedium else m) /\
     path.(upi_upgrade_path_request) = Some request /\
     (request.(upr_medium_meta_data) ≫= mm_medium_role) = Some role /\
     ((fun i => upgrade_path_info_medium_to_medium
                  (default Upi_UnknownMedium (UpgradePathMedium_try_from i)))
      <$> request.(upr_mediums)) =
       ((fun m => if bool_decide (m = BleL2cap) then UnknownMedium else m) <$> ms)).
Proof.
  split.
  - eexists. split; [by apply failure_parses|done].
  - do 4 eexists. split; [reflexivity|]. split.
    + apply encode_v1_negotiation; [|done].
      unfold BandwidthUpgradeNegotiationFrame_ok. simpl. unfold UpgradePathInfo_ok. simpl.
      unfold UpgradePathRequest_ok. simpl. rewrite path_mediums_ok, UpgradePathMedium_i32_ok.
      done.
    + split_and!; [done|done|by destruct m|done|done|apply path_mediums_round_trip].
Qed.

Lemma failure_and_request_round_trip_witness :
  UpgradePathInfo_ok UpgradePathInfo_default = true /\
  exists f, from_bytes (for_bwu_failure UpgradePathInfo_default) = Ok f.
Proof.
  split; [reflexivity|].
  destruct (failure_and_request_round_trip UpgradePathInfo_default WifiLan [WifiLan; BleL2cap]
              MediumRole_default eq_refl) as [(f & Hf & _) _].
  exists f. assumption.
Defined.

(** The three medium enums agree: a medium keeps its number in the
    per-message enums, the numbers read back to the medium, and the only medium
    that is lost on the way through an upgrade path is BLE_L2CAP, which becomes
    unknown; a number of no medium reads as unknown. *)
Theorem medium_conversions_agree :
  (forall m, ConnectionRequestMedium_i32 (medium_to_connection_request_medium m) =
             Medium_discriminant m) /\
  (forall m, connection_request_medium_to_medium (medium_to_connection_request_medium m) = m) /\
  (forall m, m <> BleL2cap ->
     UpgradePathMedium_i32 (medium_to_upgrade_path_info_medium m) = Medium_discriminant m /\
     upgrade_path_info_medium_to_medium (medium_to_upgrade_path_info_medium m) = m) /\
  medium_to_upgrade_path_info_medium BleL2cap = Upi_UnknownMedium /\
  (forall r, medium_to_connection_request_medium (connection_request_medium_to_medium r) = r) /\
  (forall u, medium_to_upgrade_path_info_medium (upgrade_path_info_medium_to_medium u) = u) /\
  (forall i, (i < 0 \/ 13 < i)%Z ->
     connection_request_mediums_to_mediums (set_crq_mediums [i] ConnectionRequestFrame_default)
     = [UnknownMedium]).
Proof.
  split_and!; try by intros [].
  - done.
  - intros i Hi. unfold connection_request_mediums_to_mediums. simpl.
    destruct (ConnectionRequestMedium_try_from i) as [r|] eqn:E; [|done].
    apply ConnectionRequestMedium_try_from_inv in E. destruct r; simpl in E; lia.
Qed.
