(* ===== verification/ServiceId.v ===== *)
(** [src/bwu/service_id.rs]: the wrapping of service ids by which the initiator
    of an upgrade keeps its state apart from the responder's. *)

From Stdlib Require Import Lia Strings.Byte.
From S2P Require Import Prelude.
From S2P Require Import Utf8.
From S2P Require Import Text.

(** * Definitions *)

Definition UNKNOWN_SERVICE_ID : string := "UNKNOWN_SERVICE".
Definition INITIATOR_UPGRADE_SERVICE_ID_POSTFIX : string := "_UPGRADE".

Definition is_initiator_upgrade_service_id (service_id : string) : bool :=
  negb (str_is_empty service_id)
  && ends_with (str_bytes INITIATOR_UPGRADE_SERVICE_ID_POSTFIX) (str_bytes service_id).

Definition wrap_initiator_upgrade_service_id (service_id : string) : string :=
  if str_is_empty service_id || is_initiator_upgrade_service_id service_id then service_id
  else bytes_str (str_bytes service_id ++ str_bytes INITIATOR_UPGRADE_SERVICE_ID_POSTFIX).

Definition unwrap_initiator_upgrade_service_id (service_id : string) : string :=
  if str_is_empty service_id || negb (is_initiator_upgrade_service_id service_id)
  then service_id
  else
    default service_id
      (bytes_str <$> strip_suffix (str_bytes INITIATOR_UPGRADE_SERVICE_ID_POSTFIX)
                       (str_bytes service_id)).

(** * Lemmas *)

Lemma is_initiator_spec s :
  is_initiator_upgrade_service_id s = true <->
  exists l, str_bytes s = l ++ str_bytes INITIATOR_UPGRADE_SERVICE_ID_POSTFIX.
Proof.
  unfold is_initiator_upgrade_service_id. rewrite andb_true_iff, ends_with_spec. split.
  - by intros [_ ?].
  - intros [l Hl]. split; [|by eauto]. destruct s; [|done]. by destruct l.
Qed.

Lemma append_is_initiator l :
  is_initiator_upgrade_service_id
    (bytes_str (l ++ str_bytes INITIATOR_UPGRADE_SERVICE_ID_POSTFIX)) = true.
Proof. apply is_initiator_spec. rewrite str_bytes_str. by eauto. Qed.

Lemma wrap_nonempty s :
  s <> "" -> is_initiator_upgrade_service_id (wrap_initiator_upgrade_service_id s) = true.
Proof.
  intros Hs. unfold wrap_initiator_upgrade_service_id.
  destruct (str_is_empty s) eqn:E; [by apply str_is_empty_true in E|]. simpl.
  destruct (is_initiator_upgrade_service_id s) eqn:E'; [done|]. apply append_is_initiator.
Qed.

Lemma wrap_raw s :
  s <> "" -> is_initiator_upgrade_service_id s = false ->
  wrap_initiator_upgrade_service_id s =
  bytes_str (str_bytes s ++ str_bytes INITIATOR_UPGRADE_SERVICE_ID_POSTFIX).
Proof.
  intros Hs E. unfold wrap_initiator_upgrade_service_id. rewrite E.
  destruct (str_is_empty s) eqn:E'; [by apply str_is_empty_true in E'|done].
Qed.

Lemma wrap_wrapped s :
  is_initiator_upgrade_service_id s = true -> wrap_initiator_upgrade_service_id s = s.
Proof. intros E. unfold wrap_initiator_upgrade_service_id. by rewrite E, orb_true_r. Qed.

Lemma unwrap_suffix s l :
  str_bytes s = l ++ str_bytes INITIATOR_UPGRADE_SERVICE_ID_POSTFIX ->
  unwrap_initiator_upgrade_service_id s = bytes_str l.
Proof.
  intros Hs. unfold unwrap_initiator_upgrade_service_id.
  assert (E : is_initiator_upgrade_service_id s = true) by (apply is_initiator_spec; eauto).
  rewrite E. destruct (str_is_empty s) eqn:E'.
  { by apply str_is_empty_true in E' as ->; destruct l. }
  simpl. rewrite Hs, strip_suffix_app. done.
Qed.

Lemma unwrap_raw s :
  is_initiator_upgrade_service_id s = false -> unwrap_initiator_upgrade_service_id s = s.
Proof. intros E. unfold unwrap_initiator_upgrade_service_id. by rewrite E, orb_true_r. Qed.

(** * Properties *)

(** Wrapping marks every non-empty service id as an initiator's, keeps the
    marked ones and the empty one, is idempotent, and is undone by unwrapping
    on the ids that are not marked already; on those ids it is injective, so
    two services never share an upgrade id; unwrapping an unmarked id is the
    identity, and unwrapping a marked one removes exactly one postfix. *)
Theorem service_id_wrapping (s s' : string) :
  (s <> "" -> is_initiator_upgrade_service_id (wrap_initiator_upgrade_service_id s) = true) /\
  wrap_initiator_upgrade_service_id "" = "" /\
  wrap_initiator_upgrade_service_id (wrap_initiator_upgrade_service_id s) =
    wrap_initiator_upgrade_service_id s /\
  (is_initiator_upgrade_service_id s = false ->
   unwrap_initiator_upgrade_service_id (wrap_initiator_upgrade_service_id s) = s /\
   unwrap_initiator_upgrade_service_id s = s) /\
  (is_initiator_upgrade_service_id s = true ->
   str_bytes s = str_bytes (unwrap_initiator_upgrade_service_id s)
                 ++ str_bytes INITIATOR_UPGRADE_SERVICE_ID_POSTFIX) /\
  (is_initiator_upgrade_service_id s = false -> is_initiator_upgrade_service_id s' = false ->
   wrap_initiator_upgrade_service_id s = wrap_initiator_upgrade_service_id s' -> s = s').
Proof.
  assert (Hun : forall s, is_initiator_upgrade_service_id s = false ->
    unwrap_initiator_upgrade_service_id (wrap_initiator_upgrade_service_id s) = s).
  { intros t Ht. destruct (str_is_empty t) eqn:E; [by apply str_is_empty_true in E as ->|].
    rewrite wrap_raw by (by destruct t || done).
    rewrite (unwrap_suffix _ (str_bytes t)) by apply str_bytes_str. apply bytes_str_bytes. }
  split_and!.
  - apply wrap_nonempty.
  - done.
  - destruct (str_is_empty s) eqn:E; [by apply str_is_empty_true in E as ->|].
    apply wrap_wrapped, wrap_nonempty. by intros ->.
  - intros Hs. split; [by apply Hun|by apply unwrap_raw].
  - intros [l Hl]%is_initiator_spec. by rewrite (unwrap_suffix _ l), str_bytes_str by done.
  - intros Hs Hs' Hw. by rewrite <-(Hun s Hs), <-(Hun s' Hs'), Hw.
Qed.

Lemma service_id_wrapping_witness :
  wrap_initiator_upgrade_service_id "ServiceA" = "ServiceA_UPGRADE" /\
  unwrap_initiator_upgrade_service_id (wrap_initiator_upgrade_service_id "ServiceA") = "ServiceA".
Proof.
  split; [reflexivity|].
  destruct (service_id_wrapping "ServiceA" "ServiceB") as (_ & _ & _ & Hu & _).
  apply Hu. reflexivity.
Defined.
