(* ===== verification/Client.v ===== *)
(** [src/bwu/client.rs]: the per-endpoint connection state that the upgrade
    state machine queries. *)

From Stdlib Require Import ZArith.
From S2P Require Import Prelude.
From S2P Require Import Mediums.

(** * State *)

Record EndpointState : Type := mkEndpointState {
  es_initiated : bool;
  es_connected : bool;
  es_local_accepted : bool;
  es_remote_accepted : bool;
  es_is_incoming : bool;
  es_auto_upgrade_bandwidth : bool;
  es_upgrade_mediums : list Medium;
}.

Definition EndpointState_default : EndpointState :=
  {| es_initiated := false; es_connected := false; es_local_accepted := false;
     es_remote_accepted := false; es_is_incoming := false; es_auto_upgrade_bandwidth := false;
     es_upgrade_mediums := [] |}.

Record ClientProxy : Type := mkClientProxy {
  cp_client_id : Z;
  cp_local_endpoint_id : string;
  cp_last_local_endpoint_id : string;
  cp_endpoints : gmap string EndpointState;
  cp_bandwidth_changed : list (string * Medium);
}.

(** * Operations *)

(** [ClientProxy::new]. *)
Definition ClientProxy_new (client_id : Z) (local_endpoint_id : string) : ClientProxy :=
  {| cp_client_id := client_id;
     cp_local_endpoint_id := local_endpoint_id;
     cp_last_local_endpoint_id := local_endpoint_id;
     cp_endpoints := ∅;
     cp_bandwidth_changed := [] |}.

Definition client_id (c : ClientProxy) : Z := c.(cp_client_id).
Definition local_endpoint_id (c : ClientProxy) : string := c.(cp_local_endpoint_id).
Definition last_local_endpoint_id (c : ClientProxy) : string := c.(cp_last_local_endpoint_id).

Definition ClientProxy_default : ClientProxy := ClientProxy_new 0 "LOCAL".

(** An assignment through [self.entry(endpoint_id)]: the state of the endpoint,
    made when it is absent, is changed by [f]. *)
Definition entry (f : EndpointState -> EndpointState) (endpoint_id : string)
    (c : ClientProxy) : ClientProxy :=
  {| cp_client_id := c.(cp_client_id);
     cp_local_endpoint_id := c.(cp_local_endpoint_id);
     cp_last_local_endpoint_id := c.(cp_last_local_endpoint_id);
     cp_endpoints :=
       <[endpoint_id := f (default EndpointState_default (c.(cp_endpoints) !! endpoint_id))]>
         c.(cp_endpoints);
     cp_bandwidth_changed := c.(cp_bandwidth_changed) |}.

Definition on_connection_initiated (endpoint_id : string)
    (is_incoming auto_upgrade_bandwidth : bool) : ClientProxy -> ClientProxy :=
  entry (fun e =>
    {| es_initiated := true;
       es_connected := e.(es_connected);
       es_local_accepted := e.(es_local_accepted);
       es_remote_accepted := e.(es_remote_accepted);
       es_is_incoming := is_incoming;
       es_auto_upgrade_bandwidth := auto_upgrade_bandwidth;
       es_upgrade_mediums := e.(es_upgrade_mediums) |}) endpoint_id.

Definition local_endpoint_accepted_connection (endpoint_id : string)
    : ClientProxy -> ClientProxy :=
  entry (fun e =>
    {| es_initiated := e.(es_initiated);
       es_connected := e.(es_connected);
       es_local_accepted := true;
       es_remote_accepted := e.(es_remote_accepted);
       es_is_incoming := e.(es_is_incoming);
       es_auto_upgrade_bandwidth := e.(es_auto_upgrade_bandwidth);
       es_upgrade_mediums := e.(es_upgrade_mediums) |}) endpoint_id.

Definition remote_endpoint_accepted_connection (endpoint_id : string)
    : ClientProxy -> ClientProxy :=
  entry (fun e =>
    {| es_initiated := e.(es_initiated);
       es_connected := e.(es_connected);
       es_local_accepted := e.(es_local_accepted);
       es_remote_accepted := true;
       es_is_incoming := e.(es_is_incoming);
       es_auto_upgrade_bandwidth := e.(es_auto_upgrade_bandwidth);
       es_upgrade_mediums := e.(es_upgrade_mediums) |}) endpoint_id.

Definition on_connection_accepted (endpoint_id : string) : ClientProxy -> ClientProxy :=
  entry (fun e =>
    {| es_initiated := e.(es_initiated);
       es_connected := true;
       es_local_accepted := e.(es_local_accepted);
       es_remote_accepted := e.(es_remote_accepted);
       es_is_incoming := e.(es_is_incoming);
       es_auto_upgrade_bandwidth := e.(es_auto_upgrade_bandwidth);
       es_upgrade_mediums := e.(es_upgrade_mediums) |}) endpoint_id.

Definition on_disconnected (endpoint_id : string) (c : ClientProxy) : ClientProxy :=
  {| cp_client_id := c.(cp_client_id);
     cp_local_endpoint_id := c.(cp_local_endpoint_id);
     cp_last_local_endpoint_id := c.(cp_last_local_endpoint_id);
     cp_endpoints := delete endpoint_id c.(cp_endpoints);
     cp_bandwidth_changed := c.(cp_bandwidth_changed) |}.

Definition is_connection_accepted (c : ClientProxy) (endpoint_id : string) : bool :=
  default false
    ((fun e => e.(es_local_accepted) && e.(es_remote_accepted))
     <$> c.(cp_endpoints) !! endpoint_id).

Definition is_connected_to_endpoint (c : ClientProxy) (endpoint_id : string) : bool :=
  default false (es_connected <$> c.(cp_endpoints) !! endpoint_id).

Definition is_incoming_connection (c : ClientProxy) (endpoint_id : string) : bool :=
  default false (es_is_incoming <$> c.(cp_endpoints) !! endpoint_id).

Definition auto_upgrade_bandwidth (c : ClientProxy) (endpoint_id : string) : bool :=
  default false (es_auto_upgrade_bandwidth <$> c.(cp_endpoints) !! endpoint_id).

Definition set_upgrade_mediums (endpoint_id : string) (mediums : list Medium)
    : ClientProxy -> ClientProxy :=
  entry (fun e =>
    {| es_initiated := e.(es_initiated);
       es_connected := e.(es_connected);
       es_local_accepted := e.(es_local_accepted);
       es_remote_accepted := e.(es_remote_accepted);
       es_is_incoming := e.(es_is_incoming);
       es_auto_upgrade_bandwidth := e.(es_auto_upgrade_bandwidth);
       es_upgrade_mediums := mediums |}) endpoint_id.

Definition get_upgrade_mediums (c : ClientProxy) (endpoint_id : string) : list Medium :=
  default [] (es_upgrade_mediums <$> c.(cp_endpoints) !! endpoint_id).

Definition on_bandwidth_changed (endpoint_id : string) (medium : Medium) (c : ClientProxy)
    : ClientProxy :=
  {| cp_client_id := c.(cp_client_id);
     cp_local_endpoint_id := c.(cp_local_endpoint_id);
     cp_last_local_endpoint_id := c.(cp_last_local_endpoint_id);
     cp_endpoints := c.(cp_endpoints);
     cp_bandwidth_changed := c.(cp_bandwidth_changed) ++ [(endpoint_id, medium)] |}.

(** [bandwidth_changed_events]. *)
Definition bandwidth_changed_events (c : ClientProxy) : list (string * Medium) :=
  c.(cp_bandwidth_changed).

(** The calls that change a client. *)
Inductive client_call : Type :=
| ConnectionInitiatedCall (ep : string) (is_incoming auto_upgrade : bool)
| LocalAcceptedCall (ep : string)
| RemoteAcceptedCall (ep : string)
| ConnectionAcceptedCall (ep : string)
| DisconnectedCall (ep : string)
| SetUpgradeMediumsCall (ep : string) (mediums : list Medium)
| BandwidthChangedCall (ep : string) (medium : Medium).

#[export] Instance client_call_eq_dec : EqDecision client_call.
Proof. solve_decision. Defined.

Definition client_step (k : client_call) : ClientProxy -> ClientProxy :=
  match k with
  | ConnectionInitiatedCall ep inc au => on_connection_initiated ep inc au
  | LocalAcceptedCall ep => local_endpoint_accepted_connection ep
  | RemoteAcceptedCall ep => remote_endpoint_accepted_connection ep
  | ConnectionAcceptedCall ep => on_connection_accepted ep
  | DisconnectedCall ep => on_disconnected ep
  | SetUpgradeMediumsCall ep ms => set_upgrade_mediums ep ms
  | BandwidthChangedCall ep m => on_bandwidth_changed ep m
  end.

Definition call_endpoint (k : client_call) : string :=
  match k with
  | ConnectionInitiatedCall ep _ _ | LocalAcceptedCall ep | RemoteAcceptedCall ep
  | ConnectionAcceptedCall ep | DisconnectedCall ep | SetUpgradeMediumsCall ep _
  | BandwidthChangedCall ep _ => ep
  end.

(** The calls since the last disconnection of the endpoint. *)
Fixpoint since_disconnect (ep : string) (ks : list client_call) : list client_call :=
  match ks with
  | [] => []
  | DisconnectedCall ep' :: ks =>
      if decide (ep' = ep) then [] else DisconnectedCall ep' :: since_disconnect ep ks
  | k :: ks => k :: since_disconnect ep ks
  end.

(** The client after the calls, newest first. *)
Definition run_calls (c : ClientProxy) (ks : list client_call) : ClientProxy :=
  foldr client_step c ks.

(** The newest call that answers a question. *)
Fixpoint latest {A} (f : client_call -> option A) (ks : list client_call) : option A :=
  match ks with
  | [] => None
  | k :: ks => match f k with Some a => Some a | None => latest f ks end
  end.

Definition accepts (ep : string) (k : client_call) : option unit :=
  match k with
  | ConnectionAcceptedCall ep' => if decide (ep' = ep) then Some tt else None
  | _ => None
  end.

Definition accepts_locally (ep : string) (k : client_call) : option unit :=
  match k with
  | LocalAcceptedCall ep' => if decide (ep' = ep) then Some tt else None
  | _ => None
  end.

Definition accepts_remotely (ep : string) (k : client_call) : option unit :=
  match k with
  | RemoteAcceptedCall ep' => if decide (ep' = ep) then Some tt else None
  | _ => None
  end.

Definition initiates (ep : string) (k : client_call) : option (bool * bool) :=
  match k with
  | ConnectionInitiatedCall ep' inc au => if decide (ep' = ep) then Some (inc, au) else None
  | _ => None
  end.

Definition sets_mediums (ep : string) (k : client_call) : option (list Medium) :=
  match k with
  | SetUpgradeMediumsCall ep' ms => if decide (ep' = ep) then Some ms else None
  | _ => None
  end.

Definition changes_bandwidth (k : client_call) : option (string * Medium) :=
  match k with BandwidthChangedCall ep m => Some (ep, m) | _ => None end.

(** * Lemmas *)

(** The state of an endpoint depends on the calls since its last
    disconnection only. *)
Definition state_of (ep : string) (c : ClientProxy) : EndpointState :=
  default EndpointState_default (c.(cp_endpoints) !! ep).

Lemma state_of_entry f ep ep' c :
  state_of ep (entry f ep' c) = if decide (ep' = ep) then f (state_of ep c) else state_of ep c.
Proof.
  unfold state_of, entry. simpl. destruct (decide (ep' = ep)) as [->|Hne].
  - by rewrite lookup_insert_eq.
  - by rewrite lookup_insert_ne.
Qed.

Lemma state_of_disconnected ep ep' c :
  state_of ep (on_disconnected ep' c) =
  if decide (ep' = ep) then EndpointState_default else state_of ep c.
Proof.
  unfold state_of, on_disconnected. simpl. destruct (decide (ep' = ep)) as [->|Hne].
  - by rewrite lookup_delete_eq.
  - by rewrite lookup_delete_ne.
Qed.

(** A field of the state is what the newest call that sets it says. *)
Lemma field_of_calls {A B} (g : EndpointState -> B) (d : B) (f : client_call -> option A)
    (v : A -> B) ep id local ks :
  g EndpointState_default = d ->
  (forall k c, k <> DisconnectedCall ep ->
     g (state_of ep (client_step k c)) =
     match f k with Some a => v a | None => g (state_of ep c) end) ->
  f (DisconnectedCall ep) = None ->
  g (state_of ep (run_calls (ClientProxy_new id local) ks)) =
  match latest f (since_disconnect ep ks) with Some a => v a | None => d end.
Proof.
  intros Hd Hstep Hdis. induction ks as [|k ks IH]; [done|].
  cbn [run_calls foldr]. fold (run_calls (ClientProxy_new id local) ks).
  destruct (decide (k = DisconnectedCall ep)) as [->|Hk].
  - simpl. rewrite decide_True by done. simpl.
    rewrite state_of_disconnected, decide_True by done. done.
  - rewrite (Hstep k) by done.
    assert (Hs : since_disconnect ep (k :: ks) = k :: since_disconnect ep ks).
    { destruct k; simpl; try done. case_decide; congruence. }
    rewrite Hs. simpl. destruct (f k); [done|]. apply IH.
Qed.

(** Each query reads a field of the endpoint's state. *)
Lemma queries_state c ep :
  is_connected_to_endpoint c ep = es_connected (state_of ep c) /\
  is_connection_accepted c ep =
    es_local_accepted (state_of ep c) && es_remote_accepted (state_of ep c) /\
  is_incoming_connection c ep = es_is_incoming (state_of ep c) /\
  auto_upgrade_bandwidth c ep = es_auto_upgrade_bandwidth (state_of ep c) /\
  get_upgrade_mediums c ep = es_upgrade_mediums (state_of ep c).
Proof.
  unfold is_connected_to_endpoint, is_connection_accepted, is_incoming_connection,
    auto_upgrade_bandwidth, get_upgrade_mediums, state_of.
  by destruct (cp_endpoints c !! ep).
Qed.

Ltac field_calls :=
  intros k c Hk; destruct k; cbn [client_step accepts accepts_locally accepts_remotely
    initiates sets_mediums];
  unfold on_connection_initiated, local_endpoint_accepted_connection,
    remote_endpoint_accepted_connection, on_connection_accepted, set_upgrade_mediums;
  rewrite ?state_of_entry, ?state_of_disconnected; repeat case_decide; subst; done.

Definition field_spec {A B} (g : EndpointState -> B) (v : A -> B) (d : B)
    (f : client_call -> option A) (ep : string) : Prop :=
  forall id local ks,
    g (state_of ep (run_calls (ClientProxy_new id local) ks)) =
    match latest f (since_disconnect ep ks) with Some a => v a | None => d end.

Lemma connected_calls ep : field_spec es_connected (fun _ => true) false (accepts ep) ep.
Proof. intros id local ks. apply field_of_calls; [done| |done]. field_calls. Qed.

Lemma local_calls ep :
  field_spec es_local_accepted (fun _ => true) false (accepts_locally ep) ep.
Proof. intros id local ks. apply field_of_calls; [done| |done]. field_calls. Qed.

Lemma remote_calls ep :
  field_spec es_remote_accepted (fun _ => true) false (accepts_remotely ep) ep.
Proof. intros id local ks. apply field_of_calls; [done| |done]. field_calls. Qed.

Lemma incoming_calls ep : field_spec es_is_incoming fst false (initiates ep) ep.
Proof. intros id local ks. apply field_of_calls; [done| |done]. field_calls. Qed.

Lemma auto_calls ep : field_spec es_auto_upgrade_bandwidth snd false (initiates ep) ep.
Proof. intros id local ks. apply field_of_calls; [done| |done]. field_calls. Qed.

Lemma mediums_calls ep : field_spec es_upgrade_mediums id [] (sets_mediums ep) ep.
Proof. intros id' local ks. apply field_of_calls; [done| |done]. field_calls. Qed.

Lemma events_calls id local ks :
  bandwidth_changed_events (run_calls (ClientProxy_new id local) ks) =
  omap changes_bandwidth (reverse ks).
Proof.
  induction ks as [|k ks IH]; [done|]. rewrite reverse_cons, omap_app, <-IH.
  destruct k; simpl; unfold bandwidth_changed_events; simpl; by rewrite ?app_nil_r.
Qed.

(** * Properties *)

(** C40. The queries of a client are functions of the calls made on it, newest
    first: connected, accepted and the rest are decided by the newest call that
    sets them since the endpoint last disconnected, and default to not
    connected, outgoing and no mediums; the bandwidth events are all the
    successes, oldest first, which a disconnection does not forget. *)
Theorem client_refines_history (id : Z) (local ep : string) (ks : list client_call) :
  let c := run_calls (ClientProxy_new id local) ks in
  let now := since_disconnect ep ks in
  is_connected_to_endpoint c ep = is_some (latest (accepts ep) now) /\
  is_connection_accepted c ep =
    is_some (latest (accepts_locally ep) now) && is_some (latest (accepts_remotely ep) now) /\
  is_incoming_connection c ep = default false (fst <$> latest (initiates ep) now) /\
  auto_upgrade_bandwidth c ep = default false (snd <$> latest (initiates ep) now) /\
  get_upgrade_mediums c ep = default [] (latest (sets_mediums ep) now) /\
  bandwidth_changed_events c = omap changes_bandwidth (reverse ks).
Proof.
  cbv zeta.
  destruct (queries_state (run_calls (ClientProxy_new id local) ks) ep)
    as (-> & -> & -> & -> & ->).
  rewrite connected_calls, local_calls, remote_calls, incoming_calls, auto_calls,
    mediums_calls, events_calls.
  repeat (case_match || split); done.
Qed.
