(* ===== verification/Channel.v ===== *)
(** [src/bwu/channel.rs]: the seam between the upgrade state machine and the
    transport.  A channel is shared ([Arc<dyn EndpointChannel>]) and has interior
    mutability, so [chan] is the identity of a channel and [env] the state that
    lies behind every channel: two holders of one [chan] see each other's calls,
    and the two ends of a connection may share state. *)

From S2P Require Import Prelude.
From S2P Require Import Mediums.
From S2P Require Import Frames.

(** * Data *)

Inductive DisconnectionReason : Type :=
| UnknownDisconnectionReason
| LocalDisconnection
| RemoteDisconnection
| IoError
| Upgraded
| Shutdown
| Unfinished
| PrevChannelDisconnectionInReconnect
| AuthenticationFailure.

Inductive SafeDisconnectionResult : Type := SafeDisconnection | UnsafeDisconnection.

#[export] Instance DisconnectionReason_eq_dec : EqDecision DisconnectionReason.
Proof. solve_decision. Defined.

(** The trait.  Reads and writes may park the calling thread ([Fault Blocked]).
    The getters only look at the state.  [enable_encryption], which the state
    machine never calls, belongs to the stream channel. *)
Class EndpointChannel (env chan : Type) : Type := {
  ch_read : chan -> M env (Result bytes);
  ch_write : chan -> bytes -> M env Exception;
  ch_close : chan -> M env unit;
  ch_close_with_reason : chan -> DisconnectionReason -> M env unit;
  ch_medium : chan -> env -> Medium;
  ch_service_id : chan -> env -> string;
  ch_name : chan -> env -> string;
  ch_channel_type : chan -> env -> string;
  ch_local_endpoint_id : chan -> env -> string;
  ch_set_local_endpoint_id : chan -> string -> M env unit;
  ch_pause : chan -> M env unit;
  ch_resume : chan -> M env unit;
  ch_is_paused : chan -> env -> bool;
  ch_disable_encryption : chan -> M env unit;
}.

(** One call on some channel: the environment before and after it. *)
Inductive channel_call `{EndpointChannel env chan} : env -> env -> Prop :=
| call_read c e r e' : runs_to (ch_read c) e r e' -> channel_call e e'
| call_write c d e r e' : runs_to (ch_write c d) e r e' -> channel_call e e'
| call_close c e r e' : runs_to (ch_close c) e r e' -> channel_call e e'
| call_close_with_reason c d e r e' :
    runs_to (ch_close_with_reason c d) e r e' -> channel_call e e'
| call_set_local c i e r e' : runs_to (ch_set_local_endpoint_id c i) e r e' -> channel_call e e'
| call_pause c e r e' : runs_to (ch_pause c) e r e' -> channel_call e e'
| call_resume c e r e' : runs_to (ch_resume c) e r e' -> channel_call e e'
| call_disable c e r e' : runs_to (ch_disable_encryption c) e r e' -> channel_call e e'.

(** What the state machine relies on: the medium and the service of a channel
    never change, and pausing works on the channel it is called on. *)
Class EndpointChannelLaws (env chan : Type) `{EndpointChannel env chan} : Prop := {
  ch_medium_fixed c e e' : channel_call e e' -> ch_medium c e' = ch_medium c e;
  ch_service_fixed c e e' : channel_call e e' -> ch_service_id c e' = ch_service_id c e;
  ch_pause_law c e r e' : runs_to (ch_pause c) e r e' -> ch_is_paused c e' = true;
  ch_resume_law c e r e' : runs_to (ch_resume c) e r e' -> ch_is_paused c e' = false;
}.

(** The faults that the calls on the channels can end in. *)
Class ChannelFaults (env chan : Type) `{EndpointChannel env chan} (E : fault -> Prop) : Prop := {
  cf_read c e : wp E (ch_read c) (fun _ _ => True) e;
  cf_write c d e : wp E (ch_write c d) (fun _ _ => True) e;
  cf_close c e : wp E (ch_close c) (fun _ _ => True) e;
  cf_close_with_reason c d e : wp E (ch_close_with_reason c d) (fun _ _ => True) e;
  cf_set_local c i e : wp E (ch_set_local_endpoint_id c i) (fun _ _ => True) e;
  cf_pause c e : wp E (ch_pause c) (fun _ _ => True) e;
  cf_resume c e : wp E (ch_resume c) (fun _ _ => True) e;
  cf_disable c e : wp E (ch_disable_encryption c) (fun _ _ => True) e;
}.
