(* ===== verification/ChannelManager.v ===== *)
(** [src/bwu/channel_manager.rs]: the registry from endpoints to their active
    channels that an upgrade swaps over. *)

From S2P Require Import Prelude.
From S2P Require Import Mediums.
From S2P Require Import Channel.
From S2P Require Import Client.

(** * State and operations *)

Record EndpointChannelManager (chan : Type) : Type := mkEcm {
  ecm_endpoints : gmap string chan;
}.
Arguments mkEcm {chan} _.
Arguments ecm_endpoints {chan} _.

Definition ecm_new {chan} : EndpointChannelManager chan := mkEcm ∅.

Definition register_channel_for_endpoint {chan} (endpoint_id : string) (channel : chan)
    (m : EndpointChannelManager chan) : EndpointChannelManager chan :=
  mkEcm (<[endpoint_id := channel]> m.(ecm_endpoints)).

Definition replace_channel_for_endpoint {chan} (endpoint_id : string) (channel : chan)
    (enable_encryption : bool) (m : EndpointChannelManager chan) : EndpointChannelManager chan :=
  mkEcm (<[endpoint_id := channel]> m.(ecm_endpoints)).

Definition get_channel_for_endpoint {chan} (endpoint_id : string)
    (m : EndpointChannelManager chan) : option chan :=
  m.(ecm_endpoints) !! endpoint_id.

Definition unregister_channel_for_endpoint {chan} (endpoint_id : string)
    (reason : DisconnectionReason) (result : SafeDisconnectionResult)
    (m : EndpointChannelManager chan) : bool * EndpointChannelManager chan :=
  (is_some (m.(ecm_endpoints) !! endpoint_id), mkEcm (delete endpoint_id m.(ecm_endpoints))).

Definition get_connected_endpoints_count {chan} (m : EndpointChannelManager chan) : nat :=
  size m.(ecm_endpoints).

Definition is_wifi_lan_connected `{EndpointChannel env chan} (e : env)
    (m : EndpointChannelManager chan) : bool :=
  existsb (fun p => bool_decide (ch_medium p.2 e = WifiLan)) (map_to_list m.(ecm_endpoints)).

(** The calls that change a registry. *)
Inductive ecm_call (chan : Type) : Type :=
| RegisterCall (ep : string) (c : chan)
| ReplaceCall (ep : string) (c : chan) (enable_encryption : bool)
| UnregisterCall (ep : string) (reason : DisconnectionReason) (result : SafeDisconnectionResult).
Arguments RegisterCall {chan} _ _.
Arguments ReplaceCall {chan} _ _ _.
Arguments UnregisterCall {chan} _ _ _.

Definition ecm_step {chan} (k : ecm_call chan) : EndpointChannelManager chan ->
    EndpointChannelManager chan :=
  match k with
  | RegisterCall ep c => register_channel_for_endpoint ep c
  | ReplaceCall ep c enc => replace_channel_for_endpoint ep c enc
  | UnregisterCall ep reason result => fun m => (unregister_channel_for_endpoint ep reason result m).2
  end.

Definition run_ecm {chan} (ks : list (ecm_call chan)) : EndpointChannelManager chan :=
  foldr ecm_step ecm_new ks.

(** What the newest call about an endpoint says of its channel. *)
Fixpoint registered {chan} (ep : string) (ks : list (ecm_call chan)) : option chan :=
  match ks with
  | [] => None
  | RegisterCall ep' c :: ks | ReplaceCall ep' c _ :: ks =>
      if decide (ep' = ep) then Some c else registered ep ks
  | UnregisterCall ep' _ _ :: ks => if decide (ep' = ep) then None else registered ep ks
  end.

(** * Lemmas *)

Lemma registered_lookup {chan} ep (ks : list (ecm_call chan)) :
  get_channel_for_endpoint ep (run_ecm ks) = registered ep ks.
Proof.
  unfold get_channel_for_endpoint, run_ecm. induction ks as [|k ks IH]; [done|].
  cbn [foldr]. destruct k; simpl; rewrite <-?IH; case_decide; subst.
  all: rewrite ?lookup_insert_eq, ?lookup_delete_eq, ?lookup_insert_ne, ?lookup_delete_ne; done.
Qed.

Lemma wifi_lan_connected_spec `{EndpointChannel env chan} (e : env)
    (m : EndpointChannelManager chan) :
  is_wifi_lan_connected e m = true <->
  exists ep c, get_channel_for_endpoint ep m = Some c /\ ch_medium c e = WifiLan.
Proof.
  unfold is_wifi_lan_connected, get_channel_for_endpoint. rewrite existsb_exists. split.
  - intros ([ep c] & Hin & Hm%bool_decide_eq_true). exists ep, c. split; [|done].
    by apply elem_of_map_to_list, list_elem_of_In.
  - intros (ep & c & Hl & Hm). exists (ep, c). split; [|by apply bool_decide_eq_true].
    by apply list_elem_of_In, elem_of_map_to_list.
Qed.

(** * Properties *)

(** After any calls, newest first, the registry holds for an endpoint the
    channel of the newest register or replace that no later unregister of that
    endpoint follows; the connected count is the number of endpoints that have
    one; unregistering reports whether the endpoint had one; and WIFI_LAN is
    reported connected exactly when some endpoint's channel is on WIFI_LAN. *)
Theorem registry_refines_history `{EndpointChannel env chan} (ks : list (ecm_call chan))
    (e : env) (reason : DisconnectionReason) (result : SafeDisconnectionResult) :
  let m := run_ecm ks in
  (forall ep, get_channel_for_endpoint ep m = registered ep ks) /\
  (exists eps, NoDup eps /\ length eps = get_connected_endpoints_count m /\
     forall ep, ep ∈ eps <-> is_some (registered ep ks) = true) /\
  (forall ep, (unregister_channel_for_endpoint ep reason result m).1 =
              is_some (registered ep ks)) /\
  (is_wifi_lan_connected e m = true <->
   exists ep c, registered ep ks = Some c /\ ch_medium c e = WifiLan).
Proof.
  cbv zeta. pose proof (fun ep => registered_lookup ep ks) as Hl.
  unfold get_channel_for_endpoint in Hl. split_and!.
  - done.
  - exists (elements (dom (run_ecm ks).(ecm_endpoints))).
    split_and!; [apply NoDup_elements| |].
    + unfold get_connected_endpoints_count. by rewrite <-size_dom.
    + intros ep. rewrite elem_of_elements, elem_of_dom, Hl.
      destruct (registered ep ks); simpl; split; intros Hx; first [done | by inversion Hx | by eexists].
  - intros ep. simpl. by rewrite Hl.
  - rewrite wifi_lan_connected_spec. unfold get_channel_for_endpoint.
    split; intros (ep & c & Hc & Hm); exists ep, c; by rewrite Hl in *.
Qed.
