(* ===== verification/Handler.v ===== *)
(** [src/bwu/handler.rs]: the handler interface of the upgrade state machine,
    the medium-specific interface below it, and the bookkeeping between the two. *)

From S2P Require Import Prelude.
From S2P Require Import Mediums.
From S2P Require Import Proto.
From S2P Require Import Frames.
From S2P Require Import ServiceId.
From S2P Require Import Client.
From S2P Require Import Channel.

(** * Interfaces *)

Record IncomingSocketConnection (chan : Type) : Type := mkIncoming { isc_channel : chan }.
Arguments mkIncoming {chan} _.
Arguments isc_channel {chan} _.

(** [trait BwuHandler].  A call changes the handler's own state [H] and the
    shared state behind the channels it makes. *)
Class BwuHandler (H env chan : Type) : Type := {
  bh_initialize_upgraded_medium_for_endpoint :
    ClientProxy -> string -> string -> M (H * env) bytes;
  bh_revert_initiator_state : M (H * env) unit;
  bh_revert_initiator_state_for_endpoint : string -> string -> M (H * env) unit;
  bh_revert_responder_state : string -> M (H * env) unit;
  bh_create_upgraded_endpoint_channel :
    ClientProxy -> string -> string -> UpgradePathInfo -> M (H * env) (option chan);
  bh_get_upgrade_medium : H -> Medium;
  bh_on_endpoint_disconnect : ClientProxy -> string -> M (H * env) unit;
}.

(** [trait MediumBwuHandler]. *)
Class MediumBwuHandler (H env chan : Type) : Type := {
  mh_handle_initialize_upgraded_medium_for_endpoint :
    ClientProxy -> string -> string -> M (H * env) bytes;
  mh_handle_revert_initiator_state_for_service : string -> M (H * env) unit;
  mh_create_upgraded_endpoint_channel :
    ClientProxy -> string -> string -> UpgradePathInfo -> M (H * env) (option chan);
  mh_get_upgrade_medium : H -> Medium;
  mh_on_endpoint_disconnect : ClientProxy -> string -> M (H * env) unit;
}.

(** One call on a handler: its state and the environment before and after it. *)
Inductive handler_call (H env chan : Type) `{BwuHandler H env chan} : H * env -> H * env -> Prop :=
| hcall_initialize c s ep h frame h' :
    runs_to (bh_initialize_upgraded_medium_for_endpoint (chan := chan) c s ep) h frame h' ->
    handler_call H env chan h h'
| hcall_revert h r h' :
    runs_to (bh_revert_initiator_state (chan := chan)) h r h' -> handler_call H env chan h h'
| hcall_revert_endpoint s ep h r h' :
    runs_to (bh_revert_initiator_state_for_endpoint (chan := chan) s ep) h r h' ->
    handler_call H env chan h h'
| hcall_revert_responder s h r h' :
    runs_to (bh_revert_responder_state (chan := chan) s) h r h' -> handler_call H env chan h h'
| hcall_create c s ep info h r h' :
    runs_to (bh_create_upgraded_endpoint_channel (chan := chan) c s ep info) h r h' ->
    handler_call H env chan h h'
| hcall_disconnect c ep h r h' :
    runs_to (bh_on_endpoint_disconnect (chan := chan) c ep) h r h' -> handler_call H env chan h h'.

(** One call that is made for an endpoint: reverting all services is such a call
    where there is one medium for all endpoints ([multiple] is off). *)
Inductive endpoint_call (H env chan : Type) `{BwuHandler H env chan} (multiple : bool) (ep : string)
    : H * env -> H * env -> Prop :=
| ecall_initialize c s h frame h' :
    runs_to (bh_initialize_upgraded_medium_for_endpoint (chan := chan) c s ep) h frame h' ->
    endpoint_call H env chan multiple ep h h'
| ecall_revert h r h' :
    multiple = false -> runs_to (bh_revert_initiator_state (chan := chan)) h r h' ->
    endpoint_call H env chan multiple ep h h'
| ecall_revert_endpoint s h r h' :
    runs_to (bh_revert_initiator_state_for_endpoint (chan := chan) s ep) h r h' ->
    endpoint_call H env chan multiple ep h h'
| ecall_revert_responder s h r h' :
    runs_to (bh_revert_responder_state (chan := chan) s) h r h' ->
    endpoint_call H env chan multiple ep h h'
| ecall_create c s info h r h' :
    runs_to (bh_create_upgraded_endpoint_channel (chan := chan) c s ep info) h r h' ->
    endpoint_call H env chan multiple ep h h'
| ecall_disconnect c h r h' :
    runs_to (bh_on_endpoint_disconnect (chan := chan) c ep) h r h' ->
    endpoint_call H env chan multiple ep h h'.

(** The services for which a handler holds a session of an endpoint; with several
    mediums, a call for one endpoint leaves those of the others. *)
Class EndpointSessions (H env chan : Type) `{BwuHandler H env chan} : Type := {
  sessions_of : H -> string -> gset string;
  sessions_isolated ep ep' h e h' e' :
    endpoint_call H env chan true ep (h, e) (h', e') -> ep <> ep' ->
    sessions_of h' ep' = sessions_of h ep';
}.

(** The faults that the calls on a handler can end in. *)
Class HandlerFaults (H env chan : Type) `{BwuHandler H env chan} (E : fault -> Prop) : Prop := {
  hf_initialize c s ep h :
    wp E (bh_initialize_upgraded_medium_for_endpoint (chan := chan) c s ep) (fun _ _ => True) h;
  hf_revert h : wp E (bh_revert_initiator_state (chan := chan)) (fun _ _ => True) h;
  hf_revert_endpoint s ep h :
    wp E (bh_revert_initiator_state_for_endpoint (chan := chan) s ep) (fun _ _ => True) h;
  hf_revert_responder s h :
    wp E (bh_revert_responder_state (chan := chan) s) (fun _ _ => True) h;
  hf_create c s ep info h :
    wp E (bh_create_upgraded_endpoint_channel (chan := chan) c s ep info) (fun _ _ => True) h;
  hf_disconnect c ep h :
    wp E (bh_on_endpoint_disconnect (chan := chan) c ep) (fun _ _ => True) h;
}.

(** The faults that the calls on a medium can end in. *)
Class MediumHandlerFaults (H env chan : Type) `{MediumBwuHandler H env chan} (E : fault -> Prop)
    : Prop := {
  mf_initialize c s ep h :
    wp E (mh_handle_initialize_upgraded_medium_for_endpoint (chan := chan) c s ep)
      (fun _ _ => True) h;
  mf_revert s h :
    wp E (mh_handle_revert_initiator_state_for_service (chan := chan) s) (fun _ _ => True) h;
  mf_create c s ep info h :
    wp E (mh_create_upgraded_endpoint_channel (chan := chan) c s ep info) (fun _ _ => True) h;
  mf_disconnect c ep h :
    wp E (mh_on_endpoint_disconnect (chan := chan) c ep) (fun _ _ => True) h;
}.

(** * The bookkeeping *)

Record BaseBwuHandler (H : Type) : Type := mkBase {
  base_inner : H;
  base_active : gmap string (gset string);
}.
Arguments mkBase {H} _ _.
Arguments base_inner {H} _.
Arguments base_active {H} _.

Definition base_new {H} (inner : H) : BaseBwuHandler H := mkBase inner ∅.

(** [entry(service).or_default().insert(endpoint)]. *)
Definition track (service_id endpoint_id : string) (m : gmap string (gset string))
    : gmap string (gset string) :=
  <[service_id := {[endpoint_id]} ∪ default ∅ (m !! service_id)]> m.

Section base.
Context {H env chan : Type} `{MediumBwuHandler H env chan}.

Abbreviation MB := (M (BaseBwuHandler H * env)).

(** A call on [self.inner]. *)
Definition inner_call {A} (m : M (H * env) A) : MB A := fun s =>
  match m (s.1.(base_inner), s.2) with
  | Ret (a, (h, e)) => Ret (a, (mkBase h s.1.(base_active), e))
  | Fault f => Fault f
  end.

Definition active : MB (gmap string (gset string)) := gets (fun s => s.1.(base_active)).

Definition set_active (m : gmap string (gset string)) : MB unit :=
  modify (fun s => (mkBase s.1.(base_inner) m, s.2)).

Definition base_initialize_upgraded_medium_for_endpoint (client : ClientProxy)
    (service_id endpoint_id : string) : MB bytes :=
  let upgrade_service_id := wrap_initiator_upgrade_service_id service_id in
  frame ← inner_call (mh_handle_initialize_upgraded_medium_for_endpoint (chan := chan)
                        client upgrade_service_id endpoint_id);
  (if is_nil frame then mret tt
   else m ← active; set_active (track upgrade_service_id endpoint_id m));;
  mret frame.

(** The [for] over the collected service ids. *)
Fixpoint revert_services (service_ids : list string) : MB unit :=
  match service_ids with
  | [] => mret tt
  | service_id :: rest =>
      inner_call (mh_handle_revert_initiator_state_for_service (chan := chan) service_id);;
      revert_services rest
  end.

(** The order of [HashMap::keys] is unspecified; [map_to_list] is one order. *)
Definition base_revert_initiator_state : MB unit :=
  m ← active;
  revert_services (map_to_list m).*1;;
  set_active ∅.

Definition base_revert_initiator_state_for_endpoint
    (upgrade_service_id endpoint_id : string) : MB unit :=
  if negb (is_initiator_upgrade_service_id upgrade_service_id) then mret tt
  else
    m ← active;
    match m !! upgrade_service_id with
    | None => mret tt
    | Some eps =>
        if decide (eps = ∅) then mret tt
        else
          let eps' := eps ∖ {[endpoint_id]} in
          set_active (<[upgrade_service_id := eps']> m);;
          (if decide (eps' = ∅) then
             m' ← active;
             set_active (delete upgrade_service_id m');;
             inner_call (mh_handle_revert_initiator_state_for_service (chan := chan)
                           upgrade_service_id)
           else mret tt)
    end.

Definition base_revert_responder_state (service_id : string) : MB unit :=
  inner_call (mh_handle_revert_initiator_state_for_service (chan := chan) service_id).

Definition base_create_upgraded_endpoint_channel (client : ClientProxy)
    (service_id endpoint_id : string) (info : UpgradePathInfo) : MB (option chan) :=
  inner_call (mh_create_upgraded_endpoint_channel client service_id endpoint_id info).

Definition base_get_upgrade_medium (b : BaseBwuHandler H) : Medium :=
  mh_get_upgrade_medium (env := env) (chan := chan) b.(base_inner).

Definition base_on_endpoint_disconnect (client : ClientProxy) (endpoint_id : string)
    : MB unit :=
  inner_call (mh_on_endpoint_disconnect (chan := chan) client endpoint_id).

#[export] Instance BaseBwuHandler_BwuHandler : BwuHandler (BaseBwuHandler H) env chan := {|
  bh_initialize_upgraded_medium_for_endpoint := base_initialize_upgraded_medium_for_endpoint;
  bh_revert_initiator_state := base_revert_initiator_state;
  bh_revert_initiator_state_for_endpoint := base_revert_initiator_state_for_endpoint;
  bh_revert_responder_state := base_revert_responder_state;
  bh_create_upgraded_endpoint_channel := base_create_upgraded_endpoint_channel;
  bh_get_upgrade_medium := base_get_upgrade_medium;
  bh_on_endpoint_disconnect := base_on_endpoint_disconnect;
|}.
End base.

(** * The abstract bookkeeping

    What the bookkeeping promises: a set of sessions, an endpoint of a wrapped
    service each, and the calls that reach the medium below. *)

Inductive inner_event : Type :=
| InnerInitialize (upgrade_service_id endpoint_id : string) (ok : bool)
| InnerRevert (service_id : string).

Inductive base_call : Type :=
| InitializeCall (client : ClientProxy) (service_id endpoint_id : string)
| RevertAllCall
| RevertEndpointCall (upgrade_service_id endpoint_id : string)
| RevertResponderCall (service_id : string)
| CreateCall (client : ClientProxy) (service_id endpoint_id : string) (info : UpgradePathInfo)
| EndpointDisconnectCall (client : ClientProxy) (endpoint_id : string).

Definition book : Type := gset (string * string) * list inner_event.

Inductive book_step : base_call -> book -> book -> Prop :=
| book_initialize c s ep (ok : bool) S t :
    book_step (InitializeCall c s ep) (S, t)
      (if ok then {[(wrap_initiator_upgrade_service_id s, ep)]} ∪ S else S,
       t ++ [InnerInitialize (wrap_initiator_upgrade_service_id s) ep ok])
| book_revert_all S t us :
    NoDup us -> (forall u, u ∈ us <-> exists ep, (u, ep) ∈ S) ->
    book_step RevertAllCall (S, t) (∅, t ++ (InnerRevert <$> us))
| book_revert_unmarked u ep S t :
    is_initiator_upgrade_service_id u = false ->
    book_step (RevertEndpointCall u ep) (S, t) (S, t)
| book_revert_last u ep S t :
    is_initiator_upgrade_service_id u = true ->
    (u, ep) ∈ S -> (forall ep', (u, ep') ∈ S -> ep' = ep) ->
    book_step (RevertEndpointCall u ep) (S, t) (S ∖ {[(u, ep)]}, t ++ [InnerRevert u])
| book_revert_other u ep S t :
    is_initiator_upgrade_service_id u = true ->
    ~ ((u, ep) ∈ S /\ forall ep', (u, ep') ∈ S -> ep' = ep) ->
    book_step (RevertEndpointCall u ep) (S, t) (S ∖ {[(u, ep)]}, t)
| book_responder s S t :
    book_step (RevertResponderCall s) (S, t) (S, t ++ [InnerRevert s])
| book_create c s ep info S t : book_step (CreateCall c s ep info) (S, t) (S, t)
| book_disconnect c ep S t : book_step (EndpointDisconnectCall c ep) (S, t) (S, t).

(** A medium below that keeps what reaches it. *)
Record Traced (H : Type) : Type := mkTraced { tr_inner : H; tr_events : list inner_event }.
Arguments mkTraced {H} _ _.
Arguments tr_inner {H} _.
Arguments tr_events {H} _.

Section traced.
Context {H env chan : Type} `{MediumBwuHandler H env chan}.

Definition traced_call {A} (event : A -> list inner_event) (m : M (H * env) A)
    : M (Traced H * env) A := fun s =>
  match m (s.1.(tr_inner), s.2) with
  | Ret (a, (h, e)) => Ret (a, (mkTraced h (s.1.(tr_events) ++ event a), e))
  | Fault f => Fault f
  end.

#[export] Instance Traced_MediumBwuHandler : MediumBwuHandler (Traced H) env chan := {|
  mh_handle_initialize_upgraded_medium_for_endpoint c u ep :=
    traced_call (fun frame => [InnerInitialize u ep (negb (is_nil frame))])
      (mh_handle_initialize_upgraded_medium_for_endpoint (chan := chan) c u ep);
  mh_handle_revert_initiator_state_for_service u :=
    traced_call (fun _ => [InnerRevert u])
      (mh_handle_revert_initiator_state_for_service (chan := chan) u);
  mh_create_upgraded_endpoint_channel c s ep info :=
    traced_call (fun _ => []) (mh_create_upgraded_endpoint_channel c s ep info);
  mh_get_upgrade_medium h := mh_get_upgrade_medium (env := env) (chan := chan) h.(tr_inner);
  mh_on_endpoint_disconnect c ep :=
    traced_call (fun _ => []) (mh_on_endpoint_disconnect (chan := chan) c ep);
|}.

(** One call on the wrapped handler, and a sequence of them. *)
Definition base_do (k : base_call) : M (BaseBwuHandler (Traced H) * env) unit :=
  match k with
  | InitializeCall c s ep =>
      _ ← bh_initialize_upgraded_medium_for_endpoint (chan := chan) c s ep; mret tt
  | RevertAllCall => bh_revert_initiator_state (chan := chan)
  | RevertEndpointCall u ep => bh_revert_initiator_state_for_endpoint (chan := chan) u ep
  | RevertResponderCall s => bh_revert_responder_state (chan := chan) s
  | CreateCall c s ep info =>
      _ ← bh_create_upgraded_endpoint_channel (chan := chan) c s ep info; mret tt
  | EndpointDisconnectCall c ep => bh_on_endpoint_disconnect (chan := chan) c ep
  end.

Fixpoint base_run (ks : list base_call) : M (BaseBwuHandler (Traced H) * env) unit :=
  match ks with
  | [] => mret tt
  | k :: ks => base_do k;; base_run ks
  end.
End traced.

(** The record of a handler as an abstract book. *)
Definition book_rel {H} (b : BaseBwuHandler (Traced H)) (k : book) : Prop :=
  (forall u ep, (u, ep) ∈ k.1 <-> ep ∈ default ∅ (b.(base_active) !! u)) /\
  (forall u eps, b.(base_active) !! u = Some eps -> eps <> ∅) /\
  k.2 = b.(base_inner).(tr_events).

(** Whether a service is up after the events: initialised by a success that no
    revert of it follows; [None] when it was reverted while down. *)
Fixpoint service_up (u : string) (up : bool) (t : list inner_event) : option bool :=
  match t with
  | [] => Some up
  | InnerInitialize u' _ ok :: t => service_up u (up || (bool_decide (u' = u) && ok)) t
  | InnerRevert u' :: t =>
      if decide (u' = u) then (if up then service_up u false t else None)
      else service_up u up t
  end.

(** The calls the state machine makes: a responder's service id is not marked. *)
Definition base_call_ok (k : base_call) : bool :=
  match k with
  | RevertResponderCall s => negb (is_initiator_upgrade_service_id s)
  | _ => true
  end.

(** * Lemmas *)

Lemma endpoint_call_handler {H env chan} `{BwuHandler H env chan} multiple ep h h' :
  endpoint_call H env chan multiple ep h h' -> handler_call H env chan h h'.
Proof.
  destruct 1; [by eapply hcall_initialize|by eapply hcall_revert|by eapply hcall_revert_endpoint
    |by eapply hcall_revert_responder|by eapply hcall_create|by eapply hcall_disconnect].
Qed.

Section base_lemmas.
Context {H env chan : Type} `{MediumBwuHandler H env chan}.

Abbreviation MT := (M (BaseBwuHandler (Traced H) * env)).

(** A call on the inner medium leaves the record and adds its events. *)
Lemma wp_inner_traced {A} (ev : A -> list inner_event) (m : M (H * env) A) (E : fault -> Prop)
    (Q : A -> BaseBwuHandler (Traced H) * env -> Prop) b e :
  (forall f, E f) ->
  (forall a h' e',
     Q a (mkBase (mkTraced h' (b.(base_inner).(tr_events) ++ ev a)) b.(base_active), e')) ->
  wp E (inner_call (traced_call ev m)) Q (b, e).
Proof.
  intros HE HQ. unfold wp, inner_call, traced_call. simpl.
  destruct (m _) as [[a [h' e']]|f]; simpl; [apply HQ|apply HE].
Qed.

Lemma wp_revert_services us b e (E : fault -> Prop) (Q : unit -> _ -> Prop) :
  (forall f, E f) ->
  (forall h' e', Q tt (mkBase (mkTraced h' (b.(base_inner).(tr_events) ++ (InnerRevert <$> us)))
                          b.(base_active), e')) ->
  wp E (revert_services (H := Traced H) (env := env) (chan := chan) us) Q (b, e).
Proof.
  intros HE. revert b e. induction us as [|u us IH]; intros b e HQ; simpl.
  - apply wp_ret. specialize (HQ (b.(base_inner).(tr_inner)) e).
    rewrite app_nil_r in HQ. by destruct b as [[? ?] ?].
  - apply wp_bind. apply wp_inner_traced; [done|]. intros a h' e'.
    apply IH. intros h2 e2. simpl. specialize (HQ h2 e2).
    by rewrite <-app_assoc.
Qed.

Lemma track_member u ep (m : gmap string (gset string)) v ep' :
  ep' ∈ default ∅ (track u ep m !! v) <->
  (v, ep') = (u, ep) \/ ep' ∈ default ∅ (m !! v).
Proof.
  unfold track. destruct (decide (u = v)) as [->|Hne].
  - rewrite lookup_insert_eq. simpl. set_solver.
  - rewrite lookup_insert_ne by done. split; [by right|intros [?|?]; [congruence|done]].
Qed.

Abbreviation step_ok k b e t :=
  (wp (fun _ => True) (base_do k)
    (fun _ s => exists k2, book_step k t k2 /\ book_rel s.1 k2) (b, e)).

Lemma initialize_refines c s ep b e t :
  book_rel b t -> step_ok (InitializeCall c s ep) b e t.
Proof.
  destruct t as [S t]. intros (Hm & Hne & Ht). simpl in *. cbn. apply wp_bind.
  unfold base_initialize_upgraded_medium_for_endpoint, active, set_active. apply wp_bind. cbn.
  apply wp_inner_traced; [done|]. intros frame h' e'. apply wp_bind.
  destruct (is_nil frame) eqn:Ef; repeat wp_step; simpl.
  - eexists. split; [apply (book_initialize c s ep false)|]. by rewrite Ht.
  - eexists. split; [apply (book_initialize c s ep true)|].
    split_and!; simpl; [| |by rewrite Ht].
    + intros v ep'. rewrite track_member, <-Hm. set_solver.
    + intros v eps. unfold track. rewrite lookup_insert_Some.
      intros [[_ <-]|[_ Hv]]; [set_solver|by eapply Hne].
Qed.

Lemma revert_all_refines b e t : book_rel b t -> step_ok RevertAllCall b e t.
Proof.
  destruct t as [S t]. intros (Hm & Hne & Ht). simpl in *. cbn.
  unfold base_revert_initiator_state, active, set_active. repeat wp_step.
  apply wp_revert_services; [done|]. intros h' e'. repeat wp_step.
  exists (∅, t ++ (InnerRevert <$> (map_to_list (base_active b)).*1)).
  split; [|split_and!; simpl; [| |by rewrite Ht]].
  - apply book_revert_all; [apply NoDup_fst_map_to_list|].
    intros u. rewrite list_elem_of_fmap. split.
    + intros ([u' eps] & -> & Hin%elem_of_map_to_list). simpl.
      destruct (set_choose_L eps) as [ep Hep]; [by eapply Hne|].
      exists ep. apply Hm. by rewrite Hin.
    + intros [ep Hep%Hm]. destruct (base_active b !! u) as [eps|] eqn:Hu; [|set_solver].
      exists (u, eps). split; [done|]. by apply elem_of_map_to_list.
  - intros u ep. rewrite lookup_empty. set_solver.
  - intros u eps. by rewrite lookup_empty.
Qed.

(** The last session of a service, in terms of the record. *)
Lemma last_session (b : BaseBwuHandler (Traced H)) t u ep eps :
  book_rel b t -> base_active b !! u = Some eps ->
  eps ∖ {[ep]} = ∅ <-> (u, ep) ∈ t.1 /\ forall ep', (u, ep') ∈ t.1 -> ep' = ep.
Proof.
  intros (Hm & Hne & _) Hu. assert (Hu' : forall ep', (u, ep') ∈ t.1 <-> ep' ∈ eps).
  { intros ep'. by rewrite Hm, Hu. }
  split.
  - intros Hd. destruct (set_choose_L eps) as [x Hx]; [by eapply Hne|].
    assert (Hall : forall y, y ∈ eps -> y = ep).
    { intros y Hy. destruct (decide (y = ep)) as [|Hn]; [done|]. exfalso.
      apply (not_elem_of_empty (C := gset string) y). rewrite <-Hd.
      apply elem_of_difference. by rewrite elem_of_singleton. }
    rewrite Hu'. split; [by rewrite <-(Hall x Hx)|]. intros y Hy%Hu'. by apply Hall.
  - intros [Hin Hall]. apply leibniz_equiv. intros y. split; [|by intros ?%not_elem_of_empty].
    rewrite elem_of_difference, elem_of_singleton. intros [Hy%Hu' Hn]. by specialize (Hall _ Hy).
Qed.

Lemma revert_endpoint_refines u ep b e t :
  book_rel b t -> step_ok (RevertEndpointCall u ep) b e t.
Proof.
  destruct t as [S t]. intros Hrel. pose proof Hrel as (Hm & Hne & Ht). simpl in Hm, Ht. cbn.
  unfold base_revert_initiator_state_for_endpoint, active, set_active.
  destruct (is_initiator_upgrade_service_id u) eqn:Hu; simpl.
  2: { apply wp_ret. eexists. split; [by apply book_revert_unmarked|done]. }
  repeat wp_step. simpl. destruct (base_active b !! u) as [eps|] eqn:Hl.
  2: { apply wp_ret. exists (S, t).
    assert (Hnone : forall ep', (u, ep') ∉ S) by (intros ep'; rewrite Hm, Hl; set_solver).
    split; [|done]. rewrite <-(difference_disjoint_L S {[(u, ep)]}) at 2 by set_solver.
    apply book_revert_other; [done|]. intros [Hin _]. by apply (Hnone ep). }
  rewrite decide_False by (by eapply Hne). repeat wp_step.
  pose proof (last_session b (S, t) u ep eps Hrel Hl) as Hlast. simpl in Hlast.
  assert (Hm' : forall v ep', (v, ep') ∈ S ∖ {[(u, ep)]} <->
    ep' ∈ default ∅ (<[u := eps ∖ {[ep]}]> (base_active b) !! v)).
  { intros v ep'. rewrite elem_of_difference, elem_of_singleton, Hm.
    destruct (decide (u = v)) as [->|Hne'].
    - rewrite lookup_insert_eq, Hl. set_solver.
    - rewrite lookup_insert_ne by done. split; [by intros [? _]|].
      intros ?; split; [done|congruence]. }
  case_decide as Hd.
  - repeat wp_step. cbn. apply wp_inner_traced; [done|]. intros a h' e'. simpl.
    eexists. split; [apply book_revert_last; [done| |]; by apply Hlast|].
    split_and!; simpl; [| |by rewrite Ht].
    + intros v ep'. rewrite Hm'. destruct (decide (u = v)) as [->|Hne'].
      * rewrite lookup_insert_eq, lookup_delete_eq, Hd. done.
      * by rewrite lookup_insert_ne, lookup_delete_ne, lookup_insert_ne by done.
    + intros v eps'. rewrite lookup_delete_Some, lookup_insert_Some. intros [? [[? ?]|[? ?]]]; [done|by eapply Hne].
  - apply wp_ret. eexists. split; [apply book_revert_other; [done|]; by rewrite <-Hlast|].
    split_and!; simpl; [done| |by rewrite Ht].
    intros v eps'. rewrite lookup_insert_Some. intros [[_ <-]|[_ Hv]]; [done|by eapply Hne].
Qed.

(** Every call that returns is a step of the abstract book. *)
Lemma base_do_refines k b e t : book_rel b t -> step_ok k b e t.
Proof.
  intros Hrel. destruct k.
  - by apply initialize_refines.
  - by apply revert_all_refines.
  - by apply revert_endpoint_refines.
  - destruct t as [S t], Hrel as (Hm & Hne & Ht). apply wp_inner_traced; [done|].
    intros a h' e'. eexists. split; [apply book_responder|]. by rewrite <-Ht.
  - destruct t as [S t], Hrel as (Hm & Hne & Ht). cbn. apply wp_bind, wp_inner_traced; [done|].
    intros a h' e'. apply wp_ret. eexists. split; [apply book_create|]. simpl.
    by rewrite app_nil_r.
  - destruct t as [S t], Hrel as (Hm & Hne & Ht). apply wp_inner_traced; [done|].
    intros a h' e'. eexists. split; [apply book_disconnect|]. simpl. by rewrite app_nil_r.
Qed.
End base_lemmas.

(** ** Faults *)

Section base_faults.
Context {H env chan : Type} `{MediumBwuHandler H env chan} (E : fault -> Prop).
Context `{HM : !MediumHandlerFaults H env chan E}.

Lemma wp_inner {A} (m : M (H * env) A) (Q : A -> BaseBwuHandler H * env -> Prop) s :
  (forall h, wp E m (fun _ _ => True) h) -> (forall a s', Q a s') -> wp E (inner_call m) Q s.
Proof.
  intros Hm HQ. specialize (Hm (s.1.(base_inner), s.2)). unfold wp, inner_call in *.
  destruct (m _) as [[a [h' e']]|f]; [apply HQ|done].
Qed.

Lemma wp_services us (Q : unit -> BaseBwuHandler H * env -> Prop) s :
  (forall s', Q tt s') -> wp E (revert_services (chan := chan) us) Q s.
Proof.
  intros HQ. revert s. induction us as [|u us IH]; intros s; cbn [revert_services].
  - by apply wp_ret.
  - apply wp_bind, wp_inner; [apply mf_revert|]. intros [] s'. apply IH.
Qed.

(** The bookkeeping adds no fault of its own. *)
#[export] Instance BaseBwuHandler_faults : HandlerFaults (BaseBwuHandler H) env chan E.
Proof.
  split.
  - intros c s ep h. apply wp_bind, wp_inner; [apply mf_initialize|]. intros frame s'.
    apply wp_bind. unfold active, set_active. by destruct (is_nil frame); repeat wp_step.
  - intros s. cbn. unfold base_revert_initiator_state, active, set_active. repeat wp_step.
    apply wp_services. by intros s'.
  - intros s ep h. cbn. unfold base_revert_initiator_state_for_endpoint, active, set_active.
    destruct (negb _); [done|]. do 2 wp_step. destruct (_ !! s) as [eps|]; [|done].
    case_decide; [done|]. repeat wp_step. case_decide; [|done]. repeat wp_step.
    apply wp_inner; [apply mf_revert|done].
  - intros s h. apply wp_inner; [apply mf_revert|done].
  - intros c s ep info h. apply wp_inner; [apply mf_create|done].
  - intros c ep h. apply wp_inner; [apply mf_disconnect|done].
Qed.
End base_faults.

(** ** Sessions *)

(** The services with a session of the endpoint. *)
Definition base_sessions {H} (b : BaseBwuHandler H) (ep : string) : gset string :=
  dom (filter (fun p => ep ∈ p.2) b.(base_active)).

Section base_isolation.
Context {H env chan : Type} `{MediumBwuHandler H env chan}.

Lemma elem_base_sessions (b : BaseBwuHandler H) ep u :
  u ∈ base_sessions b ep <-> ep ∈ default ∅ (b.(base_active) !! u).
Proof.
  unfold base_sessions. rewrite elem_of_dom. unfold is_Some.
  setoid_rewrite map_lookup_filter_Some. simpl. destruct (base_active b !! u) as [eps|]; simpl.
  - split; [by intros (? & [= <-] & ?)|by eauto].
  - split; [by intros (? & [=] & _)|by intros ?%not_elem_of_empty].
Qed.

(** Calls of the medium leave the bookkeeping. *)
Lemma wp_inner_active {A} (m : M (H * env) A) (Q : A -> BaseBwuHandler H * env -> Prop) b e :
  (forall a h' e', Q a (mkBase h' b.(base_active), e')) ->
  wp (fun _ => True) (inner_call m) Q (b, e).
Proof. intros HQ. unfold wp, inner_call. simpl. by destruct (m _) as [[a [h' e']]|f]. Qed.

Lemma tracked_sessions u ep ep' m :
  ep <> ep' -> forall v, ep' ∈ default ∅ (track u ep m !! v) <-> ep' ∈ default ∅ (m !! v).
Proof.
  intros Hne v. unfold track. destruct (decide (u = v)) as [->|Hv].
  - rewrite lookup_insert_eq. simpl. set_solver.
  - by rewrite lookup_insert_ne.
Qed.

Definition sessions_kept ep' (b : BaseBwuHandler H) (s : BaseBwuHandler H * env) : Prop :=
  forall v, ep' ∈ default ∅ (s.1.(base_active) !! v) <-> ep' ∈ default ∅ (b.(base_active) !! v).

Lemma initialize_isolated c u ep ep' b e :
  ep <> ep' ->
  wp (fun _ => True) (base_initialize_upgraded_medium_for_endpoint (chan := chan) c u ep)
    (fun _ => sessions_kept ep' b) (b, e).
Proof.
  intros Hne. apply wp_bind, wp_inner_active. intros frame h' e'. apply wp_bind.
  unfold active, set_active. destruct (is_nil frame); repeat wp_step; [by intros v|].
  intros v. by apply tracked_sessions.
Qed.

Lemma revert_endpoint_isolated u ep ep' b e :
  ep <> ep' ->
  wp (fun _ => True) (base_revert_initiator_state_for_endpoint (chan := chan) u ep)
    (fun _ => sessions_kept ep' b) (b, e).
Proof.
  intros Hne. unfold base_revert_initiator_state_for_endpoint, active, set_active.
  destruct (negb _); [by apply wp_ret; intros v|]. do 2 wp_step. simpl.
  destruct (base_active b !! u) as [eps|] eqn:Hl; [|by apply wp_ret; intros v].
  case_decide; [by apply wp_ret; intros v|]. repeat wp_step. simpl.
  assert (Hkeep : forall v, ep' ∈ default ∅ (<[u := eps ∖ {[ep]}]> (base_active b) !! v) <->
    ep' ∈ default ∅ (base_active b !! v)).
  { intros v. destruct (decide (u = v)) as [<-|Hv]; [|by rewrite lookup_insert_ne].
    rewrite lookup_insert_eq, Hl. simpl. set_solver. }
  case_decide as Hd; [|done]. repeat wp_step. simpl. apply wp_inner_active. intros [] h' e' v.
  rewrite <-Hkeep. simpl. destruct (decide (u = v)) as [<-|Hv].
  - by rewrite lookup_delete_eq, lookup_insert_eq, Hd.
  - by rewrite lookup_delete_ne by done.
Qed.

#[export] Instance BaseBwuHandler_sessions : EndpointSessions (BaseBwuHandler H) env chan.
Proof.
  refine {| sessions_of := base_sessions |}. intros ep ep' b e b' e' Hcall Hne.
  assert (Hkept : sessions_kept ep' b (b', e')).
  2: { apply set_eq. intros u. by rewrite !elem_base_sessions. }
  remember (b, e) as s eqn:Hs. remember (b', e') as s' eqn:Hs'.
  assert (Hrun : forall A (m : M (BaseBwuHandler H * env) A) a,
    runs_to m (b, e) a s' -> wp (fun _ => True) m (fun _ => sessions_kept ep' b) (b, e) ->
    sessions_kept ep' b s').
  { intros A m a Hr Hw. unfold wp in Hw. by rewrite Hr in Hw. }
  destruct Hcall as [c u s1 r s1' Hr|s1 r s1' ? Hr|u s1 r s1' Hr|u s1 r s1' Hr|c u info s1 r s1' Hr|c s1 r s1' Hr];
    subst s1; (eapply Hrun; [exact Hr|]).
  - by apply initialize_isolated.
  - done.
  - by apply revert_endpoint_isolated.
  - apply wp_inner_active. by intros [] h' e1 v.
  - apply wp_inner_active. by intros r' h' e1 v.
  - apply wp_inner_active. by intros [] h' e1 v.
Defined.
End base_isolation.

(** A sequence of steps of the book. *)
Inductive book_steps : list base_call -> book -> book -> Prop :=
| book_nil k : book_steps [] k k
| book_cons c cs k1 k2 k3 : book_step c k1 k2 -> book_steps cs k2 k3 -> book_steps (c :: cs) k1 k3.

Lemma service_up_app u up t t' :
  service_up u up (t ++ t') =
  match service_up u up t with Some up' => service_up u up' t' | None => None end.
Proof.
  revert up. induction t as [|[u' ep ok|u'] t IH]; intros up; simpl; [done|apply IH|].
  case_decide; [destruct up; [apply IH|done]|apply IH].
Qed.

Lemma service_up_reverts u up us :
  NoDup us -> (u ∈ us <-> up = true) ->
  service_up u up (InnerRevert <$> us) = Some false.
Proof.
  intros Hnd. revert up. induction Hnd as [|u' us Hu Hnd IH]; intros up Hup; simpl.
  - destruct up; [|done]. exfalso. by apply (not_elem_of_nil u), Hup.
  - case_decide as E; subst.
    + assert (up = true) as -> by (apply Hup; left). apply IH. by split; [|].
    + apply IH. rewrite <-Hup, elem_of_cons. split; [by right|intros [->|?]; done].
Qed.

(** A service with a session other than the removed one keeps being up. *)
Lemma sessions_remove_other (S : gset (string * string)) u ep v :
  ~ ((u, ep) ∈ S /\ forall ep', (u, ep') ∈ S -> ep' = ep) ->
  (exists x, (v, x) ∈ S) <-> (exists x, (v, x) ∈ S ∖ {[(u, ep)]}).
Proof.
  intros Hno. split; [|intros [x Hx]; exists x; set_solver].
  intros [x Hx]. destruct (decide ((v, x) = (u, ep))) as [Heq|Hne]; [|exists x; set_solver].
  injection Heq as -> ->.
  destruct (decide (set_Exists (fun p : string * string => p.1 = u /\ p.2 <> ep) S))
    as [[[u' y] (Hin & Hu & Hy)]|Hnone].
  - simpl in *. subst. exists y. rewrite elem_of_difference, elem_of_singleton.
    split; [done|congruence].
  - exfalso. apply Hno. split; [done|]. intros y Hy. destruct (decide (y = ep)); [done|].
    exfalso. apply Hnone. by exists (u, y).
Qed.

(** The state of every marked service agrees with the sessions. *)
Definition book_agrees (k : book) : Prop :=
  forall u, is_initiator_upgrade_service_id u = true ->
    exists up, service_up u false k.2 = Some up /\ (up = true <-> exists ep, (u, ep) ∈ k.1).

Lemma book_step_agrees c k k' :
  base_call_ok c = true -> book_step c k k' -> book_agrees k -> book_agrees k'.
Proof.
  intros Hok Hstep Hag u Hu. destruct (Hag u Hu) as (up & Hup & Hiff).
  destruct Hstep as [? s ep ok S t|S t us Hnd Hus|v ep S t Hv|v ep S t Hv Hin Hlast
    |v ep S t Hv Hno|s S t|? ? ? ? S t|? ? S t]; simpl in *;
    rewrite ?service_up_app, ?Hup; simpl; [| |by eauto| | | |by eauto|by eauto].
  - eexists. split; [done|]. rewrite orb_true_iff, andb_true_iff, bool_decide_eq_true, Hiff.
    destruct ok; [|set_solver]. split.
    + intros [[x Hx]|[<- _]]; [exists x|exists ep]; set_solver.
    + intros [x Hx]. destruct (decide (wrap_initiator_upgrade_service_id s = u)); [by right|left].
      exists x. set_solver.
  - exists false. split; [apply service_up_reverts; [done|by rewrite Hus]|].
    split; [done|intros [? ?]; set_solver].
  - case_decide as Heq; subst.
    + assert (up = true) as -> by (apply Hiff; by exists ep). exists false.
      split; [done|]. split; [done|]. intros [x Hx]. apply elem_of_difference in Hx as [Hx Hn].
      apply Hlast in Hx as ->. set_solver.
    + exists up. split; [done|]. rewrite Hiff. split; intros [x Hx]; exists x; set_solver.
  - exists up. split; [done|]. rewrite Hiff. by apply sessions_remove_other.
  - rewrite decide_False; [by eauto|]. intros ->. by rewrite Hu in Hok.
Qed.

Section base_run_lemmas.
Context {H env chan : Type} `{MediumBwuHandler H env chan}.

Lemma base_run_refines ks b e k b' e' :
  book_rel b k -> runs_to (base_run (H := H) (chan := chan) ks) (b, e) tt (b', e') ->
  exists k', book_steps ks k k' /\ book_rel b' k'.
Proof.
  revert b e k. induction ks as [|c ks IH]; intros b e k Hrel Hrun.
  - injection Hrun as <- <-. exists k. split; [constructor|done].
  - pose proof (base_do_refines c b e k Hrel) as Hdo. unfold runs_to in Hrun. simpl in Hrun.
    unfold mbind, M_bind in Hrun. unfold wp in Hdo.
    destruct (base_do c (b, e)) as [[[] [b1 e1]]|f]; [|done].
    destruct Hdo as (k1 & Hstep & Hrel1). simpl in Hrel1.
    destruct (IH b1 e1 k1 Hrel1 Hrun) as (k' & Hsteps & Hrel').
    exists k'. split; [by econstructor|done].
Qed.
End base_run_lemmas.

Lemma book_steps_agree ks k k' :
  forallb base_call_ok ks = true -> book_steps ks k k' -> book_agrees k -> book_agrees k'.
Proof.
  intros Hok Hsteps. induction Hsteps as [k|c cs k1 k2 k3 Hstep Hsteps IH]; [done|].
  simpl in Hok. apply andb_true_iff in Hok as [Hc Hcs]. intros Hag.
  apply IH; [done|]. by eapply book_step_agrees.
Qed.

Lemma base_new_rel {H} (h : H) : book_rel (base_new (mkTraced h [])) (∅, []).
Proof. split_and!; simpl; [intros u ep; rewrite lookup_empty; set_solver|by intros|done]. Qed.

(** * Properties *)

Section properties.
Context {H env chan : Type} `{MediumBwuHandler H env chan}.

Abbreviation run := (base_run (H := H) (env := env) (chan := chan)).

(** C13. The bookkeeping of [BaseBwuHandler] implements the abstract book of
    sessions over any medium: a successful initialise opens the session of
    the endpoint under the wrapped service, reverting an endpoint closes its
    session and reaches the medium exactly when that was the service's last
    session, an unmarked service id is ignored, and reverting everything
    reaches the medium once per service with sessions. *)
Theorem bookkeeping_refines_book (ks : list base_call) (h : H) (e e' : env) b' :
  runs_to (run ks) (base_new (mkTraced h []), e) tt (b', e') ->
  exists k, book_steps ks (∅, []) k /\ book_rel b' k.
Proof. apply base_run_refines, base_new_rel. Qed.

(** C14. Over any calls the state machine makes, what reaches the medium is
    well bracketed: no marked service is reverted while it is down (it is
    never torn down twice), and at every moment the services that are up,
    initialised and not reverted since, are exactly those that the record
    holds, so no listener outlives its last endpoint. *)
Theorem medium_lifecycle (ks : list base_call) (h : H) (e e' : env) b' (u : string) :
  forallb base_call_ok ks = true ->
  runs_to (run ks) (base_new (mkTraced h []), e) tt (b', e') ->
  is_initiator_upgrade_service_id u = true ->
  service_up u false (b'.(base_inner).(tr_events)) = Some (is_some (b'.(base_active) !! u)).
Proof.
  intros Hok Hrun Hu.
  destruct (base_run_refines ks _ _ _ _ _ (base_new_rel h) Hrun) as (k & Hsteps & Hrel).
  assert (Hag : book_agrees (∅, [])).
  { intros v _. exists false. split; [done|]. split; [done|intros [? ?]; set_solver]. }
  destruct (book_steps_agree _ _ _ Hok Hsteps Hag u Hu) as (up & Hup & Hiff).
  destruct Hrel as (Hm & Hne & <-). rewrite Hup. f_equal. apply eq_true_iff_eq.
  rewrite Hiff, is_some_true. split.
  - intros [ep Hep%Hm]. destruct (base_active b' !! u) as [eps|]; [by eauto|].
    by apply not_elem_of_empty in Hep.
  - intros [eps Hl]. destruct (set_choose_L eps) as [ep Hep]; [by eapply Hne|].
    exists ep. apply Hm. by rewrite Hl.
Qed.
End properties.
