(* ===== verification/Testing.v ===== *)
(** [src/bwu/testing.rs]: the fake channel and the fake medium handler, as
    instances of the interfaces.  Channels and the records of the handlers are
    shared objects: the environment stores them under the number their [Arc]
    stands for. *)

From Stdlib Require Import ZArith.
From Stdlib Require Import Strings.Byte.
From S2P Require Import Prelude.
From S2P Require Import Mediums.
From S2P Require Import Proto.
From S2P Require Import Codec.
From S2P Require Import Frames.
From S2P Require Import Client.
From S2P Require Import Channel.
From S2P Require Import Handler.

(** * State *)

Record FakeEndpointChannel : Type := mkFakeEndpointChannel {
  fc_medium : Medium;
  fc_service_id : string;
  fc_read_output : Result bytes;
  fc_write_output : Exception;
  fc_is_closed : bool;
  fc_disconnection_reason : DisconnectionReason;
  fc_is_paused : bool;
  fc_local_endpoint_id : string;
  fc_wrote_anything : bool;
}.

Record InputData : Type := mkInputData {
  in_client_id : Z;
  in_service_id : option string;
  in_endpoint_id : option string;
}.

Record FakeBwuHandlerRecords : Type := mkRecords {
  rec_create_calls : list InputData;
  rec_disconnect_calls : list InputData;
  rec_handle_initialize_calls : list InputData;
  rec_handle_revert_calls : list InputData;
}.

Definition FakeBwuHandlerRecords_default : FakeBwuHandlerRecords := mkRecords [] [] [] [].

Record FakeBwuHandler : Type := mkFakeBwuHandler {
  fh_medium : Medium;
  fh_records : N;
}.

(** Every shared object of a test. *)
Record FakeEnv : Type := mkFakeEnv {
  fe_next : N;
  fe_channels : gmap N FakeEndpointChannel;
  fe_records : gmap N FakeBwuHandlerRecords;
}.

Definition FakeEnv_empty : FakeEnv := mkFakeEnv 0 ∅ ∅.

(** [Arc<FakeEndpointChannel>]. *)
Record FakeChan : Type := mkFakeChan { fake_id : N }.

#[export] Instance FakeChan_eq_dec : EqDecision FakeChan.
Proof. solve_decision. Defined.

(** * The channel *)

(** [FakeEndpointChannel::new]. *)
Definition FakeEndpointChannel_new (medium : Medium) (service_id : string)
    : FakeEndpointChannel :=
  {| fc_medium := medium;
     fc_service_id := service_id;
     fc_read_output := Err Failed;
     fc_write_output := Success;
     fc_is_closed := false;
     fc_disconnection_reason := UnknownDisconnectionReason;
     fc_is_paused := false;
     fc_local_endpoint_id := "";
     fc_wrote_anything := false |}.

Definition set_read_output (output : Result bytes) (s : FakeEndpointChannel)
    : FakeEndpointChannel :=
  {| fc_medium := s.(fc_medium); fc_service_id := s.(fc_service_id);
     fc_read_output := output; fc_write_output := s.(fc_write_output);
     fc_is_closed := s.(fc_is_closed);
     fc_disconnection_reason := s.(fc_disconnection_reason);
     fc_is_paused := s.(fc_is_paused); fc_local_endpoint_id := s.(fc_local_endpoint_id);
     fc_wrote_anything := s.(fc_wrote_anything) |}.

Definition set_write_output (output : Exception) (s : FakeEndpointChannel)
    : FakeEndpointChannel :=
  {| fc_medium := s.(fc_medium); fc_service_id := s.(fc_service_id);
     fc_read_output := s.(fc_read_output); fc_write_output := output;
     fc_is_closed := s.(fc_is_closed);
     fc_disconnection_reason := s.(fc_disconnection_reason);
     fc_is_paused := s.(fc_is_paused); fc_local_endpoint_id := s.(fc_local_endpoint_id);
     fc_wrote_anything := s.(fc_wrote_anything) |}.

Definition fake_wrote (s : FakeEndpointChannel) : FakeEndpointChannel :=
  {| fc_medium := s.(fc_medium); fc_service_id := s.(fc_service_id);
     fc_read_output := s.(fc_read_output); fc_write_output := s.(fc_write_output);
     fc_is_closed := s.(fc_is_closed);
     fc_disconnection_reason := s.(fc_disconnection_reason);
     fc_is_paused := s.(fc_is_paused); fc_local_endpoint_id := s.(fc_local_endpoint_id);
     fc_wrote_anything := true |}.

Definition fake_closed (s : FakeEndpointChannel) : FakeEndpointChannel :=
  {| fc_medium := s.(fc_medium); fc_service_id := s.(fc_service_id);
     fc_read_output := s.(fc_read_output); fc_write_output := s.(fc_write_output);
     fc_is_closed := true;
     fc_disconnection_reason := s.(fc_disconnection_reason);
     fc_is_paused := s.(fc_is_paused); fc_local_endpoint_id := s.(fc_local_endpoint_id);
     fc_wrote_anything := s.(fc_wrote_anything) |}.

Definition fake_closed_with_reason (reason : DisconnectionReason) (s : FakeEndpointChannel)
    : FakeEndpointChannel :=
  {| fc_medium := s.(fc_medium); fc_service_id := s.(fc_service_id);
     fc_read_output := s.(fc_read_output); fc_write_output := s.(fc_write_output);
     fc_is_closed := true;
     fc_disconnection_reason := reason;
     fc_is_paused := s.(fc_is_paused); fc_local_endpoint_id := s.(fc_local_endpoint_id);
     fc_wrote_anything := s.(fc_wrote_anything) |}.

Definition fake_set_local_endpoint_id (id : string) (s : FakeEndpointChannel)
    : FakeEndpointChannel :=
  {| fc_medium := s.(fc_medium); fc_service_id := s.(fc_service_id);
     fc_read_output := s.(fc_read_output); fc_write_output := s.(fc_write_output);
     fc_is_closed := s.(fc_is_closed);
     fc_disconnection_reason := s.(fc_disconnection_reason);
     fc_is_paused := s.(fc_is_paused); fc_local_endpoint_id := id;
     fc_wrote_anything := s.(fc_wrote_anything) |}.

Definition fake_set_paused (paused : bool) (s : FakeEndpointChannel) : FakeEndpointChannel :=
  {| fc_medium := s.(fc_medium); fc_service_id := s.(fc_service_id);
     fc_read_output := s.(fc_read_output); fc_write_output := s.(fc_write_output);
     fc_is_closed := s.(fc_is_closed);
     fc_disconnection_reason := s.(fc_disconnection_reason);
     fc_is_paused := paused; fc_local_endpoint_id := s.(fc_local_endpoint_id);
     fc_wrote_anything := s.(fc_wrote_anything) |}.

(** The state behind an [Arc].  Every [Arc] has one: a number that was never
    given out does not occur in the code, and stands for a fresh channel here. *)
Definition fake_state (c : FakeChan) (e : FakeEnv) : FakeEndpointChannel :=
  default (FakeEndpointChannel_new UnknownMedium "") (e.(fe_channels) !! c.(fake_id)).

(** A call under the lock of the state. *)
Definition fake_op {A} (f : FakeEndpointChannel -> A * FakeEndpointChannel) (c : FakeChan)
    : M FakeEnv A :=
  s ← gets (fake_state c);
  modify (fun e => mkFakeEnv e.(fe_next) (<[c.(fake_id) := (f s).2]> e.(fe_channels))
                     e.(fe_records));;
  mret (f s).1.

Definition fake_get {A} (f : FakeEndpointChannel -> A) (c : FakeChan) (e : FakeEnv) : A :=
  f (fake_state c e).

(** The accessors of a test. *)
Definition fake_is_closed : FakeChan -> FakeEnv -> bool := fake_get fc_is_closed.
Definition fake_disconnection_reason : FakeChan -> FakeEnv -> DisconnectionReason :=
  fake_get fc_disconnection_reason.
Definition fake_wrote_anything : FakeChan -> FakeEnv -> bool := fake_get fc_wrote_anything.

(** The methods of the trait. *)
Definition fake_read : FakeChan -> M FakeEnv (Result bytes) :=
  fake_op (fun s => (s.(fc_read_output), s)).
Definition fake_write (c : FakeChan) (_data : bytes) : M FakeEnv Exception :=
  fake_op (fun s => (s.(fc_write_output), fake_wrote s)) c.
Definition fake_medium : FakeChan -> FakeEnv -> Medium := fake_get fc_medium.
Definition fake_service_id : FakeChan -> FakeEnv -> string := fake_get fc_service_id.
Definition fake_name : FakeChan -> FakeEnv -> string :=
  fake_get (fun s => ("fake-channel-" +:+ s.(fc_service_id))%string).
Definition fake_channel_type : FakeChan -> FakeEnv -> string :=
  fake_get (fun _ => "fake-channel-type"%string).
Definition fake_local_endpoint_id : FakeChan -> FakeEnv -> string := fake_get fc_local_endpoint_id.
Definition fake_pause : FakeChan -> M FakeEnv unit := fake_op (fun s => (tt, fake_set_paused true s)).
Definition fake_resume : FakeChan -> M FakeEnv unit :=
  fake_op (fun s => (tt, fake_set_paused false s)).
Definition fake_is_paused : FakeChan -> FakeEnv -> bool := fake_get fc_is_paused.

#[export] Instance FakeEndpointChannel_EndpointChannel : EndpointChannel FakeEnv FakeChan := {|
  ch_read := fake_read;
  ch_write := fake_write;
  ch_close := fake_op (fun s => (tt, fake_closed s));
  ch_close_with_reason c reason := fake_op (fun s => (tt, fake_closed_with_reason reason s)) c;
  ch_medium := fake_medium;
  ch_service_id := fake_service_id;
  ch_name := fake_name;
  ch_channel_type := fake_channel_type;
  ch_local_endpoint_id := fake_local_endpoint_id;
  ch_set_local_endpoint_id c id := fake_op (fun s => (tt, fake_set_local_endpoint_id id s)) c;
  ch_pause := fake_pause;
  ch_resume := fake_resume;
  ch_is_paused := fake_is_paused;
  ch_disable_encryption := fake_op (fun s => (tt, s));
|}.

(** [Arc::new(channel)]. *)
Definition fake_alloc (s : FakeEndpointChannel) : M FakeEnv FakeChan :=
  e ← get;
  modify (fun e => mkFakeEnv (e.(fe_next) + 1) (<[e.(fe_next) := s]> e.(fe_channels))
                     e.(fe_records));;
  mret (mkFakeChan e.(fe_next)).

(** * The handler *)

(** [FakeBwuHandler::records]. *)
Definition fake_records : M FakeEnv N :=
  e ← get;
  modify (fun e => mkFakeEnv (e.(fe_next) + 1) e.(fe_channels)
                     (<[e.(fe_next) := FakeBwuHandlerRecords_default]> e.(fe_records)));;
  mret e.(fe_next).

(** The credentials of [path_available_bytes]. *)
Definition fake_hotspot_credentials : WifiHotspotCredentials :=
  {| whc_ssid := Some "Direct-357a2d8c"%string;
     whc_password := Some "b592f7d3"%string;
     whc_port := Some 1234%Z;
     whc_gateway := Some "123.234.23.1"%string;
     whc_frequency := Some 2412%Z;
     whc_address_candidates :=
       [ {| pbsa_ip_address := Some [xfe; x80; x00; x00; x00; x00; x00; x00; x4d; xb2; xb3; x5c;
                                    x22; x03; x98; xa1];
            pbsa_port := Some 1234%Z |};
         {| pbsa_ip_address := Some [x7b; xea; x17; x01];
            pbsa_port := Some 2412%Z |} ] |}.

Section handler.
Context `{Codec}.

Definition path_available_bytes (medium : Medium) (upgrade_service_id : string) : bytes :=
  match medium with
  | Bluetooth => for_bwu_bluetooth_path_available upgrade_service_id "01:02:03:04:05:06"
  | WifiLan =>
      for_bwu_wifi_lan_path_available
        [{| sa_address := str_bytes "ABCD"; sa_port := 1234 |}]
  | WebRtc | WebRtcNonCellular =>
      for_bwu_webrtc_path_available "peer-id" LocationHint_default
  | WifiHotspot => for_bwu_wifi_hotspot_path_available fake_hotspot_credentials false
  | WifiDirect =>
      for_bwu_wifi_direct_path_available "" "" 2143 2412 false "123.234.23.1"
        "NC-WifiDirectTest" "b592f7d3"
  | _ => []
  end.

(** A push on a list of the shared records. *)
Definition record_call (f : FakeBwuHandlerRecords -> FakeBwuHandlerRecords)
    : M (FakeBwuHandler * FakeEnv) unit :=
  s ← get;
  let r := default FakeBwuHandlerRecords_default (s.2.(fe_records) !! s.1.(fh_records)) in
  modify (fun s => (s.1, mkFakeEnv s.2.(fe_next) s.2.(fe_channels)
                           (<[s.1.(fh_records) := f r]> s.2.(fe_records)))).

Definition fake_handle_initialize_upgraded_medium_for_endpoint (client : ClientProxy)
    (upgrade_service_id endpoint_id : string) : M (FakeBwuHandler * FakeEnv) bytes :=
  record_call (fun r =>
    {| rec_create_calls := r.(rec_create_calls);
       rec_disconnect_calls := r.(rec_disconnect_calls);
       rec_handle_initialize_calls := r.(rec_handle_initialize_calls)
         ++ [mkInputData (client_id client) (Some upgrade_service_id) (Some endpoint_id)];
       rec_handle_revert_calls := r.(rec_handle_revert_calls) |});;
  medium ← gets (fun s => s.1.(fh_medium));
  mret (path_available_bytes medium upgrade_service_id).

Definition fake_handle_revert_initiator_state_for_service (upgrade_service_id : string)
    : M (FakeBwuHandler * FakeEnv) unit :=
  record_call (fun r =>
    {| rec_create_calls := r.(rec_create_calls);
       rec_disconnect_calls := r.(rec_disconnect_calls);
       rec_handle_initialize_calls := r.(rec_handle_initialize_calls);
       rec_handle_revert_calls := r.(rec_handle_revert_calls)
         ++ [mkInputData 0 (Some upgrade_service_id) None] |}).

Definition fake_create_upgraded_endpoint_channel (client : ClientProxy)
    (service_id endpoint_id : string) (info : UpgradePathInfo)
    : M (FakeBwuHandler * FakeEnv) (option FakeChan) :=
  record_call (fun r =>
    {| rec_create_calls := r.(rec_create_calls)
         ++ [mkInputData (client_id client) (Some service_id) (Some endpoint_id)];
       rec_disconnect_calls := r.(rec_disconnect_calls);
       rec_handle_initialize_calls := r.(rec_handle_initialize_calls);
       rec_handle_revert_calls := r.(rec_handle_revert_calls) |});;
  s ← get;
  match fake_alloc (FakeEndpointChannel_new s.1.(fh_medium) service_id) s.2 with
  | Ret (c, e) => modify (fun s => (s.1, e));; mret (Some c)
  | Fault f => raise f
  end.

Definition fake_on_endpoint_disconnect (client : ClientProxy) (endpoint_id : string)
    : M (FakeBwuHandler * FakeEnv) unit :=
  record_call (fun r =>
    {| rec_create_calls := r.(rec_create_calls);
       rec_disconnect_calls := r.(rec_disconnect_calls)
         ++ [mkInputData (client_id client) None (Some endpoint_id)];
       rec_handle_initialize_calls := r.(rec_handle_initialize_calls);
       rec_handle_revert_calls := r.(rec_handle_revert_calls) |}).

#[export] Instance FakeBwuHandler_MediumBwuHandler :
    MediumBwuHandler FakeBwuHandler FakeEnv FakeChan := {|
  mh_handle_initialize_upgraded_medium_for_endpoint :=
    fake_handle_initialize_upgraded_medium_for_endpoint;
  mh_handle_revert_initiator_state_for_service :=
    fake_handle_revert_initiator_state_for_service;
  mh_create_upgraded_endpoint_channel := fake_create_upgraded_endpoint_channel;
  mh_get_upgrade_medium := fh_medium;
  mh_on_endpoint_disconnect := fake_on_endpoint_disconnect;
|}.
End handler.

(** * Lemmas *)

(** A call on a fake channel changes the state of that channel alone. *)
Lemma fake_op_get {A B} (f : FakeEndpointChannel -> A * FakeEndpointChannel)
    (g : FakeEndpointChannel -> B) c c' e a e' :
  runs_to (fake_op f c) e a e' ->
  fake_get g c' e' =
  if decide (c' = c) then g (f (fake_state c e)).2 else fake_get g c' e.
Proof.
  unfold runs_to, fake_op, mbind, M_bind, gets, modify, mret, M_ret, fake_get, fake_state.
  intros Heq. injection Heq as <- <-. simpl. case_decide as Hd; subst.
  - by rewrite lookup_insert_eq.
  - rewrite lookup_insert_ne; [done|]. intros Heq. apply Hd. destruct c, c'; simpl in *; congruence.
Qed.

(** A field that a call does not write keeps its value on every channel. *)
Lemma fake_op_keeps {A B} (f : FakeEndpointChannel -> A * FakeEndpointChannel)
    (g : FakeEndpointChannel -> B) c c' e a e' :
  runs_to (fake_op f c) e a e' -> (forall s, g (f s).2 = g s) ->
  fake_get g c' e' = fake_get g c' e.
Proof.
  intros Hrun Hg. rewrite (fake_op_get f g c c' e a e' Hrun).
  case_decide; [|done]. subst. by rewrite Hg.
Qed.

#[export] Instance FakeEndpointChannel_laws : EndpointChannelLaws FakeEnv FakeChan.
Proof.
  split.
  - intros c e e' [c' s r s' Hrun|c' d s r s' Hrun|c' s r s' Hrun|c' d s r s' Hrun
      |c' d s r s' Hrun|c' s r s' Hrun|c' s r s' Hrun|c' s r s' Hrun];
      exact (fake_op_keeps _ fc_medium _ _ _ _ _ Hrun (fun _ => eq_refl)).
  - intros c e e' [c' s r s' Hrun|c' d s r s' Hrun|c' s r s' Hrun|c' d s r s' Hrun
      |c' d s r s' Hrun|c' s r s' Hrun|c' s r s' Hrun|c' s r s' Hrun];
      exact (fake_op_keeps _ fc_service_id _ _ _ _ _ Hrun (fun _ => eq_refl)).
  - intros c e r e' Hrun. simpl. unfold fake_is_paused. rewrite (fake_op_get _ _ _ c _ _ _ Hrun).
    by rewrite decide_True.
  - intros c e r e' Hrun. simpl. unfold fake_is_paused. rewrite (fake_op_get _ _ _ c _ _ _ Hrun).
    by rewrite decide_True.
Qed.

(** No call on the fakes faults. *)
#[export] Instance FakeEndpointChannel_faults E : ChannelFaults FakeEnv FakeChan E.
Proof. by split; intros. Qed.

#[export] Instance FakeBwuHandler_medium_faults `{Codec} E :
  MediumHandlerFaults FakeBwuHandler FakeEnv FakeChan E.
Proof. by split; intros. Qed.

#[export] Instance FakeBwuHandler_faults `{Codec} E :
  HandlerFaults (BaseBwuHandler FakeBwuHandler) FakeEnv FakeChan E.
Proof. apply _. Qed.

(** * Properties of the handler's bookkeeping, over the fake medium *)

Definition fake_lan : FakeBwuHandler := mkFakeBwuHandler WifiLan 1.

(** Two endpoints of a service come and go; a third stays. *)
Definition fake_session_calls : list base_call :=
  let c := ClientProxy_new 7 "LOCAL" in
  [InitializeCall c "A" "EP1"; InitializeCall c "A" "EP2"; InitializeCall c "B" "EP3";
   RevertEndpointCall "A_UPGRADE" "EP1"; RevertResponderCall "A";
   RevertEndpointCall "A_UPGRADE" "EP2"; RevertEndpointCall "A_UPGRADE" "EP2"].

Lemma bookkeeping_refines_book_witness :
  exists b' e',
    runs_to (base_run (H := FakeBwuHandler) (chan := FakeChan) fake_session_calls)
      (base_new (mkTraced fake_lan []), FakeEnv_empty) tt (b', e') /\
    exists k, book_steps fake_session_calls (∅, []) k /\ book_rel b' k.
Proof.
  eexists _, _. split; [vm_compute; reflexivity|].
  eapply (bookkeeping_refines_book (chan := FakeChan) fake_session_calls fake_lan FakeEnv_empty).
  vm_compute. reflexivity.
Defined.

Lemma medium_lifecycle_witness :
  exists b' e',
    forallb base_call_ok fake_session_calls = true /\
    runs_to (base_run (H := FakeBwuHandler) (chan := FakeChan) fake_session_calls)
      (base_new (mkTraced fake_lan []), FakeEnv_empty) tt (b', e') /\
    service_up "A_UPGRADE" false (b'.(base_inner).(tr_events)) = Some false /\
    service_up "B_UPGRADE" false (b'.(base_inner).(tr_events)) = Some true.
Proof.
  eexists _, _. split; [reflexivity|]. split; [vm_compute; reflexivity|]. split.
  - eapply eq_trans.
    + eapply (medium_lifecycle (chan := FakeChan) fake_session_calls fake_lan FakeEnv_empty);
        [reflexivity|vm_compute; reflexivity|reflexivity].
    + reflexivity.
  - eapply eq_trans.
    + eapply (medium_lifecycle (chan := FakeChan) fake_session_calls fake_lan FakeEnv_empty);
        [reflexivity|vm_compute; reflexivity|reflexivity].
    + reflexivity.
Defined.
