(* ===== verification/UnitTests.v ===== *)
(** The crate's own unit tests, run on the model: the [mod tests] of
    [service_id.rs], [channel_manager.rs], [handler.rs], [testing.rs],
    [validator.rs] and [frames.rs], with the handler that those of [handler.rs]
    define.  A test is a call that panics when an assertion does not hold; it
    passes when it returns.  Frames go through the codec of
    [Protobuf]. *)

From Stdlib Require Import ZArith.
From Stdlib Require Import Strings.Byte.
From S2P Require Import Prelude.
From S2P Require Import Mediums.
From S2P Require Import Proto.
From S2P Require Import Codec.
From S2P Require Import Frames.
From S2P Require Import Validator.
From S2P Require Import FromBytes.
From S2P Require Import ServiceId.
From S2P Require Import Client.
From S2P Require Import Channel.
From S2P Require Import ChannelManager.
From S2P Require Import Handler.
From S2P Require Import Testing.

Open Scope string_scope.

(** * Running a test *)

(** [assert!], and [assert_eq!] by decidable equality. *)
Definition assert {S} (b : bool) : M S unit := if b then mret tt else raise Panicked.
Definition assert_eq {S A} `{EqDecision A} (a b : A) : M S unit := assert (bool_decide (a = b)).

(** The loop of a test over the values of an array. *)
Fixpoint each {S A} (l : list A) (f : A -> M S unit) : M S unit :=
  match l with
  | [] => mret tt
  | a :: l => f a;; each l f
  end.

Definition passes {S} (test : M S unit) (s : S) : bool :=
  match test s with Ret _ => true | Fault _ => false end.

(** * [service_id.rs] *)

Definition wraps_only_when_needed : M unit unit :=
  assert_eq (wrap_initiator_upgrade_service_id "ServiceA") "ServiceA_UPGRADE";;
  assert_eq (wrap_initiator_upgrade_service_id "ServiceA_UPGRADE") "ServiceA_UPGRADE";;
  assert_eq (wrap_initiator_upgrade_service_id "") "".

Definition recognizes_and_unwraps : M unit unit :=
  assert (is_initiator_upgrade_service_id "ServiceA_UPGRADE");;
  assert (negb (is_initiator_upgrade_service_id "ServiceA"));;
  assert (negb (is_initiator_upgrade_service_id ""));;
  assert_eq (unwrap_initiator_upgrade_service_id "ServiceA_UPGRADE") "ServiceA";;
  assert_eq (unwrap_initiator_upgrade_service_id "ServiceA") "ServiceA";;
  assert_eq (unwrap_initiator_upgrade_service_id "") "".

Example service_id_tests_pass :
  passes wraps_only_when_needed tt && passes recognizes_and_unwraps tt = true.
Proof. vm_compute. reflexivity. Qed.

(** * [channel_manager.rs] *)

(** The registry of a test and the channels behind it. *)
Abbreviation EcmTest := (M (EndpointChannelManager FakeChan * FakeEnv)).

(** [Arc::new(FakeEndpointChannel::new(medium, service_id))]. *)
Definition new_channel (medium : Medium) (service_id : string) : EcmTest FakeChan := fun s =>
  match fake_alloc (FakeEndpointChannel_new medium service_id) s.2 with
  | Ret (c, e) => Ret (c, (s.1, e))
  | Fault f => Fault f
  end.

(** A call of the registry, and what it says. *)
Definition on_ecm (f : EndpointChannelManager FakeChan -> EndpointChannelManager FakeChan)
    : EcmTest unit := modify (fun s => (f s.1, s.2)).

Definition assert_ecm (count : nat) (wifi_lan : bool) : EcmTest unit :=
  s ← get;
  assert_eq (get_connected_endpoints_count s.1) count;;
  assert_eq (is_wifi_lan_connected s.2 s.1) wifi_lan.

Definition register_replace_count_and_wifi_lan : EcmTest unit :=
  assert_ecm 0 false;;
  bt ← new_channel Bluetooth "A";
  on_ecm (register_channel_for_endpoint "Endpoint1" bt);;
  assert_ecm 1 false;;
  s ← get;
  stashed ← unwrap (get_channel_for_endpoint "Endpoint1" s.1);
  lan ← new_channel WifiLan "A";
  on_ecm (replace_channel_for_endpoint "Endpoint1" lan false);;
  assert_ecm 1 true;;
  medium ← gets (fun s => ch_medium stashed s.2);
  assert_eq medium Bluetooth;;
  s ← get;
  let (existed, ecm) :=
    unregister_channel_for_endpoint "Endpoint1" LocalDisconnection SafeDisconnection s.1 in
  assert existed;;
  on_ecm (fun _ => ecm);;
  s ← get;
  assert_eq (get_connected_endpoints_count s.1) 0.

Example channel_manager_tests_pass :
  passes register_replace_count_and_wifi_lan (ecm_new, FakeEnv_empty) = true.
Proof. vm_compute. reflexivity. Qed.

(** * [handler.rs] *)

Record RecordingHandler : Type := mkRecordingHandler {
  rh_initialize_calls : list (string * string);
  rh_revert_calls : list string;
  rh_fail_for : option string;
}.

Definition RecordingHandler_default : RecordingHandler := mkRecordingHandler [] [] None.

(** The environment has no channel: none is ever made. *)
Definition recording_initialize (_client : ClientProxy) (upgrade_service_id endpoint_id : string)
    : M (RecordingHandler * unit) bytes :=
  modify (fun s =>
    (mkRecordingHandler (s.1.(rh_initialize_calls) ++ [(upgrade_service_id, endpoint_id)])
       s.1.(rh_revert_calls) s.1.(rh_fail_for), s.2));;
  fail_for ← gets (fun s => s.1.(rh_fail_for));
  if decide (fail_for = Some endpoint_id) then mret [] else mret [x01].

Definition recording_revert (upgrade_service_id : string) : M (RecordingHandler * unit) unit :=
  modify (fun s =>
    (mkRecordingHandler s.1.(rh_initialize_calls) (s.1.(rh_revert_calls) ++ [upgrade_service_id])
       s.1.(rh_fail_for), s.2)).

#[export] Instance RecordingHandler_MediumBwuHandler :
    MediumBwuHandler RecordingHandler unit Empty_set := {|
  mh_handle_initialize_upgraded_medium_for_endpoint := recording_initialize;
  mh_handle_revert_initiator_state_for_service := recording_revert;
  mh_create_upgraded_endpoint_channel _ _ _ _ := mret None;
  mh_get_upgrade_medium _ := WebRtc;
  mh_on_endpoint_disconnect _ _ := mret tt;
|}.

Abbreviation HandlerTest := (M (BaseBwuHandler RecordingHandler * unit)).

Definition initialize (service_id endpoint_id : string) : HandlerTest bytes :=
  bh_initialize_upgraded_medium_for_endpoint (chan := Empty_set) ClientProxy_default
    service_id endpoint_id.
Definition revert_endpoint (upgrade_service_id endpoint_id : string) : HandlerTest unit :=
  bh_revert_initiator_state_for_endpoint (chan := Empty_set) upgrade_service_id endpoint_id.
Definition revert_all : HandlerTest unit := bh_revert_initiator_state (chan := Empty_set).
Definition revert_responder (service_id : string) : HandlerTest unit :=
  bh_revert_responder_state (chan := Empty_set) service_id.

(** [handler.inner().revert_calls]. *)
Definition assert_reverts (reverts : list string) : HandlerTest unit :=
  b ← gets fst; assert_eq b.(base_inner).(rh_revert_calls) reverts.

Definition initialize_wraps_service_id_and_tracks_endpoints : HandlerTest unit :=
  frame ← initialize "ServiceA" "Endpoint1";
  assert_eq frame [x01];;
  b ← gets fst;
  assert_eq b.(base_inner).(rh_initialize_calls) [("ServiceA_UPGRADE", "Endpoint1")].

(** From a handler that fails for "Endpoint1". *)
Definition empty_initialize_frame_is_not_tracked : HandlerTest unit :=
  frame ← initialize "ServiceA" "Endpoint1";
  assert (is_nil frame);;
  revert_endpoint "ServiceA_UPGRADE" "Endpoint1";;
  assert_reverts [].

Definition revert_per_endpoint_fires_only_on_last : HandlerTest unit :=
  initialize "ServiceA" "Endpoint1";;
  initialize "ServiceA" "Endpoint2";;
  revert_endpoint "ServiceA_UPGRADE" "Endpoint1";;
  assert_reverts [];;
  revert_endpoint "ServiceA_UPGRADE" "Endpoint2";;
  assert_reverts ["ServiceA_UPGRADE"].

Definition revert_ignores_unwrapped_service_id : HandlerTest unit :=
  initialize "ServiceA" "Endpoint1";;
  revert_endpoint "ServiceA" "Endpoint1";;
  assert_reverts [].

(** The test sorts what was recorded: both services, in either order. *)
Definition revert_all_reverts_each_service_once : HandlerTest unit :=
  initialize "ServiceA" "Endpoint1";;
  initialize "ServiceB" "Endpoint2";;
  revert_all;;
  b ← gets fst;
  let reverts := b.(base_inner).(rh_revert_calls) in
  assert (bool_decide (reverts = ["ServiceA_UPGRADE"; "ServiceB_UPGRADE"])
          || bool_decide (reverts = ["ServiceB_UPGRADE"; "ServiceA_UPGRADE"])).

Definition responder_revert_calls_handler_with_raw_id : HandlerTest unit :=
  revert_responder "ServiceA";;
  assert_reverts ["ServiceA"].

Example handler_tests_pass :
  let fresh := (base_new RecordingHandler_default, tt) in
  passes initialize_wraps_service_id_and_tracks_endpoints fresh
  && passes empty_initialize_frame_is_not_tracked
       (base_new (mkRecordingHandler [] [] (Some "Endpoint1")), tt)
  && passes revert_per_endpoint_fires_only_on_last fresh
  && passes revert_ignores_unwrapped_service_id fresh
  && passes revert_all_reverts_each_service_once fresh
  && passes responder_revert_calls_handler_with_raw_id fresh = true.
Proof. vm_compute. reflexivity. Qed.

(** * [testing.rs] *)

Definition channel_records_close_pause_and_write : M FakeEnv unit :=
  ch ← fake_alloc (FakeEndpointChannel_new Bluetooth "A");
  closed ← gets (fake_is_closed ch); assert (negb closed);;
  wrote ← gets (fake_wrote_anything ch); assert (negb wrote);;
  r ← ch_write ch (str_bytes "x"); assert_eq r Success;;
  wrote ← gets (fake_wrote_anything ch); assert wrote;;
  ch_pause ch;;
  paused ← gets (ch_is_paused ch); assert paused;;
  ch_resume ch;;
  paused ← gets (ch_is_paused ch); assert (negb paused);;
  fake_op (fun s => (tt, set_write_output Io s)) ch;;
  r ← ch_write ch (str_bytes "y"); assert_eq r Io;;
  ch_close_with_reason ch Upgraded;;
  closed ← gets (fake_is_closed ch); assert closed;;
  reason ← gets (fake_disconnection_reason ch); assert_eq reason Upgraded.

(** The body of the loop, on a handler whose records are new. *)
Definition emits_valid_path_available_frame (medium : Medium) : M (FakeBwuHandler * FakeEnv) unit :=
  s ← get;
  match fake_records s.2 with
  | Fault f => raise f
  | Ret (records, e) =>
      modify (fun _ => (mkFakeBwuHandler medium records, e));;
      frame_bytes ← mh_handle_initialize_upgraded_medium_for_endpoint (chan := FakeChan)
                      ClientProxy_default "ServiceA_UPGRADE" "Endpoint1";
      assert (negb (is_nil frame_bytes));;
      match from_bytes frame_bytes with
      | Err _ => raise Panicked
      | Ok frame => assert_eq (get_frame_type frame) Ft_BandwidthUpgradeNegotiation
      end;;
      s ← get;
      r ← unwrap (s.2.(fe_records) !! records);
      assert_eq (length r.(rec_handle_initialize_calls)) 1
  end.

Definition handler_records_and_emits_valid_path_available_frames
    : M (FakeBwuHandler * FakeEnv) unit :=
  each [Bluetooth; WifiLan; WebRtc; WifiHotspot; WifiDirect] emits_valid_path_available_frame.

Example testing_tests_pass :
  passes channel_records_close_pause_and_write FakeEnv_empty
  && passes handler_records_and_emits_valid_path_available_frames (fake_lan, FakeEnv_empty) = true.
Proof. vm_compute. reflexivity. Qed.

(** * [validator.rs] *)

Definition ipv4_matcher_mirrors_pattern : M unit unit :=
  each ["0.0.0.0"; "192.168.1.1"; "255.255.255.255"] (fun s => assert (is_valid_ipv4 s));;
  each ["256.0.0.1"; "1.2.3"; "1.2.3.4.5"; "1.2.3."; ""; "a.b.c.d"]
    (fun s => assert (negb (is_valid_ipv4 s))).

(** A line feed, a carriage return and a tab follow the last three. *)
Definition wifi_direct_ssid_matcher_mirrors_pattern : M unit unit :=
  let ends_in b := bytes_str (str_bytes "DIRECT-AB" ++ [b]) in
  each ["DIRECT-A0-0123456789AB"; "DIRECT-Zz"] (fun s => assert (matches_wifi_direct_ssid s));;
  each ["DIRECT-A*-0123456789AB"; "NOTDIRECT-AB"; "DIRECT-A"; "DIRECT-"; ends_in x0a; ends_in x0d]
    (fun s => assert (negb (matches_wifi_direct_ssid s)));;
  assert (matches_wifi_direct_ssid (ends_in x09)).

Definition unrecognized_packet_type_is_rejected : M unit unit :=
  let frame :=
    mkOfflineFrame (Some (Version_i32 Ver_V1))
      (Some (set_v1_payload_transfer
               (Some (set_ptf_packet_type (Some 99%Z)
                        (set_ptf_payload_header
                           (Some (set_ph_total_size (Some 1024%Z)
                                    (set_ph_id (Some 1%Z) PayloadHeader_default)))
                           PayloadTransferFrame_default)))
               (set_v1_type (Some (FrameType_i32 Ft_PayloadTransfer)) V1Frame_default))) in
  assert_eq (ensure_valid_offline_frame frame) InvalidProtocolBuffer.

Definition within_range_is_half_open : M unit unit :=
  assert (within_range 8 8 64);;
  assert (negb (within_range 64 8 64));;
  assert (negb (within_range 7 8 64)).

Example validator_tests_pass :
  passes ipv4_matcher_mirrors_pattern tt && passes wifi_direct_ssid_matcher_mirrors_pattern tt
  && passes unrecognized_packet_type_is_rejected tt && passes within_range_is_half_open tt = true.
Proof. vm_compute. reflexivity. Qed.

(** * [frames.rs] *)

Definition connection_request_medium_round_trips : M unit unit :=
  each all_mediums (fun m =>
    assert_eq (connection_request_medium_to_medium (medium_to_connection_request_medium m)) m).

Definition presence_request_emits_present_empty_endpoint_id_when_device_has_none : M unit unit :=
  let info := mkConnectionInfo "ABC" (str_bytes "X") 0 false "" 0 [] 0 0 None [] in
  frame ← unwrap (decode_frame (for_connection_request_presence PresenceDevice_default info));
  v1 ← unwrap frame.(of_v1);
  req ← unwrap v1.(v1_connection_request);
  assert_eq req.(crq_endpoint_id) (Some "").

Definition upgrade_path_info_medium_round_trips : M unit unit :=
  each all_mediums (fun m =>
    if decide (m = BleL2cap) then
      assert_eq (medium_to_upgrade_path_info_medium m) Upi_UnknownMedium
    else
      assert_eq (upgrade_path_info_medium_to_medium (medium_to_upgrade_path_info_medium m)) m).

Example frames_tests_pass :
  passes connection_request_medium_round_trips tt
  && passes presence_request_emits_present_empty_endpoint_id_when_device_has_none tt
  && passes upgrade_path_info_medium_round_trips tt = true.
Proof. vm_compute. reflexivity. Qed.
