(* ===== verification/FrameTests.v ===== *)
(** The integration tests of [tests/offline_frames.rs] and
    [tests/offline_frames_validator.rs], run on the model over the protobuf
    encoding of [Protobuf]: what each builder makes parses to the expected frame, and
    the validator's verdicts on frames that were decoded and altered. *)

From Stdlib Require Import ZArith.
From Stdlib Require Import Strings.Byte.
From S2P Require Import Prelude.
From S2P Require Import Mediums.
From S2P Require Import Proto.
From S2P Require Import Codec.
From S2P Require Import Frames.
From S2P Require Import Validator.
From S2P Require Import FromBytes.

Open Scope string_scope.
#[local] Open Scope Z_scope.

(** * [tests/offline_frames.rs] *)

Definition k_mediums : list Medium :=
  [Mdns; Bluetooth; WifiHotspot; Ble; WifiLan; WifiAware; Nfc; WifiDirect; WebRtc; Usb; Awdl].

Definition expected_mediums : list Z :=
  ConnectionRequestMedium_i32 <$>
    [Crq_Mdns; Crq_Bluetooth; Crq_WifiHotspot; Crq_Ble; Crq_WifiLan; Crq_WifiAware; Crq_Nfc;
     Crq_WifiDirect; Crq_WebRtc; Crq_Usb; Crq_Awdl].

Definition bssid : string := "FF:FF:FF:FF:FF:FF".

Definition base_connection_info (role : option MediumRole) (auths : list WifiDirectAuthType)
    : ConnectionInfo :=
  mkConnectionInfo "ABC" (str_bytes "XYZ") 1234 true bssid 2412 k_mediums 1000 5000 role auths.

Definition expect_offline_frame (t : FrameType) (set : V1Frame -> V1Frame) : Result OfflineFrame :=
  Ok (mkOfflineFrame (Some (Version_i32 Ver_V1))
        (Some (set (set_v1_type (Some (FrameType_i32 t)) V1Frame_default)))).

Definition expect_bwu (event : BwuEventType)
    (set : BandwidthUpgradeNegotiationFrame -> BandwidthUpgradeNegotiationFrame) : Result OfflineFrame :=
  expect_offline_frame Ft_BandwidthUpgradeNegotiation
    (set_v1_bandwidth_upgrade_negotiation
       (Some (set (set_bwu_event_type (Some (BwuEventType_i32 event))
                     BandwidthUpgradeNegotiationFrame_default)))).

Definition expect_path_available (m : UpgradePathMedium) (set : UpgradePathInfo -> UpgradePathInfo)
    : Result OfflineFrame :=
  expect_bwu Ev_UpgradePathAvailable
    (set_bwu_upgrade_path_info
       (Some (set (set_upi_supports_client_introduction_ack (Some true)
                     (set_upi_medium (Some (UpgradePathMedium_i32 m)) UpgradePathInfo_default))))).

Definition role : MediumRole := mkMediumRole None None None (Some true) None None None None.

(** The request with the metadata and the device that a test expects. *)
Definition expect_request (metadata : MediumMetadata -> MediumMetadata) (device : option Device)
    : ConnectionRequestFrame :=
  set_crq_endpoint_id (Some "ABC") $ set_crq_endpoint_name (Some "XYZ") $
  set_crq_endpoint_info (Some (str_bytes "XYZ")) $ set_crq_nonce (Some 1234) $
  set_crq_medium_metadata (Some (metadata
    (set_mm_supports_5_ghz (Some true) $ set_mm_bssid (Some bssid) $ MediumMetadata_default))) $
  set_crq_mediums expected_mediums $ set_crq_keep_alive_interval_millis (Some 1000) $
  set_crq_keep_alive_timeout_millis (Some 5000) $ set_crq_device device ConnectionRequestFrame_default.

Definition expect_connection_request (metadata : MediumMetadata -> MediumMetadata)
    (device : option Device) : Result OfflineFrame :=
  expect_offline_frame Ft_ConnectionRequest
    (set_v1_connection_request (Some (expect_request metadata device))).

Definition with_frequency : MediumMetadata -> MediumMetadata := set_mm_ap_frequency (Some 2412).

Definition connections_device : ConnectionsDevice :=
  mkConnectionsDevice (Some "ABC") (Some (EndpointType_i32 Ept_ConnectionsEndpoint)) None
    (Some (str_bytes "XYZ")).

Definition presence_device : PresenceDevice :=
  mkPresenceDevice (Some "ABC") (Some (EndpointType_i32 Ept_PresenceEndpoint)) None None
    (Some "TEST DEVICE") None None [] [] [].

(** The builders that can panic return here. *)
Definition parsed (b : outcome bytes) : option (Result OfflineFrame) :=
  match b with Ret bs => Some (from_bytes bs) | Fault _ => None end.

Example can_parse_message_from_bytes :
  match expect_connection_request (fun m => m) None with
  | Ok tx =>
      from_bytes (encode_frame tx) = Ok tx /\ get_frame_type tx = Ft_ConnectionRequest /\
      connection_request_mediums_to_mediums (expect_request (fun m => m) None) = k_mediums
  | Err _ => False
  end.
Proof. vm_compute. split_and!; reflexivity. Qed.

Example can_generate_legacy_connection_request :
  parsed (for_connection_request_connections None (base_connection_info None []) false)
  = Some (expect_connection_request with_frequency None).
Proof. vm_compute. reflexivity. Qed.

Example can_generate_connections_connection_request :
  parsed (for_connection_request_connections (Some connections_device)
            (base_connection_info (Some role) []) true)
  = Some (expect_connection_request (fun m => set_mm_medium_role (Some role) (with_frequency m))
            (Some (Device_ConnectionsDevice connections_device))).
Proof. vm_compute. reflexivity. Qed.

Example can_generate_presence_connection_request :
  from_bytes (for_connection_request_presence presence_device (base_connection_info None []))
  = expect_connection_request with_frequency (Some (Device_PresenceDevice presence_device)).
Proof. vm_compute. reflexivity. Qed.

Example connection_request_populates_wifi_direct_auth_types :
  parsed (for_connection_request_connections (Some connections_device)
            (base_connection_info None [WifiDirectWithDeviceName; WifiDirectWithPassword]) false)
  = Some (expect_connection_request
            (fun m => set_mm_supported_wifi_direct_auth_types
               (PbWifiDirectAuthType_i32 <$> [Mm_WifiDirectWithDeviceName; Mm_WifiDirectWithPassword])
               (with_frequency m))
            (Some (Device_ConnectionsDevice connections_device))).
Proof. vm_compute. reflexivity. Qed.

Definition linux : OsInfo := mkOsInfo (Some (OsType_i32 Ost_Linux)).

Example can_generate_connection_response :
  from_bytes (for_connection_response 1 linux 5)
  = expect_offline_frame Ft_ConnectionResponse
      (set_v1_connection_response
         (Some (set_crs_status (Some 1) $ set_crs_response (Some (ResponseStatus_i32 Rs_Reject)) $
                set_crs_os_info (Some linux) $ set_crs_multiplex_socket_bitmask (Some 0) $
                set_crs_safe_to_disconnect_version (Some 5) ConnectionResponseFrame_default))).
Proof. vm_compute. reflexivity. Qed.

(** A header of a payload of this size and type. *)
Definition bytes_header (total_size : Z) (t : PayloadType) (name folder : option string)
    : PayloadHeader :=
  mkPayloadHeader (Some 12345) (Some (PayloadType_i32 t)) (Some total_size) None name folder None.

Definition data_chunk (offset : Z) : PayloadChunk :=
  mkPayloadChunk (Some 1) (Some offset) (Some (str_bytes "payload data")) None.

Definition canceled (offset : Z) : ControlMessage :=
  mkControlMessage (Some (ControlEventType_i32 Ctl_PayloadCanceled)) (Some offset).

Definition expect_payload (p : PayloadTransferFrame) : Result OfflineFrame :=
  expect_offline_frame Ft_PayloadTransfer (set_v1_payload_transfer (Some p)).

Example can_generate_control_payload_transfer :
  let h := bytes_header 1024 Pl_Bytes None None in
  from_bytes (for_control_payload_transfer h (canceled 150))
  = expect_payload (mkPayloadTransferFrame (Some (PacketType_i32 Pt_Control)) (Some h) None
                      (Some (canceled 150))).
Proof. vm_compute. reflexivity. Qed.

Example can_generate_data_payload_transfer :
  let h := bytes_header 1024 Pl_Bytes None None in
  from_bytes (for_data_payload_transfer h (data_chunk 150))
  = expect_payload (mkPayloadTransferFrame (Some (PacketType_i32 Pt_Data)) (Some h)
                      (Some (data_chunk 150)) None).
Proof. vm_compute. reflexivity. Qed.

Example can_generate_payload_ack_payload_transfer :
  from_bytes (for_payload_ack_payload_transfer 12345)
  = expect_payload (mkPayloadTransferFrame (Some (PacketType_i32 Pt_PayloadAck))
      (Some (set_ph_id (Some 12345) (set_ph_total_size (Some (-1)) PayloadHeader_default))) None None).
Proof. vm_compute. reflexivity. Qed.

(** ** Upgrade paths *)

Definition ip6 : bytes := [xfe; x80; x00; x00; x00; x00; x00; x00; x4d; xb2; xb3; x5c; x22; x03; x98; xa1].

Definition candidate (ip : bytes) (port : option Z) : PbServiceAddress := mkPbServiceAddress (Some ip) port.

Definition hotspot (port : option Z) (gateway : option string) (candidates : list PbServiceAddress)
    : WifiHotspotCredentials :=
  {| whc_ssid := Some "ssid"; whc_password := Some "password"; whc_port := port;
     whc_gateway := gateway; whc_frequency := Some 2412; whc_address_candidates := candidates |}.

Example can_generate_bwu_wifi_hotspot_path_available :
  let c := hotspot (Some 1234) (Some "0.0.0.0")
             [candidate ip6 (Some 1234); candidate [xc0; xa8; x00; x01] (Some 5678)] in
  from_bytes (for_bwu_wifi_hotspot_path_available c false)
  = expect_path_available Upi_WifiHotspot (fun i =>
      set_upi_wifi_hotspot_credentials (Some c) (set_upi_supports_disabling_encryption (Some false) i)).
Proof. vm_compute. reflexivity. Qed.

Definition ip6' : bytes := [x2a; x00; x79; xe0; x2e; x87; x00; x06; xb7; x28; x67; x45; x7a; xdd; x01; x53].

(** The socket is that of the last address. *)
Example can_generate_bwu_wifi_lan_path_available :
  from_bytes (for_bwu_wifi_lan_path_available
    [ {| sa_address := ip6'; sa_port := 1234 |}; {| sa_address := [x01; x02; x03; x04]; sa_port := 1234 |} ])
  = expect_path_available Upi_WifiLan
      (set_upi_wifi_lan_socket (Some (mkWifiLanSocket (Some [x01; x02; x03; x04]) (Some 1234)
         [candidate ip6' (Some 1234); candidate [x01; x02; x03; x04] (Some 1234)]))).
Proof. vm_compute. reflexivity. Qed.

Example can_generate_bwu_awdl_path_available :
  from_bytes (for_bwu_awdl_path_available "service_name" "nearby_upgrade" "password" true)
  = expect_path_available Upi_Awdl (fun i =>
      set_upi_awdl_credentials
        (Some (mkAwdlCredentials (Some "service_name") (Some "nearby_upgrade") (Some "password")))
        (set_upi_supports_disabling_encryption (Some true) i)).
Proof. vm_compute. reflexivity. Qed.

Example can_generate_bwu_wifi_aware_path_available :
  from_bytes (for_bwu_wifi_aware_path_available "service_id" (str_bytes "service_info") "password" false)
  = expect_path_available Upi_WifiAware (fun i =>
      set_upi_wifi_aware_credentials
        (Some (mkWifiAwareCredentials (Some "service_id") (Some (str_bytes "service_info")) (Some "password")))
        (set_upi_supports_disabling_encryption (Some false) i)).
Proof. vm_compute. reflexivity. Qed.

Example can_generate_bwu_wifi_direct_path_available :
  from_bytes (for_bwu_wifi_direct_path_available "" "" 1000 2412 false "192.168.1.1" "NC-WifiDirectTest" "b592f7d3")
  = expect_path_available Upi_WifiDirect (fun i =>
      set_upi_wifi_direct_credentials
        (Some (mkWifiDirectCredentials (Some "") (Some "") (Some 1000) (Some 2412) (Some "192.168.1.1")
                 None None (Some "NC-WifiDirectTest") (Some "b592f7d3")))
        (set_upi_supports_disabling_encryption (Some false) i)).
Proof. vm_compute. reflexivity. Qed.

Example can_generate_bwu_bluetooth_path_available :
  from_bytes (for_bwu_bluetooth_path_available "service" "11:22:33:44:55:66")
  = expect_path_available Upi_Bluetooth
      (set_upi_bluetooth_credentials
         (Some (mkBluetoothCredentials (Some "service") (Some "11:22:33:44:55:66")))).
Proof. vm_compute. reflexivity. Qed.

(** ** Control frames *)

Example can_generate_bwu_last_write :
  from_bytes for_bwu_last_write = expect_bwu Ev_LastWriteToPriorChannel (fun b => b).
Proof. vm_compute. reflexivity. Qed.

Example can_generate_bwu_safe_to_close :
  from_bytes for_bwu_safe_to_close = expect_bwu Ev_SafeToClosePriorChannel (fun b => b).
Proof. vm_compute. reflexivity. Qed.

Example can_generate_bwu_introduction :
  from_bytes (for_bwu_introduction "ABC" "DEF" false)
  = expect_bwu Ev_ClientIntroduction
      (set_bwu_client_introduction (Some (mkClientIntroduction (Some "ABC") (Some false) (Some "DEF")))).
Proof. vm_compute. reflexivity. Qed.

Example can_generate_keep_alive :
  from_bytes for_keep_alive
  = expect_offline_frame Ft_KeepAlive (set_v1_keep_alive (Some KeepAliveFrame_default)).
Proof. vm_compute. reflexivity. Qed.

Example can_generate_disconnection :
  from_bytes (for_disconnection true true)
  = expect_offline_frame Ft_Disconnection
      (set_v1_disconnection (Some (mkDisconnectionFrame (Some true) (Some true)))).
Proof. vm_compute. reflexivity. Qed.

Example can_generate_bwu_path_request :
  parsed (for_bwu_path_request WifiHotspot [WifiHotspot] role)
  = Some (expect_bwu Ev_UpgradePathRequest
      (set_bwu_upgrade_path_info
         (Some (set_upi_medium (Some (UpgradePathMedium_i32 Upi_WifiHotspot))
            (set_upi_upgrade_path_request
               (Some (mkUpgradePathRequest [UpgradePathMedium_i32 Upi_WifiHotspot]
                        (Some (set_mm_medium_role (Some role) MediumMetadata_default))))
               UpgradePathInfo_default))))).
Proof. vm_compute. reflexivity. Qed.

(** ** Authentication types *)

Example wfd_auth_types_map :
  wfd_auth_type_to_medium_metadata_wfd_auth_type <$>
    [WifiDirectWithPassword; WifiDirectWithDeviceName; WifiDirectTypeUnknown]
  = [Mm_WifiDirectWithPassword; Mm_WifiDirectWithDeviceName; Mm_WifiDirectTypeUnknown] /\
  medium_metadata_wfd_auth_type_to_wfd_auth_type <$>
    [Mm_WifiDirectWithPassword; Mm_WifiDirectWithDeviceName; Mm_WifiDirectTypeUnknown]
  = [WifiDirectWithPassword; WifiDirectWithDeviceName; WifiDirectTypeUnknown].
Proof. by split. Qed.

Example medium_metadata_wfd_auth_types_map :
  medium_metadata_wfd_auth_types_to_wfd_auth_types
    (set_mm_supported_wifi_direct_auth_types
       (PbWifiDirectAuthType_i32 <$> [Mm_WifiDirectWithPassword; Mm_WifiDirectWithDeviceName])
       MediumMetadata_default)
  = [WifiDirectWithPassword; WifiDirectWithDeviceName] /\
  medium_metadata_wfd_auth_types_to_wfd_auth_types MediumMetadata_default = [].
Proof. by split. Qed.

(** * [tests/offline_frames_validator.rs] *)

(** The verdict on a frame that is decoded, its body altered, and encoded again. *)
Definition verdict (bs : bytes) (alter : V1Frame -> V1Frame) : option Exception :=
  f ← decode_frame bs;
  f ← decode_frame (encode_frame (mkOfflineFrame f.(of_version) (alter <$> f.(of_v1))));
  Some (ensure_valid_offline_frame f).

Definition valid (bs : bytes) (alter : V1Frame -> V1Frame) : option bool := Exception_ok <$> verdict bs alter.

Definition as_is : V1Frame -> V1Frame := fun v => v.

(** ** Connection requests and responses *)

Definition request (id : string) (info : bytes) (bssid : string) (mediums : list Medium) : bytes :=
  match for_connection_request_connections None
          (mkConnectionInfo id info 1234 true bssid 2412 mediums 1000 5000 None []) false with
  | Ret bs => bs
  | Fault _ => []
  end.

Definition some_mediums : list Medium :=
  [Mdns; Bluetooth; WifiHotspot; Ble; WifiLan; WifiAware; Nfc; WifiDirect; WebRtc].

Definition empty_endpoint_id (v : V1Frame) : V1Frame :=
  set_v1_connection_request (set_crq_endpoint_id (Some "") <$> v.(v1_connection_request)) v.

Example connection_requests_validate :
  valid (request "ABC" (str_bytes "XYZ") bssid some_mediums) as_is = Some true /\
  valid (request "ABC" (str_bytes "XYZ") bssid some_mediums) (set_v1_connection_request None) = Some false /\
  valid (request "" (str_bytes "XYZ") bssid some_mediums) as_is = Some false /\
  valid (request "" (str_bytes "XYZ") bssid some_mediums) empty_endpoint_id = Some false /\
  valid (request "ABC" [] bssid some_mediums) as_is = Some false /\
  valid (request "ABC" (str_bytes "XYZ") "" some_mediums) as_is = Some true /\
  valid (request "ABC" (str_bytes "XYZ") bssid []) as_is = Some true.
Proof. vm_compute. split_and!; reflexivity. Qed.

Example connection_responses_validate :
  let response status := for_connection_response status OsInfo_default 0 in
  valid (response 0) as_is = Some true /\
  valid (response 0) (set_v1_connection_response None) = Some false /\
  valid (response (-1)) as_is = Some true.
Proof. vm_compute. split_and!; reflexivity. Qed.

(** ** Payloads *)

Definition data (h : PayloadHeader) (offset : Z) : bytes := for_data_payload_transfer h (data_chunk offset).

Definition large : Z := 30000000000.

Definition named (file folder : string) : PayloadHeader :=
  bytes_header large Pl_File (Some file) (Some folder).

Definition legal_name : string := "earth_85MB_test (1) (3) (4) (8) (1) (2) (2) (1).jpg".
Definition colon_name : string := "earth_85MB_test (1): (3) (4) (8) (1) (2) (2) (1).jpg".

Definition on_payload (f : PayloadTransferFrame -> PayloadTransferFrame) (v : V1Frame) : V1Frame :=
  set_v1_payload_transfer (f <$> v.(v1_payload_transfer)) v.

Definition without_flags (p : PayloadTransferFrame) : PayloadTransferFrame :=
  set_ptf_payload_chunk
    ((fun c => mkPayloadChunk None c.(pc_offset) c.(pc_body) c.(pc_index)) <$> p.(ptf_payload_chunk)) p.

Example data_payloads_validate :
  let h size := bytes_header size Pl_Bytes None None in
  valid (data (h large) 150) as_is = Some true /\
  valid (data (named "" "") 150) as_is = Some true /\
  valid (data (named legal_name "") 150) as_is = Some true /\
  verdict (data (named colon_name "") 150) as_is = Some IllegalCharacters /\
  valid (data (named "" legal_name) 150) as_is = Some true /\
  verdict (data (named "" colon_name) 150) as_is = Some IllegalCharacters /\
  valid (data (bytes_header 1024 Pl_UnknownPayloadType None None) 150) (set_v1_payload_transfer None) = Some false /\
  valid (data (h 1024) 150) (on_payload (set_ptf_payload_header None)) = Some false /\
  valid (data (h (-5)) 150) as_is = Some false /\
  valid (data (h 1024) 150) (on_payload (set_ptf_payload_chunk None)) = Some false /\
  valid (data (h 1024) (-1)) as_is = Some false /\
  valid (data (h 1024) 4999) as_is = Some false /\
  valid (data (h 1024) 150) (on_payload without_flags) = Some false.
Proof. vm_compute. split_and!; reflexivity. Qed.

Example control_payloads_validate :
  let control offset := for_control_payload_transfer (bytes_header 1024 Pl_Bytes None None) (canceled offset) in
  valid (control 150) (on_payload (set_ptf_control_message None)) = Some false /\
  valid (control (-1)) as_is = Some false /\ valid (control 4999) as_is = Some false.
Proof. vm_compute. split_and!; reflexivity. Qed.

(** ** Upgrade paths *)

Example hotspot_paths_validate :
  let path c := for_bwu_wifi_hotspot_path_available c true in
  let gateway := hotspot (Some 1000) (Some "0.0.0.0") [] in
  let lan := candidate [xc0; xa8; x00; x01] (Some 1000) in
  valid (path gateway) as_is = Some true /\
  valid (path (hotspot None None [candidate ip6 (Some 1000); lan])) as_is = Some true /\
  valid (path (hotspot None None [candidate (take 12 ip6) (Some 1000)])) as_is = Some false /\
  valid (path (hotspot None None [candidate ip6 None])) as_is = Some false /\
  valid (path gateway) (set_v1_bandwidth_upgrade_negotiation None) = Some false /\
  valid (for_bwu_wifi_lan_path_available
    [ {| sa_address := ip6'; sa_port := 1000 |}; {| sa_address := [xc0; xa8; x00; x01]; sa_port := 1000 |} ])
    as_is = Some true.
Proof. vm_compute. split_and!; reflexivity. Qed.

Definition direct_ssid : string := "DIRECT-A0-0123456789AB".
Definition direct_device : string := "NC-WifiDirectTest".

Definition direct (ssid password : string) (frequency : Z) (device pin : string) : bytes :=
  for_bwu_wifi_direct_path_available ssid password 1000 frequency true "192.168.1.1" device pin.

Definition long_tail : string := "AaBbCcDdEeFfGgHhIiJjKkLlMmNnOoPpQqRrSsTtUuVvWwXxYyZz0123456789".
Definition upper_tail : string := "ABCDEFGHIJKLMNOPQRSTUVWXYZ123456789".

Example wifi_direct_paths_validate :
  let pw := "WIFIDIRECT123456" in
  let pin := "b592f7d3" in
  valid (direct direct_ssid pw 2412 direct_device pin) as_is = Some true /\
  valid (direct direct_ssid pw (-2) direct_device pin) as_is = Some false /\
  valid (direct direct_ssid pw (-1) direct_device pin) as_is = Some true /\
  valid (direct "DIRECT-A*-0123456789AB" pw 2412 direct_device "01234567890123456") as_is = Some false /\
  valid (direct (direct_ssid +:+ upper_tail) pw 2412 (direct_device +:+ upper_tail) pin) as_is = Some false /\
  valid (direct direct_ssid (direct_ssid +:+ long_tail) 2412 direct_device (pin +:+ long_tail)) as_is = Some false.
Proof. vm_compute. split_and!; reflexivity. Qed.
