(* ===== verification/Manager.v ===== *)
(** [src/bwu/manager.rs]: the bandwidth-upgrade state machine.  An operation is
    a state-passing call over the manager, the client it is given, the shared
    channel registry and the state behind the channels.  The mutual recursion
    of [initiate_bwu_for_endpoint], [process_upgrade_failure_event] and
    [try_next_best_upgrade_mediums] takes fuel, the number of nested
    initiations; [Retry] says how much is enough. *)

From Stdlib Require Import ZArith.
From S2P Require Import Prelude.
From S2P Require Import Mediums.
From S2P Require Import Proto.
From S2P Require Import Codec.
From S2P Require Import Frames.
From S2P Require Import FromBytes.
From S2P Require Import ServiceId.
From S2P Require Import Client.
From S2P Require Import Channel.
From S2P Require Import ChannelManager.
From S2P Require Import Handler.

(** * Durations

    [std::time::Duration] in nanoseconds; an addition or a multiplication beyond
    the largest duration panics. *)

Definition NANOS_PER_SEC : Z := 1000000000.
Definition DURATION_MAX : Z := (2 ^ 64 - 1) * NANOS_PER_SEC + (NANOS_PER_SEC - 1).
Definition duration_from_secs (secs : Z) : Z := secs * NANOS_PER_SEC.

Definition duration_checked {S} (d : Z) : M S Z :=
  if (d <=? DURATION_MAX)%Z then mret d else raise Panicked.

(** * Configuration and state *)

Record BwuConfig : Type := mkBwuConfig {
  support_multiple_bwu_mediums : bool;
  use_exp_backoff_in_bwu_retry : bool;
  bandwidth_upgrade_retry_delay : Z;
  bandwidth_upgrade_retry_max_delay : Z;
}.

Definition BwuConfig_default : BwuConfig := mkBwuConfig true true 0 0.

(** The constructor's resolution of zero delays. *)
Definition resolve_config (config : BwuConfig) : BwuConfig :=
  let exp := config.(use_exp_backoff_in_bwu_retry) in
  {| support_multiple_bwu_mediums := config.(support_multiple_bwu_mediums);
     use_exp_backoff_in_bwu_retry := exp;
     bandwidth_upgrade_retry_delay :=
       if (config.(bandwidth_upgrade_retry_delay) =? 0)%Z then
         if exp then duration_from_secs 3 else duration_from_secs 5
       else config.(bandwidth_upgrade_retry_delay);
     bandwidth_upgrade_retry_max_delay :=
       if (config.(bandwidth_upgrade_retry_max_delay) =? 0)%Z then
         if exp then duration_from_secs 300 else duration_from_secs 10
       else config.(bandwidth_upgrade_retry_max_delay) |}.

(** The fields of [BwuManager] but the shared registry. *)
Record BwuManager (H chan : Type) : Type := mkBwuManager {
  config : BwuConfig;
  handlers : gmap Medium H;
  global_medium : Medium;
  endpoint_id_to_bwu_medium : gmap string Medium;
  in_progress_upgrades : gset string;
  previous_endpoint_channels : gmap string chan;
  successfully_upgraded_endpoints : gset string;
  retry_upgrade_alarms : gmap string Z;
  retry_delays : gmap string Z;
}.
Arguments mkBwuManager {H chan} _ _ _ _ _ _ _ _ _.
Arguments config {H chan} _.
Arguments handlers {H chan} _.
Arguments global_medium {H chan} _.
Arguments endpoint_id_to_bwu_medium {H chan} _.
Arguments in_progress_upgrades {H chan} _.
Arguments previous_endpoint_channels {H chan} _.
Arguments successfully_upgraded_endpoints {H chan} _.
Arguments retry_upgrade_alarms {H chan} _.
Arguments retry_delays {H chan} _.

(** [BwuManager::new]. *)
Definition BwuManager_new {H chan} (hs : gmap Medium H) (cfg : BwuConfig) : BwuManager H chan :=
  mkBwuManager (resolve_config cfg) hs UnknownMedium ∅ ∅ ∅ ∅ ∅ ∅.

(** Everything an operation of the manager can read or change. *)
Record World (H env chan : Type) : Type := mkWorld {
  w_mgr : BwuManager H chan;
  w_client : ClientProxy;
  w_ecm : EndpointChannelManager chan;
  w_env : env;
}.
Arguments mkWorld {H env chan} _ _ _ _.
Arguments w_mgr {H env chan} _.
Arguments w_client {H env chan} _.
Arguments w_ecm {H env chan} _.
Arguments w_env {H env chan} _.

(** ** Assignments to one field *)

Section setters.
Context {H chan : Type}.
Implicit Types m : BwuManager H chan.

Definition set_handlers (f : gmap Medium H -> gmap Medium H) m : BwuManager H chan :=
  mkBwuManager m.(config) (f m.(handlers)) m.(global_medium) m.(endpoint_id_to_bwu_medium)
    m.(in_progress_upgrades) m.(previous_endpoint_channels)
    m.(successfully_upgraded_endpoints) m.(retry_upgrade_alarms) m.(retry_delays).

Definition set_global_medium (v : Medium) m : BwuManager H chan :=
  mkBwuManager m.(config) m.(handlers) v m.(endpoint_id_to_bwu_medium)
    m.(in_progress_upgrades) m.(previous_endpoint_channels)
    m.(successfully_upgraded_endpoints) m.(retry_upgrade_alarms) m.(retry_delays).

Definition set_mediums (f : gmap string Medium -> gmap string Medium) m : BwuManager H chan :=
  mkBwuManager m.(config) m.(handlers) m.(global_medium) (f m.(endpoint_id_to_bwu_medium))
    m.(in_progress_upgrades) m.(previous_endpoint_channels)
    m.(successfully_upgraded_endpoints) m.(retry_upgrade_alarms) m.(retry_delays).

Definition set_in_progress (f : gset string -> gset string) m : BwuManager H chan :=
  mkBwuManager m.(config) m.(handlers) m.(global_medium) m.(endpoint_id_to_bwu_medium)
    (f m.(in_progress_upgrades)) m.(previous_endpoint_channels)
    m.(successfully_upgraded_endpoints) m.(retry_upgrade_alarms) m.(retry_delays).

Definition set_previous (f : gmap string chan -> gmap string chan) m : BwuManager H chan :=
  mkBwuManager m.(config) m.(handlers) m.(global_medium) m.(endpoint_id_to_bwu_medium)
    m.(in_progress_upgrades) (f m.(previous_endpoint_channels))
    m.(successfully_upgraded_endpoints) m.(retry_upgrade_alarms) m.(retry_delays).

Definition set_upgraded (f : gset string -> gset string) m : BwuManager H chan :=
  mkBwuManager m.(config) m.(handlers) m.(global_medium) m.(endpoint_id_to_bwu_medium)
    m.(in_progress_upgrades) m.(previous_endpoint_channels)
    (f m.(successfully_upgraded_endpoints)) m.(retry_upgrade_alarms) m.(retry_delays).

Definition set_alarms (f : gmap string Z -> gmap string Z) m : BwuManager H chan :=
  mkBwuManager m.(config) m.(handlers) m.(global_medium) m.(endpoint_id_to_bwu_medium)
    m.(in_progress_upgrades) m.(previous_endpoint_channels)
    m.(successfully_upgraded_endpoints) (f m.(retry_upgrade_alarms)) m.(retry_delays).

Definition set_delays (f : gmap string Z -> gmap string Z) m : BwuManager H chan :=
  mkBwuManager m.(config) m.(handlers) m.(global_medium) m.(endpoint_id_to_bwu_medium)
    m.(in_progress_upgrades) m.(previous_endpoint_channels)
    m.(successfully_upgraded_endpoints) m.(retry_upgrade_alarms) (f m.(retry_delays)).
End setters.

(** * Free helpers *)

(** [upi_medium], under a name of its own: the field of the message has that one. *)
Definition path_info_medium (upgrade_path_info : UpgradePathInfo) : Medium :=
  upgrade_path_info_medium_to_medium
    (default Upi_UnknownMedium (upgrade_path_info.(upi_medium) ≫= UpgradePathMedium_try_from)).

Definition upgrade_path_info_for_medium (medium : Medium) : UpgradePathInfo :=
  set_upi_medium (Some (UpgradePathMedium_i32 (medium_to_upgrade_path_info_medium medium)))
    UpgradePathInfo_default.

(** The [for] of [process_upgrade_failure_event]: an element is removed from the
    front of [untried] for each medium up to and including [last_medium];
    [None] stands for the panic of [remove] on an empty vector. *)
Fixpoint drop_tried (last_medium : Medium) (all_possible untried : list Medium)
    : option (list Medium) :=
  match all_possible with
  | [] => Some untried
  | medium :: rest =>
      match untried with
      | [] => None
      | _ :: untried =>
          if decide (medium = last_medium) then Some untried
          else drop_tried last_medium rest untried
      end
  end.

(** * Operations *)

Section manager.
Context {H env chan : Type} `{EndpointChannel env chan} `{BwuHandler H env chan} `{Codec}.

Abbreviation MW := (M (World H env chan)).

(** ** Access to the parts of the world *)

Definition mgr {A} (f : BwuManager H chan -> A) : MW A := gets (fun w => f w.(w_mgr)).

Definition set_mgr (f : BwuManager H chan -> BwuManager H chan) : MW unit :=
  modify (fun w => mkWorld (f w.(w_mgr)) w.(w_client) w.(w_ecm) w.(w_env)).

Definition set_client (f : ClientProxy -> ClientProxy) : MW unit :=
  modify (fun w => mkWorld w.(w_mgr) (f w.(w_client)) w.(w_ecm) w.(w_env)).

Definition set_ecm (f : EndpointChannelManager chan -> EndpointChannelManager chan) : MW unit :=
  modify (fun w => mkWorld w.(w_mgr) w.(w_client) (f w.(w_ecm)) w.(w_env)).

(** A call on a channel. *)
Definition channel_op {A} (m : M env A) : MW A := fun w =>
  match m w.(w_env) with
  | Ret (a, e) => Ret (a, mkWorld w.(w_mgr) w.(w_client) w.(w_ecm) e)
  | Fault f => Fault f
  end.

(** [self.handlers.get_mut(&medium).unwrap()] and a call on it. *)
Definition handler_op {A} (medium : Medium) (m : M (H * env) A) : MW A := fun w =>
  match w.(w_mgr).(handlers) !! medium with
  | None => Fault Panicked
  | Some h =>
      match m (h, w.(w_env)) with
      | Ret (a, (h', e)) =>
          Ret (a, mkWorld (set_handlers <[medium := h']> w.(w_mgr)) w.(w_client) w.(w_ecm) e)
      | Fault f => Fault f
      end
  end.

Definition active_channel (endpoint_id : string) : MW (option chan) :=
  gets (fun w => get_channel_for_endpoint endpoint_id w.(w_ecm)).

Definition channel_medium (c : chan) : MW Medium := gets (fun w => ch_medium c w.(w_env)).
Definition channel_service_id (c : chan) : MW string :=
  gets (fun w => ch_service_id c w.(w_env)).

(** [channel.map(|c| c.medium()).unwrap_or(UnknownMedium)]. *)
Definition optional_channel_medium (c : option chan) : MW Medium :=
  match c with Some c => channel_medium c | None => mret UnknownMedium end.

Definition wifi_lan_connected : MW bool :=
  gets (fun w => is_wifi_lan_connected w.(w_env) w.(w_ecm)).

(** ** Queries and the medium of an endpoint *)

Definition is_upgrade_ongoing (endpoint_id : string) : MW bool :=
  mgr (fun m => bool_decide (endpoint_id ∈ m.(in_progress_upgrades))).

Definition bwu_medium_of (m : BwuManager H chan) (endpoint_id : string) : Medium :=
  if m.(config).(support_multiple_bwu_mediums) then
    default UnknownMedium (m.(endpoint_id_to_bwu_medium) !! endpoint_id)
  else m.(global_medium).

Definition get_bwu_medium_for_endpoint (endpoint_id : string) : MW Medium :=
  mgr (fun m => bwu_medium_of m endpoint_id).

Definition set_bwu_medium_for_endpoint (endpoint_id : string) (medium : Medium) : MW unit :=
  set_mgr (fun m =>
    if m.(config).(support_multiple_bwu_mediums) then
      set_mediums <[endpoint_id := medium]> m
    else set_global_medium medium m).

Definition handler_exists (m : BwuManager H chan) (medium : Medium) : bool :=
  bool_decide (medium <> UnknownMedium) && is_some (m.(handlers) !! medium).

Definition has_handler_for_medium (medium : Medium) : MW bool :=
  mgr (fun m => handler_exists m medium).

Definition reset_upgrade_for_endpoint (endpoint_id : string) : MW unit :=
  set_mgr (set_in_progress (fun s => s ∖ {[endpoint_id]})).

Definition cancel_retry_upgrade_alarm (endpoint_id : string) : MW unit :=
  set_mgr (set_alarms (delete endpoint_id)).

Definition cancel_all_retry_upgrade_alarms : MW unit :=
  set_mgr (set_alarms (fun _ => ∅));;
  set_mgr (set_delays (fun _ => ∅)).

(** ** Reverting *)

Definition revert_bwu_medium_for_endpoint (service_id endpoint_id : string) : MW unit :=
  medium ← get_bwu_medium_for_endpoint endpoint_id;
  multiple ← mgr (fun m => m.(config).(support_multiple_bwu_mediums));
  if negb multiple then
    set_mgr (set_global_medium UnknownMedium);;
    has ← has_handler_for_medium medium;
    if (has : bool) then handler_op medium (bh_revert_initiator_state (chan := chan))
    else mret tt
  else
    set_mgr (set_mediums (delete endpoint_id));;
    has ← has_handler_for_medium medium;
    if negb has then mret tt
    else if negb (is_initiator_upgrade_service_id service_id) then
      if bool_decide (medium = WifiHotspot) || bool_decide (medium = WifiDirect) then
        handler_op medium (bh_revert_responder_state (chan := chan) service_id)
      else mret tt
    else
      handler_op medium
        (bh_revert_initiator_state_for_endpoint (chan := chan) service_id endpoint_id).

(** ** Retries *)

Definition calculate_next_retry_delay (endpoint_id : string) : MW Z :=
  m ← mgr (fun m => m);
  let initial_delay := m.(config).(bandwidth_upgrade_retry_delay) in
  match m.(retry_delays) !! endpoint_id with
  | None => mret initial_delay
  | Some last =>
      delay ← duration_checked
                (if m.(config).(use_exp_backoff_in_bwu_retry) then (last * 2)%Z
                 else (last + initial_delay)%Z);
      mret (Z.min delay m.(config).(bandwidth_upgrade_retry_max_delay))
  end.

Definition retry_upgrades_after_delay (endpoint_id : string) : MW unit :=
  delay ← calculate_next_retry_delay endpoint_id;
  cancel_retry_upgrade_alarm endpoint_id;;
  set_mgr (set_alarms <[endpoint_id := delay]>);;
  set_mgr (set_delays <[endpoint_id := delay]>).

Definition pending_retry_delay (endpoint_id : string) : MW (option Z) :=
  mgr (fun m => m.(retry_upgrade_alarms) !! endpoint_id).

(** In the order of [map_to_list]: a [HashMap] has none. *)
Definition pending_retry_delays : MW (list (string * Z)) :=
  mgr (fun m => map_to_list m.(retry_upgrade_alarms)).

Definition strip_out_unavailable_mediums (m : BwuManager H chan) (mediums : list Medium)
    : list Medium :=
  filter (fun x => handler_exists m x = true) mediums.

Definition choose_best (m : BwuManager H chan) (endpoint_id : string)
    (mediums : list Medium) : Medium :=
  let available := strip_out_unavailable_mediums m mediums in
  let current := bwu_medium_of m endpoint_id in
  if decide (current = UnknownMedium) then default UnknownMedium (head available)
  else if decide (current ∈ available) then current
  else UnknownMedium.

Definition choose_best_upgrade_medium (endpoint_id : string) (mediums : list Medium)
    : MW Medium :=
  mgr (fun m => choose_best m endpoint_id mediums).

(** ** The recursion of initiation, failure and the next-best medium

    Each body takes the call it makes to the next one. *)

Definition try_next_body (initiate : string -> Medium -> MW unit) (endpoint_id : string)
    (upgrade_mediums : list Medium) : MW unit :=
  next_medium ← choose_best_upgrade_medium endpoint_id upgrade_mediums;
  channel ← active_channel endpoint_id;
  current_medium ← optional_channel_medium channel;
  if bool_decide (current_medium <> WifiLan)
     && (bool_decide (next_medium = current_medium)
         || bool_decide (next_medium = UnknownMedium)
         || is_nil upgrade_mediums)
  then retry_upgrades_after_delay endpoint_id
  else
    has ← has_handler_for_medium next_medium;
    if negb has then mret tt
    else
      set_bwu_medium_for_endpoint endpoint_id next_medium;;
      initiate endpoint_id next_medium.

Definition failure_body (try_next : string -> list Medium -> MW unit) (endpoint_id : string)
    (info : UpgradePathInfo) : MW unit :=
  set_mgr (set_in_progress (fun s => s ∖ {[endpoint_id]}));;
  multiple ← mgr (fun m => m.(config).(support_multiple_bwu_mediums));
  connected ← gets (fun w => get_connected_endpoints_count w.(w_ecm));
  if negb multiple && (1 <? connected)%nat then mret tt
  else
    channel ← active_channel endpoint_id;
    service_id ← match channel with
                 | Some c => channel_service_id c
                 | None => mret UNKNOWN_SERVICE_ID
                 end;
    current ← get_bwu_medium_for_endpoint endpoint_id;
    (if bool_decide (current <> UnknownMedium) then
       revert_bwu_medium_for_endpoint (wrap_initiator_upgrade_service_id service_id) endpoint_id
     else mret tt);;
    all_possible ← gets (fun w => get_upgrade_mediums w.(w_client) endpoint_id);
    untried ← unwrap (drop_tried (path_info_medium info) all_possible all_possible);
    try_next endpoint_id untried.

Definition initiate_body (failure : string -> UpgradePathInfo -> MW unit)
    (endpoint_id : string) (proposed_medium : Medium) : MW unit :=
  lan ← wifi_lan_connected;
  if lan && bool_decide (proposed_medium = WifiHotspot) then mret tt
  else
    set_bwu_medium_for_endpoint endpoint_id proposed_medium;;
    has ← has_handler_for_medium proposed_medium;
    if negb has then mret tt
    else
      ongoing ← is_upgrade_ongoing endpoint_id;
      if (ongoing : bool) then mret tt
      else
        cancel_retry_upgrade_alarm endpoint_id;;
        channel ← active_channel endpoint_id;
        current_medium ← optional_channel_medium channel;
        if decide (proposed_medium = current_medium) then mret tt
        else
          match channel with
          | None => mret tt
          | Some channel =>
              service_id ← channel_service_id channel;
              client ← gets w_client;
              frame ← handler_op proposed_medium
                        (bh_initialize_upgraded_medium_for_endpoint (chan := chan)
                           client service_id endpoint_id);
              if is_nil frame then
                failure endpoint_id (upgrade_path_info_for_medium proposed_medium)
              else
                sent ← channel_op (ch_write channel frame);
                if negb (Exception_ok sent) then
                  failure endpoint_id (upgrade_path_info_for_medium proposed_medium)
                else set_mgr (set_in_progress (fun s => {[endpoint_id]} ∪ s))
          end.

Fixpoint initiate_bwu_for_endpoint (fuel : nat) (endpoint_id : string) (new_medium : Medium)
    : MW unit :=
  match fuel with
  | O => raise OutOfFuel
  | S fuel =>
      initiate_body (failure_body (try_next_body (initiate_bwu_for_endpoint fuel)))
        endpoint_id new_medium
  end.

Definition try_next_best_upgrade_mediums (fuel : nat) : string -> list Medium -> MW unit :=
  try_next_body (initiate_bwu_for_endpoint fuel).

Definition process_upgrade_failure_event (fuel : nat) : string -> UpgradePathInfo -> MW unit :=
  failure_body (try_next_best_upgrade_mediums fuel).

Definition fire_retry_alarm (fuel : nat) (endpoint_id : string) : MW unit :=
  alarm ← pending_retry_delay endpoint_id;
  cancel_retry_upgrade_alarm endpoint_id;;
  if is_none alarm then mret tt
  else
    connected ← gets (fun w => is_connected_to_endpoint w.(w_client) endpoint_id);
    if negb connected then mret tt
    else
      mediums ← gets (fun w => get_upgrade_mediums w.(w_client) endpoint_id);
      try_next_best_upgrade_mediums fuel endpoint_id mediums.

(** ** Frames read from a new channel *)

Definition read_client_introduction_frame (channel : chan) : MW (option ClientIntroduction) :=
  data ← channel_op (ch_read channel);
  mret match data with
       | Err _ => None
       | Ok data =>
           match from_bytes data with
           | Err _ => None
           | Ok frame =>
               match frame.(of_v1) ≫= v1_bandwidth_upgrade_negotiation with
               | None => None
               | Some bwu =>
                   if decide (bwu.(bwu_event_type) = Some (BwuEventType_i32 Ev_ClientIntroduction))
                   then bwu.(bwu_client_introduction)
                   else None
               end
           end
       end.

Definition read_client_introduction_ack_frame (channel : chan) : MW bool :=
  data ← channel_op (ch_read channel);
  mret match data with
       | Err _ => false
       | Ok data =>
           match from_bytes data with
           | Err _ => false
           | Ok frame =>
               bool_decide
                 (((frame.(of_v1) ≫= v1_bandwidth_upgrade_negotiation) ≫= bwu_event_type)
                  = Some (BwuEventType_i32 Ev_ClientIntroductionAck))
           end
       end.

Definition write_client_introduction_ack_frame (channel : chan) : MW bool :=
  sent ← channel_op (ch_write channel for_bwu_introduction_ack);
  mret (Exception_ok sent).

(** ** The upgrade protocol *)

Definition process_last_write_to_prior_channel_event (endpoint_id : string) : MW unit :=
  prev ← mgr (fun m => m.(previous_endpoint_channels) !! endpoint_id);
  match prev with
  | None => set_mgr (set_upgraded (fun s => {[endpoint_id]} ∪ s))
  | Some prev =>
      sent ← channel_op (ch_write prev for_bwu_safe_to_close);
      if negb (Exception_ok sent) then
        channel_op (ch_close_with_reason prev IoError);;
        set_mgr (set_previous (delete endpoint_id))
      else mret tt
  end.

Definition run_upgrade_protocol (endpoint_id : string) (new_channel : chan)
    (enable_encryption : bool) : MW unit :=
  local ← gets (fun w => local_endpoint_id w.(w_client));
  channel_op (ch_set_local_endpoint_id new_channel local);;
  channel_op (ch_pause new_channel);;
  old ← active_channel endpoint_id;
  match old with
  | None => mret tt
  | Some old_channel =>
      set_ecm (replace_channel_for_endpoint endpoint_id new_channel enable_encryption);;
      sent ← channel_op (ch_write old_channel for_bwu_last_write);
      if negb (Exception_ok sent) then mret tt
      else
        set_mgr (set_previous <[endpoint_id := old_channel]>);;
        latched ← mgr (fun m => bool_decide (endpoint_id ∈ m.(successfully_upgraded_endpoints)));
        set_mgr (set_upgraded (fun s => s ∖ {[endpoint_id]}));;
        if (latched : bool) then process_last_write_to_prior_channel_event endpoint_id
        else mret tt
  end.

Definition process_safe_to_close_prior_channel_event (endpoint_id : string) : MW unit :=
  prev ← mgr (fun m => m.(previous_endpoint_channels) !! endpoint_id);
  set_mgr (set_previous (delete endpoint_id));;
  match prev with
  | None => mret tt
  | Some prev =>
      channel_op (ch_disable_encryption prev);;
      _ ← channel_op (ch_write prev (for_disconnection false false));
      _ ← channel_op (ch_read prev);
      channel_op (ch_close_with_reason prev Upgraded);;
      current ← active_channel endpoint_id;
      match current with
      | None => mret tt
      | Some channel =>
          channel_op (ch_resume channel);;
          medium ← channel_medium channel;
          set_client (on_bandwidth_changed endpoint_id medium);;
          set_mgr (set_in_progress (fun s => s ∖ {[endpoint_id]}))
      end
  end.

Definition run_upgrade_failed_protocol (endpoint_id : string) (info : UpgradePathInfo)
    : MW unit :=
  current ← active_channel endpoint_id;
  match current with
  | None => mret tt
  | Some channel =>
      sent ← channel_op (ch_write channel (for_bwu_failure info));
      if negb (Exception_ok sent) then channel_op (ch_close_with_reason channel IoError)
      else
        medium ← get_bwu_medium_for_endpoint endpoint_id;
        (if bool_decide (medium <> UnknownMedium) then
           service_id ← channel_service_id channel;
           revert_bwu_medium_for_endpoint service_id endpoint_id
         else mret tt);;
        set_mgr (set_in_progress (fun s => s ∖ {[endpoint_id]}))
  end.

(** ** The responder *)

Definition process_bwu_path_available_event_internal (endpoint_id : string)
    (info : UpgradePathInfo) : MW (option chan) :=
  let medium := path_info_medium info in
  current ← get_bwu_medium_for_endpoint endpoint_id;
  if decide (medium <> current) then mret None
  else
    has ← has_handler_for_medium medium;
    if negb has then mret None
    else
      old ← active_channel endpoint_id;
      match old with
      | None => mret None
      | Some old_channel =>
          service_id ← channel_service_id old_channel;
          last_local ← gets (fun w => ch_local_endpoint_id old_channel w.(w_env));
          client ← gets w_client;
          let last_local :=
            if str_is_empty last_local then last_local_endpoint_id client
            else last_local in
          created ← handler_op medium
                      (bh_create_upgraded_endpoint_channel client service_id endpoint_id info);
          match created with
          | None => mret None
          | Some new_channel =>
              sent ← channel_op
                       (ch_write new_channel
                          (for_bwu_introduction (local_endpoint_id client) last_local
                             (default false info.(upi_supports_disabling_encryption))));
              if negb (Exception_ok sent) then
                channel_op (ch_close new_channel);; mret None
              else if default false info.(upi_supports_client_introduction_ack) then
                acked ← read_client_introduction_ack_frame new_channel;
                if (acked : bool) then mret (Some new_channel)
                else channel_op (ch_close new_channel);; mret None
              else mret (Some new_channel)
          end
      end.

Definition process_bwu_path_available_event (endpoint_id : string) (info : UpgradePathInfo)
    : MW unit :=
  let upgrade_medium := path_info_medium info in
  lan ← wifi_lan_connected;
  if lan && bool_decide (upgrade_medium = WifiHotspot) then
    run_upgrade_failed_protocol endpoint_id info
  else
    incoming ← gets (fun w => is_incoming_connection w.(w_client) endpoint_id);
    if (incoming : bool) then mret tt
    else
      ongoing ← is_upgrade_ongoing endpoint_id;
      if (ongoing : bool) then
        prev ← mgr (fun m => m.(previous_endpoint_channels) !! endpoint_id);
        set_mgr (set_previous (delete endpoint_id));;
        (match prev with
         | Some prev => channel_op (ch_close_with_reason prev Unfinished)
         | None => mret tt
         end);;
        current ← active_channel endpoint_id;
        match current with
        | Some cur =>
            channel_op (ch_resume cur);;
            channel_op (ch_close_with_reason cur Unfinished)
        | None => mret tt
        end
      else
        medium ← get_bwu_medium_for_endpoint endpoint_id;
        (if decide (medium = UnknownMedium) then
           set_bwu_medium_for_endpoint endpoint_id upgrade_medium
         else mret tt);;
        medium ← get_bwu_medium_for_endpoint endpoint_id;
        if decide (upgrade_medium <> medium) then
          run_upgrade_failed_protocol endpoint_id info
        else
          created ← process_bwu_path_available_event_internal endpoint_id info;
          match created with
          | None => run_upgrade_failed_protocol endpoint_id info
          | Some channel =>
              set_mgr (set_in_progress (fun s => {[endpoint_id]} ∪ s));;
              run_upgrade_protocol endpoint_id channel
                (negb (default false info.(upi_supports_disabling_encryption)))
          end.

(** ** Dispatch *)

Definition bwu_event (frame : BandwidthUpgradeNegotiationFrame) : BwuEventType :=
  default Ev_UnknownEventType (frame.(bwu_event_type) ≫= BwuEventType_try_from).

Definition on_bwu_negotiation_frame (fuel : nat) (frame : BandwidthUpgradeNegotiationFrame)
    (endpoint_id : string) : MW unit :=
  let event_type := bwu_event frame in
  connected ← gets (fun w => is_connected_to_endpoint w.(w_client) endpoint_id);
  if negb connected then
    if decide (event_type = Ev_UpgradePathAvailable) then
      match frame.(bwu_upgrade_path_info) with
      | Some info => run_upgrade_failed_protocol endpoint_id info
      | None => mret tt
      end
    else mret tt
  else
    match event_type with
    | Ev_UpgradePathAvailable =>
        match frame.(bwu_upgrade_path_info) with
        | Some info => process_bwu_path_available_event endpoint_id info
        | None => mret tt
        end
    | Ev_UpgradeFailure =>
        match frame.(bwu_upgrade_path_info) with
        | Some info => process_upgrade_failure_event fuel endpoint_id info
        | None => mret tt
        end
    | Ev_LastWriteToPriorChannel =>
        ongoing ← is_upgrade_ongoing endpoint_id;
        if negb ongoing then mret tt
        else process_last_write_to_prior_channel_event endpoint_id
    | Ev_SafeToClosePriorChannel =>
        ongoing ← is_upgrade_ongoing endpoint_id;
        if negb ongoing then mret tt
        else process_safe_to_close_prior_channel_event endpoint_id
    | _ => mret tt
    end.

Definition on_incoming_frame (fuel : nat) (frame : OfflineFrame) (endpoint_id : string)
    (medium : Medium) : MW unit :=
  if decide (get_frame_type frame <> Ft_BandwidthUpgradeNegotiation) then mret tt
  else
    match frame.(of_v1) ≫= v1_bandwidth_upgrade_negotiation with
    | None => mret tt
    | Some bwu => on_bwu_negotiation_frame fuel bwu endpoint_id
    end.

(** ** The initiator's incoming connection *)

(** The endpoint an incoming connection is for: the introduced one if it is
    being upgraded, the only one being upgraded otherwise. *)
Definition introduced_endpoint (m : BwuManager H chan) (introduced_id : string)
    : option string :=
  if decide (introduced_id ∈ m.(in_progress_upgrades)) then Some introduced_id
  else if decide (size m.(in_progress_upgrades) = 1%nat) then
    head (elements m.(in_progress_upgrades))
  else None.

Definition on_incoming_connection (connection : IncomingSocketConnection chan) : MW unit :=
  let channel := connection.(isc_channel) in
  intro ← read_client_introduction_frame channel;
  match intro with
  | None => channel_op (ch_close channel)
  | Some introduction =>
      acked ← write_client_introduction_ack_frame channel;
      if negb acked then channel_op (ch_close channel)
      else
        let introduced_id := default EmptyString introduction.(ci_endpoint_id) in
        target ← mgr (fun m => introduced_endpoint m introduced_id);
        match target with
        | None => mret tt
        | Some endpoint_id =>
            cancel_retry_upgrade_alarm endpoint_id;;
            run_upgrade_protocol endpoint_id channel
              (negb (default false introduction.(ci_supports_disabling_encryption)))
        end
  end.

(** ** Disconnection and shutdown *)

Definition on_endpoint_disconnect (service_id endpoint_id : string)
    (reason : DisconnectionReason) : MW unit :=
  medium ← get_bwu_medium_for_endpoint endpoint_id;
  has ← has_handler_for_medium medium;
  client ← gets w_client;
  (if (has : bool) then
     handler_op medium (bh_on_endpoint_disconnect (chan := chan) client endpoint_id)
   else mret tt);;
  prev ← mgr (fun m => m.(previous_endpoint_channels) !! endpoint_id);
  set_mgr (set_previous (delete endpoint_id));;
  (match prev with
   | Some old_channel => channel_op (ch_close_with_reason old_channel Shutdown)
   | None => mret tt
   end);;
  set_mgr (set_in_progress (fun s => s ∖ {[endpoint_id]}));;
  set_mgr (set_delays (delete endpoint_id));;
  cancel_retry_upgrade_alarm endpoint_id;;
  set_mgr (set_upgraded (fun s => s ∖ {[endpoint_id]}));;
  multiple ← mgr (fun m => m.(config).(support_multiple_bwu_mediums));
  connected ← gets (fun w => get_connected_endpoints_count w.(w_ecm));
  if multiple || (connected <=? 1)%nat then
    revert_bwu_medium_for_endpoint service_id endpoint_id
  else mret tt.

(** [for handler in self.handlers.values_mut()], in the order of [map_to_list]. *)
Fixpoint revert_handlers (mediums : list Medium) : MW unit :=
  match mediums with
  | [] => mret tt
  | medium :: rest =>
      handler_op medium (bh_revert_initiator_state (chan := chan));;
      revert_handlers rest
  end.

Definition shutdown : MW unit :=
  cancel_all_retry_upgrade_alarms;;
  mediums ← mgr (fun m => (map_to_list m.(handlers)).*1);
  revert_handlers mediums;;
  set_mgr (set_in_progress (fun _ => ∅));;
  set_mgr (set_previous (fun _ => ∅));;
  set_mgr (set_upgraded (fun _ => ∅)).
End manager.
