(* ===== verification/Scenario.v ===== *)
(** Concrete worlds over the fakes of [src/bwu/testing.rs], on which the
    properties of the manager are instantiated, and the fake's incoming
    connection. *)

From Stdlib Require Import ZArith.
From S2P Require Import Prelude.
From S2P Require Import Mediums.
From S2P Require Import Proto.
From S2P Require Import Codec.
From S2P Require Import Frames.
From S2P Require Import Client.
From S2P Require Import Channel.
From S2P Require Import ChannelManager.
From S2P Require Import Handler.
From S2P Require Import Testing.
From S2P Require Import Manager.

(** * Definitions *)

Abbreviation FakeWorld := (World (BaseBwuHandler FakeBwuHandler) FakeEnv FakeChan).

(** [notify_bwu_manager_of_incoming_connection]: a channel loaded with the
    introduction of the [index]-th initialise call of the records is delivered
    to the manager. *)
Definition notify_bwu_manager_of_incoming_connection `{Codec} (records : N) (medium : Medium)
    (index : nat) : M FakeWorld FakeChan :=
  w ← get;
  r ← unwrap (w.(w_env).(fe_records) !! records);
  init ← unwrap (r.(rec_handle_initialize_calls) !! index);
  service_id ← unwrap init.(in_service_id);
  endpoint_id ← unwrap init.(in_endpoint_id);
  channel ← channel_op (fake_alloc
              (set_read_output (Ok (for_bwu_introduction endpoint_id "" false))
                 (FakeEndpointChannel_new medium service_id)));
  on_incoming_connection (mkIncoming channel);;
  mret channel.

(** An endpoint "EP" connected over Bluetooth by the channel 0, whose service is
    "A", with a fake handler for each of the mediums; the records of a handler
    are under its medium's place in the list, from 1. *)
Definition fake_handlers (mediums : list Medium) : gmap Medium (BaseBwuHandler FakeBwuHandler) :=
  list_to_map (imap (fun i m => (m, base_new (mkFakeBwuHandler m (N.of_nat (S i))))) mediums).

Definition fake_env (mediums : list Medium) (channels : list FakeEndpointChannel) : FakeEnv :=
  {| fe_next := 100;
     fe_channels := list_to_map (imap (fun i c => (N.of_nat i, c)) channels);
     fe_records :=
       list_to_map (imap (fun i _ => (N.of_nat (S i), FakeBwuHandlerRecords_default)) mediums) |}.

Definition connected_client (is_incoming : bool) (upgrade_mediums : list Medium) : ClientProxy :=
  set_upgrade_mediums "EP" upgrade_mediums $
  on_connection_accepted "EP" $
  on_connection_initiated "EP" is_incoming true $
  ClientProxy_new 7 "LOCAL".

Definition bluetooth_channel : FakeEndpointChannel := FakeEndpointChannel_new Bluetooth "A".

Definition fake_world (cfg : BwuConfig) (is_incoming : bool) (mediums upgrade_mediums : list Medium)
    (channels : list FakeEndpointChannel) : FakeWorld :=
  {| w_mgr := BwuManager_new (fake_handlers mediums) cfg;
     w_client := connected_client is_incoming upgrade_mediums;
     w_ecm := register_channel_for_endpoint "EP" (mkFakeChan 0) ecm_new;
     w_env := fake_env mediums channels |}.

(** What a run leaves, for evaluation. *)
Definition after {A} (r : outcome (A * FakeWorld)) : option FakeWorld :=
  match r with Ret (_, w) => Some w | Fault _ => None end.

(** The frame of a control event. *)
Definition event_frame (event : BwuEventType) (info : option UpgradePathInfo) : OfflineFrame :=
  v1_offline_frame Ft_BandwidthUpgradeNegotiation
    (set_v1_bandwidth_upgrade_negotiation
       (Some (set_bwu_event_type (Some (BwuEventType_i32 event))
                (set_bwu_upgrade_path_info info BandwidthUpgradeNegotiationFrame_default)))).
