(* ===== verification/IntegrationTests.v ===== *)
(** The integration tests of [tests/bwu_manager.rs] and [tests/bwu_retry.rs], run on
    the model: each is a call on a world of fakes that panics when an assertion
    does not hold, and passes when it returns. *)

From Stdlib Require Import ZArith.
From Stdlib Require Import Strings.Byte.
From S2P Require Import Prelude.
From S2P Require Import Mediums.
From S2P Require Import Proto.
From S2P Require Import Codec.
From S2P Require Import Frames.
From S2P Require Import FromBytes.
From S2P Require Import Client.
From S2P Require Import Channel.
From S2P Require Import ChannelManager.
From S2P Require Import Handler.
From S2P Require Import Testing.
From S2P Require Import Manager.
From S2P Require Import Scenario.
From S2P Require Import UnitTests.

Open Scope string_scope.

Abbreviation Test := (M FakeWorld).

(** * The fixture of [tests/bwu_manager.rs] *)

(** The handlers, whose records are numbered from 1 in this order. *)
Definition fixture_mediums : list Medium := [WebRtc; WifiLan; WifiDirect; WifiHotspot].

Definition harness (mediums : list Medium) (cfg : BwuConfig) : FakeWorld :=
  {| w_mgr := BwuManager_new (fake_handlers mediums) cfg;
     w_client := ClientProxy_new 0 "LocalEndpoint";
     w_ecm := ecm_new;
     w_env := fake_env mediums [] |}.

Definition fixture (support_multiple : bool) : FakeWorld :=
  harness fixture_mediums
    (mkBwuConfig support_multiple BwuConfig_default.(use_exp_backoff_in_bwu_retry)
       BwuConfig_default.(bandwidth_upgrade_retry_delay)
       BwuConfig_default.(bandwidth_upgrade_retry_max_delay)).

(** Enough nested initiations for four mediums. *)
Definition initiate (ep : string) (medium : Medium) : Test unit := initiate_bwu_for_endpoint 5 ep medium.

Definition register (ep : string) (medium : Medium) (service_id : string) : Test FakeChan :=
  c ← channel_op (fake_alloc (FakeEndpointChannel_new medium service_id));
  set_ecm (register_channel_for_endpoint ep c);;
  mret c.

Definition create_initial_endpoint (service_id ep : string) (medium : Medium) : Test FakeChan :=
  set_client (fun c => on_connection_accepted ep (on_connection_initiated ep false false c));;
  register ep medium service_id.

Definition feed (data : bytes) (ep : string) (medium : Medium) : Test unit :=
  match from_bytes data with
  | Ok frame => on_incoming_frame 5 frame ep medium
  | Err _ => raise Panicked
  end.

Definition current_medium (ep : string) : Test Medium :=
  w ← get;
  c ← unwrap (get_channel_for_endpoint ep w.(w_ecm));
  mret (ch_medium c w.(w_env)).

Definition records_of (medium : Medium) : N :=
  match medium with WebRtc => 1 | WifiLan => 2 | WifiDirect => 3 | _ => 4 end.

Definition records (medium : Medium) : Test FakeBwuHandlerRecords :=
  w ← get; unwrap (w.(w_env).(fe_records) !! records_of medium).

Definition notify (medium : Medium) (index : nat) : Test FakeChan :=
  notify_bwu_manager_of_incoming_connection (records_of medium) medium index.

Definition drain (ep : string) (medium : Medium) : Test unit :=
  feed for_bwu_last_write ep medium;; feed for_bwu_safe_to_close ep medium.

Definition fully_upgrade_endpoint (ep : string) (initial upgrade : Medium) : Test FakeChan :=
  initiate ep upgrade;;
  r ← records upgrade;
  c ← notify upgrade (length r.(rec_handle_initialize_calls) - 1);
  drain ep initial;;
  mret c.

Definition unregister (ep : string) : Test unit :=
  set_ecm (fun m => (unregister_channel_for_endpoint ep LocalDisconnection SafeDisconnection m).2).

Definition disconnect (service_id ep : string) : Test unit :=
  on_endpoint_disconnect service_id ep LocalDisconnection.

(** The assertions that the tests make of the records of a handler. *)
Definition assert_initialized (medium : Medium) (n : nat) : Test unit :=
  r ← records medium; assert_eq (length r.(rec_handle_initialize_calls)) n.

Definition assert_reverts (medium : Medium) (services : list string) : Test unit :=
  r ← records medium; assert_eq (in_service_id <$> r.(rec_handle_revert_calls)) (Some <$> services).

Definition assert_disconnects (medium : Medium) (eps : list string) : Test unit :=
  r ← records medium; assert_eq (in_endpoint_id <$> r.(rec_disconnect_calls)) (Some <$> eps).

Definition assert_ongoing (ep : string) (b : bool) : Test unit :=
  ongoing ← is_upgrade_ongoing ep; assert_eq ongoing b.

Definition assert_paused (c : FakeChan) (b : bool) : Test unit :=
  w ← get; assert_eq (ch_is_paused c w.(w_env)) b.

Definition assert_closed (c : FakeChan) (b : bool) : Test unit :=
  w ← get; assert_eq (fake_is_closed c w.(w_env)) b.

Definition assert_upgraded_away (c : FakeChan) : Test unit :=
  assert_closed c true;;
  w ← get; assert_eq (fake_disconnection_reason c w.(w_env)) Upgraded.

Definition assert_medium (ep : string) (medium : Medium) : Test unit :=
  m ← current_medium ep; assert_eq m medium.

(** * [tests/bwu_manager.rs] *)

Definition initiate_bwu_success : Test unit :=
  initial ← create_initial_endpoint "ServiceA" "Endpoint1" Bluetooth;
  initiate "Endpoint1" WebRtc;;
  r ← records WebRtc;
  assert_eq (in_service_id <$> r.(rec_handle_initialize_calls)) [Some "ServiceA_UPGRADE"];;
  assert_eq (in_endpoint_id <$> r.(rec_handle_initialize_calls)) [Some "Endpoint1"];;
  each [WifiLan; WifiHotspot; WifiDirect] (fun m => assert_initialized m 0);;
  assert_ongoing "Endpoint1" true;;
  assert_medium "Endpoint1" Bluetooth;;
  upgraded ← notify WebRtc 0;
  assert_medium "Endpoint1" WebRtc;;
  assert_paused upgraded true;;
  assert_closed initial false;;
  drain "Endpoint1" Bluetooth;;
  assert_paused upgraded false;;
  assert_upgraded_away initial.

Definition reset_upgrade_reoffers_without_reverting_the_medium : Test unit :=
  _ ← create_initial_endpoint "ServiceA" "Endpoint1" Bluetooth;
  initiate "Endpoint1" WebRtc;;
  assert_ongoing "Endpoint1" true;;
  assert_initialized WebRtc 1;;
  initiate "Endpoint1" WebRtc;;
  assert_initialized WebRtc 1;;
  reset_upgrade_for_endpoint "Endpoint1";;
  assert_ongoing "Endpoint1" false;;
  initiate "Endpoint1" WebRtc;;
  assert_ongoing "Endpoint1" true;;
  assert_initialized WebRtc 2;;
  assert_reverts WebRtc [].

Definition receive_unexpected_safe_to_close_does_not_crash : Test unit :=
  feed for_bwu_safe_to_close "Endpoint1" Bluetooth;;
  assert_ongoing "Endpoint1" false.

Definition receive_unexpected_last_write_does_not_crash : Test unit :=
  feed for_bwu_last_write "Endpoint1" Bluetooth;;
  assert_ongoing "Endpoint1" false.

Definition receive_early_last_write_completes_upgrade : Test unit :=
  initial ← create_initial_endpoint "ServiceA" "Endpoint1" Bluetooth;
  initiate "Endpoint1" WebRtc;;
  assert_ongoing "Endpoint1" true;;
  feed for_bwu_last_write "Endpoint1" Bluetooth;;
  upgraded ← notify WebRtc 0;
  feed for_bwu_safe_to_close "Endpoint1" Bluetooth;;
  assert_paused upgraded false;;
  assert_upgraded_away initial.

Definition receive_unexpected_last_write_before_upgrade_does_not_wedge : Test unit :=
  feed for_bwu_last_write "Endpoint1" Bluetooth;;
  initial ← create_initial_endpoint "ServiceA" "Endpoint1" Bluetooth;
  initiate "Endpoint1" WebRtc;;
  upgraded ← notify WebRtc 0;
  drain "Endpoint1" Bluetooth;;
  assert_paused upgraded false;;
  assert_closed initial true.

Definition upgrade_path_available_frame : bytes :=
  for_bwu_wifi_lan_path_available [ {| sa_address := [x01; x02; x03; x04]; sa_port := 1234 |} ].

Definition block_bwu_frame_before_accept : Test unit :=
  _ ← register "Endpoint2" Bluetooth "ServiceA";
  feed upgrade_path_available_frame "Endpoint2" Bluetooth;;
  assert_ongoing "Endpoint2" false.

Definition block_bwu_frame_from_advertiser : Test unit :=
  set_client (fun c => remote_endpoint_accepted_connection "Endpoint2"
    (local_endpoint_accepted_connection "Endpoint2" (on_connection_initiated "Endpoint2" true false c)));;
  w ← get;
  assert (is_connection_accepted w.(w_client) "Endpoint2");;
  set_client (on_connection_accepted "Endpoint2");;
  w ← get;
  assert (is_connected_to_endpoint w.(w_client) "Endpoint2");;
  _ ← register "Endpoint2" Bluetooth "ServiceA";
  feed upgrade_path_available_frame "Endpoint2" Bluetooth;;
  assert_ongoing "Endpoint2" false.

Definition dont_upgrade_if_already_connected_over_requested_medium : Test unit :=
  _ ← create_initial_endpoint "ServiceA" "Endpoint1" Bluetooth;
  _ ← fully_upgrade_endpoint "Endpoint1" Bluetooth WebRtc;
  assert_initialized WebRtc 1;;
  initiate "Endpoint1" WebRtc;;
  assert_initialized WebRtc 1.

Definition dont_upgrade_from_wifi_lan_to_wifi_hotspot : Test unit :=
  _ ← create_initial_endpoint "ServiceA" "Endpoint1" WifiLan;
  initiate "Endpoint1" WifiHotspot;;
  assert_initialized WifiHotspot 0.

Definition no_initial_medium : Test unit :=
  initiate "Endpoint1" WifiHotspot;;
  each fixture_mediums (fun m => assert_initialized m 0).

Definition upgrade_already_in_progress : Test unit :=
  _ ← create_initial_endpoint "ServiceA" "Endpoint1" Bluetooth;
  initiate "Endpoint1" WebRtc;;
  assert_initialized WebRtc 1;;
  initiate "Endpoint1" WifiLan;;
  assert_initialized WebRtc 1;;
  assert_initialized WifiLan 0.

Definition failed_to_write_upgrade_path_available_frame : Test unit :=
  initial ← create_initial_endpoint "ServiceA" "Endpoint1" Bluetooth;
  channel_op (fake_op (fun s => (tt, set_write_output Io s)) initial);;
  initiate "Endpoint1" WebRtc;;
  assert_initialized WebRtc 1;;
  assert_ongoing "Endpoint1" false;;
  assert_medium "Endpoint1" Bluetooth;;
  _ ← notify WebRtc 0;
  assert_medium "Endpoint1" Bluetooth.

(** ** Reverts and disconnections *)

(** Two endpoints, of these services, upgraded from Bluetooth. *)
Definition two_upgraded (service1 service2 : string) (medium : Medium) : Test unit :=
  _ ← create_initial_endpoint service1 "Endpoint1" Bluetooth;
  _ ← create_initial_endpoint service2 "Endpoint2" Bluetooth;
  _ ← fully_upgrade_endpoint "Endpoint1" Bluetooth medium;
  _ ← fully_upgrade_endpoint "Endpoint2" Bluetooth medium;
  mret tt.

Definition gone (service_id ep : string) : Test unit := unregister ep;; disconnect service_id ep.

Definition revert_on_disconnect_multiple_endpoints_flag_enabled : Test unit :=
  two_upgraded "ServiceA" "ServiceA" WebRtc;;
  gone "ServiceA_UPGRADE" "Endpoint1";;
  assert_disconnects WebRtc ["Endpoint1"];;
  assert_reverts WebRtc [];;
  gone "ServiceA_UPGRADE" "Endpoint2";;
  assert_disconnects WebRtc ["Endpoint1"; "Endpoint2"];;
  assert_reverts WebRtc ["ServiceA_UPGRADE"].

Definition revert_on_disconnect_multiple_endpoints_flag_disabled : Test unit :=
  two_upgraded "ServiceA" "ServiceA" WebRtc;;
  gone "ServiceA_UPGRADE" "Endpoint1";;
  assert_disconnects WebRtc ["Endpoint1"];;
  assert_reverts WebRtc ["ServiceA_UPGRADE"];;
  gone "ServiceA_UPGRADE" "Endpoint2";;
  assert_disconnects WebRtc ["Endpoint1"];;
  assert_reverts WebRtc ["ServiceA_UPGRADE"].

Definition revert_on_disconnect_multiple_services_flag_enabled : Test unit :=
  two_upgraded "ServiceA" "ServiceB" WifiLan;;
  w ← get;
  assert_eq (get_connected_endpoints_count w.(w_ecm)) 2;;
  gone "ServiceA_UPGRADE" "Endpoint1";;
  assert_disconnects WifiLan ["Endpoint1"];;
  assert_reverts WifiLan ["ServiceA_UPGRADE"];;
  gone "ServiceB_UPGRADE" "Endpoint2";;
  assert_disconnects WifiLan ["Endpoint1"; "Endpoint2"];;
  assert_reverts WifiLan ["ServiceA_UPGRADE"; "ServiceB_UPGRADE"].

(** The order of the two reverts is that of a hash map. *)
Definition assert_revert_count (medium : Medium) (n : nat) : Test unit :=
  r ← records medium; assert_eq (length r.(rec_handle_revert_calls)) n.

Definition revert_on_disconnect_multiple_services_flag_disabled : Test unit :=
  two_upgraded "ServiceA" "ServiceB" WifiLan;;
  gone "ServiceA_UPGRADE" "Endpoint1";;
  assert_disconnects WifiLan ["Endpoint1"];;
  assert_revert_count WifiLan 2;;
  gone "ServiceB_UPGRADE" "Endpoint2";;
  assert_disconnects WifiLan ["Endpoint1"];;
  assert_revert_count WifiLan 2.

Definition revert_on_disconnect_multiple_services_and_endpoints_flag_enabled : Test unit :=
  _ ← create_initial_endpoint "ServiceA" "Endpoint1" Bluetooth;
  _ ← create_initial_endpoint "ServiceA" "Endpoint2" Bluetooth;
  _ ← create_initial_endpoint "ServiceB" "Endpoint3" Bluetooth;
  _ ← create_initial_endpoint "ServiceB" "Endpoint4" Bluetooth;
  _ ← create_initial_endpoint "ServiceB" "Endpoint5" Bluetooth;
  _ ← fully_upgrade_endpoint "Endpoint1" Bluetooth WebRtc;
  _ ← fully_upgrade_endpoint "Endpoint4" Bluetooth WifiHotspot;
  _ ← fully_upgrade_endpoint "Endpoint5" Bluetooth WifiDirect;
  _ ← fully_upgrade_endpoint "Endpoint2" Bluetooth WifiLan;
  _ ← fully_upgrade_endpoint "Endpoint3" Bluetooth WifiLan;
  gone "ServiceA_UPGRADE" "Endpoint1";;
  assert_disconnects WebRtc ["Endpoint1"];;
  assert_reverts WebRtc ["ServiceA_UPGRADE"];;
  gone "ServiceA_UPGRADE" "Endpoint2";;
  assert_disconnects WifiLan ["Endpoint2"];;
  assert_reverts WifiLan ["ServiceA_UPGRADE"];;
  gone "ServiceB_UPGRADE" "Endpoint3";;
  assert_disconnects WifiLan ["Endpoint2"; "Endpoint3"];;
  assert_reverts WifiLan ["ServiceA_UPGRADE"; "ServiceB_UPGRADE"];;
  gone "ServiceB_UPGRADE" "Endpoint4";;
  assert_disconnects WifiHotspot ["Endpoint4"];;
  assert_reverts WifiHotspot ["ServiceB_UPGRADE"];;
  gone "ServiceB_UPGRADE" "Endpoint5";;
  assert_disconnects WifiDirect ["Endpoint5"];;
  assert_reverts WifiDirect ["ServiceB_UPGRADE"];;
  assert_disconnects WebRtc ["Endpoint1"];;
  assert_reverts WebRtc ["ServiceA_UPGRADE"].

(** An endpoint of another service fails over WEB_RTC, in the middle of its upgrade. *)
Definition upgrade_failure : Test unit :=
  two_upgraded "ServiceA" "ServiceA" WebRtc;;
  _ ← create_initial_endpoint "ServiceB" "Endpoint3" Bluetooth;
  initiate "Endpoint3" WebRtc;;
  _ ← notify WebRtc 2;
  feed (for_bwu_failure (upgrade_path_info_for_medium WebRtc)) "Endpoint3" WebRtc.

Definition revert_on_upgrade_failure_flag_enabled : Test unit :=
  upgrade_failure;; assert_reverts WebRtc ["ServiceB_UPGRADE"].

Definition revert_on_upgrade_failure_flag_disabled : Test unit :=
  upgrade_failure;; assert_reverts WebRtc [].

(** The offer of a remote that does not read an acknowledgement. *)
Definition without_ack (f : OfflineFrame) : OfflineFrame :=
  let path := set_upi_supports_client_introduction_ack (Some false) in
  let bwu b := set_bwu_upgrade_path_info (path <$> b.(bwu_upgrade_path_info)) b in
  let v1 v := set_v1_bandwidth_upgrade_negotiation (bwu <$> v.(v1_bandwidth_upgrade_negotiation)) v in
  mkOfflineFrame f.(of_version) (v1 <$> f.(of_v1)).

Definition responder_path_available_frame (medium : Medium) : bytes :=
  match medium with
  | WifiDirect =>
      for_bwu_wifi_direct_path_available "" "" 2143 2412 false "123.234.23.1" "NC-WifiDirectTest" "b592f7d3"
  | WifiHotspot =>
      for_bwu_wifi_hotspot_path_available
        {| whc_ssid := Some "Direct-357a2d8c"; whc_password := Some "b592f7d3";
           whc_port := Some 1234%Z; whc_gateway := Some "123.234.23.1";
           whc_frequency := Some 2412%Z; whc_address_candidates := [] |} false
  | _ => for_bwu_wifi_lan_path_available [ {| sa_address := str_bytes "ABCD"; sa_port := 1234 |} ]
  end.

(** The local device takes the offer, and the remote goes. *)
Definition responder_disconnects (medium : Medium) : Test unit :=
  _ ← create_initial_endpoint "ServiceA" "Endpoint1" Bluetooth;
  match from_bytes (responder_path_available_frame medium) with
  | Ok frame => on_incoming_frame 5 (without_ack frame) "Endpoint1" Bluetooth
  | Err _ => raise Panicked
  end;;
  disconnect "ServiceA" "Endpoint1".

Definition revert_on_disconnect_wifi_direct_responder : Test unit :=
  responder_disconnects WifiDirect;;
  assert_disconnects WifiDirect ["Endpoint1"];;
  assert_revert_count WifiDirect 1.

Definition revert_on_disconnect_hotspot_responder : Test unit :=
  responder_disconnects WifiHotspot;; assert_revert_count WifiHotspot 1.

Definition revert_on_disconnect_wifi_lan_responder : Test unit :=
  responder_disconnects WifiLan;; assert_revert_count WifiLan 0.

(** ** The tests pass *)

Definition all_pass (w : FakeWorld) (tests : list (Test unit)) : bool := forallb (fun t => passes t w) tests.

Example upgrade_tests_pass :
  all_pass (fixture true)
    [initiate_bwu_success; receive_unexpected_safe_to_close_does_not_crash;
     receive_unexpected_last_write_does_not_crash; receive_early_last_write_completes_upgrade;
     receive_unexpected_last_write_before_upgrade_does_not_wedge; block_bwu_frame_before_accept;
     block_bwu_frame_from_advertiser; dont_upgrade_if_already_connected_over_requested_medium;
     dont_upgrade_from_wifi_lan_to_wifi_hotspot; no_initial_medium; upgrade_already_in_progress;
     failed_to_write_upgrade_path_available_frame]
  && all_pass (fixture false)
       [initiate_bwu_success; reset_upgrade_reoffers_without_reverting_the_medium] = true.
Proof. vm_compute. reflexivity. Qed.

Example revert_tests_pass :
  all_pass (fixture true)
    [revert_on_disconnect_multiple_endpoints_flag_enabled;
     revert_on_disconnect_multiple_services_flag_enabled;
     revert_on_disconnect_multiple_services_and_endpoints_flag_enabled;
     revert_on_upgrade_failure_flag_enabled; revert_on_disconnect_wifi_direct_responder;
     revert_on_disconnect_hotspot_responder; revert_on_disconnect_wifi_lan_responder]
  && all_pass (fixture false)
       [revert_on_disconnect_multiple_endpoints_flag_disabled;
        revert_on_disconnect_multiple_services_flag_disabled;
        revert_on_upgrade_failure_flag_disabled] = true.
Proof. vm_compute. reflexivity. Qed.

(** * [tests/bwu_retry.rs] *)

Definition secs (n : Z) : Z := (n * 1000000000)%Z.

(** [connect]: the remote's mediums are given beforehand. *)
Definition connect (ep : string) (medium : Medium) (upgrade_mediums : list Medium) : Test unit :=
  set_client (fun c => set_upgrade_mediums ep upgrade_mediums
    (on_connection_accepted ep (on_connection_initiated ep false false c)));;
  _ ← register ep medium "ServiceA";
  mret tt.

Definition feed_failure (ep : string) (tried : Medium) : Test unit :=
  feed (for_bwu_failure (upgrade_path_info_for_medium tried)) ep Bluetooth.

Definition assert_pending (ep : string) (delay : option Z) : Test unit :=
  d ← pending_retry_delay ep; assert_eq d (secs <$> delay).

(** The handlers of [Harness::new] have the records of their places in the list. *)
Definition assert_initialize_calls (records : N) (services : list string) : Test unit :=
  w ← get;
  r ← unwrap (w.(w_env).(fe_records) !! records);
  assert_eq (in_service_id <$> r.(rec_handle_initialize_calls)) (Some <$> services).

Definition linear_backoff : BwuConfig := mkBwuConfig true false 0 0.

Definition first_retry_uses_initial_delay_exp_default : Test unit :=
  d ← calculate_next_retry_delay "fresh"; assert_eq d (secs 3).

Definition exp_backoff_doubles_and_caps_at_max : Test unit :=
  connect "Endpoint1" Bluetooth [];;
  feed_failure "Endpoint1" WebRtc;;
  assert_pending "Endpoint1" (Some 3%Z);;
  each [6; 12; 24; 48; 96; 192; 300; 300]%Z (fun d =>
    fire_retry_alarm 5 "Endpoint1";; assert_pending "Endpoint1" (Some d)).

Definition linear_backoff_grows_by_initial_and_caps : Test unit :=
  connect "Endpoint1" Bluetooth [];;
  feed_failure "Endpoint1" WebRtc;;
  assert_pending "Endpoint1" (Some 5%Z);;
  each [10; 10]%Z (fun d => fire_retry_alarm 5 "Endpoint1";; assert_pending "Endpoint1" (Some d)).

Definition failure_tries_next_untried_medium : Test unit :=
  connect "Endpoint1" Bluetooth [WebRtc; WifiDirect];;
  initiate "Endpoint1" WebRtc;;
  assert_initialize_calls 1 ["ServiceA_UPGRADE"];;
  feed_failure "Endpoint1" WebRtc;;
  assert_initialize_calls 2 ["ServiceA_UPGRADE"];;
  assert_ongoing "Endpoint1" true;;
  assert_pending "Endpoint1" None.

Definition failure_with_no_untried_medium_schedules_retry : Test unit :=
  connect "Endpoint1" Bluetooth [];;
  feed_failure "Endpoint1" WebRtc;;
  assert_pending "Endpoint1" (Some 3%Z);;
  assert_ongoing "Endpoint1" false.

Definition no_retry_scheduled_when_already_on_wifi_lan : Test unit :=
  connect "Endpoint1" WifiLan [];;
  feed_failure "Endpoint1" WebRtc;;
  assert_pending "Endpoint1" None.

Definition scheduled : Test unit :=
  connect "Endpoint1" Bluetooth [];;
  feed_failure "Endpoint1" WebRtc;;
  assert_pending "Endpoint1" (Some 3%Z).

Definition cancel_keeps_backoff_so_a_new_initiate_resumes_it : Test unit :=
  scheduled;;
  initiate "Endpoint1" WebRtc;;
  assert_pending "Endpoint1" None;;
  feed_failure "Endpoint1" WebRtc;;
  assert_pending "Endpoint1" (Some 6%Z).

Definition disconnect_resets_backoff_and_cancels_alarm : Test unit :=
  scheduled;;
  disconnect "ServiceA" "Endpoint1";;
  assert_pending "Endpoint1" None;;
  feed_failure "Endpoint1" WebRtc;;
  assert_pending "Endpoint1" (Some 3%Z).

Definition fire_with_no_pending_alarm_is_a_noop : Test unit :=
  fire_retry_alarm 5 "Nobody";; assert_pending "Nobody" None.

Definition fire_after_disconnect_does_not_reschedule : Test unit :=
  scheduled;;
  set_client (on_disconnected "Endpoint1");;
  fire_retry_alarm 5 "Endpoint1";;
  assert_pending "Endpoint1" None.

Definition shutdown_cancels_all_retry_alarms : Test unit :=
  scheduled;; shutdown;; assert_pending "Endpoint1" None.

Example retry_tests_pass :
  all_pass (harness [] BwuConfig_default)
    [first_retry_uses_initial_delay_exp_default; exp_backoff_doubles_and_caps_at_max;
     fire_with_no_pending_alarm_is_a_noop]
  && all_pass (harness [] linear_backoff) [linear_backoff_grows_by_initial_and_caps]
  && all_pass (harness [WebRtc; WifiDirect] BwuConfig_default) [failure_tries_next_untried_medium]
  && all_pass (harness [WebRtc] BwuConfig_default)
       [failure_with_no_untried_medium_schedules_retry; no_retry_scheduled_when_already_on_wifi_lan;
        cancel_keeps_backoff_so_a_new_initiate_resumes_it; disconnect_resets_backoff_and_cancels_alarm;
        fire_after_disconnect_does_not_reschedule; shutdown_cancels_all_retry_alarms] = true.
Proof. vm_compute. reflexivity. Qed.
