(* ===== verification/ManagerSteps.v ===== *)
(** The rules by which properties of the manager are proved: a weakest
    precondition rule for each access to the world, and the theorem that a
    predicate closed under the elementary changes an operation makes for one
    endpoint is preserved by every operation of the manager for that endpoint. *)

From Stdlib Require Import ZArith.
From S2P Require Import Prelude.
From S2P Require Import Mediums.
From S2P Require Import Proto.
From S2P Require Import Codec.
From S2P Require Import Frames.
From S2P Require Import ServiceId.
From S2P Require Import Client.
From S2P Require Import Channel.
From S2P Require Import ChannelManager.
From S2P Require Import Handler.
From S2P Require Import Manager.

(** * Definitions *)

Definition upd_mgr {H env chan} (f : BwuManager H chan -> BwuManager H chan)
    (w : World H env chan) : World H env chan :=
  mkWorld (f w.(w_mgr)) w.(w_client) w.(w_ecm) w.(w_env).

Definition upd_env {H env chan} (e : env) (w : World H env chan) : World H env chan :=
  mkWorld w.(w_mgr) w.(w_client) w.(w_ecm) e.

Definition upd_ecm {H env chan} (f : EndpointChannelManager chan -> EndpointChannelManager chan)
    (w : World H env chan) : World H env chan :=
  mkWorld w.(w_mgr) w.(w_client) (f w.(w_ecm)) w.(w_env).

Definition upd_client {H env chan} (f : ClientProxy -> ClientProxy) (w : World H env chan)
    : World H env chan :=
  mkWorld w.(w_mgr) (f w.(w_client)) w.(w_ecm) w.(w_env).

Section rules.
Context {H env chan : Type} `{EndpointChannel env chan} `{BwuHandler H env chan} `{Codec}.

(** The elementary changes that the operations for [ep] make, each under the
    condition under which the code makes it. *)
Class closed_under_steps (E : fault -> Prop) (G : World H env chan -> Prop) (ep : string)
    : Prop := {
  st_env w e : G w -> channel_call w.(w_env) e -> G (upd_env e w);
  st_handler w medium h h' e :
    G w -> w.(w_mgr).(handlers) !! medium = Some h ->
    endpoint_call H env chan w.(w_mgr).(config).(support_multiple_bwu_mediums) ep
      (h, w.(w_env)) (h', e) ->
    G (upd_env e (upd_mgr (set_handlers <[medium := h']>) w));
  st_medium w medium :
    G w ->
    G (upd_mgr (fun m => if m.(config).(support_multiple_bwu_mediums) then
                           set_mediums <[ep := medium]> m
                         else set_global_medium medium m) w);
  st_clear_global w :
    G w -> w.(w_mgr).(config).(support_multiple_bwu_mediums) = false ->
    G (upd_mgr (set_global_medium UnknownMedium) w);
  st_clear_medium w :
    G w -> w.(w_mgr).(config).(support_multiple_bwu_mediums) = true ->
    G (upd_mgr (set_mediums (delete ep)) w);
  st_begin w : G w -> G (upd_mgr (set_in_progress (fun s => {[ep]} ∪ s)) w);
  st_end w : G w -> G (upd_mgr (set_in_progress (fun s => s ∖ {[ep]})) w);
  st_park w c :
    G w -> G (upd_mgr (set_upgraded (fun s => s ∖ {[ep]}))
                (upd_mgr (set_previous <[ep := c]>) w));
  st_unpark w : G w -> G (upd_mgr (set_previous (delete ep)) w);
  st_latch w :
    G w -> w.(w_mgr).(previous_endpoint_channels) !! ep = None ->
    G (upd_mgr (set_upgraded (fun s => {[ep]} ∪ s)) w);
  st_unlatch w : G w -> G (upd_mgr (set_upgraded (fun s => s ∖ {[ep]})) w);
  st_cancel w : G w -> G (upd_mgr (set_alarms (delete ep)) w);
  st_forget w :
    G w -> G (upd_mgr (set_alarms (delete ep)) (upd_mgr (set_delays (delete ep)) w));
  st_schedule w : G w -> wp E (retry_upgrades_after_delay ep) (fun _ => G) w;
  st_swap w c enc : G w -> G (upd_ecm (replace_channel_for_endpoint ep c enc) w);
  st_changed w medium : G w -> G (upd_client (on_bandwidth_changed ep medium) w);
}.

(** An operation that preserves a predicate, with the faults [E] alone. *)
Definition preserves {A} (E : fault -> Prop) (G : World H env chan -> Prop)
    (m : M (World H env chan) A) : Prop :=
  forall w, G w -> wp E m (fun _ w' => G w') w.

(** * Rules *)

Implicit Types (E : fault -> Prop) (w : World H env chan).

Lemma wp_mgr {A} E (f : BwuManager H chan -> A) (Q : A -> _ -> Prop) w :
  Q (f w.(w_mgr)) w -> wp E (mgr f) Q w.
Proof. done. Qed.

Lemma wp_set_mgr E f (Q : unit -> _ -> Prop) w : Q tt (upd_mgr f w) -> wp E (set_mgr f) Q w.
Proof. done. Qed.

Lemma wp_set_ecm E f (Q : unit -> _ -> Prop) w : Q tt (upd_ecm f w) -> wp E (set_ecm f) Q w.
Proof. done. Qed.

Lemma wp_set_client E f (Q : unit -> _ -> Prop) w :
  Q tt (upd_client f w) -> wp E (set_client f) Q w.
Proof. done. Qed.

Lemma wp_channel_op {A} E (m : M env A) (Q : A -> _ -> Prop) w :
  wp E m (fun _ _ => True) w.(w_env) ->
  (forall a e, m w.(w_env) = Ret (a, e) -> Q a (upd_env e w)) -> wp E (channel_op m) Q w.
Proof.
  unfold wp, channel_op. destruct (m (w_env w)) as [[a e]|f]; [|done]. intros _ HQ. by apply HQ.
Qed.

Lemma wp_handler_op {A} E medium h (m : M (H * env) A) (Q : A -> _ -> Prop) w :
  w.(w_mgr).(handlers) !! medium = Some h ->
  wp E m (fun _ _ => True) (h, w.(w_env)) ->
  (forall a h' e, m (h, w.(w_env)) = Ret (a, (h', e)) ->
     Q a (upd_env e (upd_mgr (set_handlers <[medium := h']>) w))) ->
  wp E (handler_op medium m) Q w.
Proof.
  unfold wp, handler_op. intros ->. destruct (m (h, w_env w)) as [[a [h' e]]|f]; [|done].
  intros _ HQ. by apply HQ.
Qed.

Lemma handler_exists_some (m : BwuManager H chan) medium :
  handler_exists m medium = true ->
  medium <> UnknownMedium /\ exists h, m.(handlers) !! medium = Some h.
Proof.
  unfold handler_exists. intros Hex. bool_split. split; [done|]. by apply is_some_true.
Qed.

Lemma handler_exists_unknown (m : BwuManager H chan) : handler_exists m UnknownMedium = false.
Proof. done. Qed.
End rules.

(** One rule application for an access to the world. *)
Ltac world_step :=
  cbv beta;
  lazymatch goal with
  | |- wp _ (mgr _) _ _ => apply wp_mgr
  | |- wp _ (set_mgr _) _ _ => apply wp_set_mgr
  | |- wp _ (set_ecm _) _ _ => apply wp_set_ecm
  | |- wp _ (set_client _) _ _ => apply wp_set_client
  | |- wp _ (is_upgrade_ongoing _) _ _ => unfold is_upgrade_ongoing; apply wp_mgr
  | |- wp _ (get_bwu_medium_for_endpoint _) _ _ =>
      unfold get_bwu_medium_for_endpoint; apply wp_mgr
  | |- wp _ (has_handler_for_medium _) _ _ => unfold has_handler_for_medium; apply wp_mgr
  | |- wp _ (choose_best_upgrade_medium _ _) _ _ =>
      unfold choose_best_upgrade_medium; apply wp_mgr
  | |- wp _ (pending_retry_delay _) _ _ => unfold pending_retry_delay; apply wp_mgr
  | |- wp _ (set_bwu_medium_for_endpoint _ _) _ _ =>
      unfold set_bwu_medium_for_endpoint; apply wp_set_mgr
  | |- wp _ (cancel_retry_upgrade_alarm _) _ _ =>
      unfold cancel_retry_upgrade_alarm; apply wp_set_mgr
  | |- wp _ (active_channel _) _ _ => unfold active_channel; apply wp_gets
  | |- wp _ (channel_medium _) _ _ => unfold channel_medium; apply wp_gets
  | |- wp _ (channel_service_id _) _ _ => unfold channel_service_id; apply wp_gets
  | |- wp _ wifi_lan_connected _ _ => unfold wifi_lan_connected; apply wp_gets
  | |- wp _ (if ?b then _ else _) _ _ =>
      let Hb := fresh "Hb" in destruct b eqn:Hb
  | |- wp _ (match ?o with Some _ => _ | None => _ end) _ _ =>
      let Ho := fresh "Ho" in destruct o eqn:Ho
  | |- _ => wp_step
  end.

(** The predicate of [closed_under_steps] on a world built by elementary changes. *)
Ltac closed :=
  repeat first
    [ assumption | apply st_medium | apply st_begin | apply st_end
    | apply st_park | apply st_forget | apply st_unpark | apply st_unlatch | apply st_cancel
    | apply st_swap | apply st_changed
    | apply st_clear_global; [|assumption] | apply st_clear_medium; [|assumption]
    | apply st_latch; [|assumption] ].

(** The goals that a call on a channel or a handler leaves. *)
Ltac faults :=
  intros;
  first [ apply cf_read | apply cf_write | apply cf_close | apply cf_close_with_reason
        | apply cf_set_local | apply cf_pause | apply cf_resume | apply cf_disable
        | apply hf_initialize | apply hf_revert | apply hf_revert_endpoint
        | apply hf_revert_responder | apply hf_create | apply hf_disconnect ].

(** What call it is. *)
Ltac calls :=
  intros;
  first [ by eapply call_read | by eapply call_write | by eapply call_close
        | by eapply call_close_with_reason | by eapply call_set_local | by eapply call_pause
        | by eapply call_resume | by eapply call_disable
        | by eapply ecall_initialize | by eapply ecall_revert_endpoint
        | by eapply ecall_revert_responder | by eapply ecall_create | by eapply ecall_disconnect
        | eapply ecall_revert; [eassumption|eassumption] ].

Section closure.
Context {H env chan : Type} `{EndpointChannel env chan} `{BwuHandler H env chan} `{Codec}.
Context (E : fault -> Prop) (G : World H env chan -> Prop) (ep : string).
Context `{HE : !ChannelFaults env chan E} `{HH : !HandlerFaults H env chan E}.
Context `{HG : !closed_under_steps E G ep}.
Implicit Types (w : World H env chan).

(** A channel call that cannot fault otherwise. *)
Lemma wp_call {A} (m : M env A) (Q : A -> _ -> Prop) w :
  G w -> (forall e, wp E m (fun _ _ => True) e) ->
  (forall e a e', runs_to m e a e' -> channel_call e e') ->
  (forall a w', G w' -> w'.(w_mgr) = w.(w_mgr) -> w'.(w_ecm) = w.(w_ecm) -> Q a w') ->
  wp E (channel_op m) Q w.
Proof.
  intros Hw Hm Hc HQ. apply wp_channel_op; [apply Hm|]. intros a e Hrun. apply HQ; [|done|done].
  apply st_env; [done|]. by eapply Hc.
Qed.

Lemma wp_handle {A} medium (m : M (H * env) A) (Q : A -> _ -> Prop) w :
  G w -> handler_exists w.(w_mgr) medium = true ->
  (forall h, wp E m (fun _ _ => True) h) ->
  (forall h a h', runs_to m h a h' ->
     endpoint_call H env chan w.(w_mgr).(config).(support_multiple_bwu_mediums) ep h h') ->
  (forall a w', G w' -> Q a w') ->
  wp E (handler_op medium m) Q w.
Proof.
  intros Hw [_ [h Hh]]%handler_exists_some Hm Hc HQ.
  apply (wp_handler_op E medium h); [done|apply Hm|]. intros a h' e Hrun.
  apply HQ, (st_handler _ _ h); [done|done|]. by eapply Hc.
Qed.

(** Running a call whose effect is known to be preserved. *)
Lemma wp_preserved {A} (m : M (World H env chan) A) (Q : A -> _ -> Prop) w :
  preserves E G m -> G w -> (forall a w', G w' -> Q a w') -> wp E m Q w.
Proof. intros Hm Hw HQ. eapply wp_mono; [by apply Hm|done|by eauto]. Qed.

Ltac step_calls :=
  repeat first
    [ world_step
    | apply wp_call; [bool_split; by closed | by faults | by calls | intros ? ? ? ? ?]
    | apply wp_handle; [bool_split; by closed | by bool_split | by faults | bool_split; by calls | intros ? ? ?] ];
  bool_split.

Lemma revert_preserves service_id :
  preserves E G (revert_bwu_medium_for_endpoint service_id ep).
Proof. intros w Hw. unfold revert_bwu_medium_for_endpoint. step_calls; by closed. Qed.

Lemma optional_medium_preserves c : preserves E G (optional_channel_medium c).
Proof. intros w Hw. unfold optional_channel_medium. by step_calls. Qed.

Lemma choose_best_in (m : BwuManager H chan) mediums :
  choose_best m ep mediums = UnknownMedium \/ choose_best m ep mediums ∈ mediums.
Proof.
  unfold choose_best, strip_out_unavailable_mediums.
  assert (Hsub : forall x, x ∈ filter (fun x => handler_exists m x = true) mediums -> x ∈ mediums)
    by (intros x [_ Hx]%list_elem_of_filter; done).
  case_decide; [|case_decide; [right; by apply Hsub|by left]].
  destruct (filter _ mediums) as [|x l]; [by left|right]. apply Hsub. by left.
Qed.

Lemma try_next_preserves initiate mediums :
  (forall medium, medium ∈ mediums -> preserves E G (initiate ep medium)) ->
  preserves E G (try_next_body initiate ep mediums).
Proof.
  intros Hin w Hw. unfold try_next_body, optional_channel_medium. step_calls; try done.
  all: try (by apply st_schedule).
  all: destruct (choose_best_in (w_mgr w) mediums) as [Hu|Hu];
    [by rewrite Hu, handler_exists_unknown in *|apply Hin; [done|by closed]].
Qed.

Lemma drop_tried_total last all_possible :
  exists untried, drop_tried last all_possible all_possible = Some untried.
Proof.
  induction all_possible as [|m ms [u Hu]]; simpl; [by eauto|]. case_decide; by eauto.
Qed.

Lemma wp_untried last all_possible (Q : list Medium -> _ -> Prop) w :
  (forall untried, drop_tried last all_possible all_possible = Some untried -> Q untried w) ->
  wp E (unwrap (drop_tried last all_possible all_possible)) Q w.
Proof.
  intros HQ. destruct (drop_tried_total last all_possible) as [u Hu]. rewrite Hu. by apply HQ.
Qed.

(** The steps of an operation that calls others, each preserved by a lemma. *)
Ltac step_with lem :=
  repeat first
    [ progress step_calls
    | apply wp_untried; intros ? ?
    | apply wp_preserved; [by apply lem | bool_split; by closed | intros ? ? ?] ];
  try by closed.

Lemma failure_preserves try_next info :
  (forall w untried,
     G w ->
     drop_tried (path_info_medium info) (get_upgrade_mediums w.(w_client) ep)
       (get_upgrade_mediums w.(w_client) ep) = Some untried ->
     wp E (try_next ep untried) (fun _ w' => G w') w) ->
  preserves E G (failure_body try_next ep info).
Proof.
  intros Htry w Hw. unfold failure_body. step_with revert_preserves.
  all: apply Htry; [by closed|done].
Qed.

Lemma initiate_body_preserves failure medium :
  preserves E G (failure ep (upgrade_path_info_for_medium medium)) ->
  preserves E G (initiate_body failure ep medium).
Proof.
  intros Hfail w Hw. unfold initiate_body, optional_channel_medium. step_with Hfail.
Qed.

Context (HF : E OutOfFuel).

Lemma initiate_preserves fuel medium : preserves E G (initiate_bwu_for_endpoint fuel ep medium).
Proof.
  revert medium. induction fuel as [|fuel IH]; intros medium; [by intros w Hw|].
  apply initiate_body_preserves, failure_preserves. intros w untried Hw _.
  apply try_next_preserves; [|done]. intros m _. apply IH.
Qed.

Lemma try_next_best_preserves fuel mediums :
  preserves E G (try_next_best_upgrade_mediums fuel ep mediums).
Proof. apply try_next_preserves. intros medium _. apply initiate_preserves. Qed.

Lemma process_failure_preserves fuel info :
  preserves E G (process_upgrade_failure_event fuel ep info).
Proof. apply failure_preserves. intros w untried Hw _. by apply try_next_best_preserves. Qed.

Lemma fire_preserves fuel : preserves E G (fire_retry_alarm fuel ep).
Proof. intros w Hw. unfold fire_retry_alarm. step_with try_next_best_preserves. Qed.

Lemma last_write_preserves : preserves E G (process_last_write_to_prior_channel_event ep).
Proof. intros w Hw. unfold process_last_write_to_prior_channel_event. step_with I. Qed.

Lemma run_protocol_preserves c enc : preserves E G (run_upgrade_protocol ep c enc).
Proof. intros w Hw. unfold run_upgrade_protocol. step_with last_write_preserves. Qed.

Lemma safe_to_close_preserves : preserves E G (process_safe_to_close_prior_channel_event ep).
Proof. intros w Hw. unfold process_safe_to_close_prior_channel_event. step_with I. Qed.

Lemma failed_protocol_preserves info : preserves E G (run_upgrade_failed_protocol ep info).
Proof. intros w Hw. unfold run_upgrade_failed_protocol. step_with revert_preserves. Qed.

Lemma read_ack_preserves c : preserves E G (read_client_introduction_ack_frame c).
Proof. intros w Hw. unfold read_client_introduction_ack_frame. step_with I. Qed.

Lemma read_intro_preserves c : preserves E G (read_client_introduction_frame c).
Proof. intros w Hw. unfold read_client_introduction_frame. step_with I. Qed.

Lemma write_ack_preserves c : preserves E G (write_client_introduction_ack_frame c).
Proof. intros w Hw. unfold write_client_introduction_ack_frame. step_with I. Qed.

Lemma path_internal_preserves info :
  preserves E G (process_bwu_path_available_event_internal ep info).
Proof.
  intros w Hw. unfold process_bwu_path_available_event_internal. step_with read_ack_preserves.
Qed.

Lemma path_available_preserves info : preserves E G (process_bwu_path_available_event ep info).
Proof.
  intros w Hw. unfold process_bwu_path_available_event.
  step_with failed_protocol_preserves.
  all: apply wp_preserved; [apply path_internal_preserves|by closed|intros created w' Hw'].
  all: step_with failed_protocol_preserves; step_with run_protocol_preserves.
Qed.

Lemma negotiation_preserves fuel frame : preserves E G (on_bwu_negotiation_frame fuel frame ep).
Proof.
  intros w Hw. unfold on_bwu_negotiation_frame. step_with failed_protocol_preserves.
  destruct (bwu_event frame); step_with path_available_preserves.
  all: first [ by apply process_failure_preserves | by apply last_write_preserves
             | by apply safe_to_close_preserves ].
Qed.

Lemma incoming_frame_preserves fuel frame medium :
  preserves E G (on_incoming_frame fuel frame ep medium).
Proof. intros w Hw. unfold on_incoming_frame. step_with negotiation_preserves. Qed.

Lemma disconnect_preserves service_id reason :
  preserves E G (on_endpoint_disconnect service_id ep reason).
Proof. intros w Hw. unfold on_endpoint_disconnect. step_with revert_preserves. Qed.

Lemma reset_preserves : preserves E G (reset_upgrade_for_endpoint ep).
Proof. intros w Hw. unfold reset_upgrade_for_endpoint. step_with I. Qed.
End closure.

Section connection.
Context {H env chan : Type} `{EndpointChannel env chan} `{BwuHandler H env chan} `{Codec}.
Context (E : fault -> Prop) (G : World H env chan -> Prop).
Context `{HE : !ChannelFaults env chan E} `{HH : !HandlerFaults H env chan E}.

(** An incoming connection works for the endpoint it turns out to be for. *)
Lemma connection_preserves connection :
  (forall w e, G w -> channel_call w.(w_env) e -> G (upd_env e w)) ->
  (forall w introduced_id target, G w ->
     introduced_endpoint w.(w_mgr) introduced_id = Some target ->
     closed_under_steps E G target) ->
  preserves E G (on_incoming_connection connection).
Proof.
  intros Henv Ht w Hw. unfold on_incoming_connection, read_client_introduction_frame,
    write_client_introduction_ack_frame.
  do 2 apply wp_bind. apply wp_channel_op; [apply cf_read|intros data e Hr].
  apply Henv with (e := e) in Hw; [|by eapply call_read]. apply wp_ret. world_step.
  2: { apply wp_channel_op; [apply cf_close|intros ? e' Hc]. apply Henv; [done|by eapply call_close]. }
  do 2 apply wp_bind. apply wp_channel_op; [apply cf_write|intros sent e' Hs].
  apply Henv with (e := e') in Hw; [|by eapply call_write]. apply wp_ret.
  destruct (Exception_ok sent); cbv beta iota delta [negb].
  2: { apply wp_channel_op; [apply cf_close|intros ? e'' Hc]. apply Henv; [done|by eapply call_close]. }
  do 2 world_step. destruct (introduced_endpoint _ _) as [target|] eqn:Heq; [|done].
  apply Ht in Heq; [|done]. do 2 world_step. refine (run_protocol_preserves E G target _ _ _ _).
  by apply st_cancel.
Qed.
End connection.
