(* ===== verification/Actor.v ===== *)
(** [src/bwu/actor.rs]: the single owner of a manager.  The commands of the
    bounded channel are applied one at a time, and a timer per pending retry
    fires inline.  An execution of [run] is a sequence of iterations of its
    loop, each given the time it sees and what the channel of commands offers. *)

From Stdlib Require Import ZArith.
From S2P Require Import Prelude.
From S2P Require Import Mediums.
From S2P Require Import Proto.
From S2P Require Import Codec.
From S2P Require Import Frames.
From S2P Require Import Client.
From S2P Require Import Channel.
From S2P Require Import ChannelManager.
From S2P Require Import Handler.
From S2P Require Import Manager.

(** * Data *)

(** A query carries the sender of its reply; the reply is the result of
    [handle]. *)
Inductive BwuCommand (chan : Type) : Type :=
| ConnectionInitiated (endpoint_id : string) (is_incoming auto_upgrade_bandwidth : bool)
| ConnectionAccepted (endpoint_id : string)
| LocalEndpointAccepted (endpoint_id : string)
| RemoteEndpointAccepted (endpoint_id : string)
| Disconnected (endpoint_id : string)
| SetUpgradeMediums (endpoint_id : string) (mediums : list Medium)
| RegisterChannel (endpoint_id : string) (channel : chan)
| UnregisterChannel (endpoint_id : string) (reason : DisconnectionReason)
    (result : SafeDisconnectionResult)
| InitiateBwu (endpoint_id : string) (medium : Medium)
| ResetUpgrade (endpoint_id : string)
| IncomingFrame (frame : OfflineFrame) (endpoint_id : string) (medium : Medium)
| IncomingConnection (connection : IncomingSocketConnection chan)
| EndpointDisconnect (service_id endpoint_id : string) (reason : DisconnectionReason)
| ShutdownCommand
| IsUpgradeOngoing (endpoint_id : string)
| PendingRetryDelay (endpoint_id : string)
| BandwidthChangedEvents
| GetUpgradedChannel (endpoint_id : string).
Arguments ConnectionInitiated {chan} _ _ _.
Arguments ConnectionAccepted {chan} _.
Arguments LocalEndpointAccepted {chan} _.
Arguments RemoteEndpointAccepted {chan} _.
Arguments Disconnected {chan} _.
Arguments SetUpgradeMediums {chan} _ _.
Arguments RegisterChannel {chan} _ _.
Arguments UnregisterChannel {chan} _ _ _.
Arguments InitiateBwu {chan} _ _.
Arguments ResetUpgrade {chan} _.
Arguments IncomingFrame {chan} _ _ _.
Arguments IncomingConnection {chan} _.
Arguments EndpointDisconnect {chan} _ _ _.
Arguments ShutdownCommand {chan}.
Arguments IsUpgradeOngoing {chan} _.
Arguments PendingRetryDelay {chan} _.
Arguments BandwidthChangedEvents {chan}.
Arguments GetUpgradedChannel {chan} _.

Inductive BwuReply (chan : Type) : Type :=
| NoReply
| ReplyBool (b : bool)
| ReplyDelay (d : option Z)
| ReplyEvents (events : list (string * Medium))
| ReplyChannel (c : option chan).
Arguments NoReply {chan}.
Arguments ReplyBool {chan} _.
Arguments ReplyDelay {chan} _.
Arguments ReplyEvents {chan} _.
Arguments ReplyChannel {chan} _.

(** The owner's state: the manager with what it works on, and the armed timers. *)
Record BwuActor (H env chan : Type) : Type := mkBwuActor {
  act_world : World H env chan;
  act_armed : gmap string Z;
}.
Arguments mkBwuActor {H env chan} _ _.
Arguments act_world {H env chan} _.
Arguments act_armed {H env chan} _.

(** What [rx.recv()] offers: nothing yet, the end of the channel, a command. *)
Inductive recv_state (chan : Type) : Type :=
| RecvPending
| RecvClosed
| RecvCommand (cmd : BwuCommand chan).
Arguments RecvPending {chan}.
Arguments RecvClosed {chan}.
Arguments RecvCommand {chan} _.

(** How an iteration of the loop ends: it stops, or it goes on, having consumed
    the command or not. *)
Inductive iteration : Type := LoopBreak | LoopConsumed | LoopKept.

(** What an iteration of the loop sees: the time, the time after its work, the
    commands sent to the channel since the last one, and whether every handle
    was dropped. *)
Record tick (chan : Type) : Type := mkTick {
  tick_now : Z;
  tick_after : Z;
  tick_sent : list (BwuCommand chan);
  tick_closed : bool;
}.
Arguments mkTick {chan} _ _ _ _.
Arguments tick_now {chan} _.
Arguments tick_after {chan} _.
Arguments tick_sent {chan} _.
Arguments tick_closed {chan} _.

(** What the channel with these commands in it offers. *)
Definition offered {chan} (mailbox : list (BwuCommand chan)) (closed : bool) : recv_state chan :=
  match mailbox with
  | cmd :: _ => RecvCommand cmd
  | [] => if closed then RecvClosed else RecvPending
  end.

(** [BwuActor::build]: the registry, the client and the timers are new; the
    state behind the channels is the world's. *)
Definition build {H env chan} (hs : gmap Medium H) (cfg : BwuConfig) (local_endpoint_id : string)
    (e : env) : BwuActor H env chan :=
  mkBwuActor
    (mkWorld (BwuManager_new hs cfg) (ClientProxy_new 0 local_endpoint_id) ecm_new e) ∅.

(** * Operations *)

Section actor.
Context {H env chan : Type} `{EndpointChannel env chan} `{BwuHandler H env chan} `{Codec}.
Context (fuel : nat).
(** The last instant of the platform's clock: adding a delay beyond it panics. *)
Context (instant_max : Z).

Abbreviation MW := (M (World H env chan)).
Abbreviation MA := (M (BwuActor H env chan)).

(** [BwuActor::handle]. *)
Definition handle (cmd : BwuCommand chan) : MW (BwuReply chan) :=
  match cmd with
  | ConnectionInitiated ep incoming auto =>
      set_client (on_connection_initiated ep incoming auto);; mret NoReply
  | ConnectionAccepted ep => set_client (on_connection_accepted ep);; mret NoReply
  | LocalEndpointAccepted ep =>
      set_client (local_endpoint_accepted_connection ep);; mret NoReply
  | RemoteEndpointAccepted ep =>
      set_client (remote_endpoint_accepted_connection ep);; mret NoReply
  | Disconnected ep => set_client (on_disconnected ep);; mret NoReply
  | SetUpgradeMediums ep mediums => set_client (set_upgrade_mediums ep mediums);; mret NoReply
  | RegisterChannel ep c => set_ecm (register_channel_for_endpoint ep c);; mret NoReply
  | UnregisterChannel ep reason result =>
      set_ecm (fun m => (unregister_channel_for_endpoint ep reason result m).2);; mret NoReply
  | InitiateBwu ep medium => initiate_bwu_for_endpoint fuel ep medium;; mret NoReply
  | ResetUpgrade ep => reset_upgrade_for_endpoint ep;; mret NoReply
  | IncomingFrame frame ep medium => on_incoming_frame fuel frame ep medium;; mret NoReply
  | IncomingConnection connection => on_incoming_connection connection;; mret NoReply
  | EndpointDisconnect service_id ep reason =>
      on_endpoint_disconnect service_id ep reason;; mret NoReply
  | IsUpgradeOngoing ep => b ← is_upgrade_ongoing ep; mret (ReplyBool b)
  | PendingRetryDelay ep => d ← pending_retry_delay ep; mret (ReplyDelay d)
  | BandwidthChangedEvents =>
      events ← gets (fun w => bandwidth_changed_events w.(w_client)); mret (ReplyEvents events)
  | GetUpgradedChannel ep => c ← active_channel ep; mret (ReplyChannel c)
  | ShutdownCommand => raise Panicked
  end.

(** A call on the manager, the client or the registry. *)
Definition world_op {A} (m : MW A) : MA A := fun s =>
  match m s.(act_world) with
  | Ret (a, w) => Ret (a, mkBwuActor w s.(act_armed))
  | Fault f => Fault f
  end.

Definition set_armed (f : gmap string Z -> gmap string Z) : MA unit :=
  modify (fun s => mkBwuActor s.(act_world) (f s.(act_armed))).

(** [armed.entry(ep).or_insert_with(|| now + delay)] for each pending retry. *)
Fixpoint arm_pending (now : Z) (pending : list (string * Z)) : MA unit :=
  match pending with
  | [] => mret tt
  | (ep, delay) :: rest =>
      armed ← gets (fun s => is_some (s.(act_armed) !! ep));
      (if (armed : bool) then mret tt
       else if (now + delay <=? instant_max)%Z then set_armed <[ep := (now + delay)%Z]>
       else raise Panicked);;
      arm_pending now rest
  end.

Definition reconcile_timers (now : Z) : MA unit :=
  pending ← world_op pending_retry_delays;
  set_armed (filter (fun p => p.1 ∈ pending.*1));;
  arm_pending now pending.

(** The endpoints whose deadline has elapsed, in the order of [map_to_list]. *)
Definition due_endpoints (now : Z) (armed : gmap string Z) : list string :=
  (map_to_list (filter (fun p => (p.2 <= now)%Z) armed)).*1.

Fixpoint fire_each (due : list string) : MA unit :=
  match due with
  | [] => mret tt
  | ep :: rest =>
      set_armed (delete ep);;
      world_op (fire_retry_alarm fuel ep);;
      fire_each rest
  end.

Definition fire_due_retries (now now' : Z) : MA unit :=
  due ← gets (fun s => due_endpoints now s.(act_armed));
  fire_each due;;
  reconcile_timers now'.

(** Some timer has elapsed: its deadline, and so the earliest one, is past. *)
Definition timer_elapsed (now : Z) (s : BwuActor H env chan) : bool :=
  negb (is_nil (due_endpoints now s.(act_armed))).

(** One iteration of the loop of [run]: the timer is looked at first.  [now] is
    the time the iteration sees, [now'] the time the reconciliation after the
    work sees. *)
Definition run_iteration (now now' : Z) (recv : recv_state chan) : MA iteration :=
  elapsed ← gets (timer_elapsed now);
  if (elapsed : bool) then fire_due_retries now now';; mret LoopKept
  else
    match recv with
    | RecvPending => mret LoopKept
    | RecvClosed => mret LoopBreak
    | RecvCommand ShutdownCommand => world_op shutdown;; mret LoopBreak
    | RecvCommand cmd =>
        _ ← world_op (handle cmd);
        reconcile_timers now';;
        mret LoopConsumed
    end.

(** The loop of [run], given what each iteration sees: whether it was left,
    and the commands left in the channel.  [recv] takes the oldest command, and
    takes none when the timer wins. *)
Fixpoint run_loop (ticks : list (tick chan)) (mailbox : list (BwuCommand chan))
    : MA (bool * list (BwuCommand chan)) :=
  match ticks with
  | [] => mret (false, mailbox)
  | t :: ticks =>
      let mailbox := mailbox ++ t.(tick_sent) in
      i ← run_iteration t.(tick_now) t.(tick_after) (offered mailbox t.(tick_closed));
      match i with
      | LoopBreak => mret (true, tail mailbox)
      | LoopConsumed => run_loop ticks (tail mailbox)
      | LoopKept => run_loop ticks mailbox
      end
  end.

Definition run (start : Z) (ticks : list (tick chan)) : MA (bool * list (BwuCommand chan)) :=
  reconcile_timers start;; run_loop ticks [].
End actor.
