(* ===== verification/Invariant.v ===== *)
(** What holds of the upgrade state machine throughout: its bookkeeping stays
    consistent and it never panics, whatever the channels and the medium
    handlers do, and what it does for one endpoint leaves the others alone. *)

From Stdlib Require Import ZArith Lia.
From S2P Require Import Prelude.
From S2P Require Import Mediums.
From S2P Require Import Proto.
From S2P Require Import Codec.
From S2P Require Import Frames.
From S2P Require Import ServiceId.
From S2P Require Import Client.
From S2P Require Import Channel.
From S2P Require Import ChannelManager.
From S2P Require Import Handler.
From S2P Require Import Testing.
From S2P Require Import Manager.
From S2P Require Import Scenario.
From S2P Require Import ManagerSteps.
From S2P Require Import Actor.

(** * Definitions *)

(** The delays of a configuration are positive and can be doubled. *)
Definition config_ok (c : BwuConfig) : Prop :=
  (0 < c.(bandwidth_upgrade_retry_delay))%Z /\
  (0 < c.(bandwidth_upgrade_retry_max_delay))%Z /\
  (2 * Z.max c.(bandwidth_upgrade_retry_delay) c.(bandwidth_upgrade_retry_max_delay)
   <= DURATION_MAX)%Z.

(** The bounds of the delays of retries. *)
Definition shortest_delay (c : BwuConfig) : Z :=
  Z.min c.(bandwidth_upgrade_retry_delay) c.(bandwidth_upgrade_retry_max_delay).

Definition longest_delay (c : BwuConfig) : Z :=
  Z.max c.(bandwidth_upgrade_retry_delay) c.(bandwidth_upgrade_retry_max_delay).

(** The consistency of the bookkeeping. *)
Record mgr_wf {H chan} (m : BwuManager H chan) : Prop := {
  (** a remote LAST_WRITE is latched only while no old channel is parked *)
  wf_latch ep :
    ep ∈ m.(successfully_upgraded_endpoints) -> m.(previous_endpoint_channels) !! ep = None;
  (** a pending retry was armed with the endpoint's last delay *)
  wf_alarm ep d : m.(retry_upgrade_alarms) !! ep = Some d -> m.(retry_delays) !! ep = Some d;
  (** every delay is between the bounds of the configuration *)
  wf_delay ep d :
    m.(retry_delays) !! ep = Some d ->
    (shortest_delay m.(config) <= d <= longest_delay m.(config))%Z;
  (** only the medium bookkeeping of the configured mode is used *)
  wf_multiple :
    m.(config).(support_multiple_bwu_mediums) = true -> m.(global_medium) = UnknownMedium;
  wf_single :
    m.(config).(support_multiple_bwu_mediums) = false -> m.(endpoint_id_to_bwu_medium) = ∅;
  wf_config : config_ok m.(config);
}.

(** The endpoint a command is about; [None] for those that are about all or
    that find it out. *)
Definition command_endpoint {chan} (cmd : BwuCommand chan) : option string :=
  match cmd with
  | ConnectionInitiated ep _ _ | ConnectionAccepted ep | LocalEndpointAccepted ep
  | RemoteEndpointAccepted ep | Disconnected ep | SetUpgradeMediums ep _ | RegisterChannel ep _
  | UnregisterChannel ep _ _ | InitiateBwu ep _ | ResetUpgrade ep | IncomingFrame _ ep _
  | EndpointDisconnect _ ep _ | IsUpgradeOngoing ep | PendingRetryDelay ep
  | GetUpgradedChannel ep => Some ep
  | IncomingConnection _ | ShutdownCommand | BandwidthChangedEvents => None
  end.

Definition not_shutdown {chan} (cmd : BwuCommand chan) : bool :=
  match cmd with ShutdownCommand => false | _ => true end.

(** What the manager, the registry and the client keep under the id of an
    endpoint; the medium only where there is one for each endpoint. *)
Record EndpointView (chan : Type) : Type := mkEndpointView {
  view_medium : option Medium;
  view_in_progress : bool;
  view_parked : option chan;
  view_latched : bool;
  view_alarm : option Z;
  view_delay : option Z;
  view_channel : option chan;
  view_client : option EndpointState;
  view_events : list (string * Medium);
}.
Arguments mkEndpointView {chan} _ _ _ _ _ _ _ _ _.

Definition endpoint_view {H env chan} (ep : string) (w : World H env chan) : EndpointView chan :=
  mkEndpointView
    (w.(w_mgr).(endpoint_id_to_bwu_medium) !! ep)
    (bool_decide (ep ∈ w.(w_mgr).(in_progress_upgrades)))
    (w.(w_mgr).(previous_endpoint_channels) !! ep)
    (bool_decide (ep ∈ w.(w_mgr).(successfully_upgraded_endpoints)))
    (w.(w_mgr).(retry_upgrade_alarms) !! ep)
    (w.(w_mgr).(retry_delays) !! ep)
    (get_channel_for_endpoint ep w.(w_ecm))
    (w.(w_client).(cp_endpoints) !! ep)
    (filter (fun p => p.1 = ep) (bandwidth_changed_events w.(w_client))).

(** The services for which each handler holds a session of an endpoint. *)
Definition endpoint_sessions {H env chan} `{BwuHandler H env chan} `{!EndpointSessions H env chan}
    (ep : string) (w : World H env chan) : gmap Medium (gset string) :=
  (fun h => sessions_of h ep) <$> w.(w_mgr).(handlers).

(** The faults of a machine that does not panic. *)
Definition parks_or_starves : fault -> Prop := fun f => f <> Panicked.

(** A sequence of commands and of elapsed timers, applied by the owner. *)
Inductive work (chan : Type) : Type :=
| Apply (cmd : BwuCommand chan)
| Fire (endpoint_id : string).
Arguments Apply {chan} _.
Arguments Fire {chan} _.

Section run.
Context {H env chan : Type} `{EndpointChannel env chan} `{BwuHandler H env chan} `{Codec}.

Definition do_work (fuel : nat) (k : work chan) : M (World H env chan) unit :=
  match k with
  | Apply ShutdownCommand => shutdown
  | Apply cmd => _ ← handle fuel cmd; mret tt
  | Fire ep => fire_retry_alarm fuel ep
  end.

Fixpoint run_works (fuel : nat) (ks : list (work chan)) : M (World H env chan) unit :=
  match ks with
  | [] => mret tt
  | k :: ks => do_work fuel k;; run_works fuel ks
  end.
End run.

(** * Lemmas *)

Lemma starving : parks_or_starves OutOfFuel.
Proof. discriminate. Qed.

Section wf.
Context {H chan : Type}.
Implicit Types m : BwuManager H chan.

Lemma wf_set_handlers m f : mgr_wf m -> mgr_wf (set_handlers f m).
Proof. intros []. by split. Qed.

Lemma wf_new hs cfg :
  config_ok (resolve_config cfg) -> mgr_wf (BwuManager_new hs cfg : BwuManager H chan).
Proof. intros Hc. by split. Qed.
End wf.

(** Lookups in a map changed at one key, from a hypothesis. *)
Ltac lookups :=
  repeat match goal with
  | Hl : <[_ := _]> _ !! _ = Some _ |- _ => apply lookup_insert_Some in Hl as [[? ?]|[? ?]]
  | Hl : delete _ _ !! _ = Some _ |- _ => apply lookup_delete_Some in Hl as [? ?]
  end.

(** The cases of membership in a set changed at one element. *)
Ltac memberships :=
  repeat match goal with
  | Hm : _ ∈ _ ∖ {[_]} |- _ =>
      apply elem_of_difference in Hm as [? Hm]; rewrite elem_of_singleton in Hm
  | Hm : _ ∈ {[_]} ∪ _ |- _ => apply elem_of_union in Hm as [Hm%elem_of_singleton|?]
  end.

Section wf_steps.
Context {H env chan : Type} `{EndpointChannel env chan} `{BwuHandler H env chan} `{Codec}.
Implicit Types w : World H env chan.

Definition wf_world (c0 : BwuConfig) (w : World H env chan) : Prop :=
  mgr_wf w.(w_mgr) /\ w.(w_mgr).(config) = c0.

Lemma wf_schedule c0 ep w :
  wf_world c0 w -> wp parks_or_starves (retry_upgrades_after_delay ep) (fun _ => wf_world c0) w.
Proof.
  intros [Hw Hc]. unfold retry_upgrades_after_delay, calculate_next_retry_delay.
  pose proof (wf_config _ Hw) as (Hi & Hm & Hd).
  assert (Hend : forall d,
    (shortest_delay w.(w_mgr).(config) <= d <= longest_delay w.(w_mgr).(config))%Z ->
    wp parks_or_starves
      (cancel_retry_upgrade_alarm ep;; set_mgr (set_alarms <[ep:=d]>);;
       set_mgr (set_delays <[ep:=d]>)) (fun _ : unit => wf_world c0) w).
  { intros d Hd'. repeat world_step. split; [|done]. destruct Hw. split; simpl; try done.
    - intros ep' d' Hl. destruct (decide (ep = ep')) as [->|Hne].
      + rewrite lookup_insert_eq in *. done.
      + rewrite lookup_insert_ne, lookup_delete_ne in Hl by done.
        rewrite lookup_insert_ne by done. by eauto.
    - intros ep' d' Hl. lookups; subst; [done|by eauto]. }
  do 3 world_step. destruct (retry_delays (w_mgr w) !! ep) as [last|] eqn:Ho.
  2: { apply wp_ret, Hend. unfold shortest_delay, longest_delay. lia. }
  pose proof (wf_delay _ Hw _ _ Ho) as Hz.
  unfold shortest_delay, longest_delay in *. apply wp_bind. unfold duration_checked.
  destruct (Z.leb_spec (if use_exp_backoff_in_bwu_retry (config (w_mgr w)) then last * 2
    else last + bandwidth_upgrade_retry_delay (config (w_mgr w)))%Z DURATION_MAX) as [Hle|Hgt].
  - do 2 apply wp_ret. apply Hend. case_match; lia.
  - exfalso. case_match; lia.
Qed.

#[export] Instance wf_closed c0 ep : closed_under_steps parks_or_starves (wf_world c0) ep.
Proof.
  split; try (intros w; intros; by apply wf_schedule).
  all: intros w; intros; match goal with Hg : wf_world _ _ |- _ => destruct Hg as [Hw Hc] end.
  all: split; [|simpl; try done; by case_match].
  all: try done; try (by apply wf_set_handlers).
  all: unfold upd_mgr; simpl; destruct Hw as [Hl Ha Hd Hmu Hsi Hcf].
  - destruct (support_multiple_bwu_mediums (config (w_mgr w))) eqn:Hs; split; simpl; try done;
      intros; try congruence; by auto.
  - by split.
  - split; simpl; try done; intros; congruence.
  - by split.
  - by split.
  - split; simpl; try done; intros ep' Hep; memberships.
    rewrite lookup_insert_ne by done. by apply Hl.
  - split; simpl; try done. intros ep' Hep. apply lookup_delete_None. right. by apply Hl.
  - split; simpl; try done. intros ep' Hep. memberships; subst; [done|by apply Hl].
  - split; simpl; try done. intros ep' Hep. memberships. by apply Hl.
  - split; simpl; try done. intros ep' d Hep. lookups. by apply Ha.
  - split; simpl; try done; intros ep' d Hep; lookups; [|by eauto].
    apply lookup_delete_Some. split; [done|by apply Ha].
Qed.
End wf_steps.

(** ** Preservation by a command *)

Section commands.
Context {H env chan : Type} `{EndpointChannel env chan} `{BwuHandler H env chan} `{Codec}.
Context (E : fault -> Prop) (G : World H env chan -> Prop).
Context `{HE : !ChannelFaults env chan E} `{HH : !HandlerFaults H env chan E}.
Context (HF : E OutOfFuel).

(** A command for an endpoint, when the client's and the registry's own
    changes are preserved too. *)
Lemma handle_preserves fuel cmd ep :
  closed_under_steps E G ep ->
  (forall w k, call_endpoint k = ep -> G w -> G (upd_client (client_step k) w)) ->
  (forall w k, (match k with RegisterCall e _ | ReplaceCall e _ _ | UnregisterCall e _ _ => e end)
               = ep -> G w -> G (upd_ecm (ecm_step k) w)) ->
  command_endpoint cmd = Some ep ->
  preserves E G (handle fuel cmd).
Proof.
  intros HG Hcl Hreg Hep w Hw. destruct cmd; simpl in Hep; try discriminate Hep;
    injection Hep as ->; simpl; repeat world_step; try done.
  - by apply (Hcl w (ConnectionInitiatedCall ep is_incoming auto_upgrade_bandwidth)).
  - by apply (Hcl w (ConnectionAcceptedCall ep)).
  - by apply (Hcl w (LocalAcceptedCall ep)).
  - by apply (Hcl w (RemoteAcceptedCall ep)).
  - by apply (Hcl w (DisconnectedCall ep)).
  - by apply (Hcl w (SetUpgradeMediumsCall ep mediums)).
  - by apply (Hreg w (RegisterCall ep channel)).
  - by apply (Hreg w (UnregisterCall ep reason result)).
  - eapply wp_mono; [by apply (initiate_preserves E G ep)|done|by intros; apply wp_ret].
  - eapply wp_mono; [by apply (reset_preserves E G ep)|done|by intros; apply wp_ret].
  - eapply wp_mono; [by apply (incoming_frame_preserves E G ep)|done|by intros; apply wp_ret].
  - eapply wp_mono; [by apply (disconnect_preserves E G ep)|done|by intros; apply wp_ret].
Qed.
End commands.

(** ** Shutdown *)

Section shutdown.
Context {H env chan : Type} `{EndpointChannel env chan} `{BwuHandler H env chan} `{Codec}.
Context (E : fault -> Prop) (G : World H env chan -> Prop).
Context `{HH : !HandlerFaults H env chan E}.

Lemma revert_handlers_preserves mediums w (Q : unit -> World H env chan -> Prop) :
  (forall w medium h h' e, G w -> w.(w_mgr).(handlers) !! medium = Some h ->
     handler_call H env chan (h, w.(w_env)) (h', e) ->
     G (upd_env e (upd_mgr (set_handlers <[medium := h']>) w))) ->
  Forall (fun medium => is_Some (w.(w_mgr).(handlers) !! medium)) mediums ->
  G w -> (forall w', G w' -> Q tt w') -> wp E (revert_handlers mediums) Q w.
Proof.
  intros Hh. revert w. induction mediums as [|medium rest IH]; intros w Hall Hw HQ;
    cbn [revert_handlers]; [by apply wp_ret, HQ|].
  apply Forall_cons in Hall as [[h Hl] Hall]. apply wp_bind, (wp_handler_op E medium h);
    [done|apply hf_revert|]. intros [] h' e Hrun.
  apply IH; [|apply (Hh _ _ h); [done|done|by eapply hcall_revert]|done].
  eapply Forall_impl; [exact Hall|]. intros m' [h2 Hm']. simpl.
  destruct (decide (medium = m')) as [->|Hne].
  - rewrite lookup_insert_eq. by eauto.
  - rewrite lookup_insert_ne by done. by eauto.
Qed.
End shutdown.

Lemma handlers_keys_some {H} (hs : gmap Medium H) :
  Forall (fun medium => is_Some (hs !! medium)) (map_to_list hs).*1.
Proof.
  apply Forall_forall. intros m Hm. apply list_elem_of_fmap in Hm as ([m' h] & -> & Hin).
  apply elem_of_map_to_list in Hin. by eauto.
Qed.

Section wf_run.
Context {H env chan : Type} `{EndpointChannel env chan} `{BwuHandler H env chan} `{Codec}.
Context `{HE : !ChannelFaults env chan parks_or_starves}.
Context `{HH : !HandlerFaults H env chan parks_or_starves}.

Lemma shutdown_wf c0 : preserves (H := H) parks_or_starves (wf_world c0) shutdown.
Proof.
  intros w Hw. unfold shutdown, cancel_all_retry_upgrade_alarms. repeat world_step.
  apply (revert_handlers_preserves _ (wf_world c0)).
  - intros w' medium h h' e [Hw' Hc] _ _. split; [by apply wf_set_handlers|done].
  - apply handlers_keys_some.
  - destruct Hw as [[] Hc]. split; [|done]. by split.
  - intros w' [[] Hc]. repeat world_step. split; [|done]. split; simpl; first [assumption | by intros].
Qed.

Lemma do_work_wf c0 fuel k : preserves (H := H) parks_or_starves (wf_world c0) (do_work fuel k).
Proof.
  intros w Hw. destruct k as [cmd|ep]; [|by apply (fire_preserves parks_or_starves _ ep), Hw; apply starving].
  assert (Hcmd : forall ep, command_endpoint cmd = Some ep ->
    wp parks_or_starves (_ ← handle fuel cmd; mret tt) (fun _ => wf_world c0) w).
  { intros ep Hep. apply wp_bind.
    eapply wp_mono; [apply (handle_preserves _ (wf_world c0) starving fuel cmd ep)|done|done].
    - apply wf_closed.
    - by intros w' k _ [].
    - by intros w' k _ [].
    - done.
    - done. }
  destruct cmd; simpl in *; try (by eapply Hcmd).
  - do 2 apply wp_bind. eapply wp_mono.
    + apply (connection_preserves _ (wf_world c0)); [by intros w' e [] _| |exact Hw].
      intros; apply wf_closed.
    + done.
    + by intros; apply wp_ret.
  - by apply shutdown_wf.
  - done.
Qed.

Lemma run_works_wf c0 fuel ks :
  preserves (H := H) parks_or_starves (wf_world c0) (run_works fuel ks).
Proof.
  induction ks as [|k ks IH]; intros w Hw; [done|]. apply wp_bind.
  eapply wp_mono; [by apply do_work_wf|done|]. intros [] w' Hw'. by apply IH.
Qed.
End wf_run.

(** ** Isolation *)

#[export] Instance any_channel_faults `{EndpointChannel env chan} :
  ChannelFaults env chan (fun _ => True).
Proof. split; intros; unfold wp; repeat case_match; done. Qed.

#[export] Instance any_handler_faults `{BwuHandler H env chan} :
  HandlerFaults H env chan (fun _ => True).
Proof. split; intros; unfold wp; repeat case_match; done. Qed.

(** Whether a piece of work may concern an endpoint. *)
Definition concerns {H env chan} (w : World H env chan) (k : work chan) (ep : string) : bool :=
  match k with
  | Apply (IncomingConnection _) => bool_decide (ep ∈ w.(w_mgr).(in_progress_upgrades))
  | Apply ShutdownCommand => true
  | Apply cmd => bool_decide (command_endpoint cmd = Some ep)
  | Fire ep' => bool_decide (ep' = ep)
  end.

Lemma introduced_in_progress {H chan} (m : BwuManager H chan) id target :
  introduced_endpoint m id = Some target -> target ∈ m.(in_progress_upgrades).
Proof.
  unfold introduced_endpoint. case_decide; [by intros [= <-]|]. case_decide; [|done].
  intros Hh. apply elem_of_elements. destruct (elements _); [done|].
  injection Hh as ->. by left.
Qed.

(** Two predicates that are kept are kept together. *)
Lemma closed_both {H env chan} `{EndpointChannel env chan} `{BwuHandler H env chan} `{Codec}
    (E : fault -> Prop) (G1 G2 : World H env chan -> Prop) ep :
  closed_under_steps E G1 ep -> closed_under_steps E G2 ep ->
  closed_under_steps E (fun w => G1 w /\ G2 w) ep.
Proof.
  intros [] []. split; intros w; intros; match goal with Hw : G1 _ /\ G2 _ |- _ => destruct Hw end;
    first [by split; eauto | by apply wp_conj; eauto].
Qed.

Section isolation.
Context {H env chan : Type} `{EndpointChannel env chan} `{BwuHandler H env chan} `{Codec}.

Lemma client_step_other ep k c :
  call_endpoint k <> ep ->
  (client_step k c).(cp_endpoints) !! ep = c.(cp_endpoints) !! ep /\
  filter (fun p => p.1 = ep) (bandwidth_changed_events (client_step k c)) =
  filter (fun p => p.1 = ep) (bandwidth_changed_events c).
Proof.
  intros Hne. destruct k; simpl in *; rewrite ?lookup_insert_ne, ?lookup_delete_ne by done;
    split; try done.
  unfold bandwidth_changed_events. simpl. rewrite filter_app, filter_cons_False, filter_nil by done.
  apply app_nil_r.
Qed.

Lemma ecm_step_other ep (k : ecm_call chan) m :
  (match k with RegisterCall e _ | ReplaceCall e _ _ | UnregisterCall e _ _ => e end) <> ep ->
  get_channel_for_endpoint ep (ecm_step k m) = get_channel_for_endpoint ep m.
Proof.
  intros Hne. unfold get_channel_for_endpoint.
  destruct k; simpl; by rewrite ?lookup_insert_ne, ?lookup_delete_ne.
Qed.

#[local] Instance isolation_closed (v : EndpointView chan) ep ep' :
  ep <> ep' ->
  closed_under_steps (fun _ => True) (fun w : World H env chan => endpoint_view ep' w = v) ep.
Proof.
  intros Hne.
  assert (Hdel : forall A (m : gmap string A), delete ep m !! ep' = m !! ep')
    by (intros; by apply lookup_delete_ne).
  assert (Hins : forall A (m : gmap string A) x, <[ep := x]> m !! ep' = m !! ep')
    by (intros; by apply lookup_insert_ne).
  assert (Hadd : forall s : gset string, bool_decide (ep' ∈ {[ep]} ∪ s) = bool_decide (ep' ∈ s)).
  { intros s. apply bool_decide_ext. rewrite elem_of_union, elem_of_singleton.
    split; [intros [->|?]; done|by right]. }
  assert (Hrem : forall s : gset string, bool_decide (ep' ∈ s ∖ {[ep]}) = bool_decide (ep' ∈ s)).
  { intros s. apply bool_decide_ext. rewrite elem_of_difference, elem_of_singleton.
    split; [by intros []|by split]. }
  split; intros w; intros; subst v.
  all: try (unfold endpoint_view, upd_mgr, upd_env, get_channel_for_endpoint; simpl;
    rewrite ?Hdel, ?Hins, ?Hadd, ?Hrem; done).
  - unfold endpoint_view. simpl. case_match; simpl; by rewrite ?Hins.
  - unfold retry_upgrades_after_delay, calculate_next_retry_delay, duration_checked.
    repeat world_step; try done; unfold endpoint_view; simpl;
      by rewrite ?Hins, ?Hdel.
  - unfold endpoint_view. simpl. by rewrite filter_app, filter_cons_False, filter_nil, app_nil_r.
Qed.

(** Where the mediums are several, the sessions of the others stay too. *)
Context `{!EndpointSessions H env chan}.

Definition sessions_stay (ep' : string) (c : BwuConfig) (ss : gmap Medium (gset string))
    (w : World H env chan) : Prop :=
  w.(w_mgr).(config) = c /\ (c.(support_multiple_bwu_mediums) = true -> endpoint_sessions ep' w = ss).

#[local] Instance sessions_closed c ss ep ep' :
  ep <> ep' -> closed_under_steps (fun _ => True) (sessions_stay ep' c ss) ep.
Proof.
  intros Hne. split; intros w; intros; unfold sessions_stay in *; try done.
  - match goal with
    | Hs : _ /\ _, Hl : handlers _ !! _ = Some _, Hcall : endpoint_call _ _ _ _ _ _ _ |- _ =>
        destruct Hs as [<- Hss]; split; [done|]; intros Hm; rewrite <-(Hss Hm);
        rewrite Hm in Hcall; apply sessions_isolated with (ep' := ep') in Hcall; [|done]
    end.
    unfold endpoint_sessions. cbn. rewrite fmap_insert, insert_id; [done|].
    rewrite lookup_fmap.
    match goal with Hl : handlers _ !! _ = Some _, Hs : sessions_of _ _ = _ |- _ => by rewrite Hl, Hs end.
  - unfold endpoint_sessions, upd_mgr in *. cbn.
    by destruct (support_multiple_bwu_mediums (config (w_mgr w))).
  - unfold retry_upgrades_after_delay, calculate_next_retry_delay, duration_checked.
    by repeat world_step.
Qed.

(** Everything that is kept of an endpoint and must stay. *)
Definition kept_of (ep' : string) (w w' : World H env chan) : Prop :=
  endpoint_view ep' w' = endpoint_view ep' w /\
  sessions_stay ep' w.(w_mgr).(config) (endpoint_sessions ep' w) w'.

#[local] Instance kept_closed w ep ep' :
  ep <> ep' -> closed_under_steps (fun _ => True) (kept_of ep' w) ep.
Proof. intros Hne. apply closed_both; [by apply isolation_closed|by apply sessions_closed]. Qed.

Lemma kept_of_refl ep' w : kept_of ep' w w.
Proof. done. Qed.

Lemma command_isolated fuel cmd ep ep' w :
  command_endpoint cmd = Some ep -> ep <> ep' ->
  wp (fun _ => True) (handle fuel cmd) (fun _ => kept_of ep' w) (w : World H env chan).
Proof.
  intros Hep Hne.
  apply (handle_preserves _ (kept_of ep' w) I fuel cmd ep); [by apply kept_closed| | |done|done].
  - intros w' k Hk [Hv Hs]. split; [|done]. rewrite <-Hv. unfold endpoint_view. simpl.
    destruct (client_step_other ep' k w'.(w_client)) as [Hc Hf]; [by rewrite Hk|].
    by rewrite Hc, Hf.
  - intros w' k Hk [Hv Hs]. split; [|done]. rewrite <-Hv. unfold endpoint_view. simpl.
    by rewrite ecm_step_other by (by rewrite Hk).
Qed.

Lemma connection_isolated connection ep' w :
  ep' ∉ w.(w_mgr).(in_progress_upgrades) ->
  wp (fun _ => True) (on_incoming_connection connection) (fun _ => kept_of ep' w)
    (w : World H env chan).
Proof.
  intros Hin. apply (connection_preserves _ (kept_of ep' w)); [by intros w' e ? _| |done].
  intros w' id target [Hv _] Ht. apply kept_closed. intros ->.
  apply introduced_in_progress in Ht. apply Hin.
  assert (Hp : view_in_progress _ (endpoint_view ep' w') = view_in_progress _ (endpoint_view ep' w))
    by by rewrite Hv.
  simpl in Hp. rewrite bool_decide_true in Hp by done.
  symmetry in Hp. by apply bool_decide_eq_true in Hp.
Qed.

Lemma work_isolated fuel k ep' w :
  concerns w k ep' = false ->
  wp (fun _ => True) (do_work fuel k) (fun _ => kept_of ep' w) (w : World H env chan).
Proof.
  intros Hk. destruct k as [cmd|ep].
  - assert (Hcmd : forall ep, command_endpoint cmd = Some ep -> ep <> ep' ->
      wp (fun _ => True) (_ ← handle fuel cmd; mret tt) (fun _ => kept_of ep' w) w).
    { intros ep Hep Hne. apply wp_bind. eapply wp_mono; [by eapply command_isolated|done|].
      intros. by apply wp_ret. }
    destruct cmd; simpl in *; bool_split; try done;
      try (eapply Hcmd; [done|congruence]).
    do 2 apply wp_bind. eapply wp_mono; [by apply connection_isolated|done|].
    intros. by apply wp_ret.
  - simpl in *. bool_split.
    exact (fire_preserves _ _ _ (HG := kept_closed w _ _ Hk) I fuel w (kept_of_refl _ _)).
Qed.
End isolation.

(** * Properties *)

(** C1. Whatever the channels and the medium handlers do, as long as they do
    not panic themselves, any sequence of commands and timer firings leaves the
    bookkeeping of the machine consistent (a latched LAST_WRITE excludes a parked
    channel, a pending retry carries the endpoint's last delay, delays are
    positive and bounded, and only the medium bookkeeping of the configured mode
    is used), and the machine itself never panics: no unwrap of a missing
    handler, no overflow of a duration, no removal from an empty list. *)
Theorem manager_consistent_and_panic_free
    {H env chan} `{EndpointChannel env chan} `{BwuHandler H env chan} `{Codec}
    (HE : ChannelFaults env chan parks_or_starves) (HH : HandlerFaults H env chan parks_or_starves)
    (fuel : nat) (ks : list (work chan)) (hs : gmap Medium H) (cfg : BwuConfig) (local : string)
    (e : env) :
  config_ok (resolve_config cfg) ->
  wp parks_or_starves (run_works fuel ks) (fun _ w => mgr_wf w.(w_mgr))
    (build hs cfg local e).(act_world).
Proof.
  intros Hc. eapply wp_mono; [apply (run_works_wf (resolve_config cfg))|done|by intros _ w []].
  split; [by apply wf_new|done].
Qed.

Lemma manager_consistent_and_panic_free_witness :
  let ks := [RegisterChannel "EP" (mkFakeChan 0); ConnectionInitiated "EP" false true;
             ConnectionAccepted "EP"; SetUpgradeMediums "EP" [WifiLan; WifiHotspot];
             InitiateBwu "EP" WifiLan; EndpointDisconnect "A_UPGRADE" "EP" LocalDisconnection;
             ShutdownCommand] in
  config_ok (resolve_config BwuConfig_default) /\
  wp parks_or_starves (run_works 3 (Apply <$> ks)) (fun _ w => mgr_wf w.(w_mgr))
    (build (fake_handlers [WifiLan]) BwuConfig_default "LOCAL"
       (fake_env [WifiLan] [bluetooth_channel])).(act_world).
Proof.
  assert (Hc : config_ok (resolve_config BwuConfig_default)) by (vm_compute; repeat split; discriminate).
  split; [exact Hc|].
  apply (manager_consistent_and_panic_free (FakeEndpointChannel_faults _)
           (FakeBwuHandler_faults _) 3 _ _ _ _ _ Hc).
Defined.

(** C7. What the machine does for one endpoint does not touch another: a
    command or a timer for an endpoint, or an incoming connection while the
    other is not being upgraded, leaves exactly as it was what is kept under the
    other's id (its progress, parked channel, latch, retry, channel, connection
    state and bandwidth events), whatever faults the channels and handlers may
    have.  Where the configuration has a medium for each endpoint, the other's
    medium stays as well, and every handler's sessions of it; where there is one
    medium for all endpoints, that medium and the handlers' sessions are shared,
    and the theorem says nothing of them. *)
Theorem other_endpoints_untouched
    {H env chan} `{EndpointChannel env chan} `{BwuHandler H env chan}
    `{!EndpointSessions H env chan} `{Codec}
    (fuel : nat) (k : work chan) (ep : string) (w w' : World H env chan) :
  concerns w k ep = false ->
  runs_to (do_work fuel k) w tt w' ->
  endpoint_view ep w' = endpoint_view ep w /\
  (w.(w_mgr).(config).(support_multiple_bwu_mediums) = true ->
     bwu_medium_of w'.(w_mgr) ep = bwu_medium_of w.(w_mgr) ep /\
     endpoint_sessions ep w' = endpoint_sessions ep w).
Proof.
  intros Hk Hrun. pose proof (work_isolated fuel k ep w Hk) as Hw. unfold wp in Hw.
  rewrite Hrun in Hw. destruct Hw as (Hv & Hc & Hs). split; [done|]. intros Hm.
  split; [|by apply Hs]. unfold bwu_medium_of. rewrite Hc, Hm.
  apply (f_equal (view_medium chan)) in Hv. cbn in Hv. by rewrite Hv.
Qed.

(** "OTHER" has a session of the service that "EP" gives up. *)
Definition shared_service : World (BaseBwuHandler FakeBwuHandler) FakeEnv FakeChan :=
  upd_mgr (set_handlers (alter (fun b => mkBase b.(base_inner) {["A_UPGRADE" := {["EP"; "OTHER"]}]}) WifiLan))
    (upd_mgr (set_mediums (fun _ => {["EP" := WifiLan; "OTHER" := WifiLan]}))
       (fake_world BwuConfig_default false [WifiLan] [WifiLan] [bluetooth_channel])).

Lemma other_endpoints_untouched_witness :
  let k := Apply (EndpointDisconnect "A_UPGRADE" "EP" LocalDisconnection) in
  exists w', runs_to (do_work 3 k) shared_service tt w' /\
    bwu_medium_of w'.(w_mgr) "OTHER" = WifiLan /\
    endpoint_sessions "OTHER" w' = {[WifiLan := {["A_UPGRADE"]}]} /\
    endpoint_sessions "EP" w' = {[WifiLan := ∅]}.
Proof.
  cbv zeta. eexists. split; [vm_compute; reflexivity|].
  match goal with |- bwu_medium_of (w_mgr ?w) _ = _ /\ _ => set (w' := w) end.
  destruct (other_endpoints_untouched 3 (Apply (EndpointDisconnect "A_UPGRADE" "EP" LocalDisconnection))
    "OTHER" shared_service w') as [_ Hm]; [reflexivity|vm_compute; reflexivity|].
  destruct Hm as [Hm Hs]; [reflexivity|]. rewrite Hm, Hs.
  repeat split; apply (bool_decide_unpack _); vm_compute; exact I.
Defined.

(** Where there is one medium for all endpoints, an upgrade of one endpoint gives
    it to all. *)
Example single_medium_shared :
  let w := fake_world (mkBwuConfig false true 0 0) true [WifiLan] [WifiLan] [bluetooth_channel] in
  bwu_medium_of w.(w_mgr) "OTHER" = UnknownMedium /\
  exists w', runs_to (do_work 3 (Apply (InitiateBwu "EP" WifiLan))) w tt w' /\
    bwu_medium_of w'.(w_mgr) "OTHER" = WifiLan.
Proof. split; [reflexivity|]. eexists. split; vm_compute; reflexivity. Qed.
