(* ===== verification/Retry.v ===== *)
(** The choice of the next medium and the retries: what is chosen, what is left
    to try after a failure, when the mutual recursion of the manager ends, and
    the delays of the retries. *)

From Stdlib Require Import ZArith Lia.
From S2P Require Import Prelude.
From S2P Require Import Mediums.
From S2P Require Import Proto.
From S2P Require Import Codec.
From S2P Require Import Frames.
From S2P Require Import ServiceId.
From S2P Require Import Client.
From S2P Require Import Channel.
From S2P Require Import ChannelManager.
From S2P Require Import Handler.
From S2P Require Import Testing.
From S2P Require Import Manager.
From S2P Require Import Scenario.
From S2P Require Import ManagerSteps.
From S2P Require Import Invariant.

(** * Definitions *)

(** The medium of a path info made for a medium: it is the medium itself but for
    those that an [UpgradePathInfo] cannot name. *)
Definition reported_medium (m : Medium) : Medium :=
  path_info_medium (upgrade_path_info_for_medium m).

(** The faults of a recursion that ends. *)
Definition ends : fault -> Prop := fun f => f <> OutOfFuel.

(** The delay of the retry after [n] earlier ones. *)
Definition backoff (c : BwuConfig) (n : nat) : Z :=
  let initial := c.(bandwidth_upgrade_retry_delay) in
  match n with
  | O => initial
  | S _ =>
      Z.min (if c.(use_exp_backoff_in_bwu_retry) then initial * 2 ^ Z.of_nat n
             else initial * (Z.of_nat n + 1))
        c.(bandwidth_upgrade_retry_max_delay)
  end%Z.

Section schedules.
Context {H env chan : Type} `{EndpointChannel env chan} `{BwuHandler H env chan}.

(** Retries scheduled one after the other, some of them cancelled. *)
Fixpoint schedules (ep : string) (cancels : list bool) : M (World H env chan) unit :=
  match cancels with
  | [] => mret tt
  | cancel :: rest =>
      retry_upgrades_after_delay ep;;
      (if (cancel : bool) then cancel_retry_upgrade_alarm ep else mret tt);;
      schedules ep rest
  end.
End schedules.

(** The medium list of a failing upgrade, on fakes: the channel of "EP" cannot
    be written, its only handler is WIFI_LAN's, and [records] is what the handler
    has recorded. *)
Definition failing_world (upgrade_mediums : list Medium) (records : FakeBwuHandlerRecords)
    (mediums : gmap string Medium) (wrote : bool) : FakeWorld :=
  let w := fake_world BwuConfig_default true [WifiLan] upgrade_mediums [] in
  let c := set_write_output Io bluetooth_channel in
  mkWorld (set_mediums (fun _ => mediums) w.(w_mgr)) w.(w_client) w.(w_ecm)
    (mkFakeEnv 100 {[0%N := if wrote then fake_wrote c else c]} {[1%N := records]}).

(** * Lemmas *)

(** ** What is left to try *)

Lemma drop_tried_found last l1 l2 untried :
  last ∉ l1 -> length untried = length (l1 ++ last :: l2) ->
  drop_tried last (l1 ++ last :: l2) untried = Some (drop (S (length l1)) untried).
Proof.
  revert untried. induction l1 as [|m l1 IH]; intros untried Hn Hlen.
  - destruct untried; [done|]. simpl. by rewrite decide_True.
  - apply not_elem_of_cons in Hn as [Hm Hn]. destruct untried as [|x untried]; [done|].
    simpl in *. rewrite decide_False by congruence. apply IH; [done|lia].
Qed.

Lemma drop_tried_absent last all untried :
  last ∉ all -> length untried = length all -> drop_tried last all untried = Some [].
Proof.
  revert untried. induction all as [|m all IH]; intros untried Hn Hlen.
  - by destruct untried.
  - apply not_elem_of_cons in Hn as [Hm Hn]. destruct untried as [|x untried]; [done|].
    simpl in *. rewrite decide_False by congruence. apply IH; [done|lia].
Qed.

(** The untried tail, by the position of the last medium. *)
Lemma untried_cases last all :
  (exists l1 l2, all = l1 ++ last :: l2 /\ (last ∉ l1) /\ drop_tried last all all = Some l2) \/
  ((last ∉ all) /\ drop_tried last all all = Some []).
Proof.
  destruct (decide (last ∈ all)) as [Hin|Hn].
  - left. apply list_elem_of_split_l in Hin as (l1 & l2 & -> & Hn).
    exists l1, l2. split_and!; [done|done|]. rewrite drop_tried_found by done.
    f_equal. rewrite cons_middle, (app_assoc l1 [last] l2), drop_app_length'; [done|].
    rewrite length_app. simpl. lia.
  - right. split; [done|]. by apply drop_tried_absent.
Qed.

Lemma reported_idempotent m : reported_medium (reported_medium m) = reported_medium m.
Proof. by destruct m. Qed.

(** Without repetitions, what is left after trying one of the untried mediums is
    shorter. *)
Lemma untried_shrinks all untried m untried' :
  NoDup (reported_medium <$> all) -> (exists tried, all = tried ++ untried) -> m ∈ untried ->
  drop_tried (reported_medium m) all all = Some untried' ->
  (exists tried, all = tried ++ untried') /\ length untried' < length untried.
Proof.
  intros Hnd [tried ->] Hm Hd.
  destruct (untried_cases (reported_medium m) (tried ++ untried)) as [(l1 & l2 & Hall & Hn & Heq)|[Hn Heq]];
    rewrite Hd in Heq; injection Heq as ->.
  - split; [exists (l1 ++ [reported_medium m]); by rewrite <-app_assoc|].
    apply list_elem_of_split in Hm as (u1 & u2 & ->).
    assert (Hpos : length l1 = length (tried ++ u1)).
    { apply (NoDup_lookup _ (length l1) (length (tried ++ u1)) (reported_medium m) Hnd).
      - rewrite Hall, fmap_app, lookup_app_r by (by rewrite length_fmap).
        rewrite length_fmap, Nat.sub_diag. simpl. by rewrite reported_idempotent.
      - rewrite (app_assoc tried u1), fmap_app, lookup_app_r by (by rewrite length_fmap).
        by rewrite length_fmap, Nat.sub_diag. }
    apply (f_equal length) in Hall. rewrite !length_app in *. simpl in *. lia.
  - split; [exists (tried ++ untried); by rewrite app_nil_r|].
    destruct untried; [by apply not_elem_of_nil in Hm|simpl; lia].
Qed.

(** ** The recursion ends *)

Section termination.
Context {H env chan : Type} `{EndpointChannel env chan} `{BwuHandler H env chan} `{Codec}.
Context `{HE : !ChannelFaults env chan ends} `{HH : !HandlerFaults H env chan ends}.

(** The mediums the client has for the endpoint stay. *)
Definition mediums_are (ep : string) (all : list Medium) (w : World H env chan) : Prop :=
  get_upgrade_mediums w.(w_client) ep = all.

#[local] Instance mediums_closed ep all : closed_under_steps ends (mediums_are ep all) ep.
Proof.
  split; intros w; intros; try done. unfold retry_upgrades_after_delay, calculate_next_retry_delay,
    duration_checked. repeat world_step; done.
Qed.

Lemma try_next_ends ep all fuel untried :
  NoDup (reported_medium <$> all) -> (exists tried, all = tried ++ untried) ->
  length untried <= fuel ->
  preserves ends (mediums_are ep all) (try_next_best_upgrade_mediums fuel ep untried).
Proof.
  intros Hnd. revert untried. induction fuel as [|fuel IH]; intros untried Hsuf Hlen;
    apply (try_next_preserves ends (mediums_are ep all) ep); intros m Hm.
  - destruct untried; [by apply not_elem_of_nil in Hm|simpl in Hlen; lia].
  - apply (initiate_body_preserves ends (mediums_are ep all) ep),
      (failure_preserves ends (mediums_are ep all) ep).
    intros w untried' Hw Hd. rewrite Hw in Hd.
    destruct (untried_shrinks all untried m untried' Hnd Hsuf Hm Hd) as [Hsuf' Hlt].
    apply IH; [done|lia|done].
Qed.

Lemma failure_ends ep all fuel info :
  NoDup (reported_medium <$> all) -> length all <= fuel ->
  preserves ends (mediums_are ep all) (process_upgrade_failure_event fuel ep info).
Proof.
  intros Hnd Hlen. apply (failure_preserves ends (mediums_are ep all) ep).
  intros w untried Hw Hd. rewrite Hw in Hd. apply try_next_ends; [done| | |done].
  - destruct (untried_cases (path_info_medium info) all) as [(l1 & l2 & Hall & _ & Heq)|[_ Heq]];
      rewrite Hd in Heq; injection Heq as ->.
    + exists (l1 ++ [path_info_medium info]). by rewrite <-app_assoc.
    + exists all. by rewrite app_nil_r.
  - destruct (untried_cases (path_info_medium info) all) as [(l1 & l2 & Hall & _ & Heq)|[_ Heq]];
      rewrite Hd in Heq; injection Heq as ->; [|simpl; lia].
    apply (f_equal length) in Hall. rewrite length_app in Hall. simpl in Hall. lia.
Qed.

Lemma initiate_ends ep all fuel m :
  NoDup (reported_medium <$> all) -> length all <= fuel ->
  preserves ends (mediums_are ep all) (initiate_bwu_for_endpoint (S fuel) ep m).
Proof.
  intros Hnd Hlen. apply (initiate_body_preserves ends (mediums_are ep all) ep).
  by apply failure_ends.
Qed.
End termination.

(** ** The recursion that does not end *)

Lemma failing_world_start upgrade_mediums :
  fake_world BwuConfig_default true [WifiLan] upgrade_mediums [set_write_output Io bluetooth_channel]
  = failing_world upgrade_mediums FakeBwuHandlerRecords_default ∅ false.
Proof. reflexivity. Qed.

(** One round of the recursion, for whatever it calls in turn. *)
Lemma failing_world_again (again : string -> Medium -> M FakeWorld unit) r mediums wrote :
  mediums = ∅ \/ mediums = {["EP"%string := WifiLan]} ->
  exists r',
    initiate_body (failure_body (try_next_body again)) "EP" WifiLan
      (failing_world [WifiLan; WifiLan] r mediums wrote) =
    again "EP"%string WifiLan
      (failing_world [WifiLan; WifiLan] r' {["EP"%string := WifiLan]} true).
Proof.
  intros [-> | ->].
  all: exists {| rec_create_calls := r.(rec_create_calls);
                 rec_disconnect_calls := r.(rec_disconnect_calls);
                 rec_handle_initialize_calls := r.(rec_handle_initialize_calls)
                   ++ [mkInputData 7 (Some "A_UPGRADE"%string) (Some "EP"%string)];
                 rec_handle_revert_calls := r.(rec_handle_revert_calls)
                   ++ [mkInputData 0 (Some "A_UPGRADE"%string) None] |}.
  all: destruct wrote; vm_compute; reflexivity.
Qed.

(** ** Delays *)

Section delays.
Context {H env chan : Type} `{EndpointChannel env chan} `{BwuHandler H env chan}.
Implicit Types w : World H env chan.

(** The delay of the next retry, from the number of earlier ones. *)
Definition delays_after (ep : string) (c : BwuConfig) (n : nat) w : Prop :=
  w.(w_mgr).(config) = c /\
  w.(w_mgr).(retry_delays) !! ep = match n with O => None | S n => Some (backoff c n) end.

Lemma backoff_bounds c n :
  config_ok c ->
  (0 < backoff c n <= Z.max c.(bandwidth_upgrade_retry_delay)
                            c.(bandwidth_upgrade_retry_max_delay))%Z.
Proof.
  intros (Hi & Hm & _). destruct n as [|n]; cbn [backoff]; [lia|].
  assert (0 < 2 ^ Z.of_nat (S n))%Z by (apply Z.pow_pos_nonneg; lia).
  case_match; nia.
Qed.

Lemma backoff_step c n :
  config_ok c ->
  Z.min (if c.(use_exp_backoff_in_bwu_retry) then backoff c n * 2
         else backoff c n + c.(bandwidth_upgrade_retry_delay))%Z
    c.(bandwidth_upgrade_retry_max_delay) = backoff c (S n).
Proof.
  intros (Hi & Hm & _). destruct n as [|n]; cbn [backoff].
  - case_match; f_equal; lia.
  - rewrite (Nat2Z.inj_succ (S n)), Z.pow_succ_r by lia. case_match; nia.
Qed.

Lemma next_delay ep c n w :
  config_ok c -> delays_after ep c n w ->
  runs_to (calculate_next_retry_delay ep) w (backoff c n) w.
Proof.
  intros Hc [Hcfg Hd]. unfold runs_to, calculate_next_retry_delay, mgr, gets, mbind, M_bind.
  rewrite Hd, Hcfg. destruct n as [|n]; [done|].
  pose proof (backoff_bounds c n Hc) as Hb. pose proof Hc as (Hi & Hm & Hmax).
  unfold duration_checked. rewrite (proj2 (Z.leb_le _ _)) by (case_match; lia).
  unfold mret, M_ret. by rewrite backoff_step.
Qed.

Lemma schedules_run ep c n cancels w :
  config_ok c -> delays_after ep c n w ->
  exists w', runs_to (schedules ep cancels) w tt w' /\
    delays_after ep c (n + length cancels) w'.
Proof.
  intros Hc. revert n w. induction cancels as [|cancel rest IH]; intros n w Hw.
  - exists w. split; [done|]. by rewrite Nat.add_0_r.
  - pose proof (next_delay ep c n w Hc Hw) as Hn. simpl.
    rewrite <-plus_n_Sm, <-plus_Sn_m.
    set (w1 := upd_mgr (set_delays <[ep := backoff c n]>)
                 (upd_mgr (set_alarms <[ep := backoff c n]>)
                    (upd_mgr (set_alarms (delete ep)) w))).
    assert (Hr : retry_upgrades_after_delay ep w = Ret (tt, w1)).
    { unfold retry_upgrades_after_delay. eapply runs_bind; [exact Hn|done]. }
    destruct (IH (S n) (if cancel then upd_mgr (set_alarms (delete ep)) w1 else w1))
      as (w' & Hrun & Hw').
    { destruct Hw as [Hcfg Hd]. split; destruct cancel; simpl; try done; apply lookup_insert_eq. }
    exists w'. split; [|done]. eapply runs_bind; [exact Hr|].
    unfold mbind, M_bind. by destruct cancel.
Qed.
End delays.

(** ** The choice *)

Lemma head_filter_split (p : Medium -> bool) l x :
  head (filter (fun y => p y = true) l) = Some x ->
  exists l1 l2, l = l1 ++ x :: l2 /\ p x = true /\ Forall (fun y => p y = false) l1.
Proof.
  induction l as [|y l IH]; [done|]. rewrite filter_cons. case_decide as Hy.
  - intros [= ->]. by exists [], l.
  - intros (l1 & l2 & -> & Hx & Hall)%IH. exists (y :: l1), l2.
    split_and!; [done|done|]. constructor; [by apply not_true_is_false|done].
Qed.

Lemma head_filter_none (p : Medium -> bool) l :
  head (filter (fun y => p y = true) l) = None -> Forall (fun y => p y = false) l.
Proof.
  induction l as [|y l IH]; [done|]. rewrite filter_cons. case_decide as Hy; [done|].
  intros Hn. constructor; [by apply not_true_is_false|by apply IH].
Qed.

(** * Properties *)

(** The medium that is chosen: on a first attempt, the most preferred one
    of the list that has a handler, every earlier one having none; once an
    endpoint has an upgrade medium, that medium as long as it is in the list
    and has a handler; and UNKNOWN otherwise, never a medium without a handler. *)
Theorem next_medium_choice {H chan} (m : BwuManager H chan) (ep : string) (mediums : list Medium) :
  let chosen := choose_best m ep mediums in
  (bwu_medium_of m ep = UnknownMedium ->
     (exists l1 l2, mediums = l1 ++ chosen :: l2 /\ handler_exists m chosen = true /\
        Forall (fun x => handler_exists m x = false) l1) \/
     (chosen = UnknownMedium /\ Forall (fun x => handler_exists m x = false) mediums)) /\
  (bwu_medium_of m ep <> UnknownMedium ->
     (chosen = bwu_medium_of m ep <->
        chosen ∈ mediums /\ handler_exists m chosen = true) /\
     (chosen = bwu_medium_of m ep \/ chosen = UnknownMedium)).
Proof.
  cbv zeta. unfold choose_best, strip_out_unavailable_mediums. split; intros Hcur.
  - rewrite decide_True by done. destruct (head _) as [x|] eqn:Hh.
    + left. apply head_filter_split in Hh as (l1 & l2 & ? & ? & ?). simpl. eauto.
    + right. split; [done|]. by apply head_filter_none.
  - rewrite decide_False by done. case_decide as Hin.
    + apply list_elem_of_filter in Hin as [Hx Hin]. by split; [|left].
    + split; [|by right]. split; [intros Heq; by rewrite <-Heq in Hcur|]. intros [_ Hx].
      by rewrite handler_exists_unknown in Hx.
Qed.

(** After a failure on a medium, what is left to try is the part of the
    client's list after the first occurrence of that medium, and nothing when
    the medium is not in the list; the removals never run past the end. *)
Theorem untried_tail (last_medium : Medium) (all_possible : list Medium) :
  (exists tried untried,
     all_possible = tried ++ last_medium :: untried /\ (last_medium ∉ tried) /\
     drop_tried last_medium all_possible all_possible = Some untried) \/
  ((last_medium ∉ all_possible) /\ drop_tried last_medium all_possible all_possible = Some []).
Proof. apply untried_cases. Qed.

(** C12. When the mediums that the client has for the endpoint are distinct in
    the form a failure reports them, the mutual recursion of initiation,
    failure and the next-best medium ends: an initiation nests at most once per
    medium, whatever the channels and handlers do. *)
Theorem failure_recursion_ends
    {H env chan} `{EndpointChannel env chan} `{BwuHandler H env chan} `{Codec}
    (HE : ChannelFaults env chan ends) (HH : HandlerFaults H env chan ends)
    (ep : string) (medium : Medium) (info : UpgradePathInfo) (fuel : nat) (w : World H env chan) :
  NoDup (reported_medium <$> get_upgrade_mediums w.(w_client) ep) ->
  length (get_upgrade_mediums w.(w_client) ep) <= fuel ->
  initiate_bwu_for_endpoint (S fuel) ep medium w <> Fault OutOfFuel /\
  process_upgrade_failure_event fuel ep info w <> Fault OutOfFuel.
Proof.
  intros Hnd Hlen. split; intros Heq.
  - pose proof (initiate_ends ep _ fuel medium Hnd Hlen w eq_refl) as Hw.
    unfold wp in Hw. rewrite Heq in Hw. by apply Hw.
  - pose proof (failure_ends ep _ fuel info Hnd Hlen w eq_refl) as Hw.
    unfold wp in Hw. rewrite Heq in Hw. by apply Hw.
Qed.

Lemma failure_recursion_ends_witness :
  let w := failing_world [WifiLan; WifiHotspot; Bluetooth] FakeBwuHandlerRecords_default ∅ false in
  NoDup (reported_medium <$> get_upgrade_mediums w.(w_client) "EP") /\
  initiate_bwu_for_endpoint 4 "EP" WifiLan w <> Fault OutOfFuel.
Proof.
  cbv zeta.
  assert (Hnd : NoDup (reported_medium <$> get_upgrade_mediums
    (failing_world [WifiLan; WifiHotspot; Bluetooth] FakeBwuHandlerRecords_default ∅ false).(w_client)
    "EP")) by (apply (bool_decide_unpack _); vm_compute; exact I).
  split; [exact Hnd|].
  destruct (failure_recursion_ends (FakeEndpointChannel_faults _) (FakeBwuHandler_faults _)
              "EP" WifiLan UpgradePathInfo_default 3 _ Hnd) as [Hends _].
  - apply Nat.leb_le. vm_compute. reflexivity.
  - exact Hends.
Defined.

(** C37. With a medium twice in the list, the recursion does not end when the
    upgrade to it keeps failing, here because the endpoint's channel cannot be
    written any more: no fuel is enough, which is a stack overflow of the code. *)
Theorem duplicate_mediums_recurse_forever (fuel : nat) :
  initiate_bwu_for_endpoint fuel "EP" WifiLan
    (fake_world BwuConfig_default true [WifiLan] [WifiLan; WifiLan]
       [set_write_output Io bluetooth_channel]) = Fault OutOfFuel.
Proof.
  rewrite failing_world_start.
  assert (Hall : forall r mediums wrote, mediums = ∅ \/ mediums = {["EP"%string := WifiLan]} ->
    initiate_bwu_for_endpoint fuel "EP" WifiLan
      (failing_world [WifiLan; WifiLan] r mediums wrote) = Fault OutOfFuel); [|by apply Hall; left].
  induction fuel as [|fuel IH]; intros r mediums wrote Hm; [done|].
  cbn [initiate_bwu_for_endpoint].
  destruct (failing_world_again (initiate_bwu_for_endpoint fuel) r mediums wrote Hm) as [r' Heq].
  rewrite Heq. apply IH. by right.
Qed.

(** C38. The delays of successive retries of an endpoint, cancelled in between
    or not: the first one is the configured delay, uncapped; the following ones
    double it each time, or add it each time without exponential backoff, up to
    the configured maximum. *)
Theorem retry_backoff {H env chan} `{EndpointChannel env chan} `{BwuHandler H env chan}
    (ep : string) (cancels : list bool) (w : World H env chan) :
  config_ok w.(w_mgr).(config) ->
  w.(w_mgr).(retry_delays) !! ep = None ->
  exists w', runs_to (schedules ep cancels) w tt w' /\
    runs_to (calculate_next_retry_delay ep) w' (backoff w.(w_mgr).(config) (length cancels)) w'.
Proof.
  intros Hc Hd. destruct (schedules_run ep w.(w_mgr).(config) 0 cancels w Hc) as (w' & Hrun & Hw');
    [by split|].
  exists w'. split; [done|]. by apply next_delay.
Qed.

Lemma retry_backoff_witness :
  let w := fake_world BwuConfig_default true [WifiLan] [WifiLan] [bluetooth_channel] in
  backoff w.(w_mgr).(config) 3 = duration_from_secs 24 /\
  exists w', runs_to (schedules "EP" [true; false; true]) w tt w' /\
    runs_to (calculate_next_retry_delay "EP") w' (backoff w.(w_mgr).(config) 3) w'.
Proof.
  cbv zeta. split; [vm_compute; reflexivity|].
  apply (retry_backoff "EP" [true; false; true]).
  - vm_compute. repeat split; discriminate.
  - vm_compute. reflexivity.
Defined.
