(* ===== verification/Upgrade.v ===== *)
(** The upgrade protocol end to end, on a transport that works: from the offer
    to the swapped, resumed channel, for the initiator and for the responder,
    with the remote's LAST_WRITE before or after the old channel is parked, and with
    every message that passes. *)

From Stdlib Require Import ZArith.
From S2P Require Import Prelude.
From S2P Require Import Utf8.
From S2P Require Import Mediums.
From S2P Require Import Proto.
From S2P Require Import Codec.
From S2P Require Import Frames.
From S2P Require Import FromBytes.
From S2P Require Import RoundTrip.
From S2P Require Import ServiceId.
From S2P Require Import Client.
From S2P Require Import Channel.
From S2P Require Import ChannelManager.
From S2P Require Import Handler.
From S2P Require Import Testing.
From S2P Require Import Manager.
From S2P Require Import Scenario.
From S2P Require Import ManagerSteps.
From S2P Require Import Invariant.

(** * Definitions *)

(** ** What passes through the channels of a device *)

Inductive io (chan : Type) : Type :=
| Sent (c : chan) (data : bytes)
| Got (c : chan) (data : bytes).
Arguments Sent {chan} c data.
Arguments Got {chan} c data.

(** An environment together with the messages that its channels have taken and
    returned so far, in their order.  The record only looks on. *)
Record Tapped (env chan : Type) : Type := mkTapped {
  tap_env : env;
  tap_io : list (io chan);
}.
Arguments mkTapped {env chan} tap_env tap_io.
Arguments tap_env {env chan} t.
Arguments tap_io {env chan} t.

Definition tapped_call {env chan A} (m : M env A) (seen : A -> list (io chan))
    : M (Tapped env chan) A :=
  fun t => match m t.(tap_env) with
           | Ret (a, e) => Ret (a, mkTapped e (t.(tap_io) ++ seen a))
           | Fault f => Fault f
           end.

Definition unseen {A chan : Type} : A -> list (io chan) := fun _ => [].

Definition sent_if_ok {chan} (c : chan) (data : bytes) (r : Exception) : list (io chan) :=
  if Exception_ok r then [Sent c data] else [].

Definition got_if_ok {chan} (c : chan) (r : Result bytes) : list (io chan) :=
  match r with Ok data => [Got c data] | Err _ => [] end.

#[export] Instance Tapped_channel {env chan} `{EndpointChannel env chan} :
  EndpointChannel (Tapped env chan) chan := {|
  ch_read c := tapped_call (ch_read c) (got_if_ok c);
  ch_write c d := tapped_call (ch_write c d) (sent_if_ok c d);
  ch_close c := tapped_call (ch_close c) unseen;
  ch_close_with_reason c d := tapped_call (ch_close_with_reason c d) unseen;
  ch_medium c t := ch_medium c t.(tap_env);
  ch_service_id c t := ch_service_id c t.(tap_env);
  ch_name c t := ch_name c t.(tap_env);
  ch_channel_type c t := ch_channel_type c t.(tap_env);
  ch_local_endpoint_id c t := ch_local_endpoint_id c t.(tap_env);
  ch_set_local_endpoint_id c i := tapped_call (ch_set_local_endpoint_id c i) unseen;
  ch_pause c := tapped_call (ch_pause c) unseen;
  ch_resume c := tapped_call (ch_resume c) unseen;
  ch_is_paused c t := ch_is_paused c t.(tap_env);
  ch_disable_encryption c := tapped_call (ch_disable_encryption c) unseen;
|}.

Definition alongside {H env chan A} (m : M (H * env) A) : M (H * Tapped env chan) A :=
  fun '(h, t) => match m (h, t.(tap_env)) with
                 | Ret (a, (h', e)) => Ret (a, (h', mkTapped e t.(tap_io)))
                 | Fault f => Fault f
                 end.

#[export] Instance Tapped_handler {H env chan} `{BwuHandler H env chan} :
  BwuHandler H (Tapped env chan) chan := {|
  bh_initialize_upgraded_medium_for_endpoint client service_id ep :=
    alongside (bh_initialize_upgraded_medium_for_endpoint (chan := chan) client service_id ep);
  bh_revert_initiator_state := alongside (bh_revert_initiator_state (chan := chan));
  bh_revert_initiator_state_for_endpoint service_id ep :=
    alongside (bh_revert_initiator_state_for_endpoint (chan := chan) service_id ep);
  bh_revert_responder_state service_id :=
    alongside (bh_revert_responder_state (chan := chan) service_id);
  bh_create_upgraded_endpoint_channel client service_id ep info :=
    alongside (bh_create_upgraded_endpoint_channel client service_id ep info);
  bh_get_upgrade_medium h := bh_get_upgrade_medium (env := env) (chan := chan) h;
  bh_on_endpoint_disconnect client ep :=
    alongside (bh_on_endpoint_disconnect (chan := chan) client ep);
|}.

(** The application has read a message from a channel, and passes what it is to
    the manager. *)
Definition hand_over {H env chan} `{EndpointChannel env chan} `{BwuHandler H env chan} `{Codec}
    (fuel : nat) (ep : string) (on : Medium) (c : chan) (data : bytes)
    : M (World H (Tapped env chan) chan) unit :=
  channel_op (modify (fun t => mkTapped t.(tap_env) (t.(tap_io) ++ [Got c data])));;
  match from_bytes data with
  | Ok f => on_incoming_frame fuel f ep on
  | Err _ => mret tt
  end.

(** ** A transport that works *)

Definition pauses_kept `{EndpointChannel env chan} (e e' : env) : Prop :=
  forall c, ch_is_paused c e' = ch_is_paused c e.

Definition pauses_kept_but `{EndpointChannel env chan} (c : chan) (e e' : env) : Prop :=
  forall c', c' <> c -> ch_is_paused c' e' = ch_is_paused c' e.

Section transport.
Context {env chan : Type} (next : chan -> list bytes -> env -> Prop).

Definition next_kept (e e' : env) : Prop :=
  forall c ds, next c ds e -> next c ds e'.

Definition next_kept_but (c : chan) (e e' : env) : Prop :=
  forall c' ds, c' <> c -> next c' ds e -> next c' ds e'.
End transport.

(** In the environments [I], and where [next c ds] says that [c] is open and that
    its coming reads return [ds], in this order: writes of messages that [fits]
    allows succeed on open channels that are not paused, reads return what is next,
    no call on an open channel waits, and only pausing and resuming a channel, or
    closing it, touch its pause. *)
Class WorkingTransport (env chan : Type) `{EndpointChannel env chan} (I : env -> Prop)
    (next : chan -> list bytes -> env -> Prop) (fits : bytes -> Prop) : Prop := {
  wt_write c d ds e :
    I e -> next c ds e -> ch_is_paused c e = false -> fits d ->
    wp no_fault (ch_write c d)
      (fun r e' => r = Success /\ I e' /\ pauses_kept e e' /\ next_kept next e e') e;
  wt_read c d ds e :
    I e -> next c (d :: ds) e ->
    wp no_fault (ch_read c)
      (fun r e' => r = Ok d /\ I e' /\ pauses_kept e e' /\ next c ds e' /\
                   next_kept_but next c e e') e;
  wt_close c d ds e :
    I e -> next c ds e ->
    wp no_fault (ch_close_with_reason c d)
      (fun _ e' => I e' /\ pauses_kept_but c e e' /\ next_kept_but next c e e') e;
  wt_set_local c i ds e :
    I e -> next c ds e ->
    wp no_fault (ch_set_local_endpoint_id c i)
      (fun _ e' => I e' /\ pauses_kept e e' /\ next_kept next e e') e;
  wt_disable c ds e :
    I e -> next c ds e ->
    wp no_fault (ch_disable_encryption c)
      (fun _ e' => I e' /\ pauses_kept e e' /\ next_kept next e e') e;
  wt_pause c ds e :
    I e -> next c ds e ->
    wp no_fault (ch_pause c)
      (fun _ e' => I e' /\ ch_is_paused c e' = true /\ pauses_kept_but c e e' /\
                   next_kept next e e') e;
  wt_resume c ds e :
    I e -> next c ds e ->
    wp no_fault (ch_resume c)
      (fun _ e' => I e' /\ ch_is_paused c e' = false /\ pauses_kept_but c e e' /\
                   next_kept next e e') e;
}.

(** The messages of the handshake that both sides write. *)
Definition handshake_messages `{Codec} : list bytes :=
  [for_bwu_introduction_ack; for_bwu_last_write; for_bwu_safe_to_close; for_disconnection false false].

(** A frame of the negotiation with an event. *)
Definition carries_event (f : OfflineFrame) (event : BwuEventType)
    (info : option UpgradePathInfo) : Prop :=
  get_frame_type f = Ft_BandwidthUpgradeNegotiation /\
  exists bwu, frame_negotiation f = Some bwu /\ bwu_event bwu = event /\
    bwu.(bwu_upgrade_path_info) = info.

(** Bytes that parse to such a frame, to an introduction, and to its
    acknowledgement. *)
Definition says `{Codec} (data : bytes) (event : BwuEventType) (info : option UpgradePathInfo) : Prop :=
  exists f, from_bytes data = Ok f /\ carries_event f event info.

Definition introduces `{Codec} (data : bytes) (ep : string) : Prop :=
  exists f intro, from_bytes data = Ok f /\
    (frame_negotiation f ≫= bwu_event_type) = Some (BwuEventType_i32 Ev_ClientIntroduction) /\
    (frame_negotiation f ≫= bwu_client_introduction) = Some intro /\
    intro.(ci_endpoint_id) = Some ep.

Definition acknowledges `{Codec} (data : bytes) : Prop :=
  exists f, from_bytes data = Ok f /\
    (frame_negotiation f ≫= bwu_event_type) = Some (BwuEventType_i32 Ev_ClientIntroductionAck).

(** ** The stages of an upgrade *)

Section lines.
Context {env chan : Type} `{EndpointChannel env chan}.
Context (I : env -> Prop) (next : chan -> list bytes -> env -> Prop) (old new : chan).

(** The old channel is open, and [last] comes last from it; the new one is paused
    or not, and [ds] comes from it. *)
Record lines (last : bytes) (paused : bool) (ds : list bytes) (e : env) : Prop := {
  li_env : I e;
  li_old : ch_is_paused old e = false;
  li_old_next : next old [last] e;
  li_new : ch_is_paused new e = paused;
  li_new_next : next new ds e;
}.
End lines.

Section stages.
Context {H env chan : Type} `{EndpointChannel env chan}.
Context (I : env -> Prop) (next : chan -> list bytes -> env -> Prop).
Context (ep : string) (old new : chan) (last : bytes).
Implicit Types w : World H (Tapped env chan) chan.

(** The endpoint is connected and being upgraded, its old channel is active; the
    channels are as [L] says. *)
Record ready_on (L : env -> Prop) (passed : list (io chan)) w : Prop := {
  rd_lines : L w.(w_env).(tap_env);
  rd_passed : w.(w_env).(tap_io) = passed;
  rd_connected : is_connected_to_endpoint w.(w_client) ep = true;
  rd_progress : ep ∈ w.(w_mgr).(in_progress_upgrades);
  rd_active : get_channel_for_endpoint ep w.(w_ecm) = Some old;
  rd_parked : w.(w_mgr).(previous_endpoint_channels) !! ep = None;
}.

Definition ready (ds : list bytes) : list (io chan) -> World H (Tapped env chan) chan -> Prop :=
  ready_on (lines I next old new last false ds).

(** The channels are swapped: the new one is active and paused, the old one
    parked. *)
Record upgrading (passed : list (io chan)) w : Prop := {
  up_lines : lines I next old new last true [] w.(w_env).(tap_env);
  up_passed : w.(w_env).(tap_io) = passed;
  up_connected : is_connected_to_endpoint w.(w_client) ep = true;
  up_progress : ep ∈ w.(w_mgr).(in_progress_upgrades);
  up_active : get_channel_for_endpoint ep w.(w_ecm) = Some new;
  up_parked : w.(w_mgr).(previous_endpoint_channels) !! ep = Some old;
  up_latch : ep ∉ w.(w_mgr).(successfully_upgraded_endpoints);
}.

(** The upgrade is over: the new channel is active and resumed, the client
    has one more event, for the new channel's medium, nothing of the
    upgrade is left, and [passed] has gone through the channels. *)
Record upgraded (events : list (string * Medium)) (passed : list (io chan)) w : Prop := {
  dn_env : I w.(w_env).(tap_env);
  dn_passed : w.(w_env).(tap_io) = passed;
  dn_connected : is_connected_to_endpoint w.(w_client) ep = true;
  dn_progress : ep ∉ w.(w_mgr).(in_progress_upgrades);
  dn_active : get_channel_for_endpoint ep w.(w_ecm) = Some new;
  dn_parked : w.(w_mgr).(previous_endpoint_channels) !! ep = None;
  dn_latch : ep ∉ w.(w_mgr).(successfully_upgraded_endpoints);
  dn_new : ch_is_paused new w.(w_env) = false;
  dn_events :
    bandwidth_changed_events w.(w_client) = events ++ [(ep, ch_medium new w.(w_env))];
}.
End stages.

Definition latched {H env chan} (ep : string) (w : World H env chan) : bool :=
  bool_decide (ep ∈ w.(w_mgr).(successfully_upgraded_endpoints)).

(** The introduction that a responder writes on the new channel. *)
Definition introduction_of {H env chan} `{EndpointChannel env chan} `{Codec} (old : chan)
    (info : UpgradePathInfo) (w : World H env chan) : bytes :=
  let last_local := ch_local_endpoint_id old w.(w_env) in
  for_bwu_introduction (local_endpoint_id w.(w_client))
    (if str_is_empty last_local then last_local_endpoint_id w.(w_client) else last_local)
    (default false info.(upi_supports_disabling_encryption)).

Section messages.
Context {chan : Type} `{Codec} (old new : chan).

(** What passes once the channels are swapped: the rest of the drain of the old
    one.  The remote's LAST_WRITE and SAFE_TO_CLOSE are [b2] and [b3]. *)
Definition answered (b2 : bytes) : list (io chan) := [Got old b2; Sent old for_bwu_safe_to_close].

Definition drained (b3 last : bytes) : list (io chan) :=
  [Got old b3; Sent old (for_disconnection false false); Got old last].

(** The responder, when the offer [b1] asks for an acknowledgement or not. *)
Definition responder_io (acked stale : bool) (b1 intro ack b2 b3 last : bytes) : list (io chan) :=
  [Got old b1; Sent new intro] ++ (if acked then [Got new ack] else []) ++
  [Sent old for_bwu_last_write] ++ (if stale then [Sent old for_bwu_safe_to_close] else []) ++
  answered b2 ++ drained b3 last.

(** The initiator, when the remote's LAST_WRITE comes before its connection or
    after it. *)
Definition initiator_io (early stale : bool) (offer intro b2 b3 last : bytes) : list (io chan) :=
  [Sent old offer] ++ (if early then [Got old b2] else []) ++
  [Got new intro; Sent new for_bwu_introduction_ack; Sent old for_bwu_last_write] ++
  (if early || stale then [Sent old for_bwu_safe_to_close] else []) ++
  (if early then [] else answered b2) ++ drained b3 last.
End messages.

(** * Lemmas *)

(** ** The transport, call by call *)

Section calls.
Context {env chan : Type} `{EndpointChannel env chan}.
Context (I : env -> Prop) (next : chan -> list bytes -> env -> Prop).
Context (fits : bytes -> Prop) `{HT : !WorkingTransport env chan I next fits}.
Context (old new : chan) (Hnew : new <> old) (last : bytes).
#[local] Abbreviation lines := (lines I next old new last).

Lemma lines_kept p p' ds e e' :
  lines p ds e -> I e' -> pauses_kept_but new e e' -> ch_is_paused new e' = p' ->
  next_kept next e e' -> lines p' ds e'.
Proof.
  intros [He Ho Hon Hn Hnn] He' Hk Hp Hx. split; [done| |by apply Hx|done|by apply Hx].
  by rewrite Hk.
Qed.

Lemma lines_calm p ds e e' :
  lines p ds e -> I e' -> pauses_kept e e' -> next_kept next e e' -> lines p ds e'.
Proof.
  intros Hl He' Hk Hx. eapply lines_kept; [done|done|by intros c _; apply Hk| |done].
  rewrite Hk. by destruct Hl.
Qed.

Lemma write_old d p ds e :
  lines p ds e -> fits d -> wp no_fault (ch_write old d) (fun r e' => r = Success /\ lines p ds e') e.
Proof.
  intros Hl Hd. eapply wp_mono; [eapply wt_write; by destruct Hl|done|].
  intros r e' (-> & HI & Hk & Hx). split; [done|]. by eapply lines_calm.
Qed.

Lemma write_new d ds e :
  lines false ds e -> fits d -> wp no_fault (ch_write new d) (fun r e' => r = Success /\ lines false ds e') e.
Proof.
  intros Hl Hd. eapply wp_mono; [eapply wt_write; by destruct Hl|done|].
  intros r e' (-> & HI & Hk & Hx). split; [done|]. by eapply lines_calm.
Qed.

Lemma read_new d p ds e :
  lines p (d :: ds) e -> wp no_fault (ch_read new) (fun r e' => r = Ok d /\ lines p ds e') e.
Proof.
  intros [He Ho Hon Hn Hnn]. eapply wp_mono; [by eapply wt_read|done|].
  intros r e' (-> & HI & Hk & Hd & Hx). split; [done|].
  split; [done|by rewrite Hk|by apply Hx|by rewrite Hk|done].
Qed.

Lemma pause_new p ds e : lines p ds e -> wp no_fault (ch_pause new) (fun _ => lines true ds) e.
Proof.
  intros Hl. eapply wp_mono; [eapply wt_pause; by destruct Hl|done|].
  intros _ e' (HI & Hp & Hk & Hx). by eapply lines_kept.
Qed.

Lemma set_local_new i p ds e :
  lines p ds e -> wp no_fault (ch_set_local_endpoint_id new i) (fun _ => lines p ds) e.
Proof.
  intros Hl. eapply wp_mono; [eapply wt_set_local; by destruct Hl|done|].
  intros _ e' (HI & Hk & Hx). by eapply lines_calm.
Qed.

Lemma disable_old p ds e :
  lines p ds e -> wp no_fault (ch_disable_encryption old) (fun _ => lines p ds) e.
Proof.
  intros Hl. eapply wp_mono; [eapply wt_disable; by destruct Hl|done|].
  intros _ e' (HI & Hk & Hx). by eapply lines_calm.
Qed.

Lemma read_old p ds e :
  lines p ds e ->
  wp no_fault (ch_read old) (fun r e' => r = Ok last /\ I e' /\ next old [] e' /\ next new ds e') e.
Proof.
  intros [He Ho Hon Hn Hnn]. eapply wp_mono; [by eapply wt_read|done|].
  intros r e' (-> & HI & _ & Hd & Hx). split_and!; [done|done|done|by apply Hx].
Qed.
End calls.

(** A call on a channel, and on a handler, in a tapped world. *)
Section tapped.
Context {H env chan : Type} `{EndpointChannel env chan}.
Implicit Types w : World H (Tapped env chan) chan.

Lemma wp_io {A} (m : M env A) (seen : A -> list (io chan)) (P : A -> env -> Prop)
    (Q : A -> World H (Tapped env chan) chan -> Prop) w :
  wp no_fault m P w.(w_env).(tap_env) ->
  (forall a e, P a e -> Q a (upd_env (mkTapped e (w.(w_env).(tap_io) ++ seen a)) w)) ->
  wp no_fault (channel_op (tapped_call m seen)) Q w.
Proof.
  unfold wp, channel_op, tapped_call. destruct (m (tap_env (w_env w))) as [[a e]|f]; [by eauto|done].
Qed.

Lemma wp_handler_ret {A} medium h (m : M (H * env) A) a h' e
    (Q : A -> World H (Tapped env chan) chan -> Prop) w :
  w.(w_mgr).(handlers) !! medium = Some h -> m (h, w.(w_env).(tap_env)) = Ret (a, (h', e)) ->
  Q a (upd_env (mkTapped e w.(w_env).(tap_io)) (upd_mgr (set_handlers <[medium := h']>) w)) ->
  wp no_fault (handler_op medium (alongside m)) Q w.
Proof. intros Hl Hm HQ. unfold wp, handler_op, alongside. by rewrite Hl, Hm. Qed.
End tapped.

(** ** The frames of a connected endpoint being upgraded *)

Section frames.
Context {H env chan : Type} `{EndpointChannel env chan} `{BwuHandler H env chan} `{Codec}.
Context (ep : string).
Implicit Types w : World H env chan.

Lemma frame_dispatch fuel f event info medium w (Q : unit -> World H env chan -> Prop) :
  carries_event f event info ->
  is_connected_to_endpoint w.(w_client) ep = true ->
  (forall bwu, bwu_event bwu = event -> bwu.(bwu_upgrade_path_info) = info ->
     wp no_fault (on_bwu_negotiation_frame fuel bwu ep) Q w) ->
  wp no_fault (on_incoming_frame fuel f ep medium) Q w.
Proof.
  intros (Ht & bwu & Hb & He & Hi) Hc HQ. unfold on_incoming_frame.
  rewrite decide_False by (intros Hn; by apply Hn).
  unfold frame_negotiation in Hb. rewrite Hb. by apply HQ.
Qed.

Lemma last_write_frame fuel f medium w (Q : unit -> World H env chan -> Prop) :
  carries_event f Ev_LastWriteToPriorChannel None ->
  is_connected_to_endpoint w.(w_client) ep = true ->
  ep ∈ w.(w_mgr).(in_progress_upgrades) ->
  wp no_fault (process_last_write_to_prior_channel_event ep) Q w ->
  wp no_fault (on_incoming_frame fuel f ep medium) Q w.
Proof.
  intros Hf Hc Hp HQ. eapply frame_dispatch; [done|done|]. intros bwu He Hi.
  unfold on_bwu_negotiation_frame. rewrite He. do 2 world_step. rewrite Hc. simpl.
  do 2 world_step. by rewrite bool_decide_true.
Qed.

Lemma safe_to_close_frame fuel f medium w (Q : unit -> World H env chan -> Prop) :
  carries_event f Ev_SafeToClosePriorChannel None ->
  is_connected_to_endpoint w.(w_client) ep = true ->
  ep ∈ w.(w_mgr).(in_progress_upgrades) ->
  wp no_fault (process_safe_to_close_prior_channel_event ep) Q w ->
  wp no_fault (on_incoming_frame fuel f ep medium) Q w.
Proof.
  intros Hf Hc Hp HQ. eapply frame_dispatch; [done|done|]. intros bwu He Hi.
  unfold on_bwu_negotiation_frame. rewrite He. do 2 world_step. rewrite Hc. simpl.
  do 2 world_step. by rewrite bool_decide_true.
Qed.
End frames.

(** Appends of messages, to the right. *)
Ltac flat_io :=
  cbn [app]; repeat (rewrite <- app_assoc; cbn [app]); rewrite ?app_nil_r.

Section protocol.
Context {H env chan : Type}.
Context `{EndpointChannel env chan} `{BwuHandler H env chan} `{Codec}.
Context (I : env -> Prop) (next : chan -> list bytes -> env -> Prop).
Context (fits : bytes -> Prop) `{HT : !WorkingTransport env chan I next fits}.
Context (Hfits : Forall fits handshake_messages).
Context (ep : string) (old new : chan) (Hnew : new <> old) (last : bytes).
Implicit Types w : World H (Tapped env chan) chan.
#[local] Abbreviation lines := (lines I next old new last).
#[local] Abbreviation ready := (ready I next ep old new last).
#[local] Abbreviation upgrading := (upgrading I next ep old new last).
#[local] Abbreviation upgraded := (upgraded I ep new).

Lemma fits_message d : d ∈ handshake_messages -> fits d.
Proof. rewrite Forall_forall in Hfits. apply Hfits. Qed.

Ltac message_fits :=
  apply fits_message; unfold handshake_messages; rewrite !elem_of_cons; tauto.

Definition note (event : io chan) w : World H (Tapped env chan) chan :=
  upd_env (mkTapped w.(w_env).(tap_env) (w.(w_env).(tap_io) ++ [event])) w.

Lemma delivered fuel on c data event info (Q : unit -> World H (Tapped env chan) chan -> Prop) w :
  says data event info ->
  (forall f, carries_event f event info ->
     wp no_fault (on_incoming_frame fuel f ep on) Q (note (Got c data) w)) ->
  wp no_fault (hand_over fuel ep on c data) Q w.
Proof.
  intros (f & Hf & Hc) HQ. unfold hand_over. apply wp_bind. rewrite Hf. unfold wp, channel_op, modify.
  by apply HQ.
Qed.

Lemma ready_note ds t c d w : ready ds t w -> ready ds (t ++ [Got c d]) (note (Got c d) w).
Proof. intros [Hl Ht Hc Hp Ha Hpk]. split; try done. simpl. by rewrite Ht. Qed.

Lemma upgrading_note t c d w : upgrading t w -> upgrading (t ++ [Got c d]) (note (Got c d) w).
Proof. intros [Hl Ht Hc Hp Ha Hpk Hla]. split; try done. simpl. by rewrite Ht. Qed.

(** The remote's LAST_WRITE after the swap: SAFE_TO_CLOSE is sent. *)
Lemma last_write_upgrading t w :
  upgrading t w ->
  wp no_fault (process_last_write_to_prior_channel_event ep)
    (fun _ w' => upgrading (t ++ [Sent old for_bwu_safe_to_close]) w' /\ w'.(w_client) = w.(w_client)) w.
Proof.
  intros [Hl Ht Hc Hp Ha Hpk Hla]. unfold process_last_write_to_prior_channel_event.
  do 2 world_step. rewrite Hpk. apply wp_bind. eapply wp_io; [eapply write_old; [done..|message_fits]|].
  intros r e (-> & Hl'). apply wp_ret. split; [|done]. split; try done. simpl. by rewrite Ht.
Qed.

Lemma protocol_upgrades enc t w :
  ready [] t w ->
  wp no_fault (run_upgrade_protocol ep new enc)
    (fun _ w' =>
       upgrading (t ++ [Sent old for_bwu_last_write] ++
                  (if latched ep w then [Sent old for_bwu_safe_to_close] else [])) w' /\
       w'.(w_client) = w.(w_client)) w.
Proof.
  intros [Hl Ht Hc Hp Ha Hpk]. unfold run_upgrade_protocol. do 3 world_step.
  eapply wp_io; [by eapply set_local_new|]. intros [] e1 Hl1. world_step.
  eapply wp_io; [by eapply pause_new|]. intros [] e2 Hl2. do 2 world_step.
  simpl. rewrite Ha. do 3 world_step.
  eapply wp_io; [eapply write_old; [done..|message_fits]|]. intros r e3 (-> & Hl3). simpl.
  do 6 world_step.
  set (w3 := upd_mgr (set_upgraded (fun s => s ∖ {[ep]})) _).
  assert (Hup : upgrading (t ++ [Sent old for_bwu_last_write]) w3).
  { split; simpl; try done.
    - by rewrite !app_nil_r, Ht.
    - apply lookup_insert_eq.
    - apply lookup_insert_eq.
    - set_solver. }
  unfold latched. case_bool_decide as Hla; simpl in *; [rewrite bool_decide_true by done|rewrite bool_decide_false by done].
  - eapply wp_mono; [by eapply last_write_upgrading|done|].
    intros [] w' [Hup' ->]. by rewrite <- app_assoc in Hup'.
  - by apply wp_ret.
Qed.

Lemma safe_to_close_upgraded t w :
  upgrading t w ->
  wp no_fault (process_safe_to_close_prior_channel_event ep)
    (fun _ => upgraded (bandwidth_changed_events w.(w_client))
       (t ++ [Sent old (for_disconnection false false); Got old last])) w.
Proof.
  intros [Hl Ht Hc Hp Ha Hpk Hla]. unfold process_safe_to_close_prior_channel_event.
  do 4 world_step. rewrite Hpk. world_step.
  eapply wp_io; [by eapply disable_old|]. intros [] e1 Hl1. world_step.
  eapply wp_io; [eapply write_old; [done..|message_fits]|]. intros r e2 (-> & Hl2). world_step.
  eapply wp_io; [by eapply read_old|]. intros r e3 (-> & HI3 & Ho3 & Hn3). world_step.
  eapply wp_io; [by eapply wt_close|]. intros [] e4 (HI4 & _ & Hx4). apply (Hx4 new) in Hn3; [|done]. do 2 world_step. simpl.
  rewrite Ha. world_step.
  eapply wp_io; [by eapply wt_resume|]. intros [] e5 (HI5 & Hn5 & _). do 5 world_step.
  split; simpl; try done; [|set_solver|by apply lookup_delete_eq].
  by rewrite Ht, !app_nil_r, <- app_assoc.
Qed.

(** The two frames that end an upgrade. *)
Lemma drain fuel on b3 t w :
  upgrading t w -> says b3 Ev_SafeToClosePriorChannel None ->
  wp no_fault (hand_over fuel ep on old b3)
    (fun _ => upgraded (bandwidth_changed_events w.(w_client)) (t ++ drained old b3 last)) w.
Proof.
  intros Hu Hs. eapply delivered; [done|]. intros f Hf. apply (upgrading_note _ old b3) in Hu.
  eapply safe_to_close_frame; [done|by destruct Hu|by destruct Hu|].
  eapply wp_mono; [by eapply safe_to_close_upgraded|done|]. intros [] w' Hw'.
  by rewrite <- app_assoc in Hw'.
Qed.

Lemma answer fuel on b2 t w :
  upgrading t w -> says b2 Ev_LastWriteToPriorChannel None ->
  wp no_fault (hand_over fuel ep on old b2)
    (fun _ w' => upgrading (t ++ answered old b2) w' /\ w'.(w_client) = w.(w_client)) w.
Proof.
  intros Hu Hs. eapply delivered; [done|]. intros f Hf. apply (upgrading_note _ old b2) in Hu.
  eapply last_write_frame; [done|by destruct Hu|by destruct Hu|].
  eapply wp_mono; [by eapply last_write_upgrading|done|]. intros [] w' [Hw' ->].
  by rewrite <- app_assoc in Hw'.
Qed.

(** ** The responder's offer *)

Lemma bwu_medium_set (m : BwuManager H chan) medium :
  bwu_medium_of (if m.(config).(support_multiple_bwu_mediums) then
                   set_mediums <[ep := medium]> m
                 else set_global_medium medium m) ep = medium.
Proof.
  unfold bwu_medium_of. destruct (support_multiple_bwu_mediums (config m)) eqn:Hs; simpl;
    rewrite Hs; [by rewrite lookup_insert_eq|done].
Qed.

(** What the new channel yields to the responder. *)
Definition acks (info : UpgradePathInfo) (ack : bytes) : list bytes :=
  if default false info.(upi_supports_client_introduction_ack) then [ack] else [].

Definition got_ack (info : UpgradePathInfo) (ack : bytes) : list (io chan) :=
  if default false info.(upi_supports_client_introduction_ack) then [Got new ack] else [].

(** The new channel of an offer: introduced, and acknowledged when the offer
    says so. *)
Lemma offer_internal info ack h h' e1 w :
  let medium := path_info_medium info in
  bwu_medium_of w.(w_mgr) ep = medium ->
  medium <> UnknownMedium -> w.(w_mgr).(handlers) !! medium = Some h ->
  get_channel_for_endpoint ep w.(w_ecm) = Some old ->
  bh_create_upgraded_endpoint_channel w.(w_client) (ch_service_id old w.(w_env)) ep info
    (h, w.(w_env).(tap_env)) = Ret (Some new, (h', e1)) ->
  lines false (acks info ack) e1 -> fits (introduction_of old info w) ->
  (default false info.(upi_supports_client_introduction_ack) = true -> acknowledges ack) ->
  wp no_fault (process_bwu_path_available_event_internal ep info)
    (fun r w' => r = Some new /\ exists e2, lines false [] e2 /\
       w' = upd_env (mkTapped e2 (w.(w_env).(tap_io) ++
                       [Sent new (introduction_of old info w)] ++ got_ack info ack))
              (upd_mgr (set_handlers <[medium := h']>) w)) w.
Proof.
  cbv zeta. intros Hb Hm Hh Ha Hcr Hl1 Hfi Hack.
  unfold process_bwu_path_available_event_internal. cbv zeta. do 2 world_step.
  rewrite decide_False by (intros Hn; by apply Hn). do 2 world_step.
  unfold handler_exists. rewrite bool_decide_true, Hh by done. cbn [andb is_some negb].
  do 2 world_step. rewrite Ha. do 7 world_step.
  eapply (wp_handler_ret (path_info_medium info) h _ (Some new) h' e1); [done|exact Hcr|].
  cbv beta iota. world_step.
  eapply wp_io; [by eapply write_new|]. intros r e2 (-> & Hl2). cbn [Exception_ok negb].
  unfold got_ack, acks in *.
  destruct (default false (upi_supports_client_introduction_ack info)).
  - destruct (Hack eq_refl) as (f & Hf & Hev). world_step.
    unfold read_client_introduction_ack_frame. world_step.
    eapply wp_io; [by eapply read_new|]. intros r e3 (-> & Hl3). apply wp_ret. rewrite Hf.
    unfold frame_negotiation in Hev. rewrite Hev, bool_decide_true by done. apply wp_ret.
    split; [done|]. exists e3. split; [done|]. cbn. by rewrite <- app_assoc.
  - apply wp_ret. split; [done|]. exists e2. by split.
Qed.

(** The guards under which the responder takes an offer. *)
Record takes_offer (info : UpgradePathInfo) w : Prop := {
  to_connected : is_connected_to_endpoint w.(w_client) ep = true;
  to_outgoing : is_incoming_connection w.(w_client) ep = false;
  to_lan : is_wifi_lan_connected w.(w_env) w.(w_ecm) = true ->
           path_info_medium info <> WifiHotspot;
  to_progress : ep ∉ w.(w_mgr).(in_progress_upgrades);
  to_parked : w.(w_mgr).(previous_endpoint_channels) !! ep = None;
  to_medium : bwu_medium_of w.(w_mgr) ep = UnknownMedium \/
              bwu_medium_of w.(w_mgr) ep = path_info_medium info;
  to_known : path_info_medium info <> UnknownMedium;
  to_active : get_channel_for_endpoint ep w.(w_ecm) = Some old;
}.

(** The medium of an offer has a handler, and its dial yields the new channel, with
    [ds] to be read from it. *)
Definition dials (info : UpgradePathInfo) (ds : list bytes) w : Prop :=
  exists h h' e,
    w.(w_mgr).(handlers) !! path_info_medium info = Some h /\
    bh_create_upgraded_endpoint_channel w.(w_client) (ch_service_id old w.(w_env)) ep info
      (h, w.(w_env).(tap_env)) = Ret (Some new, (h', e)) /\
    lines false ds e.

(** The medium is recorded before the offer is looked at any further. *)
Definition with_medium info w : World H (Tapped env chan) chan :=
  if decide (bwu_medium_of (w_mgr w) ep = UnknownMedium)
  then upd_mgr (fun m => if m.(config).(support_multiple_bwu_mediums) then
                  set_mediums <[ep := path_info_medium info]> m
                else set_global_medium (path_info_medium info) m) w
  else w.

Lemma with_medium_facts info w :
  takes_offer info w ->
  let w1 := with_medium info w in
  bwu_medium_of w1.(w_mgr) ep = path_info_medium info /\
  w1.(w_mgr).(handlers) = w.(w_mgr).(handlers) /\ w1.(w_client) = w.(w_client) /\
  w1.(w_ecm) = w.(w_ecm) /\ w1.(w_env) = w.(w_env) /\
  w1.(w_mgr).(previous_endpoint_channels) = w.(w_mgr).(previous_endpoint_channels) /\
  w1.(w_mgr).(successfully_upgraded_endpoints) = w.(w_mgr).(successfully_upgraded_endpoints).
Proof.
  intros Hto. unfold with_medium. cbv zeta.
  destruct (decide (bwu_medium_of (w_mgr w) ep = UnknownMedium)) as [Hd|Hd];
    [|by destruct (to_medium _ _ Hto); [|split_and!]].
  cbn. rewrite bwu_medium_set. by case_match.
Qed.

Lemma offer_upgrades info ack w :
  takes_offer info w -> dials info (acks info ack) w -> fits (introduction_of old info w) ->
  (default false info.(upi_supports_client_introduction_ack) = true -> acknowledges ack) ->
  wp no_fault (process_bwu_path_available_event ep info)
    (fun _ w' =>
       upgrading (w.(w_env).(tap_io) ++ [Sent new (introduction_of old info w)] ++
                  got_ack info ack ++ [Sent old for_bwu_last_write] ++
                  (if latched ep w then [Sent old for_bwu_safe_to_close] else [])) w' /\
       w'.(w_client) = w.(w_client)) w.
Proof.
  intros Hto (h & h' & e1 & Hh & Hcr & Hl1) Hfi Hack. pose proof Hto as [Hc Ho Hlan Hp Hpk Hmed Hkn Ha].
  unfold process_bwu_path_available_event. cbv zeta. do 2 world_step.
  assert (Hg : is_wifi_lan_connected (w_env w) (w_ecm w)
               && bool_decide (path_info_medium info = WifiHotspot) = false).
  { destruct (is_wifi_lan_connected _ _); [|done]. simpl. by apply bool_decide_eq_false, Hlan. }
  rewrite Hg. do 2 world_step. rewrite Ho. do 2 world_step. rewrite bool_decide_false by done.
  do 3 world_step.
  destruct (with_medium_facts info w Hto) as (Hb1 & Hh1 & Hc1 & He1 & Hv1 & Hp1 & Hs1).
  set (w1 := with_medium info w) in *.
  assert (Hk : wp no_fault
    (medium ← get_bwu_medium_for_endpoint ep;
     if decide (path_info_medium info <> medium) then run_upgrade_failed_protocol ep info
     else created ← process_bwu_path_available_event_internal ep info;
          match created with
          | Some channel =>
              set_mgr (set_in_progress (fun s => {[ep]} ∪ s));;
              run_upgrade_protocol ep channel
                (negb (default false info.(upi_supports_disabling_encryption)))
          | None => run_upgrade_failed_protocol ep info
          end) (fun _ w' =>
       upgrading (w.(w_env).(tap_io) ++ [Sent new (introduction_of old info w)] ++
                  got_ack info ack ++ [Sent old for_bwu_last_write] ++
                  (if latched ep w then [Sent old for_bwu_safe_to_close] else [])) w' /\
       w'.(w_client) = w.(w_client)) w1).
  { do 2 world_step. rewrite decide_False by (intros Hn; by apply Hn). world_step.
    assert (Hfi1 : fits (introduction_of old info w1)) by (unfold introduction_of; by rewrite Hc1, Hv1).
    eapply wp_mono; [apply (offer_internal info ack h h' e1)|done|].
    all: rewrite ?Hh1, ?Hc1, ?He1, ?Hv1; try done.
    intros r w2 (-> & e2 & Hl2 & ->). do 2 world_step.
    eapply wp_mono; [apply (protocol_upgrades _ (w.(w_env).(tap_io) ++
      [Sent new (introduction_of old info w)] ++ got_ack info ack))|done|].
    - split; simpl; rewrite ?Hc1, ?He1, ?Hp1, ?Hv1; try done; [|set_solver].
      unfold introduction_of. by rewrite Hc1, Hv1.
    - intros [] w' [Hup Hcl]. split; [|by rewrite Hcl; simpl; rewrite Hc1].
      revert Hup. unfold latched. simpl. by rewrite Hs1, <- !app_assoc. }
  subst w1. unfold with_medium in *.
  destruct (decide (bwu_medium_of (w_mgr w) ep = UnknownMedium)); [by world_step|done].
Qed.

(** ** The initiator's offer *)

(** The guards under which the initiator offers a medium. *)
Record offers (medium : Medium) w : Prop := {
  of_connected : is_connected_to_endpoint w.(w_client) ep = true;
  of_lan : is_wifi_lan_connected w.(w_env) w.(w_ecm) = true -> medium <> WifiHotspot;
  of_progress : ep ∉ w.(w_mgr).(in_progress_upgrades);
  of_parked : w.(w_mgr).(previous_endpoint_channels) !! ep = None;
  of_known : medium <> UnknownMedium;
  of_active : get_channel_for_endpoint ep w.(w_ecm) = Some old;
  of_other : ch_medium old w.(w_env) <> medium;
}.

(** The medium has a handler that sets it up and makes an offer, and the channels
    are then as [L] says: [ds] is to be read from the new channel. *)
Definition sets_up_on (L : env -> Prop) (medium : Medium) (frame : bytes) w : Prop :=
  exists h h' e,
    w.(w_mgr).(handlers) !! medium = Some h /\
    bh_initialize_upgraded_medium_for_endpoint (chan := chan) w.(w_client)
      (ch_service_id old w.(w_env)) ep (h, w.(w_env).(tap_env)) = Ret (frame, (h', e)) /\
    frame <> [] /\ L e.

Definition sets_up (medium : Medium) (frame : bytes) (ds : list bytes) : World H (Tapped env chan) chan -> Prop :=
  sets_up_on (lines false ds) medium frame.

Lemma offer_sent_on (L : env -> Prop) fuel medium frame w :
  offers medium w -> sets_up_on L medium frame w ->
  (forall e, L e -> wp no_fault (ch_write old frame) (fun r e' => r = Success /\ L e') e) ->
  wp no_fault (initiate_bwu_for_endpoint (S fuel) ep medium)
    (fun _ w' => ready_on ep old L (w.(w_env).(tap_io) ++ [Sent old frame]) w' /\
                 latched ep w' = latched ep w /\ w'.(w_client) = w.(w_client)) w.
Proof using Type.
  clear HT Hfits Hnew fits next I.
  intros [Hc Hlan Hp Hpk Hkn Ha Hot] (h & h' & e1 & Hh & Hin & Hne & Hl1) HL.
  cbn [initiate_bwu_for_endpoint]. unfold initiate_body. do 2 world_step.
  assert (Hg : is_wifi_lan_connected (w_env w) (w_ecm w) && bool_decide (medium = WifiHotspot)
               = false).
  { destruct (is_wifi_lan_connected _ _); [|done]. simpl. by apply bool_decide_eq_false, Hlan. }
  rewrite Hg. do 4 world_step.
  set (w1 := upd_mgr _ w).
  assert (Hw1 : w1.(w_mgr).(handlers) = w.(w_mgr).(handlers) /\
    w1.(w_mgr).(in_progress_upgrades) = w.(w_mgr).(in_progress_upgrades) /\
    w1.(w_mgr).(previous_endpoint_channels) = w.(w_mgr).(previous_endpoint_channels) /\
    latched ep w1 = latched ep w).
  { subst w1. unfold latched. simpl. by case_match. }
  destruct Hw1 as (Hh1 & Hp1 & Hpk1 & Hla1). unfold handler_exists.
  rewrite Hh1, Hh, bool_decide_true by done. cbn [andb is_some negb]. do 2 world_step.
  rewrite Hp1, bool_decide_false by done. do 5 world_step. simpl. rewrite Ha.
  unfold optional_channel_medium. world_step. cbv beta. rewrite decide_False by (simpl in *; congruence).
  do 5 world_step. eapply (wp_handler_ret medium h _ frame h' e1);
    [exact (eq_trans (f_equal (lookup medium) Hh1) Hh)|exact Hin|].
  destruct frame as [|b frame]; [done|]. cbn [is_nil]. world_step.
  eapply wp_io; [by apply HL|]. intros r e2 (-> & Hl2). cbn [Exception_ok negb].
  world_step. split_and!; [split; simpl; try done|exact Hla1|done].
  - set_solver.
  - exact (eq_trans (f_equal (lookup ep) Hpk1) Hpk).
Qed.

Lemma offer_sent fuel medium frame ds w :
  offers medium w -> sets_up medium frame ds w -> fits frame ->
  wp no_fault (initiate_bwu_for_endpoint (S fuel) ep medium)
    (fun _ w' => ready ds (w.(w_env).(tap_io) ++ [Sent old frame]) w' /\
                 latched ep w' = latched ep w /\ w'.(w_client) = w.(w_client)) w.
Proof. intros Hof Hup Hfr. apply offer_sent_on; [done..|]. intros e He. by eapply write_old. Qed.

(** A LAST_WRITE that comes before the incoming connection is latched. *)
Lemma early_last_write_ready ds t w :
  ready ds t w ->
  wp no_fault (process_last_write_to_prior_channel_event ep)
    (fun _ w' => ready ds t w' /\ latched ep w' = true /\ w'.(w_client) = w.(w_client)) w.
Proof.
  intros [Hl Ht Hc Hp Ha Hpk]. unfold process_last_write_to_prior_channel_event.
  do 2 world_step. rewrite Hpk. world_step. split_and!; [by split| |done].
  unfold latched. simpl. by apply bool_decide_eq_true; set_solver.
Qed.

Lemma early_answer fuel on b2 ds t w :
  ready ds t w -> says b2 Ev_LastWriteToPriorChannel None ->
  wp no_fault (hand_over fuel ep on old b2)
    (fun _ w' => ready ds (t ++ [Got old b2]) w' /\ latched ep w' = true /\
                 w'.(w_client) = w.(w_client)) w.
Proof.
  intros Hr Hs. eapply delivered; [done|]. intros f Hf. apply (ready_note _ _ old b2) in Hr.
  eapply last_write_frame; [done|by destruct Hr|by destruct Hr|].
  eapply wp_mono; [by eapply early_last_write_ready|done|done].
Qed.

(** The incoming connection of the responder. *)
Lemma connection_upgrades bs t w :
  ready [bs] t w -> introduces bs ep ->
  wp no_fault (on_incoming_connection (mkIncoming new))
    (fun _ w' =>
       upgrading (t ++ [Got new bs; Sent new for_bwu_introduction_ack; Sent old for_bwu_last_write] ++
                  (if latched ep w then [Sent old for_bwu_safe_to_close] else [])) w' /\
       w'.(w_client) = w.(w_client)) w.
Proof.
  intros [Hl Ht Hc Hp Ha Hpk] (f & intro & Hf & Hev & Hin & Hid). unfold on_incoming_connection,
    read_client_introduction_frame, write_client_introduction_ack_frame. cbn [isc_channel].
  do 2 world_step. eapply wp_io; [by eapply read_new|]. intros r e1 (-> & Hl1). world_step.
  rewrite Hf. unfold frame_negotiation in Hev, Hin.
  destruct (of_v1 f ≫= v1_bandwidth_upgrade_negotiation) as [bwu|]; [|done]. simpl in Hev, Hin.
  rewrite decide_True, Hin by done. do 2 world_step.
  eapply wp_io; [eapply write_new; [done..|message_fits]|].
  intros r e2 (-> & Hl2). apply wp_ret. cbn [Exception_ok negb]. do 2 world_step.
  unfold introduced_endpoint. rewrite Hid. cbn [default from_option id]. rewrite decide_True by done.
  do 2 world_step.
  eapply wp_mono; [apply (protocol_upgrades _ (t ++ [Got new bs; Sent new for_bwu_introduction_ack]))|done|].
  - split; simpl; try done. by rewrite Ht, <- app_assoc.
  - intros [] w' [Hup Hcl]. split; [|done]. revert Hup. unfold latched. simpl. by rewrite <- app_assoc.
Qed.

(** ** The whole runs *)

Lemma responder_run fuel on b1 b2 b3 ack info w :
  takes_offer info w -> dials info (acks info ack) w -> fits (introduction_of old info w) ->
  (default false info.(upi_supports_client_introduction_ack) = true -> acknowledges ack) ->
  says b1 Ev_UpgradePathAvailable (Some info) ->
  says b2 Ev_LastWriteToPriorChannel None -> says b3 Ev_SafeToClosePriorChannel None ->
  wp no_fault
    (hand_over fuel ep on old b1;; hand_over fuel ep on old b2;; hand_over fuel ep on old b3)
    (fun _ => upgraded (bandwidth_changed_events w.(w_client))
       (w.(w_env).(tap_io) ++
        responder_io old new (default false info.(upi_supports_client_introduction_ack))
          (latched ep w) b1 (introduction_of old info w) ack b2 b3 last)) w.
Proof.
  intros Hto Hd Hfi Hack H1' H2' H3'. apply wp_bind.
  eapply delivered; [exact H1'|]. intros f1 Hf1.
  eapply frame_dispatch; [exact Hf1|by destruct Hto|]. intros bwu He Hi.
  unfold on_bwu_negotiation_frame. rewrite He, Hi. do 2 world_step.
  change (w_client (note (Got old b1) w)) with (w_client w).
  rewrite (to_connected _ _ Hto). cbn [negb].
  eapply wp_mono; [apply (offer_upgrades info ack
    (note (Got old b1) w)); [destruct Hto; by split|exact Hd|done|done]|done|].
  intros [] w1 [Hu1 Hc1]. apply wp_bind.
  eapply wp_mono; [by eapply answer|done|]. intros [] w2 [Hu2 Hc2].
  eapply wp_mono; [by eapply drain|done|]. intros [] w3 Hw3.
  rewrite Hc2, Hc1 in Hw3. revert Hw3. unfold responder_io, got_ack, answered.
  change (tap_io (w_env (note (Got old b1) w))) with (tap_io (w_env w) ++ [Got old b1]). by flat_io.
Qed.

(** From the remote's connection on. *)
Lemma connection_run fuel on bs b2 b3 t w :
  ready [bs] t w -> introduces bs ep ->
  says b2 Ev_LastWriteToPriorChannel None -> says b3 Ev_SafeToClosePriorChannel None ->
  wp no_fault
    (on_incoming_connection (mkIncoming new);; hand_over fuel ep on old b2;; hand_over fuel ep on old b3)
    (fun _ => upgraded (bandwidth_changed_events w.(w_client))
       (t ++ [Got new bs; Sent new for_bwu_introduction_ack; Sent old for_bwu_last_write] ++
        (if latched ep w then [Sent old for_bwu_safe_to_close] else []) ++
        answered old b2 ++ drained old b3 last)) w.
Proof.
  intros Hr Hbs H2' H3'. apply wp_bind.
  eapply wp_mono; [by eapply connection_upgrades|done|]. intros [] w1 [Hu1 Hc1]. apply wp_bind.
  eapply wp_mono; [by eapply answer|done|]. intros [] w2 [Hu2 Hc2].
  eapply wp_mono; [by eapply drain|done|]. intros [] w3 Hd. rewrite Hc2, Hc1 in Hd. revert Hd. by flat_io.
Qed.

Lemma initiator_run fuel (early : bool) medium on bs frame b2 b3 w :
  offers medium w -> sets_up medium frame [bs] w -> fits frame -> introduces bs ep ->
  says b2 Ev_LastWriteToPriorChannel None -> says b3 Ev_SafeToClosePriorChannel None ->
  wp no_fault
    (initiate_bwu_for_endpoint (S fuel) ep medium;;
     (if early then hand_over fuel ep on old b2 else mret tt);;
     on_incoming_connection (mkIncoming new);;
     (if early then mret tt else hand_over fuel ep on old b2);;
     hand_over fuel ep on old b3)
    (fun _ => upgraded (bandwidth_changed_events w.(w_client))
       (w.(w_env).(tap_io) ++ initiator_io old new early (latched ep w) frame bs b2 b3 last)) w.
Proof.
  intros Hof Hup Hfr Hbs H2' H3'. apply wp_bind.
  eapply wp_mono; [by eapply offer_sent|done|].
  intros [] w1 (Hr1 & Hla1 & Hc1). apply wp_bind.
  assert (Hmid : wp no_fault (if early then hand_over fuel ep on old b2 else mret tt)
    (fun _ w' => ready [bs]
                   (tap_io (w_env w) ++ [Sent old frame] ++ if early then [Got old b2] else []) w' /\
                 latched ep w' = early || latched ep w /\ w'.(w_client) = w.(w_client)) w1).
  { destruct early.
    - eapply wp_mono; [by eapply early_answer|done|]. intros [] w2 (Hr2 & Hla2 & Hc2).
      rewrite Hc2, <- app_assoc in *. by split_and!.
    - apply wp_ret. by rewrite Hla1. }
  eapply wp_mono; [exact Hmid|done|]. intros [] w2 (Hr2 & Hla2 & Hc2). apply wp_bind.
  eapply wp_mono; [by eapply connection_upgrades|done|].
  rewrite Hla2. intros [] w3 [Hu3 Hc3]. apply wp_bind.
  set (t3 := (_ ++ _) ++ _) in Hu3.
  assert (Hlw : wp no_fault (if early then mret tt else hand_over fuel ep on old b2)
    (fun _ w' => upgrading (t3 ++ if early then [] else answered old b2) w' /\
                 w'.(w_client) = w3.(w_client)) w3).
  { destruct early; [apply wp_ret; by rewrite app_nil_r|by eapply answer]. }
  eapply wp_mono; [exact Hlw|done|]. intros [] w4 [Hu4 Hc4].
  eapply wp_mono; [by eapply drain|done|].
  intros [] w5 Hd. rewrite Hc4, Hc3, Hc2 in Hd. revert Hd. subst t3. unfold initiator_io.
  by flat_io.
Qed.
End protocol.

(** ** The fakes work *)

(** The worlds of the witnesses: "EP" on Bluetooth with a WIFI_LAN handler, as a
    responder and as an initiator whose remote's connection is the channel 1. *)
Definition lan_info : UpgradePathInfo :=
  set_upi_wifi_lan_socket
    (Some (mkWifiLanSocket (Some (str_bytes "0123")) (Some 4096%Z) []))
    (upgrade_path_info_for_medium WifiLan).

Definition goodbye `{Codec} : bytes := for_disconnection false false.

Definition giving (data : bytes) : FakeEndpointChannel := set_read_output (Ok data) bluetooth_channel.

Definition tapped {H env chan} (w : World H env chan) : World H (Tapped env chan) chan :=
  {| w_mgr := w.(w_mgr); w_client := w.(w_client); w_ecm := w.(w_ecm); w_env := mkTapped w.(w_env) [] |}.

Definition responder_world :=
  tapped (fake_world BwuConfig_default false [WifiLan] [WifiLan] [giving goodbye]).

Definition fake_introduction : bytes := for_bwu_introduction "EP" "" false.

Definition initiator_world :=
  tapped (fake_world BwuConfig_default true [WifiLan] [WifiLan]
    [giving goodbye;
     set_read_output (Ok fake_introduction) (FakeEndpointChannel_new WifiLan "A_UPGRADE")]).

(** Every channel takes writes; a channel gives the same message to every read. *)
Definition fake_works (e : FakeEnv) : Prop :=
  forall c, fc_write_output (fake_state c e) = Success.

Definition fake_next (c : FakeChan) (ds : list bytes) (e : FakeEnv) : Prop :=
  Forall (fun d => fc_read_output (fake_state c e) = Ok d) ds.

Lemma fake_works_intro e :
  bool_decide (map_Forall (fun _ s => s.(fc_write_output) = Success) e.(fe_channels)) = true ->
  fake_works e.
Proof.
  intros Hall%bool_decide_eq_true c'. unfold fake_state.
  destruct (fe_channels e !! fake_id c') as [s|] eqn:Hs; [|done]. by apply Hall in Hs.
Qed.

(** A call that leaves the outputs of its channel keeps the fakes working. *)
Lemma fake_op_works {A} (f : FakeEndpointChannel -> A * FakeEndpointChannel) c e :
  fake_works e ->
  (forall s, fc_write_output (f s).2 = fc_write_output s) ->
  (forall s, fc_read_output (f s).2 = fc_read_output s) ->
  wp no_fault (fake_op f c)
    (fun a e' => a = (f (fake_state c e)).1 /\ fake_works e' /\
       fake_get fc_is_paused c e' = fc_is_paused (f (fake_state c e)).2 /\
       pauses_kept_but c e e' /\ next_kept fake_next e e') e.
Proof.
  intros Hw Hfw Hfr. set (e' := mkFakeEnv e.(fe_next)
    (<[c.(fake_id) := (f (fake_state c e)).2]> e.(fe_channels)) e.(fe_records)).
  assert (Hrun : runs_to (fake_op f c) e (f (fake_state c e)).1 e') by done.
  apply (wp_runs _ _ _ _ _ _ Hrun). split_and!; [done| | | |].
  - intros c'. pose proof (fake_op_keeps f fc_write_output c c' _ _ _ Hrun Hfw) as Hk.
    unfold fake_get in Hk. by rewrite Hk.
  - by rewrite (fake_op_get f fc_is_paused c c _ _ _ Hrun), decide_True.
  - intros c' Hne. simpl. unfold fake_is_paused.
    by rewrite (fake_op_get f fc_is_paused c c' _ _ _ Hrun), decide_False.
  - intros c' ds. pose proof (fake_op_keeps f fc_read_output c c' _ _ _ Hrun Hfr) as Hk.
    unfold fake_get in Hk. unfold fake_next. by rewrite Hk.
Qed.

Lemma pauses_all (c : FakeChan) (e e' : FakeEnv) :
  fake_get fc_is_paused c e' = fake_get fc_is_paused c e -> pauses_kept_but c e e' ->
  pauses_kept (chan := FakeChan) e e'.
Proof. intros Hc Hk c'. destruct (decide (c' = c)) as [->|Hne]; [done|by apply Hk]. Qed.

#[export] Instance fake_transport : WorkingTransport FakeEnv FakeChan fake_works fake_next (fun _ => True).
Proof.
  split; intros;
    (eapply wp_mono; [by apply fake_op_works|done|]; intros a e' (-> & Hw' & Hp & Hk & Hx)).
  - split_and!; [by match goal with Hf : fake_works e |- _ => apply Hf end|done|exact (pauses_all _ _ _ Hp Hk)|done].
  - match goal with Hn : fake_next _ (_ :: _) _ |- _ => apply Forall_cons in Hn as [Hd Hds] end.
    split_and!; [done|done|exact (pauses_all _ _ _ Hp Hk)|by apply Hx|]. intros c' ds' _. apply Hx.
  - split_and!; [done|done|]. intros c' ds' _. apply Hx.
  - split_and!; [done|exact (pauses_all _ _ _ Hp Hk)|done].
  - split_and!; [done|exact (pauses_all _ _ _ Hp Hk)|done].
  - by split_and!.
  - by split_and!.
Qed.

(** * Properties *)

(** C4. The responder's upgrade: on a working transport, an offer for a medium
    with a handler, then the initiator's LAST_WRITE and SAFE_TO_CLOSE, leave the
    new channel active and resumed, one bandwidth event with its medium, and
    nothing of the upgrade behind; every call returns, and exactly the messages of
    the handshake pass, in its order. *)
Theorem responder_upgrade
    {H env chan} `{EndpointChannel env chan} `{BwuHandler H env chan} `{Codec}
    (I : env -> Prop) (next : chan -> list bytes -> env -> Prop) (fits : bytes -> Prop)
    (HT : WorkingTransport env chan I next fits) (fuel : nat) (on : Medium)
    (ep : string) (old new : chan) (b1 b2 b3 ack last : bytes) (info : UpgradePathInfo)
    (w : World H (Tapped env chan) chan) :
  Forall fits (introduction_of old info w :: handshake_messages) ->
  new <> old -> takes_offer ep old info w -> dials I next ep old new last info (acks info ack) w ->
  (default false info.(upi_supports_client_introduction_ack) = true -> acknowledges ack) ->
  says b1 Ev_UpgradePathAvailable (Some info) ->
  says b2 Ev_LastWriteToPriorChannel None -> says b3 Ev_SafeToClosePriorChannel None ->
  wp no_fault
    (hand_over fuel ep on old b1;; hand_over fuel ep on old b2;; hand_over fuel ep on old b3)
    (fun _ => upgraded I ep new (bandwidth_changed_events w.(w_client))
       (w.(w_env).(tap_io) ++
        responder_io old new (default false info.(upi_supports_client_introduction_ack))
          (latched ep w) b1 (introduction_of old info w) ack b2 b3 last)) w.
Proof. intros [Hf Hfs]%Forall_cons **. by eapply responder_run. Qed.

(** The offer that is made to [responder_world]. *)
Definition bare_lan_offer : bytes :=
  encode_frame (event_frame Ev_UpgradePathAvailable (Some lan_info)).

Lemma responder_upgrade_witness :
  takes_offer "EP" (mkFakeChan 0) lan_info responder_world /\
  wp no_fault
    (hand_over 3 "EP" Bluetooth (mkFakeChan 0) bare_lan_offer;;
     hand_over 3 "EP" Bluetooth (mkFakeChan 0) for_bwu_last_write;;
     hand_over 3 "EP" Bluetooth (mkFakeChan 0) for_bwu_safe_to_close)
    (fun _ => upgraded fake_works "EP" (mkFakeChan 100)
       (bandwidth_changed_events responder_world.(w_client))
       (responder_io (mkFakeChan 0) (mkFakeChan 100) false false bare_lan_offer
          (introduction_of (mkFakeChan 0) lan_info responder_world) []
          for_bwu_last_write for_bwu_safe_to_close goodbye)) responder_world.
Proof.
  assert (Ht : takes_offer "EP" (mkFakeChan 0) lan_info responder_world).
  { split; try (vm_compute; reflexivity).
    - vm_compute. discriminate.
    - apply (bool_decide_unpack _). vm_compute. exact I.
    - left. vm_compute. reflexivity.
    - vm_compute. discriminate. }
  split; [exact Ht|].
  let r := eval vm_compute in
    (bh_create_upgraded_endpoint_channel (H := BaseBwuHandler FakeBwuHandler) (env := FakeEnv)
       (chan := FakeChan) responder_world.(w_client) "A" "EP" lan_info
       (base_new (mkFakeBwuHandler WifiLan 1), responder_world.(w_env).(tap_env))) in
  lazymatch r with Ret (_, (?h', ?e1)) =>
  apply (responder_upgrade fake_works fake_next (fun _ => True) _ 3 Bluetooth "EP"
            (mkFakeChan 0) (mkFakeChan 100) bare_lan_offer for_bwu_last_write for_bwu_safe_to_close
            [] goodbye lan_info responder_world);
  [by apply Forall_true|discriminate|exact Ht|exists (base_new (mkFakeBwuHandler WifiLan 1)), h', e1| | | |]
  end.
  - split; [vm_compute; reflexivity|]. split; [vm_compute; reflexivity|].
    split; try (vm_compute; reflexivity).
    + apply fake_works_intro; vm_compute; reflexivity.
    + apply Forall_singleton. vm_compute. reflexivity.
    + apply Forall_nil_2.
  - vm_compute. discriminate.
  - eexists. split; [vm_compute; reflexivity|]. split; [reflexivity|]. eexists. split_and!; reflexivity.
  - eexists. split; [vm_compute; reflexivity|]. split; [reflexivity|]. eexists. split_and!; reflexivity.
  - eexists. split; [vm_compute; reflexivity|]. split; [reflexivity|]. eexists. split_and!; reflexivity.
Defined.

(** C3. The initiator's upgrade: on a working transport, an initiation whose
    medium can be set up, then the responder's connection with its introduction,
    its LAST_WRITE and its SAFE_TO_CLOSE, leave the new channel active and
    resumed, one bandwidth event, and nothing of the upgrade behind, and exactly
    the messages of the handshake pass, in its order.  The responder's LAST_WRITE
    may overtake its connection: it is latched, and the outcome is the same.  A
    latch that an earlier upgrade has left makes SAFE_TO_CLOSE pass before the
    remote's LAST_WRITE. *)
Theorem initiator_upgrade
    {H env chan} `{EndpointChannel env chan} `{BwuHandler H env chan} `{Codec}
    (I : env -> Prop) (next : chan -> list bytes -> env -> Prop) (fits : bytes -> Prop)
    (HT : WorkingTransport env chan I next fits) (fuel : nat) (early : bool)
    (medium on : Medium) (ep : string) (old new : chan) (bs frame b2 b3 last : bytes)
    (w : World H (Tapped env chan) chan) :
  Forall fits (frame :: handshake_messages) ->
  new <> old -> offers ep old medium w -> sets_up I next ep old new last medium frame [bs] w ->
  introduces bs ep ->
  says b2 Ev_LastWriteToPriorChannel None -> says b3 Ev_SafeToClosePriorChannel None ->
  wp no_fault
    (initiate_bwu_for_endpoint (S fuel) ep medium;;
     (if early then hand_over fuel ep on old b2 else mret tt);;
     on_incoming_connection (mkIncoming new);;
     (if early then mret tt else hand_over fuel ep on old b2);;
     hand_over fuel ep on old b3)
    (fun _ => upgraded I ep new (bandwidth_changed_events w.(w_client))
       (w.(w_env).(tap_io) ++ initiator_io old new early (latched ep w) frame bs b2 b3 last)) w.
Proof. intros [Hf Hfs]%Forall_cons **. by eapply initiator_run. Qed.

Lemma initiator_upgrade_witness :
  wp no_fault
    (initiate_bwu_for_endpoint 3 "EP" WifiLan;;
     (if true then hand_over 2 "EP" Bluetooth (mkFakeChan 0) for_bwu_last_write else mret tt);;
     on_incoming_connection (mkIncoming (mkFakeChan 1));;
     (if true then mret tt else hand_over 2 "EP" Bluetooth (mkFakeChan 0) for_bwu_last_write);;
     hand_over 2 "EP" Bluetooth (mkFakeChan 0) for_bwu_safe_to_close)
    (fun _ w' => exists frame, upgraded fake_works "EP" (mkFakeChan 1)
       (bandwidth_changed_events initiator_world.(w_client))
       (initiator_io (mkFakeChan 0) (mkFakeChan 1) true false frame fake_introduction
          for_bwu_last_write for_bwu_safe_to_close goodbye) w') initiator_world.
Proof.
  eapply (wp_mono no_fault); [|done|intros a v Hv; eexists; exact Hv].
  let r := eval vm_compute in
    (bh_initialize_upgraded_medium_for_endpoint (H := BaseBwuHandler FakeBwuHandler)
       (env := FakeEnv) (chan := FakeChan) initiator_world.(w_client) "A" "EP"
       (base_new (mkFakeBwuHandler WifiLan 1), initiator_world.(w_env).(tap_env))) in
  lazymatch r with Ret (?frame, (?h', ?e1)) =>
  apply (initiator_upgrade fake_works fake_next (fun _ => True) _ 2 true
            WifiLan Bluetooth "EP" (mkFakeChan 0) (mkFakeChan 1) fake_introduction frame
            for_bwu_last_write for_bwu_safe_to_close goodbye initiator_world);
  [by apply Forall_true|discriminate| |exists (base_new (mkFakeBwuHandler WifiLan 1)), h', e1| | |]
  end.
  - split; try (vm_compute; reflexivity); try (vm_compute; discriminate).
  - split; [vm_compute; reflexivity|]. split; [vm_compute; reflexivity|]. split; [discriminate|].
    split; try (vm_compute; reflexivity).
    + apply fake_works_intro; vm_compute; reflexivity.
    + apply Forall_singleton. vm_compute. reflexivity.
    + apply Forall_singleton. vm_compute. reflexivity.
  - do 2 eexists. split_and!; vm_compute; reflexivity.
  - eexists. split; [vm_compute; reflexivity|]. split; [reflexivity|]. eexists. split_and!; reflexivity.
  - eexists. split; [vm_compute; reflexivity|]. split; [reflexivity|]. eexists. split_and!; reflexivity.
Defined.
