(* ===== verification/Handshake.v ===== *)
(** Two devices that run the upgrade of [src/bwu/manager.rs] against each other:
    what each writes is what the other waits for, and however their steps
    interleave both come to the end. *)

From Stdlib Require Import ZArith NArith Lia.
From S2P Require Import Prelude.
From S2P Require Import Utf8.
From S2P Require Import Mediums.
From S2P Require Import Proto.
From S2P Require Import Codec.
From S2P Require Import Frames.
From S2P Require Import FromBytes.
From S2P Require Import RoundTrip.
From S2P Require Import ServiceId.
From S2P Require Import Client.
From S2P Require Import Channel.
From S2P Require Import ChannelManager.
From S2P Require Import Handler.
From S2P Require Import Manager.
From S2P Require Import Scenario.
From S2P Require Import ManagerSteps.
From S2P Require Import Upgrade.

(** * Two nodes and their connections *)

(** ** Definitions *)

(** Both devices have an old and a new connection. *)
Inductive link : Type := OldLink | NewLink.

Inductive action : Type :=
| Send (l : link) (data : bytes)
| Recv (l : link) (data : bytes).

(** What a device still does, and what has arrived for it and was not read. *)
Record node : Type := mkNode {
  todo : list action;
  in_old : list bytes;
  in_new : list bytes;
}.

Definition arrived (m : link * bytes) (n : node) : node :=
  match m with
  | (OldLink, d) => mkNode n.(todo) (n.(in_old) ++ [d]) n.(in_new)
  | (NewLink, d) => mkNode n.(todo) n.(in_old) (n.(in_new) ++ [d])
  end.

(** The next action of a device, with the message it puts on a connection.  A
    read waits for a message; a message that the device does not expect stops it. *)
Definition act (n : node) : option (node * option (link * bytes)) :=
  match n.(todo), n.(in_old), n.(in_new) with
  | Send l d :: rest, qo, qn => Some (mkNode rest qo qn, Some (l, d))
  | Recv OldLink d :: rest, d' :: qo, qn =>
      if decide (d' = d) then Some (mkNode rest qo qn, None) else None
  | Recv NewLink d :: rest, qo, d' :: qn =>
      if decide (d' = d) then Some (mkNode rest qo qn, None) else None
  | _, _, _ => None
  end.

Definition pass (m : option (link * bytes)) (n : node) : node :=
  match m with Some m => arrived m n | None => n end.

Inductive side : Type := Initiator | Responder.

Definition net : Type := (node * node)%type.

Definition advance (s : side) '((a, b) : net) : option net :=
  match s with
  | Initiator => '(a', m) ← act a; Some (a', pass m b)
  | Responder => '(b', m) ← act b; Some (pass m a, b')
  end.

Fixpoint run_net (schedule : list side) (n : net) : option net :=
  match schedule with
  | [] => Some n
  | s :: schedule => advance s n ≫= run_net schedule
  end.

Definition finished (n : net) : Prop := n.1.(todo) = [] /\ n.2.(todo) = [].

(** ** Lemmas *)

(** A message that arrives does not disturb the next action. *)
Lemma act_arrived m n n' o : act n = Some (n', o) -> act (arrived m n) = Some (arrived m n', o).
Proof.
  destruct n as [t qo qn], m as [l d]. unfold act. simpl.
  destruct t as [|[l' d'|l' d'] t]; [done| |].
  - intros [= <- <-]. by destruct l.
  - destruct l', l, qo as [|x qo], qn as [|y qn]; simpl; try done;
      (case_decide; [|done]); by intros [= <- <-].
Qed.

Lemma act_pass m n n' o : act n = Some (n', o) -> act (pass m n) = Some (pass m n', o).
Proof. destruct m; [apply act_arrived|done]. Qed.

(** The steps of the two sides commute. *)
Lemma advance_commute s s' n n1 n2 :
  s <> s' -> advance s n = Some n1 -> advance s' n = Some n2 ->
  exists n3, advance s' n1 = Some n3 /\ advance s n2 = Some n3.
Proof.
  intros Hne Hs Hs'. destruct n as [a b].
  destruct s, s'; try done; simpl in *;
    destruct (act a) as [[a' m]|] eqn:Ha; simplify_eq/=;
    destruct (act b) as [[b' m']|] eqn:Hb; simplify_eq/=;
    by rewrite (act_pass m b b' m' Hb), (act_pass m' a a' m Ha); eexists.
Qed.

Lemma finished_stuck s n : finished n -> advance s n = None.
Proof. destruct n as [[t qo qn] [t' qo' qn']]. intros [[=->] [=->]]. by destruct s. Qed.

Lemma side_dec (s s' : side) : s = s' \/ s <> s'.
Proof. destruct s, s'; auto. Qed.

(** When some schedule ends, a step of any other one can be completed by what is
    left of it. *)
Lemma step_completed schedule s n n1 e :
  run_net schedule n = Some e -> finished e -> advance s n = Some n1 ->
  exists schedule', run_net schedule' n1 = Some e /\ length schedule = S (length schedule').
Proof.
  revert n n1. induction schedule as [|s' schedule IH]; intros n n1 Hrun He Hs; simpl in Hrun.
  - injection Hrun as ->. by rewrite finished_stuck in Hs.
  - destruct (advance s' n) as [n2|] eqn:Hs'; [|done]. simpl in Hrun.
    destruct (side_dec s s') as [->|Hne].
    + rewrite Hs in Hs'. injection Hs' as ->. by exists schedule.
    + destruct (advance_commute s s' n n1 n2 Hne Hs Hs') as (n3 & Hs1 & Hs2).
      destruct (IH n2 n3 Hrun He Hs2) as (schedule' & Hr' & Hlen).
      exists (s' :: schedule'). simpl. rewrite Hs1. split; [done|]. by rewrite Hlen.
Qed.

Lemma schedules_complete schedule n e :
  run_net schedule n = Some e -> finished e ->
  forall done_so_far n1, run_net done_so_far n = Some n1 ->
  exists rest, run_net rest n1 = Some e /\ length schedule = length done_so_far + length rest.
Proof.
  intros Hrun He done_so_far. revert n schedule Hrun.
  induction done_so_far as [|s l IH]; intros n schedule Hrun n1 Hl; simpl in Hl.
  - injection Hl as ->. by exists schedule.
  - destruct (advance s n) as [n2|] eqn:Hs; [|done].
    destruct (step_completed schedule s n n2 e Hrun He Hs) as (schedule' & Hr' & Hlen).
    destruct (IH n2 schedule' Hr' n1 Hl) as (rest & Hrest & Hlen'). exists rest. split; [done|].
    simpl. lia.
Qed.

(** ** What a device does, from what passes through its channels *)

Section actions.
Context {chan : Type} `{EqDecision chan} (old : chan).

Definition link_of (c : chan) : link := if decide (c = old) then OldLink else NewLink.

Definition action_of (i : io chan) : action :=
  match i with
  | Sent c d => Send (link_of c) d
  | Got c d => Recv (link_of c) d
  end.

Definition node_of (passed : list (io chan)) : node := mkNode (action_of <$> passed) [] [].
End actions.

(** A schedule that lets both devices finish. *)
Definition turns : list side :=
  let i n := replicate n Initiator in
  let r n := replicate n Responder in
  i 1 ++ r 3 ++ i 5 ++ r 2 ++ i 2 ++ r 3 ++ i 1.

Definition acked_turns : list side :=
  let i n := replicate n Initiator in
  let r n := replicate n Responder in
  i 1 ++ r 2 ++ i 3 ++ r 2 ++ i 2 ++ r 2 ++ i 2 ++ r 3 ++ i 1.

Section exchange.
Context {chanA chanB : Type} `{EqDecision chanA} `{EqDecision chanB} `{Codec}.
Context (oldA newA : chanA) (oldB newB : chanB) (HA : newA <> oldA) (HB : newB <> oldB).
Context (offer intro : bytes).

Definition initiator_node (early : bool) : node :=
  node_of oldA (initiator_io oldA newA early false offer intro for_bwu_last_write
                  for_bwu_safe_to_close (for_disconnection false false)).

Definition responder_node (acked : bool) : node :=
  node_of oldB (responder_io oldB newB acked false offer intro for_bwu_introduction_ack
                  for_bwu_last_write for_bwu_safe_to_close (for_disconnection false false)).

(** Nothing is left, but an acknowledgement that the offer did not ask for. *)
Definition at_rest (acked : bool) : net :=
  (mkNode [] [] [], mkNode [] [] (if acked then [] else [for_bwu_introduction_ack])).

Lemma link_old {chan} `{EqDecision chan} (old : chan) : link_of old old = OldLink.
Proof. unfold link_of. by rewrite decide_True. Qed.

Lemma link_new {chan} `{EqDecision chan} (old new : chan) : new <> old -> link_of old new = NewLink.
Proof. intros Hne. unfold link_of. by rewrite decide_False. Qed.

Lemma exchange_completes (early acked : bool) :
  (early = true -> acked = false) ->
  run_net (if acked then acked_turns else turns) (initiator_node early, responder_node acked)
  = Some (at_rest acked).
Proof.
  intros Hea. unfold initiator_node, responder_node, node_of, initiator_io, responder_io.
  destruct acked, early; try (by specialize (Hea eq_refl)); cbn;
    rewrite !link_old, !link_new by done;
    repeat (unfold act; cbn; rewrite ?decide_True by done; cbn); done.
Qed.
End exchange.

(** The frames that both devices write are what the other side takes them for. *)
Section frames.
Context `{CodecLaws}.

Lemma says_bare event :
  match event with Ev_UpgradePathAvailable | Ev_ClientIntroduction => False | _ => True end ->
  says (encode_v1 Ft_BandwidthUpgradeNegotiation
    (set_v1_bandwidth_upgrade_negotiation
       (Some (set_bwu_event_type (Some (BwuEventType_i32 event))
                BandwidthUpgradeNegotiationFrame_default)))) event None.
Proof.
  intros Hev. eexists. split; [by apply bare_event_parses|]. split; [done|].
  eexists. split_and!; [done| |done]. unfold bwu_event. simpl. by rewrite BwuEventType_try_from_i32.
Qed.

Lemma ack_acknowledges : acknowledges for_bwu_introduction_ack.
Proof. eexists. by split; [apply (bare_event_parses Ev_ClientIntroductionAck)|]. Qed.

Lemma introduction_introduces {HT envT chan : Type} `{EndpointChannel envT chan} (old : chan) info
    (w : World HT envT chan) :
  string_ok (local_endpoint_id w.(w_client)) = true ->
  string_ok (last_local_endpoint_id w.(w_client)) = true ->
  string_ok (ch_local_endpoint_id old w.(w_env)) = true ->
  introduces (introduction_of old info w) (local_endpoint_id w.(w_client)).
Proof.
  intros Hl Hll Hc. unfold introduction_of. do 2 eexists.
  split; [apply introduction_parses; [done|by case_match]|done].
Qed.
End frames.

(** * A transport with a script

    What each channel is going to receive is written down beforehand; a read takes
    the next message, and waits for ever when there is none. *)

Record Script : Type := mkScript {
  sc_lines : gmap N (list bytes);
  sc_paused_lines : gset N;
}.

Definition sc_wait_free (c : N) (s : Script) : bool := negb (bool_decide (c ∈ s.(sc_paused_lines))).

#[export] Instance Script_channel : EndpointChannel Script N := {|
  ch_read c :=
    s ← get;
    match s.(sc_lines) !! c with
    | Some (d :: ds) => modify (fun s => mkScript (<[c := ds]> s.(sc_lines)) s.(sc_paused_lines));; mret (Ok d)
    | Some [] => raise Blocked
    | None => mret (Err Io)
    end;
  ch_write c d :=
    s ← get;
    if sc_wait_free c s then mret (if is_some (s.(sc_lines) !! c) then Success else Io)
    else raise Blocked;
  ch_close c := modify (fun s => mkScript (delete c s.(sc_lines)) s.(sc_paused_lines));
  ch_close_with_reason c _ := modify (fun s => mkScript (delete c s.(sc_lines)) s.(sc_paused_lines));
  ch_medium c _ := if decide (c = 0%N) then Bluetooth else WifiLan;
  ch_service_id _ _ := "A";
  ch_name _ _ := "";
  ch_channel_type _ _ := "";
  ch_local_endpoint_id _ _ := "";
  ch_set_local_endpoint_id _ _ := mret tt;
  ch_pause c := modify (fun s => mkScript s.(sc_lines) ({[c]} ∪ s.(sc_paused_lines)));
  ch_resume c := modify (fun s => mkScript s.(sc_lines) (s.(sc_paused_lines) ∖ {[c]}));
  ch_is_paused c s := bool_decide (c ∈ s.(sc_paused_lines));
  ch_disable_encryption _ := mret tt;
|}.

(** A handler that offers what it is told to, and whose dials yield the channel 1. *)
#[export] Instance Script_handler : BwuHandler bytes Script N := {|
  bh_initialize_upgraded_medium_for_endpoint _ _ _ := gets fst;
  bh_revert_initiator_state := mret tt;
  bh_revert_initiator_state_for_endpoint _ _ := mret tt;
  bh_revert_responder_state _ := mret tt;
  bh_create_upgraded_endpoint_channel _ _ _ _ := mret (Some 1%N);
  bh_get_upgrade_medium _ := WifiLan;
  bh_on_endpoint_disconnect _ _ := mret tt;
|}.

Definition script_next (c : N) (ds : list bytes) (s : Script) : Prop :=
  exists rest, s.(sc_lines) !! c = Some (ds ++ rest).

#[export] Instance Script_works : WorkingTransport Script N (fun _ => True) script_next (fun _ => True).
Proof.
  split.
  - intros c d ds e _ [rest Hr] Hp _. simpl in *.
    unfold wp, get, mbind, M_bind, sc_wait_free. rewrite Hp, Hr.
    split_and!; [done|done|by intros c'|by intros c' ds'].
  - intros c d ds e _ [rest Hr]. simpl in *. unfold wp, get, modify, mbind, M_bind. rewrite Hr. simpl.
    split_and!; [done|done|by intros c'| |].
    + exists rest. simpl. by rewrite lookup_insert_eq.
    + intros c' ds' Hne [r' Hr']. exists r'. simpl. by rewrite lookup_insert_ne.
  - intros c d ds e _ _. split_and!; [done|by intros c'|]. intros c' ds' Hne [r' Hr']. exists r'. simpl.
    by rewrite lookup_delete_ne.
  - intros c i ds e _ _. split_and!; [done|by intros c'|by intros c' ds'].
  - intros c ds e _ _. split_and!; [done|by intros c'|by intros c' ds'].
  - intros c ds e _ _. simpl. unfold wp, modify. split_and!; [done| | |by intros c' ds']; simpl.
    + apply bool_decide_eq_true. set_solver.
    + intros c' Hne. simpl. apply bool_decide_ext. set_solver.
  - intros c ds e _ _. simpl. unfold wp, modify. split_and!; [done| | |by intros c' ds']; simpl.
    + apply bool_decide_eq_false. set_solver.
    + intros c' Hne. simpl. apply bool_decide_ext. set_solver.
Qed.

(** * Properties *)

(** C2. Two devices upgrade together.  The initiator offers a medium and the
    responder takes the offer, each over its own working transport, and each gets
    what the other writes: the initiator the responder's introduction, the
    responder the acknowledgement, both LAST_WRITE, SAFE_TO_CLOSE and the
    DISCONNECTION that they drain.  Then both runs end upgraded, and the reads and
    writes of the two fit together: however the devices interleave on the two
    connections, no read waits for ever or gets another message than it was run
    with, every schedule reaches the end after the same number of steps, and the
    connections are empty then but for an acknowledgement that nobody asked for. *)
Theorem handshake_completes
    {HA envA chanA} `{EndpointChannel envA chanA} `{BwuHandler HA envA chanA} `{EqDecision chanA}
    {HB envB chanB} `{EndpointChannel envB chanB} `{BwuHandler HB envB chanB} `{EqDecision chanB}
    `{CodecLaws}
    (IA : envA -> Prop) (nextA : chanA -> list bytes -> envA -> Prop) (fitsA : bytes -> Prop)
    (HTA : WorkingTransport envA chanA IA nextA fitsA)
    (IB : envB -> Prop) (nextB : chanB -> list bytes -> envB -> Prop) (fitsB : bytes -> Prop)
    (HTB : WorkingTransport envB chanB IB nextB fitsB)
    (fuel : nat) (early : bool) (medium onA onB : Medium) (nameA nameB : string)
    (oldA newA : chanA) (oldB newB : chanB) (offer : bytes) (info : UpgradePathInfo)
    (wA : World HA (Tapped envA chanA) chanA) (wB : World HB (Tapped envB chanB) chanB) :
  let acked := default false info.(upi_supports_client_introduction_ack) in
  let intro := introduction_of oldB info wB in
  Forall fitsA (offer :: handshake_messages) -> Forall fitsB (intro :: handshake_messages) ->
  newA <> oldA -> newB <> oldB -> (early = true -> acked = false) ->
  nameB = local_endpoint_id wB.(w_client) ->
  string_ok nameB = true -> string_ok (last_local_endpoint_id wB.(w_client)) = true ->
  string_ok (ch_local_endpoint_id oldB wB.(w_env)) = true ->
  says offer Ev_UpgradePathAvailable (Some info) ->
  offers nameB oldA medium wA -> latched nameB wA = false -> wA.(w_env).(tap_io) = [] ->
  sets_up IA nextA nameB oldA newA goodbye medium offer [intro] wA ->
  takes_offer nameA oldB info wB -> latched nameA wB = false -> wB.(w_env).(tap_io) = [] ->
  dials IB nextB nameA oldB newB goodbye info (acks info for_bwu_introduction_ack) wB ->
  exists wA' wB',
    runs_to
      (initiate_bwu_for_endpoint (S fuel) nameB medium;;
       (if early then hand_over fuel nameB onA oldA for_bwu_last_write else mret tt);;
       on_incoming_connection (mkIncoming newA);;
       (if early then mret tt else hand_over fuel nameB onA oldA for_bwu_last_write);;
       hand_over fuel nameB onA oldA for_bwu_safe_to_close) wA tt wA' /\
    upgraded IA nameB newA (bandwidth_changed_events wA.(w_client)) wA'.(w_env).(tap_io) wA' /\
    runs_to
      (hand_over fuel nameA onB oldB offer;; hand_over fuel nameA onB oldB for_bwu_last_write;;
       hand_over fuel nameA onB oldB for_bwu_safe_to_close) wB tt wB' /\
    upgraded IB nameA newB (bandwidth_changed_events wB.(w_client)) wB'.(w_env).(tap_io) wB' /\
    forall schedule n,
      run_net schedule (node_of oldA wA'.(w_env).(tap_io), node_of oldB wB'.(w_env).(tap_io)) = Some n ->
      exists rest, run_net rest n = Some (at_rest acked) /\
        length schedule + length rest = if acked then 18 else 17.
Proof.
  cbv zeta. intros [HfA HsA]%Forall_cons [HfB HsB]%Forall_cons HnA HnB Hea Hname Hs1 Hs2 Hs3 Hoffer Hof HlaA HioA Hset Hto HlaB HioB Hd.
  pose proof (says_bare Ev_LastWriteToPriorChannel I) as Hlw.
  pose proof (says_bare Ev_SafeToClosePriorChannel I) as Hsc.
  assert (Hintro : introduces (introduction_of oldB info wB) nameB)
    by (subst nameB; by apply introduction_introduces).
  destruct (wp_no_fault_runs _ _ _
    (initiator_run IA nextA fitsA HsA nameB oldA newA HnA goodbye fuel early medium onA _ offer
       for_bwu_last_write for_bwu_safe_to_close wA Hof Hset HfA Hintro Hlw Hsc)) as ([] & wA' & HrA & HuA).
  destruct (wp_no_fault_runs _ _ _
    (responder_run IB nextB fitsB HsB nameA oldB newB HnB goodbye fuel onB offer for_bwu_last_write
       for_bwu_safe_to_close for_bwu_introduction_ack info wB Hto Hd HfB (fun _ => ack_acknowledges)
       Hoffer Hlw Hsc)) as ([] & wB' & HrB & HuB).
  rewrite HioA, HlaA in HuA. rewrite HioB, HlaB in HuB.
  pose proof HuA as [_ HpA _ _ _ _ _ _ _]. pose proof HuB as [_ HpB _ _ _ _ _ _ _].
  exists wA', wB'. rewrite HpA, HpB.
  split_and!; [exact HrA|exact HuA|exact HrB|exact HuB|]. intros schedule n Hrun.
  destruct (schedules_complete _ _ _
    (exchange_completes oldA newA oldB newB HnA HnB offer (introduction_of oldB info wB) early _ Hea)
    (conj eq_refl eq_refl) schedule n Hrun) as (rest & Hrest & Hlen).
  exists rest. split; [exact Hrest|]. rewrite <- Hlen. by case_match.
Qed.

(** Two devices, an initiator that calls the other "RESPONDER" and a responder that
    calls it "INITIATOR", over transports with scripts. *)
Definition scripted (local remote : string) (is_incoming : bool) (offer : bytes)
    (to_old to_new : list bytes) : World bytes (Tapped Script N) N :=
  {| w_mgr := BwuManager_new {[WifiLan := offer]} BwuConfig_default;
     w_client := set_upgrade_mediums remote [WifiLan] $ on_connection_accepted remote $
       on_connection_initiated remote is_incoming true $ ClientProxy_new 7 local;
     w_ecm := register_channel_for_endpoint remote 0%N ecm_new;
     w_env := mkTapped (mkScript {[0%N := to_old; 1%N := to_new]} ∅) [] |}.

Definition asked_offer : bytes :=
  for_bwu_wifi_lan_path_available [ {| sa_address := str_bytes "ABCD"; sa_port := 1234 |} ].

Definition offered_info : UpgradePathInfo :=
  match from_bytes asked_offer with
  | Ok f => default UpgradePathInfo_default (frame_negotiation f ≫= bwu_upgrade_path_info)
  | Err _ => UpgradePathInfo_default
  end.

Definition responding : World bytes (Tapped Script N) N :=
  scripted "RESPONDER" "INITIATOR" false asked_offer [goodbye] [for_bwu_introduction_ack].

Definition initiating : World bytes (Tapped Script N) N :=
  scripted "INITIATOR" "RESPONDER" true asked_offer [goodbye]
    [introduction_of 0%N offered_info responding].

Lemma script_lines old new last paused ds e :
  script_next old [last] e -> script_next new ds e ->
  ch_is_paused old e = false -> ch_is_paused new e = paused ->
  lines (fun _ => True) script_next old new last paused ds e.
Proof. by split. Qed.

Lemma handshake_completes_witness :
  says asked_offer Ev_UpgradePathAvailable (Some offered_info) /\
  exists wA' wB' : World bytes (Tapped Script N) N,
    upgraded (fun _ => True) "RESPONDER" 1%N [] wA'.(w_env).(tap_io) wA' /\
    upgraded (fun _ => True) "INITIATOR" 1%N [] wB'.(w_env).(tap_io) wB' /\
    forall schedule n,
      run_net schedule (node_of 0%N wA'.(w_env).(tap_io), node_of 0%N wB'.(w_env).(tap_io)) = Some n ->
      exists rest, run_net rest n = Some (at_rest true) /\ length schedule + length rest = 18.
Proof.
  assert (Hs : says asked_offer Ev_UpgradePathAvailable (Some offered_info)).
  { eexists. split; [vm_compute; reflexivity|]. split; [reflexivity|].
    eexists. split_and!; vm_compute; reflexivity. }
  split; [exact Hs|].
  destruct (handshake_completes (fun _ => True) script_next (fun _ => True) Script_works
    (fun _ => True) script_next (fun _ => True) Script_works 3 false WifiLan Bluetooth Bluetooth "INITIATOR" "RESPONDER" 0%N 1%N 0%N 1%N
    asked_offer offered_info initiating responding) as (wA' & wB' & _ & HuA & _ & HuB & Hall);
    [by apply Forall_true|by apply Forall_true|discriminate|discriminate|discriminate|reflexivity|reflexivity|reflexivity|reflexivity|exact Hs| |
     vm_compute; reflexivity|reflexivity| | |vm_compute; reflexivity|reflexivity| |].
  - split; try (vm_compute; reflexivity); try (vm_compute; discriminate).
  - exists asked_offer, asked_offer, initiating.(w_env).(tap_env).
    split; [vm_compute; reflexivity|]. split; [vm_compute; reflexivity|]. split; [discriminate|].
    apply script_lines; try (exists []; reflexivity); reflexivity.
  - split; try (vm_compute; reflexivity); try (vm_compute; discriminate).
    left. vm_compute. reflexivity.
  - exists asked_offer, asked_offer, responding.(w_env).(tap_env).
    split; [vm_compute; reflexivity|]. split; [vm_compute; reflexivity|].
    apply script_lines; try (exists []; reflexivity); reflexivity.
  - exists wA', wB'. split; [exact HuA|]. split; [exact HuB|]. exact Hall.
Defined.
