(* ===== verification/Cleanup.v ===== *)
(** What the machine ignores, what it protects, and what a disconnection and a
    shutdown leave. *)

From Stdlib Require Import ZArith.
From S2P Require Import Prelude.
From S2P Require Import Mediums.
From S2P Require Import Proto.
From S2P Require Import Codec.
From S2P Require Import Frames.
From S2P Require Import FromBytes.
From S2P Require Import ServiceId.
From S2P Require Import Client.
From S2P Require Import Channel.
From S2P Require Import ChannelManager.
From S2P Require Import Handler.
From S2P Require Import Testing.
From S2P Require Import Manager.
From S2P Require Import Scenario.
From S2P Require Import ManagerSteps.
From S2P Require Import Invariant.

(** * Definitions *)

(** A frame that must not move the machine: not a negotiation frame, an event
    the machine does not dispatch, an event before the connection is accepted
    (an offer is refused then, not ignored), or the end of an upgrade that is
    not going on. *)
Definition ignored {H env chan} (w : World H env chan) (f : OfflineFrame) (ep : string) : bool :=
  match frame_negotiation f with
  | None => true
  | Some bwu =>
      bool_decide (get_frame_type f <> Ft_BandwidthUpgradeNegotiation) ||
      match bwu_event bwu with
      | Ev_UpgradePathAvailable => is_none bwu.(bwu_upgrade_path_info)
      | Ev_UpgradeFailure =>
          is_none bwu.(bwu_upgrade_path_info) || negb (is_connected_to_endpoint w.(w_client) ep)
      | Ev_LastWriteToPriorChannel | Ev_SafeToClosePriorChannel =>
          negb (is_connected_to_endpoint w.(w_client) ep)
          || bool_decide (ep ∉ w.(w_mgr).(in_progress_upgrades))
      | _ => true
      end
  end.

(** Nothing of an endpoint is left in the bookkeeping. *)
Definition forgotten {H chan} (m : BwuManager H chan) (ep : string) : Prop :=
  (ep ∉ m.(in_progress_upgrades)) /\ m.(previous_endpoint_channels) !! ep = None /\
  (ep ∉ m.(successfully_upgraded_endpoints)) /\ m.(retry_upgrade_alarms) !! ep = None /\
  m.(retry_delays) !! ep = None.

(** * Lemmas *)

Section cleanup.
Context {H env chan : Type} `{EndpointChannel env chan} `{BwuHandler H env chan} `{Codec}.
Implicit Types w : World H env chan.

(** Reverting an endpoint leaves the rest of its bookkeeping. *)
Lemma revert_forgotten service_id ep w (Q : unit -> World H env chan -> Prop) :
  forgotten w.(w_mgr) ep ->
  (forall w', forgotten w'.(w_mgr) ep -> w'.(w_mgr).(config) = w.(w_mgr).(config) ->
     (w.(w_mgr).(config).(support_multiple_bwu_mediums) = true ->
      w'.(w_mgr).(endpoint_id_to_bwu_medium) !! ep = None) ->
     w'.(w_ecm) = w.(w_ecm) -> w'.(w_client) = w.(w_client) -> Q tt w') ->
  wp (fun _ => True) (revert_bwu_medium_for_endpoint service_id ep) Q w.
Proof.
  intros Hf HQ. unfold revert_bwu_medium_for_endpoint. repeat world_step; bool_split.
  all: try (apply HQ; [exact Hf|done| |done|done]; intros Hs; simpl;
            first [apply lookup_delete_eq|congruence]).
  all: match goal with Hx : handler_exists _ _ = true |- _ =>
         apply handler_exists_some in Hx as [_ [h Hh]] end.
  all: eapply wp_handler_op; [exact Hh|first
         [apply hf_revert|apply hf_revert_responder|apply hf_revert_endpoint]|].
  all: intros [] h' e _; apply HQ; [exact Hf|done| |done|done]; intros Hs; simpl;
       first [apply lookup_delete_eq|congruence].
Qed.

(** The end of a disconnection: everything but the medium is forgotten. *)
Lemma disconnect_end service_id ep w (Q : unit -> World H env chan -> Prop) :
  forgotten w.(w_mgr) ep ->
  (forall w', forgotten w'.(w_mgr) ep ->
     (w.(w_mgr).(config).(support_multiple_bwu_mediums) = true ->
      bwu_medium_of w'.(w_mgr) ep = UnknownMedium) ->
     w'.(w_ecm) = w.(w_ecm) -> w'.(w_client) = w.(w_client) -> Q tt w') ->
  wp (fun _ => True)
    (multiple ← mgr (fun m => m.(config).(support_multiple_bwu_mediums));
     connected ← gets (fun w => get_connected_endpoints_count w.(w_ecm));
     if multiple || (connected <=? 1)%nat then revert_bwu_medium_for_endpoint service_id ep
     else mret tt) Q w.
Proof.
  intros Hf HQ. do 4 world_step.
  destruct (support_multiple_bwu_mediums (config (w_mgr w))) eqn:Hs; simpl.
  - apply revert_forgotten; [done|]. intros w2 Hf2 Hc2 Hm He2 Hcl2. apply HQ; try done.
    intros _. unfold bwu_medium_of. rewrite Hc2, Hs. by rewrite Hm.
  - case_match; [|by apply HQ].
    apply revert_forgotten; [done|]. intros w2 Hf2 Hc2 Hm He2 Hcl2. by apply HQ.
Qed.

(** What [on_endpoint_disconnect] does after the handler has been told. *)
Lemma disconnect_rest service_id ep w (Q : unit -> World H env chan -> Prop) :
  (forall w', forgotten w'.(w_mgr) ep ->
     (w.(w_mgr).(config).(support_multiple_bwu_mediums) = true ->
      bwu_medium_of w'.(w_mgr) ep = UnknownMedium) ->
     w'.(w_ecm) = w.(w_ecm) -> w'.(w_client) = w.(w_client) -> Q tt w') ->
  wp (fun _ => True)
    (prev ← mgr (fun m => m.(previous_endpoint_channels) !! ep);
     set_mgr (set_previous (delete ep));;
     (match prev with
      | Some old_channel => channel_op (ch_close_with_reason old_channel Shutdown)
      | None => mret tt
      end);;
     set_mgr (set_in_progress (fun s => s ∖ {[ep]}));;
     set_mgr (set_delays (delete ep));;
     cancel_retry_upgrade_alarm ep;;
     set_mgr (set_upgraded (fun s => s ∖ {[ep]}));;
     multiple ← mgr (fun m => m.(config).(support_multiple_bwu_mediums));
     connected ← gets (fun w => get_connected_endpoints_count w.(w_ecm));
     if multiple || (connected <=? 1)%nat then revert_bwu_medium_for_endpoint service_id ep
     else mret tt) Q w.
Proof.
  intros HQ. do 5 world_step.
  assert (Hgone : forall m : BwuManager H chan, m.(previous_endpoint_channels) !! ep = None ->
    forgotten (set_upgraded (fun s => s ∖ {[ep]}) (set_alarms (delete ep)
      (set_delays (delete ep) (set_in_progress (fun s => s ∖ {[ep]}) m)))) ep).
  { intros m Hm. unfold forgotten. simpl. rewrite !lookup_delete_eq.
    split_and!; [set_solver|done|set_solver|done|done]. }
  destruct (previous_endpoint_channels (w_mgr w) !! ep) as [c|].
  - apply wp_channel_op; [apply cf_close_with_reason|]. intros [] e _. do 8 world_step.
    apply disconnect_end; [|done]. apply Hgone. simpl. apply lookup_delete_eq.
  - do 9 world_step. apply disconnect_end; [|done]. apply Hgone. simpl. apply lookup_delete_eq.
Qed.

Lemma disconnect_forgets service_id ep reason w :
  wp (fun _ => True) (on_endpoint_disconnect service_id ep reason)
    (fun _ w' => forgotten w'.(w_mgr) ep /\
       (w.(w_mgr).(config).(support_multiple_bwu_mediums) = true ->
        bwu_medium_of w'.(w_mgr) ep = UnknownMedium) /\
       w'.(w_ecm) = w.(w_ecm) /\ w'.(w_client) = w.(w_client)) w.
Proof.
  unfold on_endpoint_disconnect. do 7 world_step. destruct (handler_exists _ _) eqn:Hh.
  - apply handler_exists_some in Hh as [_ [h Hh]].
    apply (wp_handler_op _ _ h); [done|apply hf_disconnect|]. intros [] h' e _.
    apply disconnect_rest. by intros w' Hf Hm He Hc.
  - apply wp_ret, disconnect_rest. by intros w' Hf Hm He Hc.
Qed.
End cleanup.

(** ** The medium handlers *)

(** Every service of every handler is reverted. *)
Definition no_sessions {H env chan} (w : World (BaseBwuHandler H) env chan) : Prop :=
  map_Forall (fun _ h => h.(base_active) = ∅) w.(w_mgr).(handlers).

Section handlers.
Context {H env chan : Type} `{EndpointChannel env chan} `{MediumBwuHandler H env chan} `{Codec}.
Implicit Types w : World (BaseBwuHandler H) env chan.

Lemma revert_all_empties (s : BaseBwuHandler H * env) :
  wp (fun _ => True) (base_revert_initiator_state (chan := chan))
    (fun _ s' => s'.1.(base_active) = ∅) s.
Proof.
  unfold base_revert_initiator_state, active, set_active. repeat wp_step.
  eapply wp_mono with (E := fun _ => True) (Q := fun _ _ => True); [|done|by intros].
  unfold wp. by repeat case_match.
Qed.

(** The loop over the handlers empties each of them and keeps everything else. *)
Lemma revert_handlers_empties mediums w :
  wp (fun _ => True) (revert_handlers mediums)
    (fun _ w' =>
       (forall m h', w'.(w_mgr).(handlers) !! m = Some h' ->
          h'.(base_active) = ∅ \/ ((m ∉ mediums) /\ w.(w_mgr).(handlers) !! m = Some h')) /\
       set_handlers (fun _ => ∅) w'.(w_mgr) = set_handlers (fun _ => ∅) w.(w_mgr) /\
       w'.(w_client) = w.(w_client) /\ w'.(w_ecm) = w.(w_ecm)) w.
Proof.
  revert w. induction mediums as [|m ms IH]; intros w; cbn [revert_handlers].
  - apply wp_ret. split_and!; try done. intros m h' Hl. right. split; [|done].
    apply not_elem_of_nil.
  - apply wp_bind. destruct (w.(w_mgr).(handlers) !! m) as [h|] eqn:Hh.
    2: { unfold wp, handler_op. by rewrite Hh. }
    pose proof (revert_all_empties (h, w.(w_env))) as Hempty. unfold wp in Hempty.
    apply (wp_handler_op _ m h); [done|unfold wp; by repeat case_match|].
    intros [] h' e Heq. simpl in Heq. rewrite Heq in Hempty. simpl in Hempty.
    eapply wp_mono; [apply IH|done|]. intros [] w' (Hall & Hm & Hc & He).
    split_and!; [|exact Hm|exact Hc|exact He]. intros m' h2 Hl.
    destruct (Hall m' h2 Hl) as [Hb|[Hin Hl']]; [by left|]. simpl in Hl'.
    apply lookup_insert_Some in Hl' as [[<- <-]|[Hne Hl']]; [by left|right].
    split; [|done]. apply not_elem_of_cons. by split.
Qed.

Lemma shutdown_effect w :
  wp (fun _ => True) shutdown
    (fun _ w' =>
       w'.(w_mgr).(retry_upgrade_alarms) = ∅ /\ w'.(w_mgr).(retry_delays) = ∅ /\
       w'.(w_mgr).(in_progress_upgrades) = ∅ /\ w'.(w_mgr).(previous_endpoint_channels) = ∅ /\
       w'.(w_mgr).(successfully_upgraded_endpoints) = ∅ /\ no_sessions w' /\
       w'.(w_mgr).(endpoint_id_to_bwu_medium) = w.(w_mgr).(endpoint_id_to_bwu_medium) /\
       w'.(w_ecm) = w.(w_ecm) /\ w'.(w_client) = w.(w_client)) w.
Proof.
  unfold shutdown, cancel_all_retry_upgrade_alarms. repeat world_step.
  eapply wp_mono; [apply revert_handlers_empties|done|]. intros [] w1 (Hall & Hm & Hc & He).
  repeat world_step. injection Hm as Hcfg Hgm Hem Hip Hpk Hup Hal Hde. simpl in *.
  split_and!; try done. intros m h Hl. destruct (Hall m h Hl) as [Hb|[Hn Hl']]; [done|].
  exfalso. apply Hn, list_elem_of_fmap. exists (m, h). split; [done|].
  by apply elem_of_map_to_list.
Qed.
End handlers.

(** * Properties *)

(** The machine is not moved by what it must ignore: a frame of another
    type, an event it does not dispatch, an upgrade failure or the end of an
    upgrade before the connection is accepted, and a LAST_WRITE or SAFE_TO_CLOSE
    while no upgrade is going on; nothing changes and no channel is touched. *)
Theorem ignored_frames_change_nothing
    {H env chan} `{EndpointChannel env chan} `{BwuHandler H env chan} `{Codec}
    (fuel : nat) (f : OfflineFrame) (ep : string) (on : Medium) (w : World H env chan) :
  ignored w f ep = true -> runs_to (on_incoming_frame fuel f ep on) w tt w.
Proof.
  unfold ignored, frame_negotiation, on_incoming_frame, runs_to. intros Hi.
  destruct (decide (get_frame_type f <> Ft_BandwidthUpgradeNegotiation)) as [Ht|Ht];
    [reflexivity|].
  destruct (of_v1 f ≫= v1_bandwidth_upgrade_negotiation) as [bwu|]; [|reflexivity].
  rewrite bool_decide_false in Hi by done. simpl in Hi.
  unfold on_bwu_negotiation_frame, is_upgrade_ongoing, mgr, gets, mbind, M_bind.
  destruct (bwu_event bwu) eqn:Hev; simpl in *;
    destruct (is_connected_to_endpoint (w_client w) ep); simpl in *; try done;
    try (destruct (bwu_upgrade_path_info bwu); done).
  all: apply bool_decide_eq_true in Hi; by rewrite bool_decide_false.
Qed.

Lemma ignored_frames_change_nothing_witness :
  let w := fake_world BwuConfig_default true [WifiLan] [WifiLan] [bluetooth_channel] in
  ignored w (event_frame Ev_LastWriteToPriorChannel None) "EP" = true /\
  runs_to (on_incoming_frame 3 (event_frame Ev_LastWriteToPriorChannel None) "EP" Bluetooth) w tt w.
Proof.
  split; [vm_compute; reflexivity|].
  apply (ignored_frames_change_nothing 3 (event_frame Ev_LastWriteToPriorChannel None)).
  vm_compute. reflexivity.
Defined.

(** While some endpoint's channel is on WIFI_LAN, no hotspot upgrade is
    initiated: the call returns at once with nothing changed, so no handler is
    asked, no channel written and no medium recorded. *)
Theorem wifi_lan_blocks_hotspot
    {H env chan} `{EndpointChannel env chan} `{BwuHandler H env chan} `{Codec}
    (fuel : nat) (ep ep' : string) (c : chan) (w : World H env chan) :
  get_channel_for_endpoint ep' w.(w_ecm) = Some c -> ch_medium c w.(w_env) = WifiLan ->
  runs_to (initiate_bwu_for_endpoint (S fuel) ep WifiHotspot) w tt w.
Proof.
  intros Hc Hm. unfold runs_to. cbn [initiate_bwu_for_endpoint]. unfold initiate_body,
    wifi_lan_connected, gets, mbind, M_bind.
  by rewrite (proj2 (wifi_lan_connected_spec _ _)) by eauto.
Qed.

Lemma wifi_lan_blocks_hotspot_witness :
  let w := fake_world BwuConfig_default true [WifiHotspot] [WifiHotspot]
             [FakeEndpointChannel_new WifiLan "A"] in
  runs_to (initiate_bwu_for_endpoint 1 "EP" WifiHotspot) w tt w.
Proof.
  apply (wifi_lan_blocks_hotspot 0 "EP" "EP" (mkFakeChan 0)); vm_compute; reflexivity.
Defined.

(** C36. After an endpoint's disconnection nothing of it is left in the
    bookkeeping: no upgrade in progress, no parked channel, no latch, no pending
    retry and no backoff, and with per-endpoint mediums no upgrade medium; the
    registry and the client are as before. *)
Theorem disconnect_forgets_endpoint
    {H env chan} `{EndpointChannel env chan} `{BwuHandler H env chan} `{Codec}
    (service_id ep : string) (reason : DisconnectionReason) (w w' : World H env chan) :
  runs_to (on_endpoint_disconnect service_id ep reason) w tt w' ->
  forgotten w'.(w_mgr) ep /\
  (w.(w_mgr).(config).(support_multiple_bwu_mediums) = true ->
   bwu_medium_of w'.(w_mgr) ep = UnknownMedium) /\
  w'.(w_ecm) = w.(w_ecm) /\ w'.(w_client) = w.(w_client).
Proof.
  intros Hrun. pose proof (disconnect_forgets service_id ep reason w) as Hw.
  unfold wp in Hw. by rewrite Hrun in Hw.
Qed.

(** The endpoint is being upgraded to WIFI_LAN, its old channel is parked, and a retry
    of it is pending. *)
Definition mid_upgrade : World (BaseBwuHandler FakeBwuHandler) FakeEnv FakeChan :=
  upd_mgr (fun m =>
    set_mediums <["EP" := WifiLan]> $ set_in_progress (fun s => {["EP"]} ∪ s) $
    set_previous <["EP" := mkFakeChan 0]> $
    set_alarms <["EP" := 3000000000%Z]> $ set_delays <["EP" := 3000000000%Z]> m)
  (fake_world BwuConfig_default true [WifiLan] [WifiLan] [bluetooth_channel]).

Lemma disconnect_forgets_endpoint_witness :
  bwu_medium_of mid_upgrade.(w_mgr) "EP" = WifiLan /\
  exists w', runs_to (on_endpoint_disconnect "A_UPGRADE" "EP" LocalDisconnection) mid_upgrade tt w' /\
    forgotten w'.(w_mgr) "EP" /\ bwu_medium_of w'.(w_mgr) "EP" = UnknownMedium.
Proof.
  split; [reflexivity|].
  let r := eval vm_compute in
    (on_endpoint_disconnect "A_UPGRADE" "EP" LocalDisconnection mid_upgrade) in
  lazymatch r with Ret (_, ?w') => exists w' end.
  split; [vm_compute; reflexivity|].
  match goal with |- forgotten (w_mgr ?w) _ /\ _ => set (w' := w) end.
  destruct (disconnect_forgets_endpoint "A_UPGRADE" "EP" LocalDisconnection mid_upgrade w')
    as (Hf & Hm & _); [vm_compute; reflexivity|].
  split; [exact Hf|apply Hm; reflexivity].
Defined.

(** A shutdown cancels every retry and its backoff, reverts every service
    of every handler and drops all upgrades, parked channels and latches; it
    keeps the upgrade mediums of the endpoints, the registry and the client. *)
Theorem shutdown_clears
    {H env chan} `{EndpointChannel env chan} `{MediumBwuHandler H env chan} `{Codec}
    (w w' : World (BaseBwuHandler H) env chan) :
  runs_to shutdown w tt w' ->
  w'.(w_mgr).(retry_upgrade_alarms) = ∅ /\ w'.(w_mgr).(retry_delays) = ∅ /\
  w'.(w_mgr).(in_progress_upgrades) = ∅ /\ w'.(w_mgr).(previous_endpoint_channels) = ∅ /\
  w'.(w_mgr).(successfully_upgraded_endpoints) = ∅ /\ no_sessions w' /\
  w'.(w_mgr).(endpoint_id_to_bwu_medium) = w.(w_mgr).(endpoint_id_to_bwu_medium) /\
  w'.(w_ecm) = w.(w_ecm) /\ w'.(w_client) = w.(w_client).
Proof.
  intros Hrun. pose proof (shutdown_effect w) as Hw. unfold wp in Hw. by rewrite Hrun in Hw.
Qed.

Lemma shutdown_clears_witness :
  let w := fake_world BwuConfig_default true [WifiLan] [WifiLan] [bluetooth_channel] in
  exists w', runs_to (initiate_bwu_for_endpoint 2 "EP" WifiLan;; shutdown) w tt w' /\ no_sessions w'.
Proof.
  cbv zeta.
  let r := eval vm_compute in
    (initiate_bwu_for_endpoint 2 "EP" WifiLan
       (fake_world BwuConfig_default true [WifiLan] [WifiLan] [bluetooth_channel])) in
  lazymatch r with Ret (_, ?w1) =>
    let r' := eval vm_compute in (shutdown w1) in
    lazymatch r' with Ret (_, ?w2) =>
      exists w2; split; [vm_compute; reflexivity|];
      apply (shutdown_clears w1 w2); vm_compute; reflexivity
    end
  end.
Defined.

(** C9. A LAST_WRITE that overtakes the swap of the channels makes no
    difference: handling it before the upgrade protocol runs, when it is
    latched, or after, gives the same outcome and the same state, even when the
    protocol itself fails on the way. *)
Theorem early_last_write_commutes
    {H env chan} `{EndpointChannel env chan} `{BwuHandler H env chan} `{Codec}
    (ep : string) (c : chan) (enable_encryption : bool) (w : World H env chan) :
  w.(w_mgr).(previous_endpoint_channels) !! ep = None ->
  (ep ∉ w.(w_mgr).(successfully_upgraded_endpoints)) ->
  (process_last_write_to_prior_channel_event ep;; run_upgrade_protocol ep c enable_encryption) w =
  (run_upgrade_protocol ep c enable_encryption;; process_last_write_to_prior_channel_event ep) w.
Proof.
  intros Hp Hl. unfold run_upgrade_protocol, process_last_write_to_prior_channel_event,
    active_channel, set_ecm, set_mgr, channel_op, mgr, gets, modify, mbind, M_bind, mret, M_ret.
  rewrite Hp. simpl.
  destruct (ch_set_local_endpoint_id c _ (w_env w)) as [[[] e1]|]; [|done]. simpl.
  destruct (ch_pause c e1) as [[[] e2]|]; [|done]. simpl.
  destruct (get_channel_for_endpoint ep (w_ecm w)) as [old|]; simpl; [|by rewrite Hp].
  destruct (ch_write old for_bwu_last_write e2) as [[r e3]|]; [|done]. simpl.
  destruct (negb (Exception_ok r)); simpl; [by rewrite Hp|].
  rewrite bool_decide_true by set_solver. rewrite bool_decide_false by done. simpl.
  rewrite !lookup_insert_eq. simpl.
  replace (set_upgraded (fun s => s ∖ {[ep]}) (set_previous <[ep:=old]>
             (set_upgraded (fun s => {[ep]} ∪ s) (w_mgr w))))
    with (set_upgraded (fun s => s ∖ {[ep]}) (set_previous <[ep:=old]> (w_mgr w)));
    [done|].
  unfold set_upgraded, set_previous. simpl. f_equal. set_solver.
Qed.

Lemma early_last_write_commutes_witness :
  let w := fake_world BwuConfig_default true [WifiLan] [WifiLan]
             [bluetooth_channel; FakeEndpointChannel_new WifiLan "A_UPGRADE"] in
  (process_last_write_to_prior_channel_event "EP";;
   run_upgrade_protocol "EP" (mkFakeChan 1) true) w =
  (run_upgrade_protocol "EP" (mkFakeChan 1) true;;
   process_last_write_to_prior_channel_event "EP") w.
Proof.
  apply (early_last_write_commutes "EP" (mkFakeChan 1) true
           (fake_world BwuConfig_default true [WifiLan] [WifiLan]
              [bluetooth_channel; FakeEndpointChannel_new WifiLan "A_UPGRADE"])).
  - vm_compute. reflexivity.
  - apply (bool_decide_unpack _). vm_compute. exact I.
Defined.
