(* ===== verification/StreamChannel.v ===== *)
(** [src/bwu/stream_channel.rs]: the length-framed channel over a byte stream,
    with its cipher and its pause, and the in-memory stream.

    A call is modelled by its effect when it runs to its end without another
    call in between: the reader's and the writer's locks make whole framed reads
    and writes atomic to each other.  A call that would wait on a condition
    variable or for bytes is [Fault Blocked]: it parks until another thread
    resumes or closes the channel, or writes to the stream. *)

From Stdlib Require Import ZArith Lia.
From Stdlib Require Import Strings.Byte.
From S2P Require Import Prelude.
From S2P Require Import Mediums.
From S2P Require Import Proto.
From S2P Require Import Codec.
From S2P Require Import Frames.
From S2P Require Import FromBytes.
From S2P Require Import RoundTrip.
From S2P Require Import Channel.

(** * Interfaces *)

(** [trait Cipher]: its two methods may advance a state behind it. *)
Class Cipher (env cph : Type) : Type := {
  ci_encode : cph -> bytes -> M env (option bytes);
  ci_decode : cph -> bytes -> M env (option bytes);
}.

(** [trait DuplexStream]: [read_exact] gets the length of the buffer to fill. *)
Class DuplexStream (env strm : Type) : Type := {
  ds_read_exact : strm -> nat -> M env (Result bytes);
  ds_write_all : strm -> bytes -> M env (Result unit);
  ds_flush : strm -> M env (Result unit);
  ds_close : strm -> M env unit;
}.

(** * Data *)

Definition DEFAULT_MAX_ALLOWED_READ_BYTES : Z := 2 ^ 31 - 1.

(** [StreamChannel] with the contents of its locks. *)
Record StreamChannel (strm cph : Type) : Type := mkStreamChannel {
  sc_service_id : string;
  sc_name : string;
  sc_medium : Medium;
  sc_max_allowed_read_bytes : Z;
  sc_stream : strm;
  sc_cipher : option cph;
  sc_paused : bool;
  sc_closed : bool;
  sc_local_endpoint_id : string;
}.
Arguments mkStreamChannel {strm cph} _ _ _ _ _ _ _ _ _.
Arguments sc_service_id {strm cph} _.
Arguments sc_name {strm cph} _.
Arguments sc_medium {strm cph} _.
Arguments sc_max_allowed_read_bytes {strm cph} _.
Arguments sc_stream {strm cph} _.
Arguments sc_cipher {strm cph} _.
Arguments sc_paused {strm cph} _.
Arguments sc_closed {strm cph} _.
Arguments sc_local_endpoint_id {strm cph} _.

(** [StreamChannel::new]. *)
Definition StreamChannel_new {strm cph} (service_id name : string) (medium : Medium)
    (stream : strm) : StreamChannel strm cph :=
  mkStreamChannel service_id name medium DEFAULT_MAX_ALLOWED_READ_BYTES stream None false false "".

Definition set_sc_cipher {strm cph} (c : option cph) (s : StreamChannel strm cph)
    : StreamChannel strm cph :=
  mkStreamChannel s.(sc_service_id) s.(sc_name) s.(sc_medium) s.(sc_max_allowed_read_bytes)
    s.(sc_stream) c s.(sc_paused) s.(sc_closed) s.(sc_local_endpoint_id).

Definition set_sc_pause {strm cph} (paused closed : bool) (s : StreamChannel strm cph)
    : StreamChannel strm cph :=
  mkStreamChannel s.(sc_service_id) s.(sc_name) s.(sc_medium) s.(sc_max_allowed_read_bytes)
    s.(sc_stream) s.(sc_cipher) paused closed s.(sc_local_endpoint_id).

Definition set_sc_local {strm cph} (id : string) (s : StreamChannel strm cph)
    : StreamChannel strm cph :=
  mkStreamChannel s.(sc_service_id) s.(sc_name) s.(sc_medium) s.(sc_max_allowed_read_bytes)
    s.(sc_stream) s.(sc_cipher) s.(sc_paused) s.(sc_closed) id.

(** [i32::to_be_bytes] and [i32::from_be_bytes]. *)
Definition byte_of_Z (z : Z) : Byte.byte := default x00 (Byte.of_N (Z.to_N (z mod 256))).

Definition i32_to_be_bytes (z : Z) : bytes :=
  [byte_of_Z (Z.shiftr z 24); byte_of_Z (Z.shiftr z 16); byte_of_Z (Z.shiftr z 8); byte_of_Z z].

Definition i32_from_be_bytes (bs : bytes) : Z :=
  let u := foldl (fun acc b => acc * 256 + Z.of_N (byte_val b))%Z 0%Z bs in
  if (u <? 2 ^ 31)%Z then u else (u - 2 ^ 32)%Z.

(** * Operations *)

Section channel.
Context {env strm cph : Type} `{Cipher env cph} `{DuplexStream env strm} `{Codec}.

Abbreviation MC := (M (StreamChannel strm cph * env)).

(** A call on the stream or the cipher. *)
Definition under {A} (m : M env A) : MC A := fun s =>
  match m s.2 with
  | Ret (a, e) => Ret (a, (s.1, e))
  | Fault f => Fault f
  end.

Definition field {A} (f : StreamChannel strm cph -> A) : MC A := gets (fun s => f s.1).

Definition update (f : StreamChannel strm cph -> StreamChannel strm cph) : MC unit :=
  modify (fun s => (f s.1, s.2)).

Definition sc_enable_encryption (c : cph) : MC unit := update (set_sc_cipher (Some c)).
Definition sc_disable_encryption : MC unit := update (set_sc_cipher None).
Definition is_encrypted (s : StreamChannel strm cph) : bool := is_some s.(sc_cipher).

Definition try_decrypt (data : bytes) : MC (Result bytes) :=
  cipher ← field sc_cipher;
  match cipher with
  | None => mret (Err Failed)
  | Some cipher =>
      plain ← under (ci_decode cipher data);
      mret match plain with Some p => Ok p | None => Err Execution end
  end.

(** [do_close]. *)
Definition do_close : MC unit :=
  closed ← field sc_closed;
  if (closed : bool) then mret tt
  else
    update (set_sc_pause false true);;
    stream ← field sc_stream;
    under (ds_close stream).

(** The length prefix and the payload, under the reader's lock. *)
Definition read_raw : MC (Result bytes) :=
  stream ← field sc_stream;
  max ← field sc_max_allowed_read_bytes;
  len_buf ← under (ds_read_exact stream 4);
  match len_buf with
  | Err e => mret (Err e)
  | Ok len_buf =>
      let len := i32_from_be_bytes len_buf in
      if (len <? 0)%Z || (max <? len)%Z then mret (Err Io)
      else under (ds_read_exact stream (Z.to_nat len))
  end.

(** What [read] makes of the raw frame of an encrypted channel, from the
    result of the decryption. *)
Definition decrypted (raw : bytes) (plain : option bytes) : Result bytes :=
  match plain with
  | Some plaintext => if is_nil plaintext then Err InvalidProtocolBuffer else Ok plaintext
  | None =>
      match from_bytes raw with
      | Ok frame =>
          if decide (get_frame_type frame = Ft_KeepAlive) then Ok raw
          else Err InvalidProtocolBuffer
      | Err exception => Err exception
      end
  end.

Definition sc_read : MC (Result bytes) :=
  raw ← read_raw;
  match raw with
  | Err e => mret (Err e)
  | Ok raw =>
      cipher ← field sc_cipher;
      match cipher with
      | None => mret (Ok raw)
      | Some cipher =>
          plain ← under (ci_decode cipher raw);
          mret (decrypted raw plain)
      end
  end.

Definition is_err {A} (r : Result A) : bool := match r with Err _ => true | Ok _ => false end.

(** The size check, the length prefix, the payload and the flush of [write]. *)
Definition write_payload (payload : bytes) : MC Exception :=
  max ← field sc_max_allowed_read_bytes;
  stream ← field sc_stream;
  if (max <? Z.of_nat (length payload))%Z then mret Io
  else
    r ← under (ds_write_all stream (i32_to_be_bytes (Z.of_nat (length payload))));
    if is_err r then mret Io
    else
      r ← under (ds_write_all stream payload);
      if is_err r then mret Io
      else
        r ← under (ds_flush stream);
        mret (if is_err r then Io else Success).

Definition sc_write (data : bytes) : MC Exception :=
  paused ← field sc_paused;
  if (paused : bool) then raise Blocked
  else
    cipher ← field sc_cipher;
    payload ← match cipher with
              | Some cipher => under (ci_encode cipher data)
              | None => mret (Some data)
              end;
    match payload with
    | None => mret Io
    | Some payload => write_payload payload
    end.

Definition sc_close : MC unit := do_close.
Definition sc_close_with_reason (reason : DisconnectionReason) : MC unit := do_close.

(** [format!("{:?}", medium)] is the name of the variant. *)
Definition medium_debug (m : Medium) : string :=
  match m with
  | UnknownMedium => "UnknownMedium" | Mdns => "Mdns" | Bluetooth => "Bluetooth"
  | WifiHotspot => "WifiHotspot" | Ble => "Ble" | WifiLan => "WifiLan"
  | WifiAware => "WifiAware" | Nfc => "Nfc" | WifiDirect => "WifiDirect"
  | WebRtc => "WebRtc" | BleL2cap => "BleL2cap" | Usb => "Usb"
  | WebRtcNonCellular => "WebRtcNonCellular" | Awdl => "Awdl"
  end.

Definition sc_channel_type (s : StreamChannel strm cph) : string :=
  ((if is_encrypted s then "ENCRYPTED_" else "") +:+ medium_debug s.(sc_medium))%string.

Definition sc_set_local_endpoint_id (id : string) : MC unit := update (set_sc_local id).
Definition sc_pause : MC unit := update (fun s => set_sc_pause true s.(sc_closed) s).
Definition sc_resume : MC unit := update (fun s => set_sc_pause false s.(sc_closed) s).
End channel.

(** ** Shared channels *)

(** [Arc<StreamChannel>]s: the channels under the numbers their [Arc]s stand
    for, and the streams and ciphers behind them. *)
Record StreamHeap (env strm cph : Type) : Type := mkStreamHeap {
  sh_channels : gmap N (StreamChannel strm cph);
  sh_env : env;
}.
Arguments mkStreamHeap {env strm cph} _ _.
Arguments sh_channels {env strm cph} _.
Arguments sh_env {env strm cph} _.

Record StreamArc : Type := mkStreamArc { arc_id : N }.

Section heap.
Context {env strm cph : Type} `{Cipher env cph} `{DuplexStream env strm} `{Codec}.

(** A call on the channel behind an [Arc]; a number that was never given out
    is no [Arc], and a call on it is no behaviour of the code. *)
Definition arc_op {A} (m : M (StreamChannel strm cph * env) A) (c : StreamArc)
    : M (StreamHeap env strm cph) A := fun h =>
  match h.(sh_channels) !! c.(arc_id) with
  | None => Fault Blocked
  | Some s =>
      match m (s, h.(sh_env)) with
      | Ret (a, (s', e)) => Ret (a, mkStreamHeap (<[c.(arc_id) := s']> h.(sh_channels)) e)
      | Fault f => Fault f
      end
  end.

Definition arc_get {A} (f : StreamChannel strm cph -> A) (d : A) (c : StreamArc)
    (h : StreamHeap env strm cph) : A :=
  match h.(sh_channels) !! c.(arc_id) with Some s => f s | None => d end.

#[export] Instance StreamChannel_EndpointChannel :
    EndpointChannel (StreamHeap env strm cph) StreamArc := {|
  ch_read := arc_op sc_read;
  ch_write c data := arc_op (sc_write data) c;
  ch_close := arc_op sc_close;
  ch_close_with_reason c reason := arc_op (sc_close_with_reason reason) c;
  ch_medium := arc_get sc_medium UnknownMedium;
  ch_service_id := arc_get sc_service_id EmptyString;
  ch_name := arc_get sc_name EmptyString;
  ch_channel_type := arc_get sc_channel_type EmptyString;
  ch_local_endpoint_id := arc_get sc_local_endpoint_id EmptyString;
  ch_set_local_endpoint_id c id := arc_op (sc_set_local_endpoint_id id) c;
  ch_pause := arc_op sc_pause;
  ch_resume := arc_op sc_resume;
  ch_is_paused := arc_get sc_paused false;
  ch_disable_encryption := arc_op sc_disable_encryption;
|}.
End heap.

(** ** The pipe *)

Record PipeState : Type := mkPipeState { ps_buf : bytes; ps_closed : bool }.

(** [Arc<Pipe>]s, and the state behind the ciphers. *)
Record Pipes (X : Type) : Type := mkPipes { pp_pipes : gmap N PipeState; pp_rest : X }.
Arguments mkPipes {X} _ _.
Arguments pp_pipes {X} _.
Arguments pp_rest {X} _.

Record PipeArc : Type := mkPipeArc { pipe_id : N }.

Section pipe.
Context {X : Type}.

Definition pipe_state (p : PipeArc) (e : Pipes X) : PipeState :=
  default (mkPipeState [] false) (e.(pp_pipes) !! p.(pipe_id)).

Definition set_pipe (p : PipeArc) (s : PipeState) (e : Pipes X) : Pipes X :=
  mkPipes (<[p.(pipe_id) := s]> e.(pp_pipes)) e.(pp_rest).

(** Bytes are taken as they come; a closed pipe that runs out has given them
    away, and an open one is waited for. *)
Definition pipe_read_exact (p : PipeArc) (n : nat) : M (Pipes X) (Result bytes) :=
  s ← gets (pipe_state p);
  if (n <=? length s.(ps_buf))%nat then
    modify (set_pipe p (mkPipeState (drop n s.(ps_buf)) s.(ps_closed)));;
    mret (Ok (take n s.(ps_buf)))
  else if s.(ps_closed) then
    modify (set_pipe p (mkPipeState [] true));;
    mret (Err NoData)
  else raise Blocked.

Definition pipe_write_all (p : PipeArc) (bs : bytes) : M (Pipes X) (Result unit) :=
  s ← gets (pipe_state p);
  if s.(ps_closed) then mret (Err Io)
  else
    modify (set_pipe p (mkPipeState (s.(ps_buf) ++ bs) false));;
    mret (Ok tt).

Definition pipe_flush (p : PipeArc) : M (Pipes X) (Result unit) := mret (Ok tt).

Definition pipe_close (p : PipeArc) : M (Pipes X) unit :=
  s ← gets (pipe_state p);
  modify (set_pipe p (mkPipeState s.(ps_buf) true)).

#[export] Instance Pipe_DuplexStream : DuplexStream (Pipes X) PipeArc := {|
  ds_read_exact := pipe_read_exact;
  ds_write_all := pipe_write_all;
  ds_flush := pipe_flush;
  ds_close := pipe_close;
|}.
End pipe.

(** ** A channel end to end *)

(** A cipher over the state behind the ciphers, next to the pipes. *)
#[export] Instance Pipes_Cipher {X cph} `{Cipher X cph} : Cipher (Pipes X) cph := {|
  ci_encode k p := fun e =>
    match ci_encode k p e.(pp_rest) with
    | Ret (c, x) => Ret (c, mkPipes e.(pp_pipes) x)
    | Fault f => Fault f
    end;
  ci_decode k c := fun e =>
    match ci_decode k c e.(pp_rest) with
    | Ret (p, x) => Ret (p, mkPipes e.(pp_pipes) x)
    | Fault f => Fault f
    end;
|}.

(** A message as it travels. *)
Definition framed (payload : bytes) : bytes :=
  i32_to_be_bytes (Z.of_nat (length payload)) ++ payload.

(** What the ciphers of the two ends promise each other, with the messages in
    flight, each with its encrypted form, oldest first: without ciphers a
    message is its own encrypted form; with them the reader's decrypts what the
    writer's encrypted, in order, and messages are not empty. *)
Record ciphers_agree {X cph} `{Cipher X cph} (writer reader : option cph)
    (message_ok : bytes -> Prop) (in_flight : X -> list (bytes * bytes) -> Prop) : Prop := {
  ca_encode x q p :
    in_flight x q -> message_ok p ->
    exists c x',
      match writer with None => Ret (Some p, x) | Some k => ci_encode k p x end = Ret (Some c, x') /\
      (Z.of_nat (length c) <= DEFAULT_MAX_ALLOWED_READ_BYTES)%Z /\
      in_flight x' (q ++ [(p, c)]);
  ca_decode x q p c :
    in_flight x ((p, c) :: q) ->
    exists x',
      match reader with
      | None => c = p /\ x' = x
      | Some k => p <> [] /\ ci_decode k c x = Ret (Some p, x')
      end /\ in_flight x' q;
}.

(** The operations on the two ends, and what they answer. *)
Inductive link_op : Type := Send (message : bytes) | Receive.
Inductive link_answer : Type := Sent (e : Exception) | Received (r : Result bytes).

Section link.
Context {X cph : Type} `{Cipher X cph} `{Codec}.

(** The writer and the reader are the two channels; a call changes neither. *)
Definition link_do (writer reader : StreamChannel PipeArc cph) (op : link_op)
    : M (Pipes X) link_answer := fun e =>
  match op with
  | Send m =>
      match sc_write m (writer, e) with
      | Ret (r, (_, e')) => Ret (Sent r, e')
      | Fault f => Fault f
      end
  | Receive =>
      match sc_read (reader, e) with
      | Ret (r, (_, e')) => Ret (Received r, e')
      | Fault f => Fault f
      end
  end.

Fixpoint link_run (writer reader : StreamChannel PipeArc cph) (ops : list link_op)
    : M (Pipes X) (list link_answer) :=
  match ops with
  | [] => mret []
  | op :: ops => a ← link_do writer reader op; rest ← link_run writer reader ops; mret (a :: rest)
  end.
End link.

(** The queue of messages that a link implements: a receive on the empty queue
    waits. *)
Fixpoint queue_run (q : list bytes) (ops : list link_op) : outcome (list link_answer * list bytes) :=
  match ops with
  | [] => Ret ([], q)
  | Send m :: ops =>
      match queue_run (q ++ [m]) ops with
      | Ret (rest, q') => Ret (Sent Success :: rest, q')
      | Fault f => Fault f
      end
  | Receive :: ops =>
      match q with
      | [] => Fault Blocked
      | m :: q =>
          match queue_run q ops with
          | Ret (rest, q') => Ret (Received (Ok m) :: rest, q')
          | Fault f => Fault f
          end
      end
  end.

(** A sequence-numbered cipher: the numbers of the next encryption and the next
    decryption are its state. *)
#[export] Instance counting_cipher : Cipher (Z * Z) unit := {|
  ci_encode _ p := fun s => Ret (Some (byte_of_Z s.1 :: p), ((s.1 + 1)%Z, s.2));
  ci_decode _ c := fun s =>
    match c with
    | b :: p => if decide (b = byte_of_Z s.2) then Ret (Some p, (s.1, (s.2 + 1)%Z)) else Ret (None, s)
    | [] => Ret (None, s)
    end;
|}.

(** * Lemmas *)

(** ** The length prefix *)

Lemma byte_of_Z_val z : Z.of_N (byte_val (byte_of_Z z)) = (z mod 256)%Z.
Proof.
  unfold byte_of_Z, byte_val. pose proof (Z.mod_pos_bound z 256 ltac:(lia)) as Hb.
  destruct (Byte.of_N (Z.to_N (z mod 256))) as [b|] eqn:Hn.
  - apply Byte.to_of_N in Hn. simpl. rewrite Hn. lia.
  - apply Byte.of_N_None_iff in Hn. lia.
Qed.

Lemma i32_be_round_trip z :
  i32_ok z = true -> i32_from_be_bytes (i32_to_be_bytes z) = z.
Proof.
  unfold i32_ok. intros Hz. bool_split. unfold i32_from_be_bytes, i32_to_be_bytes. cbn [foldl].
  rewrite !byte_of_Z_val, !Z.shiftr_div_pow2 by lia.
  change (2 ^ 24)%Z with 16777216%Z. change (2 ^ 16)%Z with 65536%Z. change (2 ^ 8)%Z with 256%Z.
  assert (Hu : ((((0 * 256 + (z / 16777216) mod 256) * 256 + (z / 65536) mod 256) * 256
    + (z / 256) mod 256) * 256 + z mod 256 = z mod 4294967296)%Z) by (Z.div_mod_to_equations; lia).
  rewrite Hu. destruct (Z.ltb_spec (z mod 4294967296) (2 ^ 31));
    Z.div_mod_to_equations; lia.
Qed.

(** A length that a channel sends. *)
Lemma be_length n :
  (Z.of_nat n <= DEFAULT_MAX_ALLOWED_READ_BYTES)%Z ->
  i32_from_be_bytes (i32_to_be_bytes (Z.of_nat n)) = Z.of_nat n.
Proof.
  intros Hn. apply i32_be_round_trip. unfold i32_ok, DEFAULT_MAX_ALLOWED_READ_BYTES in *.
  bool_goal; [apply Z.leb_le|apply Z.ltb_lt]; lia.
Qed.

Lemma i32_to_be_length z : length (i32_to_be_bytes z) = 4.
Proof. done. Qed.

(** ** The pipe *)

Section pipe_lemmas.
Context {X : Type}.

Lemma pipe_state_set p s (e : Pipes X) : pipe_state p (set_pipe p s e) = s.
Proof. unfold pipe_state, set_pipe. simpl. by rewrite lookup_insert_eq. Qed.

Lemma set_pipe_set p s s' (e : Pipes X) : set_pipe p s' (set_pipe p s e) = set_pipe p s' e.
Proof. unfold set_pipe. simpl. by rewrite insert_insert_eq. Qed.

(** Reading what is there. *)
Lemma pipe_read_app p n bs rest closed (e : Pipes X) :
  pipe_state p e = mkPipeState (bs ++ rest) closed -> length bs = n ->
  ds_read_exact p n e = Ret (Ok bs, set_pipe p (mkPipeState rest closed) e).
Proof.
  intros Hs <-. simpl. unfold pipe_read_exact, gets, modify, mbind, M_bind. rewrite Hs. simpl.
  rewrite (proj2 (Nat.leb_le _ _)) by (rewrite length_app; lia).
  by rewrite drop_app_length, take_app_length.
Qed.

(** Reading more than what is there. *)
Lemma pipe_read_short p n bs closed (e : Pipes X) :
  pipe_state p e = mkPipeState bs closed -> length bs < n ->
  ds_read_exact p n e =
  if closed then Ret (Err NoData, set_pipe p (mkPipeState [] true) e) else Fault Blocked.
Proof.
  intros Hs Hn. simpl. unfold pipe_read_exact, gets, modify, mbind, M_bind. rewrite Hs. simpl.
  rewrite (proj2 (Nat.leb_gt _ _)) by lia. by destruct closed.
Qed.
End pipe_lemmas.

(** ** Framing *)

Section framing.
Context {X cph : Type} `{Cipher X cph} `{Codec}.
Implicit Types s : StreamChannel PipeArc cph.

Lemma framed_length payload : length (framed payload) = 4 + length payload.
Proof. done. Qed.

(** A whole frame at the front of the pipe is read as its payload. *)
Lemma read_raw_framed s payload rest closed (e : Pipes X) :
  (s.(sc_max_allowed_read_bytes) <= DEFAULT_MAX_ALLOWED_READ_BYTES)%Z ->
  (Z.of_nat (length payload) <= s.(sc_max_allowed_read_bytes))%Z ->
  pipe_state s.(sc_stream) e = mkPipeState (framed payload ++ rest) closed ->
  read_raw (s, e) = Ret (Ok payload, (s, set_pipe s.(sc_stream) (mkPipeState rest closed) e)).
Proof.
  intros Hmax Hlen Hs. unfold framed in Hs. rewrite <-app_assoc in Hs.
  unfold read_raw, field, under, gets, mbind, M_bind. cbn [fst snd].
  rewrite (pipe_read_app _ 4 (i32_to_be_bytes (Z.of_nat (length payload))) _ _ _ Hs) by done.
  rewrite be_length by lia.
  rewrite (proj2 (Z.ltb_ge _ _)), (proj2 (Z.ltb_ge _ _)) by lia. cbn [orb fst snd].
  rewrite (pipe_read_app _ _ payload rest closed); [|apply pipe_state_set|lia].
  by rewrite set_pipe_set.
Qed.

(** Writing appends a frame to an open pipe. *)
Lemma write_payload_framed s payload (e : Pipes X) buf :
  (Z.of_nat (length payload) <= s.(sc_max_allowed_read_bytes))%Z ->
  pipe_state s.(sc_stream) e = mkPipeState buf false ->
  write_payload payload (s, e) =
  Ret (Success, (s, set_pipe s.(sc_stream) (mkPipeState (buf ++ framed payload) false) e)).
Proof.
  intros Hlen Hs. unfold write_payload, field, under, gets, mbind, M_bind. cbn [fst snd].
  rewrite (proj2 (Z.ltb_ge _ _)) by lia.
  cbn [ds_write_all Pipe_DuplexStream ds_flush fst snd].
  unfold pipe_write_all, gets, modify, mbind, M_bind. rewrite Hs.
  cbn [ps_closed ps_buf mret M_ret fst snd is_err]. rewrite pipe_state_set.
  cbn [ps_closed ps_buf mret M_ret fst snd is_err]. rewrite set_pipe_set.
  unfold framed. by rewrite app_assoc.
Qed.

Lemma write_framed s m payload (e e1 : Pipes X) buf :
  s.(sc_paused) = false ->
  match s.(sc_cipher) with
  | None => Ret (Some m, e) | Some k => ci_encode k m e
  end = Ret (Some payload, e1) ->
  (Z.of_nat (length payload) <= s.(sc_max_allowed_read_bytes))%Z ->
  pipe_state s.(sc_stream) e1 = mkPipeState buf false ->
  sc_write m (s, e) =
  Ret (Success, (s, set_pipe s.(sc_stream) (mkPipeState (buf ++ framed payload) false) e1)).
Proof.
  intros Hp Henc Hlen Hs. unfold sc_write, field, under, gets, mbind, M_bind.
  cbn [fst snd]. rewrite Hp. cbn [fst snd].
  rewrite <-(write_payload_framed s payload e1 buf Hlen Hs).
  destruct (sc_cipher s) as [k|]; cbn [fst snd].
  - by rewrite Henc.
  - by injection Henc as -> ->.
Qed.
End framing.

(** ** The link *)

Section linked.
Context {X cph : Type} `{Cipher X cph} `{Codec}.
Context (writer reader : StreamChannel PipeArc cph).
Context (message_ok : bytes -> Prop) (in_flight : X -> list (bytes * bytes) -> Prop).

(** Two channels over one open pipe, and the messages in it. *)
Record linked (q : list (bytes * bytes)) (e : Pipes X) : Prop := {
  lk_stream : reader.(sc_stream) = writer.(sc_stream);
  lk_writer : writer.(sc_max_allowed_read_bytes) = DEFAULT_MAX_ALLOWED_READ_BYTES;
  lk_reader : reader.(sc_max_allowed_read_bytes) = DEFAULT_MAX_ALLOWED_READ_BYTES;
  lk_unpaused : writer.(sc_paused) = false;
  lk_buffer : pipe_state writer.(sc_stream) e = mkPipeState (concat (framed <$> q.*2)) false;
  lk_fits : Forall (fun c => Z.of_nat (length c) <= DEFAULT_MAX_ALLOWED_READ_BYTES)%Z q.*2;
  lk_in_flight : in_flight e.(pp_rest) q;
}.

Context (Hagree : ciphers_agree writer.(sc_cipher) reader.(sc_cipher) message_ok in_flight).

Lemma send_linked q e m :
  linked q e -> message_ok m ->
  exists c e', sc_write m (writer, e) = Ret (Success, (writer, e')) /\ linked (q ++ [(m, c)]) e'.
Proof.
  intros [Hst Hw Hr Hp Hb Hf Hfl] Hm.
  destruct (ca_encode _ _ _ _ Hagree _ _ _ Hfl Hm) as (c & x' & Henc & Hlen & Hfl').
  exists c, (set_pipe writer.(sc_stream)
           (mkPipeState (concat (framed <$> q.*2) ++ framed c) false) (mkPipes e.(pp_pipes) x')).
  split.
  - apply (write_framed writer m c e (mkPipes e.(pp_pipes) x')); [done| |by rewrite Hw|done].
    destruct (sc_cipher writer); [simpl; by rewrite Henc|]. injection Henc as -> <-. by destruct e.
  - split; try done.
    + rewrite pipe_state_set, !fmap_app, concat_app. simpl. by rewrite app_nil_r.
    + rewrite fmap_app. apply Forall_app. split; [done|]. by constructor.
Qed.

Lemma receive_linked q e m c :
  linked ((m, c) :: q) e ->
  exists e', sc_read (reader, e) = Ret (Ok m, (reader, e')) /\ linked q e'.
Proof.
  intros [Hst Hw Hr Hp Hb Hf Hfl]. simpl in Hb, Hf. apply Forall_cons in Hf as [Hlen Hf].
  destruct (ca_decode _ _ _ _ Hagree _ _ _ _ Hfl) as (x' & Hdec & Hfl').
  assert (Hraw : read_raw (reader, e) = Ret (Ok c, (reader,
    set_pipe writer.(sc_stream) (mkPipeState (concat (framed <$> q.*2)) false) e))).
  { rewrite <-Hst. apply read_raw_framed; [by rewrite Hr|by rewrite Hr|by rewrite Hst]. }
  set (e1 := set_pipe _ _ e) in Hraw.
  exists (mkPipes e1.(pp_pipes) x'). split.
  - unfold sc_read. unfold mbind at 1, M_bind at 1. rewrite Hraw.
    unfold field, under, gets, mbind, M_bind. cbn [fst snd].
    destruct (sc_cipher reader) as [k|].
    + destruct Hdec as [Hne Hdec]. simpl. rewrite Hdec. unfold mret, M_ret, decrypted.
      by destruct m.
    + by destruct Hdec as [-> ->].
  - split; try done. by apply pipe_state_set.
Qed.

Lemma receive_empty e : linked [] e -> sc_read (reader, e) = Fault Blocked.
Proof.
  intros [Hst Hw Hr Hp Hb Hf Hfl]. unfold sc_read, read_raw, field, under, gets, mbind, M_bind.
  cbn [fst snd]. rewrite <-Hst in Hb.
  by rewrite (pipe_read_short _ 4 [] false e Hb) by (simpl; lia).
Qed.

(** The operations answer like the queue's, and stay linked. *)
Lemma link_refines q ops e :
  linked q e -> Forall (fun op => match op with Send m => message_ok m | Receive => True end) ops ->
  match queue_run q.*1 ops with
  | Ret (answers, q') =>
      exists e' ql, link_run writer reader ops e = Ret (answers, e') /\ linked ql e' /\ ql.*1 = q'
  | Fault f => link_run writer reader ops e = Fault f
  end.
Proof.
  revert q e. induction ops as [|[m|] ops IH]; intros q e Hl Hok; cbn [queue_run link_run].
  - by exists e, q.
  - apply Forall_cons in Hok as [Hm Hok].
    destruct (send_linked q e m Hl Hm) as (c & e' & Hw & Hl'). specialize (IH _ _ Hl' Hok).
    rewrite fmap_app in IH. simpl in IH. unfold mbind, M_bind, link_do. rewrite Hw.
    destruct (queue_run _ ops) as [[rest q']|f]; [|by rewrite IH].
    destruct IH as (e2 & ql & -> & Hl2 & Hq). by exists e2, ql.
  - apply Forall_cons in Hok as [_ Hok]. unfold mbind, M_bind, link_do.
    destruct q as [|[m c] q]; simpl; [by rewrite receive_empty|].
    destruct (receive_linked q e m c Hl) as (e' & Hr & Hl'). specialize (IH _ _ Hl' Hok).
    rewrite Hr. destruct (queue_run _ ops) as [[rest q']|f]; [|by rewrite IH].
    destruct IH as (e2 & ql & -> & Hl2 & Hq). by exists e2, ql.
Qed.
End linked.

(** Channels without a cipher. *)
Lemma plain_agree {X cph} `{Cipher X cph} :
  ciphers_agree (X := X) (cph := cph) None None
    (fun m => Z.of_nat (length m) <= DEFAULT_MAX_ALLOWED_READ_BYTES)%Z
    (fun _ q => Forall (fun p => p.2 = p.1) q).
Proof.
  split.
  - intros x q p Hq Hp. exists p, x. split_and!; [done|done|].
    apply Forall_app. split; [done|]. by constructor.
  - intros x q p c Hq. apply Forall_cons in Hq as [Hc Hq]. by exists x.
Qed.

(** Ciphers that count. *)
Definition counted (s : Z * Z) (q : list (bytes * bytes)) : Prop :=
  s.1 = (s.2 + Z.of_nat (length q))%Z /\
  forall i p, q !! i = Some p -> p.1 <> [] /\ p.2 = byte_of_Z (s.2 + Z.of_nat i) :: p.1.

Lemma counting_agree :
  ciphers_agree (Some tt) (Some tt)
    (fun m => m <> [] /\ Z.of_nat (length m) < DEFAULT_MAX_ALLOWED_READ_BYTES)%Z counted.
Proof.
  split.
  - intros [i j] q p [Hn Hq] [Hne Hp]. simpl in *. eexists _, _. split_and!; [done|simpl; lia|].
    split; [simpl; rewrite length_app; simpl; lia|]. intros k pc Hk. simpl in *.
    apply lookup_app_Some in Hk as [Hk|[Hlen Hk]]; [by apply Hq|].
    apply list_lookup_singleton_Some in Hk as [Hk <-]. simpl. split; [done|].
    repeat f_equal. lia.
  - intros [i j] q p c [Hn Hq]. simpl in *.
    destruct (Hq 0 (p, c) eq_refl) as [Hp Hc]. simpl in Hp, Hc. subst c.
    rewrite decide_True by (f_equal; lia). eexists. split; [by split|].
    split; [simpl; lia|]. intros k pc Hk. destruct (Hq (S k) pc Hk) as [Hp' ->]. simpl.
    split; [done|]. f_equal. f_equal. lia.
Qed.

(** * Properties *)

(** C23. Two stream channels over one open pipe are a queue of messages, also
    through ciphers that agree: any sends and receives, in any order, answer
    exactly as on an unbounded FIFO queue, every send succeeding, every receive
    returning the oldest message whole and unchanged, and a receive waiting
    exactly when no message is in flight. *)
Theorem stream_refines_queue {X cph} `{Cipher X cph} `{Codec}
    (writer reader : StreamChannel PipeArc cph) (message_ok : bytes -> Prop)
    (in_flight : X -> list (bytes * bytes) -> Prop) (ops : list link_op) (e : Pipes X) :
  ciphers_agree writer.(sc_cipher) reader.(sc_cipher) message_ok in_flight ->
  linked writer reader in_flight [] e ->
  Forall (fun op => match op with Send m => message_ok m | Receive => True end) ops ->
  match queue_run [] ops with
  | Ret (answers, _) => exists e', link_run writer reader ops e = Ret (answers, e')
  | Fault f => link_run writer reader ops e = Fault f
  end.
Proof.
  intros Hag Hl Hok. pose proof (link_refines writer reader message_ok in_flight Hag [] ops e Hl Hok)
    as Hr. simpl in Hr. destruct (queue_run [] ops) as [[answers q']|f]; [|done].
  destruct Hr as (e' & _ & Hr & _). by exists e'.
Qed.

Lemma stream_refines_queue_witness :
  let c := set_sc_cipher (Some tt) (StreamChannel_new "A" "pipe" WifiLan (mkPipeArc 0)) in
  exists e', link_run c c [Send (str_bytes "one"); Send (str_bytes "two"); Receive; Receive]
    (mkPipes ∅ (0%Z, 0%Z)) =
    Ret ([Sent Success; Sent Success; Received (Ok (str_bytes "one"));
          Received (Ok (str_bytes "two"))], e').
Proof.
  cbv zeta.
  set (c := set_sc_cipher (Some tt) (StreamChannel_new "A" "pipe" WifiLan (mkPipeArc 0))).
  pose proof (stream_refines_queue c c _ counted
           [Send (str_bytes "one"); Send (str_bytes "two"); Receive; Receive]
           (mkPipes ∅ (0%Z, 0%Z)) counting_agree) as Hq.
  cbn [queue_run app] in Hq.
  apply Hq.
  - split; [done|done|done|done|done|constructor|]. split; [reflexivity|].
    intros i p Hi. discriminate Hi.
  - repeat (apply Forall_cons; split); [split|split|done|done|constructor]; done.
Defined.
