(* ===== verification/StreamErrors.v ===== *)
(** What a call on a stream channel answers in every case, errors included. *)

From Stdlib Require Import ZArith Lia.
From Stdlib Require Import Strings.Byte.
From S2P Require Import Prelude.
From S2P Require Import Mediums.
From S2P Require Import Proto.
From S2P Require Import Codec.
From S2P Require Import Frames.
From S2P Require Import FromBytes.
From S2P Require Import RoundTrip.
From S2P Require Import Channel.
From S2P Require Import StreamChannel.

(** * Definitions *)

(** What a buffer holds at its front: a whole frame, less than a length, a length
    that no frame has, or a part of a frame after its length. *)
Inductive front (max : Z) (buf : bytes) : Prop :=
| front_whole (payload rest : bytes)
    (Hfits : (Z.of_nat (length payload) <= max)%Z) (Hbuf : buf = framed payload ++ rest)
| front_short (Hshort : length buf < 4)
| front_part (payload missing : bytes)
    (Hfits : (Z.of_nat (length payload) <= max)%Z) (Hlength : 4 <= length buf)
    (Hmissing : missing <> []) (Hbuf : buf ++ missing = framed payload)
| front_bad (prefix rest : bytes)
    (Hprefix : length prefix = 4) (Hbuf : buf = prefix ++ rest)
    (Hbad : (i32_from_be_bytes prefix < 0 \/ max < i32_from_be_bytes prefix)%Z).

(** A channel's limit is one that a length prefix can name. *)
Definition limit_ok {strm cph} (s : StreamChannel strm cph) : Prop :=
  (0 <= s.(sc_max_allowed_read_bytes) <= DEFAULT_MAX_ALLOWED_READ_BYTES)%Z.

(** The payload that a write sends. *)
Definition payload_of {env cph strm} `{Cipher env cph} (s : StreamChannel strm cph) (m : bytes)
    : M env (option bytes) :=
  match s.(sc_cipher) with None => mret (Some m) | Some k => ci_encode k m end.

(** * Lemmas *)

Lemma byte_of_Z_byte b z : (z mod 256 = Z.of_N (byte_val b))%Z -> byte_of_Z z = b.
Proof. intros Hz. unfold byte_of_Z. rewrite Hz, N2Z.id. by destruct b. Qed.

Lemma byte_val_below b : (Z.of_N (byte_val b) < 256)%Z.
Proof. by destruct b. Qed.

(** Every four bytes are the big-endian form of the number they are read as. *)
Lemma i32_to_from_be bs : length bs = 4 -> i32_to_be_bytes (i32_from_be_bytes bs) = bs.
Proof.
  destruct bs as [|b1 [|b2 [|b3 [|b4 [|]]]]]; try done. intros _.
  pose proof (byte_val_below b1). pose proof (byte_val_below b2).
  pose proof (byte_val_below b3). pose proof (byte_val_below b4).
  unfold i32_from_be_bytes, i32_to_be_bytes. cbn [foldl].
  set (v1 := Z.of_N (byte_val b1)) in *. set (v2 := Z.of_N (byte_val b2)) in *.
  set (v3 := Z.of_N (byte_val b3)) in *. set (v4 := Z.of_N (byte_val b4)) in *.
  assert (0 <= v1 /\ 0 <= v2 /\ 0 <= v3 /\ 0 <= v4)%Z by (unfold v1, v2, v3, v4; lia).
  rewrite !Z.shiftr_div_pow2 by lia.
  change (2 ^ 24)%Z with 16777216%Z. change (2 ^ 16)%Z with 65536%Z. change (2 ^ 8)%Z with 256%Z.
  change (2 ^ 31)%Z with 2147483648%Z. change (2 ^ 32)%Z with 4294967296%Z.
  f_equal; [|f_equal; [|f_equal; [|f_equal]]];
    apply byte_of_Z_byte; fold v1 v2 v3 v4; case_match; Z.div_mod_to_equations; lia.
Qed.

Lemma framed_app payload buf rest :
  length buf = 4 -> i32_from_be_bytes buf = Z.of_nat (length payload) ->
  buf ++ payload ++ rest = framed payload ++ rest.
Proof. intros Hl Hz. unfold framed. rewrite <-Hz, i32_to_from_be by done. by rewrite app_assoc. Qed.

(** Every buffer has such a front. *)
Lemma front_exists max buf : (0 <= max <= DEFAULT_MAX_ALLOWED_READ_BYTES)%Z -> front max buf.
Proof.
  intros Hmax. destruct (decide (4 <= length buf)) as [Hlen|Hlen].
  - set (prefix := take 4 buf). set (body := drop 4 buf).
    assert (Hbuf : buf = prefix ++ body) by (symmetry; apply take_drop).
    assert (Hp : length prefix = 4) by (unfold prefix; rewrite length_take; lia).
    set (len := i32_from_be_bytes prefix).
    destruct (decide (len < 0 \/ max < len)%Z) as [Hbad|Hok]; [by eapply front_bad|].
    destruct (decide (Z.to_nat len <= length body)) as [Hwhole|Hshort].
    + apply (front_whole _ _ (take (Z.to_nat len) body) (drop (Z.to_nat len) body)).
      * rewrite length_take. lia.
      * rewrite Hbuf at 1. rewrite <-(take_drop (Z.to_nat len) body) at 1.
        apply framed_app; [done|]. fold len. rewrite length_take. lia.
    + set (zeros := repeat x00 (Z.to_nat len - length body)).
      assert (Hz : length zeros = Z.to_nat len - length body) by apply repeat_length.
      apply (front_part _ _ (body ++ zeros) zeros).
      * rewrite length_app. lia.
      * done.
      * intros Hnil. rewrite Hnil in Hz. simpl in Hz. lia.
      * rewrite Hbuf, <-app_assoc, <-(app_nil_r (framed _)), <-(app_nil_r (body ++ zeros)) at 1.
        apply framed_app; [done|]. fold len. rewrite length_app. lia.
  - apply front_short. lia.
Qed.

Section errors.
Context {X cph : Type} `{Cipher X cph} `{Codec}.
Implicit Types (s : StreamChannel PipeArc cph) (e : Pipes X).

(** What is read when the pipe runs out. *)
Definition ran_out s e (closed : bool) : outcome (Result bytes * (StreamChannel PipeArc cph * Pipes X)) :=
  if closed then Ret (Err NoData, (s, set_pipe s.(sc_stream) (mkPipeState [] true) e))
  else Fault Blocked.

Lemma read_raw_short s buf closed e :
  pipe_state s.(sc_stream) e = mkPipeState buf closed -> length buf < 4 ->
  read_raw (s, e) = ran_out s e closed.
Proof.
  intros Hs Hl. unfold read_raw, field, under, gets, mbind, M_bind. cbn [fst snd].
  rewrite (pipe_read_short _ _ _ _ _ Hs Hl). by destruct closed.
Qed.

Lemma read_raw_bad s prefix rest closed e :
  pipe_state s.(sc_stream) e = mkPipeState (prefix ++ rest) closed -> length prefix = 4 ->
  (i32_from_be_bytes prefix < 0 \/ s.(sc_max_allowed_read_bytes) < i32_from_be_bytes prefix)%Z ->
  read_raw (s, e) = Ret (Err Io, (s, set_pipe s.(sc_stream) (mkPipeState rest closed) e)).
Proof.
  intros Hs Hl Hbad. unfold read_raw, field, under, gets, mbind, M_bind. cbn [fst snd].
  rewrite (pipe_read_app _ 4 prefix _ _ _ Hs) by done.
  assert (_ || _ = true) as ->; [|done].
  apply orb_true_iff. rewrite !Z.ltb_lt. lia.
Qed.

Lemma read_raw_part s buf payload missing closed e :
  limit_ok s -> pipe_state s.(sc_stream) e = mkPipeState buf closed ->
  (Z.of_nat (length payload) <= s.(sc_max_allowed_read_bytes))%Z -> 4 <= length buf ->
  missing <> [] -> buf ++ missing = framed payload ->
  read_raw (s, e) = ran_out s e closed.
Proof.
  intros Hm Hs Hfit Hlen Hmiss Hbuf. unfold limit_ok in Hm.
  assert (Htake : take 4 buf = i32_to_be_bytes (Z.of_nat (length payload))).
  { rewrite <-(take_app_le buf missing) by lia. by rewrite Hbuf. }
  assert (Hdrop : length (drop 4 buf) < length payload).
  { pose proof (f_equal length Hbuf) as Hl. rewrite framed_length in Hl.
    rewrite length_app in Hl. rewrite length_drop. destruct missing; [done|]. simpl in Hl. lia. }
  rewrite <-(take_drop 4 buf), Htake in Hs.
  unfold read_raw, field, under, gets, mbind, M_bind. cbn [fst snd].
  rewrite (pipe_read_app _ 4 _ _ _ _ Hs) by done.
  rewrite be_length by lia.
  rewrite (proj2 (Z.ltb_ge _ _)), (proj2 (Z.ltb_ge _ _)) by lia. cbn [orb fst snd].
  rewrite Nat2Z.id, (pipe_read_short _ _ (drop 4 buf) closed); [|apply pipe_state_set|done].
  unfold ran_out. destruct closed; [|done]. by rewrite set_pipe_set.
Qed.

(** What a read makes of a raw frame that was read. *)
Lemma sc_read_of_raw s raw e e1 :
  read_raw (s, e) = Ret (Ok raw, (s, e1)) ->
  sc_read (s, e) =
  match s.(sc_cipher) with
  | None => Ret (Ok raw, (s, e1))
  | Some k =>
      match ci_decode k raw e1 with
      | Ret (plain, e2) => Ret (decrypted raw plain, (s, e2))
      | Fault f => Fault f
      end
  end.
Proof.
  intros Hr. unfold sc_read. unfold mbind at 1, M_bind at 1. rewrite Hr.
  unfold field, under, gets, mbind, M_bind, mret, M_ret. cbn [fst snd].
  destruct (sc_cipher s) as [k|]; [|done].
  simpl. by destruct (ci_decode k raw (pp_rest e1)) as [[p x]|f].
Qed.

Lemma sc_read_of_err s err e e1 :
  read_raw (s, e) = Ret (Err err, (s, e1)) -> sc_read (s, e) = Ret (Err err, (s, e1)).
Proof. intros Hr. unfold sc_read. unfold mbind at 1, M_bind at 1. by rewrite Hr. Qed.

Lemma sc_read_of_fault s f e : read_raw (s, e) = Fault f -> sc_read (s, e) = Fault f.
Proof. intros Hr. unfold sc_read. unfold mbind at 1, M_bind at 1. by rewrite Hr. Qed.

Lemma sc_read_ran_out s e closed :
  read_raw (s, e) = ran_out s e closed -> sc_read (s, e) = ran_out s e closed.
Proof. destruct closed; [apply sc_read_of_err|apply sc_read_of_fault]. Qed.

(** What an encrypted channel passes on. *)
Lemma decrypted_ok raw plain m :
  decrypted raw plain = Ok m <->
  (plain = Some m /\ m <> []) \/
  (plain = None /\ m = raw /\ exists f, from_bytes raw = Ok f /\ get_frame_type f = Ft_KeepAlive).
Proof.
  unfold decrypted. destruct plain as [p|].
  - destruct p as [|b p]; simpl; split.
    + done.
    + intros [[Hp Hne]|[Hp _]]; congruence.
    + intros [= <-]. by left.
    + intros [[Hp _]|[Hp _]]; congruence.
  - destruct (from_bytes raw) as [f|err]; [case_decide as Hk|]; split; try done.
    + intros [= <-]. right. split; [done|]. split; [done|]. by exists f.
    + intros [[Hp _]|(_ & -> & _)]; congruence.
    + intros [[Hp _]|(_ & _ & f' & Hf & Hf')]; congruence.
    + intros [[Hp _]|(_ & _ & f' & Hf & _)]; congruence.
Qed.

Lemma write_payload_io s p buf closed e :
  pipe_state s.(sc_stream) e = mkPipeState buf closed ->
  (s.(sc_max_allowed_read_bytes) < Z.of_nat (length p))%Z \/ closed = true ->
  write_payload p (s, e) = Ret (Io, (s, e)).
Proof.
  intros Hs Hbad. unfold write_payload, field, under, gets, mbind, M_bind. cbn [fst snd].
  destruct (Z.ltb_spec (sc_max_allowed_read_bytes s) (Z.of_nat (length p))) as [Hlt|Hge]; [done|].
  destruct Hbad as [?| ->]; [lia|]. cbn [ds_write_all Pipe_DuplexStream fst snd].
  unfold pipe_write_all, gets, modify, mbind, M_bind. by rewrite Hs.
Qed.

Lemma sc_write_of_payload s m e :
  sc_write m (s, e) =
  if s.(sc_paused) then Fault Blocked
  else match payload_of s m e with
       | Ret (None, e1) => Ret (Io, (s, e1))
       | Ret (Some p, e1) => write_payload p (s, e1)
       | Fault f => Fault f
       end.
Proof.
  unfold sc_write, payload_of, field, under, gets, mbind, M_bind. cbn [fst snd].
  destruct (sc_paused s); [done|]. cbn [fst snd]. destruct (sc_cipher s) as [k|]; [|done].
  simpl. by destruct (ci_encode k m (pp_rest e)) as [[[p|] x]|f].
Qed.

(** Encoding is no business of the pipes. *)
Lemma payload_of_pipes s m e p e1 :
  payload_of s m e = Ret (p, e1) -> e1.(pp_pipes) = e.(pp_pipes).
Proof.
  unfold payload_of. destruct (sc_cipher s) as [k|].
  - simpl. destruct (ci_encode k m (pp_rest e)) as [[c x]|f]; [|done]. by intros [= _ <-].
  - by intros [= _ <-].
Qed.

(** A channel that is closed and then paused parks its writers, and a close does
    not release them: it returns early on a channel that is closed. *)
Lemma close_does_not_release s m e :
  s.(sc_closed) = true -> s.(sc_paused) = true ->
  do_close (s, e) = Ret (tt, (s, e)) /\ sc_write m (s, e) = Fault Blocked.
Proof.
  intros Hc Hp. split.
  - unfold do_close, field, gets, mbind, M_bind. simpl. by rewrite Hc.
  - by rewrite sc_write_of_payload, Hp.
Qed.
End errors.

(** * Properties *)

(** C29. Every read is decided by what the pipe holds, which is one of four: a
    whole frame is taken from it, and its payload is the answer, or, with a
    cipher, what the cipher makes of the payload, where a payload that the cipher
    refuses is passed on exactly when it is an unencrypted keep-alive frame; a
    length that is negative or over the limit answers Io; less than a frame
    answers NoData on a closed pipe and waits on an open one. *)
Theorem read_outcomes {X cph} `{Cipher X cph} `{Codec} (s : StreamChannel PipeArc cph)
    (e : Pipes X) (buf : bytes) (closed : bool) :
  limit_ok s -> pipe_state s.(sc_stream) e = mkPipeState buf closed ->
  let after rest := set_pipe s.(sc_stream) (mkPipeState rest closed) e in
  match sc_read (s, e) with
  | Ret (r, (s', e')) => s' = s /\
      ((exists payload rest, buf = framed payload ++ rest /\
          match s.(sc_cipher) with
          | None => r = Ok payload /\ e' = after rest
          | Some k => exists plain, runs_to (ci_decode k payload) (after rest) plain e' /\
              forall m, r = Ok m <->
                (plain = Some m /\ m <> []) \/
                (plain = None /\ m = payload /\
                 exists f, from_bytes payload = Ok f /\ get_frame_type f = Ft_KeepAlive)
          end) \/
       (exists prefix rest, buf = prefix ++ rest /\ length prefix = 4 /\
          (i32_from_be_bytes prefix < 0 \/
           s.(sc_max_allowed_read_bytes) < i32_from_be_bytes prefix)%Z /\
          r = Err Io /\ e' = after rest) \/
       (closed = true /\ r = Err NoData /\ e' = set_pipe s.(sc_stream) (mkPipeState [] true) e /\
        (length buf < 4 \/ exists payload missing, missing <> [] /\ buf ++ missing = framed payload)))
  | Fault f =>
      f = Blocked /\ closed = false /\
        (length buf < 4 \/ exists payload missing, missing <> [] /\ buf ++ missing = framed payload) \/
      exists k payload rest, s.(sc_cipher) = Some k /\ buf = framed payload ++ rest /\
        ci_decode k payload (after rest) = Fault f
  end.
Proof.
  intros Hm Hs after. destruct (front_exists _ buf Hm) as [p rest Hfit ->|Hshort|p miss Hfit Hl Hne Hbuf
    |prefix rest Hp -> Hbad].
  - pose proof (read_raw_framed s p rest closed e (proj2 Hm) Hfit Hs) as Hr.
    rewrite (sc_read_of_raw _ _ _ _ Hr). fold (after rest). destruct (sc_cipher s) as [k|].
    + destruct (ci_decode k p (after rest)) as [[plain e2]|f] eqn:Hd.
      * split; [done|]. left. exists p, rest. split; [done|]. exists plain. split; [done|].
        intros m. apply decrypted_ok.
      * right. by exists k, p, rest.
    + split; [done|]. left. by exists p, rest.
  - rewrite (sc_read_ran_out _ _ _ (read_raw_short s buf closed e Hs Hshort)). unfold ran_out.
    destruct closed.
    + split; [done|]. right. right. by split_and!; [..|left].
    + left. by split_and!; [..|left].
  - rewrite (sc_read_ran_out _ _ _ (read_raw_part s buf p miss closed e Hm Hs Hfit Hl Hne Hbuf)).
    unfold ran_out. destruct closed.
    + split; [done|]. right. right. split_and!; [done..|]. right. by exists p, miss.
    + left. split_and!; [done..|]. right. by exists p, miss.
  - rewrite (sc_read_of_err _ _ _ _ (read_raw_bad s prefix rest closed e Hs Hp Hbad)).
    split; [done|]. right. left. by exists prefix, rest.
Qed.

(** A truncated frame on a closed pipe. *)
Definition cut_pipe : Pipes (Z * Z) :=
  mkPipes {[0%N := mkPipeState [x00; x00; x00; x05; x41] true]} (0%Z, 0%Z).

Definition cut_reader : StreamChannel PipeArc unit :=
  StreamChannel_new "A" "pipe" WifiLan (mkPipeArc 0).

Lemma read_outcomes_witness :
  limit_ok cut_reader /\
  exists s' e', sc_read (cut_reader, cut_pipe) = Ret (Err NoData, (s', e')) /\ s' = cut_reader.
Proof.
  assert (Hm : limit_ok cut_reader) by (split; vm_compute; discriminate).
  split; [exact Hm|].
  pose proof (read_outcomes cut_reader cut_pipe [x00; x00; x00; x05; x41] true Hm eq_refl) as Hr.
  cbv zeta in Hr. destruct (sc_read (cut_reader, cut_pipe)) as [[r [s' e']]|f] eqn:Hrun.
  - exists s', e'. destruct Hr as [-> _]. split; [|done]. vm_compute in Hrun. by injection Hrun as <- <-.
  - exfalso. vm_compute in Hrun. discriminate Hrun.
Defined.

(** C30. A write is all or nothing: it waits while the channel is paused; it
    succeeds exactly when the cipher, if any, encrypts, the payload is within the
    limit and the pipe is open, and then the pipe has got one whole frame; in
    every other case it answers Io and the pipe is as it was. *)
Theorem write_outcomes {X cph} `{Cipher X cph} `{Codec} (s : StreamChannel PipeArc cph)
    (e : Pipes X) (m buf : bytes) (closed : bool) :
  pipe_state s.(sc_stream) e = mkPipeState buf closed ->
  match sc_write m (s, e) with
  | Ret (r, (s', e')) =>
      s' = s /\ s.(sc_paused) = false /\
      ((r = Success /\ closed = false /\
        exists p e1, runs_to (payload_of s m) e (Some p) e1 /\
          (Z.of_nat (length p) <= s.(sc_max_allowed_read_bytes))%Z /\
          e' = set_pipe s.(sc_stream) (mkPipeState (buf ++ framed p) false) e1) \/
       (r = Io /\ e'.(pp_pipes) = e.(pp_pipes) /\
        exists payload e1, runs_to (payload_of s m) e payload e1 /\
          (closed = true \/ payload = None \/
           exists p, payload = Some p /\ (s.(sc_max_allowed_read_bytes) < Z.of_nat (length p))%Z)))
  | Fault f =>
      s.(sc_paused) = true /\ f = Blocked \/ s.(sc_paused) = false /\ payload_of s m e = Fault f
  end.
Proof.
  intros Hs. rewrite sc_write_of_payload. destruct (sc_paused s) eqn:Hp; [by left|].
  destruct (payload_of s m e) as [[payload e1]|f] eqn:Henc; [|by right].
  pose proof (payload_of_pipes s m e payload e1 Henc) as Hpipes.
  assert (Hs1 : pipe_state s.(sc_stream) e1 = mkPipeState buf closed)
    by (unfold pipe_state in *; by rewrite Hpipes).
  destruct payload as [p|].
  2: { split_and!; [done..|]. right. split_and!; [done..|]. exists None, e1. by split; [|right; left]. }
  destruct (decide (s.(sc_max_allowed_read_bytes) < Z.of_nat (length p) \/ closed = true)%Z) as [Hbad|Hok].
  - rewrite (write_payload_io s p buf closed e1 Hs1 Hbad). split_and!; [done..|]. right.
    split_and!; [done..|]. exists (Some p), e1. split; [done|]. destruct Hbad as [?|?]; [|by left].
    right. right. by exists p.
  - destruct closed; [exfalso; apply Hok; by right|].
    assert (Hfit : (Z.of_nat (length p) <= s.(sc_max_allowed_read_bytes))%Z)
      by (apply Z.nlt_ge; intros ?; apply Hok; by left).
    rewrite (write_payload_framed s p e1 buf Hfit Hs1).
    split_and!; [done..|]. left. split_and!; [done..|]. by exists p, e1.
Qed.

Lemma write_outcomes_witness :
  exists s' e', sc_write (str_bytes "one") (cut_reader, cut_pipe) = Ret (Io, (s', e')) /\
    e'.(pp_pipes) = cut_pipe.(pp_pipes).
Proof.
  pose proof (write_outcomes cut_reader cut_pipe (str_bytes "one") [x00; x00; x00; x05; x41] true eq_refl)
    as Hw.
  destruct (sc_write _ (cut_reader, cut_pipe)) as [[r [s' e']]|f] eqn:Hrun.
  - exists s', e'. destruct Hw as (_ & _ & [(_ & Hc & _)|(-> & Hp & _)]); [discriminate Hc|]. by split.
  - exfalso. vm_compute in Hrun. discriminate Hrun.
Defined.
