(* ===== verification/Interleaving.v ===== *)
(** [src/bwu/stream_channel.rs], with several threads inside its calls: the
    channels over one pipe as a machine that runs the calls of any number of
    threads a lock, a transfer or a flag at a time.

    A thread stands at a point of the body of the call it is in; what it does
    from there until it next takes a lock, releases one, or touches the stream,
    the pause state or the cipher is one step.  A thread that would wait has no
    step.  A cipher's call is one step, and a cipher that does not return leaves
    its thread without one. *)

From Stdlib Require Import ZArith Lia.
From Stdlib Require Import Strings.Byte.
From S2P Require Import Prelude.
From S2P Require Import Mediums.
From S2P Require Import Proto.
From S2P Require Import Codec.
From S2P Require Import Frames.
From S2P Require Import FromBytes.
From S2P Require Import RoundTrip.
From S2P Require Import Channel.
From S2P Require Import StreamChannel.
From S2P Require Import StreamErrors.

(** * Definitions *)

(** ** Calls and where they stand *)

Inductive call : Type := Write (data : bytes) | Read | Close | SetPaused (paused : bool).

Inductive reply : Type := R_exception (e : Exception) | R_result (r : Result bytes) | R_unit.

(** The points of [write], of [read] (with the bytes that [read_exact] has
    filled in so far), of [do_close] and of [pause] and [resume]. *)
Inductive point (cph : Type) : Type :=
| W_gate (data : bytes)
| W_lock (data : bytes)
| W_encode (data : bytes)
| W_length (data payload : bytes)
| W_body (data payload : bytes)
| W_flush
| W_unlock (r : Exception)
| R_lock
| R_length (filled : bytes)
| R_body (len : nat) (filled : bytes)
| R_unlock (r : Result bytes)
| R_cipher (raw : bytes)
| R_decode (cipher : cph) (raw : bytes)
| C_flags
| C_stream
| P_flag (paused : bool)
| Returned (r : reply).
Arguments W_gate {cph} _. Arguments W_lock {cph} _. Arguments W_encode {cph} _.
Arguments W_length {cph} _ _. Arguments W_body {cph} _ _. Arguments W_flush {cph}.
Arguments W_unlock {cph} _. Arguments R_lock {cph}. Arguments R_length {cph} _.
Arguments R_body {cph} _ _. Arguments R_unlock {cph} _. Arguments R_cipher {cph} _.
Arguments R_decode {cph} _ _. Arguments C_flags {cph}. Arguments C_stream {cph}.
Arguments P_flag {cph} _. Arguments Returned {cph} _.

Definition start {cph} (op : call) : point cph :=
  match op with
  | Write data => W_gate data
  | Read => R_lock
  | Close => C_flags
  | SetPaused b => P_flag b
  end.

(** Who holds [writer_lock] and [reader_lock] of its channel. *)
Definition holds_writer {cph} (pt : point cph) : bool :=
  match pt with
  | W_encode _ | W_length _ _ | W_body _ _ | W_flush | W_unlock _ => true
  | _ => false
  end.

Definition holds_reader {cph} (pt : point cph) : bool :=
  match pt with R_length _ | R_body _ _ | R_unlock _ => true | _ => false end.

Definition returned {cph} (pt : point cph) : bool :=
  match pt with Returned _ => true | _ => false end.

(** ** The machine *)

(** A channel with the owners of its two locks. *)
Record locked (cph : Type) : Type := mkLocked {
  lc_chan : StreamChannel PipeArc cph;
  lc_reader : option nat;
  lc_writer : option nat;
}.
Arguments mkLocked {cph} _ _ _.
Arguments lc_chan {cph} _.
Arguments lc_reader {cph} _.
Arguments lc_writer {cph} _.

Record config (X cph : Type) : Type := mkConfig {
  cf_chans : gmap N (locked cph);
  cf_env : Pipes X;
  cf_threads : gmap nat (N * point cph);
}.
Arguments mkConfig {X cph} _ _ _.
Arguments cf_chans {X cph} _.
Arguments cf_env {X cph} _.
Arguments cf_threads {X cph} _.

Section machine.
Context {X cph : Type} `{Cipher X cph} `{Codec}.

(** The body of [Pipe]'s [read_exact] from one wait to the next: it takes what
    is there, as far as it needs it. *)
Definition pipe_fill (p : PipeArc) (need : nat) (filled : bytes) (e : Pipes X)
    : option (Result bytes * Pipes X) :=
  let s := pipe_state p e in
  match s.(ps_buf) with
  | [] => if s.(ps_closed) then Some (Err NoData, e) else None
  | buf =>
      let n := (need - length filled)%nat in
      Some (Ok (filled ++ take n buf), set_pipe p (mkPipeState (drop n buf) s.(ps_closed)) e)
  end.

(** What [write] does with the encoded message, before the length is written. *)
Definition sized (s : StreamChannel PipeArc cph) (data : bytes) (payload : option bytes)
    : point cph :=
  match payload with
  | None => W_unlock Io
  | Some payload =>
      if (s.(sc_max_allowed_read_bytes) <? Z.of_nat (length payload))%Z then W_unlock Io
      else W_length data payload
  end.

(** What [read] does with the length. *)
Definition measured (s : StreamChannel PipeArc cph) (len_buf : bytes) : point cph :=
  let len := i32_from_be_bytes len_buf in
  if (len <? 0)%Z || (s.(sc_max_allowed_read_bytes) <? len)%Z then R_unlock (Err Io)
  else R_body (Z.to_nat len) [].

(** The call of the stream at a point, and where it leads. *)
Definition then_or (r : outcome (Result unit * Pipes X)) (ok err : point cph)
    : option (point cph * Pipes X) :=
  match r with
  | Ret (r, e) => Some (if is_err r then err else ok, e)
  | Fault _ => None
  end.

(** One step of a thread [t] on its channel. *)
Definition thread_step (t : nat) (pt : point cph) (c : locked cph) (e : Pipes X)
    : option (point cph * locked cph * Pipes X) :=
  let s := c.(lc_chan) in
  let go r := match r with Some (pt', e') => Some (pt', c, e') | None => None end in
  match pt with
  | W_gate data => if s.(sc_paused) then None else Some (W_lock data, c, e)
  | W_lock data =>
      match c.(lc_writer) with
      | Some _ => None
      | None => Some (W_encode data, mkLocked s c.(lc_reader) (Some t), e)
      end
  | W_encode data =>
      match payload_of s data e with
      | Ret (payload, e') => Some (sized s data payload, c, e')
      | Fault _ => None
      end
  | W_length data payload =>
      go (then_or (ds_write_all s.(sc_stream) (i32_to_be_bytes (Z.of_nat (length payload))) e)
            (W_body data payload) (W_unlock Io))
  | W_body data payload =>
      go (then_or (ds_write_all s.(sc_stream) payload e) W_flush (W_unlock Io))
  | W_flush => go (then_or (ds_flush s.(sc_stream) e) (W_unlock Success) (W_unlock Io))
  | W_unlock r => Some (Returned (R_exception r), mkLocked s c.(lc_reader) None, e)
  | R_lock =>
      match c.(lc_reader) with
      | Some _ => None
      | None => Some (R_length [], mkLocked s (Some t) c.(lc_writer), e)
      end
  | R_length filled =>
      if (4 <=? length filled)%nat then Some (measured s filled, c, e)
      else match pipe_fill s.(sc_stream) 4 filled e with
           | Some (Ok filled, e') => Some (R_length filled, c, e')
           | Some (Err err, e') => Some (R_unlock (Err err), c, e')
           | None => None
           end
  | R_body len filled =>
      if (len <=? length filled)%nat then Some (R_unlock (Ok filled), c, e)
      else match pipe_fill s.(sc_stream) len filled e with
           | Some (Ok filled, e') => Some (R_body len filled, c, e')
           | Some (Err err, e') => Some (R_unlock (Err err), c, e')
           | None => None
           end
  | R_unlock r =>
      Some (match r with Ok raw => R_cipher raw | Err err => Returned (R_result (Err err)) end,
            mkLocked s None c.(lc_writer), e)
  | R_cipher raw =>
      Some (match s.(sc_cipher) with
            | None => Returned (R_result (Ok raw))
            | Some k => R_decode k raw
            end, c, e)
  | R_decode k raw =>
      match ci_decode k raw e with
      | Ret (plain, e') => Some (Returned (R_result (decrypted raw plain)), c, e')
      | Fault _ => None
      end
  | C_flags =>
      if s.(sc_closed) then Some (Returned R_unit, c, e)
      else Some (C_stream, mkLocked (set_sc_pause false true s) c.(lc_reader) c.(lc_writer), e)
  | C_stream =>
      match ds_close s.(sc_stream) e with
      | Ret (_, e') => Some (Returned R_unit, c, e')
      | Fault _ => None
      end
  | P_flag b =>
      Some (Returned R_unit,
            mkLocked (set_sc_pause b s.(sc_closed) s) c.(lc_reader) c.(lc_writer), e)
  | Returned _ => None
  end.

(** What happens next: a thread that is new calls, or a thread steps. *)
Inductive move : Type := Enter (t : nat) (ch : N) (op : call) | Step (t : nat).

(** What is seen from outside. *)
Inductive event : Type := Called (t : nat) (ch : N) (op : call) | Answered (t : nat) (r : reply).

Definition answer_event (t : nat) (pt : point cph) : list event :=
  match pt with Returned r => [Answered t r] | _ => [] end.

Definition do_step (t : nat) (c : config X cph) : option (list event * config X cph) :=
  match c.(cf_threads) !! t with
  | None => None
  | Some (ch, pt) =>
      match c.(cf_chans) !! ch with
      | None => None
      | Some l =>
          match thread_step t pt l c.(cf_env) with
          | None => None
          | Some (pt', l', e') =>
              Some (answer_event t pt',
                    mkConfig (<[ch := l']> c.(cf_chans)) e' (<[t := (ch, pt')]> c.(cf_threads)))
          end
      end
  end.

Definition do_enter (t : nat) (ch : N) (op : call) (c : config X cph)
    : option (list event * config X cph) :=
  match c.(cf_threads) !! t, c.(cf_chans) !! ch with
  | None, Some _ =>
      Some ([Called t ch op],
            mkConfig c.(cf_chans) c.(cf_env) (<[t := (ch, start op)]> c.(cf_threads)))
  | _, _ => None
  end.

Definition do_one (mv : move) (c : config X cph) : option (list event * config X cph) :=
  match mv with Enter t ch op => do_enter t ch op c | Step t => do_step t c end.

(** A run of given moves: what was seen, and where it ends. *)
Fixpoint do_all (mvs : list move) (c : config X cph) : option (list event * config X cph) :=
  match mvs with
  | [] => Some ([], c)
  | mv :: mvs =>
      match do_one mv c with
      | None => None
      | Some (evs, c') =>
          match do_all mvs c' with
          | None => None
          | Some (evs', c'') => Some (evs ++ evs', c'')
          end
      end
  end.
End machine.

(** ** Invariants *)

Section invariants.
Context {X cph : Type}.
Implicit Types c : config X cph.

(** A lock of every channel is owned by exactly the threads that stand where
    the code holds it. *)
Definition lock_ok (holds : point cph -> bool) (owner : locked cph -> option nat) c : Prop :=
  forall ch l t, c.(cf_chans) !! ch = Some l ->
    owner l = Some t <-> exists pt, c.(cf_threads) !! t = Some (ch, pt) /\ holds pt = true.

Record locks_ok c : Prop := {
  lo_writer : lock_ok holds_writer lc_writer c;
  lo_reader : lock_ok holds_reader lc_reader c;
  lo_chan t ch pt : c.(cf_threads) !! t = Some (ch, pt) -> is_Some (c.(cf_chans) !! ch);
}.

(** The point of a lock's owner. *)
Definition owner_point (owner : locked cph -> option nat) (ch : N) c : option (point cph) :=
  match c.(cf_chans) !! ch with
  | None => None
  | Some l =>
      match owner l with
      | None => None
      | Some t => match c.(cf_threads) !! t with Some (_, pt) => Some pt | None => None end
      end
  end.
End invariants.

(** * Lemmas *)

Section lemmas.
Context {X cph : Type} `{Cipher X cph} `{Codec}.
Implicit Types (c : config X cph) (l : locked cph) (e : Pipes X).

(** ** One step *)

Ltac step_cases :=
  repeat match goal with
  | Hs : Some _ = Some _ |- _ => injection Hs as <- <- <-
  | Hs : None = Some _ |- _ => discriminate Hs
  | Hs : context [match ?x with _ => _ end] |- _ =>
      lazymatch x with context [match _ with _ => _ end] => fail | _ => destruct x eqn:? end
  end.

(** A step takes or gives back at most its own locks. *)
Definition owns (holds : point cph -> bool) (owner : locked cph -> option nat) : Prop :=
  forall t pt l e pt' l' e',
    thread_step t pt l e = Some (pt', l', e') ->
    (holds pt = true -> owner l = Some t) ->
    owner l' = (if holds pt' then Some t else if holds pt then None else owner l) /\
    (holds pt = false -> holds pt' = true -> owner l = None).

Lemma writer_owns : owns holds_writer lc_writer.
Proof.
  intros t pt l e pt' l' e' Hs Hw. destruct pt; simpl in Hs, Hw; unfold sized, measured, then_or in Hs;
    step_cases; repeat case_match; simpl in *; simplify_eq; naive_solver.
Qed.

Lemma reader_owns : owns holds_reader lc_reader.
Proof.
  intros t pt l e pt' l' e' Hs Hw. destruct pt; simpl in Hs, Hw; unfold sized, measured, then_or in Hs;
    step_cases; repeat case_match; simpl in *; simplify_eq; naive_solver.
Qed.

(** Nothing but its pause state changes of a channel. *)
Lemma step_chan t pt l e pt' l' e' :
  thread_step t pt l e = Some (pt', l', e') ->
  exists paused closed, l'.(lc_chan) = set_sc_pause paused closed l.(lc_chan).
Proof.
  intros Hs. assert (Hid : l.(lc_chan) = set_sc_pause l.(lc_chan).(sc_paused) l.(lc_chan).(sc_closed) l.(lc_chan))
    by (by destruct (lc_chan l)).
  destruct pt; simpl in Hs; unfold sized, measured, then_or in Hs; step_cases; simpl; eauto.
Qed.

Lemma do_step_inv t c evs c' :
  do_step t c = Some (evs, c') ->
  exists ch pt l pt' l' e',
    c.(cf_threads) !! t = Some (ch, pt) /\ c.(cf_chans) !! ch = Some l /\
    thread_step t pt l c.(cf_env) = Some (pt', l', e') /\ evs = answer_event t pt' /\
    c' = mkConfig (<[ch := l']> c.(cf_chans)) e' (<[t := (ch, pt')]> c.(cf_threads)).
Proof.
  unfold do_step. destruct (cf_threads c !! t) as [[ch pt]|]; [|done].
  destruct (cf_chans c !! ch) as [l|] eqn:Hl; [|done].
  destruct (thread_step t pt l (cf_env c)) as [[[pt' l'] e']|] eqn:Hst; [|done].
  intros [= <- <-]. by exists ch, pt, l, pt', l', e'.
Qed.

Lemma do_enter_inv t ch op c evs c' :
  do_enter t ch op c = Some (evs, c') ->
  c.(cf_threads) !! t = None /\ is_Some (c.(cf_chans) !! ch) /\ evs = [Called t ch op] /\
  c' = mkConfig c.(cf_chans) c.(cf_env) (<[t := (ch, start op)]> c.(cf_threads)).
Proof.
  unfold do_enter. destruct (cf_threads c !! t), (cf_chans c !! ch); try done.
  intros [= <- <-]. by eauto.
Qed.

(** ** Locks *)

Section one_lock.
Context (holds : point cph -> bool) (owner : locked cph -> option nat) (Howns : owns holds owner).
Context (Hstart : forall op, holds (start op) = false).

Lemma enter_lock t ch op c evs c' :
  do_enter t ch op c = Some (evs, c') -> lock_ok holds owner c -> lock_ok holds owner c'.
Proof.
  intros (Hfresh & _ & _ & ->)%do_enter_inv Hok ch' l t' Hl. simpl in *. rewrite (Hok _ _ _ Hl).
  destruct (decide (t' = t)) as [->|Hne]; [|by rewrite lookup_insert_ne].
  rewrite Hfresh, lookup_insert_eq. split; [by intros (? & ? & _)|].
  intros (pt & [= _ <-] & Hh). by rewrite Hstart in Hh.
Qed.

Lemma step_lock t c evs c' :
  do_step t c = Some (evs, c') -> lock_ok holds owner c -> lock_ok holds owner c'.
Proof.
  intros (ch & pt & l & pt' & l' & e' & Ht & Hl & Hs & _ & ->)%do_step_inv Hok ch2 l2 t2 Hl2.
  simpl in *. destruct (Howns _ _ _ _ _ _ _ Hs) as [How Hnew].
  { intros Hh. apply (Hok _ _ t Hl). by exists pt. }
  assert (Hmine : forall t0, owner l = Some t0 -> t0 <> t -> holds pt = false /\ holds pt' = false).
  { intros t0 Ht0 Hne. destruct (holds pt) eqn:Hh.
    - rewrite (proj2 (Hok _ _ t Hl)) in Ht0 by eauto. congruence.
    - split; [done|]. destruct (holds pt') eqn:Hh'; [|done]. rewrite Hnew in Ht0 by done. done. }
  destruct (decide (ch2 = ch)) as [->|Hch].
  - rewrite lookup_insert_eq in Hl2. injection Hl2 as <-. rewrite How.
    destruct (decide (t2 = t)) as [->|Hne].
    + rewrite lookup_insert_eq. split.
      * intros Ho. exists pt'. split; [done|]. destruct (holds pt') eqn:Hh'; [done|].
        destruct (holds pt) eqn:Hh; [done|].
        apply (Hok _ _ _ Hl) in Ho as (pt0 & Hpt0 & Hh0). rewrite Ht in Hpt0. congruence.
      * intros (pt0 & [= <-] & ->). done.
    + rewrite lookup_insert_ne, <-(Hok _ _ _ Hl) by done. split.
      * intros Ho. destruct (holds pt'); [congruence|]. by destruct (holds pt).
      * intros Ho. destruct (Hmine _ Ho Hne) as [-> ->]. done.
  - rewrite lookup_insert_ne in Hl2 by done. rewrite (Hok _ _ _ Hl2).
    destruct (decide (t2 = t)) as [->|Hne]; [|by rewrite lookup_insert_ne].
    rewrite lookup_insert_eq. split; [intros (? & ? & _)|intros (? & ? & _)]; congruence.
Qed.

(** Where the owner of a channel's lock stands after a step of one thread. *)
Lemma step_owner_point t c evs c' ch pt l pt' l' e' ch2 :
  do_step t c = Some (evs, c') -> lock_ok holds owner c ->
  c.(cf_threads) !! t = Some (ch, pt) -> c.(cf_chans) !! ch = Some l ->
  thread_step t pt l c.(cf_env) = Some (pt', l', e') ->
  owner_point owner ch2 c' =
  if decide (ch2 = ch) then
    if holds pt' then Some pt' else if holds pt then None else owner_point owner ch2 c
  else owner_point owner ch2 c.
Proof.
  intros Hd Hok Ht Hl Hs. pose proof (step_lock _ _ _ _ Hd Hok) as Hok'.
  unfold do_step in Hd. rewrite Ht, Hl, Hs in Hd. injection Hd as _ <-. unfold owner_point.
  simpl in *. destruct (Howns _ _ _ _ _ _ _ Hs) as [How _].
  { intros Hh. apply (Hok _ _ t Hl). by exists pt. }
  assert (Hself : forall ch3 l3, cf_chans c !! ch3 = Some l3 -> owner l3 = Some t ->
    ch3 = ch /\ holds pt = true).
  { intros ch3 l3 Hl3 (pt3 & Hpt3 & Hh3)%(Hok _ _ t Hl3). rewrite Ht in Hpt3. by simplify_eq. }
  destruct (decide (ch2 = ch)) as [->|Hch].
  - rewrite lookup_insert_eq, How, Hl. destruct (holds pt') eqn:Hh'; [by rewrite lookup_insert_eq|].
    destruct (holds pt) eqn:Hh; [done|]. destruct (owner l) as [t0|] eqn:Ho; [|done].
    rewrite lookup_insert_ne; [done|]. intros <-. by destruct (Hself _ _ Hl Ho).
  - rewrite lookup_insert_ne by done. destruct (cf_chans c !! ch2) as [l2|] eqn:Hl2; [|done].
    destruct (owner l2) as [t0|] eqn:Ho; [|done].
    rewrite lookup_insert_ne; [done|]. intros <-. by destruct (Hself _ _ Hl2 Ho).
Qed.
End one_lock.

Lemma start_writer (op : call) : holds_writer (cph := cph) (start op) = false.
Proof. by destruct op. Qed.

Lemma start_reader (op : call) : holds_reader (cph := cph) (start op) = false.
Proof. by destruct op. Qed.

Lemma do_one_locks mv c evs c' : do_one mv c = Some (evs, c') -> locks_ok c -> locks_ok c'.
Proof.
  intros Hd [Hw Hr Hc]. destruct mv as [t ch op|t]; simpl in Hd; split.
  - by eapply enter_lock; [apply start_writer|..].
  - by eapply enter_lock; [apply start_reader|..].
  - apply do_enter_inv in Hd as (_ & Hch & _ & ->). intros t2 ch2 pt2. simpl.
    rewrite lookup_insert_Some. intros [[_ [= <- _]]|[_ Ht]]; [done|]. by eapply Hc.
  - by eapply step_lock; [apply writer_owns|..].
  - by eapply step_lock; [apply reader_owns|..].
  - apply do_step_inv in Hd as (ch & pt & l & pt' & l' & e' & Ht & Hl & _ & _ & ->).
    intros t2 ch2 pt2. simpl. rewrite !lookup_insert_is_Some', lookup_insert_Some.
    intros [[_ [= <- _]]|[_ Ht2]]; [by left|]. right. by eapply Hc.
Qed.

(** What a property that every move keeps says of a run. *)
Lemma do_all_keeps (P : config X cph -> Prop) mvs c evs c' :
  (forall mv c evs c', do_one mv c = Some (evs, c') -> P c -> P c') ->
  do_all mvs c = Some (evs, c') -> P c -> P c'.
Proof.
  intros HP. revert c evs. induction mvs as [|mv mvs IH]; intros c evs; simpl.
  - by intros [= _ <-].
  - destruct (do_one mv c) as [[evs1 c1]|] eqn:Hd; [|done].
    destruct (do_all mvs c1) as [[evs2 c2]|] eqn:Hds; [|done]. intros [= _ <-] Hc.
    eapply IH; [done|]. by eapply HP.
Qed.

(** ** Waiting *)

(** Every cipher answers. *)
Definition ciphers_answer : Prop :=
  forall k m (x : X), is_Some (match ci_encode k m x with Ret r => Some r | Fault _ => None end) /\
                      is_Some (match ci_decode k m x with Ret r => Some r | Fault _ => None end).

Definition empty_open (l : locked cph) e : Prop :=
  pipe_state l.(lc_chan).(sc_stream) e = mkPipeState [] false.

(** What a thread at a point waits for on its channel. *)
Definition waits_for (pt : point cph) (l : locked cph) e : Prop :=
  match pt with
  | W_gate _ => l.(lc_chan).(sc_paused) = true
  | W_lock _ => is_Some l.(lc_writer)
  | R_lock => is_Some l.(lc_reader)
  | R_length _ | R_body _ _ => empty_open l e
  | Returned _ => True
  | _ => False
  end.

Lemma pipe_fill_none p need filled e :
  pipe_fill p need filled e = None -> pipe_state p e = mkPipeState [] false.
Proof.
  unfold pipe_fill. destruct (pipe_state p e) as [buf closed]. simpl.
  by destruct buf as [|b buf], closed.
Qed.

Lemma payload_answers (s : StreamChannel PipeArc cph) m e f : ciphers_answer -> payload_of s m e <> Fault f.
Proof.
  intros Hci. unfold payload_of. destruct (sc_cipher s) as [k|]; [|done]. simpl.
  destruct (Hci k m (pp_rest e)) as [[r Hr] _]. by destruct (ci_encode k m (pp_rest e)) as [[??]|].
Qed.

Lemma decode_answers k m (e : Pipes X) f : ciphers_answer -> ci_decode k m e <> Fault f.
Proof.
  intros Hci. simpl. destruct (Hci k m (pp_rest e)) as [_ [r Hr]].
  by destruct (ci_decode k m (pp_rest e)) as [[??]|].
Qed.

Lemma no_step_waits t pt l e :
  ciphers_answer -> thread_step t pt l e = None -> waits_for pt l e.
Proof.
  intros Hci Hs. destruct pt as [m|m|m|m p|m p| |x| |f|n f|x|raw|k raw| | |b|x]; cbn in Hs |- *;
    unfold then_or, pipe_write_all, pipe_close, gets, modify, mbind, M_bind in Hs.
  3: by destruct (payload_of (lc_chan l) m e) as [[??]|f] eqn:Hp; [|by eapply payload_answers in Hp].
  12: by destruct (ci_decode k raw e) as [[??]|f] eqn:Hp;
    [cbn in Hp; rewrite Hp in Hs|by eapply decode_answers in Hp].
  all: repeat (case_match; try done); try done; unfold empty_open; eauto using pipe_fill_none.
Qed.

(** ** Running to the end *)

(** How many steps a point is from its call's return, reads of bytes aside. *)
Definition rank (pt : point cph) : nat :=
  match pt with
  | W_gate _ => 7 | W_lock _ => 6 | W_encode _ => 5 | W_length _ _ => 4 | W_body _ _ => 3
  | W_flush => 2 | W_unlock _ => 1
  | R_lock => 6 | R_length _ => 5 | R_body _ _ => 4 | R_unlock _ => 3 | R_cipher _ => 2
  | R_decode _ _ => 1
  | C_flags => 2 | C_stream => 1 | P_flag _ => 1
  | Returned _ => 0
  end.

Definition ranks (m : gmap nat (N * point cph)) : nat :=
  sum_list_with (fun a => rank a.2.2) (map_to_list m).

Lemma sum_list_with_perm {A} (f : A -> nat) (l k : list A) :
  l ≡ₚ k -> sum_list_with f l = sum_list_with f k.
Proof. induction 1; simpl; lia. Qed.

Lemma ranks_insert t a (m : gmap nat (N * point cph)) :
  ranks (<[t := a]> m) = rank a.2 + ranks (delete t m).
Proof.
  unfold ranks. rewrite <-insert_delete_eq.
  rewrite (sum_list_with_perm _ _ _ (map_to_list_insert _ _ _ (lookup_delete_eq _ _))). done.
Qed.

Lemma ranks_lookup t a (m : gmap nat (N * point cph)) :
  m !! t = Some a -> ranks m = rank a.2 + ranks (delete t m).
Proof. intros Ht. rewrite <-ranks_insert. by rewrite insert_id. Qed.

Definition closed_pipe p e (buf : bytes) : Prop := pipe_state p e = mkPipeState buf true.

Lemma rest_pipe p e x buf : closed_pipe p e buf -> closed_pipe p (mkPipes e.(pp_pipes) x) buf.
Proof. done. Qed.

Lemma pipe_fill_closed p need filled e buf r e' :
  closed_pipe p e buf -> length filled < need -> pipe_fill p need filled e = Some (r, e') ->
  exists buf', closed_pipe p e' buf' /\
    match r with Ok _ => length buf' < length buf | Err _ => length buf' <= length buf end.
Proof.
  intros Hp Hn Hf. pose proof Hp as Hp'. unfold closed_pipe in Hp'. unfold pipe_fill in Hf.
  rewrite Hp' in Hf. simpl in Hf. destruct buf as [|b buf].
  - injection Hf as <- <-. exists []. by split.
  - injection Hf as <- <-. eexists. split; [apply pipe_state_set|]. rewrite length_drop. simpl. lia.
Qed.

(** A step on a closed pipe comes nearer to the end. *)
Lemma closed_step p t pt l e pt' l' e' buf :
  l.(lc_chan).(sc_stream) = p -> closed_pipe p e buf ->
  thread_step t pt l e = Some (pt', l', e') ->
  exists buf', closed_pipe p e' buf' /\ rank pt' + length buf' < rank pt + length buf.
Proof.
  intros Hst Hp Hs.
  assert (Hok : forall pt1, rank pt1 < rank pt -> pt' = pt1 -> e' = e ->
    exists buf', closed_pipe p e' buf' /\ rank pt' + length buf' < rank pt + length buf).
  { intros pt1 Hr -> ->. exists buf. split; [done|]. lia. }
  pose proof Hp as Hp'. unfold closed_pipe in Hp'.
  destruct pt as [m|m|m|m q|m q| |x| |f|n f|x|raw|k raw| | |b|x]; cbn -[Nat.leb] in Hs; rewrite ?Hst in Hs;
    unfold pipe_write_all, pipe_flush, pipe_close, gets, modify, mbind, M_bind in Hs;
    try rewrite Hp' in Hs; cbn -[Nat.leb] in Hs.
  all: try (step_cases; (eapply Hok; [|reflexivity|done]); repeat case_match; simpl; lia).
  - destruct (payload_of (lc_chan l) m e) as [[payload e1]|] eqn:Hpay; [|done]. injection Hs as <- <- <-.
    exists buf. split; [unfold closed_pipe, pipe_state; by rewrite (payload_of_pipes _ _ _ _ _ Hpay)|].
    unfold sized. repeat case_match; simpl; lia.
  - destruct (Nat.leb_spec 4 (length f)) as [Hlen|Hlen].
    + injection Hs as <- <- <-. exists buf. split; [done|]. unfold measured. case_match; simpl; lia.
    + destruct (pipe_fill p 4 f e) as [[r e1]|] eqn:Hf; [|done].
      destruct (pipe_fill_closed _ _ _ _ _ _ _ Hp Hlen Hf) as (buf' & Hb & Hlt).
      exists buf'. destruct r; injection Hs as <- <- <-; (split; [done|]); simpl; lia.
  - destruct (Nat.leb_spec n (length f)) as [Hlen|Hlen].
    + eapply (Hok (R_unlock (Ok f))); [simpl; lia|congruence..].
    + destruct (pipe_fill p n f e) as [[r e1]|] eqn:Hf; [|done].
      destruct (pipe_fill_closed _ _ _ _ _ _ _ Hp Hlen Hf) as (buf' & Hb & Hlt).
      exists buf'. destruct r; injection Hs as <- <- <-; (split; [done|]); simpl; lia.
  - destruct (ci_decode k raw (pp_rest e)) as [[plain x]|]; [|done]. injection Hs as <- <- <-.
    exists buf. split; [done|]. simpl. lia.
  - injection Hs as <- <- <-. exists buf. split; [apply pipe_state_set|]. simpl. lia.
Qed.

(** The channels are over one pipe that is closed, none is paused, and nobody is
    about to pause one. *)
Record released p (c : config X cph) (buf : bytes) : Prop := {
  rl_stream ch l : c.(cf_chans) !! ch = Some l -> l.(lc_chan).(sc_stream) = p;
  rl_unpaused ch l : c.(cf_chans) !! ch = Some l -> l.(lc_chan).(sc_paused) = false;
  rl_closed : closed_pipe p c.(cf_env) buf;
  rl_pausers t ch : c.(cf_threads) !! t <> Some (ch, P_flag true);
}.

Lemma step_unpaused t pt l e pt' l' e' :
  thread_step t pt l e = Some (pt', l', e') -> l.(lc_chan).(sc_paused) = false ->
  pt <> P_flag true -> l'.(lc_chan).(sc_paused) = false /\ pt' <> P_flag true.
Proof.
  intros Hs Hp Hpt. destruct pt; simpl in Hs; unfold then_or in Hs; step_cases; simpl;
    unfold sized, measured; repeat case_match; try done; try (split; congruence).
  destruct paused; [done|]. by split.
Qed.

Lemma released_step p t c evs c' buf :
  released p c buf -> do_step t c = Some (evs, c') ->
  exists buf', released p c' buf' /\
    ranks c'.(cf_threads) + length buf' < ranks c.(cf_threads) + length buf.
Proof.
  intros [Hst Hun Hcl Hpa] (ch & pt & l & pt' & l' & e' & Ht & Hl & Hs & _ & ->)%do_step_inv.
  destruct (closed_step p _ _ _ _ _ _ _ _ (Hst _ _ Hl) Hcl Hs) as (buf' & Hb & Hlt).
  destruct (step_unpaused _ _ _ _ _ _ _ Hs (Hun _ _ Hl)) as [Hp' Hpt'].
  { intros ->. by apply (Hpa t ch). }
  destruct (step_chan _ _ _ _ _ _ _ Hs) as (pa & cl & Hch).
  exists buf'. simpl. split; [split; simpl|].
  - intros ch2 l2 [[_ <-]|[_ Hl2]]%lookup_insert_Some; [|by eapply Hst].
    rewrite Hch. by apply (Hst ch).
  - intros ch2 l2 [[_ <-]|[_ Hl2]]%lookup_insert_Some; [done|by eapply Hun].
  - done.
  - intros t2 ch2 [[_ [= _ ?]]|[_ Ht2]]%lookup_insert_Some; [done|by apply (Hpa t2 ch2)].
  - rewrite ranks_insert, (ranks_lookup t _ _ Ht). simpl. lia.
Qed.

Definition is_step (mv : move) : Prop := match mv with Step _ => True | Enter _ _ _ => False end.

Lemma released_run p mvs c evs c' buf :
  released p c buf -> Forall is_step mvs -> do_all mvs c = Some (evs, c') ->
  exists buf', released p c' buf' /\
    length mvs + ranks c'.(cf_threads) + length buf' <= ranks c.(cf_threads) + length buf.
Proof.
  revert c evs buf. induction mvs as [|mv mvs IH]; intros c evs buf Hr Hmv; simpl.
  - intros [= _ <-]. by exists buf.
  - apply Forall_cons in Hmv as [Hmv Hmvs]. destruct mv as [|t]; [done|]. simpl.
    destruct (do_step t c) as [[evs1 c1]|] eqn:Hd; [|done].
    destruct (do_all mvs c1) as [[evs2 c2]|] eqn:Hds; [|done]. intros [= _ <-].
    destruct (released_step _ _ _ _ _ _ Hr Hd) as (buf1 & Hr1 & Hlt).
    destruct (IH _ _ _ Hr1 Hmvs Hds) as (buf2 & Hr2 & Hle). exists buf2. split; [done|]. lia.
Qed.

Lemma do_step_none t c ch pt l :
  c.(cf_threads) !! t = Some (ch, pt) -> c.(cf_chans) !! ch = Some l ->
  do_step t c = None -> thread_step t pt l c.(cf_env) = None.
Proof.
  intros Ht Hl. unfold do_step. rewrite Ht, Hl.
  by destruct (thread_step t pt l (cf_env c)) as [[[??]?]|].
Qed.
End lemmas.

(** * Properties *)

(** One channel over one pipe, without threads. *)
Definition lone_channel (paused : bool) : locked unit :=
  mkLocked (set_sc_pause paused false (StreamChannel_new "A" "pipe" WifiLan (mkPipeArc 0))) None None.

Definition lone (buf : bytes) (closed : bool) (ops : list call) : config (Z * Z) unit :=
  mkConfig {[0%N := lone_channel false]} (mkPipes {[0%N := mkPipeState buf closed]} (0%Z, 0%Z))
    (list_to_map (zip_with (fun t op => (t, (0%N, start op))) (seq 0 (length ops)) ops)).

Lemma counting_answers : ciphers_answer (X := Z * Z) (cph := unit).
Proof.
  intros k m x. split; [by eexists|]. simpl. destruct m as [|b m]; [by eexists|].
  case_decide; by eexists.
Qed.

(** No thread yet, and no lock taken. *)
Record idle {X cph} (c : config X cph) : Prop := {
  id_threads : c.(cf_threads) = ∅;
  id_locks ch l : c.(cf_chans) !! ch = Some l -> l.(lc_reader) = None /\ l.(lc_writer) = None;
}.

Lemma idle_locks {X cph} (c : config X cph) : idle c -> locks_ok c.
Proof.
  intros [Ht Hl]. split.
  - intros ch l t Hch. destruct (Hl _ _ Hch) as [_ ->]. rewrite Ht. split; [done|by intros (? & ? & _)].
  - intros ch l t Hch. destruct (Hl _ _ Hch) as [-> _]. rewrite Ht. split; [done|by intros (? & ? & _)].
  - intros t ch pt. by rewrite Ht.
Qed.

Lemma lone_idle buf closed : idle (lone buf closed []).
Proof. split; [done|]. intros ch l. cbn. intros [_ <-]%lookup_singleton_Some. by split. Qed.

(** C26. Whatever any number of threads do on channels over pipes, none waits
    without cause: a writer before the gate waits for a paused channel only; a
    call waits for a lock only while another thread holds it, the writer's lock is
    never held by a thread that cannot go on, and the reader's only by one that
    waits for bytes of an open and empty pipe; and between two calls on ciphers
    nothing else waits. *)
Theorem calls_wait_for_cause {X cph} `{Cipher X cph} `{Codec} (c0 c : config X cph)
    (mvs : list (move)) (evs : list event) (t : nat) (ch : N) (pt : point cph) :
  ciphers_answer (X := X) (cph := cph) -> idle c0 -> do_all mvs c0 = Some (evs, c) ->
  c.(cf_threads) !! t = Some (ch, pt) -> do_step t c = None ->
  exists l, c.(cf_chans) !! ch = Some l /\
  match pt with
  | W_gate _ => l.(lc_chan).(sc_paused) = true
  | W_lock _ => exists t' pt', l.(lc_writer) = Some t' /\ c.(cf_threads) !! t' = Some (ch, pt') /\
      holds_writer pt' = true /\ is_Some (do_step t' c)
  | R_lock => exists t' pt', l.(lc_reader) = Some t' /\ c.(cf_threads) !! t' = Some (ch, pt') /\
      holds_reader pt' = true /\ (do_step t' c = None -> empty_open l c.(cf_env))
  | R_length _ | R_body _ _ => empty_open l c.(cf_env)
  | Returned _ => True
  | _ => False
  end.
Proof.
  intros Hci Hid Hrun Ht Hstep.
  assert (Hlo : locks_ok c).
  { eapply (do_all_keeps locks_ok); [|done|by apply idle_locks]. intros. by eapply do_one_locks. }
  destruct (lo_chan _ Hlo _ _ _ Ht) as [l Hl]. exists l. split; [done|].
  pose proof (no_step_waits t pt l _ Hci (do_step_none _ _ _ _ _ Ht Hl Hstep)) as Hw.
  destruct pt; try exact Hw; simpl in Hw; destruct Hw as [t' Ho].
  - destruct (proj1 (lo_writer _ Hlo _ _ _ Hl) Ho) as (pt' & Ht' & Hh). exists t', pt'.
    split_and!; [done..|]. destruct (do_step t' c) as [r|] eqn:Hs; [by eexists|exfalso].
    pose proof (no_step_waits t' pt' l _ Hci (do_step_none _ _ _ _ _ Ht' Hl Hs)) as Hw'.
    by destruct pt'.
  - destruct (proj1 (lo_reader _ Hlo _ _ _ Hl) Ho) as (pt' & Ht' & Hh). exists t', pt'.
    split_and!; [done..|]. intros Hs.
    pose proof (no_step_waits t' pt' l _ Hci (do_step_none _ _ _ _ _ Ht' Hl Hs)) as Hw'.
    by destruct pt'.
Qed.

(** A writer that waits for another one. *)
Definition two_writers : list move :=
  [Enter 0 0 (Write (str_bytes "a")); Enter 1 0 (Write (str_bytes "b"));
   Step 0; Step 1; Step 1; Step 1; Step 1].

Lemma calls_wait_for_cause_witness :
  exists c, do_all two_writers (lone [] false []) =
    Some ([Called 0 0 (Write (str_bytes "a")); Called 1 0 (Write (str_bytes "b"))], c) /\
    exists l, c.(cf_chans) !! 0%N = Some l /\
      exists t' pt', l.(lc_writer) = Some t' /\ c.(cf_threads) !! t' = Some (0%N, pt') /\
        holds_writer pt' = true /\ is_Some (do_step t' c).
Proof.
  destruct (do_all two_writers (lone [] false [])) as [[evs c]|] eqn:Hrun; [|discriminate Hrun].
  pose proof Hrun as Hrun'. vm_compute in Hrun'. injection Hrun' as <- Hc.
  exists c. split; [reflexivity|].
  apply (calls_wait_for_cause (lone [] false []) c two_writers _ 0 0%N (W_lock (str_bytes "a"))
    counting_answers (lone_idle _ _) Hrun); rewrite <-Hc; reflexivity.
Defined.

(** C27. Once a stream is closed and its channels are not paused, and nobody is
    about to pause them, every call on them comes to its end: threads take no
    more steps than their number and what is left in the pipe allow, whatever
    their order, and as long as a call has not returned some thread can go on. *)
Theorem close_releases_everyone {X cph} `{Cipher X cph} `{Codec} (p : PipeArc) (buf : bytes)
    (c0 c c' : config X cph) (mvs0 mvs : list move) (evs0 evs : list event) :
  ciphers_answer (X := X) (cph := cph) -> idle c0 -> do_all mvs0 c0 = Some (evs0, c) ->
  released p c buf -> Forall is_step mvs -> do_all mvs c = Some (evs, c') ->
  length mvs <= ranks c.(cf_threads) + length buf /\
  ((forall t, do_step t c' = None) ->
   forall t ch pt, c'.(cf_threads) !! t = Some (ch, pt) -> returned pt = true).
Proof.
  intros Hci Hid Hrun0 Hrel Hmv Hrun.
  destruct (released_run p mvs c evs c' buf Hrel Hmv Hrun) as (buf' & [Hst Hun Hcl _] & Hle).
  split; [lia|]. intros Hend t ch pt Ht.
  assert (Hlo : locks_ok c').
  { eapply (do_all_keeps locks_ok); [intros; by eapply do_one_locks|exact Hrun|].
    eapply (do_all_keeps locks_ok); [intros; by eapply do_one_locks|exact Hrun0|by apply idle_locks]. }
  assert (Hwaits : forall t ch pt, cf_threads c' !! t = Some (ch, pt) ->
    exists l, cf_chans c' !! ch = Some l /\ waits_for pt l c'.(cf_env)).
  { intros t1 ch1 pt1 Ht1. destruct (lo_chan _ Hlo _ _ _ Ht1) as [l Hl]. exists l. split; [done|].
    apply (no_step_waits t1); [done|]. by eapply do_step_none. }
  assert (Hno : forall l : locked cph, empty_open l c'.(cf_env) -> sc_stream (lc_chan l) = p -> False).
  { unfold empty_open, closed_pipe in *. intros l Hemp Hp. rewrite Hp, Hcl in Hemp. done. }
  destruct (Hwaits _ _ _ Ht) as (l & Hl & Hw).
  destruct pt; try done; simpl in Hw; try (by destruct (Hno l Hw (Hst _ _ Hl))).
  - by rewrite (Hun _ _ Hl) in Hw.
  - destruct Hw as [t' Ho]. destruct (proj1 (lo_writer _ Hlo _ _ _ Hl) Ho) as (pt' & Ht' & Hh).
    destruct (Hwaits _ _ _ Ht') as (l' & Hl' & Hw'). by destruct pt'.
  - destruct Hw as [t' Ho]. destruct (proj1 (lo_reader _ Hlo _ _ _ Hl) Ho) as (pt' & Ht' & Hh).
    destruct (Hwaits _ _ _ Ht') as (l' & Hl' & Hw').
    destruct pt'; try done; by destruct (Hno l' Hw' (Hst _ _ Hl')).
Qed.

(** A reader that waits for bytes, and one that waits for the first, when the
    channel is closed. *)
Definition closing : list move :=
  [Enter 0 0 Read; Step 0; Enter 1 0 Read; Enter 2 0 Close; Step 2; Step 2].

Lemma close_releases_everyone_witness :
  exists c, do_all closing (lone [] false []) = Some ([Called 0 0 Read; Called 1 0 Read; Called 2 0 Close; Answered 2 R_unit], c) /\
    exists evs c', do_all [Step 0; Step 0; Step 1; Step 1; Step 1] c = Some (evs, c') /\
      5 <= ranks c.(cf_threads) + 0 /\
      evs = [Answered 0 (R_result (Err NoData)); Answered 1 (R_result (Err NoData))].
Proof.
  destruct (do_all closing (lone [] false [])) as [[evs0 c]|] eqn:Hrun; [|discriminate Hrun].
  pose proof Hrun as Hrun'. vm_compute in Hrun'. injection Hrun' as <- Hc.
  exists c. split; [reflexivity|].
  destruct (do_all [Step 0; Step 0; Step 1; Step 1; Step 1] c) as [[evs c']|] eqn:Hrun2.
  2: { rewrite <-Hc in Hrun2. discriminate Hrun2. }
  exists evs, c'. split; [reflexivity|]. split.
  - apply (close_releases_everyone (mkPipeArc 0) [] (lone [] false []) c c' closing
      [Step 0; Step 0; Step 1; Step 1; Step 1] _ evs
      counting_answers (lone_idle _ _) Hrun).
    + assert (Hchans : map_Forall (fun _ l => sc_stream (lc_chan l) = mkPipeArc 0 /\
        sc_paused (lc_chan l) = false) c.(cf_chans)).
      { rewrite <-Hc. apply map_Forall_to_list. vm_compute. by repeat constructor. }
      assert (Hthreads : map_Forall (fun _ a => a.2 <> P_flag true) c.(cf_threads)).
      { rewrite <-Hc. apply map_Forall_to_list. vm_compute. by repeat constructor. }
      split.
      * intros ch l Hl. apply (Hchans ch l Hl).
      * intros ch l Hl. apply (Hchans ch l Hl).
      * rewrite <-Hc. reflexivity.
      * intros t ch Ht. by apply (Hthreads t _ Ht).
    + repeat constructor.
    + exact Hrun2.
  - rewrite <-Hc in Hrun2. vm_compute in Hrun2. by injection Hrun2 as <- _.
Defined.
