(* ===== verification/WholeCalls.v ===== *)
(** [src/bwu/stream_channel.rs]: the steps of one call alone are the whole call
    that [StreamChannel] describes. *)

From Stdlib Require Import ZArith Lia.
From Stdlib Require Import Strings.Byte.
From S2P Require Import Prelude.
From S2P Require Import Mediums.
From S2P Require Import Proto.
From S2P Require Import Codec.
From S2P Require Import Frames.
From S2P Require Import FromBytes.
From S2P Require Import RoundTrip.
From S2P Require Import Channel.
From S2P Require Import StreamChannel.
From S2P Require Import StreamErrors.
From S2P Require Import Interleaving.

(** * Definitions *)

(** A call as [StreamChannel] describes it, when nothing else runs. *)
Definition whole_call {X cph} `{Cipher X cph} `{Codec} (op : call)
    : M (StreamChannel PipeArc cph * Pipes X) reply :=
  match op with
  | Write data => r ← sc_write data; mret (R_exception r)
  | Read => r ← sc_read; mret (R_result r)
  | Close => sc_close;; mret R_unit
  | SetPaused true => sc_pause;; mret R_unit
  | SetPaused false => sc_resume;; mret R_unit
  end.

(** * Lemmas *)

Section alone.
Context {X cph : Type} `{Cipher X cph} `{Codec}.
Implicit Types (c : config X cph) (l : locked cph) (e : Pipes X).

(** Some steps of one thread. *)
Inductive thread_steps (t : nat) :
    point cph * locked cph * Pipes X -> point cph * locked cph * Pipes X -> Prop :=
| steps_done a : thread_steps t a a
| steps_more pt l e a b :
    thread_step t pt l e = Some a -> thread_steps t a b -> thread_steps t (pt, l, e) b.

Lemma thread_steps_trans t a b d :
  thread_steps t a b -> thread_steps t b d -> thread_steps t a d.
Proof. induction 1; [done|]. intros ?. econstructor; eauto. Qed.

(** The bytes at the front, taken at once. *)
Lemma fill_exact p n e bs e' :
  0 < n -> ds_read_exact p n e = Ret (Ok bs, e') ->
  pipe_fill p n [] e = Some (Ok bs, e') /\ length bs = n.
Proof.
  intros Hn. cbn. unfold pipe_read_exact, pipe_fill, gets, modify, mbind, M_bind.
  destruct (pipe_state p e) as [buf closed]. cbn [ps_buf ps_closed].
  destruct (Nat.leb_spec n (length buf)) as [Hle|Hgt]; [|by destruct closed].
  intros [= <- <-]. rewrite length_take. split; [|lia].
  destruct buf; [simpl in Hle; lia|]. by rewrite Nat.sub_0_r.
Qed.

Lemma read_exact_err p n (e : Pipes X) err e' :
  ds_read_exact p n e = Ret (Err err, e') -> err = NoData.
Proof.
  cbn. unfold pipe_read_exact, gets, modify, mbind, M_bind. cbn.
  destruct (_ <=? _)%nat; [done|]. destruct (ps_closed _); [|done]. by intros [= <- _].
Qed.

Lemma read_exact_none p n (e : Pipes X) bs e' :
  ds_read_exact p n e = Ret (Ok bs, e') -> ds_read_exact p 0 e' = Ret (Ok [], e').
Proof.
  cbn. unfold pipe_read_exact, gets, modify, mbind, M_bind. cbn.
  destruct (_ <=? _)%nat; [|by destruct (ps_closed _)].
  intros [= _ <-]. rewrite pipe_state_set. cbn. by rewrite set_pipe_set.
Qed.

(** A pipe that runs out. *)
Lemma fill_short p n pt l e r (t : nat) :
  l.(lc_chan).(sc_stream) = p ->
  (pt = R_length /\ n = 4 \/ pt = R_body n) ->
  ds_read_exact p n e = r -> (forall bs e', r <> Ret (Ok bs, e')) ->
  exists f e', thread_steps t (pt [], l, e) (pt f, l, e') /\
    match r with
    | Ret (_, e2) => thread_step t (pt f) l e' = Some (R_unlock (Err NoData), l, e2)
    | Fault _ => thread_step t (pt f) l e' = None
    end.
Proof.
  intros Hst Hpt <-. cbn. unfold pipe_read_exact, gets, modify, mbind, M_bind.
  destruct (pipe_state p e) as [buf closed] eqn:Hs. cbn [ps_buf ps_closed].
  destruct (Nat.leb_spec n (length buf)) as [Hle|Hgt]; [intros Hno; by edestruct Hno|]. intros _.
  assert (Hstep : forall f e1, length f < n -> thread_step t (pt f) l e1 =
    match pipe_fill p n f e1 with
    | Some (Ok filled, e') => Some (pt filled, l, e')
    | Some (Err err, e') => Some (R_unlock (Err err), l, e')
    | None => None
    end).
  { intros f e1 Hf. destruct Hpt as [[-> ->]| ->]; cbn -[Nat.leb]; rewrite Hst;
      by rewrite (proj2 (Nat.leb_gt _ _)). }
  destruct buf as [|b buf].
  - exists [], e. split; [constructor|]. assert (Hself : closed = true -> set_pipe p (mkPipeState [] true) e = e).
    { intros ->. unfold pipe_state in Hs. destruct e as [m x]. unfold set_pipe. simpl in *. f_equal.
      apply insert_id. by destruct (m !! pipe_id p) as [s|]; simpl in Hs; [rewrite Hs|]. }
    destruct closed; cbn; rewrite (Hstep _ _ Hgt); unfold pipe_fill; rewrite Hs; cbn; [|done].
    by rewrite Hself.
  - set (e1 := set_pipe p (mkPipeState [] closed) e).
    exists (b :: buf), e1. split.
    + eapply steps_more; [|constructor]. rewrite Hstep by (simpl in *; lia).
      unfold pipe_fill. rewrite Hs. cbn [ps_buf ps_closed]. rewrite Nat.sub_0_r, take_ge, drop_ge by lia.
      done.
    + destruct closed; cbn -[Nat.leb]; rewrite (Hstep _ _ Hgt); unfold pipe_fill, e1; rewrite pipe_state_set; cbn;
        by rewrite ?set_pipe_set.
Qed.

Definition unlocked (s : StreamChannel PipeArc cph) : locked cph := mkLocked s None None.

Lemma write_alone t s m e r s' e' :
  sc_write m (s, e) = Ret (r, (s', e')) ->
  s' = s /\ thread_steps t (W_gate m, unlocked s, e) (Returned (R_exception r), unlocked s, e').
Proof.
  rewrite sc_write_of_payload. destruct (sc_paused s) eqn:Hp; [done|].
  set (lw := mkLocked s None (Some t)).
  assert (Hunlock : forall x e1, thread_steps t (W_unlock x, lw, e1) (Returned (R_exception x), unlocked s, e1)).
  { intros. eapply steps_more; [done|]. constructor. }
  assert (Hencode : forall b, thread_steps t (W_encode m, lw, e) b -> thread_steps t (W_gate m, unlocked s, e) b).
  { intros b Hb. eapply steps_more; [cbn; by rewrite Hp|]. by eapply steps_more. }
  destruct (payload_of s m e) as [[[p|] e1]|f] eqn:Hpay; [| |done].
  - intros Hw. assert (Hsized : forall b, thread_steps t (sized s m (Some p), lw, e1) b ->
      thread_steps t (W_gate m, unlocked s, e) b).
    { intros b Hb. apply Hencode. eapply steps_more; [cbn; by rewrite Hpay|done]. }
    destruct (pipe_state (sc_stream s) e1) as [buf closed] eqn:Hs.
    unfold sized in Hsized.
    destruct (Z.ltb_spec (sc_max_allowed_read_bytes s) (Z.of_nat (length p))) as [Hlt|Hge].
    { rewrite (write_payload_io _ _ _ _ _ Hs (or_introl Hlt)) in Hw. injection Hw as <- <- <-.
      split; [done|]. by apply Hsized. }
    destruct closed.
    + rewrite (write_payload_io _ _ _ _ _ Hs (or_intror eq_refl)) in Hw. injection Hw as <- <- <-.
      split; [done|]. apply Hsized. eapply steps_more; [|apply Hunlock].
      cbn. unfold pipe_write_all, gets, modify, mbind, M_bind. by rewrite Hs.
    + rewrite (write_payload_framed _ _ _ _ Hge Hs) in Hw. injection Hw as <- <- <-.
      split; [done|]. apply Hsized.
      eapply steps_more. { cbn. unfold pipe_write_all, gets, modify, mbind, M_bind. by rewrite Hs. }
      eapply steps_more.
      { cbn. unfold pipe_write_all, gets, modify, mbind, M_bind. rewrite pipe_state_set. done. }
      rewrite set_pipe_set. unfold framed. rewrite app_assoc. eapply steps_more; [done|]. apply Hunlock.
  - intros [= <- <- <-]. split; [done|]. apply Hencode. eapply steps_more; [cbn; by rewrite Hpay|].
    apply Hunlock.
Qed.

Definition reading (t : nat) (s : StreamChannel PipeArc cph) : locked cph := mkLocked s (Some t) None.

(** The raw frame, read under the lock. *)
Lemma read_raw_alone t s e r s' e' :
  read_raw (s, e) = Ret (r, (s', e')) ->
  s' = s /\ thread_steps t (R_lock, unlocked s, e) (R_unlock r, reading t s, e').
Proof.
  unfold read_raw, field, under, gets, mbind, M_bind, mret, M_ret. cbn [fst snd].
  assert (Hlock : forall b, thread_steps t (R_length [], reading t s, e) b ->
    thread_steps t (R_lock, unlocked s, e) b) by (intros b Hb; by eapply steps_more).
  destruct (ds_read_exact (sc_stream s) 4 e) as [[[bs|err] e1]|f] eqn:H4; [| |done]; cbn [fst snd].
  - destruct (fill_exact _ _ _ _ _ (Nat.lt_0_succ 3) H4) as [Hf Hlen].
    assert (Hmeas : forall b, thread_steps t (measured s bs, reading t s, e1) b ->
      thread_steps t (R_lock, unlocked s, e) b).
    { intros b Hb. apply Hlock. eapply steps_more; [cbn; by rewrite Hf|].
      eapply steps_more; [|done]. cbn -[Nat.leb]. by rewrite (proj2 (Nat.leb_le _ _)) by lia. }
    unfold measured in Hmeas.
    destruct (_ || _); [intros [= <- <- <-]; split; [done|]; apply Hmeas; constructor|].
    set (n := Z.to_nat (i32_from_be_bytes bs)) in *. cbn [fst snd].
    destruct (ds_read_exact (sc_stream s) n e1) as [[r2 e2]|f] eqn:Hn; [|done].
    cbn [fst snd]. intros [= <- <- <-]. split; [done|]. apply Hmeas.
    destruct r2 as [body|err].
    + destruct (decide (n = 0)) as [Hz|Hz].
      * rewrite Hz in Hn |- *. rewrite (read_exact_none _ _ _ _ _ H4) in Hn. injection Hn as <- <-.
        eapply steps_more; [done|]. constructor.
      * assert (Hpos : 0 < n) by lia. destruct (fill_exact _ _ _ _ _ Hpos Hn) as [Hfb Hlb].
        eapply steps_more. { cbn -[Nat.leb]. rewrite (proj2 (Nat.leb_gt _ _)) by (simpl; lia). by rewrite Hfb. }
        eapply steps_more; [|constructor]. cbn -[Nat.leb]. by rewrite (proj2 (Nat.leb_le _ _)) by lia.
    + destruct (fill_short (sc_stream s) n (R_body n) (reading t s) e1 _ t eq_refl (or_intror eq_refl)
        Hn ltac:(done)) as (f & e3 & Hst & Hlast).
      eapply thread_steps_trans; [done|]. eapply steps_more; [done|].
      rewrite (read_exact_err _ _ _ _ _ Hn). constructor.
  - intros [= <- <- <-]. split; [done|]. apply Hlock.
    destruct (fill_short (sc_stream s) 4 R_length (reading t s) e _ t eq_refl
      (or_introl (conj eq_refl eq_refl)) H4 ltac:(done)) as (f & e3 & Hst & Hlast).
    eapply thread_steps_trans; [done|]. eapply steps_more; [done|].
    rewrite (read_exact_err _ _ _ _ _ H4). constructor.
Qed.

Lemma read_alone t s e r s' e' :
  sc_read (s, e) = Ret (r, (s', e')) ->
  s' = s /\ thread_steps t (R_lock, unlocked s, e) (Returned (R_result r), unlocked s, e').
Proof.
  destruct (read_raw (s, e)) as [[[raw|err] [s1 e1]]|f] eqn:Hr.
  - destruct (read_raw_alone t _ _ _ _ _ Hr) as [-> Hst]. rewrite (sc_read_of_raw _ _ _ _ Hr).
    intros Hd. enough (s' = s /\ thread_steps t (R_cipher raw, unlocked s, e1)
      (Returned (R_result r), unlocked s, e')) as [-> Hc].
    { split; [done|]. eapply thread_steps_trans; [exact Hst|]. by eapply steps_more. }
    destruct (sc_cipher s) as [k|] eqn:Hk.
    + destruct (ci_decode k raw e1) as [[plain e2]|f] eqn:Hdec; [|done]. injection Hd as <- <- <-.
      split; [done|]. eapply steps_more; [cbn; by rewrite Hk|].
      eapply steps_more; [|constructor]. unfold thread_step. by rewrite Hdec.
    + injection Hd as <- <- <-. split; [done|]. eapply steps_more; [cbn; by rewrite Hk|]. constructor.
  - destruct (read_raw_alone t _ _ _ _ _ Hr) as [-> Hst]. rewrite (sc_read_of_err _ _ _ _ Hr).
    intros [= <- <- <-]. split; [done|]. eapply thread_steps_trans; [exact Hst|].
    by eapply steps_more; [|constructor].
  - by rewrite (sc_read_of_fault _ _ _ Hr).
Qed.

(** A read that waits, alone. *)
Lemma read_raw_waits t s e f :
  read_raw (s, e) = Fault f ->
  exists pt e', thread_steps t (R_lock, unlocked s, e) (pt, reading t s, e') /\
    returned pt = false /\ thread_step t pt (reading t s) e' = None.
Proof.
  unfold read_raw, field, under, gets, mbind, M_bind, mret, M_ret. cbn [fst snd].
  destruct (ds_read_exact (sc_stream s) 4 e) as [[[bs|err] e1]|f1] eqn:H4; [|done|]; cbn [fst snd].
  - destruct (fill_exact _ _ _ _ _ (Nat.lt_0_succ 3) H4) as [Hf Hlen].
    destruct (_ || _) eqn:Hbad; [done|]. cbn [fst snd].
    set (n := Z.to_nat (i32_from_be_bytes bs)) in *.
    destruct (ds_read_exact (sc_stream s) n e1) as [[??]|f2] eqn:Hn; [done|]. intros _.
    destruct (fill_short (sc_stream s) n (R_body n) (reading t s) e1 _ t eq_refl (or_intror eq_refl)
        Hn ltac:(done)) as (g & e3 & Hst & Hlast).
    exists (R_body n g), e3. split; [|done]. do 2 (eapply steps_more; [cbn; by rewrite ?Hf|]).
    eapply steps_more; [|exact Hst]. cbn -[Nat.leb]. rewrite (proj2 (Nat.leb_le _ _)) by lia.
    unfold measured. cbn [lc_chan reading]. by rewrite Hbad.
  - intros _. destruct (fill_short (sc_stream s) 4 R_length (reading t s) e _ t eq_refl
      (or_introl (conj eq_refl eq_refl)) H4 ltac:(done)) as (g & e3 & Hst & Hlast).
    exists (R_length g), e3. split; [|done]. by eapply steps_more.
Qed.

(** The steps of a thread are moves of the machine. *)
Lemma thread_steps_run t ch a b c :
  thread_steps t a b -> c.(cf_threads) !! t = Some (ch, a.1.1) -> c.(cf_chans) !! ch = Some a.1.2 ->
  c.(cf_env) = a.2 -> returned a.1.1 = false ->
  exists n, do_all (replicate n (Step t)) c =
    Some (answer_event t b.1.1,
          mkConfig (<[ch := b.1.2]> c.(cf_chans)) b.2 (<[t := (ch, b.1.1)]> c.(cf_threads))).
Proof.
  intros Hs. revert c. induction Hs as [[[pt l] e]|pt l e [[pt1 l1] e1] b Hone Hs IH]; intros c Ht Hl He Hn.
  - exists 0. simpl in *. subst e. rewrite !insert_id by done. destruct pt; try done; by destruct c.
  - simpl in *. subst e.
    assert (Hd : do_step t c = Some (answer_event t pt1,
      mkConfig (<[ch := l1]> c.(cf_chans)) e1 (<[t := (ch, pt1)]> c.(cf_threads))))
      by (unfold do_step; by rewrite Ht, Hl, Hone).
    destruct (returned pt1) eqn:Hr.
    + destruct pt1; try done. inversion Hs; simplify_eq.
      exists 1. simpl. by rewrite Hd, app_nil_r.
    + destruct (IH (mkConfig (<[ch := l1]> c.(cf_chans)) e1 (<[t := (ch, pt1)]> c.(cf_threads))))
        as (n & Hrun); simpl; [by rewrite lookup_insert_eq|by rewrite lookup_insert_eq|done|done|].
      exists (S n). simpl. rewrite Hd, Hrun. cbn. rewrite !insert_insert_eq.
      assert (answer_event t pt1 = []) as -> by by destruct pt1. done.
Qed.
End alone.

(** * Properties *)

(** C28. A call that nothing interrupts does in its steps exactly what the
    description of the whole call says: the steps of its thread alone lead to the
    same answer, the same state of the channel, of the pipe and of the cipher, and
    give both locks back; and when the whole call waits, its thread comes to a
    point where it has no step. *)
Theorem calls_alone {X cph} `{Cipher X cph} `{Codec} (c : config X cph) (t : nat) (ch : N)
    (op : call) (s : StreamChannel PipeArc cph) :
  ciphers_answer (X := X) (cph := cph) ->
  c.(cf_threads) !! t = Some (ch, start op) -> c.(cf_chans) !! ch = Some (mkLocked s None None) ->
  match whole_call op (s, c.(cf_env)) with
  | Ret (r, (s', e')) =>
      exists n, do_all (replicate n (Step t)) c =
        Some ([Answered t r],
              mkConfig (<[ch := mkLocked s' None None]> c.(cf_chans)) e'
                (<[t := (ch, Returned r)]> c.(cf_threads)))
  | Fault _ =>
      exists n evs c' pt, do_all (replicate n (Step t)) c = Some (evs, c') /\
        c'.(cf_threads) !! t = Some (ch, pt) /\ returned pt = false /\ do_step t c' = None
  end.
Proof.
  intros Hci Ht Hl.
  assert (Hend : forall r s' e',
    thread_steps t (start op, mkLocked s None None, c.(cf_env)) (Returned r, mkLocked s' None None, e') ->
    exists n, do_all (replicate n (Step t)) c =
        Some ([Answered t r], mkConfig (<[ch := mkLocked s' None None]> c.(cf_chans)) e'
                (<[t := (ch, Returned r)]> c.(cf_threads)))).
  { intros r s' e' Hs. eapply (thread_steps_run t ch) in Hs; [done|done..|by destruct op]. }
  destruct op as [m| | |b]; simpl.
  - unfold mbind, M_bind, mret, M_ret.
    destruct (sc_write m (s, cf_env c)) as [[r [s' e']]|f] eqn:Hw.
    + destruct (write_alone t _ _ _ _ _ _ Hw) as [-> Hs]. by apply Hend.
    + exists 0, [], c, (W_gate m). split_and!; [done..|]. unfold do_step. rewrite Ht, Hl. cbn.
      rewrite sc_write_of_payload in Hw. destruct (sc_paused s); [done|].
      destruct (payload_of s m (cf_env c)) as [[[p|] e1]|f1] eqn:Hp;
        [|done|by eapply payload_answers in Hp].
      destruct (pipe_state (sc_stream s) e1) as [buf closed] eqn:Hs.
      destruct (decide (sc_max_allowed_read_bytes s < Z.of_nat (length p) \/ closed = true)%Z) as [Hd|Hd].
      * by rewrite (write_payload_io _ _ _ _ _ Hs Hd) in Hw.
      * destruct closed; [naive_solver|]. rewrite (write_payload_framed _ _ _ buf) in Hw; [done|lia|done].
  - unfold mbind, M_bind, mret, M_ret.
    destruct (sc_read (s, cf_env c)) as [[r [s' e']]|f] eqn:Hr.
    + destruct (read_alone t _ _ _ _ _ Hr) as [-> Hs]. by apply Hend.
    + destruct (read_raw (s, cf_env c)) as [[[raw|err] [s1 e1]]|f1] eqn:Hraw.
      * destruct (read_raw_alone t _ _ _ _ _ Hraw) as [-> _].
        rewrite (sc_read_of_raw _ _ _ _ Hraw) in Hr. destruct (sc_cipher s) as [k|]; [|done].
        destruct (ci_decode k raw e1) as [[??]|f1] eqn:Hd; [done|]. by eapply decode_answers in Hd.
      * destruct (read_raw_alone t _ _ _ _ _ Hraw) as [-> _]. by rewrite (sc_read_of_err _ _ _ _ Hraw) in Hr.
      * destruct (read_raw_waits t _ _ _ Hraw) as (pt & e' & Hs & Hn & Hnone).
        destruct (thread_steps_run t ch _ _ c Hs Ht Hl eq_refl eq_refl) as (n & Hrun).
        eexists n, _, _, pt. split; [exact Hrun|]. cbn. rewrite lookup_insert_eq. split_and!; [done..|].
        unfold do_step. cbn. by rewrite !lookup_insert_eq, Hnone.
  - unfold sc_close, do_close, field, gets, update, modify, under, mbind, M_bind, mret, M_ret. cbn.
    destruct (sc_closed s) eqn:Hc; cbn; apply Hend.
    + eapply steps_more; [cbn; by rewrite Hc|]. constructor.
    + eapply steps_more; [cbn; by rewrite Hc|]. eapply steps_more; [done|]. constructor.
  - destruct b; cbn; apply Hend; (eapply steps_more; [done|]; constructor).
Qed.

Lemma calls_alone_witness :
  exists n c', do_all (replicate n (Step 0)) (lone [] false [Write (str_bytes "one")]) =
    Some ([Answered 0 (R_exception Success)], c').
Proof.
  pose proof (calls_alone (lone [] false [Write (str_bytes "one")]) 0 0 (Write (str_bytes "one"))
    (lc_chan (lone_channel false)) counting_answers eq_refl eq_refl) as Hc.
  destruct (whole_call (Write (str_bytes "one"))
    (lc_chan (lone_channel false), cf_env (lone [] false [Write (str_bytes "one")])))
    as [[r [s' e']]|f] eqn:Hw; [|discriminate Hw].
  destruct Hc as [n Hn]. exists n. eexists. rewrite Hn. repeat f_equal.
  apply (f_equal (fun o => match o with Ret (r, _) => Some r | Fault _ => None end)) in Hw.
  vm_compute in Hw. by injection Hw as <-.
Defined.
