(* ===== verification/Linearize.v ===== *)
(** [src/bwu/stream_channel.rs], several threads: what concurrent writes, reads
    and closes of the channels over one pipe mean.

    With one writing and one reading channel, frames that are not empty, and reads
    through a cipher that do not overlap, the machine of [Interleaving] implements an
    atomic one, whose state is a
    queue of messages, a closed flag, and the pause states: a write appends its
    message at one moment between its call and its return, a read takes one at
    one moment, and everything that is seen from outside is the same. *)

From Stdlib Require Import ZArith Lia.
From Stdlib Require Import Strings.Byte.
From S2P Require Import Prelude.
From S2P Require Import Mediums.
From S2P Require Import Proto.
From S2P Require Import Codec.
From S2P Require Import Frames.
From S2P Require Import FromBytes.
From S2P Require Import RoundTrip.
From S2P Require Import Channel.
From S2P Require Import StreamChannel.
From S2P Require Import StreamErrors.
From S2P Require Import Interleaving.

(** * The atomic machine *)

(** Where a call stands. *)
Inductive stage : Type :=
| A_wait (data : bytes)
| A_send (data : bytes)
| A_receive
| A_close
| A_close_stream
| A_pause (paused : bool)
| A_done (r : reply)
| A_returned (r : reply).

Definition a_start (op : call) : stage :=
  match op with
  | Write data => A_wait data
  | Read => A_receive
  | Close => A_close
  | SetPaused b => A_pause b
  end.

(** The messages that were written and not read, the flags of the pipe and of
    each channel (paused, closed), and the calls. *)
Record abstract : Type := mkAbstract {
  ab_queue : list bytes;
  ab_closed : bool;
  ab_flags : gmap N (bool * bool);
  ab_calls : gmap nat (N * stage);
}.

Definition set_stage (t : nat) (ch : N) (st : stage) (s : abstract) : abstract :=
  mkAbstract s.(ab_queue) s.(ab_closed) s.(ab_flags) (<[t := (ch, st)]> s.(ab_calls)).
Definition set_queue (q : list bytes) (s : abstract) : abstract :=
  mkAbstract q s.(ab_closed) s.(ab_flags) s.(ab_calls).
Definition set_flags (ch : N) (f : bool * bool) (s : abstract) : abstract :=
  mkAbstract s.(ab_queue) s.(ab_closed) (<[ch := f]> s.(ab_flags)) s.(ab_calls).
Definition set_closed (s : abstract) : abstract :=
  mkAbstract s.(ab_queue) true s.(ab_flags) s.(ab_calls).

Inductive a_step (s : abstract) : list event -> abstract -> Prop :=
| a_call t ch op :
    s.(ab_calls) !! t = None ->
    a_step s [Called t ch op] (set_stage t ch (a_start op) s)
| a_gate t ch m cl :
    s.(ab_calls) !! t = Some (ch, A_wait m) -> s.(ab_flags) !! ch = Some (false, cl) ->
    a_step s [] (set_stage t ch (A_send m) s)
| a_send t ch m :
    s.(ab_calls) !! t = Some (ch, A_send m) -> s.(ab_closed) = false ->
    a_step s [] (set_stage t ch (A_done (R_exception Success)) (set_queue (s.(ab_queue) ++ [m]) s))
| a_refuse t ch m :
    s.(ab_calls) !! t = Some (ch, A_send m) -> s.(ab_closed) = true ->
    a_step s [] (set_stage t ch (A_done (R_exception Io)) s)
| a_receive t ch m q :
    s.(ab_calls) !! t = Some (ch, A_receive) -> s.(ab_queue) = m :: q ->
    a_step s [] (set_stage t ch (A_done (R_result (Ok m))) (set_queue q s))
| a_end t ch :
    s.(ab_calls) !! t = Some (ch, A_receive) -> s.(ab_queue) = [] -> s.(ab_closed) = true ->
    a_step s [] (set_stage t ch (A_done (R_result (Err NoData))) s)
| a_close_again t ch p :
    s.(ab_calls) !! t = Some (ch, A_close) -> s.(ab_flags) !! ch = Some (p, true) ->
    a_step s [] (set_stage t ch (A_done R_unit) s)
| a_close t ch p :
    s.(ab_calls) !! t = Some (ch, A_close) -> s.(ab_flags) !! ch = Some (p, false) ->
    a_step s [] (set_stage t ch A_close_stream (set_flags ch (false, true) s))
| a_close_stream t ch :
    s.(ab_calls) !! t = Some (ch, A_close_stream) ->
    a_step s [] (set_stage t ch (A_done R_unit) (set_closed s))
| a_pause t ch b p cl :
    s.(ab_calls) !! t = Some (ch, A_pause b) -> s.(ab_flags) !! ch = Some (p, cl) ->
    a_step s [] (set_stage t ch (A_done R_unit) (set_flags ch (b, cl) s))
| a_return t ch r :
    s.(ab_calls) !! t = Some (ch, A_done r) ->
    a_step s [Answered t r] (set_stage t ch (A_returned r) s).

Inductive a_run : abstract -> list event -> abstract -> Prop :=
| a_stop s : a_run s [] s
| a_more s evs s' evs' s'' : a_step s evs s' -> a_run s' evs' s'' -> a_run s (evs ++ evs') s''.

(** The messages that calls were made to write, and those that reads returned. *)
Definition written_by (ev : event) : list bytes :=
  match ev with Called _ _ (Write m) => [m] | _ => [] end.
Definition read_by (ev : event) : list bytes :=
  match ev with Answered _ (R_result (Ok m)) => [m] | _ => [] end.
Definition written (evs : list event) : list bytes := evs ≫= written_by.
Definition received (evs : list event) : list bytes := evs ≫= read_by.

(** The message that a call still has: to write, or to return. *)
Definition carried (st : stage) : list bytes :=
  match st with
  | A_wait m | A_send m | A_done (R_result (Ok m)) => [m]
  | _ => []
  end.

Definition carried_all (m : gmap nat (N * stage)) : list bytes :=
  map_to_list m ≫= fun a => carried a.2.2.

(** * The relation between the two *)

Section simulation.
Context {X cph : Type} `{Cipher X cph} `{Codec}.
Implicit Types (g : config X cph) (l : locked cph) (e : Pipes X).

(** One channel is written, one is read (it may be the same), all are over one
    pipe. *)
Context (p : PipeArc) (w r : N) (kw kr : option cph).
Context (message_ok : bytes -> Prop) (in_flight : X -> list (bytes * bytes) -> Prop).

(** Where a thread is inside [read], and after its lock. *)
Definition in_read (pt : point cph) : bool :=
  match pt with
  | R_lock | R_length _ | R_body _ _ | R_unlock _ | R_cipher _ | R_decode _ _ => true
  | _ => false
  end.

Definition decoding (pt : point cph) : bool :=
  match pt with R_unlock (Ok _) | R_cipher _ | R_decode _ _ => true | _ => false end.

(** A payload that travels: not empty, and not too long. *)
Definition fits (c : bytes) : Prop :=
  c <> [] /\ (Z.of_nat (length c) <= DEFAULT_MAX_ALLOWED_READ_BYTES)%Z.

(** The stage of a point, with the message that was taken and not decoded. *)
Definition stands (und : list (bytes * bytes)) (a : N * point cph) (b : N * stage) : Prop :=
  a.1 = b.1 /\
  match a.2 with
  | W_gate m => a.1 = w /\ message_ok m /\ b.2 = A_wait m
  | W_lock m | W_encode m => a.1 = w /\ message_ok m /\ b.2 = A_send m
  | W_length m c | W_body m c => a.1 = w /\ fits c /\ b.2 = A_send m
  | W_flush => a.1 = w /\ b.2 = A_done (R_exception Success)
  | W_unlock x => a.1 = w /\ b.2 = A_done (R_exception x)
  | R_lock => a.1 = r /\ b.2 = A_receive
  | R_length f => a.1 = r /\ length f <= 4 /\ b.2 = A_receive
  | R_body n f => a.1 = r /\ length f <= n /\ n <> 0 /\
      (Z.of_nat n <= DEFAULT_MAX_ALLOWED_READ_BYTES)%Z /\ b.2 = A_receive
  | R_unlock (Err x) => a.1 = r /\ b.2 = A_done (R_result (Err x))
  | R_unlock (Ok raw) | R_cipher raw =>
      a.1 = r /\ exists m, b.2 = A_done (R_result (Ok m)) /\
        match kr with None => m = raw | Some _ => und = [(m, raw)] end
  | R_decode k raw =>
      a.1 = r /\ exists m, b.2 = A_done (R_result (Ok m)) /\ kr = Some k /\ und = [(m, raw)]
  | C_flags => b.2 = A_close
  | C_stream => b.2 = A_close_stream
  | P_flag x => b.2 = A_pause x
  | Returned x => b.2 = A_returned x
  end.

(** The bytes that the reader in its lock has taken from the pipe, and what the
    writer in its lock has put in it and encoded. *)
Definition taken (pt : option (point cph)) : bytes :=
  match pt with
  | Some (R_length f) => f
  | Some (R_body n f) => i32_to_be_bytes (Z.of_nat n) ++ f
  | _ => []
  end.

Definition begun (pt : option (point cph)) : bytes :=
  match pt with
  | Some (W_body _ c) => i32_to_be_bytes (Z.of_nat (length c))
  | _ => []
  end.

Definition encoded (pt : option (point cph)) : list (bytes * bytes) :=
  match pt with Some (W_length m c) | Some (W_body m c) => [(m, c)] | _ => [] end.

(** What travels, from the point of the reader and of the writer: whole frames,
    then at most a length without its payload, which nobody completes once the
    pipe is closed. *)
Definition travels (q und : list (bytes * bytes)) (reader writer : option (point cph)) e : Prop :=
  let s := pipe_state p e in
  exists tail late,
    taken reader ++ s.(ps_buf) = concat (framed <$> q.*2) ++ tail /\
    Forall (fun pc => fits pc.2) q /\
    in_flight e.(pp_rest) (und ++ q ++ late) /\
    (tail = [] \/ exists c, fits c /\ tail = i32_to_be_bytes (Z.of_nat (length c))) /\
    (s.(ps_closed) = false -> tail = begun writer /\ late = encoded writer).

(** At most one reader where the reader has a cipher, and a message is on its way
    through the cipher only with the reader that took it. *)
Record readers_ok (und : list (bytes * bytes)) g : Prop := {
  ro_plain : kr = None -> und = [];
  ro_one t1 a1 t2 a2 : kr <> None ->
    g.(cf_threads) !! t1 = Some a1 -> in_read a1.2 = true ->
    g.(cf_threads) !! t2 = Some a2 -> in_read a2.2 = true -> t1 = t2;
  ro_taken : und = [] \/ exists t a, g.(cf_threads) !! t = Some a /\ decoding a.2 = true;
}.

Definition chan_ok (ch : N) l : Prop :=
  l.(lc_chan).(sc_stream) = p /\
  (ch = w -> l.(lc_chan).(sc_cipher) = kw /\
     l.(lc_chan).(sc_max_allowed_read_bytes) = DEFAULT_MAX_ALLOWED_READ_BYTES) /\
  (ch = r -> l.(lc_chan).(sc_cipher) = kr /\
     l.(lc_chan).(sc_max_allowed_read_bytes) = DEFAULT_MAX_ALLOWED_READ_BYTES).

Definition flags_of l : bool * bool := (l.(lc_chan).(sc_paused), l.(lc_chan).(sc_closed)).

Record simulates (q und : list (bytes * bytes)) g (s : abstract) : Prop := {
  si_locks : locks_ok g;
  si_chans ch l : g.(cf_chans) !! ch = Some l -> chan_ok ch l;
  si_flags : s.(ab_flags) = flags_of <$> g.(cf_chans);
  si_closed : s.(ab_closed) = (pipe_state p g.(cf_env)).(ps_closed);
  si_queue : s.(ab_queue) = q.*1;
  si_threads t : option_Forall2 (stands und) (g.(cf_threads) !! t) (s.(ab_calls) !! t);
  si_readers : readers_ok und g;
  si_travels : travels q und (owner_point lc_reader r g) (owner_point lc_writer w g) g.(cf_env);
}.

(** The calls that the theorem speaks of. *)
Definition call_ok (ch : N) (op : call) g : Prop :=
  match op with
  | Write m => ch = w /\ message_ok m
  | Read => ch = r /\
      (kr = None \/ forall t a, g.(cf_threads) !! t = Some a -> in_read a.2 = false)
  | Close | SetPaused _ => True
  end.

(** A run whose calls are of these. *)
Fixpoint calls_ok (mvs : list move) g : Prop :=
  match mvs with
  | [] => True
  | mv :: mvs =>
      match mv with Enter t ch op => call_ok ch op g | Step _ => True end /\
      match do_one mv g with Some (_, g') => calls_ok mvs g' | None => True end
  end.
End simulation.

(** * Lemmas *)

(** ** What travels *)

Section travelling.
Context {X cph : Type} `{Cipher X cph} `{Codec}.
Context (p : PipeArc) (in_flight : X -> list (bytes * bytes) -> Prop).
Implicit Types (e : Pipes X) (q und : list (bytes * bytes)) (rp wp : option (point cph)).

Abbreviation travels := (travels p in_flight).

Lemma be_of_fits c d :
  fits c -> fits d ->
  i32_to_be_bytes (Z.of_nat (length c)) = i32_to_be_bytes (Z.of_nat (length d)) ->
  length c = length d.
Proof.
  intros [_ Hc] [_ Hd] Heq. apply (f_equal i32_from_be_bytes) in Heq.
  rewrite !be_length in Heq by done. lia.
Qed.

(** The ends of the travel that two points agree on. *)
Lemma travels_points q und rp rp' wp wp' e :
  taken rp' = taken rp -> begun wp' = begun wp -> encoded wp' = encoded wp ->
  travels q und rp wp e -> travels q und rp' wp' e.
Proof. intros Ht Hb He (tail & late & Hs). exists tail, late. by rewrite Ht, Hb, He. Qed.

(** On a closed pipe it does not matter where the writer is. *)
Lemma travels_closed q und rp wp wp' e :
  (pipe_state p e).(ps_closed) = true -> travels q und rp wp e -> travels q und rp wp' e.
Proof.
  intros Hc (tail & late & Hb & Hf & Hi & Ht & _). exists tail, late. split_and!; [done..|].
  by rewrite Hc.
Qed.

Lemma travels_close q und rp wp wp' e :
  travels q und rp wp e ->
  travels q und rp wp' (set_pipe p (mkPipeState (pipe_state p e).(ps_buf) true) e).
Proof.
  intros (tail & late & Hb & Hf & Hi & Ht & _). exists tail, late. rewrite pipe_state_set.
  by split_and!.
Qed.

(** A message is encoded. *)
Lemma travels_encode q und rp wp wp' m c e x' :
  encoded wp = [] -> begun wp = [] -> encoded wp' = [(m, c)] -> begun wp' = [] ->
  travels q und rp wp e ->
  (forall late, in_flight e.(pp_rest) (und ++ q ++ late) ->
     in_flight x' (und ++ q ++ late ++ [(m, c)])) ->
  travels q und rp wp' (mkPipes e.(pp_pipes) x').
Proof.
  intros He Hbe He' Hbe' (tail & late & Hb & Hf & Hi & Ht & Hop) Hin.
  exists tail, (late ++ [(m, c)]). split_and!; [done..|by apply Hin|done|].
  intros Hc. destruct (Hop Hc) as [-> ->]. by rewrite He, Hbe, He', Hbe'.
Qed.

(** The length of a message is written, and then its payload. *)
Lemma travels_length q und rp m c e buf :
  fits c -> pipe_state p e = mkPipeState buf false ->
  travels q und rp (Some (W_length m c)) e ->
  travels q und rp (Some (W_body m c))
    (set_pipe p (mkPipeState (buf ++ i32_to_be_bytes (Z.of_nat (length c))) false) e).
Proof.
  intros Hfit Hs (tail & late & Hb & Hf & Hi & Ht & Hop). rewrite Hs in *.
  destruct (Hop eq_refl) as [-> ->]. exists (i32_to_be_bytes (Z.of_nat (length c))), [(m, c)].
  rewrite pipe_state_set. cbn [ps_buf ps_closed] in *. split_and!; [|done..|by right; exists c|done].
  rewrite app_nil_r in Hb. by rewrite app_assoc, Hb.
Qed.

Lemma travels_body q und rp m c e buf :
  fits c -> pipe_state p e = mkPipeState buf false ->
  travels q und rp (Some (W_body m c)) e ->
  travels (q ++ [(m, c)]) und rp (Some W_flush) (set_pipe p (mkPipeState (buf ++ c) false) e).
Proof.
  intros Hfit Hs (tail & late & Hb & Hf & Hi & Ht & Hop). rewrite Hs in *.
  destruct (Hop eq_refl) as [-> ->]. exists [], []. rewrite pipe_state_set.
  cbn [ps_buf ps_closed begun encoded] in *. split_and!; [| | |by left|done].
  - rewrite app_assoc, Hb, !fmap_app, concat_app, <-!app_assoc. simpl. by rewrite !app_nil_r.
  - apply Forall_app. split; [done|]. by constructor.
  - by rewrite app_nil_r.
Qed.

(** Bytes are taken. *)
Lemma travels_fill q und rp rp' wp n f f' e e' :
  pipe_fill p n f e = Some (Ok f', e') ->
  (forall b, taken rp = b ++ f -> taken rp' = b ++ f') ->
  (exists b, taken rp = b ++ f) ->
  travels q und rp wp e -> travels q und rp' wp e'.
Proof.
  unfold pipe_fill. destruct (pipe_state p e) as [buf closed] eqn:Hs. cbn [ps_buf ps_closed].
  intros Hfill Hrp [b Hb0] (tail & late & Hb & Hf & Hi & Ht & Hop). rewrite Hs in *.
  cbn [ps_buf ps_closed] in *. destruct buf as [|x buf]; [by destruct closed|].
  injection Hfill as <- <-. exists tail, late. rewrite pipe_state_set. cbn [ps_buf ps_closed].
  split_and!; [|done..]. rewrite (Hrp _ Hb0), <-Hb, Hb0, <-!app_assoc. by rewrite take_drop.
Qed.

Lemma fill_length n f e f' e' :
  pipe_fill p n f e = Some (Ok f', e') -> length f <= n ->
  length f' <= n /\ (pipe_state p e').(ps_closed) = (pipe_state p e).(ps_closed) /\
  e'.(pp_rest) = e.(pp_rest).
Proof.
  unfold pipe_fill. destruct (pipe_state p e) as [buf closed]. cbn [ps_buf ps_closed].
  destruct buf as [|x buf]; [by destruct closed|]. intros [= <- <-] Hle.
  rewrite length_app, length_take, pipe_state_set. split_and!; [lia|done..].
Qed.

(** What a reader has taken is the beginning of the oldest frame. *)
Lemma taken_length q und wp f e :
  travels q und (Some (R_length f)) wp e -> length f = 4 ->
  exists c, fits c /\ f = i32_to_be_bytes (Z.of_nat (length c)).
Proof.
  intros (tail & late & Hb & Hf & Hi & Ht & Hop) Hlen. cbn [taken] in Hb.
  apply (f_equal (take 4)) in Hb. rewrite take_app_length' in Hb by done.
  destruct q as [|[m c] q].
  - simpl in Hb. destruct Ht as [->|(c & Hc & ->)]; [|by exists c]. by rewrite Hb in Hlen.
  - apply Forall_cons in Hf as [Hc _]. by exists c.
Qed.

Lemma taken_whole q und wp n f e :
  travels q und (Some (R_body n f)) wp e -> length f = n -> n <> 0 ->
  (Z.of_nat n <= DEFAULT_MAX_ALLOWED_READ_BYTES)%Z ->
  exists m q', q = (m, f) :: q' /\
    forall und' x', (forall late, in_flight e.(pp_rest) (und ++ ((m, f) :: q') ++ late) ->
                     in_flight x' (und' ++ q' ++ late)) ->
      travels q' und' (Some (R_unlock (Ok f))) wp (mkPipes e.(pp_pipes) x').
Proof.
  intros (tail & late & Hb & Hf & Hi & Ht & Hop) Hlen Hn Hmax. cbn [taken] in Hb.
  assert (Hff : fits f) by (split; [by intros ->|by rewrite Hlen]). rewrite <-Hlen in Hb.
  destruct q as [|[m c] q].
  - exfalso. apply (f_equal length) in Hb. rewrite !length_app, i32_to_be_length in Hb.
    destruct Ht as [->|(c & _ & ->)]; cbn in Hb; lia.
  - apply Forall_cons in Hf as [Hc Hf]. cbn [fmap list_fmap concat snd] in Hb, Hc.
    unfold framed in Hb at 1. rewrite <-!app_assoc in Hb.
    apply app_inj_1 in Hb as [Hbe Hb]; [|done].
    pose proof (be_of_fits _ _ Hff Hc Hbe) as Hl. apply app_inj_1 in Hb as [<- Hb]; [|done].
    exists m, q. split; [done|]. intros und' x' Hin. exists tail, late. split_and!; try done. by apply Hin.
Qed.

(** A message is decoded. *)
Lemma travels_decode q und und' rp wp e x' :
  travels q und rp wp e ->
  (forall late, in_flight e.(pp_rest) (und ++ q ++ late) -> in_flight x' (und' ++ q ++ late)) ->
  travels q und' rp wp (mkPipes e.(pp_pipes) x').
Proof.
  intros (tail & late & Hb & Hf & Hi & Ht & Hop) Hin. exists tail, late. split_and!; try done.
  by apply Hin.
Qed.

Lemma fill_err n f e err e' :
  pipe_fill p n f e = Some (Err err, e') ->
  err = NoData /\ e' = e /\ pipe_state p e = mkPipeState [] true.
Proof.
  unfold pipe_fill. destruct (pipe_state p e) as [[|b buf] []]; cbn; try done. by intros [= <- <-].
Qed.

(** A pipe that has run out of a frame had none. *)
Lemma taken_end q und rp wp e n f :
  rp = Some (R_length f) /\ n = 4 \/ rp = Some (R_body n f) /\ (Z.of_nat n <= DEFAULT_MAX_ALLOWED_READ_BYTES)%Z ->
  length f < n -> pipe_state p e = mkPipeState [] true ->
  travels q und rp wp e ->
  q = [] /\ travels [] und (Some (R_unlock (Err NoData))) wp e.
Proof.
  intros Hrp Hlen Hs (tail & late & Hb & Hf & Hi & Ht & Hop). rewrite Hs in *. cbn [ps_buf] in Hb.
  assert (q = []) as ->.
  { destruct q as [|[m c] q]; [done|exfalso]. apply Forall_cons in Hf as [Hc _].
    cbn [fmap list_fmap concat snd] in Hb, Hc. rewrite app_nil_r in Hb.
    destruct Hrp as [[-> ->]|[-> Hmax]]; cbn [taken] in Hb.
    - apply (f_equal length) in Hb. rewrite !length_app, framed_length in Hb. lia.
    - unfold framed in Hb at 1. rewrite <-!app_assoc in Hb. apply app_inj_1 in Hb as [Hbe Hb]; [|done].
      apply (f_equal i32_from_be_bytes) in Hbe. destruct Hc as [_ Hc]. rewrite !be_length in Hbe by done.
      apply (f_equal length) in Hb. rewrite !length_app in Hb. lia. }
  split; [done|]. exists [], late. rewrite Hs. split_and!; try done. by left.
Qed.
End travelling.

(** ** One step *)

Section steps.
Context {X cph : Type} `{Cipher X cph} `{Codec}.
Context (p : PipeArc) (w r : N) (kw kr : option cph).
Context (message_ok : bytes -> Prop) (in_flight : X -> list (bytes * bytes) -> Prop).
Context (Hagree : ciphers_agree kw kr message_ok in_flight).
Context (Hfits : forall x q, in_flight x q -> Forall (fun pc => pc.2 <> []) q).
Implicit Types (g : config X cph) (l : locked cph) (e : Pipes X) (pt : point cph).
Implicit Types (q und : list (bytes * bytes)) (s : abstract).

Abbreviation simulates := (simulates p w r kw kr message_ok in_flight).
Abbreviation travels := (travels p in_flight).
Abbreviation stands := (stands w r kr message_ok).

(** A thread that is not past the reader's lock stands where it stood, whatever
    is being decoded. *)
Lemma stands_und und und' a b :
  kr = None \/ in_read a.2 = false -> stands und a b -> stands und' a b.
Proof.
  intros Hr [Hch Hs]. split; [done|]. destruct (snd a) as [| | | | | | | | | |[]| | | | | |]; try done;
    destruct Hr as [->|?]; try done.
  destruct Hs as (? & m & _ & ? & _). done.
Qed.

(** Where the owner of a lock stands after a thread on [ch] goes from [pt] to
    [pt']. *)
Definition next_point (holds : point cph -> bool) (mine : bool) pt pt' (o : option (point cph))
    : option (point cph) :=
  if mine then if holds pt' then Some pt' else if holds pt then None else o else o.

Record next (q und : list (bytes * bytes)) (g : config X cph) (s : abstract) (t : nat) (ch : N)
    (pt pt' : point cph) (l' : locked cph) (e' : Pipes X)
    (q' und' : list (bytes * bytes)) (st' : stage) (s' : abstract) : Prop := {
  nx_flags : s'.(ab_flags) = <[ch := flags_of l']> s.(ab_flags);
  nx_closed : s'.(ab_closed) = (pipe_state p e').(ps_closed);
  nx_queue : s'.(ab_queue) = q'.*1;
  nx_calls : s'.(ab_calls) = <[t := (ch, st')]> s.(ab_calls);
  nx_stands : stands und' (ch, pt') (ch, st');
  nx_mine : und' = und \/ in_read pt = true;
  nx_plain : kr = None -> und' = und;
  nx_read : in_read pt' = true -> in_read pt = true;
  nx_taken : und' = [] \/ decoding pt' = true \/ (und' = und /\ decoding pt = false);
  nx_travels :
    travels q' und'
      (next_point holds_reader (bool_decide (r = ch)) pt pt' (owner_point lc_reader r g))
      (next_point holds_writer (bool_decide (w = ch)) pt pt' (owner_point lc_writer w g)) e';
}.

Lemma sim_next q und g s t ch pt l pt' l' e' evs g' q' und' st' s' :
  simulates q und g s -> do_step t g = Some (evs, g') ->
  g.(cf_threads) !! t = Some (ch, pt) -> g.(cf_chans) !! ch = Some l ->
  thread_step t pt l g.(cf_env) = Some (pt', l', e') ->
  next q und g s t ch pt pt' l' e' q' und' st' s' ->
  simulates q' und' g' s'.
Proof.
  intros [Hlo Hch Hfl Hcl Hq Hth [Hpl Hone Htk] Htr] Hd Ht Hl Hs [Nf Nc Nq Ncl Ns Nm Np Nr Nt Ntr].
  assert (Hlo' : locks_ok g') by by eapply (do_one_locks (Step t)).
  pose proof (step_owner_point holds_reader lc_reader reader_owns t g evs g' ch pt l pt' l' e' r Hd
    (lo_reader _ Hlo) Ht Hl Hs) as Hor.
  pose proof (step_owner_point holds_writer lc_writer writer_owns t g evs g' ch pt l pt' l' e' w Hd
    (lo_writer _ Hlo) Ht Hl Hs) as How.
  unfold do_step in Hd. rewrite Ht, Hl, Hs in Hd. injection Hd as _ <-.
  split; [done|..].
  - intros ch2 l2. cbn. intros [[<- <-]|[_ Hl2]]%lookup_insert_Some; [|by apply Hch].
    destruct (step_chan _ _ _ _ _ _ _ Hs) as (pa & cl & Hc). unfold chan_ok. rewrite Hc.
    by apply (Hch ch).
  - cbn. by rewrite Nf, fmap_insert, Hfl.
  - done.
  - done.
  - intros t2. cbn. rewrite Ncl. destruct (decide (t2 = t)) as [->|Hne].
    + rewrite !lookup_insert_eq. by constructor.
    + rewrite !lookup_insert_ne by done. destruct Nm as [->|Hin]; [apply Hth|].
      specialize (Hth t2). inversion Hth as [a b Hab Ha Hb|]; [|constructor]. constructor.
      apply (stands_und und); [|done].
      destruct kr eqn:Hkr; [right|by left]. destruct (in_read a.2) eqn:Hra; [|done].
      exfalso. apply Hne. by eapply (Hone t2 a t (ch, pt)).
  - split.
    + intros Hk. rewrite Np by done. by apply Hpl.
    + intros t1 a1 t2 a2 Hk. cbn. intros H1 Hr1 H2 Hr2.
      assert (Hold : forall t3 a3, <[t := (ch, pt')]> (cf_threads g) !! t3 = Some a3 ->
        in_read a3.2 = true -> exists a, cf_threads g !! t3 = Some a /\ in_read a.2 = true).
      { intros t3 a3 [[<- <-]|[_ Ha]]%lookup_insert_Some Hr3; [|by exists a3].
        exists (ch, pt). split; [done|]. by apply Nr. }
      destruct (Hold _ _ H1 Hr1) as (b1 & ? & ?), (Hold _ _ H2 Hr2) as (b2 & ? & ?).
      by eapply (Hone t1 b1 t2 b2).
    + cbn. destruct Nt as [->|[Hdec|[-> Hdec]]]; [by left| |].
      * right. exists t, (ch, pt'). by rewrite lookup_insert_eq.
      * destruct Htk as [->|(t2 & a & Ha & Hda)]; [by left|]. right. exists t2, a.
        rewrite lookup_insert_ne; [done|]. intros <-. rewrite Ht in Ha. injection Ha as <-. cbn in Hda. congruence.
  - rewrite Hor, How. unfold next_point in Ntr.
    by repeat case_decide; simplify_eq; repeat case_bool_decide.
Qed.

(** What has to be shown of a step: the atomic machine follows it. *)
Definition follows q und g s t ch pt pt' l' e' : Prop :=
  exists q' und' st' s', a_run s (answer_event t pt') s' /\
    next q und g s t ch pt pt' l' e' q' und' st' s'.

Lemma a_one s evs s' : a_step s evs s' -> a_run s evs s'.
Proof. intros Hs. rewrite <-(app_nil_r evs). by eapply a_more; [|constructor]. Qed.

Lemma set_stage_id t ch st s : s.(ab_calls) !! t = Some (ch, st) -> set_stage t ch st s = s.
Proof. intros Ht. destruct s. unfold set_stage. simpl in *. by rewrite insert_id. Qed.

Lemma sim_stage q und g s t ch pt :
  simulates q und g s -> g.(cf_threads) !! t = Some (ch, pt) ->
  exists st, s.(ab_calls) !! t = Some (ch, st) /\ stands und (ch, pt) (ch, st).
Proof.
  intros Hsim Ht. pose proof (si_threads _ _ _ _ _ _ _ _ _ _ _ Hsim t) as Hst. rewrite Ht in Hst.
  inversion Hst as [a [ch2 st] Hab Ha Hb|]; subst. exists st. destruct Hab as [Hc Hab].
  simpl in Hc. subst ch2. by split.
Qed.

Lemma sim_flags q und g s ch l :
  simulates q und g s -> g.(cf_chans) !! ch = Some l -> s.(ab_flags) !! ch = Some (flags_of l).
Proof. intros Hsim Hl. by rewrite (si_flags _ _ _ _ _ _ _ _ _ _ _ Hsim), lookup_fmap, Hl. Qed.

(** The owner of a lock stands where its thread does. *)
Lemma sim_owner holds (owner : locked cph -> option nat) ch g t pt :
  lock_ok holds owner g -> g.(cf_threads) !! t = Some (ch, pt) -> is_Some (g.(cf_chans) !! ch) ->
  holds pt = true -> owner_point owner ch g = Some pt.
Proof.
  intros Hok Ht [l Hl] Hh. unfold owner_point. rewrite Hl.
  assert (owner l = Some t) as -> by (apply (Hok _ _ _ Hl); by exists pt). by rewrite Ht.
Qed.

Lemma next_free holds mine pt pt' o :
  holds pt = false -> holds pt' = false -> next_point holds mine pt pt' o = o.
Proof. unfold next_point. intros -> ->. by destruct mine. Qed.

Lemma next_mine holds pt pt' o :
  holds pt = true -> next_point holds true pt pt' o = if holds pt' then Some pt' else None.
Proof. unfold next_point. by intros ->. Qed.

(** A step that changes neither the queue nor the flags. *)
Lemma next_quiet q und g s t ch pt l pt' l' e' st' :
  simulates q und g s -> g.(cf_chans) !! ch = Some l ->
  flags_of l' = flags_of l ->
  (pipe_state p e').(ps_closed) = (pipe_state p g.(cf_env)).(ps_closed) ->
  stands und (ch, pt') (ch, st') ->
  (in_read pt' = true -> in_read pt = true) ->
  (decoding pt' = true \/ decoding pt = false) ->
  travels q und
    (next_point holds_reader (bool_decide (r = ch)) pt pt' (owner_point lc_reader r g))
    (next_point holds_writer (bool_decide (w = ch)) pt pt' (owner_point lc_writer w g)) e' ->
  next q und g s t ch pt pt' l' e' q und st' (set_stage t ch st' s).
Proof.
  intros Hsim Hl Hf Hc Hst Hr Hd Htr. split; cbn; auto.
  - rewrite insert_id; [done|]. rewrite Hf. by eapply sim_flags.
  - rewrite Hc. apply Hsim.
  - apply Hsim.
  - destruct Hd; auto.
Qed.

Ltac quiet := eapply next_quiet; [solve [done | by split | by left | by right | repeat split; simpl; first [done | lia]]..|].

(** Where the points of the two locks do not matter for what travels. *)
Lemma travels_next q und g s ch pt pt' :
  simulates q und g s ->
  (holds_reader pt = false /\ holds_reader pt' = false) ->
  (holds_writer pt = false /\ holds_writer pt' = false) ->
  travels q und
    (next_point holds_reader (bool_decide (r = ch)) pt pt' (owner_point lc_reader r g))
    (next_point holds_writer (bool_decide (w = ch)) pt pt' (owner_point lc_writer w g)) g.(cf_env).
Proof. intros Hsim [??] [??]. rewrite !next_free by done. apply Hsim. Qed.

(** The last step of a call, and its return. *)
Lemma a_last s t ch x s0 :
  a_step s [] (set_stage t ch (A_done x) s0) ->
  a_run s [Answered t x] (set_stage t ch (A_returned x) s0).
Proof.
  intros Hs. eapply (a_more _ []); [exact Hs|].
  assert (set_stage t ch (A_returned x) s0 = set_stage t ch (A_returned x) (set_stage t ch (A_done x) s0)) as ->
    by (unfold set_stage; cbn; by rewrite insert_insert_eq).
  apply a_one, a_return. cbn. apply lookup_insert_eq.
Qed.

(** The calls that are neither reads nor writes. *)
Lemma other_next q und g s t ch pt l pt' l' e' :
  simulates q und g s -> g.(cf_threads) !! t = Some (ch, pt) -> g.(cf_chans) !! ch = Some l ->
  thread_step t pt l g.(cf_env) = Some (pt', l', e') ->
  match pt with C_flags | C_stream | P_flag _ => True | _ => False end ->
  follows q und g s t ch pt pt' l' e'.
Proof.
  intros Hsim Ht Hl Hs Hpt. destruct (sim_stage _ _ _ _ _ _ _ Hsim Ht) as (st & Hst & [_ Hstand]).
  pose proof (sim_flags _ _ _ _ _ _ Hsim Hl) as Hf.
  assert (Hstream : sc_stream (lc_chan l) = p) by apply (si_chans _ _ _ _ _ _ _ _ _ _ _ Hsim _ _ Hl).
  destruct pt as [| | | | | | | | | | | | | | |b|]; try done; cbn in Hs, Hstand; subst st.
  - unfold flags_of in Hf. destruct (sc_closed (lc_chan l)) eqn:Hcl; injection Hs as <- <- <-;
      exists q, und; eexists _, _; (split; [|try by eapply next_quiet; [..|eapply travels_next]; eauto]).
    + eapply a_last, a_close_again; eauto.
    + eapply a_one, a_close; eauto.
    + split; [cbn; auto; try (by split); try apply Hsim..|by apply travels_next with s].
  - injection Hs as <- <- <-. rewrite Hstream. exists q, und; eexists _, _. split.
    + eapply a_last, a_close_stream; eauto.
    + split; [cbn; auto; try (by split)..|].
      * by rewrite insert_id.
      * by rewrite pipe_state_set.
      * apply Hsim.
      * rewrite !next_free by done. eapply travels_close, Hsim.
  - injection Hs as <- <- <-. exists q, und; eexists _, _. split.
    + eapply a_last, a_pause; eauto.
    + split; [cbn; auto; try (by split); try apply Hsim..|by apply travels_next with s].
Qed.

(** ** The writers *)

Lemma payload_pipes (s : StreamChannel PipeArc cph) m e :
  payload_of s m e =
  match match s.(sc_cipher) with None => Ret (Some m, e.(pp_rest)) | Some k => ci_encode k m e.(pp_rest) end with
  | Ret (c, x) => Ret (c, mkPipes e.(pp_pipes) x)
  | Fault f => Fault f
  end.
Proof. unfold payload_of. destruct (sc_cipher s); [done|]. by destruct e. Qed.

Lemma travels_encoded q und (rp wp : option (point cph)) m e :
  message_ok m -> encoded wp = [] -> begun wp = [] -> travels q und rp wp e ->
  exists c x',
    match kw with None => Ret (Some m, e.(pp_rest)) | Some k => ci_encode k m e.(pp_rest) end = Ret (Some c, x') /\
    fits c /\ travels q und rp (Some (W_length m c)) (mkPipes e.(pp_pipes) x').
Proof.
  intros Hm He Hb Htr. pose proof Htr as (tail & late & _ & _ & Hi & _ & _).
  destruct (ca_encode _ _ _ _ Hagree _ _ _ Hi Hm) as (c & x' & Henc & Hlen & Hi').
  exists c, x'. split; [done|]. split.
  - split; [|done]. apply Hfits, Forall_app in Hi' as [_ Hne]. by inversion Hne.
  - eapply travels_encode; [done..|exact Htr|]. intros late2 Hi2.
    destruct (ca_encode _ _ _ _ Hagree _ _ _ Hi2 Hm) as (c2 & x2 & Henc2 & _ & Hi2').
    rewrite Henc in Henc2. injection Henc2 as <- <-. by rewrite <-!app_assoc in Hi2'.
Qed.

(** What is known of a thread that is writing, before and after its step. *)
Definition writing (pt : point cph) : bool :=
  match pt with
  | W_gate _ | W_lock _ | W_encode _ | W_length _ _ | W_body _ _ | W_flush | W_unlock _ => true
  | _ => false
  end.

Record write_step q und g s t ch pt l pt' st : Prop := {
  wr_channel : ch = w;
  wr_stream : sc_stream (lc_chan l) = p;
  wr_cipher : sc_cipher (lc_chan l) = kw;
  wr_max : sc_max_allowed_read_bytes (lc_chan l) = DEFAULT_MAX_ALLOWED_READ_BYTES;
  wr_flags : s.(ab_flags) !! w = Some (flags_of l);
  wr_call : s.(ab_calls) !! t = Some (w, st);
  wr_stands : stands und (w, pt) (w, st);
  wr_reader o : next_point holds_reader (bool_decide (r = w)) pt pt' o = o;
  wr_writer o : next_point holds_writer (bool_decide (w = w)) pt pt' o =
    if holds_writer pt' then Some pt' else if holds_writer pt then None else o;
  wr_travels : travels q und (owner_point lc_reader r g)
    (if holds_writer pt then Some pt else owner_point lc_writer w g) g.(cf_env);
}.

Lemma write_facts q und g s t ch pt l pt' l' e' :
  simulates q und g s -> g.(cf_threads) !! t = Some (ch, pt) -> g.(cf_chans) !! ch = Some l ->
  thread_step t pt l g.(cf_env) = Some (pt', l', e') -> writing pt = true ->
  exists st, write_step q und g s t ch pt l pt' st.
Proof.
  intros Hsim Ht Hl Hs Hpt. destruct (sim_stage _ _ _ _ _ _ _ Hsim Ht) as (st & Hst & Hstand).
  destruct (si_chans _ _ _ _ _ _ _ _ _ _ _ Hsim _ _ Hl) as (Hstream & Hw & _).
  assert (ch = w) as -> by (destruct Hstand as [_ Hstand]; by destruct pt; try done; destruct Hstand).
  destruct (Hw eq_refl) as [Hk Hmax]. exists st.
  pose proof (si_travels _ _ _ _ _ _ _ _ _ _ _ Hsim) as Htr. split; try done.
  - by eapply sim_flags.
  - intros o. apply next_free; [by destruct pt|].
    destruct pt; try done; cbn in Hs; unfold sized, then_or in Hs; repeat case_match; by simplify_eq.
  - intros o. by rewrite bool_decide_eq_true_2.
  - destruct (holds_writer pt) eqn:Hh; [|done].
    rewrite <-(sim_owner holds_writer lc_writer w g t pt); [done|apply Hsim|done|by eexists|done].
Qed.

(** The gate, the lock and the answer. *)
Lemma write_locks q und g s t ch pt l pt' l' e' :
  simulates q und g s -> g.(cf_threads) !! t = Some (ch, pt) -> g.(cf_chans) !! ch = Some l ->
  thread_step t pt l g.(cf_env) = Some (pt', l', e') ->
  match pt with W_gate _ | W_lock _ | W_flush | W_unlock _ => True | _ => False end ->
  follows q und g s t ch pt pt' l' e'.
Proof.
  intros Hsim Ht Hl Hs Hpt.
  destruct (write_facts _ _ _ _ _ _ _ _ _ _ _ Hsim Ht Hl Hs ltac:(by destruct pt))
    as (st & [-> Hstream _ _ Hf Hst [_ Hstand] Hrp Hwp Htr]).
  destruct pt as [m|m| | | | |x| | | | | | | | | |]; try done; cbn in Hstand, Hs, Htr; rewrite ?Hstream in Hs.
  - destruct Hstand as (_ & Hm & ->). unfold flags_of in Hf.
    destruct (sc_paused (lc_chan l)) eqn:Hp; [done|]. injection Hs as <- <- <-.
    exists q, und; eexists _, _. split; [by eapply a_one, a_gate|].
    quiet. by apply travels_next with s.
  - destruct Hstand as (_ & Hm & ->). destruct (lc_writer l) eqn:Hlw; [done|]. injection Hs as <- <- <-.
    exists q, und, (A_send m), (set_stage t w (A_send m) s). rewrite set_stage_id at 1 by done.
    split; [constructor|]. quiet. rewrite Hrp, Hwp. cbn.
    eapply travels_points; [..|exact Htr]; [done|..]; unfold owner_point; by rewrite Hl, Hlw.
  - destruct Hstand as (_ & ->). injection Hs as <- <- <-.
    exists q, und, (A_done (R_exception Success)), (set_stage t w (A_done (R_exception Success)) s).
    rewrite set_stage_id at 1 by done. split; [constructor|]. quiet. by rewrite Hrp, Hwp.
  - destruct Hstand as (_ & ->). injection Hs as <- <- <-.
    exists q, und; eexists _, _. split; [by eapply a_one, a_return|]. quiet. by rewrite Hrp, Hwp.
Qed.

(** A write that finds the stream closed, at the length or at the payload. *)
Lemma write_refused q und g s t pt l m c :
  simulates q und g s -> g.(cf_chans) !! w = Some l ->
  write_step q und g s t w pt l (W_unlock Io) (A_send m) ->
  pt = W_length m c \/ pt = W_body m c -> (pipe_state p g.(cf_env)).(ps_closed) = true ->
  follows q und g s t w pt (W_unlock Io) l g.(cf_env).
Proof.
  intros Hsim Hl [_ _ _ _ _ Hst _ Hrp Hwp Htr] Hpt Hp.
  pose proof (si_closed _ _ _ _ _ _ _ _ _ _ _ Hsim) as Hcl.
  exists q, und; eexists _, _. split; [eapply a_one, a_refuse; [done|by rewrite Hcl]|].
  destruct Hpt as [-> | ->]; quiet; rewrite Hrp, Hwp; cbn in *; by eapply travels_closed.
Qed.

(** The message, its length and its payload. *)
Lemma write_sends q und g s t ch pt l pt' l' e' :
  simulates q und g s -> g.(cf_threads) !! t = Some (ch, pt) -> g.(cf_chans) !! ch = Some l ->
  thread_step t pt l g.(cf_env) = Some (pt', l', e') ->
  match pt with W_encode _ | W_length _ _ | W_body _ _ => True | _ => False end ->
  follows q und g s t ch pt pt' l' e'.
Proof.
  intros Hsim Ht Hl Hs Hpt. pose proof (si_closed _ _ _ _ _ _ _ _ _ _ _ Hsim) as Hcl.
  destruct (write_facts _ _ _ _ _ _ _ _ _ _ _ Hsim Ht Hl Hs ltac:(by destruct pt)) as (st & Hfacts).
  pose proof Hfacts as [-> Hstream Hk Hmax Hf Hst [_ Hstand] Hrp Hwp Htr].
  destruct pt as [| |m|m c|m c| | | | | | | | | | | |]; try done; cbn in Hstand, Hs, Htr; rewrite ?Hstream in Hs;
    destruct Hstand as (_ & Hstand & ->).
  - destruct (travels_encoded q und _ (Some (W_encode m)) m g.(cf_env) Hstand eq_refl eq_refl Htr)
      as (c & x' & Henc & [Hne Hlen] & Htr').
    rewrite payload_pipes, Hk, Henc in Hs. injection Hs as <- <- <-.
    unfold sized in *. rewrite Hmax, (proj2 (Z.ltb_ge _ _)) in * by done.
    exists q, und, (A_send m), (set_stage t w (A_send m) s). rewrite set_stage_id at 1 by done.
    split; [constructor|]. quiet. by rewrite Hrp, Hwp.
  - unfold then_or, pipe_write_all, gets, modify, mbind, M_bind in Hs.
    destruct (pipe_state p (cf_env g)) as [buf closed] eqn:Hp. destruct closed; cbn in Hs; injection Hs as <- <- <-.
    + eapply write_refused; [done|done|exact Hfacts|by left|by rewrite Hp].
    + exists q, und, (A_send m), (set_stage t w (A_send m) s). rewrite set_stage_id at 1 by done.
      split; [constructor|]. eapply next_quiet; [done|done|done|by rewrite pipe_state_set, Hp|done|done|by right|].
      rewrite Hrp, Hwp. by apply travels_length.
  - unfold then_or, pipe_write_all, gets, modify, mbind, M_bind in Hs.
    destruct (pipe_state p (cf_env g)) as [buf closed] eqn:Hp. destruct closed; cbn in Hs; injection Hs as <- <- <-.
    + eapply write_refused; [done|done|exact Hfacts|by right|by rewrite Hp].
    + exists (q ++ [(m, c)]), und; eexists _, _. split; [by eapply a_one, a_send|].
      split; [cbn; auto; try (by split)..|].
      * by rewrite insert_id.
      * by rewrite pipe_state_set.
      * by rewrite fmap_app, (si_queue _ _ _ _ _ _ _ _ _ _ _ Hsim).
      * rewrite Hrp, Hwp. by apply travels_body.
Qed.

Lemma writer_next q und g s t ch pt l pt' l' e' :
  simulates q und g s -> g.(cf_threads) !! t = Some (ch, pt) -> g.(cf_chans) !! ch = Some l ->
  thread_step t pt l g.(cf_env) = Some (pt', l', e') -> writing pt = true ->
  follows q und g s t ch pt pt' l' e'.
Proof. intros Hsim Ht Hl Hs Hpt. destruct pt; try done; first [by eapply write_locks|by eapply write_sends]. Qed.

(** ** The readers *)

Lemma kr_cases : kr = None \/ exists k, kr = Some k.
Proof. destruct kr; eauto. Qed.

Lemma und_nil q und g s t ch pt :
  simulates q und g s -> g.(cf_threads) !! t = Some (ch, pt) ->
  in_read pt = true -> decoding pt = false -> und = [].
Proof.
  intros Hsim Ht Hr Hd. destruct (si_readers _ _ _ _ _ _ _ _ _ _ _ Hsim) as [Hpl Hone Htk].
  destruct kr eqn:Hk; [|by apply Hpl]. destruct Htk as [->|(t2 & a & Ha & Hda)]; [done|].
  assert (Hra : in_read a.2 = true) by by destruct (a.2) as [| | | | | | | | | |[]| | | | | |].
  assert (t2 = t) as -> by by eapply (Hone t2 a t (ch, pt)). rewrite Ht in Ha. injection Ha as <-.
  cbn in Hda. congruence.
Qed.

(** A read that finds the end. *)
Lemma end_next q und g s t pt l n f err e1 :
  simulates q und g s -> g.(cf_threads) !! t = Some (r, pt) -> g.(cf_chans) !! r = Some l ->
  s.(ab_calls) !! t = Some (r, A_receive) ->
  pt = R_length f /\ n = 4 \/ pt = R_body n f /\ (Z.of_nat n <= DEFAULT_MAX_ALLOWED_READ_BYTES)%Z ->
  length f < n -> pipe_fill p n f g.(cf_env) = Some (Err err, e1) ->
  follows q und g s t r pt (R_unlock (Err err)) l e1.
Proof.
  intros Hsim Ht Hl Hst Hpt Hlt Hfill. destruct (fill_err _ _ _ _ _ _ Hfill) as (-> & -> & Hend).
  assert (Hr : holds_reader pt = true /\ holds_writer pt = false /\ decoding pt = false /\ in_read pt = true)
    by by destruct Hpt as [[-> _]|[-> _]].
  destruct Hr as (Hhr & Hhw & Hd & Hin).
  pose proof (si_travels _ _ _ _ _ _ _ _ _ _ _ Hsim) as Htr.
  rewrite (sim_owner holds_reader lc_reader r g t pt) in Htr; [|apply Hsim|done|by eexists|done].
  destruct (taken_end p in_flight q und (Some pt) (owner_point lc_writer w g) g.(cf_env) n f) as [-> Htr']; [|done..|].
  { destruct Hpt as [[-> ->]|[-> Hmax]]; auto. }
  exists [], und, (A_done (R_result (Err NoData))), (set_stage t r (A_done (R_result (Err NoData))) s).
  split.
  - eapply a_one, a_end; [done|..].
    + by rewrite (si_queue _ _ _ _ _ _ _ _ _ _ _ Hsim).
    + by rewrite (si_closed _ _ _ _ _ _ _ _ _ _ _ Hsim), Hend.
  - eapply next_quiet; [done..|by right|]. rewrite bool_decide_eq_true_2, next_mine by done.
    by rewrite next_free.
Qed.

(** The payload is complete. *)
Lemma receive_next q g s t l n f :
  simulates q [] g s -> g.(cf_threads) !! t = Some (r, R_body n f) -> g.(cf_chans) !! r = Some l ->
  s.(ab_calls) !! t = Some (r, A_receive) ->
  length f = n -> n <> 0 -> (Z.of_nat n <= DEFAULT_MAX_ALLOWED_READ_BYTES)%Z ->
  follows q [] g s t r (R_body n f) (R_unlock (Ok f)) l g.(cf_env).
Proof.
  intros Hsim Ht Hl Hst Hlen Hn Hmax. pose proof (si_travels _ _ _ _ _ _ _ _ _ _ _ Hsim) as Htr.
  rewrite (sim_owner holds_reader lc_reader r g t (R_body n f)) in Htr; [|apply Hsim|done|by eexists|done].
  destruct (taken_whole _ _ _ _ _ _ _ _ Htr Hlen Hn Hmax) as (m & q' & -> & Htr').
  pose proof Htr as (tail & late & _ & _ & Hi & _ & _).
  assert (Henv : mkPipes g.(cf_env).(pp_pipes) g.(cf_env).(pp_rest) = g.(cf_env)) by by destruct (cf_env g).
  pose proof (sim_flags _ _ _ _ _ _ Hsim Hl) as Hf.
  assert (Hgo : forall und' , (kr = None -> und' = []) ->
    match kr with None => m = f | Some _ => und' = [(m, f)] end ->
    (forall late, in_flight g.(cf_env).(pp_rest) ([] ++ ((m, f) :: q') ++ late) ->
                  in_flight g.(cf_env).(pp_rest) (und' ++ q' ++ late)) ->
    follows ((m, f) :: q') [] g s t r (R_body n f) (R_unlock (Ok f)) l g.(cf_env)).
  { intros und' Hpl Hm Hin. exists q', und'; eexists _, _. split.
    - eapply a_one, a_receive; [done|]. by rewrite (si_queue _ _ _ _ _ _ _ _ _ _ _ Hsim).
    - split; [cbn; auto..|].
      + by rewrite insert_id.
      + apply Hsim.
      + split; [done|]. split; [done|]. by exists m.
      + rewrite bool_decide_eq_true_2, next_mine, next_free by done. cbn [holds_reader].
        specialize (Htr' und' _ Hin). by rewrite Henv in Htr'. }
  destruct kr_cases as [Hkr|[k Hkr]].
  - apply (Hgo []); [done| |]; rewrite ?Hkr.
    + destruct (ca_decode _ _ _ _ Hagree _ _ _ _ Hi) as (x' & Hx & _). rewrite Hkr in Hx. by destruct Hx.
    + intros late2 Hi2. destruct (ca_decode _ _ _ _ Hagree _ _ _ _ Hi2) as (x' & Hx & Hi'). rewrite Hkr in Hx.
      by destruct Hx as [_ <-].
  - apply (Hgo [(m, f)]); [by rewrite Hkr|by rewrite Hkr|]. done.
Qed.

(** The cipher gives the message back. *)
Lemma decode_next q g s t l m k raw pt' l' e' :
  simulates q [(m, raw)] g s -> g.(cf_threads) !! t = Some (r, R_decode k raw) ->
  g.(cf_chans) !! r = Some l -> s.(ab_calls) !! t = Some (r, A_done (R_result (Ok m))) -> kr = Some k ->
  thread_step t (R_decode k raw) l g.(cf_env) = Some (pt', l', e') ->
  follows q [(m, raw)] g s t r (R_decode k raw) pt' l' e'.
Proof.
  intros Hsim Ht Hl Hst Hkr Hs. pose proof (si_travels _ _ _ _ _ _ _ _ _ _ _ Hsim) as Htr.
  pose proof Htr as (tail & late & _ & _ & Hi & _ & _).
  destruct (ca_decode _ _ _ _ Hagree _ _ _ _ Hi) as (x' & Hx & _). rewrite Hkr in Hx.
  destruct Hx as [Hne Hdec]. cbn in Hs. rewrite Hdec in Hs. unfold decrypted in Hs.
  assert (is_nil m = false) as Hnil by by destruct m.
  rewrite Hnil in Hs. injection Hs as <- <- <-.
  pose proof (sim_flags _ _ _ _ _ _ Hsim Hl) as Hf.
  exists q, []; eexists _, _. split; [by eapply a_one, a_return|].
  split; [cbn; auto; try (by split); try apply Hsim..|].
  - by rewrite insert_id.
  - by rewrite Hkr.
  - rewrite !next_free by done. eapply travels_decode; [exact Htr|]. intros late2 Hi2.
    destruct (ca_decode _ _ _ _ Hagree _ _ _ _ Hi2) as (x2 & Hx2 & Hi2'). rewrite Hkr in Hx2.
    destruct Hx2 as [_ Hdec2]. rewrite Hdec in Hdec2. by injection Hdec2 as <-.
Qed.

(** What is known of a thread that is reading, before and after its step. *)
Record read_step q und g s t ch pt l pt' st : Prop := {
  re_channel : ch = r;
  re_stream : sc_stream (lc_chan l) = p;
  re_cipher : sc_cipher (lc_chan l) = kr;
  re_max : sc_max_allowed_read_bytes (lc_chan l) = DEFAULT_MAX_ALLOWED_READ_BYTES;
  re_und : decoding pt = false -> und = [];
  re_call : s.(ab_calls) !! t = Some (r, st);
  re_stands : stands und (r, pt) (r, st);
  re_reader o : next_point holds_reader (bool_decide (r = r)) pt pt' o =
    if holds_reader pt' then Some pt' else if holds_reader pt then None else o;
  re_writer o : next_point holds_writer (bool_decide (w = r)) pt pt' o = o;
  re_travels : travels q und (if holds_reader pt then Some pt else owner_point lc_reader r g)
    (owner_point lc_writer w g) g.(cf_env);
}.

Lemma read_facts q und g s t ch pt l pt' l' e' :
  simulates q und g s -> g.(cf_threads) !! t = Some (ch, pt) -> g.(cf_chans) !! ch = Some l ->
  thread_step t pt l g.(cf_env) = Some (pt', l', e') -> in_read pt = true ->
  exists st, read_step q und g s t ch pt l pt' st.
Proof.
  intros Hsim Ht Hl Hs Hpt. destruct (sim_stage _ _ _ _ _ _ _ Hsim Ht) as (st & Hst & Hstand).
  destruct (si_chans _ _ _ _ _ _ _ _ _ _ _ Hsim _ _ Hl) as (Hstream & _ & Hr).
  assert (ch = r) as ->.
  { destruct Hstand as [_ Hstand].
    by destruct pt as [| | | | | | | | | |[]| | | | | |]; try done; destruct Hstand. }
  destruct (Hr eq_refl) as [Hk Hmax]. exists st.
  pose proof (si_travels _ _ _ _ _ _ _ _ _ _ _ Hsim) as Htr. split; try done.
  - by eapply und_nil.
  - intros o. by rewrite bool_decide_eq_true_2.
  - intros o. apply next_free; [by destruct pt|].
    destruct pt; try done; cbn -[Nat.leb] in Hs; unfold measured in Hs; repeat case_match; by simplify_eq.
  - destruct (holds_reader pt) eqn:Hh; [|done].
    rewrite <-(sim_owner holds_reader lc_reader r g t pt); [done|apply Hsim|done|by eexists|done].
Qed.

(** The lock, and what comes after the bytes have been read. *)
Lemma read_locks q und g s t ch pt l pt' l' e' :
  simulates q und g s -> g.(cf_threads) !! t = Some (ch, pt) -> g.(cf_chans) !! ch = Some l ->
  thread_step t pt l g.(cf_env) = Some (pt', l', e') -> in_read pt = true ->
  match pt with R_lock | R_unlock _ | R_cipher _ | R_decode _ _ => True | _ => False end ->
  follows q und g s t ch pt pt' l' e'.
Proof.
  intros Hsim Ht Hl Hs Hin Hpt. pose proof (si_queue _ _ _ _ _ _ _ _ _ _ _ Hsim) as Hq.
  destruct (read_facts _ _ _ _ _ _ _ _ _ _ _ Hsim Ht Hl Hs Hin)
    as (st & [-> Hstream Hk _ _ Hst [_ Hstand] Hrp Hwp Htr]).
  pose proof (sim_flags _ _ _ _ _ _ Hsim Hl) as Hf.
  destruct pt as [| | | | | | | | | |x|raw|k raw| | | |]; try done; cbn in Hstand, Htr; cbn -[Nat.leb] in Hs.
  - destruct Hstand as (_ & ->). destruct (lc_reader l) eqn:Hlr; [done|]. injection Hs as <- <- <-.
    exists q, und, A_receive, (set_stage t r A_receive s). rewrite set_stage_id at 1 by done.
    split; [constructor|]. quiet. rewrite Hrp, Hwp. cbn.
    eapply travels_points; [..|exact Htr]; [|done..]. unfold owner_point. by rewrite Hl, Hlr.
  - destruct x as [raw|err].
    + destruct Hstand as (_ & m & -> & Hm). injection Hs as <- <- <-.
      exists q, und; eexists _, (set_stage t r _ s). rewrite set_stage_id at 1 by done.
      split; [constructor|]. eapply next_quiet; [done|done|done|done| |done|by left|].
      * split; [done|]. split; [done|]. by exists m.
      * by rewrite Hrp, Hwp.
    + destruct Hstand as (_ & ->). injection Hs as <- <- <-.
      exists q, und; eexists _, _. split; [by eapply a_one, a_return|].
      quiet. by rewrite Hrp, Hwp.
  - destruct Hstand as (_ & m & -> & Hm). rewrite Hk in Hs.
    destruct kr_cases as [Hkr|[k Hkr]]; rewrite Hkr in Hs, Hm; injection Hs as <- <- <-.
    + subst raw. exists q, und; eexists _, _. split; [by eapply a_one, a_return|].
      assert (und = []) as -> by by apply (si_readers _ _ _ _ _ _ _ _ _ _ _ Hsim).
      split; [cbn; auto; try (by split); try apply Hsim..|by apply travels_next with s].
      by rewrite insert_id.
    + exists q, und; eexists _, (set_stage t r _ s). rewrite set_stage_id at 1 by done.
      split; [constructor|]. eapply next_quiet; [done|done|done|done| |done|by left|].
      * split; [done|]. split; [done|]. by exists m.
      * by apply travels_next with s.
  - destruct Hstand as (_ & m & -> & Hkr & ->). by eapply decode_next.
Qed.

(** Bytes are taken towards the length or the payload. *)
Lemma fill_next q und g s t pt l n f f' e1 :
  simulates q und g s -> g.(cf_chans) !! r = Some l ->
  (pt = R_length f /\ n = 4 \/ pt = R_body n f /\ n <> 0 /\ (Z.of_nat n <= DEFAULT_MAX_ALLOWED_READ_BYTES)%Z) ->
  length f <= n -> pipe_fill p n f g.(cf_env) = Some (Ok f', e1) ->
  let pt' := match pt with R_length _ => R_length f' | _ => R_body n f' end in
  read_step q und g s t r pt l pt' A_receive ->
  follows q und g s t r pt pt' l e1.
Proof.
  intros Hsim Hl Hpt Hle Hfill pt' [_ _ _ _ _ Hst _ Hrp Hwp Htr].
  destruct (fill_length _ _ _ _ _ _ Hfill Hle) as (Hle' & Hc & _).
  exists q, und, A_receive, (set_stage t r A_receive s).
  rewrite set_stage_id at 1 by done.
  destruct Hpt as [[-> ->]|(-> & Hn & Hmax)]; subst pt'; cbn in Htr;
    (split; [constructor|]; eapply next_quiet; [done..|by right|]); rewrite Hrp, Hwp; cbn [holds_reader].
  - eapply (travels_fill _ _ _ _ (Some (R_length f))); [done| |by exists []|done]. intros b. cbn [taken].
    intros Hb. assert (b = []) as ->; [|done]. apply (f_equal length) in Hb. rewrite length_app in Hb.
    destruct b; [done|]. simpl in Hb. lia.
  - eapply (travels_fill _ _ _ _ (Some (R_body n f))); [done| |by eexists|done]. intros b. cbn [taken].
    intros ->%app_inv_tail. done.
Qed.

(** The length. *)
Lemma read_length q und g s t ch f l pt' l' e' :
  simulates q und g s -> g.(cf_threads) !! t = Some (ch, R_length f) -> g.(cf_chans) !! ch = Some l ->
  thread_step t (R_length f) l g.(cf_env) = Some (pt', l', e') ->
  follows q und g s t ch (R_length f) pt' l' e'.
Proof.
  intros Hsim Ht Hl Hs.
  destruct (read_facts _ _ _ _ _ _ _ _ _ _ _ Hsim Ht Hl Hs eq_refl) as (st & Hfacts).
  pose proof Hfacts as [-> Hstream _ Hmax Hund Hst [_ Hstand] Hrp Hwp Htr]. cbn in Hstand, Htr.
  destruct Hstand as (_ & Hle & ->). specialize (Hund eq_refl). cbn -[Nat.leb] in Hs. rewrite Hstream in Hs.
  destruct (Nat.leb_spec 4 (length f)) as [Hge|Hlt].
  - injection Hs as <- <- <-.
    destruct (taken_length _ _ _ _ _ _ _ Htr ltac:(lia)) as (c & [Hne Hc] & ->).
    unfold measured in *. rewrite be_length, Hmax in * by done.
    rewrite (proj2 (Z.ltb_ge _ _)), (proj2 (Z.ltb_ge _ _)) in * by lia. cbn [orb] in *.
    rewrite Nat2Z.id in *. exists q, und, A_receive, (set_stage t r A_receive s).
    rewrite set_stage_id at 1 by done. split; [constructor|].
    assert (length c <> 0) by (by destruct c). quiet. rewrite Hrp, Hwp. cbn [holds_reader].
    eapply travels_points; [..|exact Htr]; [|done..]. cbn [taken]. by rewrite app_nil_r.
  - destruct (pipe_fill p 4 f (cf_env g)) as [[[f'|err] e1]|] eqn:Hfill; [| |done]; injection Hs as <- <- <-.
    + by eapply (fill_next q und g s t (R_length f) l 4 f f'); eauto.
    + eapply end_next; eauto.
Qed.

(** The payload. *)
Lemma read_body q und g s t ch n f l pt' l' e' :
  simulates q und g s -> g.(cf_threads) !! t = Some (ch, R_body n f) -> g.(cf_chans) !! ch = Some l ->
  thread_step t (R_body n f) l g.(cf_env) = Some (pt', l', e') ->
  follows q und g s t ch (R_body n f) pt' l' e'.
Proof.
  intros Hsim Ht Hl Hs.
  destruct (read_facts _ _ _ _ _ _ _ _ _ _ _ Hsim Ht Hl Hs eq_refl) as (st & Hfacts).
  pose proof Hfacts as [-> Hstream _ _ Hund Hst [_ Hstand] _ _ _]. cbn in Hstand.
  destruct Hstand as (_ & Hle & Hn & Hbound & ->). specialize (Hund eq_refl). cbn -[Nat.leb] in Hs.
  rewrite Hstream in Hs. destruct (Nat.leb_spec n (length f)) as [Hge|Hlt].
  - injection Hs as <- <- <-. subst und. eapply receive_next; eauto; lia.
  - destruct (pipe_fill p n f (cf_env g)) as [[[f'|err] e1]|] eqn:Hfill; [| |done]; injection Hs as <- <- <-.
    + by eapply (fill_next q und g s t (R_body n f) l n f f'); eauto.
    + eapply end_next; eauto.
Qed.

Lemma reader_next q und g s t ch pt l pt' l' e' :
  simulates q und g s -> g.(cf_threads) !! t = Some (ch, pt) -> g.(cf_chans) !! ch = Some l ->
  thread_step t pt l g.(cf_env) = Some (pt', l', e') -> in_read pt = true ->
  follows q und g s t ch pt pt' l' e'.
Proof.
  intros Hsim Ht Hl Hs Hpt.
  destruct pt; try done; first [by eapply read_length|by eapply read_body|by eapply read_locks].
Qed.

(** ** Calls and runs *)

Lemma sim_step q und g s t evs g' :
  simulates q und g s -> do_step t g = Some (evs, g') ->
  exists q' und' s', a_run s evs s' /\ simulates q' und' g' s'.
Proof.
  intros Hsim Hd. pose proof Hd as (ch & pt & l & pt' & l' & e' & Ht & Hl & Hs & -> & Hg')%do_step_inv.
  enough (follows q und g s t ch pt pt' l' e') as (q' & und' & st' & s' & Hrun & Hnext).
  { exists q', und', s'. split; [done|]. by eapply sim_next. }
  destruct (in_read pt) eqn:Hr; [by eapply reader_next|].
  destruct pt; try done; first [by eapply writer_next | by eapply other_next].
Qed.

(** The owner of a lock is not a thread that is new. *)
Lemma owner_enter holds (owner : locked cph -> option nat) ch2 g t ch op evs g' :
  lock_ok holds owner g -> do_enter t ch op g = Some (evs, g') ->
  owner_point owner ch2 g' = owner_point owner ch2 g.
Proof.
  intros Hok (Hfresh & _ & _ & ->)%do_enter_inv. unfold owner_point. cbn.
  destruct (cf_chans g !! ch2) as [l2|] eqn:Hl2; [|done].
  destruct (owner l2) as [t2|] eqn:Ho; [|done].
  apply (Hok _ _ _ Hl2) in Ho as (pt & Ht2 & _). rewrite lookup_insert_ne; [done|].
  intros <-. by rewrite Hfresh in Ht2.
Qed.

Lemma sim_enter q und g s t ch op evs g' :
  simulates q und g s -> do_enter t ch op g = Some (evs, g') ->
  call_ok w r kr message_ok ch op g ->
  exists s', a_run s evs s' /\ simulates q und g' s'.
Proof.
  intros Hsim Hd Hok. pose proof Hsim as [Hlo Hch Hfl Hcl Hq Hth [Hpl Hone Htk] Htr].
  assert (Hlo' : locks_ok g') by by eapply (do_one_locks (Enter t ch op)).
  pose proof (owner_enter _ _ r _ _ _ _ _ _ (lo_reader _ Hlo) Hd) as Hor.
  pose proof (owner_enter _ _ w _ _ _ _ _ _ (lo_writer _ Hlo) Hd) as How.
  apply do_enter_inv in Hd as (Hfresh & _ & -> & ->).
  assert (Hnew : s.(ab_calls) !! t = None).
  { specialize (Hth t). rewrite Hfresh in Hth. by inversion Hth. }
  exists (set_stage t ch (a_start op) s). split; [by apply a_one, a_call|].
  split; try done; cbn.
  - intros t2. destruct (decide (t2 = t)) as [->|Hne]; [|rewrite !lookup_insert_ne by done; apply Hth].
    rewrite !lookup_insert_eq. constructor. destruct op; cbn in *; by repeat split; destruct Hok.
  - split; [done| |].
    + intros t1 a1 t2 a2 Hk. cbn. intros [[<- <-]|[Hn1 H1]]%lookup_insert_Some Hr1
        [[<- <-]|[Hn2 H2]]%lookup_insert_Some Hr2; [done| | |by eapply (Hone t1 a1 t2 a2)];
        destruct op; try done; destruct Hok as [_ [?|Hno]]; try done.
      * by rewrite (Hno _ _ H2) in Hr2.
      * by rewrite (Hno _ _ H1) in Hr1.
    + destruct Htk as [->|(t2 & a & Ha & Hda)]; [by left|right]. exists t2, a. cbn.
      rewrite lookup_insert_ne; [done|]. intros <-. by rewrite Hfresh in Ha.
  - by rewrite Hor, How.
Qed.

Lemma a_run_app s evs s' evs' s'' : a_run s evs s' -> a_run s' evs' s'' -> a_run s (evs ++ evs') s''.
Proof. induction 1; [done|]. intros Hr. rewrite <-app_assoc. eapply a_more; eauto. Qed.

Lemma sim_run mvs q und g s evs g' :
  simulates q und g s -> calls_ok w r kr message_ok mvs g -> do_all mvs g = Some (evs, g') ->
  exists q' und' s', a_run s evs s' /\ simulates q' und' g' s'.
Proof.
  revert q und g s evs. induction mvs as [|mv mvs IH]; intros q und g s evs Hsim Hok; cbn.
  - intros [= <- <-]. exists q, und, s. by split; [constructor|].
  - destruct Hok as [Hmv Hok]. destruct (do_one mv g) as [[evs1 g1]|] eqn:Hd; [|done].
    destruct (do_all mvs g1) as [[evs2 g2]|] eqn:Hds; [|done]. intros [= <- <-].
    assert (exists q1 und1 s1, a_run s evs1 s1 /\ simulates q1 und1 g1 s1)
      as (q1 & und1 & s1 & Hr1 & Hsim1).
    { destruct mv as [t ch op|t]; [|by eapply sim_step].
      destruct (sim_enter _ _ _ _ _ _ _ _ _ Hsim Hd Hmv) as (s1 & ? & ?). by exists q, und, s1. }
    destruct (IH _ _ _ _ _ Hsim1 Hok Hds) as (q2 & und2 & s2 & Hr2 & Hsim2).
    exists q2, und2, s2. split; [|done]. by eapply a_run_app.
Qed.

(** Where it starts: no thread, and an open and empty pipe. *)
Record fresh_pipe g : Prop := {
  fr_idle : idle g;
  fr_chans ch l : g.(cf_chans) !! ch = Some l -> chan_ok p w r kw kr ch l;
  fr_pipe : pipe_state p g.(cf_env) = mkPipeState [] false;
  fr_in_flight : in_flight g.(cf_env).(pp_rest) [];
}.

Definition a_fresh g : abstract := mkAbstract [] false (flags_of <$> g.(cf_chans)) ∅.

Lemma sim_fresh g : fresh_pipe g -> simulates [] [] g (a_fresh g).
Proof.
  intros [Hid Hch Hp Hi]. assert (Hno : forall owner ch, (forall ch l, cf_chans g !! ch = Some l -> owner l = None) ->
    owner_point owner ch g = None).
  { intros owner ch Ho. unfold owner_point. destruct (cf_chans g !! ch) as [l|] eqn:Hl; [|done].
    by rewrite (Ho _ _ Hl). }
  split; cbn; try done.
  - by apply idle_locks.
  - by rewrite Hp.
  - intros t. rewrite (id_threads _ Hid). constructor.
  - split; [done| |by left]. intros t1 a1 t2 a2 _. by rewrite (id_threads _ Hid).
  - rewrite !Hno by (intros ch l Hl; by destruct (id_locks _ Hid _ _ Hl)).
    exists [], []. rewrite Hp. split_and!; [done..|by left|done].
Qed.
End steps.

(** Without a cipher, the calls may overlap as they like. *)
Definition plain_call (w r : N) (message_ok : bytes -> Prop) (mv : move) : Prop :=
  match mv with
  | Enter _ ch (Write m) => ch = w /\ message_ok m
  | Enter _ ch Read => ch = r
  | _ => True
  end.

Lemma calls_ok_plain {X cph} `{Cipher X cph} `{Codec} w r message_ok mvs (g : config X cph) :
  Forall (plain_call w r message_ok) mvs -> calls_ok w r None message_ok mvs g.
Proof.
  revert g. induction mvs as [|mv mvs IH]; intros g; [done|].
  intros [Hmv Hmvs]%Forall_cons. split.
  - destruct mv as [t ch []|t]; cbn in *; auto.
  - destruct (do_one mv g) as [[evs g']|]; [by apply IH|done].
Qed.

(** ** Messages *)

Lemma carried_insert t a m :
  carried_all (<[t := a]> m) ≡ₚ carried a.2 ++ carried_all (delete t m).
Proof.
  unfold carried_all. rewrite <-insert_delete_eq.
  by rewrite (map_to_list_insert _ _ _ (lookup_delete_eq _ _)).
Qed.

Lemma carried_lookup t a m :
  m !! t = Some a -> carried_all m ≡ₚ carried a.2 ++ carried_all (delete t m).
Proof. intros Ht. rewrite <-carried_insert. by rewrite insert_id. Qed.

(** No step adds a message that no call brought. *)
Lemma a_step_messages s evs s' :
  a_step s evs s' ->
  received evs ++ carried_all s'.(ab_calls) ++ s'.(ab_queue) ⊆+
  written evs ++ carried_all s.(ab_calls) ++ s.(ab_queue).
Proof.
  assert (Hset : forall t ch st st0 q q', s.(ab_calls) !! t = Some (ch, st0) ->
    forall evs, received evs ++ carried st ++ q' ⊆+ written evs ++ carried st0 ++ q ->
    received evs ++ carried_all (<[t := (ch, st)]> s.(ab_calls)) ++ q' ⊆+
    written evs ++ carried_all s.(ab_calls) ++ q).
  { intros t ch st st0 q q' Ht evs0 Hsub. rewrite carried_insert, (carried_lookup t _ _ Ht). cbn.
    set (rest := carried_all _).
    transitivity (rest ++ received evs0 ++ carried st ++ q'); [apply Permutation_submseteq; solve_Permutation|].
    transitivity (rest ++ written evs0 ++ carried st0 ++ q); [by apply submseteq_skips_l|].
    apply Permutation_submseteq; solve_Permutation. }
  intros Hs. destruct Hs as [t ch op Ht| | | |t ch m q Ht Hq| | | | | | t ch x Ht]; cbn.
  1: { rewrite carried_insert, delete_id by done. cbn. apply Permutation_submseteq.
       destruct op; cbn; solve_Permutation. }
  10: { apply (Hset t ch _ _ _ _ Ht [Answered t x]). cbn. by destruct x as [| [] |]. }
  all: eapply (Hset _ _ _ _ _ _ ltac:(eassumption) []); cbn; auto.
  - apply Permutation_submseteq. solve_Permutation.
  - by apply submseteq_cons.
  - by rewrite Hq.
Qed.

Lemma a_run_messages s evs s' :
  a_run s evs s' ->
  received evs ++ carried_all s'.(ab_calls) ++ s'.(ab_queue) ⊆+
  written evs ++ carried_all s.(ab_calls) ++ s.(ab_queue).
Proof.
  induction 1 as [s|s evs s1 evs' s2 Hs Hr IH]; [done|]. unfold received, written in *.
  rewrite !bind_app, <-!app_assoc. etransitivity; [by apply submseteq_skips_l|].
  pose proof (a_step_messages _ _ _ Hs) as Hm. unfold received, written in Hm.
  rewrite !(app_assoc (evs ≫= read_by)), (Permutation_app_comm (evs ≫= read_by)), <-app_assoc.
  etransitivity; [by apply submseteq_skips_l|]. apply Permutation_submseteq. solve_Permutation.
Qed.

(** Messages that are not empty, without ciphers. *)
Lemma plain_fits {X cph} `{Cipher X cph} :
  ciphers_agree (X := X) (cph := cph) None None
    (fun m => m <> [] /\ Z.of_nat (length m) <= DEFAULT_MAX_ALLOWED_READ_BYTES)%Z
    (fun _ q => Forall (fun p => p.2 = p.1 /\ p.1 <> []) q).
Proof.
  split.
  - intros x q p Hq [Hne Hp]. exists p, x. split_and!; [done|done|].
    apply Forall_app. split; [done|]. by constructor.
  - intros x q p c Hq. apply Forall_cons in Hq as [[Hc Hne] Hq]. by exists x.
Qed.

Lemma counted_fits s q : counted s q -> Forall (fun pc => pc.2 <> []) q.
Proof.
  intros [_ Hq]. apply Forall_lookup_2. intros i pc Hi. destruct (Hq _ _ Hi) as [_ ->]. done.
Qed.

(** * Properties *)

(** C25. Where one channel is written and one is read (it may be the same one), both
    over one pipe that is new, no message's frame is empty, and, if the reader has a
    cipher, its reads do not overlap: there the writes, reads, pauses and closes, by
    any number of threads and however their steps interleave, are those of a queue.
    What is seen of the calls and answers is what an atomic machine may show, where a
    write passes its channel's pause and then, at one moment between its call and its
    return, appends its message to the queue, or answers Io because the stream is
    closed; a read takes, at one moment, the oldest message whole, or answers NoData
    because the stream is closed and the queue empty; and a close raises its flag
    once and then closes the stream.  In particular no message is received that was
    not written, or more often than it was.  Without each of the three conditions
    this fails, as [two_writers_torn], [empty_message_torn] and
    [overlapping_reads_refused] show. *)
Theorem concurrent_calls_linearize {X cph} `{Cipher X cph} `{Codec} (p : PipeArc) (w r : N)
    (kw kr : option cph) (message_ok : bytes -> Prop) (in_flight : X -> list (bytes * bytes) -> Prop)
    (mvs : list move) (evs : list event) (g g' : config X cph) :
  ciphers_agree kw kr message_ok in_flight ->
  (forall x q, in_flight x q -> Forall (fun pc => pc.2 <> []) q) ->
  fresh_pipe p w r kw kr in_flight g -> calls_ok w r kr message_ok mvs g ->
  do_all mvs g = Some (evs, g') ->
  (exists s, a_run (a_fresh g) evs s) /\ received evs ⊆+ written evs.
Proof.
  intros Hag Hne Hfr Hok Hrun.
  destruct (sim_run p w r kw kr message_ok in_flight Hag Hne mvs [] [] g (a_fresh g) evs g'
    (sim_fresh _ _ _ _ _ _ _ _ Hfr) Hok Hrun) as (_ & _ & s & Hs & _).
  split; [by exists s|]. pose proof (a_run_messages _ _ _ Hs) as Hm. cbn in Hm.
  unfold carried_all in Hm at 2. rewrite map_to_list_empty, !app_nil_r in Hm. cbn in Hm.
  etransitivity; [|exact Hm]. by apply submseteq_inserts_r.
Qed.

(** Two writes whose steps alternate, and a read that begins before the bytes are
    there. *)
Definition alternating : list move :=
  [Enter 0 0 (Write (str_bytes "a")); Enter 1 0 (Write (str_bytes "b")); Enter 2 0 Read;
   Step 0; Step 1; Step 1; Step 2; Step 1; Step 1; Step 2; Step 2; Step 1; Step 2; Step 1; Step 1;
   Step 0; Step 2; Step 0; Step 0; Step 2; Step 0; Step 2; Step 0; Step 0].

Definition alternating_events : list event :=
  [Called 0 0 (Write (str_bytes "a")); Called 1 0 (Write (str_bytes "b")); Called 2 0 Read;
   Answered 1 (R_exception Success); Answered 2 (R_result (Ok (str_bytes "b")));
   Answered 0 (R_exception Success)].

Lemma concurrent_calls_linearize_witness :
  (exists g', do_all alternating (lone [] false []) = Some (alternating_events, g')) /\
  exists s, a_run (a_fresh (lone [] false [])) alternating_events s.
Proof.
  assert (Hev : match do_all alternating (lone [] false []) with
    | Some (evs, _) => Some evs | None => None end = Some alternating_events) by (vm_compute; reflexivity).
  destruct (do_all alternating (lone [] false [])) as [[evs g']|] eqn:Hrun; [|discriminate Hev].
  injection Hev as ->.
  split; [by exists g'|].
  apply (concurrent_calls_linearize (mkPipeArc 0) 0 0 None None _ _ alternating alternating_events
    (lone [] false []) g' plain_fits).
  - intros x q Hq. eapply Forall_impl; [exact Hq|]. by intros [m c] [-> Hne].
  - split; [apply lone_idle| |reflexivity|constructor].
    intros ch l. cbn. intros [<- <-]%lookup_singleton_Some.
    split; [reflexivity|split; intros _; split; reflexivity].
  - apply calls_ok_plain. repeat constructor; discriminate.
  - exact Hrun.
Defined.

(** ** What the hypotheses are for *)

(** An empty message may be read although its write answers Io: its frame is
    complete before its payload is written. *)
Lemma empty_message_torn :
  exists g', do_all [Enter 0 0 (Write []); Step 0; Step 0; Step 0; Step 0; Enter 1 0 Read; Step 1; Step 1;
      Step 1; Step 1; Step 1; Step 1; Enter 2 0 Close; Step 2; Step 2; Step 0; Step 0]
    (lone [] false []) =
    Some ([Called 0 0 (Write []); Called 1 0 Read; Answered 1 (R_result (Ok [])); Called 2 0 Close;
           Answered 2 R_unit; Answered 0 (R_exception Io)], g').
Proof. eexists. vm_compute. reflexivity. Qed.

(** Two channels over one pipe have a lock each, so their frames may be written into
    each other, and a message is read that nobody wrote. *)
Definition two_channels : config (Z * Z) unit :=
  mkConfig {[0%N := lone_channel false; 1%N := lone_channel false]}
    (mkPipes {[0%N := mkPipeState [] false]} (0%Z, 0%Z)) ∅.

Lemma two_writers_torn :
  exists g', do_all ([Enter 0 0 (Write (str_bytes "a"))] ++ replicate 4 (Step 0) ++
                     [Enter 1 1 (Write (str_bytes "b"))] ++ replicate 4 (Step 1) ++
                     [Enter 2 0 Read] ++ replicate 7 (Step 2)) two_channels =
    Some ([Called 0 0 (Write (str_bytes "a")); Called 1 1 (Write (str_bytes "b")); Called 2 0 Read;
           Answered 2 (R_result (Ok [x00]))], g').
Proof. eexists. vm_compute. reflexivity. Qed.

(** A channel whose cipher counts, with two messages under way. *)
Definition counting_channel : config (Z * Z) unit :=
  mkConfig
    {[0%N := mkLocked (set_sc_cipher (Some tt) (StreamChannel_new "A" "pipe" WifiLan (mkPipeArc 0))) None None]}
    (mkPipes {[0%N := mkPipeState (framed (x00 :: str_bytes "a") ++ framed (x01 :: str_bytes "b")) false]}
       (2%Z, 0%Z)) ∅.

(** Reads that overlap may decode in another order than they took, because the
    cipher is called after the reader's lock is given back: a cipher that counts
    refuses a message that arrived intact. *)
Lemma overlapping_reads_refused :
  exists g', do_all ([Enter 0 0 Read; Enter 1 0 Read] ++ replicate 6 (Step 0) ++ replicate 8 (Step 1) ++ [Step 0; Step 0])
    counting_channel =
    Some ([Called 0 0 Read; Called 1 0 Read; Answered 1 (R_result (Err InvalidProtocolBuffer));
           Answered 0 (R_result (Ok (str_bytes "a")))], g').
Proof. eexists. vm_compute. reflexivity. Qed.
