(* ===== verification/StreamSteps.v ===== *)
(** What the calls on a stream channel keep of the state behind it, and the
    faults they can end in, from what the calls on its stream and its cipher keep. *)

From Stdlib Require Import ZArith Lia.
From S2P Require Import Prelude.
From S2P Require Import Mediums.
From S2P Require Import Proto.
From S2P Require Import Codec.
From S2P Require Import Frames.
From S2P Require Import Channel.
From S2P Require Import StreamChannel.

(** * Definitions *)

(** The calls on the streams and the ciphers keep [I], and end only in the faults
    of [E]. *)
Class StreamKeeps (env strm cph : Type) `{Cipher env cph} `{DuplexStream env strm}
    (E : fault -> Prop) (I : env -> Prop) : Prop := {
  sk_encode k p e : I e -> wp E (ci_encode k p) (fun _ => I) e;
  sk_decode k p e : I e -> wp E (ci_decode k p) (fun _ => I) e;
  sk_read (s : strm) n e : I e -> wp E (ds_read_exact s n) (fun _ => I) e;
  sk_write (s : strm) bs e : I e -> wp E (ds_write_all s bs) (fun _ => I) e;
  sk_flush (s : strm) e : I e -> wp E (ds_flush s) (fun _ => I) e;
  sk_close (s : strm) e : I e -> wp E (ds_close s) (fun _ => I) e;
}.

(** * Lemmas *)

Section keeps.
Context {env strm cph : Type} `{Cipher env cph} `{DuplexStream env strm} `{Codec}.
Context (E : fault -> Prop) (I : env -> Prop) `{!StreamKeeps env strm cph E I}.
Context (HB : E Blocked).

Abbreviation MC := (M (StreamChannel strm cph * env)).

(** A call on a channel that keeps [I]. *)
Definition channel_keeps {A} (m : MC A) : Prop :=
  forall s, I s.2 -> wp E m (fun _ s' => I s'.2) s.

Lemma wp_under {A} (m : M env A) (Q : A -> StreamChannel strm cph * env -> Prop) s :
  wp E m (fun _ => I) s.2 -> (forall a e, I e -> Q a (s.1, e)) -> wp E (under m) Q s.
Proof.
  unfold wp, under. destruct (m _) as [[a e]|f]; [|done]. intros Hi HQ. by apply HQ.
Qed.

(** One step of a channel's call. *)
Ltac channel_step :=
  lazymatch goal with
  | |- wp _ (field _) _ _ => apply wp_gets
  | |- wp _ (update _) _ _ => apply wp_modify
  | |- wp _ (under (ci_encode _ _)) _ _ => apply wp_under; [by apply sk_encode|intros]
  | |- wp _ (under (ci_decode _ _)) _ _ => apply wp_under; [by apply sk_decode|intros]
  | |- wp _ (under (ds_read_exact _ _)) _ _ => apply wp_under; [by apply sk_read|intros]
  | |- wp _ (under (ds_write_all _ _)) _ _ => apply wp_under; [by apply sk_write|intros]
  | |- wp _ (under (ds_flush _)) _ _ => apply wp_under; [by apply sk_flush|intros]
  | |- wp _ (under (ds_close _)) _ _ => apply wp_under; [by apply sk_close|intros]
  | |- wp _ (if ?b then _ else _) _ _ => destruct b
  | |- wp _ (match ?x with _ => _ end) _ _ => destruct x
  | _ => wp_step
  end.

Lemma read_raw_keeps : channel_keeps read_raw.
Proof. intros s Hs. unfold read_raw. by repeat channel_step. Qed.

Lemma sc_read_keeps : channel_keeps sc_read.
Proof.
  intros s Hs. unfold sc_read. apply wp_bind. eapply wp_mono; [by apply read_raw_keeps|done|].
  intros [raw|e] s' Hs'; by repeat channel_step.
Qed.

Lemma write_payload_keeps payload : channel_keeps (write_payload payload).
Proof. intros s Hs. unfold write_payload. by repeat channel_step. Qed.

Lemma sc_write_keeps data : channel_keeps (sc_write data).
Proof.
  intros s Hs. unfold sc_write. do 3 channel_step; [done|]. do 3 channel_step.
  destruct (sc_cipher s.1).
  - apply wp_under; [by apply sk_encode|]. intros [p|] e He; [by apply write_payload_keeps|by apply wp_ret].
  - apply wp_ret. by apply write_payload_keeps.
Qed.

Lemma do_close_keeps : channel_keeps do_close.
Proof. intros s Hs. unfold do_close. by repeat channel_step. Qed.

(** The same for the shared channels. *)
Lemma arc_op_keeps {A} (m : MC A) c h :
  channel_keeps m -> I h.(sh_env) -> wp E (arc_op m c) (fun _ h' => I h'.(sh_env)) h.
Proof.
  intros Hm Hh. unfold wp, arc_op. destruct (sh_channels h !! arc_id c) as [s|]; [|done].
  specialize (Hm (s, sh_env h) Hh). unfold wp in Hm. by destruct (m _) as [[a [s' e]]|f].
Qed.

Lemma channel_call_keeps (h h' : StreamHeap env strm cph) :
  channel_call h h' -> I h.(sh_env) -> I h'.(sh_env).
Proof.
  intros Hc Hh.
  assert (Hk : forall A (m : MC A) c r, channel_keeps m -> runs_to (arc_op m c) h r h' -> I h'.(sh_env)).
  { intros A m c r Hm Hrun. pose proof (arc_op_keeps m c h Hm Hh) as Hw. unfold wp in Hw.
    by rewrite Hrun in Hw. }
  destruct Hc as [c e r e' Hr|c d e r e' Hr|c e r e' Hr|c d e r e' Hr|c d e r e' Hr|c e r e' Hr
    |c e r e' Hr|c e r e' Hr]; (eapply Hk; [|exact Hr]);
    first [apply sc_read_keeps|apply sc_write_keeps|apply do_close_keeps|by intros s Hs].
Qed.
End keeps.

(** The faults of the calls on shared channels. *)
Lemma stream_channel_faults {env strm cph} `{Cipher env cph} `{DuplexStream env strm} `{Codec}
    (E : fault -> Prop) :
  E Blocked -> StreamKeeps env strm cph E (fun _ => True) ->
  ChannelFaults (StreamHeap env strm cph) StreamArc E.
Proof.
  intros HB HK.
  assert (Hk : forall A (m : M (StreamChannel strm cph * env) A) c h,
    channel_keeps E (fun _ => True) m -> wp E (arc_op m c) (fun _ _ => True) h).
  { intros A m c h Hm. eapply wp_mono; [by apply (arc_op_keeps E (fun _ => True))|done|done]. }
  split; intros; apply Hk;
    first [by apply sc_read_keeps|by apply sc_write_keeps|by apply do_close_keeps|by intros s Hs].
Qed.

(** The medium and the service of a shared channel are fixed, and pausing works
    on the channel it is called on. *)
Section laws.
Context {env strm cph : Type} `{Cipher env cph} `{DuplexStream env strm} `{Codec}.

Abbreviation MC := (M (StreamChannel strm cph * env)).

(** What a call on a channel leaves of it. *)
Definition fixed_fields (s s' : StreamChannel strm cph) : Prop :=
  s'.(sc_medium) = s.(sc_medium) /\ s'.(sc_service_id) = s.(sc_service_id) /\
  s'.(sc_name) = s.(sc_name) /\ s'.(sc_max_allowed_read_bytes) = s.(sc_max_allowed_read_bytes).

Definition call_fixes {A} (m : MC A) : Prop :=
  forall s, wp (fun _ => True) m (fun _ s' => fixed_fields s.1 s'.1) s.

Lemma wp_under_any {A} (m : M env A) (Q : A -> StreamChannel strm cph * env -> Prop) s :
  (forall a e, Q a (s.1, e)) -> wp (fun _ => True) (under m) Q s.
Proof. intros HQ. unfold wp, under. by destruct (m _) as [[a e]|f]. Qed.

Ltac fixed_step :=
  lazymatch goal with
  | |- wp _ (field _) _ _ => apply wp_gets
  | |- wp _ (update _) _ _ => apply wp_modify
  | |- wp _ (under _) _ _ => apply wp_under_any; intros
  | |- wp _ (if ?b then _ else _) _ _ => destruct b
  | |- wp _ (match ?x with _ => _ end) _ _ => destruct x
  | _ => wp_step
  end.

Lemma sc_read_fixes : call_fixes sc_read.
Proof. intros s. unfold sc_read, read_raw. by repeat fixed_step. Qed.

Lemma sc_write_fixes data : call_fixes (sc_write data).
Proof. intros s. unfold sc_write, write_payload. by repeat fixed_step. Qed.

Lemma do_close_fixes : call_fixes do_close.
Proof. intros s. unfold do_close. by repeat fixed_step. Qed.

Lemma arc_op_at {A} (m : MC A) c h a h' :
  runs_to (arc_op m c) h a h' ->
  exists s s' e, h.(sh_channels) !! c.(arc_id) = Some s /\ runs_to m (s, h.(sh_env)) a (s', e) /\
    h'.(sh_channels) = <[c.(arc_id) := s']> h.(sh_channels).
Proof.
  unfold runs_to, arc_op. destruct (sh_channels h !! arc_id c) as [s|]; [|done].
  destruct (m (s, sh_env h)) as [[a' [s' e]]|f] eqn:Hm; [|done]. intros [= <- <-].
  by exists s, s', e.
Qed.

(** A field that a call does not write is the same on every channel. *)
Lemma arc_get_fixed {A B} (m : MC A) (g : StreamChannel strm cph -> B) d c c' h a h' :
  runs_to (arc_op m c) h a h' ->
  (forall s s' e e', runs_to m (s, e) a (s', e') -> g s' = g s) ->
  arc_get g d c' h' = arc_get g d c' h.
Proof.
  intros Hrun Hg. apply arc_op_at in Hrun as (s & s' & e & Hs & Hm & Hc).
  unfold arc_get. rewrite Hc. destruct (decide (arc_id c' = arc_id c)) as [->|Hne].
  - rewrite lookup_insert_eq, Hs. by eapply Hg.
  - by rewrite lookup_insert_ne by done.
Qed.

(** A call on a shared channel keeps every channel, with those fields. *)
Lemma arc_op_fixes {A} (m : MC A) c h a h' :
  call_fixes m -> runs_to (arc_op m c) h a h' ->
  forall id s, h.(sh_channels) !! id = Some s ->
    exists s', h'.(sh_channels) !! id = Some s' /\ fixed_fields s s'.
Proof.
  intros Hm Hrun id s0 Hs0. apply arc_op_at in Hrun as (s & s' & e & Hs & Hr & ->).
  destruct (decide (id = arc_id c)) as [->|Hne].
  - rewrite Hs0 in Hs. injection Hs as ->. exists s'. rewrite lookup_insert_eq. split; [done|].
    specialize (Hm (s, sh_env h)). unfold wp in Hm. by rewrite Hr in Hm.
  - exists s0. by rewrite lookup_insert_ne.
Qed.

(** It makes none. *)
Lemma arc_op_makes_none {A} (m : MC A) c h a h' id s' :
  runs_to (arc_op m c) h a h' -> h'.(sh_channels) !! id = Some s' -> is_Some (h.(sh_channels) !! id).
Proof.
  intros Hrun Hs'. apply arc_op_at in Hrun as (s & s1 & e & Hs & _ & Hc). rewrite Hc in Hs'.
  apply lookup_insert_Some in Hs' as [[<- _]|[_ Hl]]; by eexists.
Qed.

Lemma call_keeps_channels (h h' : StreamHeap env strm cph) :
  channel_call h h' ->
  (forall id s, h.(sh_channels) !! id = Some s ->
     exists s', h'.(sh_channels) !! id = Some s' /\ fixed_fields s s') /\
  (forall id s', h'.(sh_channels) !! id = Some s' -> is_Some (h.(sh_channels) !! id)).
Proof.
  assert (Hk : forall A (m : MC A) c0 h h' r, call_fixes m -> runs_to (arc_op m c0) h r h' ->
    (forall id s, h.(sh_channels) !! id = Some s ->
       exists s', h'.(sh_channels) !! id = Some s' /\ fixed_fields s s') /\
    (forall id s', h'.(sh_channels) !! id = Some s' -> is_Some (h.(sh_channels) !! id))).
  { intros A m c0 h1 h2 r Hm Hrun. split; intros; [by eapply arc_op_fixes|by eapply arc_op_makes_none]. }
  intros Hc. destruct Hc as [c0 h1 r h2 Hr|c0 d h1 r h2 Hr|c0 h1 r h2 Hr|c0 d h1 r h2 Hr
    |c0 d h1 r h2 Hr|c0 h1 r h2 Hr|c0 h1 r h2 Hr|c0 h1 r h2 Hr]; (eapply Hk; [|exact Hr]);
    first [apply sc_read_fixes|apply sc_write_fixes|apply do_close_fixes|by intros s].
Qed.

Lemma call_fixed (h h' : StreamHeap env strm cph) c :
  channel_call h h' ->
  ch_medium c h' = ch_medium c h /\ ch_service_id c h' = ch_service_id c h.
Proof.
  assert (Hk : forall A (m : MC A) c0 h h' r, call_fixes m -> runs_to (arc_op m c0) h r h' ->
    ch_medium c h' = ch_medium c h /\ ch_service_id c h' = ch_service_id c h).
  { intros A m c0 h1 h2 r Hm Hrun.
    split; simpl; eapply arc_get_fixed; try exact Hrun; intros s s' e e' Hr;
      specialize (Hm (s, e)); unfold wp in Hm; rewrite Hr in Hm; apply Hm. }
  intros Hc. destruct Hc as [c0 h1 r h2 Hr|c0 d h1 r h2 Hr|c0 h1 r h2 Hr|c0 d h1 r h2 Hr
    |c0 d h1 r h2 Hr|c0 h1 r h2 Hr|c0 h1 r h2 Hr|c0 h1 r h2 Hr]; (eapply Hk; [|exact Hr]);
    first [apply sc_read_fixes|apply sc_write_fixes|apply do_close_fixes|by intros s].
Qed.

#[export] Instance StreamChannel_laws : EndpointChannelLaws (StreamHeap env strm cph) StreamArc.
Proof.
  split.
  - intros c h h' Hc. apply (call_fixed h h' c Hc).
  - intros c h h' Hc. apply (call_fixed h h' c Hc).
  - intros c h r h' Hr. apply arc_op_at in Hr as (s & s' & e & Hs & Hm & Hc). simpl.
    unfold arc_get. rewrite Hc, lookup_insert_eq. by injection Hm as _ <- _.
  - intros c h r h' Hr. apply arc_op_at in Hr as (s & s' & e & Hs & Hm & Hc). simpl.
    unfold arc_get. rewrite Hc, lookup_insert_eq. by injection Hm as _ <- _.
Qed.
End laws.
