(* ===== verification/Ipv4.v ===== *)
(** [std::net::Ipv4Addr] and [SocketAddr], as far as the TCP handlers use them:
    the octets, the printed form and its parser. *)

From Stdlib Require Import NArith ZArith Lia.
From Stdlib Require Import Strings.Byte.
From S2P Require Import Prelude.
From S2P Require Import Utf8.
From S2P Require Import Text.
From S2P Require Import Validator.
From S2P Require Import ValidatorSpec.

(** * Data *)

Record Ipv4Addr : Type := mkIpv4 {
  ip_a : Byte.byte;
  ip_b : Byte.byte;
  ip_c : Byte.byte;
  ip_d : Byte.byte;
}.

(** [SocketAddr] over IPv4; the port is a [u16]. *)
Record SocketAddr : Type := mkSocketAddr { sock_ip : Ipv4Addr; sock_port : Z }.

#[export] Instance Ipv4Addr_eq_dec : EqDecision Ipv4Addr.
Proof. solve_decision. Defined.

#[export] Instance SocketAddr_eq_dec : EqDecision SocketAddr.
Proof. solve_decision. Defined.

(** [Ipv4Addr::LOCALHOST]. *)
Definition LOCALHOST : Ipv4Addr := mkIpv4 x7f x00 x00 x01.

(** [octets]. *)
Definition octets (a : Ipv4Addr) : bytes := [a.(ip_a); a.(ip_b); a.(ip_c); a.(ip_d)].

(** * Printing and parsing *)

(** A value below ten as its digit. *)
Definition digit_byte (n : N) : Byte.byte := default x30 (Byte.of_N (48 + n)%N).

(** An octet in decimal, without leading zeros. *)
Definition show_octet (b : Byte.byte) : bytes :=
  let n := byte_val b in
  if (n <? 10)%N then [digit_byte n]
  else if (n <? 100)%N then [digit_byte (n / 10); digit_byte (n mod 10)]
  else [digit_byte (n / 100); digit_byte (n / 10 mod 10); digit_byte (n mod 10)].

(** [to_string]. *)
Definition ipv4_to_string (a : Ipv4Addr) : string :=
  bytes_str (join_byte x2e (show_octet <$> octets a)).

(** A number of the parser: one to three decimal digits, no leading zero but for
    zero itself, and at most 255. *)
Definition parse_octet (o : bytes) : option Byte.byte :=
  if is_nil o || (3 <? length o)%nat || negb (forallb is_ascii_digit o) then None
  else
    match o with
    | x30 :: _ :: _ => None
    | _ => match parse_u16 o with Some n => Byte.of_N n | None => None end
    end.

(** [parse::<Ipv4Addr>().ok()]: four numbers with dots between them. *)
Definition ipv4_parse (s : string) : option Ipv4Addr :=
  match split_byte x2e (str_bytes s) with
  | [o1; o2; o3; o4] =>
      a ← parse_octet o1; b ← parse_octet o2; c ← parse_octet o3; d ← parse_octet o4;
      Some (mkIpv4 a b c d)
  | _ => None
  end.

(** The ten digits, and whether a string that parses is the printed form of its
    value. *)
Definition digits : bytes := [x30; x31; x32; x33; x34; x35; x36; x37; x38; x39].

Definition octet_canonical (o : bytes) : bool :=
  match parse_octet o with Some b => bool_decide (show_octet b = o) | None => true end.

(** * Lemmas *)

Lemma parse_show_octet b : parse_octet (show_octet b) = Some b.
Proof. by destruct b. Qed.

Lemma show_octet_no_dot b : x2e ∉ show_octet b.
Proof. apply (bool_decide_unpack _). by destruct b. Qed.

Lemma show_octet_valid b : ipv4_octet (show_octet b).
Proof.
  split; [|split; [|by destruct b]].
  - unfold show_octet. repeat case_match; simpl; lia.
  - apply forallb_Forall. by destruct b.
Qed.

Lemma show_octet_ascii b : forallb (byte_in 0 127) (show_octet b) = true.
Proof. by destruct b. Qed.

Lemma to_string_bytes a :
  str_bytes (ipv4_to_string a) =
  show_octet a.(ip_a) ++ x2e :: show_octet a.(ip_b) ++ x2e :: show_octet a.(ip_c) ++
    x2e :: show_octet a.(ip_d).
Proof. unfold ipv4_to_string. rewrite str_bytes_str. simpl. by rewrite app_nil_r. Qed.

(** ** Every string of one to three digits *)

Lemma is_digit_elem c : is_ascii_digit c = true -> c ∈ digits.
Proof. intros Hc. apply (bool_decide_unpack _). by destruct c. Qed.

Lemma for_digits (P : Byte.byte -> bool) c :
  forallb P digits = true -> is_ascii_digit c = true -> P c = true.
Proof.
  intros HP Hc. apply forallb_Forall in HP. rewrite Forall_forall in HP.
  by apply HP, is_digit_elem.
Qed.

Lemma octets_canonical o :
  o <> [] -> length o <= 3 -> forallb is_ascii_digit o = true -> octet_canonical o = true.
Proof.
  intros Hne Hl Hd. destruct o as [|c1 [|c2 [|c3 [|]]]]; simpl in Hl, Hd; try done; try lia;
    bool_split.
  - apply (for_digits (fun c1 => octet_canonical [c1])); [by vm_compute|done].
  - apply (for_digits (fun c2 => octet_canonical [c1; c2])); [|done].
    apply (for_digits (fun c1 => forallb (fun c2 => octet_canonical [c1; c2]) digits));
      [by vm_compute|done].
  - apply (for_digits (fun c3 => octet_canonical [c1; c2; c3])); [|done].
    apply (for_digits (fun c2 => forallb (fun c3 => octet_canonical [c1; c2; c3]) digits)); [|done].
    apply (for_digits (fun c1 =>
             forallb (fun c2 => forallb (fun c3 => octet_canonical [c1; c2; c3]) digits) digits));
      [by vm_compute|done].
Qed.

Lemma show_parsed_octet o b : parse_octet o = Some b -> show_octet b = o.
Proof.
  intros Hp. assert (Hc : octet_canonical o = true).
  { unfold parse_octet in Hp. destruct (is_nil o || _ || _) eqn:Ho; [done|].
    apply orb_false_iff in Ho as [Ho Hd]. apply orb_false_iff in Ho as [Hn Hl].
    apply negb_false_iff in Hd. apply Nat.ltb_ge in Hl. apply octets_canonical; [|done|done].
    by destruct o. }
  unfold octet_canonical in Hc. rewrite Hp in Hc. by apply bool_decide_eq_true in Hc.
Qed.

Lemma parse_octet_no_dot o b : parse_octet o = Some b -> x2e ∉ o.
Proof. intros <-%show_parsed_octet. apply show_octet_no_dot. Qed.

Lemma ipv4_parse_to_string a : ipv4_parse (ipv4_to_string a) = Some a.
Proof.
  unfold ipv4_parse. rewrite to_string_bytes.
  rewrite !split_byte_free, split_byte_last by apply show_octet_no_dot.
  rewrite !parse_show_octet. by destruct a.
Qed.

Lemma ipv4_to_string_parse s a : ipv4_parse s = Some a -> s = ipv4_to_string a.
Proof.
  unfold ipv4_parse. intros Hp. rewrite <-(bytes_str_bytes s), <-(join_split_byte x2e (str_bytes s)).
  destruct (split_byte x2e (str_bytes s)) as [|o1 [|o2 [|o3 [|o4 [|]]]]]; try done.
  simpl in Hp.
  destruct (parse_octet o1) as [b1|] eqn:H1; [|done]. destruct (parse_octet o2) as [b2|] eqn:H2; [|done].
  destruct (parse_octet o3) as [b3|] eqn:H3; [|done]. destruct (parse_octet o4) as [b4|] eqn:H4; [|done].
  injection Hp as <-. unfold ipv4_to_string. simpl.
  by rewrite (show_parsed_octet _ _ H1), (show_parsed_octet _ _ H2), (show_parsed_octet _ _ H3),
    (show_parsed_octet _ _ H4).
Qed.

(** The printed form passes the validator's check. *)
Lemma to_string_valid a : is_valid_ipv4 (ipv4_to_string a) = true.
Proof.
  apply is_valid_ipv4_spec. do 4 eexists. split; [apply to_string_bytes|].
  rewrite !Forall_cons. split_and!; [apply show_octet_valid..|constructor].
Qed.

Lemma ascii_valid bs r : forallb (byte_in 0 127) bs = true -> utf8_valid (bs ++ r) = utf8_valid r.
Proof.
  induction bs as [|b bs IH]; [done|]. simpl. intros Hb. apply andb_true_iff in Hb as [Hb Hbs].
  rewrite <-(IH Hbs). assert (utf8_width b = 1%N) as -> by (by destruct b). done.
Qed.

Lemma to_string_ok a : string_ok (ipv4_to_string a) = true.
Proof.
  unfold string_ok. rewrite to_string_bytes.
  assert (Hdot : forall r, utf8_valid (x2e :: r) = utf8_valid r) by done.
  rewrite !(ascii_valid (show_octet _)), ?Hdot by apply show_octet_ascii.
  rewrite !(ascii_valid (show_octet _)), ?Hdot by apply show_octet_ascii.
  rewrite !(ascii_valid (show_octet _)), ?Hdot by apply show_octet_ascii.
  rewrite <-(app_nil_r (show_octet (ip_d a))).
  by rewrite (ascii_valid (show_octet _)) by apply show_octet_ascii.
Qed.
