(* ===== verification/Tcp.v ===== *)
(** [src/bwu/tcp.rs]: the TCP plumbing of the two handlers that are over sockets.

    The sockets of the operating system are an interface.  An accept loop runs on
    a thread of its own: the world holds the threads that are alive, one
    iteration of a loop is a step of the world ([accept_once]), and the sink that
    the loop calls is where the accepted connection goes next, so while a thread
    is inside its sink it accepts nothing. *)

From Stdlib Require Import ZArith Lia.
From Stdlib Require Import Strings.Byte.
From S2P Require Import Prelude.
From S2P Require Import Mediums.
From S2P Require Import Proto.
From S2P Require Import Codec.
From S2P Require Import Frames.
From S2P Require Import Channel.
From S2P Require Import Handler.
From S2P Require Import StreamChannel.
From S2P Require Import Ipv4.

(** * Interfaces *)

(** [std::io::ErrorKind], as far as it is told apart. *)
Inductive io_error_kind : Type := UnexpectedEof | OtherError.

(** [std::net]'s sockets.  [os_bind] binds to the port 0; [os_accept_ready] is
    whether an [accept] on the listener of an address returns at once. *)
Class TcpOs (os sock lsn : Type) : Type := {
  os_try_clone : sock -> M os (option sock);
  os_read_exact : sock -> nat -> M os (bytes + io_error_kind);
  os_write_all : sock -> bytes -> M os bool;
  os_flush : sock -> M os bool;
  os_shutdown : sock -> M os bool;
  os_bind : Ipv4Addr -> M os (option lsn);
  os_local_addr : lsn -> M os (option SocketAddr);
  os_connect : SocketAddr -> M os (option sock);
  os_accept_ready : SocketAddr -> os -> bool;
}.

(** A port is a [u16], and a connection that was made is there to be accepted. *)
Class TcpOsLaws (os sock lsn : Type) `{TcpOs os sock lsn} : Prop := {
  os_port_ok l o a o' : runs_to (os_local_addr l) o (Some a) o' -> u16_ok a.(sock_port) = true;
  os_connected_ready a o s o' :
    runs_to (os_connect a) o (Some s) o' -> os_accept_ready a o' = true;
}.

(** The calls on sockets keep [I], and end only in the faults of [E]. *)
Class TcpOsKeeps (os sock lsn : Type) `{TcpOs os sock lsn} (E : fault -> Prop) (I : os -> Prop)
    : Prop := {
  tk_try_clone s o : I o -> wp E (os_try_clone s) (fun _ => I) o;
  tk_read s n o : I o -> wp E (os_read_exact s n) (fun _ => I) o;
  tk_write s bs o : I o -> wp E (os_write_all s bs) (fun _ => I) o;
  tk_flush s o : I o -> wp E (os_flush s) (fun _ => I) o;
  tk_shutdown s o : I o -> wp E (os_shutdown s) (fun _ => I) o;
  tk_bind a o : I o -> wp E (os_bind a) (fun _ => I) o;
  tk_local_addr l o : I o -> wp E (os_local_addr l) (fun _ => I) o;
  tk_connect a o : I o -> wp E (os_connect a) (fun _ => I) o;
}.

(** * Streams *)

Record TcpDuplexStream (sock : Type) : Type := mkTcpDuplexStream {
  td_reader : sock;
  td_writer : sock;
  td_shutdown : sock;
}.
Arguments mkTcpDuplexStream {sock} _ _ _.
Arguments td_reader {sock} _.
Arguments td_writer {sock} _.
Arguments td_shutdown {sock} _.

Section stream.
Context {os sock lsn : Type} `{TcpOs os sock lsn}.

(** [TcpDuplexStream::new]. *)
Definition TcpDuplexStream_new (stream : sock) : M os (option (TcpDuplexStream sock)) :=
  reader ← os_try_clone stream;
  match reader with
  | None => mret None
  | Some reader =>
      writer ← os_try_clone stream;
      mret match writer with
           | None => None
           | Some writer => Some (mkTcpDuplexStream reader writer stream)
           end
  end.

Definition tcp_read_exact (t : TcpDuplexStream sock) (n : nat) : M os (Result bytes) :=
  r ← os_read_exact t.(td_reader) n;
  mret match r with
       | inl buf => Ok buf
       | inr UnexpectedEof => Err NoData
       | inr _ => Err Io
       end.

Definition tcp_write_all (t : TcpDuplexStream sock) (buf : bytes) : M os (Result unit) :=
  ok ← os_write_all t.(td_writer) buf;
  mret (if (ok : bool) then Ok tt else Err Io).

Definition tcp_flush (t : TcpDuplexStream sock) : M os (Result unit) :=
  ok ← os_flush t.(td_writer);
  mret (if (ok : bool) then Ok tt else Err Io).

Definition tcp_close (t : TcpDuplexStream sock) : M os unit :=
  _ ← os_shutdown t.(td_shutdown);
  mret tt.

#[export] Instance Tcp_DuplexStream : DuplexStream os (TcpDuplexStream sock) := {|
  ds_read_exact := tcp_read_exact;
  ds_write_all := tcp_write_all;
  ds_flush := tcp_flush;
  ds_close := tcp_close;
|}.
End stream.

(** * Worlds *)

(** A running accept loop: its arguments, its stop flag, and whether it is inside
    its sink. *)
Record AcceptThread : Type := mkAcceptThread {
  at_service_id : string;
  at_channel_name : string;
  at_medium : Medium;
  at_stop : bool;
  at_in_sink : bool;
}.

Definition set_at_stop (t : AcceptThread) : AcceptThread :=
  mkAcceptThread t.(at_service_id) t.(at_channel_name) t.(at_medium) true t.(at_in_sink).

Definition set_at_in_sink (b : bool) (t : AcceptThread) : AcceptThread :=
  mkAcceptThread t.(at_service_id) t.(at_channel_name) t.(at_medium) t.(at_stop) b.

(** The channels with the sockets behind them, the threads that are alive, and the
    number of the next thread: a number is never used again, so a [JoinHandle]
    stands for one thread. *)
Record TcpWorld (os sock cph : Type) : Type := mkTcpWorld {
  tw_heap : StreamHeap os (TcpDuplexStream sock) cph;
  tw_threads : gmap N AcceptThread;
  tw_next : N;
}.
Arguments mkTcpWorld {os sock cph} _ _ _.
Arguments tw_heap {os sock cph} _.
Arguments tw_threads {os sock cph} _.
Arguments tw_next {os sock cph} _.

(** [Listener]: where it listens, and its thread with the flag it shares. *)
Record Listener : Type := mkListener { ls_addr : SocketAddr; ls_thread : N }.

(** * Operations *)

Section world.
Context {os sock lsn cph : Type} `{TcpOs os sock lsn}.

Abbreviation MT := (M (TcpWorld os sock cph)).

(** A call on the sockets. *)
Definition on_os {A} (m : M os A) : MT A := fun w =>
  match m w.(tw_heap).(sh_env) with
  | Ret (a, o) => Ret (a, mkTcpWorld (mkStreamHeap w.(tw_heap).(sh_channels) o) w.(tw_threads) w.(tw_next))
  | Fault f => Fault f
  end.

(** A call on the channels. *)
Definition on_heap {A} (m : M (StreamHeap os (TcpDuplexStream sock) cph) A) : MT A := fun w =>
  match m w.(tw_heap) with
  | Ret (a, h) => Ret (a, mkTcpWorld h w.(tw_threads) w.(tw_next))
  | Fault f => Fault f
  end.

Definition set_threads (f : gmap N AcceptThread -> gmap N AcceptThread) : MT unit :=
  modify (fun w => mkTcpWorld w.(tw_heap) (f w.(tw_threads)) w.(tw_next)).

(** [thread::spawn]: the number of the new thread. *)
Definition spawn (t : AcceptThread) : MT N :=
  id ← gets tw_next;
  modify (fun w => mkTcpWorld w.(tw_heap) (<[id := t]> w.(tw_threads)) (id + 1));;
  mret id.

(** [Arc::new(channel)]. *)
Definition alloc_channel (c : StreamChannel (TcpDuplexStream sock) cph) : MT StreamArc :=
  w ← get;
  let id := fresh (dom w.(tw_heap).(sh_channels)) in
  on_heap (modify (fun h => mkStreamHeap (<[id := c]> h.(sh_channels)) h.(sh_env)));;
  mret (mkStreamArc id).

Definition tcp_channel (stream : sock) (service_id channel_name : string) (medium : Medium)
    : MT (option StreamArc) :=
  duplex ← on_os (TcpDuplexStream_new stream);
  match duplex with
  | None => mret None
  | Some duplex =>
      c ← alloc_channel (StreamChannel_new service_id channel_name medium duplex);
      mret (Some c)
  end.

(** One iteration of [accept_loop], on what [accept] returned: the connection it
    passes to the sink, if any.  The thread ends where the loop is left. *)
Definition accept_once (id : N) (incoming : option sock)
    : MT (option (IncomingSocketConnection StreamArc)) :=
  t ← gets (fun w => w.(tw_threads) !! id);
  match t with
  | None => mret None
  | Some t =>
      if t.(at_in_sink) then mret None
      else if t.(at_stop) then set_threads (delete id);; mret None
      else
        match incoming with
        | None => set_threads (delete id);; mret None
        | Some stream =>
            channel ← tcp_channel stream t.(at_service_id) t.(at_channel_name) t.(at_medium);
            match channel with
            | None => mret None
            | Some channel =>
                set_threads <[id := set_at_in_sink true t]>;;
                mret (Some (mkIncoming channel))
            end
        end
  end.

(** The sink returns to the loop. *)
Definition sink_returns (id : N) : MT unit :=
  set_threads (fun m => match m !! id with
                        | Some t => <[id := set_at_in_sink false t]> m
                        | None => m
                        end).

Definition start_listener (bind_ip : Ipv4Addr) (service_id channel_name : string)
    (medium : Medium) : MT (option Listener) :=
  listener ← on_os (os_bind bind_ip);
  match listener with
  | None => mret None
  | Some listener =>
      addr ← on_os (os_local_addr listener);
      match addr with
      | None => mret None
      | Some addr =>
          id ← spawn (mkAcceptThread service_id channel_name medium false false);
          mret (Some (mkListener addr id))
      end
  end.

(** [join.join()], once the flag is set: the loop ends at its next [accept].  A
    thread that is inside its sink gets there only when the sink returns, which is
    the thread's own step [sink_returns]; until then the join waits.  Like every
    call that would wait, it is [Blocked] in the states where it would, and can be
    made in those that the other threads' steps lead to. *)
Definition join_thread (l : Listener) : MT unit :=
  w ← get;
  match w.(tw_threads) !! l.(ls_thread) with
  | None => mret tt
  | Some t =>
      if t.(at_in_sink) || negb (os_accept_ready l.(ls_addr) w.(tw_heap).(sh_env))
      then raise Blocked
      else set_threads (delete l.(ls_thread))
  end.

Definition stop_listener (l : Listener) : MT unit :=
  set_threads (fun m => match m !! l.(ls_thread) with
                        | Some t => <[l.(ls_thread) := set_at_stop t]> m
                        | None => m
                        end);;
  _ ← on_os (os_connect l.(ls_addr));
  join_thread l.

(** The channels of the world. *)
Section channels.
Context `{Cipher os cph} `{Codec}.

#[export] Instance Tcp_EndpointChannel : EndpointChannel (TcpWorld os sock cph) StreamArc := {|
  ch_read c := on_heap (ch_read c);
  ch_write c data := on_heap (ch_write c data);
  ch_close c := on_heap (ch_close c);
  ch_close_with_reason c reason := on_heap (ch_close_with_reason c reason);
  ch_medium c w := ch_medium c w.(tw_heap);
  ch_service_id c w := ch_service_id c w.(tw_heap);
  ch_name c w := ch_name c w.(tw_heap);
  ch_channel_type c w := ch_channel_type c w.(tw_heap);
  ch_local_endpoint_id c w := ch_local_endpoint_id c w.(tw_heap);
  ch_set_local_endpoint_id c id := on_heap (ch_set_local_endpoint_id c id);
  ch_pause c := on_heap (ch_pause c);
  ch_resume c := on_heap (ch_resume c);
  ch_is_paused c w := ch_is_paused c w.(tw_heap);
  ch_disable_encryption c := on_heap (ch_disable_encryption c);
|}.
End channels.
End world.
