(* ===== verification/WifiLan.v ===== *)
(** [src/bwu/wifi_lan.rs]: the WIFI_LAN handler over TCP. *)

From Stdlib Require Import ZArith Lia.
From Stdlib Require Import Strings.Byte.
From S2P Require Import Prelude.
From S2P Require Import Mediums.
From S2P Require Import Proto.
From S2P Require Import Codec.
From S2P Require Import Frames.
From S2P Require Import Client.
From S2P Require Import Channel.
From S2P Require Import Handler.
From S2P Require Import StreamChannel.
From S2P Require Import Ipv4.
From S2P Require Import Tcp.

(** * State *)

(** The sink is where [accept_once] hands the connections over. *)
Record WifiLanBwuHandler : Type := mkWifiLanBwuHandler {
  wl_bind_ip : Ipv4Addr;
  wl_advertise_ip : Ipv4Addr;
  wl_listeners : gmap string Listener;
}.

Definition LAN_CHANNEL_NAME : string := "wifi-lan".

(** [with_endpoint] and [new]. *)
Definition WifiLan_with_endpoint (bind_ip advertise_ip : Ipv4Addr) : WifiLanBwuHandler :=
  mkWifiLanBwuHandler bind_ip advertise_ip ∅.

Definition WifiLan_new : WifiLanBwuHandler := WifiLan_with_endpoint LOCALHOST LOCALHOST.

(** * Operations *)

Section handler.
Context {os sock lsn cph : Type} `{TcpOs os sock lsn} `{Codec}.

Abbreviation ML := (M (WifiLanBwuHandler * TcpWorld os sock cph)).

(** A call on the sockets and the threads. *)
Definition on_world {H A} (m : M (TcpWorld os sock cph) A) : M (H * TcpWorld os sock cph) A :=
  fun s =>
    match m s.2 with
    | Ret (a, w) => Ret (a, (s.1, w))
    | Fault f => Fault f
    end.

Definition lan_listeners (f : gmap string Listener -> gmap string Listener) : ML unit :=
  modify (fun s =>
    (mkWifiLanBwuHandler s.1.(wl_bind_ip) s.1.(wl_advertise_ip) (f s.1.(wl_listeners)), s.2)).

(** The frame that advertises a listener. *)
Definition lan_offer (h : WifiLanBwuHandler) (addr : SocketAddr) : bytes :=
  for_bwu_wifi_lan_path_available
    [{| sa_address := octets h.(wl_advertise_ip); sa_port := addr.(sock_port) |}].

Definition lan_handle_initialize (client : ClientProxy) (upgrade_service_id endpoint_id : string)
    : ML bytes :=
  h ← gets fst;
  match h.(wl_listeners) !! upgrade_service_id with
  | Some listener => mret (lan_offer h listener.(ls_addr))
  | None =>
      listener ← on_world (start_listener h.(wl_bind_ip) upgrade_service_id LAN_CHANNEL_NAME WifiLan);
      match listener with
      | None => mret []
      | Some listener =>
          lan_listeners <[upgrade_service_id := listener]>;;
          mret (lan_offer h listener.(ls_addr))
      end
  end.

Definition lan_handle_revert (upgrade_service_id : string) : ML unit :=
  h ← gets fst;
  match h.(wl_listeners) !! upgrade_service_id with
  | None => mret tt
  | Some listener =>
      lan_listeners (delete upgrade_service_id);;
      on_world (stop_listener listener)
  end.

(** [TcpStream::connect] and [tcp_channel]. *)
Definition dial {H} (addr : SocketAddr) (service_id channel_name : string) (medium : Medium)
    : M (H * TcpWorld os sock cph) (option StreamArc) :=
  stream ← on_world (on_os (os_connect addr));
  match stream with
  | None => mret None
  | Some stream => on_world (tcp_channel stream service_id channel_name medium)
  end.

(** The address of an offer: four octets and a port that fits. *)
Definition lan_target (info : UpgradePathInfo) : option SocketAddr :=
  socket ← info.(upi_wifi_lan_socket);
  ip ← socket.(wls_ip_address);
  match ip with
  | [a; b; c; d] =>
      port ← socket.(wls_wifi_port);
      if u16_ok port then Some (mkSocketAddr (mkIpv4 a b c d) port) else None
  | _ => None
  end.

Definition lan_create_upgraded_endpoint_channel (client : ClientProxy)
    (service_id endpoint_id : string) (info : UpgradePathInfo) : ML (option StreamArc) :=
  match lan_target info with
  | None => mret None
  | Some addr => dial addr service_id LAN_CHANNEL_NAME WifiLan
  end.

Definition lan_on_endpoint_disconnect (client : ClientProxy) (endpoint_id : string) : ML unit :=
  mret tt.

(** [drop]. *)
Fixpoint lan_revert_each (service_ids : list string) : ML unit :=
  match service_ids with
  | [] => mret tt
  | service_id :: rest => lan_handle_revert service_id;; lan_revert_each rest
  end.

Definition lan_drop : ML unit :=
  h ← gets fst;
  lan_revert_each (map_to_list h.(wl_listeners)).*1.

#[export] Instance WifiLan_MediumBwuHandler :
    MediumBwuHandler WifiLanBwuHandler (TcpWorld os sock cph) StreamArc := {|
  mh_handle_initialize_upgraded_medium_for_endpoint := lan_handle_initialize;
  mh_handle_revert_initiator_state_for_service := lan_handle_revert;
  mh_create_upgraded_endpoint_channel := lan_create_upgraded_endpoint_channel;
  mh_get_upgrade_medium := fun _ => WifiLan;
  mh_on_endpoint_disconnect := lan_on_endpoint_disconnect;
|}.
End handler.
