(* ===== verification/WifiHotspot.v ===== *)
(** [src/bwu/wifi_hotspot.rs]: the WIFI_HOTSPOT handler over a SoftAP and TCP, and
    the fake SoftAP. *)

From Stdlib Require Import ZArith Lia.
From Stdlib Require Import Strings.Byte.
From S2P Require Import Prelude.
From S2P Require Import Mediums.
From S2P Require Import Proto.
From S2P Require Import Codec.
From S2P Require Import Frames.
From S2P Require Import Client.
From S2P Require Import Channel.
From S2P Require Import Handler.
From S2P Require Import StreamChannel.
From S2P Require Import Ipv4.
From S2P Require Import Tcp.
From S2P Require Import WifiLan.

(** * Interfaces *)

Record HotspotCreds : Type := mkHotspotCreds {
  hc_ssid : string;
  hc_password : string;
  hc_frequency : Z;
  hc_gateway : Ipv4Addr;
  hc_bind_ip : Ipv4Addr;
}.

(** [trait SoftAp]; its defaults leave the state alone. *)
Class SoftAp (os ap : Type) : Type := {
  sa_start : ap -> string -> M os (option HotspotCreds);
  sa_connect_as_sta : ap -> HotspotCreds -> M os bool;
  sa_stop : ap -> string -> M os unit;
  sa_disconnect_sta : ap -> M os unit;
  sa_is_connected_to_hotspot : ap -> os -> bool;
}.

(** The faults that the calls on a SoftAP can end in. *)
Class SoftApFaults (os ap : Type) `{SoftAp os ap} (E : fault -> Prop) : Prop := {
  sf_start a s o : wp E (sa_start a s) (fun _ _ => True) o;
  sf_connect a c o : wp E (sa_connect_as_sta a c) (fun _ _ => True) o;
  sf_stop a s o : wp E (sa_stop a s) (fun _ _ => True) o;
  sf_disconnect a o : wp E (sa_disconnect_sta a) (fun _ _ => True) o;
}.

(** * State *)

Record HotspotListener : Type := mkHotspotListener {
  hl_listener : Listener;
  hl_creds : HotspotCreds;
}.

Record WifiHotspotBwuHandler (ap : Type) : Type := mkWifiHotspotBwuHandler {
  wh_softap : ap;
  wh_listeners : gmap string HotspotListener;
}.
Arguments mkWifiHotspotBwuHandler {ap} _ _.
Arguments wh_softap {ap} _.
Arguments wh_listeners {ap} _.

Definition HOTSPOT_CHANNEL_NAME : string := "wifi-hotspot".

(** [WifiHotspotBwuHandler::new]. *)
Definition WifiHotspot_new {ap} (softap : ap) : WifiHotspotBwuHandler ap :=
  mkWifiHotspotBwuHandler softap ∅.

(** The credentials of an offer. *)
Definition offered_credentials (creds : HotspotCreds) (addr : SocketAddr)
    : WifiHotspotCredentials :=
  {| whc_ssid := Some creds.(hc_ssid);
     whc_password := Some creds.(hc_password);
     whc_port := Some addr.(sock_port);
     whc_gateway := Some (ipv4_to_string creds.(hc_gateway));
     whc_frequency := Some creds.(hc_frequency);
     whc_address_candidates := [] |}.

(** * Operations *)

Section handler.
Context {os sock lsn cph ap : Type} `{TcpOs os sock lsn} `{SoftAp os ap} `{Codec}.

Abbreviation MH := (M (WifiHotspotBwuHandler ap * TcpWorld os sock cph)).

(** A call on [self.softap]. *)
Definition on_softap {A} (m : ap -> M os A) : MH A :=
  h ← gets fst;
  on_world (on_os (m h.(wh_softap))).

Definition hotspot_listeners (f : gmap string HotspotListener -> gmap string HotspotListener)
    : MH unit :=
  modify (fun s => (mkWifiHotspotBwuHandler s.1.(wh_softap) (f s.1.(wh_listeners)), s.2)).

(** The frame that advertises a hotspot. *)
Definition hotspot_offer (l : HotspotListener) : bytes :=
  for_bwu_wifi_hotspot_path_available
    (offered_credentials l.(hl_creds) l.(hl_listener).(ls_addr)) false.

Definition hotspot_handle_initialize (client : ClientProxy)
    (upgrade_service_id endpoint_id : string) : MH bytes :=
  h ← gets fst;
  match h.(wh_listeners) !! upgrade_service_id with
  | Some hl => mret (hotspot_offer hl)
  | None =>
      creds ← on_softap (fun a => sa_start a upgrade_service_id);
      match creds with
      | None => mret []
      | Some creds =>
          listener ← on_world (start_listener creds.(hc_bind_ip) upgrade_service_id
                                 HOTSPOT_CHANNEL_NAME WifiHotspot);
          match listener with
          | None => on_softap (fun a => sa_stop a upgrade_service_id);; mret []
          | Some listener =>
              hotspot_listeners <[upgrade_service_id := mkHotspotListener listener creds]>;;
              mret (hotspot_offer (mkHotspotListener listener creds))
          end
      end
  end.

Definition hotspot_handle_revert (upgrade_service_id : string) : MH unit :=
  h ← gets fst;
  match h.(wh_listeners) !! upgrade_service_id with
  | None => mret tt
  | Some hl =>
      hotspot_listeners (delete upgrade_service_id);;
      on_world (stop_listener hl.(hl_listener));;
      on_softap (fun a => sa_stop a upgrade_service_id)
  end.

(** What an offer says: the network to join and the address to dial there. *)
Definition hotspot_target (info : UpgradePathInfo) : option (HotspotCreds * SocketAddr) :=
  creds_pb ← info.(upi_wifi_hotspot_credentials);
  gateway ← creds_pb.(whc_gateway) ≫= ipv4_parse;
  port ← creds_pb.(whc_port);
  if u16_ok port then
    Some ({| hc_ssid := default "" creds_pb.(whc_ssid);
             hc_password := default "" creds_pb.(whc_password);
             hc_frequency := default (-1)%Z creds_pb.(whc_frequency);
             hc_gateway := gateway;
             hc_bind_ip := gateway |},
          mkSocketAddr gateway port)
  else None.

Definition hotspot_create_upgraded_endpoint_channel (client : ClientProxy)
    (service_id endpoint_id : string) (info : UpgradePathInfo) : MH (option StreamArc) :=
  match hotspot_target info with
  | None => mret None
  | Some (creds, addr) =>
      joined ← on_softap (fun a => sa_connect_as_sta a creds);
      if (joined : bool) then dial addr service_id HOTSPOT_CHANNEL_NAME WifiHotspot
      else mret None
  end.

Definition hotspot_on_endpoint_disconnect (client : ClientProxy) (endpoint_id : string)
    : MH unit :=
  on_softap sa_disconnect_sta.

(** [drop]. *)
Fixpoint hotspot_revert_each (service_ids : list string) : MH unit :=
  match service_ids with
  | [] => mret tt
  | service_id :: rest => hotspot_handle_revert service_id;; hotspot_revert_each rest
  end.

Definition hotspot_drop : MH unit :=
  h ← gets fst;
  hotspot_revert_each (map_to_list h.(wh_listeners)).*1.

#[export] Instance WifiHotspot_MediumBwuHandler :
    MediumBwuHandler (WifiHotspotBwuHandler ap) (TcpWorld os sock cph) StreamArc := {|
  mh_handle_initialize_upgraded_medium_for_endpoint := hotspot_handle_initialize;
  mh_handle_revert_initiator_state_for_service := hotspot_handle_revert;
  mh_create_upgraded_endpoint_channel := hotspot_create_upgraded_endpoint_channel;
  mh_get_upgrade_medium := fun _ => WifiHotspot;
  mh_on_endpoint_disconnect := hotspot_on_endpoint_disconnect;
|}.
End handler.

(** * The fake SoftAP *)

Record FakeSoftAp : Type := mkFakeSoftAp {
  fsa_ssid : string;
  fsa_password : string;
  fsa_frequency : Z;
}.

Definition FakeSoftAp_new : FakeSoftAp := mkFakeSoftAp "DIRECT-beamish-test" "testpassword" 2437.

(** The flag of the fake is part of the state of the platform. *)
Class HasSta (os : Type) : Type := {
  sta_connected : os -> bool;
  sta_set : bool -> os -> os;
}.

Section fake.
Context {os : Type} `{HasSta os}.

Definition fake_softap_start (a : FakeSoftAp) (service_id : string) : M os (option HotspotCreds) :=
  mret (Some (mkHotspotCreds a.(fsa_ssid) a.(fsa_password) a.(fsa_frequency) LOCALHOST LOCALHOST)).

Definition fake_connect_as_sta (a : FakeSoftAp) (creds : HotspotCreds) : M os bool :=
  modify (sta_set true);;
  mret true.

Definition fake_stop (a : FakeSoftAp) (service_id : string) : M os unit := mret tt.

Definition fake_disconnect_sta (a : FakeSoftAp) : M os unit := modify (sta_set false).

Definition fake_is_connected_to_hotspot (a : FakeSoftAp) : os -> bool := sta_connected.

#[export] Instance FakeSoftAp_SoftAp : SoftAp os FakeSoftAp := {|
  sa_start := fake_softap_start;
  sa_connect_as_sta := fake_connect_as_sta;
  sa_stop := fake_stop;
  sa_disconnect_sta := fake_disconnect_sta;
  sa_is_connected_to_hotspot := fake_is_connected_to_hotspot;
|}.
End fake.
