(* ===== verification/TcpSteps.v ===== *)
(** What the calls of the TCP handlers keep of the platform below them, and the
    faults they can end in. *)

From Stdlib Require Import ZArith Lia.
From S2P Require Import Prelude.
From S2P Require Import Mediums.
From S2P Require Import Proto.
From S2P Require Import Codec.
From S2P Require Import Frames.
From S2P Require Import Client.
From S2P Require Import Channel.
From S2P Require Import Handler.
From S2P Require Import StreamChannel.
From S2P Require Import StreamSteps.
From S2P Require Import Ipv4.
From S2P Require Import Tcp.
From S2P Require Import WifiLan.
From S2P Require Import WifiHotspot.

(** * Definitions *)

(** The ciphers keep [I], and end only in the faults of [E]. *)
Class CipherKeeps (os cph : Type) `{Cipher os cph} (E : fault -> Prop) (I : os -> Prop) : Prop := {
  ck_encode k p o : I o -> wp E (ci_encode k p) (fun _ => I) o;
  ck_decode k p o : I o -> wp E (ci_decode k p) (fun _ => I) o;
}.

(** * Lemmas *)

Section steps.
Context {os sock lsn cph : Type} `{TcpOs os sock lsn}.
Context (E : fault -> Prop) (I : os -> Prop) `{!TcpOsKeeps os sock lsn E I} (HB : E Blocked).

(** A call on the world that keeps [I] of the platform. *)
Definition world_keeps {A} (m : M (TcpWorld os sock cph) A) : Prop :=
  forall w, I w.(tw_heap).(sh_env) -> wp E m (fun _ w' => I w'.(tw_heap).(sh_env)) w.

Lemma wp_os {A} (m : M os A) (Q : A -> TcpWorld os sock cph -> Prop) w :
  wp E m (fun _ => I) w.(tw_heap).(sh_env) ->
  (forall a w', I w'.(tw_heap).(sh_env) -> Q a w') -> wp E (on_os m) Q w.
Proof.
  unfold wp, on_os. destruct (m _) as [[a o]|f]; [|done]. intros Ho HQ. by apply HQ.
Qed.

(** One step of a call on the world. *)
Ltac world_call :=
  lazymatch goal with
  | |- wp _ (on_os (os_bind _)) _ _ => apply wp_os; [by apply tk_bind|intros]
  | |- wp _ (on_os (os_local_addr _)) _ _ => apply wp_os; [by apply tk_local_addr|intros]
  | |- wp _ (on_os (os_connect _)) _ _ => apply wp_os; [by apply tk_connect|intros]
  | |- wp _ (set_threads _) _ _ => apply wp_modify
  | |- wp _ (if ?b then _ else _) _ _ => destruct b
  | |- wp _ (match ?x with _ => _ end) _ _ => destruct x
  | _ => wp_step
  end.

Lemma duplex_keeps stream o :
  I o -> wp E (TcpDuplexStream_new stream) (fun _ => I) o.
Proof.
  intros Ho. unfold TcpDuplexStream_new. apply wp_bind.
  eapply wp_mono; [by apply tk_try_clone|done|]. intros [r|] o1 Ho1; [|by apply wp_ret].
  apply wp_bind. eapply wp_mono; [by apply tk_try_clone|done|]. intros r' o2 Ho2. by apply wp_ret.
Qed.

Lemma tcp_channel_keeps stream s n m : world_keeps (tcp_channel stream s n m).
Proof.
  intros w Hw. apply wp_bind, wp_os; [by apply duplex_keeps|]. intros [d|] w1 Hw1; [|by apply wp_ret].
  unfold alloc_channel. repeat wp_step. unfold wp, on_heap. done.
Qed.

Lemma start_listener_keeps ip s n m : world_keeps (start_listener ip s n m).
Proof. intros w Hw. unfold start_listener, spawn. by repeat world_call. Qed.

Lemma stop_listener_keeps l : world_keeps (stop_listener l).
Proof. intros w Hw. unfold stop_listener, join_thread. by repeat world_call. Qed.

Lemma accept_once_keeps id incoming : world_keeps (accept_once id incoming).
Proof.
  intros w Hw. unfold accept_once. do 2 wp_step. repeat first [case_match; [|]|case_match];
    try (by repeat world_call).
  apply wp_bind. eapply wp_mono; [by apply tcp_channel_keeps|done|].
  intros [c|] w1 Hw1; by repeat world_call.
Qed.

(** A call on the world from a handler. *)
Lemma wp_world {B A} (m : M (TcpWorld os sock cph) A) (Q : A -> B * TcpWorld os sock cph -> Prop) s :
  world_keeps m -> I s.2.(tw_heap).(sh_env) ->
  (forall a w', I w'.(tw_heap).(sh_env) -> Q a (s.1, w')) -> wp E (on_world m) Q s.
Proof.
  intros Hm Hs HQ. specialize (Hm s.2 Hs). unfold wp, on_world in *.
  destruct (m s.2) as [[a w']|f]; [by apply HQ|done].
Qed.

Lemma dial_keeps {B} addr s n m (h : B) (w : TcpWorld os sock cph) :
  I w.(tw_heap).(sh_env) -> wp E (dial addr s n m) (fun _ r => r.1 = h /\ I r.2.(tw_heap).(sh_env)) (h, w).
Proof.
  intros Hw. apply wp_bind, wp_world; [|done|].
  - intros w1 Hw1. apply wp_os; [by apply tk_connect|done].
  - intros [stream|] w1 Hw1; [|by apply wp_ret].
    apply wp_world; [apply tcp_channel_keeps|done|done].
Qed.

(** ** The streams *)

#[export] Instance tcp_stream_keeps `{Cipher os cph} `{!CipherKeeps os cph E I} :
  StreamKeeps os (TcpDuplexStream sock) cph E I.
Proof.
  split; intros; [by apply ck_encode|by apply ck_decode|..]; simpl;
    unfold tcp_read_exact, tcp_write_all, tcp_flush, tcp_close; apply wp_bind;
    (eapply wp_mono; [first [by apply tk_read|by apply tk_write|by apply tk_flush|by apply tk_shutdown]
                     |done|intros r o' Ho'; by apply wp_ret]).
Qed.
End steps.

(** ** The channels of the world *)

Section channels.
Context {os sock lsn cph : Type} `{TcpOs os sock lsn} `{Cipher os cph} `{Codec}.

(** A call on a channel is a call on the heap. *)
Lemma channel_call_heap (w w' : TcpWorld os sock cph) :
  channel_call w w' -> channel_call w.(tw_heap) w'.(tw_heap).
Proof.
  assert (Hh : forall A (m : M (StreamHeap os (TcpDuplexStream sock) cph) A) r w w',
    runs_to (on_heap m) w r w' -> runs_to m w.(tw_heap) r w'.(tw_heap)).
  { intros A m r w1 w2. unfold runs_to, on_heap. by destruct (m _) as [[a h]|f]; [intros [= -> <-]|]. }
  intros Hc. destruct Hc as [c w1 r w2 Hr|c d w1 r w2 Hr|c w1 r w2 Hr|c d w1 r w2 Hr
    |c d w1 r w2 Hr|c w1 r w2 Hr|c w1 r w2 Hr|c w1 r w2 Hr]; apply Hh in Hr.
  - by eapply call_read.
  - by eapply call_write.
  - by eapply call_close.
  - by eapply call_close_with_reason.
  - by eapply call_set_local.
  - by eapply call_pause.
  - by eapply call_resume.
  - by eapply call_disable.
Qed.

#[export] Instance Tcp_laws : EndpointChannelLaws (TcpWorld os sock cph) StreamArc.
Proof.
  assert (Hh : forall A (m : M (StreamHeap os (TcpDuplexStream sock) cph) A) r w w',
    runs_to (on_heap m) w r w' -> runs_to m w.(tw_heap) r w'.(tw_heap)).
  { intros A m r w1 w2. unfold runs_to, on_heap. by destruct (m _) as [[a h]|f]; [intros [= -> <-]|]. }
  split.
  - intros c w w' Hc%channel_call_heap. by apply (ch_medium_fixed (env := StreamHeap os (TcpDuplexStream sock) cph)).
  - intros c w w' Hc%channel_call_heap. by apply (ch_service_fixed (env := StreamHeap os (TcpDuplexStream sock) cph)).
  - intros c w r w' Hr%Hh. by eapply (ch_pause_law (env := StreamHeap os (TcpDuplexStream sock) cph)).
  - intros c w r w' Hr%Hh. by eapply (ch_resume_law (env := StreamHeap os (TcpDuplexStream sock) cph)).
Qed.

Lemma tcp_channel_faults (E : fault -> Prop) :
  E Blocked -> TcpOsKeeps os sock lsn E (fun _ => True) -> CipherKeeps os cph E (fun _ => True) ->
  ChannelFaults (TcpWorld os sock cph) StreamArc E.
Proof.
  intros HB HO HC.
  assert (HF : ChannelFaults (StreamHeap os (TcpDuplexStream sock) cph) StreamArc E)
    by (apply stream_channel_faults; [done|by apply tcp_stream_keeps]).
  assert (Hh : forall A (m : M (StreamHeap os (TcpDuplexStream sock) cph) A) w,
    wp E m (fun _ _ => True) w.(tw_heap) ->
    wp E (on_heap m) (fun _ _ => True) (w : TcpWorld os sock cph)).
  { intros A m w. unfold wp, on_heap. by destruct (m _) as [[a h]|f]. }
  split; intros; apply Hh;
    first [apply cf_read|apply cf_write|apply cf_close|apply cf_close_with_reason|apply cf_set_local
          |apply cf_pause|apply cf_resume|apply cf_disable].
Qed.
End channels.

(** ** The handlers *)

Section handlers.
Context {os sock lsn cph ap : Type} `{TcpOs os sock lsn} `{SoftAp os ap} `{Codec}.
Context (E : fault -> Prop) (HB : E Blocked).
Context `{HO : !TcpOsKeeps os sock lsn E (fun _ => True)} `{HS : !SoftApFaults os ap E}.

Ltac handler_call :=
  lazymatch goal with
  | |- wp _ (on_world (start_listener _ _ _ _)) _ _ =>
      apply (wp_world E (fun _ => True)); [by apply start_listener_keeps|done|intros]
  | |- wp _ (on_world (stop_listener _)) _ _ =>
      apply (wp_world E (fun _ => True)); [by apply stop_listener_keeps|done|intros]
  | |- wp _ (dial _ _ _ _) _ (_, _) =>
      eapply wp_mono; [by apply (dial_keeps E (fun _ => True))|done|done]
  | |- wp _ (on_softap _) _ _ => unfold on_softap; wp_step
  | |- wp _ (on_world (on_os _)) _ _ =>
      apply (wp_world E (fun _ => True));
        [intros ? _; apply (wp_os E (fun _ => True));
           [eapply wp_mono; [first [apply sf_start|apply sf_connect|apply sf_stop|apply sf_disconnect]
                            |done|done]|done]
        |done|intros]
  | |- wp _ (lan_listeners _) _ _ => apply wp_modify
  | |- wp _ (hotspot_listeners _) _ _ => apply wp_modify
  | |- wp _ (if ?b then _ else _) _ _ => destruct b
  | |- wp _ (match ?x with _ => _ end) _ _ => destruct x
  | _ => wp_step
  end.

#[export] Instance WifiLan_faults :
  MediumHandlerFaults WifiLanBwuHandler (TcpWorld os sock cph) StreamArc E.
Proof.
  split; intros; cbn; unfold lan_handle_initialize, lan_handle_revert,
    lan_create_upgraded_endpoint_channel, lan_on_endpoint_disconnect; destruct h; by repeat handler_call.
Qed.

#[export] Instance WifiHotspot_faults :
  MediumHandlerFaults (WifiHotspotBwuHandler ap) (TcpWorld os sock cph) StreamArc E.
Proof.
  split; intros; cbn; unfold hotspot_handle_initialize, hotspot_handle_revert,
    hotspot_create_upgraded_endpoint_channel, hotspot_on_endpoint_disconnect; destruct h;
    repeat handler_call; done.
Qed.
End handlers.
