(* ===== verification/Loopback.v ===== *)
(** A loopback network, on which the properties of the TCP handlers are
    instantiated: listeners with their backlogs, pairs of connected sockets, what
    remote programs write as soon as they are connected to, and the flag of the
    fake SoftAP. *)

From Stdlib Require Import ZArith NArith Lia.
From Stdlib Require Import Strings.Byte.
From S2P Require Import Prelude.
From S2P Require Import Mediums.
From S2P Require Import Codec.
From S2P Require Import StreamChannel.
From S2P Require Import Ipv4.
From S2P Require Import Tcp.
From S2P Require Import WifiLan.
From S2P Require Import WifiHotspot.

(** * Definitions *)

(** The listeners' backlogs by port, what each socket has received, and what the
    program behind a port greets a dialer with: a connection has the sockets [n]
    (the dialer's) and [n + 1]. *)
Record Loopback : Type := mkLoopback {
  lo_next_port : Z;
  lo_next_socket : N;
  lo_backlogs : gmap Z (list N);
  lo_received : gmap N PipeState;
  lo_greetings : gmap Z bytes;
  lo_sta : bool;
}.

Definition Loopback_empty : Loopback := mkLoopback 40000 0 ∅ ∅ ∅ false.

Definition peer (s : N) : N := if N.even s then s + 1 else s - 1.

Definition received (s : N) (o : Loopback) : PipeState :=
  default (mkPipeState [] true) (o.(lo_received) !! s).

Definition set_received (f : gmap N PipeState -> gmap N PipeState) (o : Loopback) : Loopback :=
  mkLoopback o.(lo_next_port) o.(lo_next_socket) o.(lo_backlogs) (f o.(lo_received)) o.(lo_greetings)
    o.(lo_sta).

Definition lo_read_exact (s : N) (n : nat) : M Loopback (bytes + io_error_kind) :=
  st ← gets (received s);
  if (n <=? length st.(ps_buf))%nat then
    modify (set_received <[s := mkPipeState (drop n st.(ps_buf)) st.(ps_closed)]>);;
    mret (inl (take n st.(ps_buf)))
  else if st.(ps_closed) then mret (inr UnexpectedEof)
  else raise Blocked.

Definition lo_write_all (s : N) (bs : bytes) : M Loopback bool :=
  st ← gets (received (peer s));
  if st.(ps_closed) then mret false
  else
    modify (set_received <[peer s := mkPipeState (st.(ps_buf) ++ bs) false]>);;
    mret true.

Definition lo_shutdown (s : N) : M Loopback bool :=
  o ← get;
  let close x := mkPipeState (received x o).(ps_buf) true in
  modify (set_received (fun m => <[s := close s]> (<[peer s := close (peer s)]> m)));;
  mret true.

Definition lo_bind (_ : Ipv4Addr) : M Loopback (option Z) :=
  o ← get;
  if u16_ok o.(lo_next_port) then
    modify (fun o => mkLoopback (o.(lo_next_port) + 1) o.(lo_next_socket)
                       (<[o.(lo_next_port) := []]> o.(lo_backlogs)) o.(lo_received)
                       o.(lo_greetings) o.(lo_sta));;
    mret (Some o.(lo_next_port))
  else mret None.

Definition lo_connect (a : SocketAddr) : M Loopback (option N) :=
  o ← get;
  match o.(lo_backlogs) !! a.(sock_port) with
  | None => mret None
  | Some backlog =>
      let s := (2 * o.(lo_next_socket))%N in
      modify (fun o => mkLoopback o.(lo_next_port) (o.(lo_next_socket) + 1)
        (<[a.(sock_port) := backlog ++ [(s + 1)%N]]> o.(lo_backlogs))
        (<[s := mkPipeState (default [] (o.(lo_greetings) !! a.(sock_port))) false]>
           (<[(s + 1)%N := mkPipeState [] false]> o.(lo_received)))
        o.(lo_greetings) o.(lo_sta));;
      mret (Some s)
  end.

Definition lo_accept_ready (a : SocketAddr) (o : Loopback) : bool :=
  match o.(lo_backlogs) !! a.(sock_port) with Some (_ :: _) => true | _ => false end.

(** What the [accept] of a port returns next. *)
Definition lo_accept (port : Z) : M Loopback (option N) :=
  o ← get;
  match o.(lo_backlogs) !! port with
  | Some (s :: rest) =>
      modify (fun o => mkLoopback o.(lo_next_port) o.(lo_next_socket)
                         (<[port := rest]> o.(lo_backlogs)) o.(lo_received) o.(lo_greetings)
                         o.(lo_sta));;
      mret (Some s)
  | Some [] => raise Blocked
  | None => mret None
  end.

#[export] Instance Loopback_TcpOs : TcpOs Loopback N Z := {|
  os_try_clone s := mret (Some s);
  os_read_exact := lo_read_exact;
  os_write_all := lo_write_all;
  os_flush _ := mret true;
  os_shutdown := lo_shutdown;
  os_bind := lo_bind;
  os_local_addr port := mret (if u16_ok port then Some (mkSocketAddr LOCALHOST port) else None);
  os_connect := lo_connect;
  os_accept_ready := lo_accept_ready;
|}.

#[export] Instance Loopback_HasSta : HasSta Loopback := {|
  sta_connected := lo_sta;
  sta_set b o := mkLoopback o.(lo_next_port) o.(lo_next_socket) o.(lo_backlogs) o.(lo_received)
                    o.(lo_greetings) b;
|}.

(** No encryption is needed: a cipher that no channel is given. *)
#[export] Instance Loopback_Cipher : Cipher Loopback Empty_set := {|
  ci_encode (k : Empty_set) _ := match k return M Loopback (option bytes) with end;
  ci_decode (k : Empty_set) _ := match k return M Loopback (option bytes) with end;
|}.

Abbreviation LoopbackWorld := (TcpWorld Loopback N Empty_set).

Definition LoopbackWorld_empty : LoopbackWorld :=
  mkTcpWorld (mkStreamHeap ∅ Loopback_empty) ∅ 0.

(** The next connection on the listener of a port reaches its accept loop. *)
Definition lo_accept_once (id : N) (port : Z) : M LoopbackWorld _ :=
  incoming ← on_os (lo_accept port);
  accept_once id incoming.

(** * Lemmas *)

#[export] Instance Loopback_laws : TcpOsLaws Loopback N Z.
Proof.
  split.
  - intros l o a o' Hrun. injection Hrun as Ha _. destruct (u16_ok l) eqn:Hl; [|done].
    by injection Ha as <-.
  - intros a o s o' Hrun. revert Hrun. simpl. unfold runs_to, lo_connect, lo_accept_ready, mbind,
      M_bind, get, modify, mret, M_ret. destruct (lo_backlogs o !! sock_port a) as [b|] eqn:Hb; [|done].
    intros [= _ <-]. simpl. rewrite lookup_insert_eq. by destruct b.
Qed.

(** The network may make a caller wait, and does nothing worse. *)
Lemma Loopback_faults (E : fault -> Prop) :
  E Blocked -> TcpOsKeeps Loopback N Z E (fun _ => True).
Proof.
  intros HE. split; intros; unfold wp; simpl; try done.
  - unfold lo_read_exact, gets, modify, raise, mbind, M_bind, mret, M_ret.
    by destruct (_ <=? _)%nat, (ps_closed (received s o)).
  - unfold lo_write_all, gets, modify, mbind, M_bind, mret, M_ret. by destruct (ps_closed (received (peer s) o)).
  - unfold lo_bind, get, modify, mbind, M_bind, mret, M_ret. by destruct (u16_ok (lo_next_port o)).
  - unfold lo_connect, get, modify, mbind, M_bind, mret, M_ret. by destruct (lo_backlogs o !! sock_port a).
Qed.

#[export] Instance FakeSoftAp_faults {os} `{HasSta os} E : SoftApFaults os FakeSoftAp E.
Proof. by split. Qed.
