(* ===== verification/TransportTests.v ===== *)
(** The integration tests of [tests/stream_channel.rs], [tests/wifi_lan.rs] and
    [tests/wifi_hotspot.rs], run on the model: stream channels over pipes with a
    marker cipher, and both TCP handlers over the loopback network. *)

From Stdlib Require Import ZArith NArith.
From Stdlib Require Import Strings.Byte.
From S2P Require Import Prelude.
From S2P Require Import Mediums.
From S2P Require Import Proto.
From S2P Require Import Codec.
From S2P Require Import Frames.
From S2P Require Import FromBytes.
From S2P Require Import Client.
From S2P Require Import Channel.
From S2P Require Import Handler.
From S2P Require Import UnitTests.
From S2P Require Import StreamChannel.
From S2P Require Import Ipv4.
From S2P Require Import Tcp.
From S2P Require Import WifiLan.
From S2P Require Import WifiHotspot.
From S2P Require Import Loopback.

Open Scope string_scope.

#[export] Instance Result_eq_dec {A} `{EqDecision A} : EqDecision (Result A).
Proof. solve_decision. Defined.

(** * [tests/stream_channel.rs] *)

Definition MARK : Byte.byte := xe5.

(** [MarkerCipher]. *)
Definition marker_encode (plaintext : bytes) : option bytes := Some (MARK :: plaintext).

Definition marker_decode (ciphertext : bytes) : option bytes :=
  match ciphertext with
  | b :: rest => if decide (b = MARK) then Some rest else None
  | [] => None
  end.

#[export] Instance marker_cipher : Cipher unit unit := {|
  ci_encode _ plaintext := mret (marker_encode plaintext);
  ci_decode _ ciphertext := mret (marker_decode ciphertext);
|}.

Abbreviation Wire := (StreamHeap (Pipes unit) PipeArc unit).

(** The channels 0 and 1 share the pipe 0. *)
Definition on_pipe (name : string) : StreamChannel PipeArc unit :=
  StreamChannel_new "svc" name WifiLan (mkPipeArc 0).

Definition wire : Wire :=
  mkStreamHeap {[0%N := on_pipe "first"; 1%N := on_pipe "second"]}
    (mkPipes {[0%N := mkPipeState [] false]} tt).

Definition first_channel : StreamArc := mkStreamArc 0.
Definition second_channel : StreamArc := mkStreamArc 1.

Definition writes (c : StreamArc) (data : bytes) : M Wire unit :=
  r ← ch_write c data; assert_eq r Success.

Definition reads (c : StreamArc) (r : Result bytes) : M Wire unit := r' ← ch_read c; assert_eq r' r.

Definition enable_encryption : M Wire unit := arc_op (sc_enable_encryption tt) first_channel.

Definition assert_encrypted (b : bool) : M Wire unit :=
  h ← get; assert_eq (arc_get is_encrypted (negb b) first_channel h) b.

Definition decrypts (data : bytes) (r : Result bytes) : M Wire unit :=
  r' ← arc_op (try_decrypt data) first_channel; assert_eq r' r.

(** A call that would wait. *)
Definition waits {S A} (m : M S A) : M S unit := fun s =>
  match m s with Fault Blocked => Ret (tt, s) | _ => Fault Panicked end.

Definition read_write_round_trips_unencrypted : M Wire unit :=
  assert_encrypted false;;
  writes first_channel (str_bytes "hello world");;
  reads first_channel (Ok (str_bytes "hello world"));;
  writes first_channel [];;
  reads first_channel (Ok []).

Definition encrypted_round_trips : M Wire unit :=
  enable_encryption;;
  assert_encrypted true;;
  writes first_channel (str_bytes "secret");;
  reads first_channel (Ok (str_bytes "secret")).

Definition enable_encryption_works_through_the_trait_object : M Wire unit :=
  writes first_channel (str_bytes "plain");;
  reads first_channel (Ok (str_bytes "plain"));;
  encrypted_round_trips;;
  ch_disable_encryption first_channel;;
  writes first_channel (str_bytes "plain again");;
  reads first_channel (Ok (str_bytes "plain again")).

Definition encrypted_payload_is_ciphertext_on_the_wire : M Wire unit :=
  enable_encryption;;
  writes first_channel (str_bytes "secret");;
  reads second_channel (Ok (MARK :: str_bytes "secret")).

Definition try_decrypt_behaviour : M Wire unit :=
  decrypts (str_bytes "anything") (Err Failed);;
  enable_encryption;;
  decrypts (MARK :: str_bytes "hi") (Ok (str_bytes "hi"));;
  decrypts (str_bytes "no-marker") (Err Execution).

Definition empty_decrypt_result_is_rejected : M Wire unit :=
  enable_encryption;;
  writes first_channel [];;
  reads first_channel (Err InvalidProtocolBuffer).

Definition read_after_close_returns_no_data : M Wire unit :=
  ch_close first_channel;;
  reads first_channel (Err NoData);;
  ch_close first_channel.

Definition paused_write_blocks_until_resume : M Wire unit :=
  ch_pause first_channel;;
  waits (ch_write first_channel (str_bytes "x"));;
  ch_resume first_channel;;
  writes first_channel (str_bytes "x");;
  reads first_channel (Ok (str_bytes "x")).

Definition unencrypted_keepalive_passes_but_other_frames_rejected_on_encrypted_channel : M Wire unit :=
  enable_encryption;;
  writes second_channel for_keep_alive;;
  reads first_channel (Ok for_keep_alive);;
  writes second_channel for_bwu_last_write;;
  reads first_channel (Err InvalidProtocolBuffer).

Example stream_channel_tests_pass :
  forallb (fun t => passes t wire)
    [read_write_round_trips_unencrypted; encrypted_round_trips;
     enable_encryption_works_through_the_trait_object; encrypted_payload_is_ciphertext_on_the_wire;
     try_decrypt_behaviour; empty_decrypt_result_is_rejected; read_after_close_returns_no_data;
     paused_write_blocks_until_resume;
     unencrypted_keepalive_passes_but_other_frames_rejected_on_encrypted_channel] = true.
Proof. vm_compute. reflexivity. Qed.

(** * The tests of the handlers

    An initiator and a responder in one process: they share the world. *)

Definition upgrade_path_info (path_available_bytes : bytes) : option UpgradePathInfo :=
  match from_bytes path_available_bytes with
  | Ok f => (f.(of_v1) ≫= v1_bandwidth_upgrade_negotiation) ≫= bwu_upgrade_path_info
  | Err _ => None
  end.

Section pair.
Context {H : Type}.

Abbreviation Both := (H * H * LoopbackWorld)%type.

Definition initiator {A} (m : M (H * LoopbackWorld) A) : M Both A := fun '(i, r, w) =>
  match m (i, w) with Ret (a, (i', w')) => Ret (a, (i', r, w')) | Fault f => Fault f end.

Definition responder {A} (m : M (H * LoopbackWorld) A) : M Both A := fun '(i, r, w) =>
  match m (r, w) with Ret (a, (r', w')) => Ret (a, (i, r', w')) | Fault f => Fault f end.

Definition shared {A} (m : M LoopbackWorld A) : M Both A := initiator (on_world m).

(** The accept loop of the first listener takes the next connection at the first
    port, and its sink returns. *)
Definition accepted : M Both StreamArc :=
  c ← shared (lo_accept_once 0 40000);
  c ← unwrap c;
  shared (sink_returns 0);;
  mret (isc_channel c).

Definition says_and_hears (from to : StreamArc) (data : bytes) : M Both unit :=
  w ← shared (ch_write from data);
  assert_eq w Success;;
  r ← shared (ch_read to);
  assert_eq r (Ok data).

Definition assert_channel_medium (c : StreamArc) (m : Medium) : M Both unit :=
  m' ← shared (gets (ch_medium c)); assert_eq m' m.
End pair.

(** ** [tests/wifi_lan.rs] *)

Abbreviation LanTest := (M (WifiLanBwuHandler * WifiLanBwuHandler * LoopbackWorld)).

Definition client : ClientProxy := ClientProxy_default.

Definition wifi_lan_upgrade_channel_round_trips_over_loopback : LanTest unit :=
  path_available ← initiator (lan_handle_initialize client "ServiceA_UPGRADE" "E1");
  assert (negb (is_nil path_available));;
  info ← unwrap (upgrade_path_info path_available);
  c ← responder (lan_create_upgraded_endpoint_channel client "ServiceA" "E1" info);
  responder_channel ← unwrap c;
  initiator_channel ← accepted;
  assert_channel_medium initiator_channel WifiLan;;
  assert_channel_medium responder_channel WifiLan;;
  says_and_hears responder_channel initiator_channel (str_bytes "ping");;
  says_and_hears initiator_channel responder_channel (str_bytes "pong");;
  initiator (lan_handle_revert "ServiceA_UPGRADE").

Definition with_endpoint_binds_one_ip_but_advertises_another : LanTest unit :=
  path_available ← initiator (lan_handle_initialize client "ServiceB_UPGRADE" "E1");
  info ← unwrap (upgrade_path_info path_available);
  socket ← unwrap info.(upi_wifi_lan_socket);
  assert_eq (default [] socket.(wls_ip_address)) [x7f; x00; x00; x01];;
  c ← responder (lan_create_upgraded_endpoint_channel client "ServiceB" "E1" info);
  responder_channel ← unwrap c;
  initiator_channel ← accepted;
  says_and_hears responder_channel initiator_channel (str_bytes "hi");;
  initiator (lan_handle_revert "ServiceB_UPGRADE").

Definition lan_create_channel_without_credentials_returns_none : LanTest unit :=
  c ← initiator (lan_create_upgraded_endpoint_channel client "ServiceA" "E1" UpgradePathInfo_default);
  assert_eq (is_some c) false.

Definition unspecified : Ipv4Addr := mkIpv4 x00 x00 x00 x00.

Example wifi_lan_tests_pass :
  let over i := (i, WifiLan_new, LoopbackWorld_empty) in
  passes wifi_lan_upgrade_channel_round_trips_over_loopback (over WifiLan_new)
  && passes with_endpoint_binds_one_ip_but_advertises_another
       (over (WifiLan_with_endpoint unspecified LOCALHOST))
  && passes lan_create_channel_without_credentials_returns_none (over WifiLan_new) = true.
Proof. vm_compute. reflexivity. Qed.

(** ** [tests/wifi_hotspot.rs] *)

Abbreviation HotspotTest :=
  (M (WifiHotspotBwuHandler FakeSoftAp * WifiHotspotBwuHandler FakeSoftAp * LoopbackWorld)).

Definition test_service : string := "com.google.location.nearby.apps.test_UPGRADE".

Definition can_create_bwu_handler : HotspotTest unit :=
  frame ← initiator (hotspot_handle_initialize client test_service "Hotspot_Server");
  assert (negb (is_nil frame));;
  initiator (hotspot_handle_revert test_service).

Definition assert_joined (b : bool) : HotspotTest unit :=
  o ← shared (gets (fun w => w.(tw_heap).(sh_env))); assert_eq (lo_sta o) b.

Definition softap_init_then_sta_creates_endpoint_channel : HotspotTest unit :=
  path_available ← initiator (hotspot_handle_initialize client "ServiceA_UPGRADE" "Hotspot_Server");
  assert (negb (is_nil path_available));;
  info ← unwrap (upgrade_path_info path_available);
  creds ← unwrap info.(upi_wifi_hotspot_credentials);
  assert_eq creds.(whc_gateway) (Some "127.0.0.1");;
  assert_eq creds.(whc_frequency) (Some 2437%Z);;
  assert (negb (str_is_empty (default "" creds.(whc_ssid))));;
  assert (8 <=? String.length (default "" creds.(whc_password)))%nat;;
  c ← responder (hotspot_create_upgraded_endpoint_channel client "ServiceA" "Hotspot_Server"
                   UpgradePathInfo_default);
  assert_eq (is_some c) false;;
  assert_joined false;;
  c ← responder (hotspot_create_upgraded_endpoint_channel client "ServiceA" "Hotspot_Server" info);
  responder_channel ← unwrap c;
  assert_channel_medium responder_channel WifiHotspot;;
  assert_joined true;;
  initiator_channel ← accepted;
  assert_channel_medium initiator_channel WifiHotspot;;
  says_and_hears responder_channel initiator_channel (str_bytes "ping");;
  says_and_hears initiator_channel responder_channel (str_bytes "pong");;
  responder (hotspot_on_endpoint_disconnect client "Hotspot_Server");;
  assert_joined false;;
  initiator (hotspot_handle_revert "ServiceA_UPGRADE").

Definition hotspot_create_channel_without_credentials_returns_none : HotspotTest unit :=
  c ← initiator (hotspot_create_upgraded_endpoint_channel client "ServiceA" "E1" UpgradePathInfo_default);
  assert_eq (is_some c) false.

Example wifi_hotspot_tests_pass :
  let pair := (WifiHotspot_new FakeSoftAp_new, WifiHotspot_new FakeSoftAp_new, LoopbackWorld_empty) in
  forallb (fun t => passes t pair)
    [can_create_bwu_handler; softap_init_then_sta_creates_endpoint_channel;
     hotspot_create_channel_without_credentials_returns_none] = true.
Proof. vm_compute. reflexivity. Qed.
