(* ===== verification/Transport.v ===== *)
(** The stream channel of [src/bwu/stream_channel.rs], without a cipher and over a
    stream that delivers bytes, is a transport as the theorems on the upgrade
    assume one; over the sockets of [src/bwu/tcp.rs] it is one on the loopback
    network. *)

From Stdlib Require Import ZArith NArith Lia.
From Stdlib Require Import Strings.Byte.
From S2P Require Import Prelude.
From S2P Require Import Mediums.
From S2P Require Import Proto.
From S2P Require Import Codec.
From S2P Require Import Frames.
From S2P Require Import Client.
From S2P Require Import Channel.
From S2P Require Import ChannelManager.
From S2P Require Import Handler.
From S2P Require Import Manager.
From S2P Require Import Scenario.
From S2P Require Import ManagerSteps.
From S2P Require Import StreamChannel.
From S2P Require Import StreamSteps.
From S2P Require Import Ipv4.
From S2P Require Import Tcp.
From S2P Require Import Loopback.
From S2P Require Import Upgrade.

(** * Definitions *)

(** Streams that deliver: [coming s bs] says that [s] is open in both directions
    and that [bs] comes first of what can still be read from it. *)
Class Delivers (env strm : Type) `{DuplexStream env strm} (coming : strm -> bytes -> env -> Prop)
    : Prop := {
  dv_read s n bs rest e :
    length bs = n -> coming s (bs ++ rest) e ->
    wp no_fault (ds_read_exact s n)
      (fun r e' => r = Ok bs /\ coming s rest e' /\
                   forall s' x, s' <> s -> coming s' x e -> coming s' x e') e;
  dv_write s d bs e :
    coming s bs e ->
    wp no_fault (ds_write_all s d)
      (fun r e' => r = Ok tt /\ forall s' x, coming s' x e -> coming s' x e') e;
  dv_flush s bs e :
    coming s bs e ->
    wp no_fault (ds_flush s) (fun r e' => r = Ok tt /\ forall s' x, coming s' x e -> coming s' x e') e;
  dv_close s bs e :
    coming s bs e ->
    wp no_fault (ds_close s)
      (fun _ e' => forall s' x, s' <> s -> coming s' x e -> coming s' x e') e;
}.

(** A message that a channel of the default limit takes. *)
Definition within_limit (d : bytes) : Prop :=
  (Z.of_nat (length d) <= DEFAULT_MAX_ALLOWED_READ_BYTES)%Z.

Section channels.
Context {env strm cph : Type} `{Cipher env cph} `{DuplexStream env strm}.
Context (coming : strm -> bytes -> env -> Prop).

(** No two channels share a stream; the channels are those of [media], of its
    mediums. *)
Record own_streams (media : gmap N Medium) (h : StreamHeap env strm cph) : Prop := {
  os_apart i j s t :
    i <> j -> h.(sh_channels) !! i = Some s -> h.(sh_channels) !! j = Some t ->
    s.(sc_stream) <> t.(sc_stream);
  os_media : sc_medium <$> h.(sh_channels) = media;
}.

(** An open channel without a cipher, of the default limit, to which the frames of
    [ds] come. *)
Record plain_channel (ds : list bytes) (s : StreamChannel strm cph) (e : env) : Prop := {
  pl_cipher : s.(sc_cipher) = None;
  pl_closed : s.(sc_closed) = false;
  pl_limit : s.(sc_max_allowed_read_bytes) = DEFAULT_MAX_ALLOWED_READ_BYTES;
  pl_fit : Forall within_limit ds;
  pl_coming : coming s.(sc_stream) (concat (framed <$> ds)) e;
}.

Definition stream_next (c : StreamArc) (ds : list bytes) (h : StreamHeap env strm cph) : Prop :=
  exists s, h.(sh_channels) !! c.(arc_id) = Some s /\ plain_channel ds s h.(sh_env).
End channels.

(** The loopback's sockets that are a device's: of the connection [k] it has the
    acceptor's end where [ends k], and the dialer's otherwise.  Both ends are open,
    and [bs] is received first. *)
Definition socket_stream (n : N) : TcpDuplexStream N := mkTcpDuplexStream n n n.

Definition own_end (ends : N -> bool) (k : N) : N := if ends k then 2 * k + 1 else 2 * k.

Definition socket_coming (ends : N -> bool) (t : TcpDuplexStream N) (bs : bytes) (o : Loopback)
    : Prop :=
  exists k rest sent,
    t = socket_stream (own_end ends k) /\ (k < o.(lo_next_socket))%N /\
    received (own_end ends k) o = mkPipeState (bs ++ rest) false /\
    received (peer (own_end ends k)) o = mkPipeState sent false.

(** * Lemmas *)

Lemma within_limit_all ds :
  forallb (fun d => Z.of_nat (length d) <=? DEFAULT_MAX_ALLOWED_READ_BYTES)%Z ds = true ->
  Forall within_limit ds.
Proof.
  intros Hds. apply Forall_forall. intros d Hd. rewrite forallb_forall in Hds.
  apply Z.leb_le, Hds. by apply list_elem_of_In.
Qed.

Section calls.
Context {env strm cph : Type} `{Cipher env cph} `{DuplexStream env strm} `{Codec}.
Context (coming : strm -> bytes -> env -> Prop) `{HD : !Delivers env strm coming}.
Implicit Types s : StreamChannel strm cph.

Definition others_coming (s : StreamChannel strm cph) (e e' : env) : Prop :=
  forall t x, t <> s.(sc_stream) -> coming t x e -> coming t x e'.

Definition all_coming (e e' : env) : Prop := forall t x, coming t x e -> coming t x e'.

Lemma wp_field {A} (f : StreamChannel strm cph -> A) Q (x : StreamChannel strm cph * env) :
  Q (f x.1) x -> wp no_fault (field f) Q x.
Proof. done. Qed.

Lemma wp_beneath {A} (m : M env A) P (Q : A -> StreamChannel strm cph * env -> Prop) s e :
  wp no_fault m P e -> (forall a e', P a e' -> Q a (s, e')) -> wp no_fault (under m) Q (s, e).
Proof. unfold wp, under. cbn. destruct (m e) as [[a e']|f]; [by auto|done]. Qed.

(** A whole frame that comes first is read. *)
Lemma plain_read d ds s e :
  plain_channel coming (d :: ds) s e ->
  wp no_fault sc_read (fun r x => r = Ok d /\ x.1 = s /\ plain_channel coming ds s x.2 /\
                                  others_coming s e x.2) (s, e).
Proof.
  intros [Hci Hcl Hli Hfit Hco]. apply Forall_cons in Hfit as [Hd Hds]. unfold within_limit in Hd.
  cbn [fmap list_fmap concat] in Hco. unfold framed in Hco at 1. rewrite <- !app_assoc in Hco.
  unfold sc_read, read_raw. apply wp_bind, wp_bind, wp_field, wp_bind, wp_field, wp_bind. cbn [fst].
  eapply wp_beneath; [eapply dv_read; [apply i32_to_be_length|exact Hco]|]. intros r1 e1 (-> & Hco1 & Ho1). cbv beta iota.
  rewrite be_length by lia. cbv zeta. rewrite Hli.
  rewrite (proj2 (Z.ltb_ge _ _)), (proj2 (Z.ltb_ge _ _)) by lia. cbn [orb].
  eapply wp_beneath; [eapply dv_read; [|exact Hco1]; lia|]. intros r2 e2 (-> & Hco2 & Ho2).
  cbv beta iota. apply wp_bind, wp_field. cbn [fst]. rewrite Hci. apply wp_ret.
  split_and!; [done|done|by split|]. intros t x Hne Hx. by apply Ho2, Ho1.
Qed.

Lemma plain_write d ds s e :
  plain_channel coming ds s e -> s.(sc_paused) = false -> within_limit d ->
  wp no_fault (sc_write d) (fun r x => r = Success /\ x.1 = s /\ all_coming e x.2) (s, e).
Proof.
  intros [Hci Hcl Hli Hfit Hco] Hp Hd. unfold within_limit in Hd. unfold sc_write, write_payload.
  apply wp_bind, wp_field. cbn [fst]. rewrite Hp. apply wp_bind, wp_field. cbn [fst]. rewrite Hci.
  apply wp_bind, wp_ret. cbv beta iota. apply wp_bind, wp_field, wp_bind, wp_field. cbn [fst].
  rewrite Hli, (proj2 (Z.ltb_ge _ _)) by lia.
  apply wp_bind. eapply wp_beneath; [by eapply dv_write|]. intros r1 e1 (-> & H1'). cbn [is_err].
  apply wp_bind. eapply wp_beneath; [eapply dv_write, H1', Hco|]. intros r2 e2 (-> & H2'). cbn [is_err].
  apply wp_bind. eapply wp_beneath; [eapply dv_flush, H2', H1', Hco|]. intros r3 e3 (-> & H3'). cbn [is_err].
  apply wp_ret. split_and!; [done|done|]. intros t x Hx. by apply H3', H2', H1'.
Qed.

Lemma plain_close ds s e :
  plain_channel coming ds s e ->
  wp no_fault do_close (fun _ x => x.1 = set_sc_pause false true s /\ others_coming s e x.2) (s, e).
Proof.
  intros [Hci Hcl Hli Hfit Hco]. unfold do_close. apply wp_bind, wp_field. cbn [fst]. rewrite Hcl.
  apply wp_bind. unfold update. apply wp_modify. cbn [fst snd]. apply wp_bind, wp_field. cbn [fst].
  eapply wp_beneath; [by eapply dv_close|]. by intros [] e1 Ho.
Qed.
End calls.

Section heap.
Context {env strm cph : Type} `{Cipher env cph} `{DuplexStream env strm} `{Codec}.
Context (coming : strm -> bytes -> env -> Prop) `{HD : !Delivers env strm coming}.
Implicit Types h : StreamHeap env strm cph.
Context (media : gmap N Medium).
#[local] Abbreviation own := (own_streams (env := env) (strm := strm) (cph := cph) media).
#[local] Abbreviation next := (stream_next (cph := cph) coming).

Lemma wp_arc {A} (m : M (StreamChannel strm cph * env) A) c s h
    (P : A -> StreamChannel strm cph * env -> Prop) (Q : A -> StreamHeap env strm cph -> Prop) :
  h.(sh_channels) !! c.(arc_id) = Some s -> wp no_fault m P (s, h.(sh_env)) ->
  (forall a s' e, P a (s', e) -> Q a (mkStreamHeap (<[c.(arc_id) := s']> h.(sh_channels)) e)) ->
  wp no_fault (arc_op m c) Q h.
Proof.
  intros Hs. unfold wp, arc_op. rewrite Hs. destruct (m _) as [[a [s' e]]|f]; [by auto|done].
Qed.

(** A call on a channel keeps the others. *)
Lemma heap_others c s s' e h :
  own h -> h.(sh_channels) !! c.(arc_id) = Some s -> s'.(sc_stream) = s.(sc_stream) ->
  s'.(sc_medium) = s.(sc_medium) -> others_coming coming s h.(sh_env) e ->
  let h' := mkStreamHeap (<[c.(arc_id) := s']> h.(sh_channels)) e in
  own h' /\ pauses_kept_but c h h' /\ next_kept_but next c h h'.
Proof.
  intros [Ho Hm] Hs Hst Hmd Hco. cbv zeta. split_and!.
  - split; cbn; [|by rewrite fmap_insert, Hmd, insert_id; [|rewrite lookup_fmap, Hs]].
    intros i j x y Hij Hx Hy.
    assert (Hold : forall k z, (<[c.(arc_id) := s']> h.(sh_channels)) !! k = Some z ->
      exists z0, h.(sh_channels) !! k = Some z0 /\ sc_stream z = sc_stream z0).
    { intros k z Hz. destruct (decide (k = c.(arc_id))) as [->|Hne].
      - rewrite lookup_insert_eq in Hz. injection Hz as <-. by exists s.
      - rewrite lookup_insert_ne in Hz by done. by exists z. }
    destruct (Hold i x Hx) as (x0 & Hx0 & ->), (Hold j y Hy) as (y0 & Hy0 & ->).
    by apply (Ho i j).
  - intros c' Hne. cbn. unfold arc_get. cbn. rewrite lookup_insert_ne; [done|].
    intros Heq. apply Hne. destruct c, c'. cbn in Heq. by rewrite Heq.
  - assert (Hids : forall c', c' <> c -> c.(arc_id) <> c'.(arc_id)).
    { intros c' Hne Heq. apply Hne. destruct c, c'. cbn in Heq. by rewrite Heq. }
    intros c' ds Hne (t & Ht & [H1' H2' H3' H4' H5']). exists t. cbn.
    rewrite lookup_insert_ne by by apply Hids. split; [done|]. split; try done.
    apply Hco; [|done]. by apply (Ho (arc_id c') (arc_id c)); [apply not_eq_sym, Hids| |].
Qed.

(** A call that leaves its channel open keeps them all. *)
Lemma heap_all c s s' e h :
  own h -> h.(sh_channels) !! c.(arc_id) = Some s -> s'.(sc_stream) = s.(sc_stream) ->
  s'.(sc_medium) = s.(sc_medium) -> s'.(sc_cipher) = None -> s'.(sc_closed) = s.(sc_closed) ->
  s'.(sc_max_allowed_read_bytes) = s.(sc_max_allowed_read_bytes) ->
  all_coming coming h.(sh_env) e ->
  let h' := mkStreamHeap (<[c.(arc_id) := s']> h.(sh_channels)) e in
  own h' /\ pauses_kept_but c h h' /\ next_kept next h h'.
Proof.
  intros Ho Hs Hst Hmd Hci Hcl Hli Hco. cbv zeta.
  destruct (heap_others c s s' e h Ho Hs Hst Hmd) as (Ho' & Hp & Hx); [by intros t x _; apply Hco|].
  split_and!; [done|done|]. intros c' ds Hn. destruct (decide (arc_id c' = arc_id c)) as [Heq|Hne].
  - destruct Hn as (t & Ht & [H1' H2' H3' H4' H5']). rewrite Heq, Hs in Ht. injection Ht as <-.
    exists s'. cbn. rewrite Heq, lookup_insert_eq. split; [done|].
    split; [done|congruence|congruence|done|]. rewrite Hst. by apply Hco.
  - apply Hx; [by intros ->|done].
Qed.

Lemma paused_at c s e h :
  h.(sh_channels) !! c.(arc_id) = Some s -> ch_is_paused c h = s.(sc_paused) /\
  forall s', ch_is_paused c (mkStreamHeap (<[c.(arc_id) := s']> h.(sh_channels)) e) = s'.(sc_paused).
Proof. intros Hs. cbn. unfold arc_get. rewrite Hs. split; [done|]. intros s'. cbn. by rewrite lookup_insert_eq. Qed.

Lemma pauses_kept_at c s s' e h :
  h.(sh_channels) !! c.(arc_id) = Some s -> s'.(sc_paused) = s.(sc_paused) ->
  pauses_kept_but c h (mkStreamHeap (<[c.(arc_id) := s']> h.(sh_channels)) e) ->
  pauses_kept h (mkStreamHeap (<[c.(arc_id) := s']> h.(sh_channels)) e).
Proof.
  intros Hs Hp Hk c'. destruct (decide (arc_id c' = arc_id c)) as [Heq|Hne].
  - destruct (paused_at c s e h Hs) as [H1' H2']. destruct c, c'. cbn in Heq. subst. by rewrite H2', H1'.
  - apply Hk. by intros ->.
Qed.

(** An update of the channel alone. *)
Lemma update_works c f ds h :
  own h -> next c ds h ->
  (forall s, sc_stream (f s) = sc_stream s /\ sc_medium (f s) = sc_medium s /\ (sc_cipher s = None -> sc_cipher (f s) = None) /\
             sc_closed (f s) = sc_closed s /\
             sc_max_allowed_read_bytes (f s) = sc_max_allowed_read_bytes s) ->
  wp no_fault (arc_op (update f) c)
    (fun _ h' => exists s, h.(sh_channels) !! c.(arc_id) = Some s /\
       h' = mkStreamHeap (<[c.(arc_id) := f s]> h.(sh_channels)) h.(sh_env) /\
       own h' /\ pauses_kept_but c h h' /\ next_kept next h h') h.
Proof.
  intros Ho (s & Hs & [Hci _ _ _ _]) Hf. destruct (Hf s) as (H1' & H2' & H3' & H4' & H5').
  eapply (wp_arc _ c s h (fun _ x => x = (f s, h.(sh_env)))); [done|done|].
  intros _ s' e [= -> ->]. exists s. split; [done|]. split; [done|].
  apply (heap_all c s); auto. by intros t x.
Qed.

Lemma stream_write c d ds h :
  own h -> next c ds h -> ch_is_paused c h = false -> within_limit d ->
  wp no_fault (ch_write c d)
    (fun r h' => r = Success /\ own h' /\ pauses_kept h h' /\ next_kept next h h') h.
Proof.
  intros Ho (s & Hs & Hpl) Hp Hd. destruct (paused_at c s h.(sh_env) h Hs) as [Hps _].
  rewrite Hps in Hp. eapply wp_arc; [done|by eapply plain_write|].
  intros r s' e (-> & Hs' & Hall). cbn in Hs', Hall. subst s'. split; [done|].
  destruct Hpl as [Hci _ _ _ _].
  destruct (heap_all c s s e h) as (Ho' & Hk & Hx); auto.
  split_and!; [done|by eapply pauses_kept_at|done].
Qed.

(** A write leaves the channels as they are. *)
Lemma stream_write_exact c d ds h :
  next c ds h -> ch_is_paused c h = false -> within_limit d ->
  wp no_fault (ch_write c d)
    (fun r h' => r = Success /\ h'.(sh_channels) = h.(sh_channels) /\
                 all_coming coming h.(sh_env) h'.(sh_env)) h.
Proof.
  intros (s & Hs & Hpl) Hp Hd. destruct (paused_at c s h.(sh_env) h Hs) as [Hps _].
  rewrite Hps in Hp. eapply wp_arc; [done|by eapply plain_write|].
  intros r s' e (-> & Hs' & Hall). cbn in Hs', Hall. subst s'. split_and!; [done| |done].
  cbn. by apply insert_id.
Qed.

Lemma stream_read c d ds h :
  own h -> next c (d :: ds) h ->
  wp no_fault (ch_read c)
    (fun r h' => r = Ok d /\ own h' /\ pauses_kept h h' /\ next c ds h' /\ next_kept_but next c h h') h.
Proof.
  intros Ho (s & Hs & Hpl). eapply wp_arc; [done|by apply plain_read|].
  intros r s' e (-> & Hs' & Hpl' & Hco). cbn in Hs', Hpl', Hco. subst s'. split; [done|].
  destruct (heap_others c s s e h) as (Ho' & Hk & Hx); auto.
  split_and!; [done|by eapply pauses_kept_at| |done].
  exists s. cbn. by rewrite lookup_insert_eq.
Qed.

Lemma stream_close c d ds h :
  own h -> next c ds h ->
  wp no_fault (ch_close_with_reason c d)
    (fun _ h' => own h' /\ pauses_kept_but c h h' /\ next_kept_but next c h h') h.
Proof.
  intros Ho (s & Hs & Hpl). eapply wp_arc; [done|by eapply plain_close|].
  intros r s' e (Hs' & Hco). cbn in Hs', Hco. subst s'. by apply (heap_others c s).
Qed.

(** A switch of the channel that leaves its pause alone. *)
Lemma stream_set c f ds h :
  own h -> next c ds h ->
  (forall s, sc_stream (f s) = sc_stream s /\ sc_medium (f s) = sc_medium s /\ (sc_cipher s = None -> sc_cipher (f s) = None) /\
             sc_closed (f s) = sc_closed s /\
             sc_max_allowed_read_bytes (f s) = sc_max_allowed_read_bytes s) ->
  (forall s, sc_paused (f s) = sc_paused s) ->
  wp no_fault (arc_op (update f) c)
    (fun _ h' => own h' /\ pauses_kept h h' /\ next_kept next h h') h.
Proof.
  intros Ho Hn Hf Hp. eapply wp_mono; [by eapply update_works|done|].
  intros _ h' (s & Hs & -> & Ho' & Hk & Hx). split_and!; [done| |done].
  by eapply pauses_kept_at.
Qed.

(** A switch of its pause. *)
Lemma stream_pause c b ds h :
  own h -> next c ds h ->
  wp no_fault (arc_op (update (fun s => set_sc_pause b s.(sc_closed) s)) c)
    (fun _ h' => own h' /\ ch_is_paused c h' = b /\ pauses_kept_but c h h' /\ next_kept next h h') h.
Proof.
  intros Ho Hn. eapply wp_mono; [by eapply update_works|done|].
  intros _ h' (s & Hs & -> & Ho' & Hk & Hx). split_and!; [done| |done|done].
  by rewrite (proj2 (paused_at c s h.(sh_env) h Hs)).
Qed.
End heap.

(** Reading a socket of the loopback, writing to it and shutting it down. *)
Section loopback.
Implicit Types (o : Loopback) (t : TcpDuplexStream N).

Lemma received_set f x o : received x (set_received f o) = default (mkPipeState [] true) (f o.(lo_received) !! x).
Proof. done. Qed.

Lemma received_insert x y v o :
  received x (set_received <[y := v]> o) = if decide (x = y) then v else received x o.
Proof.
  rewrite received_set. case_decide as Hxy.
  - subst. by rewrite lookup_insert_eq.
  - by rewrite lookup_insert_ne by congruence.
Qed.

Lemma peer_even k : peer (2 * k) = (2 * k + 1)%N.
Proof. unfold peer. by rewrite N.even_even. Qed.

Lemma peer_odd k : peer (2 * k + 1) = (2 * k)%N.
Proof. unfold peer. rewrite N.even_odd. lia. Qed.

(** The ends of connections are apart. *)
Lemma ends_apart ends k k' :
  (own_end ends k = own_end ends k' -> k = k') /\
  (peer (own_end ends k) = peer (own_end ends k') -> k = k') /\
  own_end ends k <> peer (own_end ends k').
Proof.
  unfold own_end. destruct (ends k) eqn:Hk, (ends k') eqn:Hk'; rewrite ?peer_odd, ?peer_even;
    split_and!; try lia; intros Heq; (assert (k = k') as -> by lia; congruence).
Qed.

#[export] Instance sockets_deliver ends : Delivers Loopback (TcpDuplexStream N) (socket_coming ends).
Proof.
  split.
  - intros t n bs rest o Hn (k & more & sent & -> & Hk & Hr & Hw). cbn. unfold tcp_read_exact. cbn.
    unfold lo_read_exact. apply wp_bind, wp_bind. unfold wp, gets. rewrite Hr. cbn [ps_buf ps_closed].
    assert (Hle : (n <=? length ((bs ++ rest) ++ more))%nat = true).
    { apply Nat.leb_le. rewrite !length_app. lia. }
    rewrite Hle. cbn. rewrite <- app_assoc, <- Hn, take_app_length, drop_app_length.
    split_and!; [done| |].
    + exists k, more, sent. split; [done|]. split; [done|]. rewrite !received_insert, decide_True by done.
      split; [done|]. rewrite decide_False; [done|]. apply not_eq_sym, ends_apart.
    + intros t' x Hne (k' & more' & sent' & -> & Hk' & Hr' & Hw'). exists k', more', sent'.
      split; [done|]. split; [done|]. rewrite !received_insert, !decide_False; [done|..].
      * apply not_eq_sym, ends_apart.
      * intros Heq. apply Hne. by rewrite Heq.
  - intros t d bs o (k & more & sent & -> & Hk & Hr & Hw). cbn. unfold tcp_write_all. cbn.
    unfold lo_write_all. apply wp_bind, wp_bind. unfold wp, gets. rewrite Hw. cbn.
    split; [done|]. intros t' x (k' & more' & sent' & -> & Hk' & Hr' & Hw').
    exists k', more', (if decide (k' = k) then sent ++ d else sent'). split; [done|]. split; [done|].
    rewrite !received_insert, decide_False by apply ends_apart. split; [done|].
    destruct (decide (k' = k)) as [->|Hne]; [by rewrite decide_True|].
    rewrite decide_False; [done|]. intros Heq.
    by apply Hne, (proj1 (proj2 (ends_apart ends k' k))).
  - intros t bs o _. by cbn.
  - intros t bs o (k & more & sent & -> & Hk & Hr & Hw). cbn. unfold tcp_close. cbn. unfold lo_shutdown.
    unfold wp. cbn. intros t' x Hne (k' & more' & sent' & -> & Hk' & Hr' & Hw').
    assert (Hkk : k' <> k) by by intros ->. exists k', more', sent'. split; [done|]. split; [done|].
    rewrite !received_set, !lookup_insert_ne; [by rewrite <- Hr', <- Hw'|..];
      intros Heq; destruct (ends_apart ends k k') as (HA & HB & HC), (ends_apart ends k' k) as (_ & _ & HD);
      by auto using eq_sym.
Qed.
End loopback.

(** * Properties *)

(** C24. Channels over streams that deliver bytes are a transport as the theorems
    on the upgrade of both sides assume one: without a cipher, and each with a
    stream of its own, a message of at most the limit is written, the frames to
    come are read one by one and whole, and no call of one channel, a close
    included, disturbs another's frames or pause. *)
Theorem stream_channels_work {env strm cph} `{Cipher env cph} `{DuplexStream env strm} `{Codec}
    (coming : strm -> bytes -> env -> Prop) `{HD : !Delivers env strm coming}
    (media : gmap N Medium) :
  WorkingTransport (StreamHeap env strm cph) StreamArc (own_streams media) (stream_next coming) within_limit.
Proof.
  split.
  - by apply stream_write.
  - by apply stream_read.
  - by apply stream_close.
  - intros c i ds h Ho Hn. by eapply stream_set.
  - intros c ds h Ho Hn. by eapply stream_set.
  - intros c ds h Ho Hn. by eapply stream_pause.
  - intros c ds h Ho Hn. by eapply stream_pause.
Qed.

(** Every connection is the device's own dial. *)
Definition dialled (_ : N) : bool := false.

(** Two channels over sockets of the loopback: a message of two bytes and an empty
    one have come to the first, and a message of one byte to the second. *)
Definition two_channels : StreamHeap Loopback (TcpDuplexStream N) Empty_set :=
  mkStreamHeap
    {[0%N := StreamChannel_new "A" "old" Bluetooth (socket_stream 0);
      1%N := StreamChannel_new "A" "new" WifiLan (socket_stream 2)]}
    (mkLoopback 40000 2 ∅
       {[0%N := mkPipeState (framed [x01; x02] ++ framed []) false; 1%N := mkPipeState [] false;
         2%N := mkPipeState (framed [x03]) false; 3%N := mkPipeState [] false]} ∅ false).

Lemma two_channels_next i ds rest sent :
  (i < 2)%N -> Forall within_limit ds ->
  two_channels.(sh_channels) !! i = Some (StreamChannel_new "A" (if decide (i = 0%N) then "old" else "new")
    (if decide (i = 0%N) then Bluetooth else WifiLan) (socket_stream (2 * i))) ->
  received (2 * i) two_channels.(sh_env) = mkPipeState (concat (framed <$> ds) ++ rest) false ->
  received (2 * i + 1) two_channels.(sh_env) = mkPipeState sent false ->
  stream_next (socket_coming dialled) (mkStreamArc i) ds two_channels.
Proof.
  intros Hi Hds Hs Hr Hw. eexists. split; [exact Hs|]. split; try reflexivity; [exact Hds|].
  exists i, rest, sent. split_and!; [done|done|done|]. by cbn; rewrite peer_even.
Qed.

Lemma stream_channels_work_witness :
  let old := mkStreamArc 0 in
  let new := mkStreamArc 1 in
  wp no_fault
    (r1 ← ch_read old; _ ← ch_write new [x04]; _ ← ch_close_with_reason new LocalDisconnection;
     r2 ← ch_read old; mret (r1, r2))
    (fun r h => r = (Ok [x01; x02], Ok []) /\
                stream_next (socket_coming dialled) old [] h /\ sc_medium <$> h.(sh_channels) = {[0%N := Bluetooth; 1%N := WifiLan]})
    two_channels.
Proof.
  cbv zeta.
  pose proof (stream_channels_work (socket_coming dialled) {[0%N := Bluetooth; 1%N := WifiLan]}
    : WorkingTransport (StreamHeap Loopback (TcpDuplexStream N) Empty_set) _ _ _ _) as HT.
  assert (Ho : own_streams {[0%N := Bluetooth; 1%N := WifiLan]} two_channels).
  { split; [|apply map_eq; intros i; vm_compute; reflexivity].
    intros i j s t Hij. cbn. rewrite !lookup_insert_Some.
    by intros [[<- <-]|[_ [<- <-]%lookup_singleton_Some]] [[<- <-]|[_ [<- <-]%lookup_singleton_Some]]. }
  assert (H0 : stream_next (socket_coming dialled) (mkStreamArc 0) [[x01; x02]; []] two_channels).
  { apply (two_channels_next 0 _ [] []); [reflexivity| |reflexivity..].
    apply within_limit_all. vm_compute. reflexivity. }
  assert (H1 : stream_next (socket_coming dialled) (mkStreamArc 1) [] two_channels).
  { apply (two_channels_next 1 _ (framed [x03]) []); [reflexivity|by apply Forall_nil|reflexivity..]. }
  apply wp_bind. eapply wp_mono; [by eapply (wt_read (WorkingTransport := HT))|done|].
  intros r1 h1 (-> & Ho1 & Hp1 & Hn1 & Hk1). apply wp_bind.
  eapply wp_mono; [eapply (wt_write (WorkingTransport := HT) _ _ []);
    [exact Ho1|by apply Hk1|by rewrite Hp1|apply Z.leb_le; vm_compute; reflexivity]|done|].
  intros r2 h2 (-> & Ho2 & Hp2 & Hk2). apply wp_bind.
  eapply wp_mono; [eapply (wt_close (WorkingTransport := HT) _ _ []); [exact Ho2|apply Hk2, Hk1; done]|done|].
  intros [] h3 (Ho3 & Hp3 & Hk3). apply wp_bind.
  eapply wp_mono; [eapply (wt_read (WorkingTransport := HT)); [exact Ho3|apply Hk3; [done|by apply Hk2]]|done|].
  intros r4 h4 (-> & Ho4 & Hp4 & Hn4 & Hk4). split_and!; [done|done|by apply Ho4].
Defined.
