(* ===== verification/LanUpgrade.v ===== *)
(** The responder's upgrade over WIFI_LAN, through every layer: the manager of
    [src/bwu/manager.rs], the bookkeeping of [src/bwu/handler.rs], the handler of
    [src/bwu/wifi_lan.rs], the channels of [src/bwu/stream_channel.rs] and the
    sockets of [src/bwu/tcp.rs]. *)

From Stdlib Require Import ZArith NArith Lia.
From S2P Require Import Prelude.
From S2P Require Import Mediums.
From S2P Require Import Proto.
From S2P Require Import Codec.
From S2P Require Import Frames.
From S2P Require Import Client.
From S2P Require Import Channel.
From S2P Require Import ChannelManager.
From S2P Require Import Handler.
From S2P Require Import Manager.
From S2P Require Import Scenario.
From S2P Require Import ManagerSteps.
From S2P Require Import StreamChannel.
From S2P Require Import StreamSteps.
From S2P Require Import Ipv4.
From S2P Require Import Tcp.
From S2P Require Import WifiLan.
From S2P Require Import Loopback.
From S2P Require Import FromBytes.
From S2P Require Import Upgrade.
From S2P Require Import Transport.

(** * Definitions *)

(** Connecting to an address makes a stream that was not [known]; [up a ds o] says
    that a program listens at [a], and that the frames of [ds] come first of what it
    writes on a connection. *)
Class Connects (os sock lsn : Type) `{TcpOs os sock lsn}
    (coming : TcpDuplexStream sock -> bytes -> os -> Prop)
    (known : TcpDuplexStream sock -> os -> Prop) (up : SocketAddr -> list bytes -> os -> Prop) : Prop := {
  cn_dial a ds o :
    up a ds o ->
    wp no_fault (os_connect a)
      (fun r o1 => exists s, r = Some s /\
         wp no_fault (TcpDuplexStream_new s)
           (fun d o2 => exists t, d = Some t /\ ~ known t o /\ coming t (concat (framed <$> ds)) o2 /\
                        forall t' x, coming t' x o -> coming t' x o2) o1) o;
}.

Section world.
Context {os sock lsn cph : Type} `{TcpOs os sock lsn} `{Cipher os cph} `{Codec}.
Context (coming : TcpDuplexStream sock -> bytes -> os -> Prop).

Definition own_sockets (media : gmap N Medium) (w : TcpWorld os sock cph) : Prop :=
  own_streams media w.(tw_heap).

Definition socket_next (c : StreamArc) (ds : list bytes) (w : TcpWorld os sock cph) : Prop :=
  stream_next coming c ds w.(tw_heap).

(** The number of the next channel. *)
Definition next_arc (w : TcpWorld os sock cph) : StreamArc :=
  mkStreamArc (fresh (dom w.(tw_heap).(sh_channels))).

Definition media_of (w : TcpWorld os sock cph) : gmap N Medium :=
  sc_medium <$> w.(tw_heap).(sh_channels).

(** The channels have streams that are known, each its own; the one that is being
    upgraded is open and resumed, and a farewell comes to it. *)
Record standing (known : TcpDuplexStream sock -> os -> Prop) (old : StreamArc) (last : bytes)
    (w : TcpWorld os sock cph) : Prop := {
  st_apart : own_sockets (media_of w) w;
  st_known i s : w.(tw_heap).(sh_channels) !! i = Some s -> known s.(sc_stream) w.(tw_heap).(sh_env);
  st_next : socket_next old [last] w;
  st_resumed : ch_is_paused old w = false;
}.
End world.

(** The endpoint's upgrade to WIFI_LAN is over: the new channel is its active one
    and resumed, the client has heard of WIFI_LAN, nothing of the upgrade is left,
    the channels are those of before and the new one, each with a stream of its own,
    and [passed] has gone through the channels. *)
Record upgraded_to_lan {H os sock lsn cph} `{TcpOs os sock lsn} `{Cipher os cph} `{Codec}
    (ep : string) (new : StreamArc) (media : gmap N Medium) (events : list (string * Medium))
    (passed : list (io StreamArc)) (w : World H (Tapped (TcpWorld os sock cph) StreamArc) StreamArc)
    : Prop := {
  ul_active : get_channel_for_endpoint ep w.(w_ecm) = Some new;
  ul_resumed : ch_is_paused new w.(w_env) = false;
  ul_events : bandwidth_changed_events w.(w_client) = events ++ [(ep, WifiLan)];
  ul_progress : ep ∉ w.(w_mgr).(in_progress_upgrades);
  ul_parked : w.(w_mgr).(previous_endpoint_channels) !! ep = None;
  ul_channels : own_sockets (<[new.(arc_id) := WifiLan]> media) w.(w_env).(tap_env);
  ul_passed : w.(w_env).(tap_io) = passed;
}.

(** The sockets that have been given out, and the ports that are listened on. *)
Definition lo_known (ends : N -> bool) (t : TcpDuplexStream N) (o : Loopback) : Prop :=
  exists k, t = socket_stream (own_end ends k) /\ (k < o.(lo_next_socket))%N.

Definition lo_listening (a : SocketAddr) (ds : list bytes) (o : Loopback) : Prop :=
  is_Some (o.(lo_backlogs) !! a.(sock_port)) /\
  default [] (o.(lo_greetings) !! a.(sock_port)) = concat (framed <$> ds).

(** * Lemmas *)

Section lan.
Context {os sock lsn cph : Type} `{TcpOs os sock lsn} `{Cipher os cph} `{Codec}.
Context (coming : TcpDuplexStream sock -> bytes -> os -> Prop)
  `{HD : !Delivers os (TcpDuplexStream sock) coming}.
Implicit Types w : TcpWorld os sock cph.
#[local] Abbreviation next := (socket_next (cph := cph) coming).

(** A call on the channels under the threads. *)
Lemma wp_on_channels {A} (m : M (StreamHeap os (TcpDuplexStream sock) cph) A) P (Q : A -> _ -> Prop) w :
  wp no_fault m P w.(tw_heap) ->
  (forall a h, P a h -> Q a (mkTcpWorld h w.(tw_threads) w.(tw_next))) ->
  wp no_fault (on_heap m) Q w.
Proof. unfold wp, on_heap. destruct (m _) as [[a h]|f]; [by auto|done]. Qed.

Lemma sockets_work (media : gmap N Medium) :
  WorkingTransport (TcpWorld os sock cph) StreamArc (own_sockets media) next within_limit.
Proof.
  split.
  - intros c d ds w Ho Hn Hp Hd. by eapply wp_on_channels; [eapply stream_write|].
  - intros c d ds w Ho Hn. by eapply wp_on_channels; [eapply stream_read|].
  - intros c d ds w Ho Hn. by eapply wp_on_channels; [eapply stream_close|].
  - intros c i ds w Ho Hn. by eapply wp_on_channels; [eapply stream_set|].
  - intros c ds w Ho Hn. by eapply wp_on_channels; [eapply stream_set|].
  - intros c ds w Ho Hn. by eapply wp_on_channels; [eapply stream_pause|].
  - intros c ds w Ho Hn. by eapply wp_on_channels; [eapply stream_pause|].
Qed.

Context (known : TcpDuplexStream sock -> os -> Prop) (up : SocketAddr -> list bytes -> os -> Prop)
  `{HC : !Connects os sock lsn coming known up}.

(** A new stream becomes a channel of its medium, and the others are kept. *)
Lemma channel_lines sck service_id name medium old last ds w o1 :
  standing coming known old last w -> Forall within_limit ds ->
  wp no_fault (TcpDuplexStream_new sck)
    (fun d o2 => exists t, d = Some t /\ ~ known t w.(tw_heap).(sh_env) /\
       coming t (concat (framed <$> ds)) o2 /\
       forall t' x, coming t' x w.(tw_heap).(sh_env) -> coming t' x o2) o1 ->
  wp no_fault (tcp_channel sck service_id name medium)
    (fun r w' => r = Some (next_arc w) /\ next_arc w <> old /\
       w'.(tw_threads) = w.(tw_threads) /\
       lines (own_sockets (<[(next_arc w).(arc_id) := medium]> (media_of w))) next
         old (next_arc w) last false ds w')
    (mkTcpWorld (mkStreamHeap w.(tw_heap).(sh_channels) o1) w.(tw_threads) w.(tw_next)).
Proof.
  intros [Ho Hk Hn Hp] Hds Hc. unfold wp in Hc.
  unfold wp, tcp_channel, mbind, M_bind, on_os, alloc_channel, on_heap, get, modify, mret, M_ret.
  cbn [tw_heap sh_env sh_channels tw_threads tw_next fst snd].
  destruct (TcpDuplexStream_new sck o1) as [[d o2]|f]; [|done]. destruct Hc as (t & -> & Hfr & Hcm & Hkeep).
  cbn [tw_heap sh_env sh_channels tw_threads tw_next fst snd]. unfold next_arc. cbn [arc_id].
  set (chs := w.(tw_heap).(sh_channels)) in *. set (id := fresh (dom chs)).
  assert (Hid : chs !! id = None) by (apply not_elem_of_dom, is_fresh).
  destruct Hn as (so & Hso & Hpl). assert (Hold : arc_id old <> id).
  { intros Heq. rewrite Heq in Hso. fold chs in Hso. by rewrite Hso in Hid. }
  split; [done|]. split; [by intros Heq; subst old|]. split; [done|]. split.
  - split; cbn.
    + intros i j x y Hij. rewrite !lookup_insert_Some. intros [[<- <-]|[Hi Hx]] [[<- <-]|[Hj Hy]]; cbn.
      * done.
      * intros ->. by apply Hfr, (Hk j).
      * intros <-. by apply Hfr, (Hk i).
      * by apply (os_apart _ _ Ho i j).
    + by rewrite fmap_insert.
  - revert Hp. cbn. unfold arc_get. cbn. by rewrite lookup_insert_ne.
  - exists so. cbn. rewrite lookup_insert_ne by done. split; [done|].
    destruct Hpl as [H1' H2' H3' H4' H5']. split; try done. by apply Hkeep.
  - cbn. unfold arc_get. cbn. by rewrite lookup_insert_eq.
  - eexists. cbn. rewrite lookup_insert_eq. split; [done|]. by split.
Qed.

(** A dial does so, with the stream of its connection. *)
Lemma dial_lines {B} (h : B) addr service_id name medium old last ds w :
  standing coming known old last w -> up addr ds w.(tw_heap).(sh_env) -> Forall within_limit ds ->
  wp no_fault (dial addr service_id name medium)
    (fun r s => r = Some (next_arc w) /\ s.1 = h /\ next_arc w <> old /\
       lines (own_sockets (<[(next_arc w).(arc_id) := medium]> (media_of w))) next
         old (next_arc w) last false ds s.2) (h, w).
Proof.
  intros Hst Hup Hds. unfold dial. apply wp_bind. unfold wp at 1, on_world, on_os. cbn [snd fst].
  pose proof (cn_dial addr _ _ Hup) as Hc. unfold wp at 1 in Hc.
  destruct (os_connect addr _) as [[r o1]|f]; [|done]. destruct Hc as (s & -> & Hc).
  pose proof (channel_lines s service_id name medium old last ds w o1 Hst Hds Hc) as Hl.
  unfold wp in Hl |- *. cbn [fst snd]. destruct (tcp_channel _ _ _ _ _) as [[c w']|f]; [|done].
  destruct Hl as (-> & Hne & _ & Hl). by split_and!.
Qed.

Lemma upgraded_lan {H'} ep new media events passed
    (w : World H' (Tapped (TcpWorld os sock cph) StreamArc) StreamArc) :
  upgraded (own_sockets (<[new.(arc_id) := WifiLan]> media)) ep new events passed w ->
  upgraded_to_lan ep new media events passed w.
Proof.
  intros [He Hio Hc Hp Ha Hpk Hla Hn Hev]. split; try done. rewrite Hev. do 2 f_equal.
  assert (Hm : ch_medium new w.(w_env) = WifiLan); [|by rewrite Hm].
  pose proof (f_equal (lookup (arc_id new)) (os_media _ _ He)) as Hl.
  rewrite lookup_fmap, lookup_insert_eq in Hl. apply fmap_Some in Hl as (s & Hs & Hsm).
  cbn. unfold arc_get. by rewrite Hs.
Qed.
End lan.

(** ** On the loopback network *)

#[export] Instance loopback_connects :
  Connects Loopback N Z (socket_coming dialled) (lo_known dialled) lo_listening.
Proof.
  split. intros a ds o [[backlog Hb] Hg]. unfold wp at 1. cbn. unfold lo_connect, get, modify, mbind, M_bind, mret, M_ret.
  rewrite Hb. eexists. split; [done|]. unfold wp. cbn. set (n := o.(lo_next_socket)).
  exists (socket_stream (2 * n)). split; [done|]. split_and!.
  - intros (k & Ht & Hk). cbn in Ht. injection Ht. fold n in Hk. lia.
  - exists n, [], []. cbn. split_and!; [done|lia| |].
    + unfold received. cbn. by rewrite lookup_insert_eq, Hg, app_nil_r.
    + rewrite peer_even. unfold received. cbn. rewrite lookup_insert_ne by lia. by rewrite lookup_insert_eq.
  - intros t' x (k & rest & sent & -> & Hk & Hr & Hs). fold n in Hk. exists k, rest, sent. cbn in *.
    rewrite peer_even in *. unfold received in *. cbn. rewrite !lookup_insert_ne by lia. split_and!; [done|lia|done|done].
Qed.

(** * Properties *)

(** C5. The responder's upgrade over WIFI_LAN from the manager down to the
    sockets: an endpoint whose old channel is open takes an offer for an address
    that is up.  The handler dials it, the new channel is a channel of its own over
    a stream of its own, on which the introduction passes, with its acknowledgement
    if the offer asks for one; and after the remote's LAST_WRITE and SAFE_TO_CLOSE it is
    the endpoint's active one, resumed, and the client hears of WIFI_LAN; all calls
    return, whatever else the device has open, and exactly the messages of the
    handshake pass. *)
Theorem lan_responder_upgrade
    {os sock lsn cph : Type} `{TcpOs os sock lsn} `{Cipher os cph} `{Codec}
    (coming : TcpDuplexStream sock -> bytes -> os -> Prop)
    `{HD : !Delivers os (TcpDuplexStream sock) coming}
    (known : TcpDuplexStream sock -> os -> Prop) (up : SocketAddr -> list bytes -> os -> Prop)
    `{HC : !Connects os sock lsn coming known up}
    (fuel : nat) (on : Medium) (ep : string) (old : StreamArc) (addr : SocketAddr)
    (h : BaseBwuHandler WifiLanBwuHandler) (b1 b2 b3 ack last : bytes) (info : UpgradePathInfo)
    (w : World (BaseBwuHandler WifiLanBwuHandler) (Tapped (TcpWorld os sock cph) StreamArc) StreamArc) :
  let net := w.(w_env).(tap_env) in
  let new := next_arc net in
  standing coming known old last net ->
  Forall within_limit (introduction_of old info w :: handshake_messages) ->
  takes_offer ep old info w -> path_info_medium info = WifiLan ->
  w.(w_mgr).(handlers) !! WifiLan = Some h ->
  lan_target info = Some addr -> up addr (acks info ack) net.(tw_heap).(sh_env) ->
  Forall within_limit (acks info ack) ->
  (default false info.(upi_supports_client_introduction_ack) = true -> acknowledges ack) ->
  says b1 Ev_UpgradePathAvailable (Some info) ->
  says b2 Ev_LastWriteToPriorChannel None -> says b3 Ev_SafeToClosePriorChannel None ->
  wp no_fault
    (hand_over fuel ep on old b1;; hand_over fuel ep on old b2;; hand_over fuel ep on old b3)
    (fun _ => upgraded_to_lan ep new (media_of net) (bandwidth_changed_events w.(w_client))
       (w.(w_env).(tap_io) ++
        responder_io old new (default false info.(upi_supports_client_introduction_ack))
          (latched ep w) b1 (introduction_of old info w) ack b2 b3 last)) w.
Proof.
  intros net new Hst Hfits Hto Hmd Hh Hta Hup Hds Hack H1' H2' H3'.
  destruct (wp_no_fault_runs _ _ _ (dial_lines coming known up h.(base_inner) addr
    (ch_service_id old w.(w_env)) LAN_CHANNEL_NAME WifiLan old last _ net Hst Hup Hds))
    as (r & [h' e] & Hrun & -> & Hh' & Hne & Hl).
  apply Forall_cons in Hfits as [Hfi Hfs].
  eapply wp_mono; [eapply (responder_run (own_sockets (<[new.(arc_id) := WifiLan]> (media_of net)))
    (socket_next coming) within_limit (HT := sockets_work coming _) Hfs ep old new Hne last
    fuel on b1 b2 b3 ack info w)|done|]; try done.
  - exists h, (mkBase h' h.(base_active)), e. rewrite Hmd. split; [done|]. split; [|done].
    cbn. unfold base_create_upgraded_endpoint_channel, inner_call. cbn.
    unfold lan_create_upgraded_endpoint_channel. rewrite Hta. unfold net, runs_to in Hrun. cbn in Hrun. by rewrite Hrun.
  - intros [] w' Hw'. by apply upgraded_lan.
Qed.

(** A device whose remote "REMOTE" is on Bluetooth, on the loopback network, where a
    program listens at port 40000 and acknowledges introductions; the offer is the
    one that a WIFI_LAN handler makes for that port. *)
Definition lan_net : LoopbackWorld :=
  mkTcpWorld
    (mkStreamHeap {[0%N := StreamChannel_new "A" "bluetooth" Bluetooth (socket_stream 0)]}
       (mkLoopback 40001 1 {[40000%Z := []]}
          {[0%N := mkPipeState (framed goodbye) false; 1%N := mkPipeState [] false]}
          {[40000%Z := framed for_bwu_introduction_ack]} false)) ∅ 0.

Definition lan_device : World (BaseBwuHandler WifiLanBwuHandler) (Tapped LoopbackWorld StreamArc) StreamArc :=
  {| w_mgr := BwuManager_new {[WifiLan := base_new WifiLan_new]} BwuConfig_default;
     w_client := set_upgrade_mediums "REMOTE" [WifiLan] $ on_connection_accepted "REMOTE" $
       on_connection_initiated "REMOTE" false true $ ClientProxy_new 7 "LOCAL";
     w_ecm := register_channel_for_endpoint "REMOTE" (mkStreamArc 0) ecm_new;
     w_env := mkTapped lan_net [] |}.

Definition lan_address : SocketAddr := mkSocketAddr LOCALHOST 40000.

Definition lan_frame : bytes := lan_offer WifiLan_new lan_address.

Definition lan_offer_info : UpgradePathInfo :=
  match from_bytes lan_frame with
  | Ok f => default UpgradePathInfo_default (frame_negotiation f ≫= bwu_upgrade_path_info)
  | Err _ => UpgradePathInfo_default
  end.

Lemma lan_net_stands : standing (socket_coming dialled) (lo_known dialled) (mkStreamArc 0) goodbye lan_net.
Proof.
  split.
  - split; [|reflexivity]. intros i j s t Hij. cbn. intros [<- <-]%lookup_singleton_Some [<- <-]%lookup_singleton_Some.
    done.
  - intros i s. cbn. intros [<- <-]%lookup_singleton_Some. exists 0%N. split; [reflexivity|]. cbn. lia.
  - eexists. split; [reflexivity|]. split; try reflexivity; [apply within_limit_all; vm_compute; reflexivity|].
    exists 0%N, [], []. split; [reflexivity|]. split; [cbn; lia|]. split; vm_compute; reflexivity.
  - reflexivity.
Qed.

Lemma lan_responder_upgrade_witness :
  takes_offer "REMOTE" (mkStreamArc 0) lan_offer_info lan_device /\
  let run := hand_over 3 "REMOTE" Bluetooth (mkStreamArc 0) lan_frame;;
             hand_over 3 "REMOTE" Bluetooth (mkStreamArc 0) for_bwu_last_write;;
             hand_over 3 "REMOTE" Bluetooth (mkStreamArc 0) for_bwu_safe_to_close in
  wp no_fault run
    (fun _ w' =>
       get_channel_for_endpoint "REMOTE" w'.(w_ecm) = Some (mkStreamArc 1) /\
       bandwidth_changed_events w'.(w_client) = [("REMOTE", WifiLan)]) lan_device.
Proof.
  assert (Ht : takes_offer "REMOTE" (mkStreamArc 0) lan_offer_info lan_device).
  { split; try (vm_compute; reflexivity); try (vm_compute; discriminate).
    left. vm_compute. reflexivity. }
  split; [exact Ht|]. cbv zeta.
  eapply wp_mono; [apply (lan_responder_upgrade (socket_coming dialled) (lo_known dialled) lo_listening 3 Bluetooth "REMOTE"
    (mkStreamArc 0) lan_address (base_new WifiLan_new) lan_frame for_bwu_last_write for_bwu_safe_to_close
    for_bwu_introduction_ack goodbye lan_offer_info lan_device)|auto| ].
  - exact lan_net_stands.
  - apply within_limit_all. vm_compute. reflexivity.
  - exact Ht.
  - vm_compute. reflexivity.
  - vm_compute. reflexivity.
  - vm_compute. reflexivity.
  - split; [by eexists|]. vm_compute. reflexivity.
  - apply within_limit_all. vm_compute. reflexivity.
  - intros _. eexists. split; vm_compute; reflexivity.
  - eexists. split; [vm_compute; reflexivity|]. split; [reflexivity|]. eexists. split_and!; vm_compute; reflexivity.
  - eexists. split; [vm_compute; reflexivity|]. split; [reflexivity|]. eexists. split_and!; vm_compute; reflexivity.
  - eexists. split; [vm_compute; reflexivity|]. split; [reflexivity|]. eexists. split_and!; vm_compute; reflexivity.
  - intros _ w' [Ha _ He _ _ _ _]. split; [rewrite Ha; vm_compute; reflexivity|].
    rewrite He. vm_compute. reflexivity.
Defined.
