(* ===== verification/Network.v ===== *)
(** A device with both TCP handlers: its steps, the accept threads interleaved
    with the handlers' calls, what its threads and records promise each other, and
    what its offers mean to a device that receives them. *)

From Stdlib Require Import ZArith NArith Lia.
From stdpp Require Import relations.
From S2P Require Import Prelude.
From S2P Require Import Mediums.
From S2P Require Import Proto.
From S2P Require Import Codec.
From S2P Require Import Frames.
From S2P Require Import Client.
From S2P Require Import Channel.
From S2P Require Import Handler.
From S2P Require Import StreamChannel.
From S2P Require Import Utf8.
From S2P Require Import Validator.
From S2P Require Import ValidatorSpec.
From S2P Require Import FromBytes.
From S2P Require Import RoundTrip.
From S2P Require Import Ipv4.
From S2P Require Import Tcp.
From S2P Require Import WifiLan.
From S2P Require Import WifiHotspot.
From S2P Require Import StreamSteps.
From S2P Require Import TcpSteps.
From S2P Require Import Loopback.

(** * Definitions *)

(** ** A device *)

Record TcpDevice (os sock cph ap : Type) : Type := mkDevice {
  dv_lan : WifiLanBwuHandler;
  dv_hotspot : WifiHotspotBwuHandler ap;
  dv_world : TcpWorld os sock cph;
}.
Arguments mkDevice {os sock cph ap} _ _ _.
Arguments dv_lan {os sock cph ap} _.
Arguments dv_hotspot {os sock cph ap} _.
Arguments dv_world {os sock cph ap} _.

(** The listener that a device records for a medium and a service. *)
Definition listener_at {os sock cph ap} (d : TcpDevice os sock cph ap) (medium : Medium)
    (service_id : string) : option Listener :=
  match medium with
  | WifiLan => d.(dv_lan).(wl_listeners) !! service_id
  | WifiHotspot => hl_listener <$> d.(dv_hotspot).(wh_listeners) !! service_id
  | _ => None
  end.

(** A new channel: a number of its own, open, resumed and in the clear. *)
Definition new_channel {os sock cph} (c : StreamArc) (service_id name : string) (medium : Medium)
    (w w' : TcpWorld os sock cph) : Prop :=
  w.(tw_heap).(sh_channels) !! c.(arc_id) = None /\
  exists stream, w'.(tw_heap).(sh_channels) =
    <[c.(arc_id) := StreamChannel_new service_id name medium stream]> w.(tw_heap).(sh_channels).

Section device.
Context {os sock lsn cph ap : Type} `{TcpOs os sock lsn} `{SoftAp os ap} `{Cipher os cph} `{Codec}.

(** A step of the device: a call on a handler, an iteration of an accept loop on
    whatever [accept] returned, the return of a sink, or a call on a channel; with
    the connection that the step passes to the sink. *)
Inductive device_step : TcpDevice os sock cph ap -> option StreamArc -> TcpDevice os sock cph ap -> Prop :=
| step_lan_initialize c s ep frame lan lan' hot w w' :
    runs_to (lan_handle_initialize c s ep) (lan, w) frame (lan', w') ->
    device_step (mkDevice lan hot w) None (mkDevice lan' hot w')
| step_lan_revert s lan lan' hot w w' :
    runs_to (lan_handle_revert s) (lan, w) tt (lan', w') ->
    device_step (mkDevice lan hot w) None (mkDevice lan' hot w')
| step_lan_create c s ep info r lan lan' hot w w' :
    runs_to (lan_create_upgraded_endpoint_channel c s ep info) (lan, w) r (lan', w') ->
    device_step (mkDevice lan hot w) None (mkDevice lan' hot w')
| step_hotspot_initialize c s ep frame lan hot hot' w w' :
    runs_to (hotspot_handle_initialize c s ep) (hot, w) frame (hot', w') ->
    device_step (mkDevice lan hot w) None (mkDevice lan hot' w')
| step_hotspot_revert s lan hot hot' w w' :
    runs_to (hotspot_handle_revert s) (hot, w) tt (hot', w') ->
    device_step (mkDevice lan hot w) None (mkDevice lan hot' w')
| step_hotspot_create c s ep info r lan hot hot' w w' :
    runs_to (hotspot_create_upgraded_endpoint_channel c s ep info) (hot, w) r (hot', w') ->
    device_step (mkDevice lan hot w) None (mkDevice lan hot' w')
| step_hotspot_disconnect c ep lan hot hot' w w' :
    runs_to (hotspot_on_endpoint_disconnect c ep) (hot, w) tt (hot', w') ->
    device_step (mkDevice lan hot w) None (mkDevice lan hot' w')
| step_accept id incoming r lan hot w w' :
    runs_to (accept_once id incoming) w r w' ->
    device_step (mkDevice lan hot w) (isc_channel <$> r) (mkDevice lan hot w')
| step_sink_returns id lan hot w w' :
    runs_to (sink_returns id) w tt w' ->
    device_step (mkDevice lan hot w) None (mkDevice lan hot w')
| step_channel lan hot w w' :
    channel_call w w' -> device_step (mkDevice lan hot w) None (mkDevice lan hot w').

(** A device that has just been set up. *)
Definition device_start (bind_ip advertise_ip : Ipv4Addr) (softap : ap) (o : os)
    : TcpDevice os sock cph ap :=
  mkDevice (WifiLan_with_endpoint bind_ip advertise_ip) (WifiHotspot_new softap)
    (mkTcpWorld (mkStreamHeap ∅ o) ∅ 0).

Definition device_reachable (o : os) (d : TcpDevice os sock cph ap) : Prop :=
  exists bind_ip advertise_ip softap,
    rtc (fun d d' => exists r, device_step d r d') (device_start bind_ip advertise_ip softap o) d.

(** Every accept thread belongs to the listener that is recorded for its medium
    and service; a thread's number is the record's alone. *)
Record device_ok (d : TcpDevice os sock cph ap) : Prop := {
  ok_thread id t :
    d.(dv_world).(tw_threads) !! id = Some t ->
    t.(at_stop) = false /\
    exists l, listener_at d t.(at_medium) t.(at_service_id) = Some l /\ l.(ls_thread) = id;
  ok_next m s l : listener_at d m s = Some l -> (l.(ls_thread) < d.(dv_world).(tw_next))%N;
  ok_alone m s l m' s' l' :
    listener_at d m s = Some l -> listener_at d m' s' = Some l' ->
    l.(ls_thread) = l'.(ls_thread) -> m = m' /\ s = s';
  ok_port m s l : listener_at d m s = Some l -> u16_ok l.(ls_addr).(sock_port) = true;
}.
End device.

(** A network on which an address that is [up] can be dialled: a connection to it is
    made, and connecting, to whatever, and stopping a hotspot return and leave
    what is up as it is. *)
Class Dialable (os sock lsn ap : Type) `{TcpOs os sock lsn} `{SoftAp os ap}
    (up : SocketAddr -> os -> Prop) : Prop := {
  dl_made a o : up a o -> wp no_fault (os_connect a) (fun s _ => is_Some s) o;
  dl_connect a o : wp no_fault (os_connect a) (fun _ o' => forall b, up b o -> up b o') o;
  dl_stop (x : ap) s o : wp no_fault (sa_stop x s) (fun _ o' => forall b, up b o -> up b o') o;
}.

(** Nothing keeps a stop from returning: no thread is inside its sink, and the
    listeners whose threads are alive are up. *)
Record calm {os sock cph ap} (up : SocketAddr -> os -> Prop) (d : TcpDevice os sock cph ap) : Prop := {
  ca_sinks id t : d.(dv_world).(tw_threads) !! id = Some t -> t.(at_in_sink) = false;
  ca_up m s l :
    listener_at d m s = Some l -> is_Some (d.(dv_world).(tw_threads) !! l.(ls_thread)) ->
    up l.(ls_addr) d.(dv_world).(tw_heap).(sh_env);
}.

(** A device on the loopback network, with the fake SoftAP: it has listened for a
    service over WIFI_LAN and over WIFI_HOTSPOT. *)
Abbreviation LoDevice := (TcpDevice Loopback N Empty_set FakeSoftAp).

Definition lo_start : LoDevice := device_start LOCALHOST LOCALHOST FakeSoftAp_new Loopback_empty.

Definition lo_client : ClientProxy := ClientProxy_new 7 "LOCAL".

Definition state_of {A S} (r : outcome (A * S)) (s : S) : S :=
  match r with Ret (_, s') => s' | Fault _ => s end.

Definition value_of {A S} (r : outcome (A * S)) (a : A) : A :=
  match r with Ret (a', _) => a' | Fault _ => a end.

Definition lo_lan_call : M (WifiLanBwuHandler * LoopbackWorld) bytes :=
  lan_handle_initialize lo_client "A_UPGRADE" "EP".

Definition lo_lan_state : WifiLanBwuHandler * LoopbackWorld :=
  state_of (lo_lan_call (lo_start.(dv_lan), lo_start.(dv_world))) (lo_start.(dv_lan), lo_start.(dv_world)).

Definition lo_lan_frame : bytes :=
  value_of (lo_lan_call (lo_start.(dv_lan), lo_start.(dv_world))) [].

Definition lo_lan_device : LoDevice :=
  mkDevice lo_lan_state.1 lo_start.(dv_hotspot) lo_lan_state.2.

Definition lo_hotspot_call : M (WifiHotspotBwuHandler FakeSoftAp * LoopbackWorld) bytes :=
  hotspot_handle_initialize lo_client "A_UPGRADE" "EP".

Definition lo_hotspot_state : WifiHotspotBwuHandler FakeSoftAp * LoopbackWorld :=
  state_of (lo_hotspot_call (lo_start.(dv_hotspot), lo_lan_state.2)) (lo_start.(dv_hotspot), lo_lan_state.2).

Definition lo_hotspot_frame : bytes :=
  value_of (lo_hotspot_call (lo_start.(dv_hotspot), lo_lan_state.2)) [].

Definition lo_device : LoDevice :=
  mkDevice lo_lan_state.1 lo_hotspot_state.1 lo_hotspot_state.2.

(** The listeners' records, and the device after the loop of the first one has
    passed on a connection. *)
Definition lo_lan_listener : Listener := mkListener (mkSocketAddr LOCALHOST 40000) 0.

Definition lo_accept_call : M LoopbackWorld (option (IncomingSocketConnection StreamArc)) :=
  accept_once 0 (Some 1%N).

Definition lo_accepted_device : LoDevice :=
  mkDevice lo_device.(dv_lan) lo_device.(dv_hotspot)
    (state_of (lo_accept_call lo_device.(dv_world)) lo_device.(dv_world)).

Definition lo_dropped_lan : WifiLanBwuHandler * LoopbackWorld :=
  state_of (lan_drop (lo_device.(dv_lan), lo_device.(dv_world))) (lo_device.(dv_lan), lo_device.(dv_world)).

Definition lo_dropped_hotspot : WifiHotspotBwuHandler FakeSoftAp * LoopbackWorld :=
  state_of (hotspot_drop (lo_device.(dv_hotspot), lo_dropped_lan.2))
    (lo_device.(dv_hotspot), lo_dropped_lan.2).

(** * Lemmas *)

(** Any fault, for what a call that returned has done. *)
Abbreviation any := (fun _ : fault => True).

Lemma returned {S A} (m : M S A) Q s a s' : runs_to m s a s' -> wp any m Q s -> Q a s'.
Proof. unfold runs_to, wp. by intros ->. Qed.

Section threads.
Context {os sock lsn cph : Type} `{TcpOsLaws os sock lsn}.
Implicit Types w : TcpWorld os sock cph.

Definition same_threads w w' : Prop :=
  w'.(tw_threads) = w.(tw_threads) /\ w'.(tw_next) = w.(tw_next).

Lemma same_threads_trans w1 w2 w3 : same_threads w1 w2 -> same_threads w2 w3 -> same_threads w1 w3.
Proof. intros [? ?] [? ?]. split; congruence. Qed.

Lemma wp_on_os {A} (m : M os A) (Q : A -> _ -> Prop) w :
  (forall a w', same_threads w w' -> w'.(tw_heap).(sh_channels) = w.(tw_heap).(sh_channels) ->
     Q a w') ->
  wp any (on_os m) Q w.
Proof.
  intros HQ. unfold wp, on_os. destruct (m _) as [[a o]|f]; [|done]. by apply HQ.
Qed.

Lemma wp_on_heap {A} (m : M (StreamHeap os (TcpDuplexStream sock) cph) A) (Q : A -> _ -> Prop) w :
  (forall a w', same_threads w w' -> runs_to m w.(tw_heap) a w'.(tw_heap) -> Q a w') ->
  wp any (on_heap m) Q w.
Proof.
  intros HQ. unfold wp, on_heap. destruct (m _) as [[a h]|f] eqn:Hm; [|done]. by apply HQ.
Qed.

Lemma wp_tcp_channel stream s n m (Q : option StreamArc -> _ -> Prop) w :
  (forall w', same_threads w w' -> w'.(tw_heap).(sh_channels) = w.(tw_heap).(sh_channels) ->
     Q None w') ->
  (forall c w', same_threads w w' -> new_channel c s n m w w' -> Q (Some c) w') ->
  wp any (tcp_channel stream s n m) Q w.
Proof.
  intros Hnone Hsome. apply wp_bind, wp_on_os. intros [d|] w1 Hw1 Hc1; [|by apply wp_ret, Hnone].
  unfold alloc_channel. repeat wp_step. apply wp_on_heap. intros [] w2 [Ht2 Hn2] Hrun.
  injection Hrun as Hheap. repeat wp_step. destruct Hw1 as [Ht1 Hn1].
  apply Hsome; [split; congruence|].
  split; simpl.
  - rewrite <-Hc1. apply not_elem_of_dom, is_fresh.
  - exists d. rewrite <-Hheap. simpl. by rewrite Hc1.
Qed.

Lemma wp_start_listener ip s n m (Q : option Listener -> _ -> Prop) w :
  (forall w', same_threads w w' -> Q None w') ->
  (forall l w', l.(ls_thread) = w.(tw_next) -> u16_ok l.(ls_addr).(sock_port) = true ->
     w'.(tw_next) = (w.(tw_next) + 1)%N ->
     w'.(tw_threads) = <[w.(tw_next) := mkAcceptThread s n m false false]> w.(tw_threads) ->
     Q (Some l) w') ->
  wp any (start_listener ip s n m) Q w.
Proof.
  intros Hnone Hsome. apply wp_bind, wp_on_os. intros [lsn'|] w1 [Ht1 Hn1] _; [|by apply wp_ret, Hnone].
  apply wp_bind. unfold wp at 1, on_os at 1.
  destruct (os_local_addr lsn' _) as [[[addr|] o]|f] eqn:Ha; [|by apply wp_ret, Hnone|done].
  unfold spawn. repeat wp_step. simpl. apply Hsome; simpl; [congruence| |congruence|congruence].
  by eapply os_port_ok.
Qed.

(** Stopping that returns has ended the thread. *)
Lemma wp_stop_listener l (Q : unit -> _ -> Prop) w :
  (forall w', w'.(tw_next) = w.(tw_next) -> w'.(tw_threads) = delete l.(ls_thread) w.(tw_threads) ->
     Q tt w') ->
  wp any (stop_listener l) Q w.
Proof.
  intros HQ. unfold stop_listener, set_threads. do 2 wp_step. apply wp_bind, wp_on_os.
  intros r w1 [Ht1 Hn1] _. simpl in *. unfold join_thread. do 2 wp_step. rewrite Ht1.
  destruct (tw_threads w !! ls_thread l) as [t|] eqn:Hl.
  - rewrite lookup_insert_eq. case_match; [by apply wp_raise|]. apply wp_modify, HQ; simpl; [done|].
    by rewrite Ht1, delete_insert_eq.
  - rewrite Hl. apply wp_ret, HQ; [done|]. by rewrite Ht1, delete_id.
Qed.
End threads.

Section device_lemmas.
Context {os sock lsn cph ap : Type} `{TcpOsLaws os sock lsn} `{SoftAp os ap} `{Cipher os cph} `{Codec}.
Implicit Types (d : TcpDevice os sock cph ap) (w : TcpWorld os sock cph)
  (hot : WifiHotspotBwuHandler ap).

Lemma wp_on_world {B A} E (m : M (TcpWorld os sock cph) A) (Q : A -> B * _ -> Prop) s :
  wp E m (fun a w' => Q a (s.1, w')) s.2 -> wp E (on_world m) Q s.
Proof. unfold wp, on_world. by destruct (m _) as [[a w']|f]. Qed.

Lemma wp_dial {B} addr s n m (Q : option StreamArc -> B * _ -> Prop) (h : B) w :
  (forall r w', same_threads w w' -> Q r (h, w')) -> wp any (dial addr s n m) Q (h, w).
Proof.
  intros HQ. apply wp_bind, wp_on_world, wp_on_os. intros [stream|] w1 Hw _.
  - apply wp_on_world, wp_tcp_channel; intros; apply HQ; by eapply same_threads_trans.
  - by apply wp_ret, HQ.
Qed.

(** ** The records and the threads *)

(** Threads that are the device's own, perhaps fewer and in or out of a sink. *)
Lemma device_ok_threads d w' :
  w'.(tw_next) = d.(dv_world).(tw_next) ->
  (forall id t', w'.(tw_threads) !! id = Some t' ->
     exists t, d.(dv_world).(tw_threads) !! id = Some t /\ t'.(at_stop) = t.(at_stop) /\
       t'.(at_medium) = t.(at_medium) /\ t'.(at_service_id) = t.(at_service_id)) ->
  device_ok d -> device_ok (mkDevice d.(dv_lan) d.(dv_hotspot) w').
Proof.
  intros Hn Ht [Hth Hnx Hal Hp]. split; simpl; [|by rewrite Hn|done|done].
  intros id t' Hl. destruct (Ht _ _ Hl) as (t & Hlt & -> & -> & ->). exact (Hth _ _ Hlt).
Qed.

Lemma device_ok_same d w' :
  same_threads d.(dv_world) w' -> device_ok d -> device_ok (mkDevice d.(dv_lan) d.(dv_hotspot) w').
Proof.
  intros [Ht Hn]. apply device_ok_threads; [done|]. rewrite Ht. intros id t' Hl. by exists t'.
Qed.

(** A listener is recorded with a thread of its own. *)
Lemma device_ok_add d d' m s n l :
  listener_at d m s = None ->
  (forall m' s', listener_at d' m' s' =
     if decide (m' = m /\ s' = s) then Some l else listener_at d m' s') ->
  l.(ls_thread) = d.(dv_world).(tw_next) -> u16_ok l.(ls_addr).(sock_port) = true ->
  d'.(dv_world).(tw_next) = (d.(dv_world).(tw_next) + 1)%N ->
  d'.(dv_world).(tw_threads) =
    <[d.(dv_world).(tw_next) := mkAcceptThread s n m false false]> d.(dv_world).(tw_threads) ->
  device_ok d -> device_ok d'.
Proof.
  intros Hnone Hat Hl Hport Hn Ht [Hth Hnx Hal Hp]. split.
  - intros id t. rewrite Ht, lookup_insert_Some. intros [[<- <-]|[Hne Hlt]]; simpl.
    + split; [done|]. exists l. by rewrite Hat, decide_True.
    + destruct (Hth _ _ Hlt) as (Hs & l' & Hl' & Hid). split; [done|]. exists l'.
      rewrite Hat, decide_False; [done|]. intros [Hm Hsv]. congruence.
  - intros m' s' l'. rewrite Hat, Hn. case_decide; [intros [= <-]; lia|].
    intros Hl'. apply Hnx in Hl'. lia.
  - intros m1 s1 l1 m2 s2 l2. rewrite !Hat. do 2 case_decide; intros H1' H2' Heq.
    + intuition congruence.
    + injection H1' as <-. apply Hnx in H2'. lia.
    + injection H2' as <-. apply Hnx in H1'. lia.
    + by eapply Hal.
  - intros m' s' l'. rewrite Hat. case_decide; [by intros [= <-]|apply Hp].
Qed.

(** A listener and its thread are gone. *)
Lemma device_ok_remove d d' m s l :
  listener_at d m s = Some l ->
  (forall m' s', listener_at d' m' s' =
     if decide (m' = m /\ s' = s) then None else listener_at d m' s') ->
  d'.(dv_world).(tw_next) = d.(dv_world).(tw_next) ->
  d'.(dv_world).(tw_threads) = delete l.(ls_thread) d.(dv_world).(tw_threads) ->
  device_ok d -> device_ok d'.
Proof.
  intros Hsome Hat Hn Ht [Hth Hnx Hal Hp]. split.
  - intros id t. rewrite Ht, lookup_delete_Some. intros [Hne Hlt].
    destruct (Hth _ _ Hlt) as (Hs & l' & Hl' & Hid). split; [done|]. exists l'.
    rewrite Hat, decide_False; [done|]. intros [Hm Hsv]. congruence.
  - intros m' s' l'. rewrite Hat, Hn. case_decide; [done|]. apply Hnx.
  - intros m1 s1 l1 m2 s2 l2. rewrite !Hat. do 2 case_decide; try done. apply Hal.
  - intros m' s' l'. rewrite Hat. case_decide; [done|apply Hp].
Qed.

(** ** The handlers' calls *)

Lemma lan_initialize_ok c s ep lan hot w :
  device_ok (mkDevice lan hot w) ->
  wp any (lan_handle_initialize c s ep) (fun _ r => device_ok (mkDevice r.1 hot r.2)) (lan, w).
Proof.
  intros Hok. unfold lan_handle_initialize. do 2 wp_step. simpl.
  destruct (wl_listeners lan !! s) as [l|] eqn:Hl; [by apply wp_ret|].
  apply wp_bind, wp_on_world, wp_start_listener.
  - intros w' Hw. apply wp_ret. by apply (device_ok_same (mkDevice lan hot w)).
  - intros l w' Hid Hport Hn Ht. unfold lan_listeners. repeat wp_step. simpl.
    apply (device_ok_add (mkDevice lan hot w) _ WifiLan s LAN_CHANNEL_NAME l); try done.
    intros m' s'. destruct (decide (m' = WifiLan /\ s' = s)) as [[-> ->]|Hne]; simpl.
    + by rewrite lookup_insert_eq.
    + destruct m'; try done. simpl. rewrite lookup_insert_ne; [done|]. intros ->. by apply Hne.
Qed.

Lemma lan_revert_ok s lan hot w :
  device_ok (mkDevice lan hot w) ->
  wp any (lan_handle_revert s) (fun _ r => device_ok (mkDevice r.1 hot r.2)) (lan, w).
Proof.
  intros Hok. unfold lan_handle_revert. do 2 wp_step. simpl.
  destruct (wl_listeners lan !! s) as [l|] eqn:Hl; [|by apply wp_ret].
  unfold lan_listeners. do 2 wp_step. apply wp_on_world, wp_stop_listener. intros w' Hn Ht.
  apply (device_ok_remove (mkDevice lan hot w) _ WifiLan s l); try done.
  intros m' s'. destruct (decide (m' = WifiLan /\ s' = s)) as [[-> ->]|Hne]; simpl.
  - by rewrite lookup_delete_eq.
  - destruct m'; try done. simpl. rewrite lookup_delete_ne; [done|]. intros ->. by apply Hne.
Qed.

Lemma wp_on_softap {A} (m : ap -> M os A) (Q : A -> WifiHotspotBwuHandler ap * _ -> Prop) hot w :
  (forall a w', same_threads w w' -> Q a (hot, w')) -> wp any (on_softap m) Q (hot, w).
Proof.
  intros HQ. unfold on_softap. do 2 wp_step. apply wp_on_world, wp_on_os. intros a w' Hw _.
  by apply HQ.
Qed.

Lemma hotspot_initialize_ok c s ep lan hot w :
  device_ok (mkDevice lan hot w) ->
  wp any (hotspot_handle_initialize c s ep) (fun _ r => device_ok (mkDevice lan r.1 r.2)) (hot, w).
Proof.
  intros Hok. unfold hotspot_handle_initialize. do 2 wp_step. simpl.
  destruct (wh_listeners hot !! s) as [l|] eqn:Hl; [by apply wp_ret|].
  apply wp_bind, wp_on_softap. intros [creds|] w1 Hw1;
    [|by apply wp_ret; apply (device_ok_same (mkDevice lan hot w))].
  apply wp_bind, wp_on_world, wp_start_listener.
  - intros w' Hw. apply wp_bind, wp_on_softap. intros [] w2 Hw2. apply wp_ret.
    apply (device_ok_same (mkDevice lan hot w)); [|done].
    by eapply same_threads_trans, same_threads_trans.
  - intros l w' Hid Hport Hn Ht. unfold hotspot_listeners. repeat wp_step. simpl in *.
    destruct Hw1 as [Ht1 Hn1].
    apply (device_ok_add (mkDevice lan hot w) _ WifiHotspot s HOTSPOT_CHANNEL_NAME l); simpl;
      try done; try congruence.
    + by rewrite Hl.
    + intros m' s'. destruct (decide (m' = WifiHotspot /\ s' = s)) as [[-> ->]|Hne]; simpl.
      * by rewrite lookup_insert_eq.
      * destruct m'; try done. simpl. rewrite lookup_insert_ne; [done|]. intros ->. by apply Hne.
Qed.

Lemma hotspot_revert_ok s lan hot w :
  device_ok (mkDevice lan hot w) ->
  wp any (hotspot_handle_revert s) (fun _ r => device_ok (mkDevice lan r.1 r.2)) (hot, w).
Proof.
  intros Hok. unfold hotspot_handle_revert. do 2 wp_step. simpl.
  destruct (wh_listeners hot !! s) as [l|] eqn:Hl; [|by apply wp_ret].
  unfold hotspot_listeners. do 3 wp_step. apply wp_on_world, wp_stop_listener. intros w' Hn Ht.
  apply wp_on_softap. intros [] w2 [Ht2 Hn2].
  apply (device_ok_remove (mkDevice lan hot w) _ WifiHotspot s (hl_listener l)); simpl in *;
    try congruence.
  - by rewrite Hl.
  - intros m' s'. destruct (decide (m' = WifiHotspot /\ s' = s)) as [[-> ->]|Hne]; simpl.
    + by rewrite lookup_delete_eq.
    + destruct m'; try done. simpl. rewrite lookup_delete_ne; [done|]. intros ->. by apply Hne.
Qed.

(** ** The accept loops *)

(** What an iteration does: it ends or leaves its thread, and passes on a new
    channel of the thread's service and medium. *)
Lemma accept_once_ok id incoming lan hot w :
  device_ok (mkDevice lan hot w) ->
  wp any (accept_once id incoming)
    (fun r w' => device_ok (mkDevice lan hot w') /\
       match r with
       | None => True
       | Some conn => exists t, w.(tw_threads) !! id = Some t /\
           new_channel conn.(isc_channel) t.(at_service_id) t.(at_channel_name) t.(at_medium) w w'
       end) w.
Proof.
  intros Hok. unfold accept_once. do 2 wp_step.
  destruct (tw_threads w !! id) as [t|] eqn:Hl; [|by apply wp_ret].
  assert (Hend : wp any (set_threads (delete id);; mret None)
    (fun (r : option (IncomingSocketConnection StreamArc)) w' => device_ok (mkDevice lan hot w') /\
       match r with None => True | Some conn => exists t, w.(tw_threads) !! id = Some t /\
         new_channel conn.(isc_channel) t.(at_service_id) t.(at_channel_name) t.(at_medium) w w' end) w).
  { unfold set_threads. repeat wp_step. split; [|done].
    apply (device_ok_threads (mkDevice lan hot w)); [done| |done]. simpl.
    intros id' t' Hl'. apply lookup_delete_Some in Hl' as [_ Hl']. by exists t'. }
  destruct (at_in_sink t); [by apply wp_ret|].
  destruct (at_stop t); [exact Hend|]. destruct incoming as [stream|]; [|exact Hend].
  apply wp_bind, wp_tcp_channel.
  - intros w' Hw _. apply wp_ret. split; [|done]. by apply (device_ok_same (mkDevice lan hot w)).
  - intros c w' [Ht Hn] Hnew. unfold set_threads. repeat wp_step. split.
    + apply (device_ok_threads (mkDevice lan hot w)); [done| |done]. simpl.
      intros id' t' Hl'. rewrite Ht in Hl'. apply lookup_insert_Some in Hl' as [[<- <-]|[_ Hl']];
        [by exists t|by exists t'].
    + exists t. split; [done|]. exact Hnew.
Qed.

Lemma sink_returns_ok id lan hot w :
  device_ok (mkDevice lan hot w) ->
  wp any (sink_returns id) (fun _ w' => device_ok (mkDevice lan hot w')) w.
Proof.
  intros Hok. unfold sink_returns, set_threads. apply wp_modify.
  apply (device_ok_threads (mkDevice lan hot w)); [done| |done]. simpl. intros id' t' Hl'.
  destruct (tw_threads w !! id) as [t|] eqn:Hl; [|by exists t'].
  apply lookup_insert_Some in Hl' as [[<- <-]|[_ Hl']]; [by exists t|by exists t'].
Qed.

(** A call on a channel is no business of the threads. *)
Lemma channel_call_threads w w' : channel_call w w' -> same_threads w w'.
Proof.
  intros Hc. destruct Hc;
    match goal with Hrun : runs_to _ ?w _ _ |- _ =>
      apply (returned _ (fun _ w' => same_threads w w') _ _ _ Hrun); by apply wp_on_heap end.
Qed.

(** Every step keeps the records and the threads together. *)
Lemma device_step_ok d r d' : device_step d r d' -> device_ok d -> device_ok d'.
Proof.
  intros Hstep Hok.
  destruct Hstep as [c s ep frame lan lan' hot w w' Hr|s lan lan' hot w w' Hr
    |c s ep info r lan lan' hot w w' Hr|c s ep frame lan hot hot' w w' Hr|s lan hot hot' w w' Hr
    |c s ep info r lan hot hot' w w' Hr|c ep lan hot hot' w w' Hr|id incoming r lan hot w w' Hr
    |id lan hot w w' Hr|lan hot w w' Hc].
  - exact (returned _ _ _ _ _ Hr (lan_initialize_ok c s ep lan hot w Hok)).
  - exact (returned _ _ _ _ _ Hr (lan_revert_ok s lan hot w Hok)).
  - apply (returned _ (fun _ r => device_ok (mkDevice r.1 hot r.2)) _ _ _ Hr).
    unfold lan_create_upgraded_endpoint_channel. destruct (lan_target info); [|by apply wp_ret].
    apply wp_dial. intros r' w2 Hw. by apply (device_ok_same (mkDevice lan hot w)).
  - exact (returned _ _ _ _ _ Hr (hotspot_initialize_ok c s ep lan hot w Hok)).
  - exact (returned _ _ _ _ _ Hr (hotspot_revert_ok s lan hot w Hok)).
  - apply (returned _ (fun _ r => device_ok (mkDevice lan r.1 r.2)) _ _ _ Hr).
    unfold hotspot_create_upgraded_endpoint_channel.
    destruct (hotspot_target info) as [[creds addr]|]; [|by apply wp_ret].
    apply wp_bind, wp_on_softap. intros [] w1 Hw1.
    + apply wp_dial. intros r' w2 Hw. apply (device_ok_same (mkDevice lan hot w)); [|done].
      by eapply same_threads_trans.
    + apply wp_ret. by apply (device_ok_same (mkDevice lan hot w)).
  - apply (returned _ (fun _ r => device_ok (mkDevice lan r.1 r.2)) _ _ _ Hr).
    apply wp_on_softap. intros [] w1 Hw1. by apply (device_ok_same (mkDevice lan hot w)).
  - exact (proj1 (returned _ _ _ _ _ Hr (accept_once_ok id incoming lan hot w Hok))).
  - exact (returned _ _ _ _ _ Hr (sink_returns_ok id lan hot w Hok)).
  - apply (device_ok_same (mkDevice lan hot w)); [|done]. by apply channel_call_threads.
Qed.

Lemma device_start_ok bind_ip advertise_ip softap o :
  device_ok (device_start (sock := sock) (cph := cph) bind_ip advertise_ip softap o : TcpDevice os sock cph ap).
Proof.
  split; simpl.
  - intros id t Hl. by rewrite lookup_empty in Hl.
  - intros [] s l Hl; simpl in Hl; try done; by rewrite lookup_empty in Hl.
  - intros [] s l m' s' l' Hl; simpl in Hl; try done; by rewrite lookup_empty in Hl.
  - intros [] s l Hl; simpl in Hl; try done; by rewrite lookup_empty in Hl.
Qed.

Lemma reachable_ok o d : device_reachable o d -> device_ok d.
Proof.
  intros (bind_ip & advertise_ip & softap & Hsteps).
  assert (Hok : device_ok (device_start bind_ip advertise_ip softap o)) by apply device_start_ok.
  induction Hsteps as [|d1 d2 d3 [r Hstep] _ IH]; [done|]. apply IH. by eapply device_step_ok.
Qed.
End device_lemmas.

(** ** Offers *)

Lemma u16_i32 z : u16_ok z = true -> i32_ok z = true.
Proof.
  unfold u16_ok, i32_ok. intros Hz. bool_split. bool_goal; [apply Z.leb_le|apply Z.ltb_lt]; lia.
Qed.

(** A LAN offer names the address to dial. *)
Lemma lan_offer_carries `{CodecLaws} (h : WifiLanBwuHandler) (addr : SocketAddr) :
  u16_ok addr.(sock_port) = true ->
  carries_path (lan_offer h addr) (fun info =>
    path_medium info = WifiLan /\
    lan_target info = Some (mkSocketAddr h.(wl_advertise_ip) addr.(sock_port))).
Proof.
  intros Hp. eapply carries_path_mono.
  - apply lan_path_carries; [done|]. simpl. unfold ServiceAddress_ok. simpl. by rewrite u16_i32.
  - intros info [Hm Hs]. split; [done|]. unfold lan_target. rewrite Hs. simpl. rewrite Hp.
    by destruct (wl_advertise_ip h).
Qed.

(** Credentials that can be sent, and those that a receiver takes. *)
Definition creds_encodable (c : HotspotCreds) : bool :=
  string_ok c.(hc_ssid) && string_ok c.(hc_password) && i32_ok c.(hc_frequency).

(** The credentials as a receiver has them: the address to bind to is not sent. *)
Definition joining_credentials (c : HotspotCreds) : HotspotCreds :=
  mkHotspotCreds c.(hc_ssid) c.(hc_password) c.(hc_frequency) c.(hc_gateway) c.(hc_gateway).

Lemma offered_valid c addr :
  hotspot_valid (offered_credentials c addr) <-> password_len_valid c.(hc_password).
Proof.
  unfold hotspot_valid, offered_credentials. simpl. split; [by intros (_ & ? & _)|].
  intros Hp. split_and!; try done; [by left|]. right. apply is_valid_ipv4_spec, to_string_valid.
Qed.

Lemma offered_ok c addr :
  creds_encodable c = true -> u16_ok addr.(sock_port) = true ->
  WifiHotspotCredentials_ok (offered_credentials c addr) = true.
Proof.
  unfold creds_encodable, WifiHotspotCredentials_ok. intros Hc Hp. apply andb_true_iff in Hc as [Hc Hf]; apply andb_true_iff in Hc as [Hs Hw]. simpl.
  by rewrite Hs, Hw, Hf, to_string_ok, (u16_i32 _ Hp).
Qed.

(** A hotspot offer names the network to join and the address to dial there, when
    the receiver takes it. *)
Lemma hotspot_offer_carries `{CodecLaws} (l : HotspotListener) :
  creds_encodable l.(hl_creds) = true -> u16_ok l.(hl_listener).(ls_addr).(sock_port) = true ->
  if within_range (String.length l.(hl_creds).(hc_password)) WIFI_PASSWORD_SSID_MIN_LENGTH
       WIFI_PASSWORD_SSID_MAX_LENGTH
  then carries_path (hotspot_offer l) (fun info =>
    path_medium info = WifiHotspot /\
    hotspot_target info =
      Some (joining_credentials l.(hl_creds),
            mkSocketAddr l.(hl_creds).(hc_gateway) l.(hl_listener).(ls_addr).(sock_port)))
  else from_bytes (hotspot_offer l) = Err InvalidProtocolBuffer.
Proof.
  intros Hc Hp. destruct (hotspot_path_parses (offered_credentials l.(hl_creds)
    l.(hl_listener).(ls_addr)) false) as [Hv Hi]; [by apply offered_ok|].
  rewrite offered_valid in Hv, Hi. destruct (within_range _ _ _) eqn:Hw.
  - eapply carries_path_mono; [apply Hv, within_password_range; by rewrite Hw|].
    intros info (Hm & Hcr & _). split; [done|]. unfold hotspot_target. rewrite Hcr. simpl.
    by rewrite ipv4_parse_to_string, Hp.
  - apply Hi. unfold password_len_valid. by rewrite <-within_password_range, Hw.
Qed.

Lemma lan_initialize_frame {os sock lsn cph} `{TcpOs os sock lsn} `{Codec} c s ep lan
    (w : TcpWorld os sock cph) frame lan' w' :
  runs_to (lan_handle_initialize c s ep) (lan, w) frame (lan', w') ->
  frame = [] /\ lan' = lan \/
  exists l, lan'.(wl_listeners) !! s = Some l /\ frame = lan_offer lan' l.(ls_addr).
Proof.
  intros Hrun. apply (returned _ (fun frame r => frame = [] /\ r.1 = lan \/
    exists l, r.1.(wl_listeners) !! s = Some l /\ frame = lan_offer r.1 l.(ls_addr)) _ _ _ Hrun).
  unfold lan_handle_initialize. do 2 wp_step. simpl. destruct (_ !! s) as [l|] eqn:Hl.
  - apply wp_ret. right. by exists l.
  - apply wp_bind. unfold wp at 1, on_world. simpl. destruct (start_listener _ _ _ _ w) as [[[l|] w1]|f];
      [| |done].
    + unfold lan_listeners. repeat wp_step. right. exists l. simpl. by rewrite lookup_insert_eq.
    + apply wp_ret. by left.
Qed.

Lemma hotspot_initialize_frame {os sock lsn cph ap} `{TcpOs os sock lsn} `{SoftAp os ap} `{Codec}
    c s ep (hot : WifiHotspotBwuHandler ap) (w : TcpWorld os sock cph) frame hot' w' :
  runs_to (hotspot_handle_initialize c s ep) (hot, w) frame (hot', w') ->
  frame = [] /\ hot' = hot \/
  exists l, hot'.(wh_listeners) !! s = Some l /\ frame = hotspot_offer l.
Proof.
  intros Hrun. apply (returned _ (fun frame r => frame = [] /\ r.1 = hot \/
    exists l, r.1.(wh_listeners) !! s = Some l /\ frame = hotspot_offer l) _ _ _ Hrun).
  unfold hotspot_handle_initialize. do 2 wp_step. simpl. destruct (_ !! s) as [l|] eqn:Hl.
  - apply wp_ret. right. by exists l.
  - apply wp_bind, wp_on_softap. intros [creds|] w1 _; [|by apply wp_ret; left].
    apply wp_bind. unfold wp at 1, on_world. simpl.
    destruct (start_listener _ _ _ _ w1) as [[[l|] w2]|f]; [| |done].
    + unfold hotspot_listeners. repeat wp_step. right. eexists. simpl. by rewrite lookup_insert_eq.
    + apply wp_bind, wp_on_softap. intros [] w3 _. apply wp_ret. by left.
Qed.

(** A dial that fails after the join leaves the device joined: the flag stays as
    the join set it. *)
Lemma failed_dial_stays_joined {os sock lsn cph} `{TcpOs os sock lsn} `{HasSta os} `{Codec}
    c s ep info creds addr (hot : WifiHotspotBwuHandler FakeSoftAp) (w : TcpWorld os sock cph) o' :
  hotspot_target info = Some (creds, addr) ->
  runs_to (os_connect addr) (sta_set true w.(tw_heap).(sh_env)) None o' ->
  runs_to (hotspot_create_upgraded_endpoint_channel c s ep info) (hot, w) None
    (hot, mkTcpWorld (mkStreamHeap w.(tw_heap).(sh_channels) o') w.(tw_threads) w.(tw_next)).
Proof.
  unfold runs_to. intros Ht Hc. unfold hotspot_create_upgraded_endpoint_channel. rewrite Ht.
  unfold on_softap, dial, on_world, on_os, gets, modify, mbind, M_bind. simpl.
  unfold modify, mbind, M_bind. simpl. by rewrite Hc.
Qed.

(** ** Dropping the handlers *)

Section drops.
Context {os sock lsn cph ap : Type} `{TcpOsLaws os sock lsn} `{SoftAp os ap} `{Cipher os cph} `{Codec}.
Implicit Types (d : TcpDevice os sock cph ap) (w : TcpWorld os sock cph)
  (hot : WifiHotspotBwuHandler ap).

Lemma lan_revert_records s lan w :
  wp any (lan_handle_revert s) (fun _ r => r.1.(wl_listeners) = delete s lan.(wl_listeners)) (lan, w).
Proof.
  unfold lan_handle_revert. do 2 wp_step. simpl. destruct (_ !! s) as [l|] eqn:Hl.
  - unfold lan_listeners. do 2 wp_step. apply wp_on_world, wp_stop_listener. by intros w' _ _.
  - apply wp_ret. simpl. by rewrite delete_id.
Qed.

Lemma hotspot_revert_records s hot w :
  wp any (hotspot_handle_revert s) (fun _ r => r.1.(wh_listeners) = delete s hot.(wh_listeners)) (hot, w).
Proof.
  unfold hotspot_handle_revert. do 2 wp_step. simpl. destruct (_ !! s) as [l|] eqn:Hl.
  - unfold hotspot_listeners. do 3 wp_step. apply wp_on_world, wp_stop_listener. intros w' _ _.
    by apply wp_on_softap.
  - apply wp_ret. simpl. by rewrite delete_id.
Qed.

(** Reverting services until none is recorded. *)
Definition undropped {A} (ids : list string) (m : gmap string A) : Prop :=
  forall s, is_Some (m !! s) -> s ∈ ids.

Lemma undropped_all {A} (m : gmap string A) : undropped (map_to_list m).*1 m.
Proof.
  intros s [x Hx]. apply list_elem_of_fmap. exists (s, x). split; [done|]. by apply elem_of_map_to_list.
Qed.

Lemma undropped_delete {A} s ids (m : gmap string A) :
  undropped (s :: ids) m -> undropped ids (delete s m).
Proof.
  intros Hm s' Hs'. apply lookup_delete_is_Some in Hs' as [Hne Hs'].
  apply Hm, elem_of_cons in Hs' as [->|Hs']; done.
Qed.

Lemma undropped_nil {A} (m : gmap string A) : undropped [] m -> m = ∅.
Proof.
  intros Hm. apply map_empty. intros s. apply eq_None_not_Some. intros Hs%Hm. by apply elem_of_nil in Hs.
Qed.

Lemma lan_revert_each_ok ids lan hot w :
  device_ok (mkDevice lan hot w) -> undropped ids lan.(wl_listeners) ->
  wp any (lan_revert_each ids)
    (fun _ r => device_ok (mkDevice r.1 hot r.2) /\ r.1.(wl_listeners) = ∅) (lan, w).
Proof.
  revert lan w. induction ids as [|s ids IH]; intros lan w Hok Hids; simpl.
  - apply wp_ret. split; [done|]. by apply undropped_nil.
  - apply wp_bind. eapply wp_mono; [|done|].
    + exact (wp_conj _ _ _ _ _ (lan_revert_ok s lan hot w Hok) (lan_revert_records s lan w)).
    + intros _ [lan1 w1] [Hok1 Hl1]. apply IH; [done|]. simpl in Hl1. rewrite Hl1.
      by apply undropped_delete.
Qed.

Lemma hotspot_revert_each_ok ids lan hot w :
  device_ok (mkDevice lan hot w) -> undropped ids hot.(wh_listeners) ->
  wp any (hotspot_revert_each ids)
    (fun _ r => device_ok (mkDevice lan r.1 r.2) /\ r.1.(wh_listeners) = ∅) (hot, w).
Proof.
  revert hot w. induction ids as [|s ids IH]; intros hot w Hok Hids; simpl.
  - apply wp_ret. split; [done|]. by apply undropped_nil.
  - apply wp_bind. eapply wp_mono; [|done|].
    + exact (wp_conj _ _ _ _ _ (hotspot_revert_ok s lan hot w Hok) (hotspot_revert_records s hot w)).
    + intros _ [hot1 w1] [Hok1 Hl1]. apply IH; [done|]. simpl in Hl1. rewrite Hl1.
      by apply undropped_delete.
Qed.

(** ** Stops that return *)

Section calm.
Context (up : SocketAddr -> os -> Prop) `{HD : !Dialable os sock lsn ap up}.

Lemma calm_less d d' :
  calm up d ->
  d'.(dv_world).(tw_threads) ⊆ d.(dv_world).(tw_threads) ->
  (forall m s l, listener_at d' m s = Some l -> listener_at d m s = Some l) ->
  (forall b, up b d.(dv_world).(tw_heap).(sh_env) -> up b d'.(dv_world).(tw_heap).(sh_env)) ->
  calm up d'.
Proof.
  intros [Hs Hu] Ht Hl Hb. split.
  - intros id t Hid. by eapply Hs, lookup_weaken.
  - intros m s l Hat [t Hid]. apply Hb, (Hu m s); [by apply Hl|]. exists t. by eapply lookup_weaken.
Qed.

Lemma stop_listener_returns l w :
  (forall t, w.(tw_threads) !! l.(ls_thread) = Some t ->
     t.(at_in_sink) = false /\ up l.(ls_addr) w.(tw_heap).(sh_env)) ->
  wp no_fault (stop_listener l)
    (fun _ w' => w'.(tw_threads) = delete l.(ls_thread) w.(tw_threads) /\
       forall b, up b w.(tw_heap).(sh_env) -> up b w'.(tw_heap).(sh_env)) w.
Proof.
  intros Hl. unfold stop_listener, set_threads. do 2 wp_step. apply wp_bind. cbn.
  pose proof (dl_connect (ap := ap) l.(ls_addr) w.(tw_heap).(sh_env)) as Hc.
  unfold wp in Hc. unfold wp at 1, on_os. cbn.
  destruct (os_connect _ _) as [[s o']|f] eqn:Hrun; [|done]. cbn.
  unfold join_thread. do 2 wp_step. cbn.
  destruct (tw_threads w !! ls_thread l) as [t|] eqn:Ht; cbn.
  - destruct (Hl t eq_refl) as [Hsink Hup]. rewrite lookup_insert_eq. cbn. rewrite Hsink.
    pose proof (dl_made (ap := ap) _ _ Hup) as Hm. unfold wp in Hm. rewrite Hrun in Hm.
    destruct Hm as [x ->]. rewrite (os_connected_ready _ _ _ _ Hrun). cbn.
    by rewrite delete_insert_eq.
  - rewrite Ht. cbn. by rewrite delete_id.
Qed.

Lemma lan_revert_returns s lan hot w :
  calm up (mkDevice lan hot w) ->
  wp no_fault (lan_handle_revert s) (fun _ r => calm up (mkDevice r.1 hot r.2)) (lan, w).
Proof.
  intros Hc. unfold lan_handle_revert. do 2 wp_step. cbn.
  destruct (wl_listeners lan !! s) as [l|] eqn:Hl; [|by apply wp_ret].
  unfold lan_listeners. do 2 wp_step. apply wp_on_world. cbn.
  eapply wp_mono; [apply stop_listener_returns|done|].
  - intros t Ht. split; [by apply (ca_sinks _ _ Hc _ _ Ht)|]. apply (ca_up _ _ Hc WifiLan s l Hl). by exists t.
  - cbn. intros [] w' [Ht Hb]. apply (calm_less _ _ Hc); cbn; [rewrite Ht; apply delete_subseteq| |done].
    intros [] s' l'; cbn; try done. by intros [_ ?]%lookup_delete_Some.
Qed.

Lemma hotspot_revert_returns s lan hot w :
  calm up (mkDevice lan hot w) ->
  wp no_fault (hotspot_handle_revert s) (fun _ r => calm up (mkDevice lan r.1 r.2)) (hot, w).
Proof.
  intros Hc. unfold hotspot_handle_revert. do 2 wp_step. cbn.
  destruct (wh_listeners hot !! s) as [l|] eqn:Hl; [|by apply wp_ret].
  unfold hotspot_listeners. do 3 wp_step. apply wp_on_world. cbn.
  eapply wp_mono; [apply stop_listener_returns|done|].
  - intros t Ht. split; [by apply (ca_sinks _ _ Hc _ _ Ht)|].
    apply (ca_up _ _ Hc WifiHotspot s); [cbn; by rewrite Hl|]. by exists t.
  - cbn. intros [] w1 [Ht Hb]. unfold on_softap. do 2 wp_step. apply wp_on_world. cbn.
    pose proof (dl_stop hot.(wh_softap) s w1.(tw_heap).(sh_env)) as Hs. unfold wp in Hs.
    unfold wp, on_os. destruct (sa_stop _ s _) as [[[] o']|f]; [|done].
    apply (calm_less _ _ Hc); cbn; [rewrite Ht; apply delete_subseteq| |by intros b ?; apply Hs, Hb].
    intros [] s' l'; cbn; try done. destruct (delete s (wh_listeners hot) !! s') as [hl|] eqn:Hd; [|done].
    apply lookup_delete_Some in Hd as [_ ->]. done.
Qed.

Lemma lan_drop_returns ids lan hot w :
  calm up (mkDevice lan hot w) ->
  wp no_fault (lan_revert_each ids) (fun _ r => calm up (mkDevice r.1 hot r.2)) (lan, w).
Proof.
  revert lan w. induction ids as [|s ids IH]; intros lan w Hc; cbn [lan_revert_each]; [by apply wp_ret|].
  apply wp_bind. eapply wp_mono; [by apply lan_revert_returns|done|]. intros [] [lan' w'] Hc'. by apply IH.
Qed.

Lemma hotspot_drop_returns ids lan hot w :
  calm up (mkDevice lan hot w) ->
  wp no_fault (hotspot_revert_each ids) (fun _ r => calm up (mkDevice lan r.1 r.2)) (hot, w).
Proof.
  revert hot w. induction ids as [|s ids IH]; intros hot w Hc; cbn [hotspot_revert_each]; [by apply wp_ret|].
  apply wp_bind. eapply wp_mono; [by apply hotspot_revert_returns|done|]. intros [] [hot' w'] Hc'. by apply IH.
Qed.
End calm.

(** Without records there are no threads. *)
Lemma no_records_no_threads d :
  device_ok d -> d.(dv_lan).(wl_listeners) = ∅ -> d.(dv_hotspot).(wh_listeners) = ∅ ->
  d.(dv_world).(tw_threads) = ∅.
Proof.
  intros Hok Hlan Hhot. apply map_empty. intros id. apply eq_None_not_Some. intros [t Ht].
  destruct (ok_thread _ Hok _ _ Ht) as (_ & l & Hl & _). unfold listener_at in Hl.
  rewrite Hlan, Hhot in Hl. destruct (at_medium t); try done; by rewrite lookup_empty in Hl.
Qed.
End drops.

(** * Properties *)

Section properties.
Context {os sock lsn cph ap : Type} `{TcpOsLaws os sock lsn} `{SoftAp os ap} `{Cipher os cph} `{Codec}.
Implicit Types (d : TcpDevice os sock cph ap) (w : TcpWorld os sock cph)
  (hot : WifiHotspotBwuHandler ap).

(** C15. However the handlers' calls and the accept loops interleave, every accept
    thread that is alive is unstopped and is the thread of the listener that is
    recorded for its medium and service, no two listeners share a thread, and a
    connection that a step passes to the sink is a new channel, open and resumed,
    of the medium and the service of a listener recorded at that moment. *)
Theorem accepted_connections_belong o d r d' :
  device_reachable o d -> device_step d r d' ->
  (forall id t, d'.(dv_world).(tw_threads) !! id = Some t ->
     t.(at_stop) = false /\
     exists l, listener_at d' t.(at_medium) t.(at_service_id) = Some l /\ l.(ls_thread) = id) /\
  (forall m s l m' s' l', listener_at d' m s = Some l -> listener_at d' m' s' = Some l' ->
     l.(ls_thread) = l'.(ls_thread) -> m = m' /\ s = s') /\
  match r with
  | None => True
  | Some c => exists m s n l, listener_at d m s = Some l /\
      is_some (d.(dv_world).(tw_threads) !! l.(ls_thread)) = true /\
      new_channel c s n m d.(dv_world) d'.(dv_world)
  end.
Proof.
  intros Hreach%reachable_ok Hstep. pose proof (device_step_ok _ _ _ Hstep Hreach) as Hok.
  split; [|split]; [exact (ok_thread _ Hok)|exact (ok_alone _ Hok)|].
  destruct Hstep as [| | | | | | |id incoming r lan hot w w' Hr| |]; try done.
  destruct r as [conn|]; [|done].
  destruct (returned _ _ _ _ _ Hr (accept_once_ok id incoming lan hot w Hreach)) as (_ & t & Ht & Hnew).
  destruct (ok_thread _ Hreach _ _ Ht) as (_ & l & Hl & <-).
  exists (at_medium t), (at_service_id t), (at_channel_name t), l. split; [done|]. split; [|done]. simpl in *. by rewrite Ht.
Qed.

(** Dropping both handlers ends every accept thread: when no thread is inside
    its sink and the listeners can be dialled both drops return, and whenever they
    return, after any run, no listener and no thread is left. *)
Theorem dropped_handlers_leave_no_thread o d (up : SocketAddr -> os -> Prop) :
  device_reachable o d -> Dialable os sock lsn ap up ->
  (calm up d ->
   exists lan' w1 hot' w2, runs_to lan_drop (d.(dv_lan), d.(dv_world)) tt (lan', w1) /\
     runs_to hotspot_drop (d.(dv_hotspot), w1) tt (hot', w2)) /\
  (forall lan' w1 hot' w2,
     runs_to lan_drop (d.(dv_lan), d.(dv_world)) tt (lan', w1) ->
     runs_to hotspot_drop (d.(dv_hotspot), w1) tt (hot', w2) ->
     lan'.(wl_listeners) = ∅ /\ hot'.(wh_listeners) = ∅ /\ w2.(tw_threads) = ∅).
Proof.
  intros Hok%reachable_ok HD. destruct d as [lan hot w]. cbn in *. split.
  - intros Hc.
    destruct (wp_no_fault_runs _ _ _ (lan_drop_returns up (map_to_list lan.(wl_listeners)).*1 lan hot w Hc))
      as ([] & [lan' w1] & Hlan & Hc1).
    destruct (wp_no_fault_runs _ _ _ (hotspot_drop_returns up (map_to_list hot.(wh_listeners)).*1 lan' hot w1 Hc1))
      as ([] & [hot' w2] & Hhot & _).
    by exists lan', w1, hot', w2.
  - intros lan' w1 hot' w2 Hlan Hhot.
    destruct (returned _ _ _ _ _ Hlan (lan_revert_each_ok _ lan hot w Hok (undropped_all _)))
      as [Hok1 Hl1].
    destruct (returned _ _ _ _ _ Hhot (hotspot_revert_each_ok _ lan' hot w1 Hok1 (undropped_all _)))
      as [Hok2 Hl2].
    split_and!; [done|done|]. by apply (no_records_no_threads (mkDevice lan' hot' w2)).
Qed.

(** Stopping a listener: while its thread is inside the sink the join waits for the
    sink to return; otherwise the
    connection that the call makes wakes the loop, and the call returns with that
    thread gone and every other thread and channel as they were. *)
Theorem stop_listener_exact (l : Listener) (t : AcceptThread) w s' o' :
  w.(tw_threads) !! l.(ls_thread) = Some t ->
  runs_to (os_connect l.(ls_addr)) w.(tw_heap).(sh_env) (Some s') o' ->
  if t.(at_in_sink)
  then stop_listener l w = Fault Blocked
  else exists w', runs_to (stop_listener l) w tt w' /\
    w'.(tw_threads) = delete l.(ls_thread) w.(tw_threads) /\
    w'.(tw_heap) = mkStreamHeap w.(tw_heap).(sh_channels) o'.
Proof.
  intros Ht Hc. unfold runs_to in *.
  assert (Hstop : stop_listener l w = join_thread l
    (mkTcpWorld (mkStreamHeap w.(tw_heap).(sh_channels) o')
       (<[l.(ls_thread) := set_at_stop t]> w.(tw_threads)) w.(tw_next))).
  { unfold stop_listener, set_threads, on_os, modify, mbind, M_bind. simpl. by rewrite Hc, Ht. }
  rewrite Hstop. unfold join_thread, get, mbind, M_bind. simpl. rewrite lookup_insert_eq. simpl.
  destruct (at_in_sink t); [done|]. simpl. rewrite (os_connected_ready _ _ _ _ Hc). simpl.
  eexists. split; [done|]. simpl. split; [by rewrite delete_insert_eq|done].
Qed.

(** C18. A WIFI_LAN offer dials back: a frame that initialising returns, unless it is
    empty, is that of the listener recorded for the service, every later
    initialise of the service returns it again and changes nothing, and a device
    that parses it creates its channel by dialling the advertised address at the
    listener's port. *)
Theorem lan_offer_dials_back `{!CodecLaws} o d c s ep frame lan' w' :
  device_reachable o d ->
  runs_to (lan_handle_initialize c s ep) (d.(dv_lan), d.(dv_world)) frame (lan', w') ->
  frame = [] /\ lan' = d.(dv_lan) \/
  exists l, lan'.(wl_listeners) !! s = Some l /\
    (forall c2 ep2 w2, runs_to (lan_handle_initialize (lsn := lsn) c2 s ep2) (lan', w2) frame
       (lan', w2 : TcpWorld os sock cph)) /\
    carries_path frame (fun info =>
      path_medium info = WifiLan /\
      forall c2 s2 ep2,
        lan_create_upgraded_endpoint_channel (os := os) (sock := sock) (lsn := lsn) (cph := cph)
          c2 s2 ep2 info =
        dial (mkSocketAddr lan'.(wl_advertise_ip) l.(ls_addr).(sock_port)) s2 LAN_CHANNEL_NAME WifiLan).
Proof.
  intros Hok%reachable_ok Hrun. destruct d as [lan hot w]. simpl in *.
  pose proof (returned _ _ _ _ _ Hrun (lan_initialize_ok c s ep lan hot w Hok)) as Hok'.
  destruct (lan_initialize_frame c s ep lan w frame lan' w' Hrun) as [?|(l & Hl & ->)]; [by left|].
  right. exists l. split; [done|]. split.
  - intros c2 ep2 w2. unfold runs_to, lan_handle_initialize, gets, mbind, M_bind. simpl. by rewrite Hl.
  - eapply carries_path_mono; [apply lan_offer_carries; by apply (ok_port _ Hok' WifiLan s)|].
    intros info [Hm Ht]. split; [done|]. intros c2 s2 ep2. unfold lan_create_upgraded_endpoint_channel.
    by rewrite Ht.
Qed.

(** C19. A WIFI_HOTSPOT offer can be joined: a frame that initialising returns,
    unless it is empty, is that of the hotspot recorded for the service, later
    initialises return it again without starting another, and, when the SoftAP's
    credentials can be encoded, a device accepts it exactly when the password is 8
    to 63 bytes long: it then joins that network with those credentials, and
    dials its gateway at the listener's port if the join succeeds. *)
Theorem hotspot_offer_joins `{!CodecLaws} o d c s ep frame hot' w' :
  device_reachable o d ->
  runs_to (hotspot_handle_initialize c s ep) (d.(dv_hotspot), d.(dv_world)) frame (hot', w') ->
  frame = [] /\ hot' = d.(dv_hotspot) \/
  exists l, hot'.(wh_listeners) !! s = Some l /\
    (forall c2 ep2 w2, runs_to (hotspot_handle_initialize (lsn := lsn) c2 s ep2) (hot', w2) frame
       (hot', w2 : TcpWorld os sock cph)) /\
    (creds_encodable l.(hl_creds) = true ->
     if within_range (String.length l.(hl_creds).(hc_password)) WIFI_PASSWORD_SSID_MIN_LENGTH
          WIFI_PASSWORD_SSID_MAX_LENGTH
     then carries_path frame (fun info =>
       path_medium info = WifiHotspot /\
       forall c2 s2 ep2,
         hotspot_create_upgraded_endpoint_channel (os := os) (sock := sock) (lsn := lsn)
           (cph := cph) (ap := ap) c2 s2 ep2 info =
         (joined ← on_softap (fun a => sa_connect_as_sta a (joining_credentials l.(hl_creds)));
          if (joined : bool)
          then dial (mkSocketAddr l.(hl_creds).(hc_gateway) l.(hl_listener).(ls_addr).(sock_port))
                 s2 HOTSPOT_CHANNEL_NAME WifiHotspot
          else mret None))
     else from_bytes frame = Err InvalidProtocolBuffer).
Proof.
  intros Hok%reachable_ok Hrun. destruct d as [lan hot w]. simpl in *.
  pose proof (returned _ _ _ _ _ Hrun (hotspot_initialize_ok c s ep lan hot w Hok)) as Hok'.
  destruct (hotspot_initialize_frame c s ep hot w frame hot' w' Hrun) as [?|(l & Hl & ->)]; [by left|].
  right. exists l. split; [done|]. split.
  - intros c2 ep2 w2. unfold runs_to, hotspot_handle_initialize, gets, mbind, M_bind. simpl. by rewrite Hl.
  - intros Hc. assert (Hp : u16_ok l.(hl_listener).(ls_addr).(sock_port) = true).
    { apply (ok_port _ Hok' WifiHotspot s). simpl. by rewrite Hl. }
    pose proof (hotspot_offer_carries l Hc Hp) as Ho. destruct (within_range _ _ _); [|done].
    eapply carries_path_mono; [exact Ho|].
    intros info [Hm Ht]. split; [done|]. intros c2 s2 ep2. unfold hotspot_create_upgraded_endpoint_channel.
    by rewrite Ht.
Qed.
End properties.

(** ** On the loopback network *)

Lemma lo_lan_runs :
  runs_to lo_lan_call (lo_start.(dv_lan), lo_start.(dv_world)) lo_lan_frame
    (lo_lan_state.1, lo_lan_state.2).
Proof. vm_compute. reflexivity. Qed.

Lemma lo_hotspot_runs :
  runs_to lo_hotspot_call (lo_lan_device.(dv_hotspot), lo_lan_device.(dv_world)) lo_hotspot_frame
    (lo_hotspot_state.1, lo_hotspot_state.2).
Proof. vm_compute. reflexivity. Qed.

Lemma lo_start_reachable : device_reachable Loopback_empty lo_start.
Proof. exists LOCALHOST, LOCALHOST, FakeSoftAp_new. apply rtc_refl. Qed.

Lemma lo_lan_device_reachable : device_reachable Loopback_empty lo_lan_device.
Proof.
  exists LOCALHOST, LOCALHOST, FakeSoftAp_new. apply rtc_once. exists None.
  eapply (step_lan_initialize lo_client "A_UPGRADE" "EP"), lo_lan_runs.
Qed.

Lemma lo_device_reachable : device_reachable Loopback_empty lo_device.
Proof.
  exists LOCALHOST, LOCALHOST, FakeSoftAp_new. eapply rtc_l.
  - exists None. eapply (step_lan_initialize lo_client "A_UPGRADE" "EP"), lo_lan_runs.
  - apply rtc_once. exists None. eapply (step_hotspot_initialize lo_client "A_UPGRADE" "EP"), lo_hotspot_runs.
Qed.

Lemma lo_accept_step : device_step lo_device (Some (mkStreamArc 0)) lo_accepted_device.
Proof. eapply (step_accept 0 (Some 1%N) (Some (mkIncoming (mkStreamArc 0)))). vm_compute. reflexivity. Qed.

Lemma accepted_connections_belong_witness :
  device_reachable Loopback_empty lo_device /\
  device_step lo_device (Some (mkStreamArc 0)) lo_accepted_device /\
  exists m s n l, listener_at lo_device m s = Some l /\
    is_some (lo_device.(dv_world).(tw_threads) !! l.(ls_thread)) = true /\
    new_channel (mkStreamArc 0) s n m lo_device.(dv_world) lo_accepted_device.(dv_world).
Proof.
  split; [exact lo_device_reachable|]. split; [exact lo_accept_step|].
  apply (accepted_connections_belong _ _ _ _ lo_device_reachable lo_accept_step).
Defined.

(** A port of the loopback network is up once it is bound. *)
Definition lo_up (a : SocketAddr) (o : Loopback) : Prop := is_Some (o.(lo_backlogs) !! a.(sock_port)).

Lemma lo_dialable : Dialable Loopback N Z FakeSoftAp lo_up.
Proof.
  split.
  - intros a o [b Hb]. cbn. unfold lo_connect, wp, get, modify, mbind, M_bind, mret, M_ret. rewrite Hb. by eexists.
  - intros a o. cbn. unfold lo_connect, wp, get, modify, mbind, M_bind, mret, M_ret.
    destruct (lo_backlogs o !! sock_port a); [|done]. intros b Hb. unfold lo_up. cbn.
    apply lookup_insert_is_Some'. by right.
  - intros x s o b Hb. exact Hb.
Qed.

Lemma lo_device_calm : calm lo_up lo_device.
Proof.
  split.
  - apply map_Forall_to_list. vm_compute. repeat constructor.
  - assert (Hlan : map_Forall (fun _ l => lo_up l.(ls_addr) lo_device.(dv_world).(tw_heap).(sh_env))
      lo_device.(dv_lan).(wl_listeners)) by (apply map_Forall_to_list; vm_compute; repeat econstructor).
    assert (Hhot : map_Forall (fun _ l => lo_up l.(hl_listener).(ls_addr) lo_device.(dv_world).(tw_heap).(sh_env))
      lo_device.(dv_hotspot).(wh_listeners)) by (apply map_Forall_to_list; vm_compute; repeat econstructor).
    intros m s l. unfold listener_at. destruct m; try done; intros Hl _.
    + apply fmap_Some in Hl as (hl & Hl & ->). exact (Hhot s hl Hl).
    + exact (Hlan s l Hl).
Qed.

Lemma dropped_handlers_leave_no_thread_witness :
  device_reachable Loopback_empty lo_device /\ calm lo_up lo_device /\
  size lo_device.(dv_world).(tw_threads) = 2 /\
  lo_dropped_hotspot.2.(tw_threads) = ∅.
Proof.
  split; [exact lo_device_reachable|]. split; [exact lo_device_calm|]. split; [vm_compute; reflexivity|].
  apply (proj2 (dropped_handlers_leave_no_thread Loopback_empty lo_device lo_up lo_device_reachable lo_dialable)
           lo_dropped_lan.1 lo_dropped_lan.2 lo_dropped_hotspot.1 lo_dropped_hotspot.2);
    vm_compute; reflexivity.
Defined.

Lemma stop_listener_exact_witness :
  stop_listener lo_lan_listener lo_accepted_device.(dv_world) = Fault Blocked.
Proof.
  eapply (stop_listener_exact lo_lan_listener
            (mkAcceptThread "A_UPGRADE" LAN_CHANNEL_NAME WifiLan false true)); vm_compute; reflexivity.
Defined.

Lemma lan_offer_dials_back_witness :
  lo_lan_frame <> [] /\
  exists l, lo_lan_state.1.(wl_listeners) !! "A_UPGRADE" = Some l /\
    carries_path lo_lan_frame (fun info => path_medium info = WifiLan).
Proof.
  split; [vm_compute; discriminate|].
  destruct (lan_offer_dials_back _ lo_start lo_client "A_UPGRADE" "EP" lo_lan_frame
              lo_lan_state.1 lo_lan_state.2 lo_start_reachable lo_lan_runs)
    as [[Hf _]|(l & Hl & _ & Hp)].
  - exfalso. revert Hf. vm_compute. discriminate.
  - exists l. split; [exact Hl|]. eapply carries_path_mono; [exact Hp|]. by intros info [Hm _].
Defined.

Lemma hotspot_offer_joins_witness :
  lo_hotspot_frame <> [] /\
  exists l, lo_hotspot_state.1.(wh_listeners) !! "A_UPGRADE" = Some l /\
    creds_encodable l.(hl_creds) = true /\
    carries_path lo_hotspot_frame (fun info => path_medium info = WifiHotspot).
Proof.
  split; [vm_compute; discriminate|].
  destruct (hotspot_offer_joins _ lo_lan_device lo_client "A_UPGRADE" "EP" lo_hotspot_frame
              lo_hotspot_state.1 lo_hotspot_state.2 lo_lan_device_reachable lo_hotspot_runs)
    as [[Hf _]|(l & Hl & _ & Hp)].
  - exfalso. revert Hf. vm_compute. discriminate.
  - exists l. split; [exact Hl|].
    assert (Heq : l = mkHotspotListener (mkListener (mkSocketAddr LOCALHOST 40001) 1)
        (mkHotspotCreds "DIRECT-beamish-test" "testpassword" 2437 LOCALHOST LOCALHOST)).
    { vm_compute in Hl. by injection Hl as <-. }
    subst l. split; [reflexivity|]. specialize (Hp eq_refl).
    eapply carries_path_mono; [exact Hp|]. by intros info [Hm _].
Defined.
