(* ===== verification/LanInitiator.v ===== *)
(** The initiator's upgrade over WIFI_LAN, through every layer, the thread that
    accepts the remote's connection included: the manager of [src/bwu/manager.rs],
    the bookkeeping of [src/bwu/handler.rs], the listener of [src/bwu/wifi_lan.rs],
    the accept loop and the sockets of [src/bwu/tcp.rs] and the channels of
    [src/bwu/stream_channel.rs]. *)

From Stdlib Require Import ZArith NArith Lia.
From S2P Require Import Prelude.
From S2P Require Import Mediums.
From S2P Require Import Proto.
From S2P Require Import Codec.
From S2P Require Import Frames.
From S2P Require Import ServiceId.
From S2P Require Import Client.
From S2P Require Import Channel.
From S2P Require Import ChannelManager.
From S2P Require Import Handler.
From S2P Require Import Manager.
From S2P Require Import ManagerSteps.
From S2P Require Import StreamChannel.
From S2P Require Import StreamSteps.
From S2P Require Import Ipv4.
From S2P Require Import Tcp.
From S2P Require Import TcpSteps.
From S2P Require Import WifiLan.
From S2P Require Import Loopback.
From S2P Require Import Network.
From S2P Require Import FromBytes.
From S2P Require Import Upgrade.
From S2P Require Import Transport.
From S2P Require Import LanUpgrade.

(** * Definitions *)

(** A network on which the next bind is to a free address, and a remote can connect
    to an address that is [up]: [remote a bs] is its connection, with the message
    [bs] written on it, until [accept] returns the new socket.  Calls on
    streams keep an address up and a stream known. *)
Class Accepts (os sock lsn cph : Type) `{TcpOs os sock lsn} `{Cipher os cph}
    (coming : TcpDuplexStream sock -> bytes -> os -> Prop)
    (known : TcpDuplexStream sock -> os -> Prop) (free up : SocketAddr -> os -> Prop)
    (remote : SocketAddr -> bytes -> M os (option sock)) : Prop := {
  ac_bind ip a o :
    free a o ->
    wp no_fault (os_bind ip)
      (fun l o1 => exists l', l = Some l' /\
         wp no_fault (os_local_addr l')
           (fun b o2 => b = Some a /\ up a o2 /\ (forall t x, coming t x o -> coming t x o2) /\
                        forall t, known t o -> known t o2) o1) o;
  ac_remote a bs o :
    up a o ->
    wp no_fault (remote a bs)
      (fun s o1 => exists s', s = Some s' /\
         wp no_fault (TcpDuplexStream_new s')
           (fun d o2 => exists t, d = Some t /\ ~ known t o /\ coming t (concat (framed <$> [bs])) o2 /\
                        forall t' x, coming t' x o -> coming t' x o2) o1) o;
  ac_up a : StreamKeeps os (TcpDuplexStream sock) cph any (up a);
  ac_known t : StreamKeeps os (TcpDuplexStream sock) cph any (known t);
}.

Section world.
Context {os sock lsn cph : Type} `{TcpOs os sock lsn} `{Cipher os cph} `{Codec}.

(** A remote connects to an address, writes a message, and the loop of an accept
    thread takes the connection. *)
Definition remote_connects (remote : SocketAddr -> bytes -> M os (option sock)) (a : SocketAddr)
    (bs : bytes) (id : N) : M (TcpWorld os sock cph) (option (IncomingSocketConnection StreamArc)) :=
  s ← on_os (remote a bs); accept_once id s.

(** The listener of a service is up with its thread, and the channels are those
    that stood before. *)
Record listening (coming : TcpDuplexStream sock -> bytes -> os -> Prop)
    (known : TcpDuplexStream sock -> os -> Prop) (up : SocketAddr -> os -> Prop)
    (old : StreamArc) (last : bytes) (a : SocketAddr) (service_id : string) (w0 w : TcpWorld os sock cph)
    : Prop := {
  ln_channels : w.(tw_heap).(sh_channels) = w0.(tw_heap).(sh_channels);
  ln_standing : standing coming known old last w;
  ln_up : up a w.(tw_heap).(sh_env);
  ln_thread :
    w.(tw_threads) !! w0.(tw_next) = Some (mkAcceptThread service_id LAN_CHANNEL_NAME WifiLan false false);
}.
End world.

(** On the loopback: the next port, when a connection there is one that the device
    accepts, and a port with nobody in its backlog; and a remote. *)
Definition lo_free (ends : N -> bool) (a : SocketAddr) (o : Loopback) : Prop :=
  a = mkSocketAddr LOCALHOST o.(lo_next_port) /\ u16_ok o.(lo_next_port) = true /\
  ends o.(lo_next_socket) = true.

Definition lo_waits (ends : N -> bool) (a : SocketAddr) (o : Loopback) : Prop :=
  o.(lo_backlogs) !! a.(sock_port) = Some [] /\ ends o.(lo_next_socket) = true.

Definition lo_remote (a : SocketAddr) (bs : bytes) : M Loopback (option N) :=
  s ← lo_connect a;
  match s with
  | None => mret None
  | Some s => _ ← lo_write_all s (framed bs); lo_accept a.(sock_port)
  end.

(** * Lemmas *)

Section initiator.
Context {os sock lsn cph : Type} `{TcpOs os sock lsn} `{Cipher os cph} `{Codec}.
Context (coming : TcpDuplexStream sock -> bytes -> os -> Prop)
  `{HD : !Delivers os (TcpDuplexStream sock) coming}.
Context (known : TcpDuplexStream sock -> os -> Prop) (free up : SocketAddr -> os -> Prop)
  (remote : SocketAddr -> bytes -> M os (option sock))
  `{HA : !Accepts os sock lsn cph coming known free up remote}.
Implicit Types w : TcpWorld os sock cph.
#[local] Abbreviation listening := (listening coming known up).

(** A world whose channels are the same, and whose platform has only gone on. *)
Lemma standing_kept old last w w' :
  w'.(tw_heap).(sh_channels) = w.(tw_heap).(sh_channels) ->
  (forall t x, coming t x w.(tw_heap).(sh_env) -> coming t x w'.(tw_heap).(sh_env)) ->
  (forall t, known t w.(tw_heap).(sh_env) -> known t w'.(tw_heap).(sh_env)) ->
  standing coming known old last w -> standing coming known old last w'.
Proof.
  intros Hch Hco Hkn [Ho Hk (s & Hs & Hpl) Hp]. split.
  - unfold own_sockets, media_of. rewrite Hch. destruct Ho as [Ho Hm]. by split; rewrite Hch.
  - intros i s'. rewrite Hch. intros Hs'. by eapply Hkn, Hk.
  - exists s. rewrite Hch. split; [done|]. destruct Hpl as [H1' H2' H3' H4' H5']. split; try done. by apply Hco.
  - revert Hp. cbn. unfold arc_get. by rewrite Hch.
Qed.

(** Listening for a service. *)
Lemma lan_listens c ep (h : WifiLanBwuHandler) old last a service_id w :
  standing coming known old last w -> free a w.(tw_heap).(sh_env) ->
  h.(wl_listeners) !! service_id = None ->
  wp no_fault (lan_handle_initialize c service_id ep)
    (fun frame s => frame = lan_offer h a /\
       s.1.(wl_listeners) !! service_id = Some (mkListener a w.(tw_next)) /\
       listening old last a service_id w s.2) (h, w).
Proof.
  intros Hst Hfr Hno. unfold lan_handle_initialize. do 2 wp_step. cbn [fst]. rewrite Hno.
  apply wp_bind. apply wp_on_world. cbn [fst snd]. unfold start_listener. apply wp_bind.
  pose proof (ac_bind h.(wl_bind_ip) a _ Hfr) as Hb. unfold wp at 1 in Hb. unfold wp at 1, on_os at 1.
  destruct (os_bind _ _) as [[l o1]|f]; [|done]. destruct Hb as (l' & -> & Hb). apply wp_bind.
  unfold wp in Hb. unfold wp at 1, on_os at 1. cbn [tw_heap sh_env].
  destruct (os_local_addr l' o1) as [[b o2]|f]; [|done]. destruct Hb as (-> & Hup & Hco & Hkn).
  unfold spawn, lan_listeners. repeat wp_step. cbn. split; [done|].
  rewrite !lookup_insert_eq. split; [done|]. split; cbn; [done| |done|by rewrite lookup_insert_eq].
  by apply (standing_kept old last w).
Qed.

(** A write on the old channel. *)
Lemma listening_write old last a service_id d w0 w :
  listening old last a service_id w0 w -> within_limit d ->
  wp no_fault (ch_write old d)
    (fun r w' => r = Success /\ listening old last a service_id w0 w') w.
Proof.
  intros [Hch Hst Hup Hth] Hd. pose proof Hst as [Ho Hk Hn Hp].
  destruct (wp_no_fault_runs _ _ _ (stream_write_exact coming old d [last] w.(tw_heap) Hn Hp Hd))
    as (r & h' & Hrun & -> & Hch' & Hco).
  assert (Hst' : forall P : os -> Prop, StreamKeeps os (TcpDuplexStream sock) cph any P -> P w.(tw_heap).(sh_env) -> P h'.(sh_env)).
  { intros P HP Hw. refine (returned _ (fun _ h => P h.(sh_env)) _ _ _ Hrun _).
    apply (arc_op_keeps any P I); [by apply (sc_write_keeps any P I)|done]. }
  unfold wp, ch_write, Tcp_EndpointChannel, on_heap. rewrite Hrun. split; [done|].
  split; cbn; [by rewrite Hch'| | |done].
  - eapply standing_kept; [exact Hch'|exact Hco| |exact Hst].
    intros t. apply Hst', ac_known.
  - by apply Hst'; [apply ac_up|].
Qed.

(** The remote's connection becomes a channel. *)
Lemma connection_accepted old last a service_id bs w0 w :
  listening old last a service_id w0 w -> within_limit bs ->
  wp no_fault (remote_connects remote a bs w0.(tw_next))
    (fun r w' => r = Some (mkIncoming (next_arc w0)) /\ next_arc w0 <> old /\
       lines (own_sockets (<[(next_arc w0).(arc_id) := WifiLan]> (media_of w0)))
         (socket_next coming) old (next_arc w0) last false [bs] w') w.
Proof.
  intros [Hch Hst Hup Hth] Hbs. unfold remote_connects. apply wp_bind.
  pose proof (ac_remote a bs _ Hup) as Hr. unfold wp at 1 in Hr. unfold wp at 1, on_os at 1.
  destruct (remote a bs _) as [[s o1]|f]; [|done]. destruct Hr as (s' & -> & Hr).
  unfold accept_once. do 2 wp_step. cbn [tw_threads]. rewrite Hth. cbn [at_in_sink at_stop].
  apply wp_bind. eapply wp_mono;
    [apply (channel_lines coming known s' _ _ _ old last [bs] w o1 Hst); [by apply Forall_singleton|done]|done|].
  assert (Harc : next_arc w = next_arc w0) by (unfold next_arc; by rewrite Hch).
  assert (Hmed : media_of w = media_of w0) by (unfold media_of; by rewrite Hch).
  cbn [at_service_id at_channel_name at_medium].
  intros r w' (-> & Hne & _ & Hl). rewrite Harc, Hmed in *. unfold set_threads. repeat wp_step.
  split; [done|]. split; [done|]. by destruct Hl.
Qed.
End initiator.


(** ** On the loopback network *)

(** Calls on streams touch nothing but what has been received. *)
Lemma loopback_streams (P : Loopback -> Prop) :
  (forall f o, P o -> P (set_received f o)) -> StreamKeeps Loopback (TcpDuplexStream N) Empty_set any P.
Proof.
  intros HP. split; try (by intros []); intros; unfold wp; cbn;
    unfold tcp_read_exact, tcp_write_all, tcp_flush, tcp_close; cbn.
  - unfold lo_read_exact, mbind, M_bind, gets, modify, raise, mret, M_ret.
    destruct (_ <=? _)%nat; [by apply HP|]. by destruct (ps_closed _).
  - unfold lo_write_all, mbind, M_bind, gets, modify, mret, M_ret.
    destruct (ps_closed _); [done|by apply HP].
  - unfold lo_shutdown, mbind, M_bind, get, modify, mret, M_ret. by apply HP.
Qed.

#[export] Instance loopback_accepts ends :
  Accepts Loopback N Z Empty_set (socket_coming ends) (lo_known ends) (lo_free ends) (lo_waits ends) lo_remote.
Proof.
  split.
  - intros ip a o (-> & Hp & He). unfold wp at 1. cbn. unfold lo_bind, get, modify, mbind, M_bind, mret, M_ret.
    rewrite Hp. eexists. split; [done|]. unfold wp. cbn. unfold mret, M_ret. rewrite Hp.
    split; [done|]. split; [split; [by cbn; rewrite lookup_insert_eq|done]|]. by split.
  - intros a bs o [Hb He]. unfold lo_remote, lo_connect, lo_write_all, lo_accept, wp at 1, get, gets, modify,
      mbind, M_bind, mret, M_ret. rewrite Hb. set (n := o.(lo_next_socket)).
    cbn. rewrite peer_even. unfold received. cbn. rewrite lookup_insert_ne, !lookup_insert_eq by lia. cbn.
    rewrite !lookup_insert_eq. eexists. split; [done|]. unfold wp. cbn.
    assert (Hown : own_end ends n = (2 * n + 1)%N) by (unfold own_end; fold n in He; by rewrite He).
    exists (socket_stream (2 * n + 1)). split; [done|]. split_and!.
    + intros (k & Ht & Hk). injection Ht as Ht. rewrite <- Hown in Ht. apply (ends_apart ends) in Ht. fold n in Hk. lia.
    + exists n, [], (default [] (lo_greetings o !! sock_port a)). rewrite Hown, peer_odd.
      split_and!; [done|cbn; lia| |]; unfold received; cbn.
      * by rewrite lookup_insert_eq, !app_nil_r.
      * rewrite lookup_insert_ne by lia. by rewrite lookup_insert_eq.
    + intros t' x (k & rest & sent & -> & Hk & Hr & Hs). fold n in Hk. exists k, rest, sent.
      split; [done|]. split; [cbn; lia|]. unfold received in *. cbn.
      assert (Hapart : forall y, y = own_end ends k \/ y = peer (own_end ends k) -> (y < 2 * n)%N).
      { intros y. unfold own_end. destruct (ends k); rewrite ?peer_odd, ?peer_even; lia. }
      pose proof (Hapart _ (or_introl eq_refl)). pose proof (Hapart _ (or_intror eq_refl)).
      rewrite !lookup_insert_ne by lia. done.
  - intros a. apply loopback_streams. by intros f o.
  - intros t. apply loopback_streams. by intros f o.
Qed.

(** * Properties *)

(** C6. The initiator's upgrade over WIFI_LAN from the manager down to the sockets:
    the handler listens and offers its address, a remote connects to it and
    introduces itself, the accept thread makes a channel of the connection, and
    after the remote's LAST_WRITE and SAFE_TO_CLOSE that channel is the endpoint's
    active one, resumed, and the client hears of WIFI_LAN; all calls return,
    whatever else the device has open, and exactly the messages of the handshake
    pass. *)
Theorem lan_initiator_upgrade
    {os sock lsn cph : Type} `{TcpOs os sock lsn} `{Cipher os cph} `{Codec}
    (coming : TcpDuplexStream sock -> bytes -> os -> Prop)
    `{HD : !Delivers os (TcpDuplexStream sock) coming}
    (known : TcpDuplexStream sock -> os -> Prop) (free up : SocketAddr -> os -> Prop)
    (remote : SocketAddr -> bytes -> M os (option sock))
    `{HA : !Accepts os sock lsn cph coming known free up remote}
    (fuel : nat) (on : Medium) (ep : string) (old : StreamArc) (a : SocketAddr)
    (h : BaseBwuHandler WifiLanBwuHandler) (bs b2 b3 last : bytes)
    (w : World (BaseBwuHandler WifiLanBwuHandler) (Tapped (TcpWorld os sock cph) StreamArc) StreamArc) :
  let net := w.(w_env).(tap_env) in
  let new := next_arc net in
  let offer := lan_offer h.(base_inner) a in
  standing coming known old last net -> free a net.(tw_heap).(sh_env) ->
  offers ep old WifiLan w -> w.(w_mgr).(handlers) !! WifiLan = Some h ->
  h.(base_inner).(wl_listeners) !! wrap_initiator_upgrade_service_id (ch_service_id old w.(w_env)) = None ->
  offer <> [] -> Forall within_limit (offer :: bs :: handshake_messages) ->
  introduces bs ep ->
  says b2 Ev_LastWriteToPriorChannel None -> says b3 Ev_SafeToClosePriorChannel None ->
  wp no_fault
    (initiate_bwu_for_endpoint (S fuel) ep WifiLan;;
     c ← channel_op (tapped_call (remote_connects remote a bs net.(tw_next)) unseen);
     match c with Some c => on_incoming_connection c | None => mret tt end;;
     hand_over fuel ep on old b2;; hand_over fuel ep on old b3)
    (fun _ => upgraded_to_lan ep new (media_of net) (bandwidth_changed_events w.(w_client))
       (w.(w_env).(tap_io) ++ initiator_io old new false (latched ep w) offer bs b2 b3 last)) w.
Proof.
  intros net new offer Hst Hfr Hof Hh Hno Hne Hfits Hbs H2' H3'.
  apply Forall_cons in Hfits as [Hfo Hfits]. apply Forall_cons in Hfits as [Hfb Hfs].
  set (service_id := wrap_initiator_upgrade_service_id (ch_service_id old w.(w_env))) in *.
  destruct (wp_no_fault_runs _ _ _ (lan_listens coming known free up remote w.(w_client) ep h.(base_inner)
    old last a service_id net Hst Hfr Hno)) as (frame & [h' e] & Hrun & -> & _ & Hl).
  apply wp_bind. eapply wp_mono; [apply (offer_sent_on ep old
    (listening coming known up old last a service_id net) fuel WifiLan offer w Hof)|done|].
  - exists h, (mkBase h' (track service_id ep h.(base_active))), e. split; [done|]. split; [|by split].
    cbn in *. unfold base_initialize_upgraded_medium_for_endpoint, inner_call, mbind, M_bind. cbn.
    unfold net, runs_to, service_id in *. cbn in Hrun. rewrite Hrun. cbn.
    by destruct (lan_offer _ _).
  - intros e' He'. by apply (listening_write coming known free up remote).
  - intros [] w1 ([Hl1 Hio1 Hc1 Hp1 Ha1 Hpk1] & Hla1 & Hcl1). apply wp_bind. eapply wp_io;
      [by apply (connection_accepted coming known free up remote old last a service_id bs net)|].
    intros c e2 (-> & Hnew & Hl2).
    eapply wp_mono; [apply (connection_run (own_sockets (<[new.(arc_id) := WifiLan]> (media_of net)))
      (socket_next coming) within_limit (HT := sockets_work coming _) Hfs ep old new Hnew last
      fuel on bs b2 b3 (w.(w_env).(tap_io) ++ [Sent old offer]))|done|]; try done.
    + split; try done. cbn. by rewrite Hio1, app_nil_r.
    + intros [] w' Hw'. apply upgraded_lan. revert Hw'. cbn. rewrite Hcl1.
      unfold latched in *. cbn. rewrite Hla1. unfold initiator_io. cbn. rewrite <- !app_assoc. by cbn.
Qed.

(** A device whose remote "REMOTE" is on Bluetooth, over a connection that the
    device has dialled; it accepts every later one. *)
Definition later_accepted (k : N) : bool := (1 <=? k)%N.

Definition offering_net : LoopbackWorld :=
  mkTcpWorld
    (mkStreamHeap {[0%N := StreamChannel_new "A" "bluetooth" Bluetooth (socket_stream 0)]}
       (mkLoopback 40000 1 ∅
          {[0%N := mkPipeState (framed goodbye) false; 1%N := mkPipeState [] false]} ∅ false)) ∅ 0.

Definition offering_device
    : World (BaseBwuHandler WifiLanBwuHandler) (Tapped LoopbackWorld StreamArc) StreamArc :=
  {| w_mgr := BwuManager_new {[WifiLan := base_new WifiLan_new]} BwuConfig_default;
     w_client := set_upgrade_mediums "REMOTE" [WifiLan] $ on_connection_accepted "REMOTE" $
       on_connection_initiated "REMOTE" true true $ ClientProxy_new 7 "LOCAL";
     w_ecm := register_channel_for_endpoint "REMOTE" (mkStreamArc 0) ecm_new;
     w_env := mkTapped offering_net [] |}.

Definition remote_introduction : bytes := for_bwu_introduction "REMOTE" "" false.

Lemma offering_net_stands :
  standing (socket_coming later_accepted) (lo_known later_accepted) (mkStreamArc 0) goodbye offering_net.
Proof.
  split.
  - split; [|reflexivity]. intros i j s t Hij. cbn. by intros [<- <-]%lookup_singleton_Some [<- <-]%lookup_singleton_Some.
  - intros i s. cbn. intros [<- <-]%lookup_singleton_Some. exists 0%N. split; [reflexivity|]. cbn. lia.
  - eexists. split; [reflexivity|]. split; try reflexivity; [apply within_limit_all; vm_compute; reflexivity|].
    exists 0%N, [], []. split; [reflexivity|]. split; [cbn; lia|]. split; vm_compute; reflexivity.
  - reflexivity.
Qed.

Lemma lan_initiator_upgrade_witness :
  wp no_fault
    (initiate_bwu_for_endpoint 4 "REMOTE" WifiLan;;
     c ← channel_op (tapped_call (remote_connects lo_remote lan_address remote_introduction 0) unseen);
     match c with Some c => on_incoming_connection c | None => mret tt end;;
     hand_over 3 "REMOTE" Bluetooth (mkStreamArc 0) for_bwu_last_write;;
     hand_over 3 "REMOTE" Bluetooth (mkStreamArc 0) for_bwu_safe_to_close)
    (fun _ w' =>
       get_channel_for_endpoint "REMOTE" w'.(w_ecm) = Some (mkStreamArc 1) /\
       bandwidth_changed_events w'.(w_client) = [("REMOTE", WifiLan)]) offering_device.
Proof.
  eapply wp_mono; [apply (lan_initiator_upgrade (socket_coming later_accepted) (lo_known later_accepted)
    (lo_free later_accepted) (lo_waits later_accepted) lo_remote 3 Bluetooth "REMOTE" (mkStreamArc 0)
    lan_address (base_new WifiLan_new) remote_introduction for_bwu_last_write for_bwu_safe_to_close
    goodbye offering_device)|auto| ].
  - exact offering_net_stands.
  - split; [reflexivity|]. split; vm_compute; reflexivity.
  - split; try (vm_compute; reflexivity); try (vm_compute; discriminate).
  - vm_compute. reflexivity.
  - vm_compute. reflexivity.
  - vm_compute. discriminate.
  - apply within_limit_all. vm_compute. reflexivity.
  - do 2 eexists. split; [vm_compute; reflexivity|]. split_and!; vm_compute; reflexivity.
  - eexists. split; [vm_compute; reflexivity|]. split; [reflexivity|]. eexists. split_and!; vm_compute; reflexivity.
  - eexists. split; [vm_compute; reflexivity|]. split; [reflexivity|]. eexists. split_and!; vm_compute; reflexivity.
  - intros [] w' [Ha _ He _ _ _ _]. split; [rewrite Ha; vm_compute; reflexivity|].
    rewrite He. vm_compute. reflexivity.
Defined.
