(* ===== verification/Sessions.v ===== *)
(** What the bookkeeping of [src/bwu/handler.rs] and a medium below it keep
    together: a property of the medium that its calls keep is kept by every call on
    the handler, and everything that the medium has set up for a service has a
    session in the bookkeeping. *)

From S2P Require Import Prelude.
From S2P Require Import Mediums.
From S2P Require Import Proto.
From S2P Require Import Codec.
From S2P Require Import Frames.
From S2P Require Import ServiceId.
From S2P Require Import Client.
From S2P Require Import Channel.
From S2P Require Import Handler.
From S2P Require Import StreamChannel.
From S2P Require Import Ipv4.
From S2P Require Import Tcp.
From S2P Require Import WifiLan.
From S2P Require Import WifiHotspot.
From S2P Require Import Network.

(** * Interfaces *)

(** The calls on a medium keep [P]. *)
Class MediumKeeps (H env chan : Type) `{MediumBwuHandler H env chan} (P : H * env -> Prop) : Prop := {
  mk_initialize c u ep s :
    P s -> wp any (mh_handle_initialize_upgraded_medium_for_endpoint (chan := chan) c u ep) (fun _ => P) s;
  mk_revert u s :
    P s -> wp any (mh_handle_revert_initiator_state_for_service (chan := chan) u) (fun _ => P) s;
  mk_create c u ep info s :
    P s -> wp any (mh_create_upgraded_endpoint_channel (chan := chan) c u ep info) (fun _ => P) s;
  mk_disconnect c ep s :
    P s -> wp any (mh_on_endpoint_disconnect (chan := chan) c ep) (fun _ => P) s;
}.

(** What a medium has set up, per service: an initialisation may add a record for
    its service, but not one without a frame to offer; a revert removes its
    service's, and nothing else changes them. *)
Class MediumRecords (H env chan : Type) `{MediumBwuHandler H env chan} {R : Type}
    (recs : H -> gmap string R) : Prop := {
  mr_initialize c u ep s :
    wp any (mh_handle_initialize_upgraded_medium_for_endpoint (chan := chan) c u ep)
      (fun frame s' => recs s'.1 = recs s.1 \/
         frame <> [] /\ forall v, v <> u -> recs s'.1 !! v = recs s.1 !! v) s;
  mr_revert u s :
    wp any (mh_handle_revert_initiator_state_for_service (chan := chan) u)
      (fun _ s' => recs s'.1 = delete u (recs s.1)) s;
  mr_create c u ep info s :
    wp any (mh_create_upgraded_endpoint_channel (chan := chan) c u ep info)
      (fun _ s' => recs s'.1 = recs s.1) s;
  mr_disconnect c ep s :
    wp any (mh_on_endpoint_disconnect (chan := chan) c ep) (fun _ s' => recs s'.1 = recs s.1) s;
}.

(** The reverts of a medium return where [P] holds, and keep it. *)
Class MediumReverts (H env chan : Type) `{MediumBwuHandler H env chan} (P : H * env -> Prop) : Prop := {
  mv_revert u s :
    P s -> wp no_fault (mh_handle_revert_initiator_state_for_service (chan := chan) u) (fun _ => P) s;
}.

(** Every service that has a record has a session. *)
Definition covers {R} (active : gmap string (gset string)) (recs : gmap string R) : Prop :=
  forall u, is_Some (recs !! u) -> exists ep, ep ∈ default ∅ (active !! u).

(** * Lemmas *)

Section keeps.
Context {H env chan : Type} `{MediumBwuHandler H env chan}.
Implicit Types (s : BaseBwuHandler H * env).

Definition inner_state s : H * env := (s.1.(base_inner), s.2).

Lemma wp_inner_call {A} E (m : M (H * env) A) (Q : A -> BaseBwuHandler H * env -> Prop) s :
  wp E m (fun a r => Q a (mkBase r.1 s.1.(base_active), r.2)) (inner_state s) ->
  wp E (inner_call m) Q s.
Proof. unfold wp, inner_call, inner_state. by destruct (m _) as [[a [h e]]|f]. Qed.

Context (P : H * env -> Prop) `{HP : !MediumKeeps H env chan P}.

Lemma services_keep us s :
  P (inner_state s) ->
  wp any (revert_services (chan := chan) us) (fun _ s' => P (inner_state s')) s.
Proof.
  revert s. induction us as [|u us IH]; intros s Hs; cbn [revert_services]; [by apply wp_ret|].
  apply wp_bind, wp_inner_call. eapply wp_mono; [by apply mk_revert|done|].
  intros [] [h e] Hr. by apply IH.
Qed.

(** A call on the handler keeps what the calls on the medium keep. *)
Lemma handler_call_keeps s s' :
  handler_call (BaseBwuHandler H) env chan s s' -> P (inner_state s) -> P (inner_state s').
Proof.
  intros Hc Hs. destruct Hc as [c sv ep s frame s' Hr|s r s' Hr|sv ep s r s' Hr|sv s r s' Hr
    |c sv ep info s r s' Hr|c ep s r s' Hr]; apply (returned _ (fun _ s' => P (inner_state s')) _ _ _ Hr); cbn.
  - apply wp_bind, wp_inner_call. eapply wp_mono; [by apply mk_initialize|done|].
    intros f [h e] Hf. unfold active, set_active. apply wp_bind. by destruct (is_nil f); repeat wp_step.
  - unfold base_revert_initiator_state, active, set_active. repeat wp_step.
    eapply wp_mono; [by apply services_keep|done|]. intros [] s1 Hs1. by repeat wp_step.
  - unfold base_revert_initiator_state_for_endpoint, active, set_active.
    destruct (negb _); [done|]. do 2 wp_step. destruct (_ !! sv) as [eps|]; [|done].
    case_decide; [done|]. repeat wp_step. case_decide; [|done]. repeat wp_step.
    apply wp_inner_call. eapply wp_mono; [by apply mk_revert|done|]. by intros [] [].
  - apply wp_inner_call. eapply wp_mono; [by apply mk_revert|done|]. by intros [] [].
  - apply wp_inner_call. eapply wp_mono; [by apply mk_create|done|]. by intros ? [].
  - apply wp_inner_call. eapply wp_mono; [by apply mk_disconnect|done|]. by intros [] [].
Qed.
End keeps.

Section reverts.
Context {H env chan : Type} `{MediumBwuHandler H env chan}.
Context (P : H * env -> Prop) `{HV : !MediumReverts H env chan P}.
Implicit Types (s : BaseBwuHandler H * env).

Lemma services_return us s :
  P (inner_state s) ->
  wp no_fault (revert_services (chan := chan) us) (fun _ s' => P (inner_state s')) s.
Proof.
  revert s. induction us as [|u us IH]; intros s Hs; cbn [revert_services]; [by apply wp_ret|].
  apply wp_bind, wp_inner_call. eapply wp_mono; [by apply mv_revert|done|].
  intros [] [h e] Hr. by apply IH.
Qed.

(** Then reverting the whole initiator state returns. *)
Lemma revert_all_returns s :
  P (inner_state s) ->
  wp no_fault (bh_revert_initiator_state (H := BaseBwuHandler H) (chan := chan))
    (fun _ s' => P (inner_state s')) s.
Proof.
  intros Hs. cbn. unfold base_revert_initiator_state, active, set_active. repeat wp_step.
  eapply wp_mono; [by apply services_return|done|]. intros [] s1 Hs1. by repeat wp_step.
Qed.
End reverts.

Section sessions.
Context {H env chan R : Type} `{MediumBwuHandler H env chan} (recs : H -> gmap string R).
Context `{HR : !MediumRecords H env chan recs}.
Implicit Types (s : BaseBwuHandler H * env).

Definition covered s : Prop := covers s.1.(base_active) (recs s.1.(base_inner)).

Lemma covers_delete u active (m : gmap string R) :
  covers active m -> covers (delete u active) (delete u m).
Proof.
  intros Hc v Hv. apply lookup_delete_is_Some in Hv as [Hne Hv]. rewrite lookup_delete_ne by done.
  by apply Hc.
Qed.

Lemma covers_less active (m : gmap string R) u : covers active m -> covers active (delete u m).
Proof. intros Hc v [_ Hv]%lookup_delete_is_Some. by apply Hc. Qed.

(** Reverting all services that have a session leaves no record. *)
Lemma services_records us s :
  undropped us (recs s.1.(base_inner)) ->
  wp any (revert_services (chan := chan) us) (fun _ s' => recs s'.1.(base_inner) = ∅) s.
Proof.
  revert s. induction us as [|u us IH]; intros s Hs; cbn [revert_services].
  - apply wp_ret. by apply undropped_nil.
  - apply wp_bind, wp_inner_call. eapply wp_mono; [apply mr_revert|done|]. cbn.
    intros [] [h e] Hr. apply IH. cbn in *. rewrite Hr. by apply undropped_delete.
Qed.

(** After the whole initiator state is reverted nothing is left of it. *)
Lemma revert_all_empty s :
  covered s ->
  wp any (bh_revert_initiator_state (H := BaseBwuHandler H) (chan := chan))
    (fun _ s' => s'.1.(base_active) = ∅ /\ recs s'.1.(base_inner) = ∅) s.
Proof.
  intros Hs. cbn. unfold base_revert_initiator_state, active, set_active. repeat wp_step.
  eapply wp_mono; [apply services_records|done|].
  - intros u Hu. apply Hs in Hu as [ep Hep]. destruct (base_active s.1 !! u) as [eps|] eqn:Ha.
    + apply list_elem_of_fmap. exists (u, eps). split; [done|]. by apply elem_of_map_to_list.
    + by apply not_elem_of_empty in Hep.
  - intros [] s1 Hs1. by repeat wp_step.
Qed.

(** Every call on the handler leaves every record with a session. *)
Lemma handler_call_covered s s' :
  handler_call (BaseBwuHandler H) env chan s s' -> covered s -> covered s'.
Proof.
  intros Hc Hs. destruct Hc as [c sv ep s frame s' Hr|s r s' Hr|sv ep s r s' Hr|sv s r s' Hr
    |c sv ep info s r s' Hr|c ep s r s' Hr]; apply (returned _ (fun _ s' => covered s') _ _ _ Hr).
  - cbn. apply wp_bind, wp_inner_call. eapply wp_mono; [apply mr_initialize|done|]. cbn.
    intros f [h e] Hf. unfold active, set_active. apply wp_bind. cbn in Hf. destruct (is_nil f) eqn:Hn.
    + repeat wp_step. apply is_nil_true in Hn as ->. destruct Hf as [Hf|[? _]]; [|done].
      unfold covered. cbn. by rewrite Hf.
    + repeat wp_step. intros v Hv. cbn in *. destruct (decide (v = wrap_initiator_upgrade_service_id sv)) as [->|Hne].
      * exists ep. apply track_member. by left.
      * destruct (Hs v) as [ep' Hep']; [|exists ep'; apply track_member; by right].
        destruct Hf as [Hf|[_ Hf]]; [by rewrite <-Hf|by rewrite <-Hf].
  - eapply wp_mono; [by apply revert_all_empty|done|]. intros [] s1 [_ Hr1] v. rewrite Hr1, lookup_empty.
    by intros [? ?].
  - cbn. unfold base_revert_initiator_state_for_endpoint, active, set_active.
    destruct (negb _); [done|]. do 2 wp_step. destruct (_ !! sv) as [eps|] eqn:Ha; [|done].
    case_decide as He; [done|]. repeat wp_step. case_decide as He'.
    + repeat wp_step. apply wp_inner_call. eapply wp_mono; [apply mr_revert|done|]. cbn.
      intros [] [h e] Hr1. unfold covered. cbn in *. rewrite Hr1, delete_insert_eq. by apply covers_delete.
    + apply wp_ret. intros v Hv. cbn in *. destruct (decide (v = sv)) as [->|Hne].
      * rewrite lookup_insert_eq. cbn. by apply set_choose_L.
      * rewrite lookup_insert_ne by done. by apply Hs.
  - apply wp_inner_call. eapply wp_mono; [apply mr_revert|done|]. cbn. intros [] [h e] Hr1.
    unfold covered. cbn in *. rewrite Hr1. by apply covers_less.
  - apply wp_inner_call. eapply wp_mono; [apply mr_create|done|]. cbn. intros x [h e] Hr1.
    unfold covered. cbn in *. by rewrite Hr1.
  - apply wp_inner_call. eapply wp_mono; [apply mr_disconnect|done|]. cbn. intros [] [h e] Hr1.
    unfold covered. cbn in *. by rewrite Hr1.
Qed.
End sessions.

(** ** The TCP handlers *)

Section tcp.
Context {os sock lsn cph ap : Type} `{TcpOsLaws os sock lsn} `{SoftAp os ap} `{Cipher os cph} `{CodecLaws}.

#[export] Instance WifiLan_records :
  MediumRecords WifiLanBwuHandler (TcpWorld os sock cph) StreamArc wl_listeners.
Proof.
  split.
  - intros c u ep [lan w]. cbn. unfold lan_handle_initialize. do 2 wp_step. cbn.
    destruct (_ !! u) as [l|]; [apply wp_ret; by left|].
    apply wp_bind, wp_on_world, wp_start_listener; [intros w' _; apply wp_ret; by left|].
    intros l w' _ _ _ _. unfold lan_listeners. repeat wp_step. right. cbn.
    split; [apply encode_v1_nonempty|]. intros v Hv. by rewrite lookup_insert_ne.
  - intros u [lan w]. apply lan_revert_records.
  - intros c u ep info [lan w]. cbn. unfold lan_create_upgraded_endpoint_channel.
    destruct (lan_target info); [|by apply wp_ret]. by apply wp_dial.
  - intros c ep [lan w]. by apply wp_ret.
Qed.

#[export] Instance WifiHotspot_records :
  MediumRecords (WifiHotspotBwuHandler ap) (TcpWorld os sock cph) StreamArc wh_listeners.
Proof.
  split.
  - intros c u ep [hot w]. cbn. unfold hotspot_handle_initialize. do 2 wp_step. cbn.
    destruct (_ !! u) as [l|]; [apply wp_ret; by left|].
    apply wp_bind, wp_on_softap. intros [creds|] w1 _; [|by apply wp_ret; left].
    apply wp_bind, wp_on_world, wp_start_listener.
    + intros w' _. apply wp_bind, wp_on_softap. intros [] w2 _. apply wp_ret. by left.
    + intros l w' _ _ _ _. unfold hotspot_listeners. repeat wp_step. right. cbn.
      split; [apply encode_v1_nonempty|]. intros v Hv. by rewrite lookup_insert_ne.
  - intros u [hot w]. apply hotspot_revert_records.
  - intros c u ep info [hot w]. cbn. unfold hotspot_create_upgraded_endpoint_channel.
    destruct (hotspot_target info) as [[creds addr]|]; [|by apply wp_ret].
    apply wp_bind, wp_on_softap. intros [] w1 _; [by apply wp_dial|by apply wp_ret].
  - intros c ep [hot w]. by apply wp_on_softap.
Qed.

Lemma lan_keeps_device hot :
  MediumKeeps WifiLanBwuHandler (TcpWorld os sock cph) StreamArc
    (fun s => device_ok (mkDevice s.1 hot s.2 : TcpDevice os sock cph ap)).
Proof.
  split.
  - intros c u ep [lan w] Hok. by apply lan_initialize_ok.
  - intros u [lan w] Hok. by apply lan_revert_ok.
  - intros c u ep info [lan w] Hok. cbn. unfold lan_create_upgraded_endpoint_channel.
    destruct (lan_target info); [|by apply wp_ret]. apply wp_dial. intros r w2 Hw.
    by apply (device_ok_same (mkDevice lan hot w)).
  - intros c ep [lan w] Hok. by apply wp_ret.
Qed.

Lemma hotspot_keeps_device lan :
  MediumKeeps (WifiHotspotBwuHandler ap) (TcpWorld os sock cph) StreamArc
    (fun s => device_ok (mkDevice lan s.1 s.2 : TcpDevice os sock cph ap)).
Proof.
  split.
  - intros c u ep [hot w] Hok. by apply hotspot_initialize_ok.
  - intros u [hot w] Hok. by apply hotspot_revert_ok.
  - intros c u ep info [hot w] Hok. cbn. unfold hotspot_create_upgraded_endpoint_channel.
    destruct (hotspot_target info) as [[creds addr]|]; [|by apply wp_ret].
    apply wp_bind, wp_on_softap. intros [] w1 Hw1.
    + apply wp_dial. intros r w2 Hw. apply (device_ok_same (mkDevice lan hot w)); [|done].
      by eapply same_threads_trans.
    + apply wp_ret. by apply (device_ok_same (mkDevice lan hot w)).
  - intros c ep [hot w] Hok. apply wp_on_softap. intros [] w1 Hw1.
    by apply (device_ok_same (mkDevice lan hot w)).
Qed.
Lemma lan_reverts up hot `{!Dialable os sock lsn ap up} :
  MediumReverts WifiLanBwuHandler (TcpWorld os sock cph) StreamArc
    (fun s => calm up (mkDevice s.1 hot s.2 : TcpDevice os sock cph ap)).
Proof. split. intros u [lan w] Hc. by apply lan_revert_returns. Qed.

Lemma hotspot_reverts up lan `{!Dialable os sock lsn ap up} :
  MediumReverts (WifiHotspotBwuHandler ap) (TcpWorld os sock cph) StreamArc
    (fun s => calm up (mkDevice lan s.1 s.2 : TcpDevice os sock cph ap)).
Proof. split. intros u [hot w] Hc. by apply hotspot_revert_returns. Qed.
End tcp.
