(* ===== verification/TypedChannels.v ===== *)
(** The type of a device's channels: each is named after its medium and keeps its
    identity for life, and each accept thread makes channels of its own type. *)

From Stdlib Require Import ZArith NArith Lia.
From stdpp Require Import relations.
From S2P Require Import Prelude.
From S2P Require Import Mediums.
From S2P Require Import Proto.
From S2P Require Import Codec.
From S2P Require Import Frames.
From S2P Require Import Client.
From S2P Require Import Channel.
From S2P Require Import Handler.
From S2P Require Import StreamChannel.
From S2P Require Import Utf8.
From S2P Require Import Validator.
From S2P Require Import ValidatorSpec.
From S2P Require Import FromBytes.
From S2P Require Import RoundTrip.
From S2P Require Import Ipv4.
From S2P Require Import Tcp.
From S2P Require Import WifiLan.
From S2P Require Import WifiHotspot.
From S2P Require Import StreamSteps.
From S2P Require Import TcpSteps.
From S2P Require Import Loopback.
From S2P Require Import Network.

(** * Definitions *)

(** The names of the channels of a medium. *)
Definition medium_name (medium : Medium) (name : string) : Prop :=
  medium = WifiLan /\ name = LAN_CHANNEL_NAME \/ medium = WifiHotspot /\ name = HOTSPOT_CHANNEL_NAME.

Definition channel_typed {strm cph} (s : StreamChannel strm cph) : Prop :=
  medium_name s.(sc_medium) s.(sc_name) /\
  s.(sc_max_allowed_read_bytes) = DEFAULT_MAX_ALLOWED_READ_BYTES.

Definition thread_typed (t : AcceptThread) : Prop := medium_name t.(at_medium) t.(at_channel_name).

(** All channels and threads of a world have their types. *)
Definition world_typed {os sock cph} (w : TcpWorld os sock cph) : Prop :=
  map_Forall (fun _ => channel_typed) w.(tw_heap).(sh_channels) /\
  map_Forall (fun _ => thread_typed) w.(tw_threads).

(** Every channel is still there, with its identity. *)
Definition channels_stay {os sock cph} (w w' : TcpWorld os sock cph) : Prop :=
  forall id s, w.(tw_heap).(sh_channels) !! id = Some s ->
    exists s', w'.(tw_heap).(sh_channels) !! id = Some s' /\ fixed_fields s s'.

Definition typed_step {os sock cph} (w w' : TcpWorld os sock cph) : Prop :=
  channels_stay w w' /\ (world_typed w -> world_typed w').

(** * Lemmas *)

Section typed.
Context {os sock lsn cph ap : Type} `{TcpOsLaws os sock lsn} `{SoftAp os ap} `{Cipher os cph} `{Codec}.
Implicit Types (d : TcpDevice os sock cph ap) (w : TcpWorld os sock cph)
  (hot : WifiHotspotBwuHandler ap).

Lemma fixed_refl {strm} (s : StreamChannel strm cph) : fixed_fields s s.
Proof. by split_and!. Qed.

Lemma fixed_typed {strm} (s s' : StreamChannel strm cph) :
  fixed_fields s s' -> channel_typed s -> channel_typed s'.
Proof. intros (Hm & _ & Hn & Hl) [Ht Hd]. unfold channel_typed. by rewrite Hm, Hn, Hl. Qed.

Lemma typed_trans w1 w2 w3 : typed_step w1 w2 -> typed_step w2 w3 -> typed_step w1 w3.
Proof.
  intros [Hs1 Ht1] [Hs2 Ht2]. split; [|by auto]. intros id s Hs.
  destruct (Hs1 id s Hs) as (s2 & Hl2 & Hm2 & Hv2 & Hn2 & Hd2).
  destruct (Hs2 id s2 Hl2) as (s3 & Hl3 & Hm3 & Hv3 & Hn3 & Hd3).
  exists s3. split; [done|]. split_and!; congruence.
Qed.

(** The same channels, and threads that were there or are typed. *)
Lemma typed_same w w' :
  w'.(tw_heap).(sh_channels) = w.(tw_heap).(sh_channels) ->
  (map_Forall (fun _ => thread_typed) w.(tw_threads) ->
   map_Forall (fun _ => thread_typed) w'.(tw_threads)) ->
  typed_step w w'.
Proof.
  intros Hc Ht. split.
  - intros id s Hs. rewrite Hc. exists s. split; [done|]. apply fixed_refl.
  - intros [Hw Hth]. split; [by rewrite Hc|by apply Ht].
Qed.

Lemma typed_new c s n m w w' :
  same_threads w w' -> new_channel c s n m w w' -> (world_typed w -> medium_name m n) ->
  typed_step w w'.
Proof.
  intros [Ht _] (Hnone & stream & Hc) Hmn. split.
  - intros id s0 Hs0. exists s0. rewrite Hc. split; [|apply fixed_refl].
    rewrite lookup_insert_ne; [done|]. intros Heq. rewrite Heq in Hnone. congruence.
  - intros Hw. specialize (Hmn Hw). destruct Hw as [Hw Hth]. split; [|by rewrite Ht].
    rewrite Hc. apply map_Forall_insert_2; [|done]. by split.
Qed.

(** The steps of a call on the world. *)
Lemma typed_os {A} (m : M os A) (Q : A -> _ -> Prop) w :
  (forall a w', typed_step w w' -> same_threads w w' -> Q a w') -> wp any (on_os m) Q w.
Proof.
  intros HQ. apply wp_on_os. intros a w' Hth Hc. apply HQ; [|done].
  apply typed_same; [done|]. by rewrite (proj1 Hth).
Qed.

Lemma typed_tcp_channel stream s n m (Q : option StreamArc -> _ -> Prop) w :
  medium_name m n -> (forall r w', typed_step w w' -> Q r w') ->
  wp any (tcp_channel stream s n m) Q w.
Proof.
  intros Hmn HQ. apply wp_tcp_channel.
  - intros w' Hth Hc. apply HQ, typed_same; [done|]. by rewrite (proj1 Hth).
  - intros c w' Hth Hnew. apply HQ. by eapply typed_new.
Qed.

Lemma typed_start_listener ip s n m (Q : option Listener -> _ -> Prop) w :
  medium_name m n -> (forall r w', typed_step w w' -> Q r w') ->
  wp any (start_listener ip s n m) Q w.
Proof.
  intros Hmn HQ. unfold start_listener. apply wp_bind, typed_os.
  intros [l|] w1 Hw1 _; [|by apply wp_ret, HQ].
  apply wp_bind, typed_os. intros [addr|] w2 Hw2 _; [|by apply wp_ret, HQ; eapply typed_trans].
  unfold spawn. repeat wp_step. apply HQ. eapply typed_trans; [eapply typed_trans; [exact Hw1|exact Hw2]|].
  apply typed_same; [done|]. intros Hth. simpl. by apply map_Forall_insert_2.
Qed.

Lemma typed_set_threads f (Q : unit -> _ -> Prop) w :
  (forall m, map_Forall (fun _ => thread_typed) m -> map_Forall (fun _ => thread_typed) (f m)) ->
  (forall w', typed_step w w' -> Q tt w') -> wp any (set_threads f) Q w.
Proof. intros Hf HQ. apply wp_modify, HQ. apply typed_same; [done|apply Hf]. Qed.

Lemma threads_typed_update (g : AcceptThread -> AcceptThread) id (m : gmap N AcceptThread) :
  (forall t, thread_typed t -> thread_typed (g t)) ->
  map_Forall (fun _ => thread_typed) m ->
  map_Forall (fun _ => thread_typed) (match m !! id with Some t => <[id := g t]> m | None => m end).
Proof.
  intros Hg Hm. destruct (m !! id) as [t|] eqn:Hl; [|done]. apply map_Forall_insert_2; [|done].
  apply Hg. exact (Hm id t Hl).
Qed.

Lemma typed_stop_listener l (Q : unit -> _ -> Prop) w :
  (forall w', typed_step w w' -> Q tt w') -> wp any (stop_listener l) Q w.
Proof.
  intros HQ. unfold stop_listener. apply wp_bind, typed_set_threads.
  { intros m Hm. by apply (threads_typed_update set_at_stop). }
  intros w1 Hw1. apply wp_bind, typed_os. intros r w2 Hw2 _. unfold join_thread. do 2 wp_step.
  assert (Hw : typed_step w w2) by (by eapply typed_trans).
  destruct (_ !! ls_thread l) as [t|]; [|by apply wp_ret, HQ].
  case_match; [by apply wp_raise|]. apply typed_set_threads.
  - intros m Hm. by apply map_Forall_delete.
  - intros w3 Hw3. apply HQ. by eapply typed_trans.
Qed.

Lemma typed_world {B A} (m : M (TcpWorld os sock cph) A) (Q : A -> B * _ -> Prop) (h : B) w :
  wp any m (fun _ w' => typed_step w w') w ->
  (forall a w', typed_step w w' -> Q a (h, w')) -> wp any (on_world m) Q (h, w).
Proof. intros Hm HQ. apply wp_on_world. eapply wp_mono; [exact Hm|done|]. by apply HQ. Qed.

Lemma typed_softap {A} (m : ap -> M os A) (Q : A -> WifiHotspotBwuHandler ap * _ -> Prop) hot w :
  (forall a w', typed_step w w' -> Q a (hot, w')) -> wp any (on_softap m) Q (hot, w).
Proof.
  intros HQ. unfold on_softap. do 2 wp_step. apply typed_world; [|done]. by apply typed_os.
Qed.

Lemma typed_dial {B} addr s n m (Q : option StreamArc -> B * _ -> Prop) (h : B) w :
  medium_name m n -> (forall r w', typed_step w w' -> Q r (h, w')) -> wp any (dial addr s n m) Q (h, w).
Proof.
  intros Hmn HQ. unfold dial. apply wp_bind, typed_world; [by apply typed_os|].
  intros [stream|] w1 Hw1; [|by apply wp_ret, HQ].
  apply typed_world; [by apply typed_tcp_channel|]. intros r w2 Hw2. apply HQ. by eapply typed_trans.
Qed.

Lemma typed_accept id incoming w :
  wp any (accept_once id incoming) (fun _ w' => typed_step w w') w.
Proof.
  unfold accept_once. do 2 wp_step. destruct (tw_threads w !! id) as [t|] eqn:Ht;
    [|by apply wp_ret, typed_same].
  destruct (at_in_sink t); [by apply wp_ret, typed_same|].
  assert (Hend : wp any (set_threads (delete id);; mret None)
    (fun (_ : option (IncomingSocketConnection StreamArc)) w' => typed_step w w') w).
  { apply wp_bind, typed_set_threads; [intros m Hm; by apply map_Forall_delete|].
    intros w1 Hw1. by apply wp_ret. }
  destruct (at_stop t); [exact Hend|]. destruct incoming as [stream|]; [|exact Hend].
  apply wp_bind, wp_tcp_channel.
  - intros w' [Hth _] Hc. apply wp_ret, typed_same; [done|]. by rewrite Hth.
  - intros c w' Hth Hnew.
    assert (Hstep : typed_step w w').
    { eapply typed_new; [done|exact Hnew|]. intros [_ Htt]. exact (Htt id t Ht). }
    unfold set_threads. repeat wp_step. eapply typed_trans; [exact Hstep|].
    apply typed_same; [done|]. intros Htt. simpl. apply map_Forall_insert_2; [|done].
    rewrite (proj1 Hth) in Htt. exact (Htt id t Ht).
Qed.

Lemma typed_sink_returns id w :
  wp any (sink_returns id) (fun _ w' => typed_step w w') w.
Proof.
  apply typed_set_threads; [|done]. intros m Hm. by apply (threads_typed_update (set_at_in_sink false)).
Qed.

Lemma typed_channel_call w w' : channel_call w w' -> typed_step w w'.
Proof.
  intros Hc. pose proof (channel_call_threads w w' Hc) as [Ht _].
  apply channel_call_heap, call_keeps_channels in Hc as [Hk Hold]. split; [exact Hk|].
  intros [Hw Hth]. split; [|by rewrite Ht]. intros id s' Hs'.
  destruct (Hold id s' Hs') as [s Hs]. destruct (Hk id s Hs) as (s1 & Hs1 & Hfix).
  rewrite Hs' in Hs1. injection Hs1 as <-. eapply fixed_typed; [exact Hfix|]. exact (Hw id s Hs).
Qed.

Lemma lan_typed : medium_name WifiLan LAN_CHANNEL_NAME.
Proof. by left. Qed.

Lemma hotspot_typed : medium_name WifiHotspot HOTSPOT_CHANNEL_NAME.
Proof. by right. Qed.

#[local] Hint Resolve lan_typed hotspot_typed : core.

Lemma typed_lan_initialize c s ep lan w :
  wp any (lan_handle_initialize c s ep) (fun _ r => typed_step w r.2) (lan, w).
Proof.
  unfold lan_handle_initialize. do 2 wp_step. simpl. destruct (_ !! s); [by apply wp_ret, typed_same|].
  apply wp_bind, typed_world; [by apply typed_start_listener|].
  intros [l|] w1 Hw1; unfold lan_listeners; by repeat wp_step.
Qed.

Lemma typed_hotspot_initialize c s ep hot w :
  wp any (hotspot_handle_initialize c s ep) (fun _ r => typed_step w r.2) (hot, w).
Proof.
  unfold hotspot_handle_initialize. do 2 wp_step. simpl. destruct (_ !! s); [by apply wp_ret, typed_same|].
  apply wp_bind, typed_softap. intros [creds|] w1 Hw1; [|by apply wp_ret].
  apply wp_bind, typed_world; [by apply typed_start_listener|].
  intros [l|] w2 Hw2; unfold hotspot_listeners.
  - repeat wp_step. by eapply typed_trans.
  - apply wp_bind, typed_softap. intros [] w3 Hw3. apply wp_ret. by eapply typed_trans, typed_trans.
Qed.

(** Every step of a device is typed. *)
Lemma device_step_typed d r d' : device_step d r d' -> typed_step d.(dv_world) d'.(dv_world).
Proof.
  intros Hstep.
  destruct Hstep as [c s ep frame lan lan' hot w w' Hr|s lan lan' hot w w' Hr
    |c s ep info r lan lan' hot w w' Hr|c s ep frame lan hot hot' w w' Hr|s lan hot hot' w w' Hr
    |c s ep info r lan hot hot' w w' Hr|c ep lan hot hot' w w' Hr|id incoming r lan hot w w' Hr
    |id lan hot w w' Hr|lan hot w w' Hc]; simpl.
  - exact (returned _ _ _ _ _ Hr (typed_lan_initialize c s ep lan w)).
  - apply (returned _ (fun _ r => typed_step w r.2) _ _ _ Hr).
    unfold lan_handle_revert, lan_listeners. do 2 wp_step. simpl.
    destruct (_ !! s); [|by apply wp_ret, typed_same].
    do 2 wp_step. apply typed_world; [by apply typed_stop_listener|done].
  - apply (returned _ (fun _ r => typed_step w r.2) _ _ _ Hr).
    unfold lan_create_upgraded_endpoint_channel. destruct (lan_target info); [|by apply wp_ret, typed_same].
    by apply typed_dial.
  - exact (returned _ _ _ _ _ Hr (typed_hotspot_initialize c s ep hot w)).
  - apply (returned _ (fun _ r => typed_step w r.2) _ _ _ Hr).
    unfold hotspot_handle_revert, hotspot_listeners. do 2 wp_step. simpl.
    destruct (_ !! s); [|by apply wp_ret, typed_same].
    do 3 wp_step. apply typed_world; [by apply typed_stop_listener|]. intros [] w1 Hw1.
    apply typed_softap. intros [] w2 Hw2. by eapply typed_trans.
  - apply (returned _ (fun _ r => typed_step w r.2) _ _ _ Hr).
    unfold hotspot_create_upgraded_endpoint_channel.
    destruct (hotspot_target info) as [[creds addr]|]; [|by apply wp_ret, typed_same].
    apply wp_bind, typed_softap. intros [] w1 Hw1; [|by apply wp_ret].
    apply typed_dial; [done|]. intros r' w2 Hw2. by eapply typed_trans.
  - apply (returned _ (fun _ r => typed_step w r.2) _ _ _ Hr). by apply typed_softap.
  - exact (returned _ _ _ _ _ Hr (typed_accept id incoming w)).
  - exact (returned _ _ _ _ _ Hr (typed_sink_returns id w)).
  - by apply typed_channel_call.
Qed.

Lemma reachable_typed o d : device_reachable o d -> world_typed d.(dv_world).
Proof.
  intros (bind_ip & advertise_ip & softap & Hsteps).
  assert (Hstart : world_typed (dv_world (device_start (sock := sock) (cph := cph) bind_ip advertise_ip softap o)))
    by (split; apply map_Forall_empty).
  induction Hsteps as [|d1 d2 d3 [r Hstep] _ IH]; [done|]. apply IH.
  by apply (device_step_typed _ _ _ Hstep).
Qed.
End typed.

(** * Properties *)

(** C22. The channels of a device are typed: over any run every channel is named
    after its medium and has the reader's limit it was made with, every accept
    thread makes channels of such a type, and a step never loses a channel nor
    changes its medium, its service, its name or its limit. *)
Theorem channels_typed {os sock lsn cph ap} `{TcpOsLaws os sock lsn} `{SoftAp os ap} `{Cipher os cph}
    `{Codec} (o : os) (d d' : TcpDevice os sock cph ap) (r : option StreamArc) :
  device_reachable o d -> device_step d r d' ->
  world_typed d'.(dv_world) /\ channels_stay d.(dv_world) d'.(dv_world).
Proof.
  intros Hreach%reachable_typed Hstep. destruct (device_step_typed _ _ _ Hstep) as [Hs Ht].
  split; [by apply Ht|exact Hs].
Qed.

Lemma channels_typed_witness :
  device_reachable Loopback_empty lo_device /\
  size lo_accepted_device.(dv_world).(tw_heap).(sh_channels) = 1 /\
  world_typed lo_accepted_device.(dv_world) /\
  channels_stay lo_device.(dv_world) lo_accepted_device.(dv_world).
Proof.
  split; [exact lo_device_reachable|]. split; [vm_compute; reflexivity|].
  exact (channels_typed _ _ _ _ lo_device_reachable lo_accept_step).
Defined.
