(* ===== verification/Observed.v ===== *)
(** What an observer of a device's SoftAP sees: the hotspots that are up are those
    that the handler has a listener for. *)

From Stdlib Require Import ZArith NArith Lia.
From stdpp Require Import relations.
From S2P Require Import Prelude.
From S2P Require Import Mediums.
From S2P Require Import Proto.
From S2P Require Import Codec.
From S2P Require Import Frames.
From S2P Require Import Client.
From S2P Require Import Channel.
From S2P Require Import Handler.
From S2P Require Import StreamChannel.
From S2P Require Import Utf8.
From S2P Require Import Validator.
From S2P Require Import ValidatorSpec.
From S2P Require Import FromBytes.
From S2P Require Import RoundTrip.
From S2P Require Import Ipv4.
From S2P Require Import Tcp.
From S2P Require Import WifiLan.
From S2P Require Import WifiHotspot.
From S2P Require Import StreamSteps.
From S2P Require Import TcpSteps.
From S2P Require Import Loopback.
From S2P Require Import Network.

(** * Definitions *)

Record Logged (os : Type) : Type := mkLogged { lg_os : os; lg_events : list inner_event }.
Arguments mkLogged {os} _ _.
Arguments lg_os {os} _.
Arguments lg_events {os} _.

(** A call on the platform below, with the events it adds. *)
Definition logging {os A} (event : A -> list inner_event) (m : M os A) : M (Logged os) A := fun s =>
  match m s.(lg_os) with
  | Ret (a, o) => Ret (a, mkLogged o (s.(lg_events) ++ event a))
  | Fault f => Fault f
  end.

Section logged.
Context {os sock lsn ap : Type} `{TcpOs os sock lsn} `{SoftAp os ap}.

Definition silent {A} (_ : A) : list inner_event := [].

#[export] Instance Logged_TcpOs : TcpOs (Logged os) sock lsn := {|
  os_try_clone s := logging silent (os_try_clone s);
  os_read_exact s n := logging silent (os_read_exact s n);
  os_write_all s bs := logging silent (os_write_all s bs);
  os_flush s := logging silent (os_flush s);
  os_shutdown s := logging silent (os_shutdown s);
  os_bind a := logging silent (os_bind a);
  os_local_addr l := logging silent (os_local_addr l);
  os_connect a := logging silent (os_connect a);
  os_accept_ready a o := os_accept_ready a o.(lg_os);
|}.

#[export] Instance Logged_SoftAp : SoftAp (Logged os) ap := {|
  sa_start a s := logging (fun r => [InnerInitialize s "" (is_some r)]) (sa_start a s);
  sa_connect_as_sta a c := logging silent (sa_connect_as_sta a c);
  sa_stop a s := logging (fun _ => [InnerRevert s]) (sa_stop a s);
  sa_disconnect_sta a := logging silent (sa_disconnect_sta a);
  sa_is_connected_to_hotspot a o := sa_is_connected_to_hotspot a o.(lg_os);
|}.

#[export] Instance Logged_Cipher {cph} `{Cipher os cph} : Cipher (Logged os) cph := {|
  ci_encode k p := logging silent (ci_encode k p);
  ci_decode k p := logging silent (ci_decode k p);
|}.
End logged.

(** * Lemmas *)

(** Which calls the observer sees. *)
Section observed.
Context {os sock lsn cph ap : Type} `{TcpOsLaws os sock lsn} `{SoftAp os ap} `{Cipher os cph} `{Codec}.
Implicit Types (d : TcpDevice (Logged os) sock cph ap) (w : TcpWorld (Logged os) sock cph)
  (hot : WifiHotspotBwuHandler ap) (t : list inner_event).

#[export] Instance Logged_laws : TcpOsLaws (Logged os) sock lsn.
Proof.
  split.
  - intros l o a o'. simpl. unfold runs_to, logging.
    destruct (os_local_addr l (lg_os o)) as [[a' o1]|f] eqn:Ha; [|done]. intros [= -> _].
    by eapply os_port_ok.
  - intros a o s o'. simpl. unfold runs_to, logging.
    destruct (os_connect a (lg_os o)) as [[s' o1]|f] eqn:Ha; [|done]. intros [= -> <-]. simpl.
    by eapply os_connected_ready.
Qed.

Lemma logging_events {A} (event : A -> list inner_event) (m : M os A) (Q : A -> _ -> Prop) s :
  (forall a o, Q a (mkLogged o (s.(lg_events) ++ event a))) -> wp any (logging event m) Q s.
Proof. intros HQ. unfold wp, logging. by destruct (m _) as [[a o]|f]. Qed.

Lemma silent_events {A} (m : M os A) t s :
  s.(lg_events) = t -> wp any (logging silent m) (fun _ s' => s'.(lg_events) = t) s.
Proof. intros <-. apply logging_events. intros a o. simpl. apply app_nil_r. Qed.

#[local] Instance logged_sockets t : TcpOsKeeps (Logged os) sock lsn any (fun s => s.(lg_events) = t).
Proof. split; intros; by apply silent_events. Qed.

#[local] Instance logged_ciphers t : CipherKeeps (Logged os) cph any (fun s => s.(lg_events) = t).
Proof. split; intros; by apply silent_events. Qed.

(** The events so far. *)
Definition events w : list inner_event := w.(tw_heap).(sh_env).(lg_events).

Lemma wp_quiet {A} (m : M (TcpWorld (Logged os) sock cph) A) (Q : A -> _ -> Prop) w :
  (forall t, world_keeps any (fun s => s.(lg_events) = t) m) ->
  (forall a w', events w' = events w -> Q a w') -> wp any m Q w.
Proof. intros Hm HQ. eapply wp_mono; [by apply (Hm (events w))|done|]. intros a w' Hw. by apply HQ. Qed.

Lemma wp_quiet_world {B A} (m : M (TcpWorld (Logged os) sock cph) A) (Q : A -> B * _ -> Prop) (h : B) w :
  (forall t, world_keeps any (fun s => s.(lg_events) = t) m) ->
  (forall a w', events w' = events w -> Q a (h, w')) -> wp any (on_world m) Q (h, w).
Proof. intros Hm HQ. apply wp_on_world. by apply wp_quiet. Qed.

(** The calls on sockets and threads are quiet. *)
Ltac quiet_call :=
  intros ?;
  first [eapply start_listener_keeps|eapply stop_listener_keeps|eapply accept_once_keeps];
  first [apply logged_sockets|done].

Lemma quiet_softap {A} (m : ap -> M os A) (Q : A -> WifiHotspotBwuHandler ap * _ -> Prop) hot w :
  (forall a w', events w' = events w -> Q a (hot, w')) ->
  wp any (on_softap (fun a => logging silent (m a))) Q (hot, w).
Proof.
  intros HQ. unfold on_softap. do 2 wp_step. apply wp_quiet_world; [|done].
  intros t w1 Hw1. apply (wp_os any (fun s => s.(lg_events) = t)); [by apply silent_events|done].
Qed.

Lemma logged_softap {A} (event : A -> list inner_event) (m : ap -> M os A)
    (Q : A -> WifiHotspotBwuHandler ap * _ -> Prop) hot w :
  (forall a w', events w' = events w ++ event a -> Q a (hot, w')) ->
  wp any (on_softap (fun a => logging event (m a))) Q (hot, w).
Proof.
  intros HQ. unfold on_softap. do 2 wp_step. apply wp_on_world. unfold wp, on_os, logging.
  destruct (m _ _) as [[a o]|f]; [|done]. by apply HQ.
Qed.

Lemma quiet_dial {B} addr s n m (Q : option StreamArc -> B * _ -> Prop) (h : B) w :
  (forall r w', events w' = events w -> Q r (h, w')) -> wp any (dial addr s n m) Q (h, w).
Proof.
  intros HQ. eapply wp_mono.
  - by apply (dial_keeps any (fun s => s.(lg_events) = events w)).
  - done.
  - intros r [h' w'] [Heq Hw]. simpl in Heq, Hw. subst h'. by apply HQ.
Qed.

(** The SoftAP of a service is up exactly while the service has a listener. *)
Definition observed (listeners : gmap string HotspotListener) t : Prop :=
  forall service_id, service_up service_id false t = Some (is_some (listeners !! service_id)).

Lemma observed_start listeners t s l :
  listeners !! s = None -> observed listeners t ->
  observed (<[s := l]> listeners) (t ++ [InnerInitialize s "" true]).
Proof.
  intros Hs Ho s'. rewrite service_up_app, Ho. simpl. destruct (decide (s = s')) as [<-|Hne].
  - by rewrite Hs, bool_decide_true, lookup_insert_eq.
  - rewrite bool_decide_false, lookup_insert_ne by done. by rewrite orb_false_r.
Qed.

Lemma observed_refused listeners t s :
  observed listeners t -> observed listeners (t ++ [InnerInitialize s "" false]).
Proof. intros Ho s'. rewrite service_up_app, Ho. simpl. by rewrite andb_false_r, orb_false_r. Qed.

Lemma observed_stop listeners t s l :
  listeners !! s = Some l -> observed listeners t -> observed (delete s listeners) (t ++ [InnerRevert s]).
Proof.
  intros Hs Ho s'. rewrite service_up_app, Ho. simpl. destruct (decide (s = s')) as [<-|Hne].
  - by rewrite Hs, lookup_delete_eq.
  - by rewrite lookup_delete_ne.
Qed.

Lemma observed_initialize c s ep hot w :
  observed hot.(wh_listeners) (events w) ->
  wp any (hotspot_handle_initialize c s ep)
    (fun _ r => observed r.1.(wh_listeners) (events r.2)) (hot, w).
Proof.
  intros Ho. unfold hotspot_handle_initialize. do 2 wp_step. simpl.
  destruct (wh_listeners hot !! s) as [l|] eqn:Hl; [by apply wp_ret|].
  apply wp_bind, logged_softap. intros [creds|] w1 Hw1.
  2: { apply wp_ret. simpl. rewrite Hw1. by apply observed_refused. }
  apply wp_bind, wp_quiet_world; [quiet_call|].
  intros [lst|] w2 Hw2.
  - unfold hotspot_listeners. repeat wp_step. simpl. rewrite Hw2, Hw1. by apply observed_start.
  - apply wp_bind, logged_softap. intros [] w3 Hw3. apply wp_ret. simpl. rewrite Hw3, Hw2, Hw1.
    rewrite <-(delete_id (wh_listeners hot) s Hl), <-(delete_insert_eq (wh_listeners hot) s
      (mkHotspotListener (mkListener (mkSocketAddr LOCALHOST 0) 0) creds)).
    eapply observed_stop; [apply lookup_insert_eq|]. by apply observed_start.
Qed.

Lemma observed_revert s hot w :
  observed hot.(wh_listeners) (events w) ->
  wp any (hotspot_handle_revert s) (fun _ r => observed r.1.(wh_listeners) (events r.2)) (hot, w).
Proof.
  intros Ho. unfold hotspot_handle_revert. do 2 wp_step. simpl.
  destruct (wh_listeners hot !! s) as [l|] eqn:Hl; [|by apply wp_ret].
  unfold hotspot_listeners. do 3 wp_step.
  apply wp_quiet_world; [quiet_call|]. intros [] w1 Hw1.
  apply logged_softap. intros [] w2 Hw2. simpl in *. rewrite Hw2, Hw1. by eapply observed_stop.
Qed.

(** Every other step is silent and leaves the records of the hotspots. *)
Lemma observed_step d r d' :
  device_step d r d' -> observed d.(dv_hotspot).(wh_listeners) (events d.(dv_world)) ->
  observed d'.(dv_hotspot).(wh_listeners) (events d'.(dv_world)).
Proof.
  intros Hstep Ho.
  destruct Hstep as [c s ep frame lan lan' hot w w' Hr|s lan lan' hot w w' Hr
    |c s ep info r lan lan' hot w w' Hr|c s ep frame lan hot hot' w w' Hr|s lan hot hot' w w' Hr
    |c s ep info r lan hot hot' w w' Hr|c ep lan hot hot' w w' Hr|id incoming r lan hot w w' Hr
    |id lan hot w w' Hr|lan hot w w' Hc]; simpl in *.
  - assert (events w' = events w) as ->; [|done].
    apply (returned _ (fun _ r => events r.2 = events w) _ _ _ Hr).
    unfold lan_handle_initialize. do 2 wp_step. destruct (_ !! s); [by apply wp_ret|].
    apply wp_bind, wp_quiet_world; [quiet_call|].
    intros [l|] w1 Hw1; unfold lan_listeners; by repeat wp_step.
  - assert (events w' = events w) as ->; [|done].
    apply (returned _ (fun _ r => events r.2 = events w) _ _ _ Hr).
    unfold lan_handle_revert, lan_listeners. do 2 wp_step. destruct (_ !! s); [|by apply wp_ret].
    do 2 wp_step. apply wp_quiet_world; [quiet_call|done].
  - assert (events w' = events w) as ->; [|done].
    apply (returned _ (fun _ r => events r.2 = events w) _ _ _ Hr).
    unfold lan_create_upgraded_endpoint_channel. destruct (lan_target info); [|by apply wp_ret].
    by apply quiet_dial.
  - exact (returned _ _ _ _ _ Hr (observed_initialize c s ep hot w Ho)).
  - exact (returned _ _ _ _ _ Hr (observed_revert s hot w Ho)).
  - apply (returned _ (fun _ r => observed r.1.(wh_listeners) (events r.2)) _ _ _ Hr).
    unfold hotspot_create_upgraded_endpoint_channel.
    destruct (hotspot_target info) as [[creds addr]|]; [|by apply wp_ret].
    apply wp_bind, quiet_softap. intros [] w1 Hw1.
    + apply quiet_dial. intros r' w2 Hw2. simpl. by rewrite Hw2, Hw1.
    + apply wp_ret. simpl. by rewrite Hw1.
  - apply (returned _ (fun _ r => observed r.1.(wh_listeners) (events r.2)) _ _ _ Hr).
    apply quiet_softap. intros [] w1 Hw1. simpl. by rewrite Hw1.
  - assert (events w' = events w) as ->; [|done].
    apply (returned _ (fun _ w' => events w' = events w) _ _ _ Hr).
    apply wp_quiet; [quiet_call|done].
  - assert (events w' = events w) as ->; [|done]. by injection Hr as <-.
  - assert (events w' = events w) as ->; [|done].
    apply (channel_call_keeps any (fun s => s.(lg_events) = events w) I _ _ (channel_call_heap _ _ Hc)).
    done.
Qed.

Lemma observed_steps d d' :
  rtc (fun d d' => exists r, device_step d r d') d d' ->
  observed d.(dv_hotspot).(wh_listeners) (events d.(dv_world)) ->
  observed d'.(dv_hotspot).(wh_listeners) (events d'.(dv_world)).
Proof.
  induction 1 as [|d1 d2 d3 [r Hstep] _ IH]; [done|]. intros Ho. apply IH. by eapply observed_step.
Qed.
End observed.

(** * Properties *)

(** C20. What reaches the SoftAP is well bracketed: over any run of a device a
    hotspot is never started while it is up and never stopped while it is down,
    and at every moment the services whose hotspot is up are exactly those that
    the handler has a listener for, also when a listener could not be bound: no
    hotspot outlives its listener. *)
Theorem softap_well_bracketed {os sock lsn cph ap} `{TcpOsLaws os sock lsn} `{SoftAp os ap}
    `{Cipher os cph} `{Codec} (o : os) (d : TcpDevice (Logged os) sock cph ap) (service_id : string) :
  device_reachable (mkLogged o []) d ->
  service_up service_id false (events d.(dv_world)) =
  Some (is_some (d.(dv_hotspot).(wh_listeners) !! service_id)).
Proof.
  intros (bind_ip & advertise_ip & softap & Hsteps). eapply observed_steps; [exact Hsteps|].
  intros s. simpl. by rewrite lookup_empty.
Qed.

(** A hotspot that is started, and stopped again. *)
Definition logged_start : TcpDevice (Logged Loopback) N Empty_set FakeSoftAp :=
  device_start LOCALHOST LOCALHOST FakeSoftAp_new (mkLogged Loopback_empty []).

Definition logged_initialize :
    M (WifiHotspotBwuHandler FakeSoftAp * TcpWorld (Logged Loopback) N Empty_set) bytes :=
  hotspot_handle_initialize lo_client "A_UPGRADE" "EP".

Definition logged_up : WifiHotspotBwuHandler FakeSoftAp * TcpWorld (Logged Loopback) N Empty_set :=
  state_of (logged_initialize (logged_start.(dv_hotspot), logged_start.(dv_world)))
    (logged_start.(dv_hotspot), logged_start.(dv_world)).

Definition logged_down : WifiHotspotBwuHandler FakeSoftAp * TcpWorld (Logged Loopback) N Empty_set :=
  state_of (hotspot_handle_revert "A_UPGRADE" logged_up) logged_up.

Lemma softap_well_bracketed_witness :
  events logged_up.2 = [InnerInitialize "A_UPGRADE" "" true] /\
  service_up "A_UPGRADE" false (events logged_up.2) = Some true /\
  events logged_down.2 = [InnerInitialize "A_UPGRADE" "" true; InnerRevert "A_UPGRADE"] /\
  service_up "A_UPGRADE" false (events logged_down.2) = Some false.
Proof.
  assert (Hup : device_step logged_start None (mkDevice logged_start.(dv_lan) logged_up.1 logged_up.2)).
  { eapply (step_hotspot_initialize lo_client "A_UPGRADE" "EP"). vm_compute. reflexivity. }
  assert (Hdown : device_step (mkDevice logged_start.(dv_lan) logged_up.1 logged_up.2) None
    (mkDevice logged_start.(dv_lan) logged_down.1 logged_down.2)).
  { eapply (step_hotspot_revert "A_UPGRADE"). vm_compute. reflexivity. }
  split; [vm_compute; reflexivity|]. split; [|split; [vm_compute; reflexivity|]].
  - eapply eq_trans.
    + apply (softap_well_bracketed Loopback_empty
        (mkDevice logged_start.(dv_lan) logged_up.1 logged_up.2)).
      exists LOCALHOST, LOCALHOST, FakeSoftAp_new. apply rtc_once. exists None. exact Hup.
    + vm_compute. reflexivity.
  - eapply eq_trans.
    + apply (softap_well_bracketed Loopback_empty
        (mkDevice logged_start.(dv_lan) logged_down.1 logged_down.2)).
      exists LOCALHOST, LOCALHOST, FakeSoftAp_new. eapply rtc_l; [exists None; exact Hup|].
      apply rtc_once. exists None. exact Hdown.
    + vm_compute. reflexivity.
Defined.
