(* ===== verification/Owner.v ===== *)
(** What the owner of [src/bwu/actor.rs] promises: its timers are exactly the
    pending retries, commands are applied one at a time in their order, and timers
    do not starve them. *)

From Stdlib Require Import ZArith Lia.
From S2P Require Import Prelude.
From S2P Require Import Mediums.
From S2P Require Import Proto.
From S2P Require Import Codec.
From S2P Require Import Frames.
From S2P Require Import ServiceId.
From S2P Require Import Client.
From S2P Require Import Channel.
From S2P Require Import ChannelManager.
From S2P Require Import Handler.
From S2P Require Import Testing.
From S2P Require Import Manager.
From S2P Require Import Scenario.
From S2P Require Import ManagerSteps.
From S2P Require Import Actor.
From S2P Require Import Invariant.

(** * Definitions *)

(** The timers after a reconciliation at [now]: one for each pending retry,
    with the deadline it had, or its delay from now. *)
Definition reconciled (now : Z) (alarms armed : gmap string Z) : gmap string Z :=
  merge (fun delay deadline =>
           match delay with Some d => Some (default (now + d)%Z deadline) | None => None end)
    alarms armed.

(** The timers that an iteration at [now] leaves to the reconciliation. *)
Definition not_fired (now : Z) (armed : gmap string Z) : gmap string Z :=
  filter (fun p => ~ (p.2 <= now)%Z) armed.

(** The pending retries of the manager. *)
Definition alarms_of {H env chan} (s : BwuActor H env chan) : gmap string Z :=
  s.(act_world).(w_mgr).(retry_upgrade_alarms).

(** A timer for each pending retry, and no other. *)
Definition timers_match {H env chan} (s : BwuActor H env chan) : Prop :=
  dom s.(act_armed) = dom (alarms_of s).

(** The commands among the works, in their order. *)
Definition commands_of {chan} (ks : list (work chan)) : list (BwuCommand chan) :=
  omap (fun k => match k with Apply cmd => Some cmd | Fire _ => None end) ks.

(** The work of an iteration at [now], and how it ends. *)
Definition iteration_works {chan} (now : Z) (armed : gmap string Z) (recv : recv_state chan)
    : list (work chan) :=
  match due_endpoints now armed with
  | [] => match recv with RecvCommand cmd => [Apply cmd] | _ => [] end
  | due => Fire <$> due
  end.

Definition iteration_end {chan} (now : Z) (armed : gmap string Z) (recv : recv_state chan)
    : iteration :=
  match due_endpoints now armed, recv with
  | [], RecvClosed | [], RecvCommand ShutdownCommand => LoopBreak
  | [], RecvCommand _ => LoopConsumed
  | _, _ => LoopKept
  end.

(** The timers it leaves, when the work left these retries pending. *)
Definition iteration_timers {chan} (now now' : Z) (recv : recv_state chan)
    (alarms armed : gmap string Z) : gmap string Z :=
  match iteration_works now armed recv, iteration_end now armed recv with
  | [], _ | _, LoopBreak => armed
  | _, _ => reconciled now' alarms (not_fired now armed)
  end.

(** The clock leaves room for the longest delay. *)
Definition clock_ok {chan} (instant_max longest : Z) (t : tick chan) : Prop :=
  (t.(tick_now) <= t.(tick_after) /\ t.(tick_after) + longest <= instant_max)%Z.

(** The timers that are due before an instant, and the iterations of a stretch of
    time: what they see is before its end, and they reconcile after its start. *)
Definition due_before (horizon : Z) (armed : gmap string Z) : gmap string Z :=
  filter (fun p => (p.2 < horizon)%Z) armed.

Definition in_stretch {chan} (from len : Z) (t : tick chan) : Prop :=
  (from <= t.(tick_after) /\ t.(tick_now) < from + len)%Z.

(** The state of a running owner. *)
Definition owner_ok {H env chan} (c0 : BwuConfig) (s : BwuActor H env chan) : Prop :=
  wf_world c0 s.(act_world) /\ timers_match s.

(** * Lemmas *)

Section timers.
Context {H env chan : Type} `{EndpointChannel env chan} `{BwuHandler H env chan} `{Codec}.
Context (fuel : nat) (instant_max : Z).
Implicit Types s : BwuActor H env chan.

Lemma wp_world_op {A} E (m : M (World H env chan) A) (Q : A -> _ -> Prop) s :
  wp E m (fun a w => Q a (mkBwuActor w s.(act_armed))) s.(act_world) -> wp E (world_op m) Q s.
Proof. unfold wp, world_op. by destruct (m _) as [[a w]|f]. Qed.

Lemma wp_set_armed E f (Q : unit -> _ -> Prop) s :
  Q tt (mkBwuActor s.(act_world) (f s.(act_armed))) -> wp E (set_armed f) Q s.
Proof. done. Qed.

(** Every pending endpoint without a timer gets its delay from now. *)
Lemma wp_arm_pending E now pending (Q : unit -> _ -> Prop) s :
  NoDup pending.*1 ->
  (forall ep d, (ep, d) ∈ pending -> s.(act_armed) !! ep = None ->
     (now + d <= instant_max)%Z \/ E Panicked) ->
  (forall armed,
     (forall ep, armed !! ep =
        match s.(act_armed) !! ep with
        | Some t => Some t
        | None => (fun d => now + d)%Z <$> ((list_to_map pending : gmap string Z) !! ep)
        end) ->
     Q tt (mkBwuActor s.(act_world) armed)) ->
  wp E (arm_pending instant_max now pending) Q s.
Proof.
  revert s. induction pending as [|[ep d] pending IH]; intros s Hnd Hmax HQ.
  - destruct s as [w armed]. apply wp_ret, HQ. intros ep. simpl.
    by destruct (armed !! ep).
  - cbn [arm_pending]. simpl in Hnd. apply NoDup_cons in Hnd as [Hnin Hnd]. do 3 wp_step.
    destruct (s.(act_armed) !! ep) as [t|] eqn:Ht; simpl.
    + wp_step. apply IH; [done|by intros; apply (Hmax ep0 d0); [right|]|].
      intros armed Ha. apply HQ. intros ep'. rewrite Ha, list_to_map_cons.
      destruct (s.(act_armed) !! ep') eqn:Ht'; [done|].
      by rewrite lookup_insert_ne by congruence.
    + destruct (Z.leb_spec (now + d)%Z instant_max) as [Hle|Hgt].
      * apply wp_set_armed. apply IH; [done| |].
        { intros ep' d' Hin Hl. simpl in Hl. apply lookup_insert_None in Hl as [Hl _].
          apply (Hmax ep' d'); [by right|done]. }
        intros armed Ha. apply HQ. intros ep'. rewrite Ha, list_to_map_cons. simpl.
        destruct (decide (ep = ep')) as [<-|Hne]; [by rewrite !lookup_insert_eq, Ht|].
        by rewrite !lookup_insert_ne by done.
      * apply wp_raise. destruct (Hmax ep d) as [Hle|HE]; [left|done|lia|done].
Qed.

Lemma wp_reconcile E now (Q : unit -> _ -> Prop) s :
  (forall ep d, alarms_of s !! ep = Some d -> s.(act_armed) !! ep = None ->
     (now + d <= instant_max)%Z \/ E Panicked) ->
  Q tt (mkBwuActor s.(act_world) (reconciled now (alarms_of s) s.(act_armed))) ->
  wp E (reconcile_timers instant_max now) Q s.
Proof.
  intros Hmax HQ. unfold reconcile_timers, pending_retry_delays. wp_step.
  apply wp_world_op. unfold mgr. apply wp_gets. wp_step. apply wp_set_armed.
  apply wp_arm_pending; simpl.
  - apply NoDup_fst_map_to_list.
  - intros ep d Hin%elem_of_map_to_list Hl. apply (Hmax ep d Hin).
    destruct (act_armed s !! ep) as [t|] eqn:Ht; [|done]. exfalso.
    rewrite map_lookup_filter, Ht in Hl. simpl in Hl.
    rewrite option_guard_True in Hl; [done|].
    apply list_elem_of_fmap. exists (ep, d). split; [done|]. by apply elem_of_map_to_list.
  - intros armed Ha. destruct s as [w armed0]. simpl in *.
    assert (armed = reconciled now (retry_upgrade_alarms (w_mgr w)) armed0) as ->; [|done].
    apply map_eq. intros ep. rewrite Ha. unfold reconciled. rewrite lookup_merge.
    rewrite list_to_map_to_list, map_lookup_filter.
    destruct (retry_upgrade_alarms (w_mgr w) !! ep) as [d|] eqn:Hd; simpl.
    + destruct (armed0 !! ep) as [t|] eqn:Ht; simpl; [|done].
      rewrite option_guard_True; [done|].
      apply list_elem_of_fmap. exists (ep, d). split; [done|]. by apply elem_of_map_to_list.
    + destruct (armed0 !! ep) as [t|]; simpl; [|done]. rewrite option_guard_False; [done|].
      intros Hin. apply list_elem_of_fmap in Hin as ([ep' d] & -> & Hin%elem_of_map_to_list).
      simpl in *. congruence.
Qed.

(** ** An iteration *)

(** Firing is the work of the timers, and disarms them. *)
Lemma fire_each_works due s :
  fire_each fuel due s =
  match run_works fuel (Fire <$> due) s.(act_world) with
  | Ret (_, w) => Ret (tt, mkBwuActor w (foldl (fun m ep => delete ep m) s.(act_armed) due))
  | Fault f => Fault f
  end.
Proof.
  revert s. induction due as [|ep due IH]; intros s; [by destruct s|].
  simpl. unfold mbind, M_bind, set_armed, modify, world_op. simpl.
  destruct (fire_retry_alarm fuel ep _) as [[[] w]|f]; [|done]. by rewrite IH.
Qed.

Lemma delete_due now armed :
  foldl (fun m ep => delete ep m) armed (due_endpoints now armed) = not_fired now armed.
Proof.
  assert (Hd : forall l (m : gmap string Z) ep,
    foldl (fun m ep => delete ep m) m l !! ep = if decide (ep ∈ l) then None else m !! ep).
  { induction l as [|x l IH]; intros m ep; [done|]. simpl. rewrite IH.
    destruct (decide (ep = x)) as [->|Hne].
    - rewrite lookup_delete_eq. rewrite (decide_True (P := x ∈ x :: l)) by (by left).
      by destruct (decide _).
    - rewrite lookup_delete_ne by done. apply decide_ext. rewrite elem_of_cons.
      split; [by right|by intros [?|?]]. }
  apply map_eq. intros ep. rewrite Hd. unfold not_fired. rewrite map_lookup_filter.
  assert (Hin : ep ∈ due_endpoints now armed <-> exists t, armed !! ep = Some t /\ (t <= now)%Z).
  { unfold due_endpoints. rewrite list_elem_of_fmap. split.
    - intros ([ep' t] & -> & Hin%elem_of_map_to_list).
      apply map_lookup_filter_Some in Hin as [Hl Ht]. by exists t.
    - intros (t & Hl & Ht). exists (ep, t). split; [done|]. apply elem_of_map_to_list.
      by apply map_lookup_filter_Some. }
  destruct (decide _) as [Hdue|Hno]; destruct (armed !! ep) as [t|] eqn:Ht; simpl; try done.
  - rewrite option_guard_False; [done|]. apply Hin in Hdue as (t' & Heq & ?).
    intros Hn. apply Hn. simpl in *. congruence.
  - rewrite option_guard_True; [done|]. simpl. intros Hle. apply Hno, Hin. by exists t.
Qed.
Lemma none_due_not_fired now armed : due_endpoints now armed = [] -> not_fired now armed = armed.
Proof. intros Hd. by rewrite <-delete_due, Hd. Qed.

(** A single command as work. *)
Lemma wp_works_command E cmd (Q : World H env chan -> Prop) w :
  wp E (run_works fuel [Apply cmd]) (fun _ => Q) w ->
  match cmd with
  | ShutdownCommand => wp E shutdown (fun _ => Q) w
  | _ => wp E (handle fuel cmd) (fun _ => Q) w
  end.
Proof.
  intros Hw. unfold wp, run_works, do_work, mbind, M_bind in *.
  destruct cmd; match goal with |- match ?x with _ => _ end => by destruct x as [[[] ?]|?] end.
Qed.

(** An iteration does its work, ends as it should, and leaves the timers of
    the pending retries. *)
Lemma wp_iteration E now now' recv (Q : iteration -> _ -> Prop) s :
  wp E (run_works fuel (iteration_works now s.(act_armed) recv))
    (fun _ w =>
       (forall ep d, w.(w_mgr).(retry_upgrade_alarms) !! ep = Some d ->
          (now' + d <= instant_max)%Z \/ E Panicked) /\
       Q (iteration_end now s.(act_armed) recv)
         (mkBwuActor w (iteration_timers now now' recv w.(w_mgr).(retry_upgrade_alarms)
                          s.(act_armed)))) s.(act_world) ->
  wp E (run_iteration fuel instant_max now now' recv) Q s.
Proof.
  intros Hw. unfold run_iteration, timer_elapsed, iteration_timers, iteration_works, iteration_end
    in *. do 2 wp_step.
  destruct (due_endpoints now (act_armed s)) as [|ep due] eqn:Hdue; cbn [is_nil negb].
  - pose proof (none_due_not_fired _ _ Hdue) as Hnf. destruct recv as [| |cmd].
    + destruct s. apply wp_ret. by destruct Hw.
    + destruct s. apply wp_ret. by destruct Hw.
    + apply wp_works_command in Hw. rewrite Hnf in Hw.
      destruct cmd;
        (wp_step; apply wp_world_op; eapply wp_mono; [exact Hw|done|]; intros r w [Hmax HQ];
         first [by apply wp_ret
               |wp_step; apply wp_reconcile; [by intros ep d Hl _; apply (Hmax ep d)|by apply wp_ret]]).
  - wp_step. unfold fire_due_retries. do 2 wp_step. rewrite Hdue. wp_step. unfold wp at 1.
    rewrite fire_each_works. unfold wp in Hw.
    destruct (run_works fuel _ _) as [[[] w]|f]; [|done]. destruct Hw as [Hmax HQ].
    apply wp_reconcile; [by intros ep' d Hl _; apply (Hmax ep' d)|]. apply wp_ret.
    rewrite <-Hdue, delete_due. exact HQ.
Qed.
End timers.

Lemma reconciled_lookup now alarms armed ep :
  reconciled now alarms armed !! ep =
  match alarms !! ep with Some d => Some (default (now + d)%Z (armed !! ep)) | None => None end.
Proof.
  unfold reconciled. rewrite lookup_merge. by destruct (alarms !! ep), (armed !! ep).
Qed.

Lemma reconciled_dom now alarms armed : dom (reconciled now alarms armed) = dom alarms.
Proof.
  apply set_eq. intros ep. rewrite !elem_of_dom, reconciled_lookup.
  destruct (alarms !! ep); split; intros [? ?]; eauto; done.
Qed.

Lemma not_fired_lookup now armed ep :
  not_fired now armed !! ep =
  match armed !! ep with Some t => if (t <=? now)%Z then None else Some t | None => None end.
Proof.
  unfold not_fired. rewrite map_lookup_filter. destruct (armed !! ep) as [t|]; [|done]. simpl.
  destruct (Z.leb_spec t now); [rewrite option_guard_False; [done|tauto]|]. rewrite option_guard_True; [done|lia].
Qed.

Lemma matching_lookup {H env chan} (s : BwuActor H env chan) ep :
  timers_match s -> (is_Some (s.(act_armed) !! ep) <-> is_Some (alarms_of s !! ep)).
Proof. intros Hm. by rewrite <-!elem_of_dom, Hm. Qed.

(** The timers of the pending retries, after an iteration that goes on. *)
Lemma iteration_timers_lookup {chan} now now' (recv : recv_state chan) alarms armed ep :
  iteration_end now armed recv <> LoopBreak ->
  (iteration_works now armed recv = [] -> dom armed = dom alarms) ->
  iteration_timers now now' recv alarms armed !! ep =
  match alarms !! ep with
  | None => None
  | Some d =>
      Some match armed !! ep with
           | Some t => if (t <=? now)%Z then (now' + d)%Z else t
           | None => (now' + d)%Z
           end
  end.
Proof.
  intros Hend Hidle. unfold iteration_timers.
  destruct (iteration_works now armed recv) as [|k ks] eqn:Hks.
  - assert (Hnf : not_fired now armed = armed).
    { apply none_due_not_fired. unfold iteration_works in Hks.
      by destruct (due_endpoints now armed). }
    specialize (Hidle eq_refl).
    assert (Hdom : is_Some (armed !! ep) <-> is_Some (alarms !! ep)) by by rewrite <-!elem_of_dom, Hidle.
    pose proof (not_fired_lookup now armed ep) as Hl. rewrite Hnf in Hl.
    destruct (armed !! ep) as [t|], (alarms !! ep) as [d|]; try done.
    + destruct (t <=? now)%Z; [done|done].
    + by destruct Hdom as [[? [=]] _].
    + by destruct Hdom as [_ [? [=]]].
  - destruct (iteration_end now armed recv); [done| |];
      rewrite reconciled_lookup, not_fired_lookup;
      destruct (alarms !! ep), (armed !! ep) as [t|]; simpl; try done; by destruct (t <=? now)%Z.
Qed.

(** The commands applied by an iteration, then those it leaves in the channel. *)
Lemma iteration_commands {chan} now armed (box : list (BwuCommand chan)) closed :
  commands_of (iteration_works now armed (offered box closed)) ++
  (match iteration_end now armed (offered box closed) with LoopKept => box | _ => tail box end) = box.
Proof.
  unfold iteration_works, iteration_end, offered. destruct (due_endpoints _ _) as [|ep due].
  - destruct box as [|cmd box]; [by destruct closed|]. by destruct cmd.
  - replace (commands_of (chan := chan) (Fire <$> ep :: due)) with (@nil (BwuCommand chan)).
    + by destruct box; [destruct closed|].
    + symmetry. unfold commands_of. induction (ep :: due) as [|x l IHl]; [done|]. exact IHl.
Qed.

Section owner_lemmas.
Context {H env chan : Type} `{EndpointChannel env chan} `{BwuHandler H env chan} `{Codec}.
Context (fuel : nat) (instant_max : Z).
Implicit Types s : BwuActor H env chan.

(** What a returned iteration did. *)
Lemma iteration_runs now now' recv s i s' :
  runs_to (run_iteration fuel instant_max now now' recv) s i s' ->
  i = iteration_end now s.(act_armed) recv /\
  runs_to (run_works fuel (iteration_works now s.(act_armed) recv)) s.(act_world) tt s'.(act_world) /\
  s'.(act_armed) = iteration_timers now now' recv (alarms_of s') s.(act_armed).
Proof.
  intros Hrun.
  pose proof (wp_iteration fuel instant_max (fun _ => True) now now' recv
    (fun i s' => i = iteration_end now s.(act_armed) recv /\
       runs_to (run_works fuel (iteration_works now s.(act_armed) recv)) s.(act_world) tt s'.(act_world) /\
       s'.(act_armed) = iteration_timers now now' recv (alarms_of s') s.(act_armed)) s) as Hw.
  unfold wp in Hw. rewrite Hrun in Hw. apply Hw. clear Hw Hrun.
  destruct (run_works _ _ _) as [[[] w]|f] eqn:Hworks; [|done]. split; [by right|]. done.
Qed.

Lemma iteration_leaves now now' recv s i s' ep :
  timers_match s -> runs_to (run_iteration fuel instant_max now now' recv) s i s' ->
  i <> LoopBreak ->
  s'.(act_armed) !! ep =
  match alarms_of s' !! ep with
  | None => None
  | Some d =>
      Some match s.(act_armed) !! ep with
           | Some t => if (t <=? now)%Z then (now' + d)%Z else t
           | None => (now' + d)%Z
           end
  end.
Proof.
  intros Hm Hrun Hend. apply iteration_runs in Hrun as (-> & Hworks & ->).
  apply iteration_timers_lookup; [done|].
  intros Hnil. rewrite Hnil in Hworks. injection Hworks as Hw. unfold alarms_of. rewrite <-Hw.
  exact Hm.
Qed.

Lemma works_app ks1 ks2 (w w1 w2 : World H env chan) :
  runs_to (run_works fuel ks1) w tt w1 -> runs_to (run_works fuel ks2) w1 tt w2 ->
  runs_to (run_works fuel (ks1 ++ ks2)) w tt w2.
Proof.
  revert w. induction ks1 as [|k ks1 IH]; intros w; simpl.
  - by intros [= ->].
  - unfold runs_to, mbind, M_bind. destruct (do_work fuel k w) as [[[] w']|f]; [|done].
    apply IH.
Qed.

(** ** The loop *)

(** The commands applied, then those left, are those that were sent. *)
Lemma loop_fifo ticks mailbox s stopped rest s' :
  runs_to (run_loop fuel instant_max ticks mailbox) s (stopped, rest) s' ->
  exists ks seen unseen,
    ticks = seen ++ unseen /\ (stopped = false -> unseen = []) /\
    runs_to (run_works fuel ks) s.(act_world) tt s'.(act_world) /\
    commands_of ks ++ rest = mailbox ++ concat (tick_sent <$> seen).
Proof.
  revert mailbox s. induction ticks as [|t ticks IH]; intros mailbox s Hrun.
  - injection Hrun as <- <- <-. exists [], [], []. simpl. by rewrite app_nil_r.
  - cbn [run_loop] in Hrun. unfold runs_to, mbind at 1, M_bind at 1 in Hrun.
    set (box := mailbox ++ tick_sent t) in *.
    destruct (run_iteration _ _ _ _ _ s) as [[i s1]|f] eqn:Hit; [|done].
    apply iteration_runs in Hit as (Hi & Hworks & _).
    pose proof (iteration_commands (tick_now t) (act_armed s) box (tick_closed t)) as Hcmds.
    rewrite <-Hi in Hcmds.
    assert (Hgo : forall box', runs_to (run_loop fuel instant_max ticks box') s1 (stopped, rest) s' ->
      commands_of (iteration_works (tick_now t) (act_armed s) (offered box (tick_closed t)))
        ++ box' = box ->
      exists ks seen unseen, t :: ticks = seen ++ unseen /\ (stopped = false -> unseen = []) /\
        runs_to (run_works fuel ks) s.(act_world) tt s'.(act_world) /\
        commands_of ks ++ rest = mailbox ++ concat (tick_sent <$> seen)).
    { intros box' Hloop Hbox. destruct (IH _ _ Hloop) as (ks & seen & unseen & -> & Hun & Hks & Heq).
      eexists _, (t :: seen), unseen. split_and!; [done|done|by eapply works_app|].
      unfold commands_of in *. rewrite omap_app, <-app_assoc, Heq, app_assoc, Hbox. subst box.
      simpl. by rewrite <-app_assoc. }
    destruct i; [|by apply (Hgo (tail box))|by apply (Hgo box)].
    injection Hrun as <- <- <-. eexists _, [t], ticks. split_and!; [done|done|exact Hworks|].
    rewrite Hcmds. subst box. simpl. by rewrite app_nil_r.
Qed.
End owner_lemmas.

(** ** Safety *)

Section owner_safety.
Context {H env chan : Type} `{EndpointChannel env chan} `{BwuHandler H env chan} `{Codec}.
Context `{HE : !ChannelFaults env chan parks_or_starves}.
Context `{HH : !HandlerFaults H env chan parks_or_starves}.
Context (fuel : nat) (instant_max : Z) (c0 : BwuConfig).

Lemma pending_bounded w ep d :
  wf_world c0 w -> (w : World H env chan).(w_mgr).(retry_upgrade_alarms) !! ep = Some d ->
  (shortest_delay c0 <= d <= longest_delay c0)%Z.
Proof. intros [Hw <-] Hl. apply (wf_delay _ Hw ep), (wf_alarm _ Hw), Hl. Qed.

Lemma iteration_ok now now' recv s :
  (now' + longest_delay c0 <= instant_max)%Z -> owner_ok c0 s ->
  wp parks_or_starves (run_iteration fuel instant_max now now' recv)
    (fun i s' => wf_world c0 s'.(act_world) /\ (i <> LoopBreak -> owner_ok c0 s')) s.
Proof.
  intros Hclock [Hw Hm]. apply wp_iteration.
  set (ks := iteration_works now (act_armed s) recv).
  assert (Hidle : ks = [] -> run_works fuel ks (act_world s) = Ret (tt, act_world s)) by by intros ->.
  pose proof (run_works_wf c0 fuel ks _ Hw) as Hks. unfold wp in *.
  destruct (run_works fuel ks _) as [[[] w]|f]; [|done]. split.
  - intros ep d Hl. left. pose proof (pending_bounded w ep d Hks Hl). lia.
  - split; [done|]. intros Hend. split; [done|]. apply set_eq. intros ep.
    unfold alarms_of. simpl. rewrite !elem_of_dom, iteration_timers_lookup; [|done|].
    + destruct (_ !! ep); split; intros [? ?]; eauto; done.
    + intros Hnil. specialize (Hidle Hnil). injection Hidle as ->. exact Hm.
Qed.

(** An iteration in which timers fire takes one of those due in the stretch away,
    and adds none. *)
Lemma fired_once from (t : tick chan) recv s s' :
  owner_ok c0 s -> clock_ok instant_max (longest_delay c0) t -> in_stretch from (shortest_delay c0) t ->
  due_endpoints t.(tick_now) s.(act_armed) <> [] ->
  runs_to (run_iteration fuel instant_max t.(tick_now) t.(tick_after) recv) s LoopKept s' ->
  owner_ok c0 s' /\
  size (due_before (from + shortest_delay c0) s'.(act_armed)) <
  size (due_before (from + shortest_delay c0) s.(act_armed)).
Proof.
  intros Ho [Hle Hclock] [Hafter Hnow] Hdue Hrun. pose proof Ho as [_ Hm].
  pose proof (iteration_ok (tick_now t) (tick_after t) recv s Hclock Ho) as Hok.
  unfold wp in Hok. rewrite Hrun in Hok. destruct Hok as [Hw Ho']. split; [by apply Ho'|].
  destruct (due_endpoints _ _) as [|ep due] eqn:Hd; [done|].
  assert (exists u, s.(act_armed) !! ep = Some u /\ (u <= tick_now t)%Z) as (u & Hu & Hun).
  { assert (Hin : ep ∈ due_endpoints (tick_now t) (act_armed s)) by (rewrite Hd; left).
    apply list_elem_of_fmap in Hin as ([ep2 u] & -> & Hin).
    apply elem_of_map_to_list, map_lookup_filter_Some in Hin as [Hin Hu]. by exists u. }
  assert (Hep : due_before (from + shortest_delay c0) s.(act_armed) !! ep = Some u)
    by (apply map_lookup_filter_Some; split; [done|cbn; lia]).
  assert (Hsub : due_before (from + shortest_delay c0) s'.(act_armed) ⊆
    delete ep (due_before (from + shortest_delay c0) s.(act_armed))).
  { apply map_subseteq_spec. intros ep2 v [Hv Hlt]%map_lookup_filter_Some. cbn in Hlt.
    rewrite (iteration_leaves _ _ _ _ _ _ _ _ ep2 Hm Hrun) in Hv by done.
    destruct (alarms_of s' !! ep2) as [d|] eqn:Ha; [|done].
    pose proof (pending_bounded _ ep2 d Hw Ha) as Hdb.
    destruct (s.(act_armed) !! ep2) as [u2|] eqn:Hu2; [destruct (Z.leb_spec u2 (tick_now t))|];
      simplify_eq; [lia| |lia].
    apply lookup_delete_Some. split; [intros <-; rewrite Hu in Hu2; simplify_eq; lia|].
    apply map_lookup_filter_Some. by split. }
  apply map_subseteq_size in Hsub. rewrite map_size_delete_Some in Hsub by (by eexists).
  assert (size (due_before (from + shortest_delay c0) (act_armed s)) <> 0)
    by (intros He; apply map_size_empty_inv in He; by rewrite He in Hep).
  lia.
Qed.

Lemma loop_ok ticks mailbox s :
  Forall (clock_ok instant_max (longest_delay c0)) ticks -> owner_ok c0 s ->
  wp parks_or_starves (run_loop fuel instant_max ticks mailbox)
    (fun r s' => wf_world c0 s'.(act_world) /\ (r.1 = false -> owner_ok c0 s')) s.
Proof.
  revert mailbox s. induction ticks as [|t ticks IH]; intros mailbox s Hc Hs.
  - apply wp_ret. split; [apply Hs|done].
  - apply Forall_cons in Hc as [[_ Hc] Hcs]. cbn [run_loop]. apply wp_bind.
    eapply wp_mono; [by apply iteration_ok|done|]. intros i s' [Hw Hs'].
    destruct i; [|by apply IH, Hs'|by apply IH, Hs']. apply wp_ret. split; done.
Qed.
End owner_safety.

(** * Properties *)

(** An iteration of the owner's loop is exactly: every timer whose deadline
    has passed fires, once each, or, when there is none, the oldest command is
    applied (so a retry that is due comes before a command); and the timers it
    leaves are one for each pending retry, with the deadline that it had, or,
    for a retry that had no timer or whose timer has fired, its delay from the
    time of the reconciliation. *)
Theorem iteration_exact
    {H env chan} `{EndpointChannel env chan} `{BwuHandler H env chan} `{Codec}
    (fuel : nat) (instant_max now now' : Z) (recv : recv_state chan) (i : iteration)
    (s s' : BwuActor H env chan) :
  timers_match s ->
  runs_to (run_iteration fuel instant_max now now' recv) s i s' ->
  i = iteration_end now s.(act_armed) recv /\
  runs_to (run_works fuel (iteration_works now s.(act_armed) recv)) s.(act_world) tt s'.(act_world) /\
  (i <> LoopBreak -> forall ep,
     s'.(act_armed) !! ep =
     match alarms_of s' !! ep with
     | None => None
     | Some d =>
         Some match s.(act_armed) !! ep with
              | Some t => if (t <=? now)%Z then (now' + d)%Z else t
              | None => (now' + d)%Z
              end
     end).
Proof.
  intros Hm Hrun. destruct (iteration_runs _ _ _ _ _ _ _ _ Hrun) as (Hi & Hworks & _).
  split_and!; [done|done|]. intros Hend ep. by eapply iteration_leaves.
Qed.

(** An owner with a retry of "EP" pending, armed for the instant 5. *)
Definition pending_owner : BwuActor (BaseBwuHandler FakeBwuHandler) FakeEnv FakeChan :=
  mkBwuActor
    (upd_mgr (fun m => set_alarms <["EP" := 3000000000%Z]> (set_delays <["EP" := 3000000000%Z]> m))
       (fake_world BwuConfig_default false [] [WifiLan] [bluetooth_channel]))
    {["EP" := 5%Z]}.

Definition sample_recv : recv_state FakeChan := RecvCommand (ConnectionAccepted "EP").

Lemma iteration_exact_witness :
  timers_match pending_owner /\
  exists s',
    runs_to (run_iteration 2 (2 ^ 80) 6 7 sample_recv) pending_owner LoopKept s' /\
    runs_to (run_works 2 [Fire "EP"]) pending_owner.(act_world) tt s'.(act_world).
Proof.
  assert (Hm : timers_match pending_owner) by (unfold timers_match; apply (bool_decide_unpack _); vm_compute; exact I).
  split; [exact Hm|]. eexists. split; [vm_compute; reflexivity|].
  eapply (iteration_exact 2 (2 ^ 80) 6 7 sample_recv LoopKept _ _ Hm).
  vm_compute. reflexivity.
Defined.

(** C33. No command is lost, duplicated or overtaken: what a run of the loop did
    to the manager, the client and the registry is a sequence of commands and
    timer firings, one after the other, whose commands, followed by those still
    in the channel, are those that were in the channel followed by those sent,
    in that order; a run that is not stopped has seen everything sent. *)
Theorem commands_applied_in_order
    {H env chan} `{EndpointChannel env chan} `{BwuHandler H env chan} `{Codec}
    (fuel : nat) (instant_max : Z) (ticks : list (tick chan)) (mailbox rest : list (BwuCommand chan))
    (stopped : bool) (s s' : BwuActor H env chan) :
  runs_to (run_loop fuel instant_max ticks mailbox) s (stopped, rest) s' ->
  exists ks seen unseen,
    ticks = seen ++ unseen /\ (stopped = false -> unseen = []) /\
    runs_to (run_works fuel ks) s.(act_world) tt s'.(act_world) /\
    commands_of ks ++ rest = mailbox ++ concat (tick_sent <$> seen).
Proof. apply loop_fifo. Qed.

Definition sample_ticks : list (tick FakeChan) :=
  [mkTick 6 7 [ConnectionInitiated "B" true false; ConnectionAccepted "B"] false;
   mkTick 8 8 [ShutdownCommand] false; mkTick 8 8 [] false; mkTick 9 9 [Disconnected "B"] false].

Lemma commands_applied_in_order_witness :
  exists s', runs_to (run_loop 2 (2 ^ 80) sample_ticks []) pending_owner (true, [Disconnected "B"]) s' /\
    exists ks seen unseen,
      sample_ticks = seen ++ unseen /\ (true = false -> unseen = []) /\
      runs_to (run_works 2 ks) pending_owner.(act_world) tt s'.(act_world) /\
      commands_of ks ++ [Disconnected "B"] = [] ++ concat (tick_sent <$> seen).
Proof.
  eexists. split; [vm_compute; reflexivity|].
  eapply (commands_applied_in_order 2 (2 ^ 80) sample_ticks). vm_compute. reflexivity.
Defined.

(** The owner's whole run is safe, over any channels and handlers that do
    not panic themselves: started on a new manager, on any commands and times
    that leave the clock room for the longest delay, it never panics (the
    dispatch of a shutdown is never reached, no deadline overflows the clock),
    the manager's bookkeeping stays consistent, and as long as it is not
    stopped its timers are those of the pending retries, no retry without a
    timer and no timer without a retry. *)
Theorem owner_safe
    {H env chan} `{EndpointChannel env chan} `{BwuHandler H env chan} `{Codec}
    (HE : ChannelFaults env chan parks_or_starves) (HH : HandlerFaults H env chan parks_or_starves)
    (fuel : nat) (instant_max start : Z) (ticks : list (tick chan))
    (hs : gmap Medium H) (cfg : BwuConfig) (local : string) (e : env) :
  config_ok (resolve_config cfg) ->
  Forall (clock_ok instant_max (longest_delay (resolve_config cfg))) ticks ->
  wp parks_or_starves (run fuel instant_max start ticks)
    (fun r s => mgr_wf s.(act_world).(w_mgr) /\ (r.1 = false -> timers_match s))
    (build hs cfg local e).
Proof.
  intros Hc Hclock.
  assert (Hnew : wf_world (resolve_config cfg) (build hs cfg local e : BwuActor H env chan).(act_world))
    by (split; [by apply wf_new|done]).
  apply wp_bind, wp_reconcile; [done|].
  eapply wp_mono; [apply (loop_ok _ _ (resolve_config cfg) _ _ _ Hclock)|done|].
  - split; [exact Hnew|]. apply reconciled_dom.
  - intros r s' [[Hw _] Ho]. split; [done|]. intros Hr. by apply Ho.
Qed.

Lemma owner_safe_witness :
  config_ok (resolve_config BwuConfig_default) /\
  Forall (clock_ok (2 ^ 80) (longest_delay (resolve_config BwuConfig_default))) sample_ticks /\
  wp parks_or_starves (run 3 (2 ^ 80) 0 sample_ticks)
    (fun r s => mgr_wf s.(act_world).(w_mgr) /\ (r.1 = false -> timers_match s))
    (build (fake_handlers [WifiLan]) BwuConfig_default "LOCAL"
       (fake_env [WifiLan] [bluetooth_channel])).
Proof.
  assert (Hc : config_ok (resolve_config BwuConfig_default)) by (vm_compute; repeat split; discriminate).
  assert (Ht : Forall (clock_ok (2 ^ 80) (longest_delay (resolve_config BwuConfig_default))) sample_ticks)
    by (repeat constructor; vm_compute; discriminate).
  split; [exact Hc|]. split; [exact Ht|].
  apply (owner_safe (FakeEndpointChannel_faults _) (FakeBwuHandler_faults _) 3 _ 0 _ _ _ _ _ Hc Ht).
Defined.

(** C34. Timers do not starve commands: in any stretch of iterations that is shorter
    than the shortest delay of a retry, counted from a reconciliation, each timer
    fires at most once, because a retry that is armed anew is due after the stretch.
    So a command that waits at the head of the channel is taken after at most as
    many iterations that fire timers as there are timers due in the stretch: the
    iterations before it take no command and keep those that come, and then the
    command is applied.  (In a stretch that is longer, when the work of the
    iterations takes longer than the delays, timers may keep coming first.) *)
Theorem retries_do_not_starve_commands
    {H env chan} `{EndpointChannel env chan} `{BwuHandler H env chan} `{Codec}
    (HE : ChannelFaults env chan parks_or_starves) (HH : HandlerFaults H env chan parks_or_starves)
    (fuel : nat) (instant_max from : Z) (c0 : BwuConfig) (ticks : list (tick chan))
    (cmd : BwuCommand chan) (mailbox rest : list (BwuCommand chan)) (stopped : bool)
    (s s' : BwuActor H env chan) :
  owner_ok c0 s ->
  Forall (clock_ok instant_max (longest_delay c0)) ticks ->
  Forall (in_stretch from (shortest_delay c0)) ticks ->
  size (due_before (from + shortest_delay c0) s.(act_armed)) < length ticks ->
  runs_to (run_loop fuel instant_max ticks (cmd :: mailbox)) s (stopped, rest) s' ->
  exists before t after s1 i s2,
    let box := (cmd :: mailbox) ++ concat (tick_sent <$> before) in
    ticks = before ++ t :: after /\
    length before <= size (due_before (from + shortest_delay c0) s.(act_armed)) /\
    runs_to (run_loop fuel instant_max before (cmd :: mailbox)) s (false, box) s1 /\
    runs_to (run_iteration fuel instant_max t.(tick_now) t.(tick_after)
               (offered (box ++ t.(tick_sent)) t.(tick_closed))) s1 i s2 /\
    i <> LoopKept /\
    runs_to (run_works fuel [Apply cmd]) s1.(act_world) tt s2.(act_world).
Proof.
  intros Ho Hclock Hin Hsize Hrun. revert s mailbox Ho Hsize Hrun.
  induction ticks as [|t ticks IH]; intros s mailbox Ho Hsize Hrun; [cbn in Hsize; lia|].
  apply Forall_cons in Hclock as [Hc Hclock]. apply Forall_cons in Hin as [Ht Hin].
  cbn [run_loop] in Hrun. unfold runs_to, mbind at 1, M_bind at 1 in Hrun.
  destruct (run_iteration _ _ _ _ _ s) as [[i s1]|f] eqn:Hit; [|done].
  pose proof (iteration_runs _ _ _ _ _ _ _ _ Hit) as (Hi & Hworks & _).
  unfold iteration_end, iteration_works in Hi, Hworks. cbn [offered app] in Hi, Hworks.
  destruct (due_endpoints (tick_now t) (act_armed s)) as [|ep due] eqn:Hdue.
  { exists [], t, ticks, s, i, s1. cbn [concat fmap list_fmap app]. rewrite app_nil_r.
    split_and!; [done|cbn; lia|done|exact Hit|by rewrite Hi; destruct cmd|exact Hworks]. }
  rewrite Hi in Hrun, Hit. clear Hi.
  destruct (fired_once fuel instant_max c0 from t _ s s1 Ho Hc Ht ltac:(by rewrite Hdue) Hit) as [Ho1 Hlt].
  destruct (IH Hclock Hin s1 (mailbox ++ tick_sent t) Ho1 ltac:(cbn in Hsize; lia) Hrun)
    as (before & t2 & after & s2 & i2 & s3 & -> & Hlen & Hb & Hit2 & Hk & Hap).
  assert (Hbox : (cmd :: mailbox) ++ concat (tick_sent <$> t :: before) =
    (cmd :: mailbox ++ tick_sent t) ++ concat (tick_sent <$> before)) by (cbn; by rewrite app_assoc).
  exists (t :: before), t2, after, s2, i2, s3. cbv zeta in *. rewrite Hbox.
  split_and!; [done|cbn; lia| |exact Hit2|done|exact Hap].
  cbn [run_loop]. unfold runs_to, mbind at 1, M_bind at 1. rewrite Hit. exact Hb.
Qed.

(** Two retries are pending, due at the instants 5 and 7, and a command waits; the
    firing of the first lasts from 6 to 8, so the second comes before the command,
    which is taken by the third iteration. *)
Definition two_pending : BwuActor (BaseBwuHandler FakeBwuHandler) FakeEnv FakeChan :=
  mkBwuActor
    (upd_mgr (fun m => set_alarms (fun _ => {["EP" := 3000000000%Z; "EQ" := 3000000000%Z]})
                         (set_delays (fun _ => {["EP" := 3000000000%Z; "EQ" := 3000000000%Z]}) m))
       (fake_world BwuConfig_default false [] [WifiLan] [bluetooth_channel]))
    {["EP" := 5%Z; "EQ" := 7%Z]}.

Definition slow_ticks : list (tick FakeChan) := [mkTick 6 8 [] false; mkTick 8 9 [] false; mkTick 9 10 [] false].

Lemma two_pending_ok : owner_ok (resolve_config BwuConfig_default) two_pending.
Proof.
  split; [|unfold timers_match; apply (bool_decide_unpack _); vm_compute; exact I].
  assert (Hall : map_Forall (fun _ d => d = 3000000000%Z) two_pending.(act_world).(w_mgr).(retry_delays))
    by (apply map_Forall_to_list; vm_compute; repeat constructor).
  split; [|reflexivity]. split; try done.
  intros ep d Hl. rewrite (Hall ep d Hl). vm_compute. split; discriminate.
Qed.

Lemma retries_do_not_starve_commands_witness :
  size (due_before (8 + shortest_delay (resolve_config BwuConfig_default)) two_pending.(act_armed)) = 2 /\
  exists before t after s1 i s2,
    slow_ticks = before ++ t :: after /\ length before <= 2 /\
    runs_to (run_iteration 2 (2 ^ 80) t.(tick_now) t.(tick_after)
      (offered (([SetUpgradeMediums "EP" []] ++ concat (tick_sent <$> before)) ++ t.(tick_sent))
         t.(tick_closed))) s1 i s2 /\
    i <> LoopKept.
Proof.
  split; [vm_compute; reflexivity|].
  destruct (run_loop 2 (2 ^ 80) slow_ticks [SetUpgradeMediums "EP" []] two_pending)
    as [[[stopped rest] s']|f] eqn:Hrun; [|vm_compute in Hrun; discriminate Hrun].
  destruct (retries_do_not_starve_commands (FakeEndpointChannel_faults _) (FakeBwuHandler_faults _)
    2 (2 ^ 80) 8 _ slow_ticks (SetUpgradeMediums "EP" []) [] rest stopped two_pending s' two_pending_ok)
    as (before & t & after & s1 & i & s2 & Hs & Hlen & _ & Hit & Hk & _).
  - repeat constructor; vm_compute; discriminate.
  - repeat constructor; vm_compute; first [reflexivity|discriminate].
  - vm_compute. repeat constructor.
  - exact Hrun.
  - exists before, t, after, s1, i, s2. split; [exact Hs|]. split; [exact Hlen|]. split; [exact Hit|exact Hk].
Defined.
