(* ===== verification/System.v ===== *)
(** [src/bwu/actor.rs]: the owner with its handles.  A handle sends commands over
    the bounded channel and waits for the replies of its queries; the owner takes
    them one at a time.  The handles, the owner and whatever else shares the state
    behind the channels take their steps in any order. *)

From Stdlib Require Import ZArith Lia.
From stdpp Require Import relations.
From S2P Require Import Prelude.
From S2P Require Import Mediums.
From S2P Require Import Proto.
From S2P Require Import Codec.
From S2P Require Import Frames.
From S2P Require Import Client.
From S2P Require Import Channel.
From S2P Require Import ChannelManager.
From S2P Require Import Handler.
From S2P Require Import Manager.
From S2P Require Import ManagerSteps.
From S2P Require Import Actor.
From S2P Require Import Invariant.
From S2P Require Import Owner.

(** * Data *)

(** A command in the channel, with the number of the reply channel of a query. *)
Record Envelope (chan : Type) : Type := mkEnvelope {
  ev_command : BwuCommand chan;
  ev_reply : option N;
}.
Arguments mkEnvelope {chan} _ _.
Arguments ev_command {chan} _.
Arguments ev_reply {chan} _.

(** A reply channel: its sender is alive, has sent, or was dropped. *)
Inductive reply_slot (chan : Type) : Type :=
| Waiting
| Answered (r : BwuReply chan)
| Dropped.
Arguments Waiting {chan}.
Arguments Answered {chan} _.
Arguments Dropped {chan}.

(** The owner, whether it still runs, the channel of commands and the reply
    channels. *)
Record System (H env chan : Type) : Type := mkSystem {
  sys_actor : BwuActor H env chan;
  sys_running : bool;
  sys_capacity : nat;
  sys_queue : list (Envelope chan);
  sys_replies : gmap N (reply_slot chan);
}.
Arguments mkSystem {H env chan} _ _ _ _ _.
Arguments sys_actor {H env chan} _.
Arguments sys_running {H env chan} _.
Arguments sys_capacity {H env chan} _.
Arguments sys_queue {H env chan} _.
Arguments sys_replies {H env chan} _.

(** * Operations *)

(** [BwuActor::channel]: its capacity. *)
Definition channel_capacity (command_buffer : nat) : nat := Nat.max command_buffer 1.

(** [BwuActor::new]. *)
Definition BwuActor_new {H env chan} (hs : gmap Medium H) (cfg : BwuConfig)
    (local_endpoint_id : string) (command_buffer : nat) (e : env) : System H env chan :=
  mkSystem (build hs cfg local_endpoint_id e) true (channel_capacity command_buffer) [] ∅.

Section handle.
Context {H env chan : Type}.

Abbreviation MS := (M (System H env chan)).

(** [tx.send]: it waits for room, and fails once the receiver is gone. *)
Definition send (ev : Envelope chan) : MS bool :=
  s ← get;
  if negb s.(sys_running) then mret false
  else if s.(sys_capacity) <=? length s.(sys_queue) then raise Blocked
  else
    modify (fun s => mkSystem s.(sys_actor) s.(sys_running) s.(sys_capacity)
                       (s.(sys_queue) ++ [ev]) s.(sys_replies));;
    mret true.

(** [BwuHandle::fire]. *)
Definition fire (cmd : BwuCommand chan) : MS unit :=
  _ ← send (mkEnvelope cmd None);
  mret tt.

(** [BwuHandle::query] up to its wait: the number of the reply channel. *)
Definition query_start (cmd : BwuCommand chan) : MS (option N) :=
  s ← get;
  let id := fresh (dom s.(sys_replies)) in
  ok ← send (mkEnvelope cmd (Some id));
  if (ok : bool) then
    modify (fun s => mkSystem s.(sys_actor) s.(sys_running) s.(sys_capacity) s.(sys_queue)
                       (<[id := Waiting]> s.(sys_replies)));;
    mret (Some id)
  else mret None.

(** The rest of [query]: [rx.await.ok()]. *)
Definition query_finish (id : option N) : MS (option (BwuReply chan)) :=
  match id with
  | None => mret None
  | Some id =>
      slot ← gets (fun s => s.(sys_replies) !! id);
      match slot with
      | Some (Answered r) => mret (Some r)
      | Some Waiting => raise Blocked
      | Some Dropped | None => mret None
      end
  end.

(** The methods of [BwuHandle]. *)
Definition h_connection_initiated (endpoint_id : string) (is_incoming auto_upgrade_bandwidth : bool)
    : MS unit := fire (ConnectionInitiated endpoint_id is_incoming auto_upgrade_bandwidth).
Definition h_connection_accepted (endpoint_id : string) : MS unit :=
  fire (ConnectionAccepted endpoint_id).
Definition h_local_endpoint_accepted (endpoint_id : string) : MS unit :=
  fire (LocalEndpointAccepted endpoint_id).
Definition h_remote_endpoint_accepted (endpoint_id : string) : MS unit :=
  fire (RemoteEndpointAccepted endpoint_id).
Definition h_disconnected (endpoint_id : string) : MS unit := fire (Disconnected endpoint_id).
Definition h_set_upgrade_mediums (endpoint_id : string) (mediums : list Medium) : MS unit :=
  fire (SetUpgradeMediums endpoint_id mediums).
Definition h_register_channel (endpoint_id : string) (channel : chan) : MS unit :=
  fire (RegisterChannel endpoint_id channel).
Definition h_unregister_channel (endpoint_id : string) (reason : DisconnectionReason)
    (result : SafeDisconnectionResult) : MS unit :=
  fire (UnregisterChannel endpoint_id reason result).
Definition h_initiate_bwu (endpoint_id : string) (medium : Medium) : MS unit :=
  fire (InitiateBwu endpoint_id medium).
Definition h_reset_upgrade (endpoint_id : string) : MS unit := fire (ResetUpgrade endpoint_id).
Definition h_incoming_frame (frame : OfflineFrame) (endpoint_id : string) (medium : Medium)
    : MS unit := fire (IncomingFrame frame endpoint_id medium).
Definition h_incoming_connection (connection : IncomingSocketConnection chan) : MS unit :=
  fire (IncomingConnection connection).
Definition h_endpoint_disconnect (service_id endpoint_id : string) (reason : DisconnectionReason)
    : MS unit := fire (EndpointDisconnect service_id endpoint_id reason).
Definition h_shutdown : MS unit := fire ShutdownCommand.

(** [BwuHandle::connection_sink]: [blocking_send] waits like [send]. *)
Definition connection_sink (connection : IncomingSocketConnection chan) : MS unit :=
  _ ← send (mkEnvelope (IncomingConnection connection) None);
  mret tt.

(** The queries, up to their wait and after it. *)
Definition h_is_upgrade_ongoing (endpoint_id : string) : MS (option N) :=
  query_start (IsUpgradeOngoing endpoint_id).
Definition h_pending_retry_delay (endpoint_id : string) : MS (option N) :=
  query_start (PendingRetryDelay endpoint_id).
Definition h_bandwidth_changed_events : MS (option N) := query_start BandwidthChangedEvents.
Definition h_get_upgraded_channel (endpoint_id : string) : MS (option N) :=
  query_start (GetUpgradedChannel endpoint_id).

Definition await_is_upgrade_ongoing (id : option N) : MS bool :=
  r ← query_finish id;
  mret (match r with Some (ReplyBool b) => b | _ => false end).
Definition await_pending_retry_delay (id : option N) : MS (option Z) :=
  r ← query_finish id;
  mret (match r with Some (ReplyDelay d) => d | _ => None end).
Definition await_bandwidth_changed_events (id : option N) : MS (list (string * Medium)) :=
  r ← query_finish id;
  mret (match r with Some (ReplyEvents events) => events | _ => [] end).
Definition await_get_upgraded_channel (id : option N) : MS (option chan) :=
  r ← query_finish id;
  mret (match r with Some (ReplyChannel c) => c | _ => None end).
End handle.

(** [reply.send], for the envelope that was taken from the channel. *)
Definition deliver {chan} (ev : option (Envelope chan)) (r : BwuReply chan)
    (replies : gmap N (reply_slot chan)) : gmap N (reply_slot chan) :=
  match ev ≫= ev_reply with
  | Some id => <[id := Answered r]> replies
  | None => replies
  end.

(** The end of [run] drops the receiver, and with it the senders of the replies
    that are outstanding. *)
Definition drop_waiting {chan} (slot : reply_slot chan) : reply_slot chan :=
  match slot with Waiting => Dropped | _ => slot end.

Section system.
Context {H env chan : Type} `{EndpointChannel env chan} `{BwuHandler H env chan} `{Codec}.
Context (fuel : nat) (instant_max : Z).

(** The reply to the command at the head of the channel. *)
Definition head_reply (s : System H env chan) : BwuReply chan :=
  match head s.(sys_queue) with
  | Some ev =>
      match handle fuel ev.(ev_command) s.(sys_actor).(act_world) with
      | Ret (r, _) => r
      | Fault _ => NoReply
      end
  | None => NoReply
  end.

(** An iteration of the owner's loop, on what the channel offers; it is closed
    when every handle was dropped. *)
Definition owner_iteration (now now' : Z) (handles_dropped : bool)
    : M (System H env chan) iteration := fun s =>
  match run_iteration fuel instant_max now now'
          (offered (ev_command <$> s.(sys_queue)) handles_dropped) s.(sys_actor) with
  | Fault f => Fault f
  | Ret (LoopKept, a) =>
      Ret (LoopKept, mkSystem a true s.(sys_capacity) s.(sys_queue) s.(sys_replies))
  | Ret (LoopConsumed, a) =>
      Ret (LoopConsumed,
           mkSystem a true s.(sys_capacity) (tail s.(sys_queue))
             (deliver (head s.(sys_queue)) (head_reply s) s.(sys_replies)))
  | Ret (LoopBreak, a) =>
      Ret (LoopBreak, mkSystem a false s.(sys_capacity) [] (drop_waiting <$> s.(sys_replies)))
  end.

(** What others do to the state behind the channels. *)
Definition set_sys_env (e : env) (s : System H env chan) : System H env chan :=
  mkSystem (mkBwuActor (upd_env e s.(sys_actor).(act_world)) s.(sys_actor).(act_armed))
    s.(sys_running) s.(sys_capacity) s.(sys_queue) s.(sys_replies).

Definition sys_env (s : System H env chan) : env := s.(sys_actor).(act_world).(w_env).

(** A step: an iteration of the owner, a command or a query of some handle, or
    others at work on the state behind the channels. *)
Inductive sys_step (others : env -> env -> Prop) : System H env chan -> System H env chan -> Prop :=
| step_owner now now' dropped i s s' :
    s.(sys_running) = true ->
    (now <= now' /\
     now' + longest_delay s.(sys_actor).(act_world).(w_mgr).(config) <= instant_max)%Z ->
    runs_to (owner_iteration now now' dropped) s i s' -> sys_step others s s'
| step_fire cmd s s' : runs_to (fire cmd) s tt s' -> sys_step others s s'
| step_query cmd id s s' : runs_to (query_start cmd) s id s' -> sys_step others s s'
| step_others e s : others (sys_env s) e -> sys_step others s (set_sys_env e s).

(** The works of the owner and of the others, in their order. *)
Inductive progress (others : env -> env -> Prop)
    : list (work chan) -> World H env chan -> World H env chan -> Prop :=
| progress_nil w : progress others [] w w
| progress_works ks ks' w w1 w2 :
    progress others ks w w1 -> runs_to (run_works fuel ks') w1 tt w2 ->
    progress others (ks ++ ks') w w2
| progress_others ks w w1 e :
    progress others ks w w1 -> others w1.(w_env) e -> progress others ks w (upd_env e w1).
End system.

(** What holds of the channel of commands and of the reply channels: the commands
    fit, every query in the channel has a caller that waits and a number of its
    own, every caller that waits has its query in the channel, and nobody waits
    for an owner that has stopped. *)
Record channels_ok {H env chan} (s : System H env chan) : Prop := {
  co_fits : length s.(sys_queue) <= s.(sys_capacity);
  co_queued ev id : ev ∈ s.(sys_queue) -> ev.(ev_reply) = Some id ->
    s.(sys_replies) !! id = Some Waiting;
  co_own : NoDup (omap ev_reply s.(sys_queue));
  co_waiting id : s.(sys_replies) !! id = Some Waiting ->
    id ∈ omap ev_reply s.(sys_queue);
  co_stopped : s.(sys_running) = false -> s.(sys_queue) = [];
  co_dropped id : s.(sys_replies) !! id = Some Dropped -> s.(sys_running) = false;
}.

(** * Lemmas *)

Section channels.
Context {H env chan : Type} `{EndpointChannel env chan} `{BwuHandler H env chan} `{Codec}.
Implicit Types s : System H env chan.

Lemma elem_of_reply_ids (ev : Envelope chan) id (q : list (Envelope chan)) :
  ev ∈ q -> ev.(ev_reply) = Some id -> id ∈ omap ev_reply q.
Proof. intros Hin Hid. apply list_elem_of_omap. by exists ev. Qed.

(** A send that returns. *)
Lemma send_returns ev s r s' :
  runs_to (send ev) s r s' ->
  (r = false /\ s' = s /\ s.(sys_running) = false) \/
  (r = true /\ s.(sys_running) = true /\ length s.(sys_queue) < s.(sys_capacity) /\
   s' = mkSystem s.(sys_actor) true s.(sys_capacity) (s.(sys_queue) ++ [ev]) s.(sys_replies)).
Proof.
  unfold runs_to, send, get, modify, mbind, M_bind. destruct (sys_running s) eqn:Hr; simpl.
  - destruct (Nat.leb_spec (sys_capacity s) (length (sys_queue s))); [done|]. intros [= <- <-].
    right. rewrite Hr. by split_and!.
  - intros [= <- <-]. by left.
Qed.

Lemma fire_returns cmd s s' :
  runs_to (fire cmd) s tt s' ->
  s' = s \/
  (s.(sys_running) = true /\ length s.(sys_queue) < s.(sys_capacity) /\
   s' = mkSystem s.(sys_actor) true s.(sys_capacity) (s.(sys_queue) ++ [mkEnvelope cmd None])
          s.(sys_replies)).
Proof.
  intros Hrun. unfold runs_to, fire, mbind, M_bind in Hrun.
  destruct (send _ s) as [[r s1]|f] eqn:Hs; [|done]. injection Hrun as <-.
  apply send_returns in Hs as [(_ & -> & _)|(_ & ? & ? & ->)]; [by left|by right].
Qed.

Lemma query_returns cmd id s s' :
  runs_to (query_start cmd) s id s' ->
  (id = None /\ s' = s /\ s.(sys_running) = false) \/
  (exists n, id = Some n /\ s.(sys_replies) !! n = None /\ s.(sys_running) = true /\
   length s.(sys_queue) < s.(sys_capacity) /\
   s' = mkSystem s.(sys_actor) true s.(sys_capacity) (s.(sys_queue) ++ [mkEnvelope cmd (Some n)])
          (<[n := Waiting]> s.(sys_replies))).
Proof.
  intros Hrun. unfold runs_to, query_start, get, modify, mbind, M_bind in Hrun.
  destruct (send _ s) as [[r s1]|f] eqn:Hs; [|done].
  apply send_returns in Hs as [(-> & -> & Hr)|(-> & Hr & Hl & ->)]; injection Hrun as <- <-.
  - by left.
  - right. eexists. split_and!; [done| |done|done|done]. apply not_elem_of_dom, is_fresh.
Qed.

Lemma new_channels_ok hs cfg local buffer (e : env) :
  channels_ok (BwuActor_new hs cfg local buffer e : System H env chan).
Proof.
  split; simpl; [lia|intros ev id Hin; by apply elem_of_nil in Hin|constructor| |done|];
    intros id Hl; by rewrite lookup_empty in Hl.
Qed.

Lemma queue_ids_app (q : list (Envelope chan)) ev :
  omap ev_reply (q ++ [ev]) = omap ev_reply q ++ match ev.(ev_reply) with Some id => [id] | None => [] end.
Proof. rewrite omap_app. simpl. by destruct (ev_reply ev). Qed.

(** A command or a query that is sent. *)
Lemma channels_ok_fire cmd s :
  s.(sys_running) = true -> length s.(sys_queue) < s.(sys_capacity) -> channels_ok s ->
  channels_ok (mkSystem s.(sys_actor) true s.(sys_capacity) (s.(sys_queue) ++ [mkEnvelope cmd None])
                 s.(sys_replies)).
Proof.
  intros Hr Hl [Hf Hq Ho Hw Hs Hd]. split; simpl; [rewrite length_app; simpl; lia| | | |done|].
  - intros ev id Hin Hid. apply elem_of_app in Hin as [Hin|Hin]; [by eapply Hq|].
    apply list_elem_of_singleton in Hin as ->. done.
  - by rewrite queue_ids_app, app_nil_r.
  - intros id Hid. rewrite queue_ids_app, app_nil_r. by apply Hw.
  - intros id Hid. apply Hd in Hid. congruence.
Qed.

Lemma channels_ok_query cmd n s :
  s.(sys_running) = true -> s.(sys_replies) !! n = None ->
  length s.(sys_queue) < s.(sys_capacity) -> channels_ok s ->
  channels_ok (mkSystem s.(sys_actor) true s.(sys_capacity)
                 (s.(sys_queue) ++ [mkEnvelope cmd (Some n)]) (<[n := Waiting]> s.(sys_replies))).
Proof.
  intros Hr Hn Hl [Hf Hq Ho Hw Hs Hd].
  assert (Hnew : n ∉ omap ev_reply s.(sys_queue)).
  { intros Hin. apply list_elem_of_omap in Hin as (ev & Hin & Hid).
    specialize (Hq ev n Hin Hid). congruence. }
  split; simpl; [rewrite length_app; simpl; lia| | | |done|].
  - intros ev id Hin Hid. apply elem_of_app in Hin as [Hin|Hin].
    + rewrite lookup_insert_ne; [by eapply Hq|]. intros ->. by apply Hnew, (elem_of_reply_ids ev).
    + apply list_elem_of_singleton in Hin as ->. injection Hid as <-. by rewrite lookup_insert_eq.
  - rewrite queue_ids_app. simpl. apply NoDup_app. split_and!; [done| |apply NoDup_singleton].
    intros id Hin Hid. apply list_elem_of_singleton in Hid as ->. done.
  - intros id Hid. rewrite queue_ids_app, elem_of_app. simpl.
    destruct (decide (id = n)) as [->|Hne]; [right; by left|]. left. apply Hw.
    by rewrite lookup_insert_ne in Hid.
  - intros id Hid. destruct (decide (id = n)) as [->|Hne]; [by rewrite lookup_insert_eq in Hid|].
    rewrite lookup_insert_ne in Hid by done. apply Hd in Hid. congruence.
Qed.

(** The oldest command is taken, and a query in it is answered. *)
Lemma channels_ok_take a ev q r s :
  s.(sys_running) = true -> s.(sys_queue) = ev :: q -> channels_ok s ->
  channels_ok (mkSystem (H := H) (env := env) a true s.(sys_capacity) q
                 (deliver (Some ev) r s.(sys_replies))).
Proof.
  intros Hr Heq [Hf Hq Ho Hw Hs Hd]. rewrite Heq in *. simpl in Hf, Ho, Hw.
  assert (Hown : forall ev' id, ev' ∈ q -> ev'.(ev_reply) = Some id -> ev.(ev_reply) <> Some id).
  { intros ev' id Hin Hid Hev. rewrite Hev in Ho. apply NoDup_cons in Ho as [Ho _].
    by apply Ho, (elem_of_reply_ids ev'). }
  split; simpl; [lia| | | |done|].
  - intros ev' id Hin Hid. unfold deliver. simpl. specialize (Hown ev' id Hin Hid).
    destruct (ev_reply ev) as [n|] eqn:Hev; [|by apply (Hq ev'); [right|]].
    rewrite lookup_insert_ne by congruence. by apply (Hq ev'); [right|].
  - destruct (ev_reply ev); [|done]. by apply NoDup_cons in Ho as [_ Ho].
  - intros id Hid. unfold deliver in Hid. simpl in Hid. destruct (ev_reply ev) as [n|] eqn:Hev.
    + destruct (decide (id = n)) as [->|Hne]; [by rewrite lookup_insert_eq in Hid|].
      rewrite lookup_insert_ne in Hid by done. apply Hw, elem_of_cons in Hid as [?|?]; done.
    + by apply Hw.
  - intros id Hid. unfold deliver in Hid. simpl in Hid. destruct (ev_reply ev) as [n|];
      [destruct (decide (id = n)) as [->|Hne]; [by rewrite lookup_insert_eq in Hid|];
       rewrite lookup_insert_ne in Hid by done|]; apply Hd in Hid; congruence.
Qed.

Lemma channels_ok_stop a s :
  channels_ok (mkSystem (H := H) (env := env) a false s.(sys_capacity) [] (drop_waiting <$> s.(sys_replies))).
Proof.
  split; simpl; [lia|intros ev id Hin; by apply elem_of_nil in Hin|constructor| |done|done].
  intros id. rewrite lookup_fmap. by destruct (_ !! id) as [[| |]|].
Qed.

Lemma channels_ok_actor a s :
  s.(sys_running) = true -> channels_ok s ->
  channels_ok (mkSystem (H := H) (env := env) a true s.(sys_capacity) s.(sys_queue) s.(sys_replies)).
Proof. intros Hr [Hf Hq Ho Hw Hs Hd]. split; try done. intros id Hid. apply Hd in Hid. congruence. Qed.
End channels.

Section owner_steps.
Context {H env chan : Type} `{EndpointChannel env chan} `{BwuHandler H env chan} `{Codec}.
Context (fuel : nat) (instant_max : Z).
Implicit Types s : System H env chan.

(** What an iteration of the owner did: its works, and which envelope it took. *)
Lemma owner_returns now now' dropped i s s' :
  runs_to (owner_iteration fuel instant_max now now' dropped) s i s' ->
  let ks := iteration_works now s.(sys_actor).(act_armed)
              (offered (ev_command <$> s.(sys_queue)) dropped) in
  runs_to (run_works fuel ks) s.(sys_actor).(act_world) tt s'.(sys_actor).(act_world) /\
  match i with
  | LoopKept => commands_of ks = [] /\
      s' = mkSystem s'.(sys_actor) true s.(sys_capacity) s.(sys_queue) s.(sys_replies)
  | LoopConsumed => exists ev q r w, s.(sys_queue) = ev :: q /\ commands_of ks = [ev.(ev_command)] /\
      runs_to (handle fuel ev.(ev_command)) s.(sys_actor).(act_world) r w /\
      s' = mkSystem s'.(sys_actor) true s.(sys_capacity) q (deliver (Some ev) r s.(sys_replies))
  | LoopBreak =>
      s' = mkSystem s'.(sys_actor) false s.(sys_capacity) [] (drop_waiting <$> s.(sys_replies))
  end.
Proof.
  intros Hrun ks. unfold runs_to, owner_iteration in Hrun.
  destruct (run_iteration _ _ _ _ _ _) as [[i1 a]|f] eqn:Hit; [|done].
  apply iteration_runs in Hit as (Hi & Hworks & _).
  pose proof (iteration_commands now (act_armed (sys_actor s)) (ev_command <$> sys_queue s) dropped)
    as Hcmds. rewrite <-Hi in Hcmds. fold ks in Hcmds.
  destruct i1; injection Hrun as <- <-; (split; [exact Hworks|]); simpl.
  - done.
  - unfold iteration_end, offered in Hi. destruct (due_endpoints _ _) as [|? ?] eqn:Hdue; [|done].
    destruct (sys_queue s) as [|ev q] eqn:Hq; [by destruct dropped|]. simpl in Hi, Hcmds.
    assert (Hk : commands_of ks = [ev_command ev]).
    { apply (app_inv_tail (ev_command <$> q)). exact Hcmds. }
    assert (Hks : ks = [Apply (ev_command ev)]).
    { subst ks. unfold iteration_works, offered. by rewrite Hdue. }
    exists ev, q. unfold head_reply. rewrite Hq. simpl.
    fold ks in Hworks. rewrite Hks in Hworks. unfold runs_to in Hworks. simpl in Hworks.
    unfold mbind, M_bind in Hworks.
    destruct (ev_command ev) eqn:Hev; try done;
      (destruct (handle _ _ _) as [[r w]|f] eqn:Hh; [|done]; by exists r, w).
  - split; [|done]. by apply (app_inv_tail (ev_command <$> sys_queue s)).
Qed.

Lemma channels_ok_step others s s' :
  sys_step fuel instant_max others s s' -> channels_ok s -> channels_ok s'.
Proof.
  intros Hstep Hok. destruct Hstep as [now now' dropped i s s' Hr _ Hrun|cmd s s' Hrun|cmd id s s' Hrun|e s _].
  - apply owner_returns in Hrun as [_ Hi]. destruct i.
    + rewrite Hi. apply channels_ok_stop.
    + destruct Hi as (ev & q & r & w & Hq & _ & _ & ->). by apply channels_ok_take.
    + destruct Hi as [_ ->]. by apply channels_ok_actor.
  - apply fire_returns in Hrun as [->|(Hr & Hl & ->)]; [done|by apply channels_ok_fire].
  - apply query_returns in Hrun as [(_ & -> & _)|(n & _ & Hn & Hr & Hl & ->)]; [done|].
    by apply channels_ok_query.
  - by destruct Hok.
Qed.
End owner_steps.

(** ** Safety *)

Section safety.
Context {H env chan : Type} `{EndpointChannel env chan} `{BwuHandler H env chan} `{Codec}.
Context `{HE : !ChannelFaults env chan parks_or_starves}.
Context `{HH : !HandlerFaults H env chan parks_or_starves}.
Context (fuel : nat) (instant_max : Z) (others : env -> env -> Prop) (c0 : BwuConfig).
Implicit Types s : System H env chan.

(** The state of a system. *)
Record system_ok s : Prop := {
  so_world : wf_world c0 s.(sys_actor).(act_world);
  so_timers : s.(sys_running) = true -> timers_match s.(sys_actor);
  so_channels : channels_ok s;
}.

Lemma owner_iteration_ok now now' dropped s :
  s.(sys_running) = true -> (now' + longest_delay c0 <= instant_max)%Z -> system_ok s ->
  wp parks_or_starves (owner_iteration fuel instant_max now now' dropped)
    (fun _ s' => wf_world c0 s'.(sys_actor).(act_world) /\
       (s'.(sys_running) = true -> timers_match s'.(sys_actor))) s.
Proof.
  intros Hr Hclock [Hw Ht Hc].
  pose proof (iteration_ok fuel instant_max c0 now now'
    (offered (ev_command <$> s.(sys_queue)) dropped) s.(sys_actor) Hclock (conj Hw (Ht Hr))) as Hit.
  unfold wp, owner_iteration in *.
  destruct (run_iteration _ _ _ _ _ _) as [[i a]|f]; [|done]. destruct Hit as [Hw' Ho].
  destruct i; (split; [exact Hw'|]); intros Hrun; [done|by apply Ho..].
Qed.

Lemma system_ok_step s s' : sys_step fuel instant_max others s s' -> system_ok s -> system_ok s'.
Proof.
  intros Hstep Hok. pose proof (channels_ok_step _ _ _ _ _ Hstep (so_channels _ Hok)) as Hc.
  destruct Hstep as [now now' dropped i s s' Hr [_ Hclock] Hrun|cmd s s' Hrun|cmd id s s' Hrun|e s _].
  - rewrite (proj2 (so_world _ Hok)) in Hclock.
    pose proof (owner_iteration_ok now now' dropped s Hr Hclock Hok) as Hit.
    unfold wp in Hit. rewrite Hrun in Hit. by split; [apply Hit|apply Hit|].
  - apply fire_returns in Hrun as [->|(Hr & Hl & ->)]; [done|].
    destruct Hok as [Hw Ht _]. split; [done|intros _; by apply Ht|done].
  - apply query_returns in Hrun as [(_ & -> & _)|(n & _ & Hn & Hr & Hl & ->)]; [done|].
    destruct Hok as [Hw Ht _]. split; [done|intros _; by apply Ht|done].
  - destruct Hok as [Hw Ht _]. split; [exact Hw|exact Ht|done].
Qed.

Lemma system_ok_steps s s' :
  rtc (sys_step fuel instant_max others) s s' -> system_ok s -> system_ok s'.
Proof. induction 1 as [|s1 s2 s3 Hstep _ IH]; [done|]. intros Hok. by eapply IH, system_ok_step. Qed.

Lemma new_system_ok hs cfg local buffer (e : env) :
  config_ok (resolve_config cfg) -> resolve_config cfg = c0 ->
  system_ok (BwuActor_new hs cfg local buffer e : System H env chan).
Proof. intros Hc Heq. split; [split; [by apply wf_new|exact Heq]|done|apply new_channels_ok]. Qed.
End safety.

(** ** Queries *)

Section queries.
Context {H env chan : Type} `{EndpointChannel env chan} `{BwuHandler H env chan} `{Codec}.
Context (fuel : nat) (instant_max : Z) (others : env -> env -> Prop).
Context (cmd : BwuCommand chan) (id : N) (earlier : list (BwuCommand chan)) (w0 : World H env chan).
Implicit Types s : System H env chan.

(** A reply is that of the command after exactly the earlier commands, timer
    firings and the works of others. *)
Definition explained (r : BwuReply chan) : Prop :=
  exists ks w w', progress fuel others ks w0 w /\ commands_of ks = earlier /\
    runs_to (handle fuel cmd) w r w'.

(** A query on its way, and one whose caller can go on. *)
Definition on_its_way s : Prop :=
  exists ks pre post, progress fuel others ks w0 s.(sys_actor).(act_world) /\
    s.(sys_queue) = pre ++ mkEnvelope cmd (Some id) :: post /\
    commands_of ks ++ (ev_command <$> pre) = earlier.

Definition over s : Prop :=
  exists slot, s.(sys_replies) !! id = Some slot /\ slot <> Waiting /\
    forall r, slot = Answered r -> explained r.

Lemma commands_of_app (ks ks' : list (work chan)) :
  commands_of (ks ++ ks') = commands_of ks ++ commands_of ks'.
Proof. apply omap_app. Qed.

Lemma on_its_way_waits s : channels_ok s -> on_its_way s -> s.(sys_replies) !! id = Some Waiting.
Proof.
  intros Hok (ks & pre & post & _ & Hq & _).
  apply (co_queued _ Hok (mkEnvelope cmd (Some id))); [|done]. rewrite Hq. set_solver.
Qed.

(** A query that is over stays as it is. *)
Lemma over_step s s' :
  channels_ok s -> sys_step fuel instant_max others s s' -> over s -> over s'.
Proof.
  intros Hok Hstep (slot & Hl & Hne & Hr).
  assert (Hkeep : s'.(sys_replies) !! id = Some slot -> over s') by (intros Hl'; by exists slot).
  destruct Hstep as [now now' dropped i s s' _ _ Hrun|c s s' Hrun|c n s s' Hrun|e s _].
  - apply owner_returns in Hrun as [_ Hi]. apply Hkeep. destruct i.
    + rewrite Hi. simpl. rewrite lookup_fmap, Hl. by destruct slot.
    + destruct Hi as (ev & q & r & w & Hq & _ & _ & ->). simpl. unfold deliver. simpl.
      destruct (ev_reply ev) as [m|] eqn:Hev; [|done]. rewrite lookup_insert_ne; [done|]. intros ->.
      assert (Hw : sys_replies s !! id = Some Waiting) by (apply (co_queued _ Hok ev); [rewrite Hq; left|done]).
      congruence.
    + by destruct Hi as [_ ->].
  - apply Hkeep. apply fire_returns in Hrun as [->|(_ & _ & ->)]; done.
  - apply Hkeep. apply query_returns in Hrun as [(_ & -> & _)|(m & _ & Hm & _ & _ & ->)]; [done|].
    simpl. rewrite lookup_insert_ne; [done|]. congruence.
  - by apply Hkeep.
Qed.

Lemma on_its_way_step s s' :
  channels_ok s -> channels_ok s' -> sys_step fuel instant_max others s s' ->
  on_its_way s -> on_its_way s' \/ over s'.
Proof.
  intros Hok Hok' Hstep Hway. pose proof (on_its_way_waits s Hok Hway) as Hwait.
  destruct Hway as (ks & pre & post & Hp & Hq & Hcmds).
  destruct Hstep as [now now' dropped i s s' _ _ Hrun|c s s' Hrun|c n s s' Hrun|e s He].
  - apply owner_returns in Hrun as [Hworks Hi].
    pose proof (progress_works _ _ _ _ _ _ _ Hp Hworks) as Hp'. destruct i.
    + right. rewrite Hi. exists Dropped. simpl. rewrite lookup_fmap, Hwait. by split_and!.
    + destruct Hi as (ev & q & r & w & Hq' & Hone & Hh & Heq). rewrite Hq' in Hq.
      destruct pre as [|ev1 pre]; simplify_eq/=.
      * right. exists (Answered r). rewrite Heq. simpl. unfold deliver. simpl.
        rewrite lookup_insert_eq. split_and!; [done|done|]. intros r' [= <-].
        exists ks, (act_world (sys_actor s)), w. split_and!; [done| |done].
        by rewrite <-Hcmds, app_nil_r.
      * left. eexists _, pre, post. split_and!; [exact Hp'|by rewrite Heq|].
        rewrite commands_of_app, Hone, <-app_assoc. exact Hcmds.
    + left. destruct Hi as [Hnone Heq]. eexists _, pre, post. split_and!; [exact Hp'|by rewrite Heq|].
      by rewrite commands_of_app, Hnone, app_nil_r.
  - left. apply fire_returns in Hrun as [->|(_ & _ & ->)]; [by exists ks, pre, post|].
    eexists ks, pre, _. split_and!; [done|simpl; by rewrite Hq, <-app_assoc|done].
  - left. apply query_returns in Hrun as [(_ & -> & _)|(m & _ & _ & _ & _ & ->)]; [by exists ks, pre, post|].
    eexists ks, pre, _. split_and!; [done|simpl; by rewrite Hq, <-app_assoc|done].
  - left. exists ks, pre, post. split_and!; [|done|done]. by apply progress_others.
Qed.

Lemma query_steps s s' :
  rtc (sys_step fuel instant_max others) s s' -> channels_ok s -> on_its_way s \/ over s ->
  on_its_way s' \/ over s'.
Proof.
  induction 1 as [|s1 s2 s3 Hstep _ IH]; [done|]. intros Hok Hq.
  pose proof (channels_ok_step _ _ _ _ _ Hstep Hok) as Hok2. apply IH; [done|].
  destruct Hq as [Hq|Hq].
  - exact (on_its_way_step _ _ Hok Hok2 Hstep Hq).
  - right. exact (over_step _ _ Hok Hstep Hq).
Qed.
End queries.

(** * Properties *)

(** C8. The owner and its handles are safe together, whatever the handles send,
    whatever others do to the state behind the channels in between, and whatever
    the medium handlers do short of a panic: in every state that is reached the
    manager's bookkeeping is consistent, a running owner has exactly the timers
    of the pending retries, the channel of commands keeps within its capacity, no
    caller waits for a reply whose query is lost or whose owner has stopped, and
    the next iteration does not panic. *)
Theorem system_safe
    {H env chan} `{EndpointChannel env chan} `{BwuHandler H env chan} `{Codec}
    (HE : ChannelFaults env chan parks_or_starves) (HH : HandlerFaults H env chan parks_or_starves)
    (fuel : nat) (instant_max : Z) (others : env -> env -> Prop)
    (hs : gmap Medium H) (cfg : BwuConfig) (local : string) (buffer : nat) (e : env)
    (s : System H env chan) :
  config_ok (resolve_config cfg) ->
  rtc (sys_step fuel instant_max others) (BwuActor_new hs cfg local buffer e) s ->
  mgr_wf s.(sys_actor).(act_world).(w_mgr) /\
  (s.(sys_running) = true -> timers_match s.(sys_actor)) /\
  channels_ok s /\
  (forall now now' dropped, s.(sys_running) = true ->
     (now' + longest_delay (resolve_config cfg) <= instant_max)%Z ->
     wp parks_or_starves (owner_iteration fuel instant_max now now' dropped) (fun _ _ => True) s).
Proof.
  intros Hc Hsteps.
  destruct (system_ok_steps _ _ _ (resolve_config cfg) _ _ Hsteps (new_system_ok _ hs cfg local buffer e Hc eq_refl))
    as [Hw Ht Hch].
  split_and!; [apply Hw|done|done|]. intros now now' dropped Hr Hclock.
  eapply wp_mono; [by apply (owner_iteration_ok _ _ (resolve_config cfg))|done|done].
Qed.

(** C35. The answer to a query is that of the manager after exactly the commands
    that were in the channel before it, each applied once and in their order,
    with nothing of what was sent later: whatever steps are taken in between, the
    caller goes on waiting, or the owner has stopped and the caller gets nothing,
    or the answer is the one computed at that moment. *)
Theorem query_sees_earlier_commands
    {H env chan} `{EndpointChannel env chan} `{BwuHandler H env chan} `{Codec}
    (fuel : nat) (instant_max : Z) (others : env -> env -> Prop) (cmd : BwuCommand chan) (id : N)
    (s s1 s2 s3 : System H env chan) (answer : option (BwuReply chan)) :
  channels_ok s ->
  runs_to (query_start cmd) s (Some id) s1 ->
  rtc (sys_step fuel instant_max others) s1 s2 ->
  runs_to (query_finish (Some id)) s2 answer s3 ->
  match answer with
  | None => s2.(sys_running) = false
  | Some r => exists ks w w',
      progress fuel others ks s.(sys_actor).(act_world) w /\
      commands_of ks = ev_command <$> s.(sys_queue) /\
      runs_to (handle fuel cmd) w r w'
  end.
Proof.
  intros Hok Hq Hsteps Hf.
  apply query_returns in Hq as [(? & _)|(n & [= <-] & Hn & Hr & Hl & ->)]; [done|].
  assert (Hok1 := channels_ok_query cmd id s Hr Hn Hl Hok).
  assert (Hway : on_its_way fuel others cmd id (ev_command <$> s.(sys_queue)) s.(sys_actor).(act_world)
    (mkSystem s.(sys_actor) true s.(sys_capacity) (s.(sys_queue) ++ [mkEnvelope cmd (Some id)])
       (<[id := Waiting]> s.(sys_replies)))).
  { exists [], s.(sys_queue), []. split_and!; [apply progress_nil|done|done]. }
  assert (Hok2 : channels_ok s2).
  { clear -Hok1 Hsteps. induction Hsteps; [done|]. by eapply IHHsteps, channels_ok_step. }
  unfold runs_to, query_finish, gets, mbind, M_bind in Hf. simpl in Hf.
  destruct (query_steps fuel instant_max others cmd id _ _ _ _ Hsteps Hok1 (or_introl Hway))
    as [Hway2|(slot & Hl2 & Hne & Hex)].
  - pose proof (on_its_way_waits _ _ _ _ _ _ _ Hok2 Hway2) as Hw. by rewrite Hw in Hf.
  - rewrite Hl2 in Hf. destruct slot as [|r|]; [done| |].
    + injection Hf as <- <-. exact (Hex r eq_refl).
    + injection Hf as <- <-. by apply (co_dropped _ Hok2 id).
Qed.
