(* ===== verification/ActorTests.v ===== *)
(** The integration tests of [tests/bwu_actor.rs], run on the model: each drives the
    owner through the methods of its handle, on a runtime of one thread whose clock
    stands until the test advances it. *)

From Stdlib Require Import ZArith.
From S2P Require Import Prelude.
From S2P Require Import Mediums.
From S2P Require Import Proto.
From S2P Require Import Codec.
From S2P Require Import Frames.
From S2P Require Import FromBytes.
From S2P Require Import Client.
From S2P Require Import Channel.
From S2P Require Import ChannelManager.
From S2P Require Import Handler.
From S2P Require Import Testing.
From S2P Require Import UnitTests.
From S2P Require Import Manager.
From S2P Require Import Scenario.
From S2P Require Import IntegrationTests.
From S2P Require Import Actor.
From S2P Require Import System.

Open Scope string_scope.

(** * The runtime *)

Abbreviation FakeSystem := (System (BaseBwuHandler FakeBwuHandler) FakeEnv FakeChan).

(** The system and its clock. *)
Abbreviation ActorTest := (M (FakeSystem * Z)).

Definition LATEST_INSTANT : Z := (2 ^ 63 * 1000000000)%Z.

Definition through {A} (m : M FakeSystem A) : ActorTest A := fun '(s, now) =>
  match m s with Ret (a, s) => Ret (a, (s, now)) | Fault f => Fault f end.

(** The task of the owner has work: a command to take, or a timer that has elapsed. *)
Definition owner_ready (now : Z) (s : FakeSystem) : bool :=
  s.(sys_running) && (negb (is_nil s.(sys_queue)) || timer_elapsed now s.(sys_actor)).

(** The test waits, and the task of the owner runs until it waits as well. *)
Fixpoint owner_runs (fuel : nat) : ActorTest unit :=
  st ← get;
  if owner_ready st.2 st.1 then
    match fuel with
    | O => raise OutOfFuel
    | S fuel => _ ← through (owner_iteration 5 LATEST_INSTANT st.2 st.2 false); owner_runs fuel
    end
  else mret tt.

(** More iterations than a test asks for. *)
Definition yield_now : ActorTest unit := owner_runs 32.

Definition advance (d : Z) : ActorTest unit :=
  modify (fun '(s, now) => (s, now + d)%Z);; yield_now.

(** A query: it is sent, the owner runs, and the reply is looked at. *)
Definition asks {A} (query : M FakeSystem (option N)) (await : option N -> M FakeSystem A)
    : ActorTest A :=
  id ← through query; yield_now;; through (await id).

Definition ongoing (ep : string) : ActorTest bool :=
  asks (h_is_upgrade_ongoing ep) await_is_upgrade_ongoing.

Definition assert_upgrading (b : bool) : ActorTest unit :=
  b' ← ongoing "Endpoint1"; assert_eq b' b.

Definition assert_retry (delay : option Z) : ActorTest unit :=
  d ← asks (h_pending_retry_delay "Endpoint1") await_pending_retry_delay;
  assert_eq d (secs <$> delay).

Definition actor_records (n : N) : ActorTest FakeBwuHandlerRecords :=
  st ← get; unwrap ((sys_env st.1).(fe_records) !! n).

Definition assert_initialize_count (n : N) (count : nat) : ActorTest unit :=
  r ← actor_records n; assert_eq (length r.(rec_handle_initialize_calls)) count.

Definition new_fake (c : FakeEndpointChannel) : ActorTest FakeChan :=
  through (fun s => match fake_alloc c (sys_env s) with
                    | Ret (c, e) => Ret (c, set_sys_env e s)
                    | Fault f => Fault f
                    end).

(** [handlers_for] and [BwuActor::new]. *)
Definition spawned (mediums : list Medium) : FakeSystem * Z :=
  (BwuActor_new (fake_handlers mediums) BwuConfig_default "Local" 32 (fake_env mediums []), 0%Z).

(** * The tests *)

(** The lines with which every test begins. *)
Definition connects : ActorTest FakeChan :=
  through (h_connection_initiated "Endpoint1" false false);;
  through (h_connection_accepted "Endpoint1");;
  c ← new_fake (FakeEndpointChannel_new Bluetooth "ServiceA");
  through (h_register_channel "Endpoint1" c);;
  mret c.

Definition hears (data : bytes) : ActorTest unit :=
  match from_bytes data with
  | Ok frame => through (h_incoming_frame frame "Endpoint1" Bluetooth)
  | Err _ => raise Panicked
  end.

Definition hears_failure (tried : Medium) : ActorTest unit :=
  hears (for_bwu_failure (upgrade_path_info_for_medium tried)).

Definition initiates (medium : Medium) : ActorTest unit :=
  through (h_initiate_bwu "Endpoint1" medium).

Definition retry_timer_fires_and_backs_off_through_the_actor : ActorTest unit :=
  connects;;
  through (h_set_upgrade_mediums "Endpoint1" []);;
  hears_failure WebRtc;;
  assert_retry (Some 3%Z);;
  advance (secs 3);;
  assert_retry (Some 6%Z);;
  advance (secs 6);;
  assert_retry (Some 12%Z);;
  assert_initialize_count 1 0.

Definition full_upgrade_handshake_through_the_actor : ActorTest unit :=
  initial ← connects;
  initiates WebRtc;;
  assert_upgrading true;;
  r ← actor_records 1;
  init ← unwrap (r.(rec_handle_initialize_calls) !! 0);
  service_id ← unwrap init.(in_service_id);
  endpoint_id ← unwrap init.(in_endpoint_id);
  upgraded ← new_fake (set_read_output (Ok (for_bwu_introduction endpoint_id "" false))
                         (FakeEndpointChannel_new WebRtc service_id));
  through (h_incoming_connection (mkIncoming upgraded));;
  hears for_bwu_last_write;;
  hears for_bwu_safe_to_close;;
  events ← asks h_bandwidth_changed_events await_bandwidth_changed_events;
  assert_eq events [("Endpoint1", WebRtc)];;
  st ← get;
  assert (fake_is_closed initial (sys_env st.1));;
  assert_eq (fake_disconnection_reason initial (sys_env st.1)) Upgraded;;
  assert_eq (ch_is_paused upgraded (sys_env st.1)) false;;
  c ← asks (h_get_upgraded_channel "Endpoint1") await_get_upgraded_channel;
  continued ← unwrap c;
  st ← get;
  assert_eq (ch_medium continued (sys_env st.1)) WebRtc;;
  c ← asks (h_get_upgraded_channel "Unknown") await_get_upgraded_channel;
  assert_eq (is_some c) false.

Definition failure_re_initiates_on_next_medium_through_the_actor : ActorTest unit :=
  connects;;
  through (h_set_upgrade_mediums "Endpoint1" [WebRtc; WifiDirect]);;
  initiates WebRtc;;
  assert_upgrading true;;
  assert_initialize_count 1 1;;
  hears_failure WebRtc;;
  assert_upgrading true;;
  assert_initialize_count 2 1;;
  assert_retry None.

Definition a_new_initiate_cancels_the_pending_retry_timer : ActorTest unit :=
  connects;;
  through (h_set_upgrade_mediums "Endpoint1" []);;
  hears_failure WebRtc;;
  assert_retry (Some 3%Z);;
  initiates WebRtc;;
  assert_retry None;;
  assert_upgrading true;;
  advance (secs 30);;
  assert_retry None.

Definition shutdown_stops_the_actor : ActorTest unit :=
  connects;;
  initiates WebRtc;;
  assert_upgrading true;;
  assert_initialize_count 1 1;;
  through h_shutdown;;
  initiates WebRtc;;
  yield_now;;
  assert_initialize_count 1 1;;
  assert_upgrading false.

Example actor_tests_pass :
  forallb (fun t => passes t (spawned [WebRtc]))
    [retry_timer_fires_and_backs_off_through_the_actor;
     full_upgrade_handshake_through_the_actor;
     a_new_initiate_cancels_the_pending_retry_timer; shutdown_stops_the_actor]
  && passes failure_re_initiates_on_next_medium_through_the_actor (spawned [WebRtc; WifiDirect])
  = true.
Proof. vm_compute. reflexivity. Qed.
