(* ===== verification/Stack.v ===== *)
(** The whole stack: the owner with its handles over the TCP handlers, as
    [tests/wifi_lan_actor.rs] puts it together, on the loopback network. *)

From Stdlib Require Import ZArith NArith Lia.
From stdpp Require Import relations.
From S2P Require Import Prelude.
From S2P Require Import Mediums.
From S2P Require Import Proto.
From S2P Require Import Codec.
From S2P Require Import Frames.
From S2P Require Import FromBytes.
From S2P Require Import RoundTrip.
From S2P Require Import Client.
From S2P Require Import Channel.
From S2P Require Import ChannelManager.
From S2P Require Import Handler.
From S2P Require Import Manager.
From S2P Require Import Actor.
From S2P Require Import Invariant.
From S2P Require Import StreamChannel.
From S2P Require Import StreamSteps.
From S2P Require Import Ipv4.
From S2P Require Import Tcp.
From S2P Require Import WifiLan.
From S2P Require Import WifiHotspot.
From S2P Require Import TcpSteps.
From S2P Require Import Loopback.
From S2P Require Import Network.
From S2P Require Import Owner.
From S2P Require Import System.

(** * Definitions *)

(** ** Handlers of two kinds *)

(** [Box<dyn BwuHandler>] of two implementations: a call goes to the one that is
    in the box. *)
Section dyn.
Context {H1 H2 env chan : Type} `{BwuHandler H1 env chan} `{BwuHandler H2 env chan}.

Definition dyn_call {A} (m1 : M (H1 * env) A) (m2 : M (H2 * env) A) : M ((H1 + H2) * env) A :=
  fun s =>
  match s.1 with
  | inl h =>
      match m1 (h, s.2) with
      | Ret (a, (h', e)) => Ret (a, (inl h', e))
      | Fault f => Fault f
      end
  | inr h =>
      match m2 (h, s.2) with
      | Ret (a, (h', e)) => Ret (a, (inr h', e))
      | Fault f => Fault f
      end
  end.

#[export] Instance Dyn_BwuHandler : BwuHandler (H1 + H2) env chan := {|
  bh_initialize_upgraded_medium_for_endpoint c s ep :=
    dyn_call (bh_initialize_upgraded_medium_for_endpoint (chan := chan) c s ep)
      (bh_initialize_upgraded_medium_for_endpoint (chan := chan) c s ep);
  bh_revert_initiator_state :=
    dyn_call (bh_revert_initiator_state (chan := chan)) (bh_revert_initiator_state (chan := chan));
  bh_revert_initiator_state_for_endpoint s ep :=
    dyn_call (bh_revert_initiator_state_for_endpoint (chan := chan) s ep)
      (bh_revert_initiator_state_for_endpoint (chan := chan) s ep);
  bh_revert_responder_state s :=
    dyn_call (bh_revert_responder_state (chan := chan) s) (bh_revert_responder_state (chan := chan) s);
  bh_create_upgraded_endpoint_channel c s ep info :=
    dyn_call (bh_create_upgraded_endpoint_channel c s ep info)
      (bh_create_upgraded_endpoint_channel c s ep info);
  bh_get_upgrade_medium h :=
    match h with
    | inl h => bh_get_upgrade_medium (env := env) (chan := chan) h
    | inr h => bh_get_upgrade_medium (env := env) (chan := chan) h
    end;
  bh_on_endpoint_disconnect c ep :=
    dyn_call (bh_on_endpoint_disconnect (chan := chan) c ep)
      (bh_on_endpoint_disconnect (chan := chan) c ep);
|}.

Lemma wp_dyn {A} E (m1 : M (H1 * env) A) (m2 : M (H2 * env) A) s :
  (forall h, wp E m1 (fun _ _ => True) h) -> (forall h, wp E m2 (fun _ _ => True) h) ->
  wp E (dyn_call m1 m2) (fun _ _ => True) s.
Proof.
  intros Hm1 Hm2. unfold wp, dyn_call. destruct (s.1) as [h|h].
  - specialize (Hm1 (h, s.2)). unfold wp in Hm1. by destruct (m1 _) as [[a [h' e]]|f].
  - specialize (Hm2 (h, s.2)). unfold wp in Hm2. by destruct (m2 _) as [[a [h' e]]|f].
Qed.

(** A call on the box is a call on what is in it. *)
Ltac unbox :=
  match goal with Hc : handler_call _ _ _ _ _ |- _ =>
    inversion Hc as [? ? ? ? ? ? Hr|? ? ? Hr|? ? ? ? ? Hr|? ? ? ? Hr|? ? ? ? ? ? ? Hr|? ? ? ? ? Hr]; subst end;
  match goal with Hr : runs_to _ _ _ _ |- _ =>
    unfold runs_to in Hr; cbn in Hr; unfold dyn_call in Hr; cbn in Hr;
    match type of Hr with match ?m with _ => _ end = _ =>
      let Hm := fresh "Hm" in destruct m as [[? [? ?]]|?] eqn:Hm; [|done] end;
    injection Hr as ? ? ?; subst end;
  eexists; (split; [done|]);
  first [ by eapply hcall_initialize | by eapply hcall_revert | by eapply hcall_revert_endpoint
        | by eapply hcall_revert_responder | by eapply hcall_create | by eapply hcall_disconnect ].

Lemma boxed_left (h : H1) (h' : H1 + H2) e e' :
  handler_call (H1 + H2) env chan (inl h, e) (h', e') ->
  exists h1, h' = inl h1 /\ handler_call H1 env chan (h, e) (h1, e').
Proof. intros Hc. unbox. Qed.

Lemma boxed_right (h : H2) (h' : H1 + H2) e e' :
  handler_call (H1 + H2) env chan (inr h, e) (h', e') ->
  exists h2, h' = inr h2 /\ handler_call H2 env chan (h, e) (h2, e').
Proof. intros Hc. unbox. Qed.

#[export] Instance Dyn_faults E `{!HandlerFaults H1 env chan E} `{!HandlerFaults H2 env chan E} :
  HandlerFaults (H1 + H2) env chan E.
Proof.
  split; intros; apply wp_dyn; intros;
    first [apply hf_initialize|apply hf_revert|apply hf_revert_endpoint|apply hf_revert_responder
          |apply hf_create|apply hf_disconnect].
Qed.
End dyn.

(** ** Runs of a system *)

(** A move: a command, a query, an iteration of the owner, or a call of others. *)
Inductive move (env chan : Type) : Type :=
| MoveFire (cmd : BwuCommand chan)
| MoveQuery (cmd : BwuCommand chan)
| MoveOwner (now : Z)
| MoveOthers (A : Type) (m : M env A).
Arguments MoveFire {env chan} _.
Arguments MoveQuery {env chan} _.
Arguments MoveOwner {env chan} _.
Arguments MoveOthers {env chan} _ _.

Section moves.
Context {H env chan : Type} `{EndpointChannel env chan} `{BwuHandler H env chan} `{Codec}.
Context (fuel : nat) (instant_max : Z).

Definition do_move (mv : move env chan) : M (System H env chan) unit :=
  match mv with
  | MoveFire cmd => fire cmd
  | MoveQuery cmd => _ ← query_start cmd; mret tt
  | MoveOwner now =>
      s ← get;
      if s.(sys_running) &&
         (now + longest_delay s.(sys_actor).(act_world).(w_mgr).(config) <=? instant_max)%Z
      then _ ← owner_iteration fuel instant_max now now false; mret tt
      else raise Blocked
  | MoveOthers A m => fun s =>
      match m (sys_env s) with
      | Ret (_, e) => Ret (tt, set_sys_env e s)
      | Fault f => Fault f
      end
  end.

Fixpoint do_moves (mvs : list (move env chan)) : M (System H env chan) unit :=
  match mvs with
  | [] => mret tt
  | mv :: mvs => do_move mv;; do_moves mvs
  end.

Lemma moves_steps mvs (s s' : System H env chan) :
  runs_to (do_moves mvs) s tt s' -> rtc (sys_step fuel instant_max (fun _ _ => True)) s s'.
Proof.
  revert s. induction mvs as [|mv mvs IH]; intros s Hrun; [by injection Hrun as <-|].
  simpl in Hrun. unfold runs_to, mbind at 1, M_bind at 1 in Hrun.
  destruct (do_move mv s) as [[[] s1]|f] eqn:Hmv; [|done].
  eapply rtc_l; [|by apply IH]. destruct mv as [cmd|cmd|now|A m]; simpl in Hmv.
  - by apply (step_fire _ _ _ cmd).
  - unfold mbind, M_bind in Hmv. destruct (query_start cmd s) as [[id s2]|f] eqn:Hq; [|done].
    injection Hmv as <-. by apply (step_query _ _ _ cmd id).
  - unfold get, mbind, M_bind in Hmv. destruct (sys_running s) eqn:Hr; [|done]. simpl in Hmv.
    destruct (Z.leb_spec (now + longest_delay s.(sys_actor).(act_world).(w_mgr).(config))%Z instant_max);
      [|done].
    destruct (owner_iteration _ _ _ _ _ s) as [[i s2]|f] eqn:Ho; [|done]. injection Hmv as <-.
    by eapply (step_owner _ _ _ now now false).
  - destruct (m (sys_env s)) as [[a e]|f]; [|done]. injection Hmv as <-. by apply step_others.
Qed.
End moves.

(** ** The upgrade over TCP *)

Abbreviation TcpHandler := (BaseBwuHandler WifiLanBwuHandler + BaseBwuHandler (WifiHotspotBwuHandler FakeSoftAp))%type.
Abbreviation TcpSystem := (System TcpHandler LoopbackWorld StreamArc).

(** The channel before the upgrade is over the sockets 0 and 1. *)
Definition old_channel : StreamArc := mkStreamArc 0.

Definition tcp_world : LoopbackWorld :=
  mkTcpWorld
    (mkStreamHeap
       {[0%N := StreamChannel_new "ServiceA" "old" Bluetooth (mkTcpDuplexStream 0%N 0%N 0%N)]}
       (mkLoopback 40000 1 ∅ {[0%N := mkPipeState [] false; 1%N := mkPipeState [] false]} ∅ false))
    ∅ 0.

Definition tcp_handlers : gmap Medium TcpHandler :=
  {[WifiLan := inl (base_new WifiLan_new); WifiHotspot := inr (base_new (WifiHotspot_new FakeSoftAp_new))]}.

Definition tcp_system : TcpSystem :=
  BwuActor_new tcp_handlers BwuConfig_default "Local" 32 tcp_world.

(** The application connects "E1" and starts the upgrade. *)
Definition initiate_moves : list (move LoopbackWorld StreamArc) :=
  [MoveFire (ConnectionInitiated "E1" false false); MoveFire (ConnectionAccepted "E1");
   MoveFire (RegisterChannel "E1" old_channel); MoveFire (InitiateBwu "E1" WifiLan);
   MoveOwner 1; MoveOwner 2; MoveOwner 3; MoveOwner 4].

Definition initiated_system : TcpSystem := state_of (do_moves 3 (2 ^ 80) initiate_moves tcp_system) tcp_system.

(** What the peer of the old channel has received. *)
Definition received_frames (s : TcpSystem) : bytes :=
  (received 1 (sys_env s).(tw_heap).(sh_env)).(ps_buf).

(** The responder dials the listener, introduces itself, and the accept loop
    passes the connection to the owner. *)
Definition responder_dials : M LoopbackWorld (option StreamArc) := fun w =>
  match dial (mkSocketAddr LOCALHOST 40000) "ServiceA" LAN_CHANNEL_NAME WifiLan (tt, w) with
  | Ret (c, (_, w')) => Ret (c, w')
  | Fault f => Fault f
  end.

Definition respond_moves : list (move LoopbackWorld StreamArc) :=
  [MoveOthers _ responder_dials;
   MoveOthers _ (ch_write (mkStreamArc 1) (for_bwu_introduction "E1" "" false));
   MoveOthers _ (lo_accept_once 0 40000);
   MoveFire (IncomingConnection (mkIncoming (mkStreamArc 2)));
   MoveOwner 5;
   MoveOthers _ (sink_returns (os := Loopback) (sock := N) (cph := Empty_set) 0)].

Definition responded_system : TcpSystem :=
  state_of (do_moves 3 (2 ^ 80) respond_moves initiated_system) initiated_system.

(** A query after the upgrade was started: whether one is going on. *)
Definition asked_system : TcpSystem :=
  state_of (query_start (IsUpgradeOngoing "E1") initiated_system) initiated_system.

Definition answered_system : TcpSystem :=
  state_of (do_moves 3 (2 ^ 80) [MoveFire (ResetUpgrade "E1"); MoveOwner 5; MoveOwner 6] asked_system)
    asked_system.

(** * Lemmas *)

Lemma blocked_parks : parks_or_starves Blocked.
Proof. discriminate. Qed.

Lemma no_cipher_keeps E I : CipherKeeps Loopback Empty_set E I.
Proof. by split. Qed.

Lemma loopback_channel_faults : ChannelFaults LoopbackWorld StreamArc parks_or_starves.
Proof.
  apply (tcp_channel_faults (lsn := Z)); [exact blocked_parks|by apply Loopback_faults, blocked_parks|].
  apply no_cipher_keeps.
Qed.

Lemma tcp_handler_faults : HandlerFaults TcpHandler LoopbackWorld StreamArc parks_or_starves.
Proof.
  pose proof (Loopback_faults parks_or_starves blocked_parks) as HO.
  apply Dyn_faults; apply BaseBwuHandler_faults.
  - exact (WifiLan_faults _ blocked_parks).
  - exact (WifiHotspot_faults _ blocked_parks).
Qed.

Lemma initiate_runs : runs_to (do_moves 3 (2 ^ 80) initiate_moves) tcp_system tt initiated_system.
Proof. vm_compute. reflexivity. Qed.

Lemma respond_runs : runs_to (do_moves 3 (2 ^ 80) respond_moves) initiated_system tt responded_system.
Proof. vm_compute. reflexivity. Qed.

Lemma responded_reachable :
  rtc (sys_step 3 (2 ^ 80) (fun _ _ => True)) tcp_system responded_system.
Proof. etrans; [exact (moves_steps _ _ _ _ _ initiate_runs)|exact (moves_steps _ _ _ _ _ respond_runs)]. Qed.

Lemma initiated_reachable :
  rtc (sys_step 3 (2 ^ 80) (fun _ _ => True)) tcp_system initiated_system.
Proof. exact (moves_steps _ _ _ _ _ initiate_runs). Qed.

(** * Properties on the stack *)

(** The upgrade over TCP, up to the initiator's LAST_WRITE on the old channel:
    the peer has received the offer and the LAST_WRITE, and the system is safe. *)
Lemma system_safe_witness :
  config_ok (resolve_config BwuConfig_default) /\
  rtc (sys_step 3 (2 ^ 80) (fun _ _ => True)) tcp_system responded_system /\
  received_frames responded_system =
    framed (lan_offer WifiLan_new (mkSocketAddr LOCALHOST 40000)) ++ framed for_bwu_last_write /\
  mgr_wf responded_system.(sys_actor).(act_world).(w_mgr) /\ channels_ok responded_system.
Proof.
  assert (Hc : config_ok (resolve_config BwuConfig_default)) by (vm_compute; repeat split; discriminate).
  split; [exact Hc|]. split; [exact responded_reachable|]. split; [vm_compute; reflexivity|].
  destruct (system_safe loopback_channel_faults tcp_handler_faults 3 (2 ^ 80) (fun _ _ => True)
    tcp_handlers BwuConfig_default "Local" 32 tcp_world responded_system Hc responded_reachable)
    as (Hw & _ & Hch & _).
  split; [exact Hw|exact Hch].
Defined.

(** The query sees the upgrade, and not the reset that was sent after it. *)
Lemma query_sees_earlier_commands_witness :
  channels_ok initiated_system /\
  runs_to (query_finish (Some 0%N)) answered_system (Some (ReplyBool true)) answered_system /\
  exists ks w w',
    progress 3 (fun _ _ => True) ks initiated_system.(sys_actor).(act_world) w /\
    commands_of ks = [] /\
    runs_to (handle 3 (IsUpgradeOngoing "E1")) w (ReplyBool true) w'.
Proof.
  assert (Hc : config_ok (resolve_config BwuConfig_default)) by (vm_compute; repeat split; discriminate).
  destruct (system_ok_steps (HE := loopback_channel_faults) (HH := tcp_handler_faults) 3 (2 ^ 80)
    (fun _ _ => True) _ _ _ initiated_reachable
    (new_system_ok _ tcp_handlers BwuConfig_default "Local" 32 tcp_world Hc eq_refl)) as [_ _ Hok].
  assert (Hf : runs_to (query_finish (Some 0%N)) answered_system (Some (ReplyBool true)) answered_system)
    by (vm_compute; reflexivity).
  split; [exact Hok|]. split; [exact Hf|].
  apply (query_sees_earlier_commands 3 (2 ^ 80) (fun _ _ => True) (IsUpgradeOngoing "E1") 0%N
    initiated_system asked_system answered_system answered_system (Some (ReplyBool true)) Hok).
  - vm_compute. reflexivity.
  - apply (moves_steps 3 (2 ^ 80) [MoveFire (ResetUpgrade "E1"); MoveOwner 5; MoveOwner 6]).
    vm_compute. reflexivity.
  - exact Hf.
Defined.
