(* ===== verification/Composition.v ===== *)
(** The whole composed: the owner with its manager over the TCP handlers of
    [src/bwu/wifi_lan.rs] and [src/bwu/wifi_hotspot.rs], the accept threads of
    [src/bwu/tcp.rs] with the connections they are about to post, and the
    applications' handles, all at work on one world. *)

From Stdlib Require Import ZArith NArith Lia.
From stdpp Require Import relations.
From S2P Require Import Prelude.
From S2P Require Import Mediums.
From S2P Require Import Proto.
From S2P Require Import Codec.
From S2P Require Import Frames.
From S2P Require Import ServiceId.
From S2P Require Import Client.
From S2P Require Import Channel.
From S2P Require Import ChannelManager.
From S2P Require Import Handler.
From S2P Require Import Manager.
From S2P Require Import ManagerSteps.
From S2P Require Import Actor.
From S2P Require Import Invariant.
From S2P Require Import StreamChannel.
From S2P Require Import StreamSteps.
From S2P Require Import Ipv4.
From S2P Require Import Tcp.
From S2P Require Import WifiLan.
From S2P Require Import WifiHotspot.
From S2P Require Import TcpSteps.
From S2P Require Import Loopback.
From S2P Require Import Network.
From S2P Require Import Sessions.
From S2P Require Import Owner.
From S2P Require Import System.
From S2P Require Import Stack.

(** * Below the manager *)

(** What holds of the handlers and of the state behind the channels, and is kept
    by the calls that the manager makes on them. *)
Class LowerClosed (H env chan : Type) `{EndpointChannel env chan} `{BwuHandler H env chan}
    (L : gmap Medium H -> env -> Prop) : Prop := {
  lc_channel hs e e' : L hs e -> channel_call e e' -> L hs e';
  lc_handler hs e medium h h' e' :
    L hs e -> hs !! medium = Some h -> handler_call H env chan (h, e) (h', e') ->
    L (<[medium := h']> hs) e';
}.

Section lower.
Context {H env chan : Type} `{EndpointChannel env chan} `{BwuHandler H env chan} `{Codec}.
Context (L : gmap Medium H -> env -> Prop) `{HL : !LowerClosed H env chan L}.

Definition lower (w : World H env chan) : Prop := L w.(w_mgr).(handlers) w.(w_env).

#[export] Instance lower_closed_steps ep : closed_under_steps any lower ep.
Proof.
  split; intros w; intros; unfold lower in *; try done.
  - by eapply lc_channel.
  - eapply lc_handler; [done|done|]. by eapply endpoint_call_handler.
  - cbn. by case_match.
  - unfold retry_upgrades_after_delay, calculate_next_retry_delay, duration_checked.
    by repeat world_step.
Qed.

Lemma shutdown_lower : preserves any lower shutdown.
Proof.
  intros w Hw. unfold shutdown, cancel_all_retry_upgrade_alarms. repeat world_step.
  apply (revert_handlers_preserves _ lower).
  - intros w' medium h h' e Hw' Hh Hc. by eapply lc_handler.
  - apply handlers_keys_some.
  - done.
  - intros w' Hw'. by repeat world_step.
Qed.

(** The owner's works keep it. *)
Lemma do_work_lower fuel k : preserves any lower (do_work fuel k).
Proof.
  intros w Hw. destruct k as [cmd|ep]; [|by apply (fire_preserves any lower ep)].
  assert (Hcmd : forall ep, command_endpoint cmd = Some ep ->
    wp any (_ ← handle fuel cmd; mret tt) (fun _ => lower) w).
  { intros ep Hep. apply wp_bind.
    eapply wp_mono; [apply (handle_preserves any lower I fuel cmd ep)|done|done]; try done.
    apply lower_closed_steps. }
  destruct cmd; simpl in *; try (by eapply Hcmd).
  - do 2 apply wp_bind. eapply wp_mono.
    + apply (connection_preserves any lower); [|intros; apply lower_closed_steps|exact Hw].
      intros w' e Hw' Hc. by eapply lc_channel.
    + done.
    + by intros; apply wp_ret.
  - by apply shutdown_lower.
  - done.
Qed.

Lemma run_works_lower fuel ks : preserves any lower (run_works fuel ks).
Proof.
  induction ks as [|k ks IH]; intros w Hw; [done|]. apply wp_bind.
  eapply wp_mono; [by apply do_work_lower|done|]. intros [] w' Hw'. by apply IH.
Qed.
End lower.

(** * The stack *)

Section stack.
Context {os sock lsn cph ap : Type} `{TcpOsLaws os sock lsn} `{SoftAp os ap} `{Cipher os cph} `{CodecLaws}.

Abbreviation LanHandler := (BaseBwuHandler WifiLanBwuHandler).
Abbreviation HotspotHandler := (BaseBwuHandler (WifiHotspotBwuHandler ap)).
Abbreviation Handlers := (gmap Medium (LanHandler + HotspotHandler)).
Abbreviation World_ := (TcpWorld os sock cph).
Abbreviation Sys := (System (LanHandler + HotspotHandler) World_ StreamArc).

(** The two handlers, each under its medium. *)
Definition stack_handlers (lan : LanHandler) (hot : HotspotHandler) : Handlers :=
  {[WifiLan := inl lan; WifiHotspot := inr hot]}.

(** The threads that are inside their sinks. *)
Definition in_sink (id : N) (w : World_) : Prop :=
  exists t, w.(tw_threads) !! id = Some t /\ t.(at_in_sink) = true.

(** The system, with the connection that each thread in its sink is about to post
    to the owner. *)
Record Stacked : Type := mkStacked {
  st_sys : Sys;
  st_pending : gmap N (IncomingSocketConnection StreamArc);
}.

Definition st_world (st : Stacked) : World_ := sys_env st.(st_sys).
Definition set_world (w : World_) (st : Stacked) : Stacked :=
  mkStacked (set_sys_env w st.(st_sys)) st.(st_pending).

(** A step of everything but the owner: a command or a query of some handle, an
    iteration of an accept loop on whatever [accept] returned, the post of a
    connection and the return of its sink, or any work on channels, sockets and
    the network that leaves the threads alone. *)
Inductive beside : Stacked -> Stacked -> Prop :=
| be_fire cmd st s' :
    runs_to (fire cmd) st.(st_sys) tt s' -> beside st (mkStacked s' st.(st_pending))
| be_query cmd id st s' :
    runs_to (query_start cmd) st.(st_sys) id s' -> beside st (mkStacked s' st.(st_pending))
| be_accept id incoming r st w' :
    runs_to (accept_once id incoming) (st_world st) r w' ->
    beside st (mkStacked (set_sys_env w' st.(st_sys))
                 match r with
                 | Some conn => <[id := conn]> st.(st_pending)
                 | None => st.(st_pending)
                 end)
| be_post id conn st s' w' :
    st.(st_pending) !! id = Some conn ->
    runs_to (connection_sink conn) st.(st_sys) tt s' ->
    runs_to (sink_returns (os := os) (sock := sock) (cph := cph) id) (sys_env s') tt w' ->
    beside st (mkStacked (set_sys_env w' s') (delete id st.(st_pending)))
| be_world st w' :
    same_threads (st_world st) w' -> beside st (set_world w' st).

(** A step of the stack: an iteration of the owner, or a step beside it. *)
Inductive stack_step (fuel : nat) (instant_max : Z) : Stacked -> Stacked -> Prop :=
| stack_owner now now' dropped i st s' :
    st.(st_sys).(sys_running) = true ->
    runs_to (owner_iteration fuel instant_max now now' dropped) st.(st_sys) i s' ->
    stack_step fuel instant_max st (mkStacked s' st.(st_pending))
| stack_beside st st' : beside st st' -> stack_step fuel instant_max st st'.

Definition stack_start (bind_ip advertise_ip : Ipv4Addr) (softap : ap) (cfg : BwuConfig)
    (local : string) (buffer : nat) (o : os) : Stacked :=
  mkStacked
    (BwuActor_new
       (stack_handlers (base_new (WifiLan_with_endpoint bind_ip advertise_ip))
          (base_new (WifiHotspot_new softap)))
       cfg local buffer (mkTcpWorld (mkStreamHeap ∅ o) ∅ 0))
    ∅.

Definition stack_reachable (fuel : nat) (instant_max : Z) (st : Stacked) : Prop :=
  exists bind_ip advertise_ip softap cfg local buffer o,
    rtc (stack_step fuel instant_max) (stack_start bind_ip advertise_ip softap cfg local buffer o) st.

(** ** What holds below the manager *)

(** The sessions that the bookkeeping has for a medium and a service. *)
Definition sessions (lan : LanHandler) (hot : HotspotHandler) (m : Medium) (u : string) : gset string :=
  match m with
  | WifiLan => default ∅ (lan.(base_active) !! u)
  | WifiHotspot => default ∅ (hot.(base_active) !! u)
  | _ => ∅
  end.

(** Threads, listeners and sessions agree, and the threads in [sinks] are those
    inside their sinks. *)
Record below (sinks : N -> Prop) (lan : LanHandler) (hot : HotspotHandler) (w : World_) : Prop := {
  bl_device : device_ok (mkDevice lan.(base_inner) hot.(base_inner) w);
  bl_lan : covers lan.(base_active) lan.(base_inner).(wl_listeners);
  bl_hotspot : covers hot.(base_active) hot.(base_inner).(wh_listeners);
  bl_sinks id : in_sink id w <-> sinks id;
}.

Definition stack_below (sinks : N -> Prop) (hs : Handlers) (w : World_) : Prop :=
  exists lan hot, hs = stack_handlers lan hot /\ below sinks lan hot w.

(** * Lemmas *)

Implicit Types (lan : WifiLanBwuHandler) (hot : WifiHotspotBwuHandler ap) (w : World_).
Implicit Types (bl : LanHandler) (bh : HotspotHandler) (sinks : N -> Prop) (st : Stacked).

Definition sinks_kept w w' : Prop := forall id, in_sink id w' <-> in_sink id w.

Lemma same_sinks w w' : same_threads w w' -> sinks_kept w w'.
Proof. intros [Ht _] id. unfold in_sink. by rewrite Ht. Qed.

Definition device_sinks sinks (d : TcpDevice os sock cph ap) : Prop :=
  device_ok d /\ forall id, in_sink id d.(dv_world) <-> sinks id.

(** Starting and stopping listeners leaves the threads inside sinks. *)
Lemma start_listener_sinks ip s n m w :
  (w.(tw_threads) !! w.(tw_next) = None) ->
  wp any (start_listener ip s n m) (fun _ => sinks_kept w) w.
Proof.
  intros Hfresh. apply wp_start_listener; [intros w' Hw; by apply same_sinks|].
  intros l w' _ _ _ Ht id. unfold in_sink. rewrite Ht. split; intros (t & Hl & Hs).
  - apply lookup_insert_Some in Hl as [[_ <-]|[_ Hl]]; [done|by exists t].
  - exists t. split; [|done]. rewrite lookup_insert_ne; [done|]. intros <-. by rewrite Hfresh in Hl.
Qed.

Lemma stop_listener_sinks l w :
  wp any (stop_listener l) (fun _ => sinks_kept w) w.
Proof.
  unfold stop_listener, set_threads. do 2 wp_step. apply wp_bind, wp_on_os.
  intros r w1 [Ht1 Hn1] _. simpl in *. unfold join_thread. do 2 wp_step. rewrite Ht1.
  destruct (tw_threads w !! ls_thread l) as [t|] eqn:Hl.
  - rewrite lookup_insert_eq. cbn. destruct (at_in_sink t) eqn:Hs; [by apply wp_raise|].
    cbn. case_match; [by apply wp_raise|]. apply wp_modify. intros id. unfold in_sink. cbn. rewrite Ht1, delete_insert_eq.
    split; intros (t' & Ht' & Hs').
    + apply lookup_delete_Some in Ht' as [_ Ht']. by exists t'.
    + exists t'. split; [|done]. apply lookup_delete_Some. split; [|done].
      intros <-. rewrite Hl in Ht'. injection Ht' as <-. congruence.
  - rewrite Hl. apply wp_ret. intros id. unfold in_sink. by rewrite Ht1.
Qed.

Lemma next_thread_fresh (d : TcpDevice os sock cph ap) : device_ok d -> d.(dv_world).(tw_threads) !! d.(dv_world).(tw_next) = None.
Proof.
  intros Hok. apply eq_None_not_Some. intros [t Ht].
  destruct (ok_thread _ Hok _ _ Ht) as (_ & l & Hl & Hid). apply (ok_next _ Hok) in Hl. lia.
Qed.

(** ** The calls of the handlers *)

Lemma sinks_kept_refl w : sinks_kept w w.
Proof. done. Qed.

Lemma sinks_kept_trans w1 w2 w3 : sinks_kept w1 w2 -> sinks_kept w2 w3 -> sinks_kept w1 w3.
Proof. intros H12 H23 id. by rewrite (H23 id). Qed.

#[local] Instance lan_keeps_sinks sinks hot :
  MediumKeeps WifiLanBwuHandler World_ StreamArc (fun s => device_sinks sinks (mkDevice s.1 hot s.2)).
Proof.
  pose proof (lan_keeps_device (os := os) (sock := sock) (cph := cph) hot) as HD.
  assert (Hboth : forall A (m : M (WifiLanBwuHandler * World_) A) s,
    wp any m (fun _ s' => device_ok (mkDevice s'.1 hot s'.2)) s ->
    wp any m (fun _ s' => sinks_kept s.2 s'.2) s ->
    (forall id, in_sink id s.2 <-> sinks id) ->
    wp any m (fun _ s' => device_sinks sinks (mkDevice s'.1 hot s'.2)) s).
  { intros A m s Hd Hs Hin. eapply wp_mono; [exact (wp_conj _ _ _ _ _ Hd Hs)|done|].
    intros a s' [Hd' Hs']. split; [done|]. intros id. cbn. by rewrite (Hs' id). }
  split; intros; destruct s as [lan w]; match goal with Hp : device_sinks _ _ |- _ => destruct Hp as [Hd Hin] end;
    apply Hboth; try exact Hin; cbn in *.
  - by apply lan_initialize_ok.
  - unfold lan_handle_initialize. do 2 wp_step. destruct (_ !! u) as [l|]; [by apply wp_ret|].
    apply wp_bind, wp_on_world. eapply wp_mono; [apply start_listener_sinks; by eapply next_thread_fresh in Hd|done|].
    intros [l|] w' Hw'; [|by apply wp_ret]. unfold lan_listeners. by repeat wp_step.
  - by apply lan_revert_ok.
  - unfold lan_handle_revert. do 2 wp_step. destruct (_ !! u) as [l|]; [|by apply wp_ret].
    unfold lan_listeners. do 2 wp_step. apply wp_on_world. eapply wp_mono; [apply stop_listener_sinks|done|done].
  - exact (@mk_create _ _ _ _ _ HD c u ep info (lan, w) Hd).
  - unfold lan_create_upgraded_endpoint_channel. destruct (lan_target info); [|by apply wp_ret].
    apply wp_dial. intros r w' Hw. by apply same_sinks.
  - exact (@mk_disconnect _ _ _ _ _ HD c ep (lan, w) Hd).
  - exact (sinks_kept_refl w).
Qed.

#[local] Instance hotspot_keeps_sinks sinks lan :
  MediumKeeps (WifiHotspotBwuHandler ap) World_ StreamArc (fun s => device_sinks sinks (mkDevice lan s.1 s.2)).
Proof.
  pose proof (hotspot_keeps_device (ap := ap) (os := os) (sock := sock) (cph := cph) lan) as HD.
  assert (Hboth : forall A (m : M (WifiHotspotBwuHandler ap * World_) A) s,
    wp any m (fun _ s' => device_ok (mkDevice lan s'.1 s'.2)) s ->
    wp any m (fun _ s' => sinks_kept s.2 s'.2) s ->
    (forall id, in_sink id s.2 <-> sinks id) ->
    wp any m (fun _ s' => device_sinks sinks (mkDevice lan s'.1 s'.2)) s).
  { intros A m s Hd Hs Hin. eapply wp_mono; [exact (wp_conj _ _ _ _ _ Hd Hs)|done|].
    intros a s' [Hd' Hs']. split; [done|]. intros id. cbn. by rewrite (Hs' id). }
  split; intros; destruct s as [hot w]; match goal with Hp : device_sinks _ _ |- _ => destruct Hp as [Hd Hin] end;
    apply Hboth; try exact Hin; cbn in *.
  - by apply hotspot_initialize_ok.
  - unfold hotspot_handle_initialize. do 2 wp_step. destruct (_ !! u) as [l|]; [by apply wp_ret|].
    apply wp_bind, wp_on_softap. intros [creds|] w1 Hw1; [|by apply wp_ret, same_sinks].
    apply wp_bind, wp_on_world. eapply wp_mono; [apply start_listener_sinks|done|].
    + destruct Hw1 as [Ht1 Hn1]. cbn. rewrite Ht1, Hn1. by eapply next_thread_fresh in Hd.
    + intros [l|] w2 Hw2.
      * unfold hotspot_listeners. repeat wp_step. cbn. by apply (sinks_kept_trans _ w1); [apply same_sinks|].
      * apply wp_bind, wp_on_softap. intros [] w3 Hw3. apply wp_ret. cbn.
        apply (sinks_kept_trans _ w1); [by apply same_sinks|].
        apply (sinks_kept_trans _ w2); [done|by apply same_sinks].
  - by apply hotspot_revert_ok.
  - unfold hotspot_handle_revert. do 2 wp_step. destruct (_ !! u) as [l|]; [|by apply wp_ret].
    unfold hotspot_listeners. do 3 wp_step. apply wp_on_world.
    eapply wp_mono; [apply stop_listener_sinks|done|]. intros [] w1 Hw1.
    apply wp_on_softap. intros [] w2 Hw2. apply (sinks_kept_trans _ w1); [done|by apply same_sinks].
  - exact (@mk_create _ _ _ _ _ HD c u ep info (hot, w) Hd).
  - unfold hotspot_create_upgraded_endpoint_channel.
    destruct (hotspot_target info) as [[creds addr]|]; [|by apply wp_ret].
    apply wp_bind, wp_on_softap. intros [] w1 Hw1; [|by apply wp_ret, same_sinks].
    apply wp_dial. intros r w2 Hw. apply same_sinks. by eapply same_threads_trans.
  - exact (@mk_disconnect _ _ _ _ _ HD c ep (hot, w) Hd).
  - apply wp_on_softap. intros [] w1 Hw1. by apply same_sinks.
Qed.

(** A call on the boxed handler is a call on the one in the box. *)
Lemma boxed_call bl bh medium (h h' : LanHandler + HotspotHandler) w w' :
  stack_handlers bl bh !! medium = Some h ->
  handler_call (LanHandler + HotspotHandler) World_ StreamArc (h, w) (h', w') ->
  (exists bl', h = inl bl /\ h' = inl bl' /\ medium = WifiLan /\
     handler_call LanHandler World_ StreamArc (bl, w) (bl', w')) \/
  (exists bh', h = inr bh /\ h' = inr bh' /\ medium = WifiHotspot /\
     handler_call HotspotHandler World_ StreamArc (bh, w) (bh', w')).
Proof.
  intros Hh Hc. unfold stack_handlers in Hh. apply lookup_insert_Some in Hh as [[<- <-]|[_ Hh]].
  - left. apply boxed_left in Hc as (bl' & -> & Hc). by exists bl'.
  - right. apply lookup_singleton_Some in Hh as [<- <-]. apply boxed_right in Hc as (bh' & -> & Hc).
    by exists bh'.
Qed.

Lemma insert_lan bl bh bl' : <[WifiLan := inl bl']> (stack_handlers bl bh) = stack_handlers bl' bh.
Proof. unfold stack_handlers. by rewrite insert_insert_eq. Qed.

Lemma insert_hotspot bl bh bh' : <[WifiHotspot := inr bh']> (stack_handlers bl bh) = stack_handlers bl bh'.
Proof.
  unfold stack_handlers. rewrite insert_insert_ne by done. by rewrite insert_singleton_eq.
Qed.

#[export] Instance below_closed sinks :
  LowerClosed (LanHandler + HotspotHandler) World_ StreamArc (stack_below sinks).
Proof.
  split.
  - intros hs w w' (bl & bh & -> & [Hd Hl Hh Hs]) Hc%channel_call_threads. exists bl, bh. split; [done|].
    split; [by eapply (device_ok_same (mkDevice _ _ w))|done|done|].
    intros id. by rewrite (same_sinks _ _ Hc id).
  - intros hs w medium h h' w' (bl & bh & -> & [Hd Hl Hh Hs]) Hm Hc.
    destruct (boxed_call _ _ _ _ _ _ _ Hm Hc) as [(bl' & -> & -> & -> & Hcall)|(bh' & -> & -> & -> & Hcall)].
    + exists bl', bh. split; [apply insert_lan|].
      destruct (handler_call_keeps _ (HP := lan_keeps_sinks sinks bh.(base_inner)) _ _ Hcall) as [Hd' Hs'];
        [by split|].
      split; [done| |done|done]. exact (handler_call_covered wl_listeners _ _ Hcall Hl).
    + exists bl, bh'. split; [apply insert_hotspot|].
      destruct (handler_call_keeps _ (HP := hotspot_keeps_sinks sinks bl.(base_inner)) _ _ Hcall) as [Hd' Hs'];
        [by split|].
      split; [done|done| |done]. exact (handler_call_covered wh_listeners _ _ Hcall Hh).
Qed.

(** ** The steps of the stack *)

(** What an iteration of a loop does to the threads in sinks. *)
Lemma accept_once_sinks id incoming w :
  wp any (accept_once id incoming)
    (fun r w' => match r with
                 | None => sinks_kept w w'
                 | Some _ => forall id', in_sink id' w' <-> id' = id \/ in_sink id' w
                 end) w.
Proof.
  unfold accept_once. do 2 wp_step. destruct (tw_threads w !! id) as [t|] eqn:Hl; [|by apply wp_ret].
  destruct (at_in_sink t) eqn:Hs; [by apply wp_ret|].
  assert (Hend : sinks_kept w (mkTcpWorld w.(tw_heap) (delete id w.(tw_threads)) w.(tw_next))).
  { intros id'. unfold in_sink. cbn. split; intros (t' & Ht' & Hs').
    - apply lookup_delete_Some in Ht' as [_ Ht']. by exists t'.
    - exists t'. split; [|done]. apply lookup_delete_Some. split; [|done]. intros <-. congruence. }
  unfold set_threads. destruct (at_stop t); [repeat wp_step; exact Hend|].
  destruct incoming as [stream|]; [|repeat wp_step; exact Hend].
  apply wp_bind, wp_tcp_channel; [intros w' Hw _; by apply wp_ret, same_sinks|].
  intros c w' [Ht Hn] _. repeat wp_step. intros id'. unfold in_sink. cbn. rewrite Ht. split.
  - intros (t' & [[<- _]|[_ Ht']]%lookup_insert_Some & Hs'); [by left|right; by exists t'].
  - intros [->|(t' & Ht' & Hs')].
    + exists (set_at_in_sink true t). by rewrite lookup_insert_eq.
    + exists t'. rewrite lookup_insert_ne; [done|]. intros <-. congruence.
Qed.

Lemma sink_returns_sinks id w :
  wp any (sink_returns id) (fun _ w' => forall id', in_sink id' w' <-> id' <> id /\ in_sink id' w) w.
Proof.
  unfold sink_returns, set_threads. apply wp_modify. intros id'. unfold in_sink. cbn.
  destruct (tw_threads w !! id) as [t|] eqn:Hl; split.
  - intros (t' & [[<- <-]|[Hne Ht']]%lookup_insert_Some & Hs'); [done|]. split; [done|by exists t'].
  - intros (Hne & t' & Ht' & Hs'). exists t'. by rewrite lookup_insert_ne.
  - intros (t' & Ht' & Hs'). split; [|by exists t']. intros ->. congruence.
  - by intros (_ & ?).
Qed.

Lemma below_iff sinks sinks' bl bh w :
  (forall id, sinks id <-> sinks' id) -> below sinks bl bh w -> below sinks' bl bh w.
Proof. intros Hiff [Hd Hl Hh Hs]. split; try done. intros id. by rewrite Hs. Qed.

(** What holds in every state. *)
Definition stack_ok st : Prop :=
  stack_below (fun id => is_Some (st.(st_pending) !! id))
    st.(st_sys).(sys_actor).(act_world).(w_mgr).(handlers) (st_world st).

(** The connection of a thread is taken out of its hands. *)
Lemma connection_sink_world conn (s s' : Sys) :
  runs_to (connection_sink conn) s tt s' -> s'.(sys_actor) = s.(sys_actor).
Proof.
  intros Hr. unfold runs_to, connection_sink, mbind, M_bind in Hr.
  destruct (send _ s) as [[r s1]|f] eqn:Hs; [|done]. injection Hr as <-.
  apply send_returns in Hs as [(_ & -> & _)|(_ & _ & _ & ->)]; done.
Qed.

Lemma beside_ok st st' : beside st st' -> stack_ok st -> stack_ok st'.
Proof.
  intros Hb Hok. unfold stack_ok, st_world, sys_env in *.
  destruct Hb as [cmd st s' Hr|cmd id st s' Hr|id incoming r st w' Hr|id conn st s' w' Hp Hr Hret|st w' Hw].
  - by apply fire_returns in Hr as [->|(_ & _ & ->)].
  - by apply query_returns in Hr as [(_ & -> & _)|(n & _ & _ & _ & _ & ->)].
  - destruct Hok as (bl & bh & Hhs & [Hd Hl Hh Hs]). exists bl, bh. cbn. split; [done|].
    pose proof (returned _ _ _ _ _ Hr (accept_once_ok id incoming _ _ _ Hd)) as [Hd' _].
    pose proof (returned _ _ _ _ _ Hr (accept_once_sinks id incoming _)) as Hs'.
    split; [exact Hd'|done|done|]. intros id'. destruct r as [conn|]; rewrite (Hs' id'); [|apply Hs].
    unfold st_world, sys_env. rewrite Hs, lookup_insert_is_Some. destruct (decide (id' = id)) as [->|Hne]; naive_solver.
  - apply connection_sink_world in Hr. unfold sys_env in Hret. rewrite Hr in Hret. destruct Hok as (bl & bh & Hhs & [Hd Hl Hh Hs]).
    exists bl, bh. cbn. rewrite Hr. split; [done|].
    split; [exact (returned _ _ _ _ _ Hret (sink_returns_ok id _ _ _ Hd))|done|done|].
    intros id'. rewrite (returned _ _ _ _ _ Hret (sink_returns_sinks id _) id').
    rewrite Hs, lookup_delete_is_Some. naive_solver.
  - destruct Hok as (bl & bh & Hhs & [Hd Hl Hh Hs]). exists bl, bh. cbn. split; [done|].
    split; [by eapply (device_ok_same (mkDevice _ _ _))|done|done|].
    intros id'. rewrite (same_sinks _ _ Hw id'). apply Hs.
Qed.

Lemma stack_step_ok fuel instant_max st st' :
  stack_step fuel instant_max st st' -> stack_ok st -> stack_ok st'.
Proof.
  intros [now now' dropped i st1 s' Hr Hrun|st1 st2 Hb]; [|by apply beside_ok].
  intros Hok. apply owner_returns in Hrun as [Hworks _].
  exact (returned _ _ _ _ _ Hworks (run_works_lower _ fuel _ _ Hok)).
Qed.

Lemma stack_start_ok bind_ip advertise_ip softap cfg local buffer o :
  stack_ok (stack_start bind_ip advertise_ip softap cfg local buffer o).
Proof.
  eexists _, _. split; [reflexivity|]. split; cbn.
  - apply device_start_ok.
  - intros u [l Hl]. by rewrite lookup_empty in Hl.
  - intros u [l Hl]. by rewrite lookup_empty in Hl.
  - intros id. unfold in_sink. cbn. split; [intros (t & Ht & _)|intros [? Hl]]; by rewrite lookup_empty in *.
Qed.

Lemma stack_reachable_ok fuel instant_max st : stack_reachable fuel instant_max st -> stack_ok st.
Proof.
  intros (b & a & ap' & cfg & local & buffer & o & Hsteps).
  pose proof (stack_start_ok b a ap' cfg local buffer o) as Hok.
  induction Hsteps as [|st1 st2 st3 Hstep _ IH]; [done|]. apply IH. by eapply stack_step_ok.
Qed.

(** ** The end *)

(** A handler that has nothing set up and no session. *)
Definition emptied (h : LanHandler + HotspotHandler) : Prop :=
  match h with
  | inl b => b.(base_active) = ∅ /\ b.(base_inner).(wl_listeners) = ∅
  | inr b => b.(base_active) = ∅ /\ b.(base_inner).(wh_listeners) = ∅
  end.

Lemma revert_empties sinks hs w medium (h h' : LanHandler + HotspotHandler) w' :
  stack_below sinks hs w -> hs !! medium = Some h ->
  runs_to (bh_revert_initiator_state (chan := StreamArc)) (h, w) tt (h', w') -> emptied h'.
Proof.
  intros (bl & bh & -> & [Hd Hl Hh Hs]) Hm Hr. unfold stack_handlers in Hm.
  apply lookup_insert_Some in Hm as [[<- <-]|[_ Hm]]; [|apply lookup_singleton_Some in Hm as [<- <-]];
    unfold runs_to in Hr; cbn in Hr; unfold dyn_call in Hr; cbn in Hr;
    match type of Hr with match ?m with _ => _ end = _ =>
      destruct m as [[[] [b e]]|f] eqn:Hrun; [|done] end; injection Hr as <- <-.
  - exact (returned _ _ _ _ _ Hrun (revert_all_empty wl_listeners (bl, w) Hl)).
  - exact (returned _ _ _ _ _ Hrun (revert_all_empty wh_listeners (bh, w) Hh)).
Qed.

(** The handlers, reverted one after the other. *)
Lemma revert_handlers_empty sinks mediums (w : World (LanHandler + HotspotHandler) World_ StreamArc) :
  lower (stack_below sinks) w ->
  Forall (fun m => is_Some (w.(w_mgr).(handlers) !! m)) mediums ->
  wp any (revert_handlers mediums)
    (fun _ v' => lower (stack_below sinks) v' /\
       (forall m h, v'.(w_mgr).(handlers) !! m = Some h ->
          m ∈ mediums \/ (exists h0, w.(w_mgr).(handlers) !! m = Some h0 /\ emptied h0) ->
          emptied h)) w.
Proof.
  revert w. induction mediums as [|medium rest IH]; intros w Hw Hall; cbn [revert_handlers].
  - apply wp_ret. split; [done|]. intros m h Hm [Hin|(h0 & Hm0 & He)]; [by apply elem_of_nil in Hin|].
    rewrite Hm in Hm0. by injection Hm0 as ->.
  - apply Forall_cons in Hall as [[h Hh] Hall].
    apply wp_bind, (wp_handler_op any medium h); [done|by unfold wp; repeat case_match|].
    intros [] h' e Hr. set (w1 := upd_env e _).
    assert (Hlow : lower (stack_below sinks) w1).
    { eapply (lc_handler (L := stack_below sinks)); [exact Hw|exact Hh|]. by eapply hcall_revert. }
    pose proof (revert_empties _ _ _ _ _ _ _ Hw Hh Hr) as Hemp.
    eapply wp_mono; [apply (IH w1 Hlow)|done|].
    + eapply Forall_impl; [exact Hall|]. intros m [h2 Hm]. cbn.
      destruct (decide (medium = m)) as [->|Hne]; [rewrite lookup_insert_eq|rewrite lookup_insert_ne by done]; by eexists.
    + intros _ w2 [Hlow2 He]. split; [done|]. intros m h2 Hm Hcase. apply (He m h2 Hm).
      destruct (decide (m = medium)) as [->|Hne].
      * right. exists h'. cbn. by rewrite lookup_insert_eq.
      * destruct Hcase as [[Hin|Hin]%elem_of_cons|(h0 & Hm0 & He0)]; [done|by left|].
        right. exists h0. cbn. by rewrite lookup_insert_ne.
Qed.

Lemma shutdown_empties sinks (w : World (LanHandler + HotspotHandler) World_ StreamArc) :
  lower (stack_below sinks) w ->
  wp any shutdown (fun _ v' => lower (stack_below sinks) v' /\
    v'.(w_env).(tw_threads) = ∅ /\
    forall m h, v'.(w_mgr).(handlers) !! m = Some h -> emptied h) w.
Proof.
  intros Hw. unfold shutdown, cancel_all_retry_upgrade_alarms. repeat world_step.
  eapply wp_mono; [apply revert_handlers_empty; [exact Hw|apply handlers_keys_some]|done|].
  intros [] w1 [Hlow He]. repeat world_step. cbn. split; [exact Hlow|].
  destruct Hlow as (bl & bh & Hhs & [Hd _ _ _]), Hw as (bl0 & bh0 & Hhs0 & _).
  assert (Hin : forall m, is_Some (stack_handlers bl bh !! m) ->
    m ∈ (map_to_list w.(w_mgr).(handlers)).*1).
  { intros m Hm. assert (is_Some (stack_handlers bl0 bh0 !! m)) as [h0 Hh0].
    { unfold stack_handlers in *. rewrite lookup_insert_is_Some in *. destruct Hm as [->|[Hne Hm]]; [by left|].
      right. split; [done|]. by rewrite lookup_singleton_is_Some in *. }
    apply list_elem_of_fmap. exists (m, h0). split; [done|]. apply elem_of_map_to_list. by rewrite Hhs0. }
  assert (Hall : forall m h, w1.(w_mgr).(handlers) !! m = Some h -> emptied h).
  { intros m h Hm. apply (He m h Hm). left. apply Hin. rewrite <-Hhs. by exists h. }
  split; [|exact Hall]. apply (no_records_no_threads (mkDevice bl.(base_inner) bh.(base_inner) w1.(w_env))).
  - exact Hd.
  - apply (Hall WifiLan (inl bl)). by rewrite Hhs.
  - apply (Hall WifiHotspot (inr bh)). by rewrite Hhs.
Qed.

(** A thread in its sink is there after any shutdown, which ends all: none returns. *)
Lemma shutdown_no_sink st (v : World (LanHandler + HotspotHandler) World_ StreamArc) id :
  stack_ok st -> runs_to shutdown st.(st_sys).(sys_actor).(act_world) tt v -> ~ in_sink id (st_world st).
Proof.
  intros Hok Hrun Hin.
  destruct (returned _ _ _ _ _ Hrun (shutdown_empties _ _ Hok)) as ((bl & bh & _ & [_ _ _ Hs]) & Ht & _).
  destruct Hok as (bl0 & bh0 & _ & [_ _ _ Hs0]). apply Hs0, Hs in Hin as (t & Hl & _).
  by rewrite Ht, lookup_empty in Hl.
Qed.

(** The recorded listeners whose threads are alive can be dialled. *)
Definition listeners_up (up : SocketAddr -> os -> Prop) st : Prop :=
  forall bl bh m s l,
    st.(st_sys).(sys_actor).(act_world).(w_mgr).(handlers) = stack_handlers bl bh ->
    listener_at (mkDevice bl.(base_inner) bh.(base_inner) (st_world st)) m s = Some l ->
    is_Some ((st_world st).(tw_threads) !! l.(ls_thread)) ->
    up l.(ls_addr) (st_world st).(tw_heap).(sh_env).

(** A shutdown returns when nothing keeps a stop from returning. *)
Definition stack_calm (up : SocketAddr -> os -> Prop) (hs : Handlers) (w : World_) : Prop :=
  exists bl bh, hs = stack_handlers bl bh /\ calm up (mkDevice bl.(base_inner) bh.(base_inner) w).

Section calm.
Context (up : SocketAddr -> os -> Prop) `{HD : !Dialable os sock lsn ap up}.

Lemma revert_calm hs (e : World_) medium (h : LanHandler + HotspotHandler) :
  stack_calm up hs e -> hs !! medium = Some h ->
  wp no_fault (bh_revert_initiator_state (chan := StreamArc))
    (fun _ r => stack_calm up (<[medium := r.1]> hs) r.2) (h, e).
Proof.
  intros (bl & bh & -> & Hc) Hm. unfold stack_handlers in Hm. unfold wp. cbn. unfold dyn_call. cbn.
  apply lookup_insert_Some in Hm as [[<- <-]|[Hne Hm]]; [|apply lookup_singleton_Some in Hm as [<- <-]].
  - pose proof (revert_all_returns _ (HV := lan_reverts up bh.(base_inner)) (bl, e) Hc) as Hr.
    unfold wp in Hr. cbn in Hr. destruct (base_revert_initiator_state _) as [[[] [bl' e']]|f]; [|done].
    exists bl', bh. cbn. split; [unfold stack_handlers; by rewrite insert_insert_eq|exact Hr].
  - pose proof (revert_all_returns _ (HV := hotspot_reverts up bl.(base_inner)) (bh, e) Hc) as Hr.
    unfold wp in Hr. cbn in Hr. destruct (base_revert_initiator_state _) as [[[] [bh' e']]|f]; [|done].
    exists bl, bh'. cbn. split; [|exact Hr]. unfold stack_handlers.
    rewrite insert_insert_ne by done. by rewrite insert_singleton_eq.
Qed.

Lemma revert_handlers_return mediums (w : World (LanHandler + HotspotHandler) World_ StreamArc) :
  stack_calm up w.(w_mgr).(handlers) w.(w_env) ->
  Forall (fun m => is_Some (w.(w_mgr).(handlers) !! m)) mediums ->
  wp no_fault (revert_handlers mediums) (fun _ _ => True) w.
Proof.
  revert w. induction mediums as [|medium rest IH]; intros w Hw Hall; cbn [revert_handlers]; [by apply wp_ret|].
  apply Forall_cons in Hall as [[h Hh] Hall]. pose proof (revert_calm _ _ _ _ Hw Hh) as Hr.
  apply wp_bind, (wp_handler_op _ medium h); [done|by eapply wp_mono|].
  intros [] h' e Hrun. apply IH.
  - unfold wp in Hr. by rewrite Hrun in Hr.
  - eapply Forall_impl; [exact Hall|]. intros m Hm. cbn. rewrite lookup_insert_is_Some'. by right.
Qed.

Lemma shutdown_returns (w : World (LanHandler + HotspotHandler) World_ StreamArc) :
  stack_calm up w.(w_mgr).(handlers) w.(w_env) -> exists v, runs_to shutdown w tt v.
Proof.
  intros Hw. enough (wp no_fault shutdown (fun _ _ => True) w) as Hwp.
  { destruct (wp_no_fault_runs _ _ _ Hwp) as ([] & v & Hr & _). by exists v. }
  unfold shutdown, cancel_all_retry_upgrade_alarms. repeat world_step.
  eapply wp_mono; [apply revert_handlers_return; [exact Hw|apply handlers_keys_some]|done|].
  intros [] w1 _. by repeat world_step.
Qed.
End calm.

(** ** Connections about to be posted *)

(** The commands in the channel, and the connections that are about to be. *)
Definition load st : nat := length st.(st_sys).(sys_queue) + size st.(st_pending).

Lemma sink_posts id conn st :
  st.(st_sys).(sys_running) = true -> length st.(st_sys).(sys_queue) < st.(st_sys).(sys_capacity) ->
  st.(st_pending) !! id = Some conn ->
  exists s' w', beside st (mkStacked (set_sys_env w' s') (delete id st.(st_pending))) /\
    s' = mkSystem st.(st_sys).(sys_actor) true st.(st_sys).(sys_capacity)
           (st.(st_sys).(sys_queue) ++ [mkEnvelope (IncomingConnection conn) None])
           st.(st_sys).(sys_replies) /\
    w'.(tw_heap) = (st_world st).(tw_heap) /\
    (forall id2, is_Some (w'.(tw_threads) !! id2) -> is_Some ((st_world st).(tw_threads) !! id2)).
Proof.
  intros Hr Hl Hp.
  exists (mkSystem st.(st_sys).(sys_actor) true st.(st_sys).(sys_capacity)
            (st.(st_sys).(sys_queue) ++ [mkEnvelope (IncomingConnection conn) None]) st.(st_sys).(sys_replies)),
    (mkTcpWorld (st_world st).(tw_heap)
       (match (st_world st).(tw_threads) !! id with
        | Some t => <[id := set_at_in_sink false t]> (st_world st).(tw_threads)
        | None => (st_world st).(tw_threads)
        end) (st_world st).(tw_next)).
  split; [eapply (be_post id conn); [exact Hp| |reflexivity]|].
  - unfold runs_to, connection_sink, send, get, modify, mbind, M_bind. rewrite Hr. cbn [negb].
    destruct (Nat.leb_spec (sys_capacity (st_sys st)) (length (sys_queue (st_sys st)))); [lia|].
    cbn. by rewrite Hr.
  - split; [done|]. split; [done|]. intros id2. cbn.
    destruct (tw_threads _ !! id) as [t|] eqn:Ht; [|done].
    rewrite lookup_insert_is_Some. intros [<-|[_ ?]]; [by rewrite Ht|done].
Qed.

(** Where there is room for all, every thread can post and leave its sink. *)
Lemma all_post up st :
  stack_ok st -> st.(st_sys).(sys_running) = true -> load st <= st.(st_sys).(sys_capacity) ->
  listeners_up up st ->
  exists st', rtc beside st st' /\ st'.(st_pending) = ∅ /\ stack_ok st' /\ listeners_up up st'.
Proof.
  remember (size st.(st_pending)) as n eqn:Hn. revert st Hn. induction n as [|n IH];
    intros st Hn Hok Hr Hload Hup; unfold load in Hload; rewrite <-Hn in Hload.
  { exists st. split; [done|]. split; [by apply map_size_empty_inv|done]. }
  destruct (map_choose st.(st_pending)) as (id & conn & Hp).
  { intros He. rewrite He, map_size_empty in Hn. done. }
  destruct (sink_posts id conn st Hr ltac:(lia) Hp) as (s' & w' & Hb & Hs' & Hheap & Hth).
  set (st1 := mkStacked _ _) in Hb.
  destruct (IH st1) as (st' & Hrtc & He & Hok' & Hup').
  - cbn. rewrite map_size_delete_Some by (by exists conn). lia.
  - by eapply beside_ok.
  - by subst s'.
  - unfold load. cbn. rewrite map_size_delete_Some by (by exists conn). subst s'. cbn.
    rewrite length_app. cbn. lia.
  - intros bl bh m s l Hhs Hat Hal. subst s'. cbn in Hhs, Hat, Hal |- *. rewrite Hheap.
    apply (Hup bl bh m s l); [exact Hhs|exact Hat|by apply Hth].
  - exists st'. split; [by eapply rtc_l|done].
Qed.

(** Beside the owner the load only grows, and the channel holds what fits. *)
Definition queue_fits st : Prop := length st.(st_sys).(sys_queue) <= st.(st_sys).(sys_capacity).

Lemma beside_load st st' :
  beside st st' -> st.(st_sys).(sys_running) = true -> queue_fits st ->
  st'.(st_sys).(sys_running) = true /\ queue_fits st' /\
  st'.(st_sys).(sys_capacity) = st.(st_sys).(sys_capacity) /\ load st <= load st'.
Proof.
  unfold queue_fits, load. intros Hb Hr Hq.
  destruct Hb as [cmd st s' Hrun|cmd qid st s' Hrun|id incoming r st w' Hrun|id conn st s' w' Hp Hrun _|st w' Hw]; cbn.
  - apply fire_returns in Hrun as [->|(_ & Hl & ->)]; [done|]. cbn. rewrite length_app. cbn. by split_and!; try lia.
  - apply query_returns in Hrun as [(_ & -> & Hno)|(n & _ & _ & _ & Hl & ->)]; [done|].
    cbn. rewrite length_app. cbn. by split_and!; try lia.
  - split_and!; [done|done|done|]. destruct r as [conn|]; [|done].
    rewrite map_size_insert. destruct (_ !! id); cbn; lia.
  - unfold runs_to, connection_sink, mbind, M_bind in Hrun.
    destruct (send _ _) as [[r s1]|f] eqn:Hs; [|done]. injection Hrun as <-.
    apply send_returns in Hs as [(_ & _ & Hno)|(_ & _ & Hl & ->)]; [congruence|]. cbn.
    rewrite length_app, map_size_delete_Some by (by exists conn). cbn.
    assert (size st.(st_pending) <> 0)
      by (intros He; apply map_size_empty_inv in He; by rewrite He in Hp).
    by split_and!; try lia.
  - done.
Qed.

Lemma beside_all_load st st' :
  rtc beside st st' -> st.(st_sys).(sys_running) = true -> queue_fits st ->
  queue_fits st' /\ st'.(st_sys).(sys_capacity) = st.(st_sys).(sys_capacity) /\ load st <= load st'.
Proof.
  induction 1 as [st|st1 st2 st3 Hb _ IH]; intros Hr Hq; [done|].
  destruct (beside_load _ _ Hb Hr Hq) as (Hr' & Hq' & Hc & Hl).
  destruct (IH Hr' Hq') as (Hq3 & Hc3 & Hl3). split_and!; [done|congruence|lia].
Qed.

Lemma stack_reachable_fits fuel instant_max st : stack_reachable fuel instant_max st -> queue_fits st.
Proof.
  intros (b & a & ap' & cfg & local & buffer & o & Hsteps).
  assert (Hstart : queue_fits (stack_start b a ap' cfg local buffer o)) by (unfold queue_fits; cbn; lia).
  induction Hsteps as [|st1 st2 st3 Hstep _ IH]; [done|]. apply IH.
  destruct Hstep as [now now' dropped i st1 s' _ Hrun|st1 st2 Hb].
  - apply owner_returns in Hrun as [_ Hi]. unfold queue_fits in *. cbn in *. destruct i.
    + rewrite Hi. cbn. lia.
    + destruct Hi as (ev & q & r & w & Hq & _ & _ & Hs). rewrite Hs, Hq in *. cbn in *. lia.
    + destruct Hi as [_ Hs]. by rewrite Hs.
  - destruct (sys_running (st_sys st1)) eqn:Hr; [by eapply beside_load|].
    unfold queue_fits in *. destruct Hb as [cmd st s' Hrun|cmd qid st s' Hrun|id incoming r st w' Hrun|id conn st s' w' Hp Hrun _|st w' Hw]; cbn.
    + apply fire_returns in Hrun as [->|(Hno & _)]; [done|congruence].
    + apply query_returns in Hrun as [(_ & -> & _)|(n & _ & _ & Hno & _)]; [done|congruence].
    + done.
    + unfold runs_to, connection_sink, mbind, M_bind in Hrun.
      destruct (send _ _) as [[r s1]|f] eqn:Hs; [|done]. injection Hrun as <-.
      apply send_returns in Hs as [(_ & -> & _)|(_ & Hno & _)]; [done|congruence].
    + done.
Qed.

(** ** A full channel *)

(** The channel of commands is full, the owner runs, and a thread is about to
    post. *)
Record jammed (id : N) st : Prop := {
  jm_running : st.(st_sys).(sys_running) = true;
  jm_full : st.(st_sys).(sys_capacity) <= length st.(st_sys).(sys_queue);
  jm_pending : is_Some (st.(st_pending) !! id);
}.

Lemma beside_jammed id st st' : beside st st' -> jammed id st -> jammed id st'.
Proof.
  intros Hb [Hr Hf Hp].
  destruct Hb as [cmd st s' Hrun|cmd qid st s' Hrun|id2 incoming r st w' Hrun|id2 conn st s' w' Hp2 Hrun _|st w' Hw].
  - apply fire_returns in Hrun as [->|(_ & Hl & ->)]; [done|lia].
  - apply query_returns in Hrun as [(_ & -> & Hno)|(n & _ & _ & _ & Hl & ->)]; [congruence|lia].
  - split; [done|done|]. cbn. destruct r; [|done]. rewrite lookup_insert_is_Some.
    destruct (decide (id2 = id)); [by left|by right].
  - unfold runs_to, connection_sink, mbind, M_bind in Hrun.
    destruct (send _ _) as [[r s1]|f] eqn:Hs; [|done].
    apply send_returns in Hs as [(_ & _ & Hno)|(_ & _ & Hl & _)]; [congruence|lia].
  - done.
Qed.
End stack.

(** ** What a shutdown does *)

Section shutdowns.
Context {os sock lsn cph ap : Type} `{TcpOsLaws os sock lsn} `{SoftAp os ap} `{Cipher os cph} `{CodecLaws}.
Implicit Types st : Stacked (os := os) (sock := sock) (cph := cph) (ap := ap).

Lemma beside_all_ok st st' : rtc beside st st' -> stack_ok st -> stack_ok st'.
Proof. induction 1 as [|st1 st2 st3 Hb _ IH]; [done|]. intros Hok. by eapply IH, beside_ok. Qed.

Lemma shutdown_unhindered (up : SocketAddr -> os -> Prop) `{HD : !Dialable os sock lsn ap up} st :
  stack_ok st -> st.(st_pending) = ∅ -> listeners_up up st ->
  exists v, runs_to shutdown st.(st_sys).(sys_actor).(act_world) tt v.
Proof.
  intros (bl & bh & Hhs & [_ _ _ Hs]) He Hup. apply (shutdown_returns up).
  exists bl, bh. split; [exact Hhs|]. split.
  - intros id t Ht. apply not_true_is_false. intros Hin.
    destruct (proj1 (Hs id)) as [c Hc]; [by exists t|]. by rewrite He, lookup_empty in Hc.
  - intros m s l Hat Hal. by apply (Hup bl bh m s l).
Qed.

Lemma shutdown_leaves_nothing st (v : World _ _ StreamArc) :
  stack_ok st -> runs_to shutdown st.(st_sys).(sys_actor).(act_world) tt v ->
  v.(w_env).(tw_threads) = ∅ /\
  exists bl bh, v.(w_mgr).(handlers) = stack_handlers bl bh /\
    bl.(base_active) = ∅ /\ bl.(base_inner).(wl_listeners) = ∅ /\
    bh.(base_active) = ∅ /\ bh.(base_inner).(wh_listeners) = ∅.
Proof.
  intros Hok Hrun.
  destruct (returned _ _ _ _ _ Hrun (shutdown_empties _ _ Hok)) as ((bl & bh & Hhs & _) & Ht & He).
  split; [exact Ht|]. exists bl, bh. split; [exact Hhs|].
  destruct (He WifiLan (inl bl)) as [? ?]; [by rewrite Hhs|].
  destruct (He WifiHotspot (inr bh)) as [? ?]; [by rewrite Hhs|]. done.
Qed.
End shutdowns.

(** ** Runs *)

Section runs.
Context {os sock lsn cph ap : Type} `{TcpOsLaws os sock lsn} `{SoftAp os ap} `{Cipher os cph} `{CodecLaws}.
Context (fuel : nat) (instant_max : Z).

Abbreviation Stacked := (Stacked (os := os) (sock := sock) (cph := cph) (ap := ap)).

(** Moves of the stack, and what a move does. *)
Inductive stack_move : Type :=
| DoFire (cmd : BwuCommand StreamArc)
| DoOwner (now : Z)
| DoAccept (id : N) (incoming : option sock)
| DoPost (id : N)
| DoHeap (h : StreamHeap os (TcpDuplexStream sock) cph).

Definition stack_do (mv : stack_move) (st : Stacked) : option Stacked :=
  let w := st_world st in
  match mv with
  | DoFire cmd =>
      match fire cmd st.(st_sys) with Ret (_, s) => Some (mkStacked s st.(st_pending)) | Fault _ => None end
  | DoOwner now =>
      if st.(st_sys).(sys_running) then
        match owner_iteration fuel instant_max now now false st.(st_sys) with
        | Ret (_, s) => Some (mkStacked s st.(st_pending))
        | Fault _ => None
        end
      else None
  | DoAccept id incoming =>
      match accept_once id incoming w with
      | Ret (r, w') =>
          Some (mkStacked (set_sys_env w' st.(st_sys))
                  match r with Some conn => <[id := conn]> st.(st_pending) | None => st.(st_pending) end)
      | Fault _ => None
      end
  | DoPost id =>
      match st.(st_pending) !! id with
      | None => None
      | Some conn =>
          match connection_sink conn st.(st_sys) with
          | Fault _ => None
          | Ret (_, s) =>
              match sink_returns (os := os) (sock := sock) (cph := cph) id (sys_env s) with
              | Ret (_, w') => Some (mkStacked (set_sys_env w' s) (delete id st.(st_pending)))
              | Fault _ => None
              end
          end
      end
  | DoHeap h => Some (set_world (mkTcpWorld h w.(tw_threads) w.(tw_next)) st)
  end.

Fixpoint stack_run (mvs : list stack_move) (st : Stacked) : option Stacked :=
  match mvs with
  | [] => Some st
  | mv :: mvs => match stack_do mv st with Some st' => stack_run mvs st' | None => None end
  end.

Lemma stack_do_step mv st st' : stack_do mv st = Some st' -> stack_step fuel instant_max st st'.
Proof.
  destruct mv as [cmd|now|id incoming|id|h]; cbn.
  - destruct (fire cmd _) as [[[] s]|f] eqn:Hr; [|done]. intros [= <-]. by apply stack_beside, (be_fire cmd).
  - destruct (sys_running _) eqn:Hrun; [|done].
    destruct (owner_iteration _ _ _ _ _ _) as [[i s]|f] eqn:Hr; [|done]. intros [= <-].
    by eapply (stack_owner _ _ now now false i).
  - destruct (accept_once _ _ _) as [[r w']|f] eqn:Hr; [|done]. intros [= <-].
    by apply stack_beside, (be_accept id incoming).
  - destruct (_ !! id) as [conn|] eqn:Hp; [|done].
    destruct (connection_sink conn _) as [[[] s]|f] eqn:Hr; [|done].
    destruct (sink_returns (os := os) (sock := sock) (cph := cph) id (sys_env s)) as [[[] w']|f] eqn:Hs; [|done]. intros [= <-].
    by eapply stack_beside, (be_post id conn).
  - intros [= <-]. by apply stack_beside, be_world.
Qed.

Lemma stack_run_steps mvs st st' :
  stack_run mvs st = Some st' -> rtc (stack_step fuel instant_max) st st'.
Proof.
  revert st. induction mvs as [|mv mvs IH]; intros st; cbn; [by intros [= ->]|].
  destruct (stack_do mv st) as [st1|] eqn:Hd; [|done]. intros Hrun.
  eapply rtc_l; [by eapply stack_do_step|by apply IH].
Qed.
End runs.

(** * Properties *)

Section properties.
Context {os sock lsn cph ap : Type} `{TcpOsLaws os sock lsn} `{SoftAp os ap} `{Cipher os cph} `{CodecLaws}.
Context (fuel : nat) (instant_max : Z).
Implicit Types st : Stacked (os := os) (sock := sock) (cph := cph) (ap := ap).

(** C16. In every state that the whole stack reaches, whatever the owner, the
    handles, the accept threads and the network do and in whatever order: each
    accept thread that is alive runs for the listener that the handler of its
    medium records for its service, and some endpoint has a session of that
    service in that handler's bookkeeping, so no listener outlives its last
    session; and the threads inside their sinks are exactly those whose connection
    the owner has still to be given. *)
Theorem threads_have_sessions st :
  stack_reachable fuel instant_max st ->
  exists bl bh,
    st.(st_sys).(sys_actor).(act_world).(w_mgr).(handlers) = stack_handlers bl bh /\
    (forall id t, (st_world st).(tw_threads) !! id = Some t ->
       t.(at_stop) = false /\
       exists l ep, listener_at (mkDevice bl.(base_inner) bh.(base_inner) (st_world st))
                      t.(at_medium) t.(at_service_id) = Some l /\
         l.(ls_thread) = id /\ ep ∈ sessions bl bh t.(at_medium) t.(at_service_id)) /\
    (forall id, in_sink id (st_world st) <-> is_Some (st.(st_pending) !! id)).
Proof.
  intros (bl & bh & Hhs & [Hd Hl Hh Hs])%stack_reachable_ok. exists bl, bh. split; [exact Hhs|]. split; [|exact Hs].
  intros id t Ht. destruct (ok_thread _ Hd id t Ht) as (Hstop & l & Hat & Hid). split; [done|].
  assert (exists ep, ep ∈ sessions bl bh (at_medium t) (at_service_id t)) as [ep Hep]; [|by exists l, ep].
  unfold listener_at in Hat. cbn in Hat. destruct (at_medium t); try done; cbn.
  - apply Hh. destruct (wh_listeners _ !! _) as [hl|]; [by exists hl|done].
  - apply Hl. by exists l.
Qed.

(** C17. A shutdown that the owner has begun, in any state that the whole stack
    reaches and where the listeners can be dialled, waits for the accept threads that
    are inside their sinks, and can still return exactly when the channel of commands
    has room for every connection that they are about to post: then the threads' own
    steps lead to a state in which it returns, and otherwise no steps beside the
    owner do.  Wherever it returns it has ended every accept thread and emptied both
    handlers: no listener and no session is left. *)
Theorem shutdown_ends_threads st (up : SocketAddr -> os -> Prop) :
  stack_reachable fuel instant_max st -> st.(st_sys).(sys_running) = true ->
  Dialable os sock lsn ap up -> listeners_up up st ->
  ((exists st' w', rtc beside st st' /\ runs_to shutdown st'.(st_sys).(sys_actor).(act_world) tt w') <->
   length st.(st_sys).(sys_queue) + size st.(st_pending) <= st.(st_sys).(sys_capacity)) /\
  (forall st' w', rtc beside st st' -> runs_to shutdown st'.(st_sys).(sys_actor).(act_world) tt w' ->
     w'.(w_env).(tw_threads) = ∅ /\
     exists bl bh, w'.(w_mgr).(handlers) = stack_handlers bl bh /\
       bl.(base_active) = ∅ /\ bl.(base_inner).(wl_listeners) = ∅ /\
       bh.(base_active) = ∅ /\ bh.(base_inner).(wh_listeners) = ∅).
Proof.
  intros Hreach Hr HD Hup. pose proof (stack_reachable_ok _ _ _ Hreach) as Hok.
  pose proof (stack_reachable_fits _ _ _ Hreach) as Hq. split; [split|].
  - intros (st' & v & Hb & Hrun). destruct (beside_all_load _ _ Hb Hr Hq) as (Hq' & Hc & Hl).
    assert (He : st'.(st_pending) = ∅); [|unfold load, queue_fits in *; rewrite He, map_size_empty in Hl; lia].
    apply map_empty. intros id. apply eq_None_not_Some. intros Hp.
    pose proof (beside_all_ok _ _ Hb Hok) as Hok'. apply (shutdown_no_sink st' v id Hok' Hrun).
    destruct Hok' as (bl & bh & _ & [_ _ _ Hs]). by apply Hs.
  - intros Hroom. destruct (all_post up st Hok Hr Hroom Hup) as (st' & Hb & He & Hok' & Hup').
    destruct (shutdown_unhindered up st' Hok' He Hup') as [v Hv]. by exists st', v.
  - intros st' v Hb Hrun. exact (shutdown_leaves_nothing st' v (beside_all_ok _ _ Hb Hok) Hrun).
Qed.

(** C21. The owner and its own accept threads can wait for each other for ever: once
    the channel of commands is full and a thread is about to post a connection, then
    as long as the owner takes no further command, whatever everything else does
    leaves it so; no work that the owner is in can end that thread, and a shutdown
    that it is in does not return. *)
Theorem full_channel_deadlock st st' id :
  stack_reachable fuel instant_max st -> jammed id st -> rtc beside st st' ->
  jammed id st' /\
  (forall ks v, runs_to (run_works fuel ks) st'.(st_sys).(sys_actor).(act_world) tt v ->
     in_sink id v.(w_env)) /\
  (forall v, ~ runs_to shutdown st'.(st_sys).(sys_actor).(act_world) tt v).
Proof.
  intros Hok%stack_reachable_ok Hj Hb.
  assert (stack_ok st' /\ jammed id st') as [Hok' Hj'].
  { induction Hb as [st|st1 st2 st3 Hstep _ IH]; [done|].
    apply IH; [by eapply beside_ok|by eapply beside_jammed]. }
  split; [done|]. split.
  - intros ks v Hrun.
    destruct (returned _ _ _ _ _ Hrun (run_works_lower _ fuel ks _ Hok')) as (bl & bh & _ & [_ _ _ Hs]).
    apply Hs. by destruct Hj'.
  - intros v Hrun. apply (shutdown_no_sink st' v id Hok' Hrun).
    destruct Hok' as (bl & bh & _ & [_ _ _ Hs]). apply Hs. by destruct Hj'.
Qed.
End properties.

(** ** On the loopback network *)

Abbreviation LoStacked := (Stacked (os := Loopback) (sock := N) (cph := Empty_set) (ap := FakeSoftAp)).

Definition lo_stack_start : LoStacked :=
  stack_start LOCALHOST LOCALHOST FakeSoftAp_new BwuConfig_default "Local" 1 Loopback_empty.

(** The application connects "E1" over a channel and starts the upgrade to
    WIFI_LAN; the channel of commands has room for one. *)
Definition lo_upgrade_moves : list (stack_move (os := Loopback) (sock := N) (cph := Empty_set)) :=
  [DoHeap tcp_world.(tw_heap);
   DoFire (ConnectionInitiated "E1" false false); DoOwner 1;
   DoFire (ConnectionAccepted "E1"); DoOwner 2;
   DoFire (RegisterChannel "E1" old_channel); DoOwner 3;
   DoFire (InitiateBwu "E1" WifiLan); DoOwner 4].

(** A connection comes in while the channel is full. *)
Definition lo_jam_moves : list (stack_move (os := Loopback) (sock := N) (cph := Empty_set)) :=
  lo_upgrade_moves ++ [DoFire (ResetUpgrade "E1"); DoAccept 0 (Some 1%N)].

Definition lo_after (mvs : list stack_move) : LoStacked :=
  default lo_stack_start (stack_run 3 (2 ^ 80) mvs lo_stack_start).

Lemma lo_after_reachable mvs st :
  stack_run 3 (2 ^ 80) mvs lo_stack_start = Some st -> stack_reachable 3 (2 ^ 80) st.
Proof.
  intros Hrun. exists LOCALHOST, LOCALHOST, FakeSoftAp_new, BwuConfig_default, "Local"%string, 1, Loopback_empty.
  by apply (stack_run_steps _ _ mvs).
Qed.

Definition lo_jammed : LoStacked := lo_after lo_jam_moves.

Lemma lo_jammed_reachable : stack_reachable 3 (2 ^ 80) lo_jammed.
Proof. apply (lo_after_reachable lo_jam_moves). vm_compute. reflexivity. Qed.

(** The listener of the upgrade has its thread, and the endpoint its session. *)
Lemma threads_have_sessions_witness :
  (st_world lo_jammed).(tw_threads) !! 0%N =
    Some (mkAcceptThread (wrap_initiator_upgrade_service_id "ServiceA") LAN_CHANNEL_NAME WifiLan false true) /\
  exists bl bh,
    lo_jammed.(st_sys).(sys_actor).(act_world).(w_mgr).(handlers) = stack_handlers bl bh /\
    (exists ep, ep ∈ sessions bl bh WifiLan (wrap_initiator_upgrade_service_id "ServiceA")) /\
    is_Some (lo_jammed.(st_pending) !! 0%N).
Proof.
  assert (Ht : (st_world lo_jammed).(tw_threads) !! 0%N =
    Some (mkAcceptThread (wrap_initiator_upgrade_service_id "ServiceA") LAN_CHANNEL_NAME WifiLan false true))
    by (vm_compute; reflexivity).
  split; [exact Ht|].
  destruct (threads_have_sessions 3 (2 ^ 80) lo_jammed lo_jammed_reachable) as (bl & bh & Hhs & Hth & Hs).
  exists bl, bh. split; [exact Hhs|].
  destruct (Hth _ _ Ht) as (_ & l & ep & _ & _ & Hep). split; [exists ep; exact Hep|].
  apply Hs. eexists. split; [exact Ht|reflexivity].
Defined.

(** Every recorded listener's port is bound. *)
Definition lo_addresses (h : TcpHandler) : list SocketAddr :=
  match h with
  | inl b => (fun p => p.2.(ls_addr)) <$> map_to_list b.(base_inner).(wl_listeners)
  | inr b => (fun p => p.2.(hl_listener).(ls_addr)) <$> map_to_list b.(base_inner).(wh_listeners)
  end.

Definition lo_all_up (hs : gmap Medium TcpHandler) (o : Loopback) : bool :=
  forallb (fun p => forallb (fun a => is_some (o.(lo_backlogs) !! a.(sock_port))) (lo_addresses p.2))
    (map_to_list hs).

Lemma lo_all_up_spec hs o m h a :
  lo_all_up hs o = true -> hs !! m = Some h -> a ∈ lo_addresses h -> lo_up a o.
Proof.
  intros Hall Hh Ha. apply is_some_true.
  exact (forallb_elem _ _ _ (forallb_entry _ _ _ _ Hall Hh) Ha).
Qed.

Lemma lo_listeners_up (st : LoStacked) :
  lo_all_up st.(st_sys).(sys_actor).(act_world).(w_mgr).(handlers) (st_world st).(tw_heap).(sh_env) = true ->
  listeners_up lo_up st.
Proof.
  intros Hb bl bh m s l Hhs Hat _. rewrite Hhs in Hb.
  pose proof (fun m h a => lo_all_up_spec _ _ m h a Hb) as Hall.
  unfold listener_at in Hat. destruct m; try discriminate Hat; cbn in Hat.
  - apply fmap_Some in Hat as (hl & Hl & ->). apply (Hall WifiHotspot (inr bh)); [done|].
    apply list_elem_of_fmap. exists (s, hl). split; [done|]. by apply elem_of_map_to_list.
  - apply (Hall WifiLan (inl bl)); [done|].
    apply list_elem_of_fmap. exists (s, l). split; [done|]. by apply elem_of_map_to_list.
Qed.

(** A connection has been accepted, and its thread is inside the sink while the
    channel has room. *)
Definition lo_posting : LoStacked := lo_after (lo_upgrade_moves ++ [DoAccept 0 (Some 1%N)]).

Lemma lo_posting_reachable : stack_reachable 3 (2 ^ 80) lo_posting.
Proof. apply (lo_after_reachable (lo_upgrade_moves ++ [DoAccept 0 (Some 1%N)])). vm_compute. reflexivity. Qed.

Lemma lo_posting_up : listeners_up lo_up lo_posting.
Proof. apply lo_listeners_up. vm_compute. reflexivity. Qed.

Lemma shutdown_ends_threads_witness :
  in_sink 0 (st_world lo_posting) /\
  exists st' w', rtc beside lo_posting st' /\
    runs_to shutdown st'.(st_sys).(sys_actor).(act_world) tt w' /\ w'.(w_env).(tw_threads) = ∅.
Proof.
  split; [eexists; split; vm_compute; reflexivity|].
  destruct (shutdown_ends_threads 3 (2 ^ 80) lo_posting lo_up lo_posting_reachable ltac:(vm_compute; reflexivity)
    lo_dialable lo_posting_up) as [Hreturns Hends].
  destruct (proj2 Hreturns) as (st' & w' & Hb & Hrun); [vm_compute; repeat constructor|].
  exists st', w'. split; [exact Hb|]. split; [exact Hrun|]. exact (proj1 (Hends st' w' Hb Hrun)).
Defined.

Lemma full_channel_deadlock_witness :
  jammed 0 lo_jammed /\
  forall v, ~ runs_to shutdown lo_jammed.(st_sys).(sys_actor).(act_world) tt v.
Proof.
  assert (Hj : jammed 0 lo_jammed).
  { split; [vm_compute; reflexivity|vm_compute; lia|vm_compute; by eexists]. }
  split; [exact Hj|].
  exact (proj2 (proj2 (full_channel_deadlock 3 (2 ^ 80) lo_jammed lo_jammed 0 lo_jammed_reachable Hj
    (rtc_refl _ _)))).
Defined.
