(* ===== verification/Stuck.v ===== *)
(** Where the upgrade of [src/bwu/manager.rs] does not come to its end: the owner
    that waits for the channel which it alone resumes, and the channel that
    nothing resumes any more. *)

From Stdlib Require Import ZArith NArith Lia.
From S2P Require Import Prelude.
From S2P Require Import Mediums.
From S2P Require Import Proto.
From S2P Require Import Codec.
From S2P Require Import Frames.
From S2P Require Import FromBytes.
From S2P Require Import RoundTrip.
From S2P Require Import Client.
From S2P Require Import Channel.
From S2P Require Import ChannelManager.
From S2P Require Import Handler.
From S2P Require Import Manager.
From S2P Require Import Scenario.
From S2P Require Import ManagerSteps.
From S2P Require Import Actor.
From S2P Require Import StreamChannel.
From S2P Require Import StreamSteps.
From S2P Require Import Ipv4.
From S2P Require Import Tcp.
From S2P Require Import WifiLan.
From S2P Require Import WifiHotspot.
From S2P Require Import Loopback.
From S2P Require Import Network.
From S2P Require Import System.
From S2P Require Import Upgrade.
From S2P Require Import Stack.

(** * Definitions *)

(** Channels on which a pause does what it is for: a write to a paused channel
    waits, and the calls on another channel leave the pause alone. *)
Class PausedChannels (env chan : Type) `{EndpointChannel env chan} : Prop := {
  pc_write c d e : ch_is_paused c e = true -> ch_write c d e = Fault Blocked;
  pc_other_read c c' e :
    c' <> c -> wp any (ch_read c') (fun _ e' => ch_is_paused c e' = ch_is_paused c e) e;
  pc_other_write c c' d e :
    c' <> c -> wp any (ch_write c' d) (fun _ e' => ch_is_paused c e' = ch_is_paused c e) e;
  pc_other_close c c' r e :
    c' <> c -> wp any (ch_close_with_reason c' r) (fun _ e' => ch_is_paused c e' = ch_is_paused c e) e;
  pc_other_set_local c c' i e :
    c' <> c -> wp may_block (ch_set_local_endpoint_id c' i) (fun _ e' => ch_is_paused c e' = ch_is_paused c e) e;
  pc_other_pause c c' e :
    c' <> c -> wp may_block (ch_pause c') (fun _ e' => ch_is_paused c e' = ch_is_paused c e) e;
}.

Section states.
Context {H env chan : Type} `{EndpointChannel env chan}.
Context (ep : string) (new : chan).
Implicit Types w : World H env chan.

(** The upgrade is under way and its channel is active, and paused. *)
Record swapped w : Prop := {
  sw_connected : is_connected_to_endpoint w.(w_client) ep = true;
  sw_progress : ep ∈ w.(w_mgr).(in_progress_upgrades);
  sw_active : get_channel_for_endpoint ep w.(w_ecm) = Some new;
  sw_paused : ch_is_paused new w.(w_env) = true;
}.

(** And no old channel waits for its end. *)
Record stranded w : Prop := {
  sd_swapped : swapped w;
  sd_parked : w.(w_mgr).(previous_endpoint_channels) !! ep = None;
}.

(** Frames of the remote, but for a further offer and a failure. *)
Definition handshake_frame (f : OfflineFrame) : Prop :=
  forall bwu, frame_negotiation f = Some bwu ->
    bwu_event bwu <> Ev_UpgradePathAvailable /\ bwu_event bwu <> Ev_UpgradeFailure.
End states.

Fixpoint frames_in {H env chan} `{EndpointChannel env chan} `{BwuHandler H env chan} `{Codec}
    (fuel : nat) (ep : string) (medium : Medium) (fs : list OfflineFrame)
    : M (World H env chan) unit :=
  match fs with
  | [] => mret tt
  | f :: fs => on_incoming_frame fuel f ep medium;; frames_in fuel ep medium fs
  end.

(** * Lemmas *)

Section lemmas.
Context {H env chan : Type} `{EndpointChannel env chan} `{BwuHandler H env chan} `{Codec}.
Context `{HPC : !PausedChannels env chan}.
Context (ep : string) (new : chan).
Implicit Types w : World H env chan.

Lemma channel_op_at {A} (m : M env A) w :
  channel_op m w = match m w.(w_env) with
                   | Ret (a, e) => Ret (a, upd_env e w)
                   | Fault f => Fault f
                   end.
Proof. done. Qed.

Lemma failed_protocol_waits info w :
  swapped ep new w -> run_upgrade_failed_protocol ep info w = Fault Blocked.
Proof.
  intros [_ _ Ha Hp]. unfold run_upgrade_failed_protocol, active_channel, gets, mbind, M_bind.
  rewrite Ha, channel_op_at, pc_write; done.
Qed.

(** The protocol for a second channel begins with a write on the first. *)
Lemma protocol_waits c enc w :
  c <> new -> swapped ep new w -> run_upgrade_protocol ep c enc w = Fault Blocked.
Proof.
  intros Hne [_ _ Ha Hp]. unfold run_upgrade_protocol, active_channel, gets, mbind, M_bind.
  rewrite channel_op_at. pose proof (pc_other_set_local new c (local_endpoint_id w.(w_client)) w.(w_env) Hne) as Hl.
  unfold wp in Hl. destruct (ch_set_local_endpoint_id _ _ _) as [[[] e1]|f]; [|by rewrite Hl].
  rewrite channel_op_at. cbn [w_env upd_env].
  pose proof (pc_other_pause new c e1 Hne) as Hq. unfold wp in Hq.
  destruct (ch_pause c e1) as [[[] e2]|f]; [|by rewrite Hq]. cbn. rewrite Ha. cbn.
  rewrite channel_op_at. cbn. rewrite pc_write; [done|]. congruence.
Qed.

Lemma stranded_frame fuel f medium w :
  stranded ep new w -> handshake_frame f ->
  wp no_fault (on_incoming_frame fuel f ep medium) (fun _ => stranded ep new) w.
Proof.
  intros Hs Hf. unfold on_incoming_frame. case_decide; [by apply wp_ret|].
  destruct (of_v1 f ≫= v1_bandwidth_upgrade_negotiation) as [bwu|] eqn:Hb; [|by apply wp_ret].
  destruct (Hf bwu Hb) as [Ho Hfa]. pose proof Hs as [[Hc Hp Ha Hn] Hpk].
  unfold on_bwu_negotiation_frame. do 2 world_step. rewrite Hc. cbn [negb].
  destruct (bwu_event bwu); try done; do 2 world_step; rewrite bool_decide_true by done; cbn [negb].
  - unfold process_last_write_to_prior_channel_event. do 2 world_step. rewrite Hpk. by world_step.
  - unfold process_safe_to_close_prior_channel_event. do 4 world_step. rewrite Hpk. apply wp_ret.
    split; [done|]. cbn. by rewrite lookup_delete_eq.
Qed.

Lemma stranded_frames fuel fs medium w :
  stranded ep new w -> Forall handshake_frame fs ->
  wp no_fault (frames_in fuel ep medium fs) (fun _ => stranded ep new) w.
Proof.
  intros Hs Hfs. revert w Hs. induction Hfs as [|f fs Hf _ IH]; intros w Hs; cbn [frames_in]; [by apply wp_ret|].
  apply wp_bind. eapply wp_mono; [by apply stranded_frame|done|]. intros [] w' Hs'. by apply IH.
Qed.
End lemmas.

(** ** Stream channels *)

Section stream.
Context {env strm cph : Type} `{Cipher env cph} `{DuplexStream env strm} `{Codec}.

Lemma arc_op_other {A} E (m : M (StreamChannel strm cph * env) A) (c c' : StreamArc) h :
  (forall s, wp E m (fun _ _ => True) s) -> E Blocked -> c' <> c ->
  wp E (arc_op m c') (fun _ h' => ch_is_paused c h' = ch_is_paused c h) h.
Proof.
  intros Hm HB Hne. unfold wp, arc_op. destruct (sh_channels h !! arc_id c') as [s|]; [|done].
  specialize (Hm (s, sh_env h)). unfold wp in Hm. destruct (m _) as [[a [s' e]]|f]; [|done].
  cbn. unfold arc_get. cbn. rewrite lookup_insert_ne; [done|]. intros Heq. apply Hne.
  destruct c, c'. cbn in Heq. by rewrite Heq.
Qed.

Lemma any_wp {A S} (m : M S A) s : wp any m (fun _ _ => True) s.
Proof. unfold wp. by destruct (m s) as [[a s']|f]. Qed.

#[export] Instance StreamChannel_paused : PausedChannels (StreamHeap env strm cph) StreamArc.
Proof.
  split; intros; try (apply arc_op_other; [|done|done]; intros; apply any_wp).
  - cbn in *. unfold arc_get in *. unfold arc_op. destruct (sh_channels e !! arc_id c) as [s|]; [|done].
    unfold sc_write, field, gets, mbind, M_bind. cbn. by rewrite H2.
  - by apply arc_op_other.
  - by apply arc_op_other.
Qed.
End stream.

#[export] Instance Tcp_paused {os sock lsn cph} `{TcpOs os sock lsn} `{Cipher os cph} `{Codec} :
  PausedChannels (TcpWorld os sock cph) StreamArc.
Proof.
  assert (Hlift : forall A E (m : M (StreamHeap os (TcpDuplexStream sock) cph) A) c w,
    wp E m (fun _ h' => ch_is_paused c h' = ch_is_paused c w.(tw_heap)) w.(tw_heap) ->
    wp E (on_heap m) (fun _ w' => ch_is_paused c w' = ch_is_paused c w) w).
  { intros A E m c w. unfold wp, on_heap. by destruct (m _) as [[a h]|f]. }
  split; intros.
  - change (on_heap (ch_write c d) e = Fault Blocked). unfold on_heap. by rewrite pc_write.
  - by apply Hlift, pc_other_read.
  - by apply Hlift, pc_other_write.
  - by apply Hlift, pc_other_close.
  - by apply Hlift, pc_other_set_local.
  - by apply Hlift, pc_other_pause.
Qed.

(** * Properties *)

(** C10. Between the swap of the channels and the end of the upgrade the remote can
    park the owner for good: the new channel is active and paused, only the owner
    resumes it, and the owner waits for that resume in the middle of an operation
    when an offer of a hotspot arrives while the new channel is on WIFI_LAN, and
    when a second connection introduces itself for the endpoint. *)
Theorem remote_parks_owner {H env chan} `{EndpointChannel env chan} `{BwuHandler H env chan} `{Codec}
    (HPC : PausedChannels env chan) (ep : string) (new : chan) (w : World H env chan) :
  swapped ep new w ->
  (forall fuel f info medium,
     ch_medium new w.(w_env) = WifiLan -> carries_event f Ev_UpgradePathAvailable (Some info) ->
     path_info_medium info = WifiHotspot -> on_incoming_frame fuel f ep medium w = Fault Blocked) /\
  (forall c bs f intro e1 e2,
     c <> new -> runs_to (ch_read c) w.(w_env) (Ok bs) e1 -> from_bytes bs = Ok f ->
     (frame_negotiation f ≫= bwu_event_type) = Some (BwuEventType_i32 Ev_ClientIntroduction) ->
     (frame_negotiation f ≫= bwu_client_introduction) = Some intro -> intro.(ci_endpoint_id) = Some ep ->
     runs_to (ch_write c for_bwu_introduction_ack) e1 Success e2 ->
     on_incoming_connection (mkIncoming c) w = Fault Blocked).
Proof.
  intros Hs. pose proof Hs as [Hc Hp Ha Hn]. split.
  - intros fuel f info medium Hm (Ht & bwu & Hb & He & Hi) Hh. unfold on_incoming_frame.
    rewrite decide_False by (intros Hne; by apply Hne). unfold frame_negotiation in Hb. rewrite Hb.
    unfold on_bwu_negotiation_frame. rewrite He. unfold gets at 1, mbind at 1, M_bind at 1. rewrite Hc. cbn [negb].
    rewrite Hi. unfold process_bwu_path_available_event. apply (runs_bind wifi_lan_connected _ w true w).
    { unfold runs_to, wifi_lan_connected, gets. do 2 f_equal. apply wifi_lan_connected_spec. by exists ep, new. }
    rewrite Hh, bool_decide_true by done. cbn [andb].
    by apply (failed_protocol_waits ep new).
  - intros c bs f intro e1 e2 Hne Hr Hf Hev Hin Hid Hw.
    unfold on_incoming_connection. cbn [isc_channel].
    apply (runs_bind (read_client_introduction_frame c) _ w (Some intro) (upd_env e1 w)).
    { unfold read_client_introduction_frame. eapply runs_bind; [unfold runs_to; rewrite channel_op_at, Hr; done|].
      cbv beta iota. rewrite Hf. unfold frame_negotiation in Hev, Hin.
      destruct (of_v1 f ≫= v1_bandwidth_upgrade_negotiation) as [bwu|]; [|done]. simpl in Hev, Hin.
      by rewrite decide_True, Hin. }
    apply (runs_bind (write_client_introduction_ack_frame c) _ _ true (upd_env e2 (upd_env e1 w))).
    { unfold write_client_introduction_ack_frame. eapply runs_bind;
        [unfold runs_to; rewrite channel_op_at; cbn; rewrite Hw; reflexivity|done]. }
    cbn [negb]. eapply runs_bind; [done|]. rewrite Hid. cbn [default from_option id].
    unfold introduced_endpoint. rewrite decide_True by done. eapply runs_bind; [done|].
    apply (protocol_waits ep new); [done|].
    pose proof (pc_other_read new c w.(w_env) Hne) as Hk1. unfold wp in Hk1. rewrite Hr in Hk1.
    pose proof (pc_other_write new c for_bwu_introduction_ack e1 Hne) as Hk2. unfold wp in Hk2. rewrite Hw in Hk2.
    split; cbn; [done|done|done|congruence].
Qed.

(** C11. When the SAFE_TO_CLOSE that answers the remote's LAST_WRITE cannot be written,
    the upgrade never ends: the new channel stays active and paused, so that whoever
    writes to it waits, and the endpoint stays in progress, whatever frames of the
    handshake the remote still sends. *)
Theorem lost_answer_strands_channel {H env chan} `{EndpointChannel env chan} `{BwuHandler H env chan}
    `{Codec} (HPC : PausedChannels env chan) (ep : string) (old new : chan) (w : World H env chan)
    (fuel : nat) (medium : Medium) (f : OfflineFrame) (fs : list OfflineFrame) (r : Exception)
    (e1 e2 : env) :
  old <> new -> swapped ep new w -> w.(w_mgr).(previous_endpoint_channels) !! ep = Some old ->
  carries_event f Ev_LastWriteToPriorChannel None ->
  runs_to (ch_write old for_bwu_safe_to_close) w.(w_env) r e1 -> r <> Success ->
  runs_to (ch_close_with_reason old IoError) e1 tt e2 -> Forall handshake_frame fs ->
  exists w', runs_to (on_incoming_frame fuel f ep medium;; frames_in fuel ep medium fs) w tt w' /\
    stranded ep new w' /\ forall data, ch_write new data w'.(w_env) = Fault Blocked.
Proof.
  intros Hne Hs Hpk Hf Hw Hr Hcl Hfs. pose proof Hs as [Hc Hp Ha Hn].
  enough (wp no_fault (on_incoming_frame fuel f ep medium;; frames_in fuel ep medium fs)
    (fun _ => stranded ep new) w) as Hwp.
  { destruct (wp_no_fault_runs _ _ _ Hwp) as ([] & w' & Hrun & Hst). exists w'. split; [done|].
    split; [done|]. intros data. apply pc_write, Hst. }
  apply wp_bind. apply last_write_frame; [done|done|done|].
  unfold process_last_write_to_prior_channel_event. do 2 world_step. rewrite Hpk. apply wp_bind.
  eapply wp_runs; [unfold runs_to; rewrite channel_op_at, Hw; reflexivity|].
  assert (Exception_ok r = false) as -> by by destruct r.
  cbn [negb]. apply wp_bind. eapply wp_runs; [unfold runs_to; rewrite channel_op_at; cbn; rewrite Hcl; reflexivity|].
  apply wp_set_mgr. apply stranded_frames; [|done].
  pose proof (pc_other_write new old for_bwu_safe_to_close w.(w_env) Hne) as Hk1. unfold wp in Hk1. rewrite Hw in Hk1.
  pose proof (pc_other_close new old IoError e1 Hne) as Hk2. unfold wp in Hk2. rewrite Hcl in Hk2.
  split; [split; cbn; try done; congruence|]. cbn. by rewrite lookup_delete_eq.
Qed.

(** ** On the loopback network *)

Abbreviation TcpStack := (World TcpHandler LoopbackWorld StreamArc).

Definition others (mvs : list (move LoopbackWorld StreamArc)) : TcpStack :=
  (state_of (do_moves 3 (2 ^ 80) mvs responded_system) responded_system).(sys_actor).(act_world).

(** A second connection has been accepted for "E1" after the swap. *)
Definition second_connection : TcpStack :=
  others
    [MoveOthers _ responder_dials;
     MoveOthers _ (ch_write (mkStreamArc 3) (for_bwu_introduction "E1" "" false));
     MoveOthers _ (lo_accept_once 0 40000)].

(** The remote has left the old channel after its LAST_WRITE. *)
Definition remote_gone : TcpStack :=
  others [MoveOthers _ (on_os (os_shutdown 1%N) : M LoopbackWorld bool)].

Definition hotspot_offer_frame : OfflineFrame :=
  event_frame Ev_UpgradePathAvailable (Some (upgrade_path_info_for_medium WifiHotspot)).

Lemma remote_parks_owner_witness :
  swapped "E1" (mkStreamArc 2) second_connection /\
  on_incoming_frame 3 hotspot_offer_frame "E1" Bluetooth second_connection = Fault Blocked /\
  on_incoming_connection (mkIncoming (mkStreamArc 4)) second_connection = Fault Blocked.
Proof.
  assert (Hs : swapped "E1" (mkStreamArc 2) second_connection).
  { split; vm_compute; reflexivity. }
  split; [exact Hs|].
  destruct (remote_parks_owner _ "E1" (mkStreamArc 2) second_connection Hs) as [Hoffer Hconn].
  split.
  - eapply Hoffer; [vm_compute; reflexivity|split; [reflexivity|]; eexists; split_and!; reflexivity|reflexivity].
  - let r := eval vm_compute in (ch_read (mkStreamArc 4) second_connection.(w_env)) in
    lazymatch r with Ret (Ok ?bs, ?e1) =>
    let w := eval vm_compute in (ch_write (mkStreamArc 4) for_bwu_introduction_ack e1) in
    lazymatch w with Ret (_, ?e2) =>
    let p := eval vm_compute in (from_bytes bs) in
    lazymatch p with Ok ?f =>
    apply (Hconn (mkStreamArc 4) bs f
      {| ci_endpoint_id := Some "E1"%string; ci_supports_disabling_encryption := Some false;
         ci_last_endpoint_id := None |} e1 e2)
    end end end; try (vm_compute; reflexivity). discriminate.
Defined.

Lemma lost_answer_strands_channel_witness :
  swapped "E1" (mkStreamArc 2) remote_gone /\
  exists w', runs_to (on_incoming_frame 3 (event_frame Ev_LastWriteToPriorChannel None) "E1" Bluetooth;;
      frames_in 3 "E1" Bluetooth [event_frame Ev_SafeToClosePriorChannel None]) remote_gone tt w' /\
    stranded "E1" (mkStreamArc 2) w'.
Proof.
  assert (Hs : swapped "E1" (mkStreamArc 2) remote_gone).
  { split; vm_compute; reflexivity. }
  split; [exact Hs|].
  let r := eval vm_compute in (ch_write old_channel for_bwu_safe_to_close remote_gone.(w_env)) in
  lazymatch r with Ret (?x, ?e1) =>
  let c := eval vm_compute in (ch_close_with_reason old_channel IoError e1) in
  lazymatch c with Ret (_, ?e2) =>
  destruct (lost_answer_strands_channel _ "E1" old_channel (mkStreamArc 2) remote_gone 3 Bluetooth
    (event_frame Ev_LastWriteToPriorChannel None) [event_frame Ev_SafeToClosePriorChannel None] x e1 e2)
    as (w' & Hrun & Hst & _)
  end end.
  - discriminate.
  - exact Hs.
  - vm_compute. reflexivity.
  - split; [reflexivity|]. eexists. split_and!; reflexivity.
  - vm_compute. reflexivity.
  - discriminate.
  - vm_compute. reflexivity.
  - apply Forall_singleton. intros bwu [= <-]. split; discriminate.
  - exists w'. split; [exact Hrun|exact Hst].
Defined.
